(* ===== verification/_CoqProject ===== *)
-Q . S2P
Prelude.v
WireFormat.v
DeviceStore.v
Threads.v
Descriptors.v
OtherSpeed.v
Host.v
BulkDevice.v
Control.v
Silent.v
DeviceRequests.v
Tcpip.v
ConfigWalk.v
Protocol.v
ProtocolSafety.v
Completion.v
ProtocolEntry.v
StreamEntry.v
Rounds.v
Pipes.v
Session.v
Server.v
Client.v
KeyboardDevice.v
CdcDevice.v
Float.v
Float32.v
Float64.v
MouseCircle.v
MouseDevice.v
AudioSynth.v
AudioDevice.v
GudWire.v
GudDevice.v
GudDisplay.v
GudWindow.v
GudMain.v
GudClient.v
AudioClient.v
Examples.v
