(* ===== verification/Prelude.v ===== *)
(** * usbip-server: the library, its protocol engine and the example devices

    A Rocq development beside the C sources of usbip-server, a USB/IP server that
    exports one virtual USB device, described by a C program, to a Linux host.

    ** The program

    The server thread ([usbip_server.c]) accepts one TCP client at a time
    ([tcpip_server.c]) and runs the USB/IP protocol on the connection
    ([usbip_protocol.c]): before the import it answers OP_REQ_DEVLIST and
    OP_REQ_IMPORT, after it CMD_SUBMIT and CMD_UNLINK. Transfers reach the device
    through [usbip_device.c]: control requests are answered there or by a callback
    of the device, OUT data goes to a callback, and IN data is what the device has
    queued with [usbip_device_transmit], on any thread, in a 512 byte buffer per
    endpoint. IN transfers wait in [pending_urbs] until there is data and, for
    interrupt and isochronous endpoints, until their time has come.

    ** The files

    - [Prelude]: bytes and machine widths, faults, the computations [cres] (may
      fault) and [M S] (state, may fault or sleep for ever), arrays with bounds,
      the rules of [wp] and [cwp] and the tactic [wp_steps].
    - [WireFormat]: usbip_protocol_definitions.h; each packed struct is a record
      with its memory image, and the images are related to the sequence of big
      endian fields of the protocol documentation.
    - [DeviceStore]: the static variables of usbip_device.c and the operations on
      endpoint buffers, mutexes, the event descriptor; the contract [slots].
    - [Threads]: calls of [usbip_device_transmit] on any number of threads, split where
      they sleep, interleaved with the server thread, as a step relation.
    - [Descriptors]: descriptor_utils.h, well-formed configurations [wf_config] and
      the checker [config_okb].
    - [OtherSpeed]: build_other_speed_config of usbip_device.c.
    - [Host]: usbip_server_api.h, the callbacks and the functions that call them;
      the interface [DeviceSound] between the library and a device.
    - [Control]: usbip_device_control and the standard requests.
    - [Silent]: the interface [SilentDevice], a device that queues data only from its own
      threads, not while it is given data, requests or isochronous packets; what the
      library then leaves waiting for the host.
    - [DeviceRequests]: what the examples share: requests that reach the device's
      callback, the HID report descriptor, a message for a free endpoint.
    - [Tcpip]: tcpip_server.c, with the results of the system calls as scripts.
    - [ConfigWalk]: load_endpoints and get_next_interface_idx.
    - [Protocol]: all functions of usbip_protocol.c on the state [world].
    - [ProtocolSafety]: the invariant [world_ok], and that submit and unlink keep it.
    - [Completion]: the relation [pass], the contract of complete_pending_urbs.
    - [ProtocolEntry]: the two entry points of usbip_protocol.c and what a client
      sees of each command.
    - [StreamEntry]: a CMD_SUBMIT for an isochronous endpoint as it is on the wire.
    - [Rounds]: a round of the server together with what the threads of the device
      transmit while it sleeps; [Pipes]: the commands of a client (control requests, OUT
      data, bulk, interrupt and isochronous transfers, unlinks) and the machine of pipes
      around the device; [Session]: any number of rounds implement it.
    - [Server]: usbip_server.c, the worker thread one loop iteration at a time, the
      signal handler, start and stop, on the state [process]; [Client]: a client of the
      worker thread from its connection on.
    - [Float], [Float32], [Float64]: floating-point arithmetic and the C types float and
      double; [MouseCircle], [AudioSynth]: what the mouse and the audio device compute
      with them.
    - [BulkDevice], [CdcDevice], [KeyboardDevice], [MouseDevice], [AudioDevice]: the
      programs under src/usb_*: descriptors, callbacks, one round of the main loop,
      and the instance of [DeviceSound].
    - [GudWire], [GudDevice], [GudDisplay]: src/usb_gud_display: the structs of
      gud_protocol.h, the device, and the theorems about it; [GudWindow]:
      gud_display_window.c, with the calls of SDL recorded in order; [GudMain]: the
      program with its window; [GudClient]: the rounds of the server and of the main loop
      in any order, with a client that draws.
    - [AudioClient]: a client that records from the audio device.
    - [Examples]: each program run by the server from its start.

    Functions and variables keep their C names; a record field that would clash has
    a prefix ([urb_], [ep_], [pk_]). A function that changes static variables is a
    computation in [M S]; [Ok] is a return, [Idle] a wait that never ends with the
    given script, [Fault] an access outside an object, a mutex locked twice, a
    loop that does not end, the conversion of a [float] that does not fit its target or an
    [int] counted past its range.
    A [const] array is a [bytes], a read outside it is a fault. Integers are [Z], cut to
    their width ([u8], [u16], [u32], [u64]) where the C value can leave it.

    ** The theorems

    - No fault for any client: [imported_round_is_safe], [operation_round_is_safe],
      [control_request_never_faults], [build_other_speed_config_memory_safe];
      composed with the loops of the server thread, [server_survives_every_client], and
      with every example program, [examples_survive_every_client].
    - Start, stop and Ctrl-C: [start_reports_a_running_server], [stop_ends_the_worker],
      [ctrl_c_counts]. A stop is considered at the tests of [keep_running], between a test
      and the rest of its iteration ([rest_of_iteration]) and, as an event of the scripts,
      during a read, a write or an accept.
    - Threads: [host_reads_what_was_queued], [no_wakeup_is_missed],
      [one_transfer_releases_a_call], [reset_cancels_sleeping_calls]; composed with a
      round of the server, [round_delivers_what_threads_transmit].
    - Whole sessions of a client that sends requests, data and transfers of every type
      while the device transmits, as runs of a machine of pipes and the device, in which no byte and no
      transfer is lost: [session_refines_pipes], from the connection on,
      [client_is_served], and for each example from the start of the program,
      [examples_serve_their_clients]; with pixels as the data, up to what the user sees,
      [client_draws_in_the_window]; from the synthesiser of the audio device to the data
      of the replies, [client_records_the_stream].
    - Endpoint buffers implement one slot per endpoint: [transmit_refines_slots],
      [fetch_refines_slots], [transmitted_message_is_delivered].
    - The queue of transfers: [complete_pending_urbs_refines_pass], on working and on
      breaking connections,
      [completion_answers_each_transfer_once], [completion_delivers_everything_due],
      [paced_endpoints_complete_once_per_interval],
      [isochronous_transfers_keep_the_pace], [unlink_cancels_or_reports_completion],
      [submit_in_is_queued], [submit_out_reaches_the_device].
    - Messages on the wire: [devlist_request_is_answered],
      [import_request_is_answered], [standard_request_over_the_wire]. The list of
      interfaces is right when no alternate setting comes before the last interface
      ([interfaces_first], which [examples_are_listed] shows of every example); what is
      sent for any configuration is [devlist_request_lists_the_first_descriptors], and
      [alternate_setting_is_listed_as_interface] is a configuration it is wrong for.
    - Control requests: [standard_in_request_is_answered],
      [set_then_get_configuration].
    - Descriptors: [other_speed_config_is_full_speed_view],
      [other_speed_config_respects_full_speed_limits],
      [load_endpoints_matches_descriptors], [interfaces_are_visited_in_order].
    - The connection: [read_is_independent_of_chunking],
      [write_sends_a_prefix_and_reports_it], [open_closes_on_failure].
    - The examples: [keyboard_types_its_text], [ascii_to_hid_inverts_the_layout],
      [keyboard_report_descriptor_is_answered],
      [terminal_round_shows_input_and_ticks], [overflowing_transfer_is_dropped_whole],
      [pointer_follows_the_circle],
      [packets_continue_the_stream], [recording_stays_under_envelope],
      [set_then_get_interface],
      [set_buffer_reports_its_verdict], [whole_display_is_refused], [rectangle_is_drawn],
      [window_shows_the_display], [window_is_given_back].

    Theorems about the library hold for every device with a [DeviceSound] instance;
    their witnesses use the bulk device.

    ** Loops

    Loops with a bound known at their start recurse on the number of rounds left.
    The others take fuel and fault with [Diverges] when it runs out, so a theorem
    that excludes faults shows that the fuel is enough: the descriptor walks take the
    length of the configuration (each step moves at least one byte), the read and
    write loops the weight of the script, the completion loop the number of pending
    transfers (each pass moves on or removes one).

    ** Not modelled

    Diagnostics on stdout and stderr, socket options, signal masks and the address
    text. Readiness of a connection and the results of read, write, accept and poll
    are scripts the theorems quantify over. In [Protocol] other threads act on the
    endpoint buffers while the server thread sleeps in ppoll; each of their calls is
    atomic, as it is under [ep_access_mutex]. [GudClient] runs the main loop between two rounds of the server, not within
    one. Ctrl-C acts where the worker thread tests [keep_running]; that the signal sets
    [stop_server] during a system call is an event of its script, which has ended
    [keep_running] by the next test.

    Of the examples: the delays of the main loops have no state and are left out.
    [cos], [sin], [powf] and [sinf] of the C library are parameters; the theorems that
    need their accuracy or range assume [Circle.CircleLibm] and [Synth.LibmRange].
    Floating-point operations round one by one in the type C gives them, without wider
    intermediate results or fused operations. What SDL answers and the events it reports are
    arguments; of its events only closing the window is told apart, and the picture is
    judged from the recorded calls.
*)
From Stdlib Require Export ZArith Lia.
From stdpp Require Export base tactics numbers option list.

#[global] Open Scope Z_scope.

(** * Memory and machine integers *)

(** A byte buffer is a list of [Z]; [is_byte] is the range of [uint8_t]. *)
Abbreviation bytes := (list Z).

Definition is_byte (b : Z) : Prop := 0 ≤ b < 256.

Definition blen {A} (l : list A) : Z := Z.of_nat (length l).

(** Truncation to the unsigned machine widths the sources use. *)
Definition u8 (x : Z) : Z := x mod 2 ^ 8.
Definition u16 (x : Z) : Z := x mod 2 ^ 16.
Definition u32 (x : Z) : Z := x mod 2 ^ 32.
Definition u64 (x : Z) : Z := x mod 2 ^ 64.

(** Memory image of an unsigned integer of [n] bytes on the little endian host,
    and its inverse. *)
Definition le_bytes (n : Z) (v : Z) : bytes := Z_to_little_endian n 8 v.
Definition of_le (bs : bytes) : Z := little_endian_to_Z 8 bs.

(** Big endian (network order) image, the order the wire format is documented in. *)
Definition be_bytes (n : Z) (v : Z) : bytes := reverse (le_bytes n v).
Definition of_be (bs : bytes) : Z := of_le (reverse bs).

(** * Faults, and computations that may fault

    [OutOfBounds] is an access outside an object, [Deadlock] a thread locking a
    mutex it already holds, [Diverges] a loop that never ends, [BadConversion] the
    conversion of a [float] to an integer type that cannot hold it, [SignedOverflow]
    arithmetic on an [int] whose result it cannot hold. *)
Inductive fault := OutOfBounds | Deadlock | Diverges | BadConversion | SignedOverflow.

Inductive cres (A : Type) :=
| Val (a : A)
| Err (f : fault).
Arguments Val {A} a.
Arguments Err {A} f.

Definition cbind {A B} (c : cres A) (k : A → cres B) : cres B :=
  match c with Val a => k a | Err f => Err f end.

(** Result of a stateful computation: finished, waiting for an event of the
    environment that never comes, or a fault. *)
Inductive res (S A : Type) :=
| Ok (a : A) (s : S)
| Idle (s : S)
| Fault (f : fault).
Arguments Ok {S A} a s.
Arguments Idle {S A} s.
Arguments Fault {S A} f.

Definition M (S A : Type) : Type := S → res S A.

Definition ret {S A} (a : A) : M S A := λ s, Ok a s.
Definition bind {S A B} (m : M S A) (k : A → M S B) : M S B := λ s,
  match m s with
  | Ok a s' => k a s'
  | Idle s' => Idle s'
  | Fault f => Fault f
  end.

Definition get {S} : M S S := λ s, Ok s s.
Definition gets {S A} (f : S → A) : M S A := λ s, Ok (f s) s.
Definition modify {S} (f : S → S) : M S unit := λ s, Ok tt (f s).
Definition wait_forever {S A} : M S A := λ s, Idle s.
Definition fail {S A} (f : fault) : M S A := λ _, Fault f.

Definition liftC {S A} (c : cres A) : M S A := λ s,
  match c with Val a => Ok a s | Err f => Fault f end.

Declare Scope usb_scope.
Notation "'let*' x := m 'in' k" := (bind m (λ x, k))
  (at level 10, x binder, m at level 100, k at level 200) : usb_scope.
Notation "'let?' x := c 'in' k" := (cbind c (λ x, k))
  (at level 10, x binder, c at level 100, k at level 200) : usb_scope.
Notation "m ;; k" := (bind m (λ _, k)) (at level 100, k at level 200, right associativity) : usb_scope.
#[global] Open Scope usb_scope.

(** Run a computation on a component of a larger state. *)
Definition zoom {S T A} (getter : S → T) (setter : T → S → S) (m : M T A) : M S A := λ s,
  match m (getter s) with
  | Ok a t => Ok a (setter t s)
  | Idle t => Idle (setter t s)
  | Fault f => Fault f
  end.

(** * Arrays: bounds-checked element and block access *)

Definition arr_get {A} (l : list A) (i : Z) : cres A :=
  if decide (0 ≤ i) then
    match l !! Z.to_nat i with Some x => Val x | None => Err OutOfBounds end
  else Err OutOfBounds.

Definition arr_set {A} (l : list A) (i : Z) (x : A) : cres (list A) :=
  if decide (0 ≤ i < blen l) then Val (<[Z.to_nat i := x]> l) else Err OutOfBounds.

(** The [n] elements from position [off]: the source of a [memcpy]. *)
Definition mem_read {A} (l : list A) (off n : Z) : cres (list A) :=
  if decide (0 ≤ off ∧ 0 ≤ n ∧ off + n ≤ blen l)
  then Val (take (Z.to_nat n) (drop (Z.to_nat off) l))
  else Err OutOfBounds.

(** Overwrite the elements from position [off] with [src]: the destination of a
    [memcpy] or [memmove]. *)
Definition splice {A} (l : list A) (off : nat) (src : list A) : list A :=
  take off l ++ src ++ drop (off + length src) l.

Definition mem_write {A} (l : list A) (off : Z) (src : list A) : cres (list A) :=
  if decide (0 ≤ off ∧ off + blen src ≤ blen l)
  then Val (splice l (Z.to_nat off) src)
  else Err OutOfBounds.

(** [memcpy (&dst[doff], &src[soff], n)] and, on one object, [memmove]. *)
Definition memcpy {A} (dst : list A) (doff : Z) (src : list A) (soff n : Z) : cres (list A) :=
  let? block := mem_read src soff n in mem_write dst doff block.

(** * A program logic for [M]

    [wp m Q E s]: run from [s], [m] does not fault, it ends in a state and with
    a value related by [Q], and if it waits for ever it does so in a state of
    [E]. With [E] empty it is a total correctness statement. *)
Definition wp {S A} (m : M S A) (Q : A → S → Prop) (E : S → Prop) (s : S) : Prop :=
  match m s with
  | Ok a s' => Q a s'
  | Idle s' => E s'
  | Fault _ => False
  end.

(** No waiting allowed. *)
Abbreviation never := (λ _, False).

(** [C] computations that end with a value of [Q]. *)
Definition cwp {A} (c : cres A) (Q : A → Prop) : Prop :=
  match c with Val a => Q a | Err _ => False end.

Create Rewrite HintDb wire.

(** * Lemmas: the program logic *)

Section wp_rules.
Context {S : Type}.

Lemma wp_ret {A} (a : A) (Q : A → S → Prop) E s : Q a s → wp (ret a) Q E s.
Proof. done. Qed.

Lemma wp_bind {A B} (m : M S A) (k : A → M S B) Q E s :
  wp m (λ a, wp (k a) Q E) E s → wp (bind m k) Q E s.
Proof. unfold wp, bind. by destruct (m s). Qed.

Lemma wp_mono {A} (m : M S A) (Q Q' : A → S → Prop) (E E' : S → Prop) s :
  wp m Q E s → (∀ a s', Q a s' → Q' a s') → (∀ s', E s' → E' s') → wp m Q' E' s.
Proof. unfold wp. destruct (m s); naive_solver. Qed.

Lemma wp_post {A} (m : M S A) (Q Q' : A → S → Prop) (E : S → Prop) s :
  wp m Q E s → (∀ a s', Q a s' → Q' a s') → wp m Q' E s.
Proof. intros; eapply wp_mono; eauto. Qed.

Lemma wp_total {A} (m : M S A) (Q : A → S → Prop) (E : S → Prop) s :
  wp m Q never s → wp m Q E s.
Proof. intros; eapply wp_mono; naive_solver. Qed.

(** A total statement gives the result. *)
Lemma wp_never_Ok {A} (m : M S A) (Q : A → S → Prop) s :
  wp m Q never s ↔ ∃ a s', m s = Ok a s' ∧ Q a s'.
Proof. unfold wp. split; destruct (m s); naive_solver. Qed.

Lemma wp_Ok {A} (m : M S A) Q E s a s' : wp m Q E s → m s = Ok a s' → Q a s'.
Proof. unfold wp. intros H Hm. by rewrite Hm in H. Qed.

Lemma wp_get (Q : S → S → Prop) E s : Q s s → wp get Q E s.
Proof. done. Qed.

Lemma wp_gets {A} (f : S → A) (Q : A → S → Prop) E s : Q (f s) s → wp (gets f) Q E s.
Proof. done. Qed.

Lemma wp_modify f (Q : unit → S → Prop) E s : Q tt (f s) → wp (modify f) Q E s.
Proof. done. Qed.

Lemma wp_wait_forever {A} (Q : A → S → Prop) (E : S → Prop) s :
  E s → wp wait_forever Q E s.
Proof. done. Qed.

Lemma wp_liftC {A} (c : cres A) (Q : A → S → Prop) E s :
  cwp c (λ a, Q a s) → wp (liftC c) Q E s.
Proof. unfold wp, liftC, cwp. by destruct c. Qed.

Lemma wp_zoom {T A} (g : S → T) (p : T → S → S) (m : M T A) Q (E : S → Prop) s :
  wp m (λ a t, Q a (p t s)) (λ t, E (p t s)) (g s) → wp (zoom g p m) Q E s.
Proof. unfold wp, zoom. by destruct (m (g s)). Qed.

End wp_rules.

Lemma cwp_ret {A} (a : A) (Q : A → Prop) : Q a → cwp (Val a) Q.
Proof. done. Qed.

Lemma cwp_bind {A B} (c : cres A) (k : A → cres B) Q :
  cwp c (λ a, cwp (k a) Q) → cwp (cbind c k) Q.
Proof. unfold cwp, cbind. by destruct c. Qed.

Lemma cwp_mono {A} (c : cres A) (Q Q' : A → Prop) :
  cwp c Q → (∀ a, Q a → Q' a) → cwp c Q'.
Proof. unfold cwp. destruct c; naive_solver. Qed.

Lemma cwp_Val {A} (c : cres A) (Q : A → Prop) : cwp c Q ↔ ∃ a, c = Val a ∧ Q a.
Proof. unfold cwp. destruct c; naive_solver. Qed.

Lemma cbind_Val {A B} (c : cres A) (k : A → cres B) b :
  cbind c k = Val b ↔ ∃ a, c = Val a ∧ k a = Val b.
Proof. unfold cbind. destruct c; naive_solver. Qed.

(** Symbolic execution: peel the head constructor of the computation. *)
Ltac wp_step :=
  lazymatch goal with
  | |- wp (ret _) _ _ _ => apply wp_ret
  | |- wp (bind _ _) _ _ _ => apply wp_bind
  | |- wp get _ _ _ => apply wp_get
  | |- wp (gets _) _ _ _ => apply wp_gets
  | |- wp (modify _) _ _ _ => apply wp_modify
  | |- wp (liftC _) _ _ _ => apply wp_liftC
  | |- wp (zoom _ _ _) _ _ _ => apply wp_zoom
  | |- wp (let _ := _ in _) _ _ _ => cbv zeta
  | |- wp (if ?b then _ else _) _ _ _ => destruct b eqn:?
  | |- wp (match ?x with _ => _ end) _ _ _ => destruct x eqn:?
  | |- cwp (Val _) _ => apply cwp_ret
  | |- cwp (cbind _ _) _ => apply cwp_bind
  | |- cwp (if ?b then _ else _) _ => destruct b eqn:?
  end.
Ltac wp_steps := repeat (wp_step; cbn beta).

(** * Lemmas: lengths and blocks *)

Lemma filter_none {A} (P : A → Prop) `{!∀ x, Decision (P x)} l : Forall (λ x, ¬ P x) l → filter P l = [].
Proof. induction 1; [done|]. by rewrite filter_cons_False. Qed.

Lemma blen_nonneg {A} (l : list A) : 0 ≤ blen l.
Proof. unfold blen. lia. Qed.

Lemma blen_app {A} (l k : list A) : blen (l ++ k) = blen l + blen k.
Proof. unfold blen. rewrite length_app. lia. Qed.

Lemma blen_take {A} (l : list A) n : 0 ≤ n → blen (take (Z.to_nat n) l) = Z.min n (blen l).
Proof. unfold blen. rewrite length_take. lia. Qed.

Lemma blen_drop {A} (l : list A) n : 0 ≤ n → blen (drop (Z.to_nat n) l) = Z.max 0 (blen l - n).
Proof. unfold blen. rewrite length_drop. lia. Qed.

Lemma blen_insert {A} (l : list A) i x : blen (<[i:=x]> l) = blen l.
Proof. unfold blen. by rewrite length_insert. Qed.

Lemma blen_replicate {A} (x : A) n : 0 ≤ n → blen (replicate (Z.to_nat n) x) = n.
Proof. unfold blen. rewrite length_replicate. lia. Qed.

Lemma length_splice {A} (l : list A) off src :
  (off + length src ≤ length l)%nat → length (splice l off src) = length l.
Proof. intros. unfold splice. rewrite !length_app, length_take, length_drop. lia. Qed.

(** Reading back a written block, and what lies before and after it. *)
Lemma splice_block {A} (l : list A) off src :
  (off ≤ length l)%nat → take (length src) (drop off (splice l off src)) = src.
Proof.
  intros. unfold splice. rewrite drop_app_length' by (rewrite length_take; lia).
  by rewrite take_app_length.
Qed.

Lemma splice_take {A} (l : list A) off src :
  (off ≤ length l)%nat → take off (splice l off src) = take off l.
Proof.
  intros. unfold splice. rewrite take_app_le by (rewrite length_take; lia).
  by rewrite take_take, Nat.min_id.
Qed.

Lemma splice_0_take {A} (l : list A) src : take (length src) (splice l 0 src) = src.
Proof. unfold splice. simpl. by rewrite take_app_length. Qed.

Lemma splice_prefix {A} (l : list A) off src :
  (off ≤ length l)%nat →
  take (off + length src) (splice l off src) = take off l ++ src.
Proof.
  intros. unfold splice. rewrite app_assoc, take_app_length'; [done|].
  rewrite length_app, length_take. lia.
Qed.

Lemma splice_lookup {A} (l : list A) off src i :
  (off + length src ≤ length l)%nat →
  splice l off src !! i =
    if decide (off ≤ i < off + length src)%nat then src !! (i - off)%nat else l !! i.
Proof.
  intros Hlen. unfold splice. case_decide as Hi.
  - rewrite lookup_app_r by (rewrite length_take; lia). rewrite length_take.
    rewrite lookup_app_l by lia. f_equal; lia.
  - destruct (decide (i < off)%nat).
    + rewrite lookup_app_l by (rewrite length_take; lia). by rewrite lookup_take_lt by lia.
    + rewrite lookup_app_r by (rewrite length_take; lia). rewrite length_take.
      rewrite lookup_app_r by lia. rewrite lookup_drop. f_equal. lia.
Qed.

(** Writing an element and then the rest is writing both. *)
Lemma splice_insert {A} (l : list A) off x src :
  (off < length l)%nat → splice (<[off:=x]> l) (S off) src = splice l off (x :: src).
Proof.
  intros Hlt. unfold splice. rewrite (take_S_r _ _ x) by (by apply list_lookup_insert_eq).
  rewrite take_insert_ge by done. rewrite drop_insert_lt by lia. cbn [length app].
  rewrite <-app_assoc. cbn [app]. by replace (S off + length src)%nat with (off + S (length src))%nat by lia.
Qed.

(** Copying a block behind the first [pos] elements of an array. *)
Lemma memcpy_append {A} (dst src : list A) pos n :
  0 ≤ pos → 0 ≤ n ≤ blen src → pos + n ≤ blen dst →
  ∃ dst', memcpy dst pos src 0 n = Val dst' ∧ blen dst' = blen dst
    ∧ take (Z.to_nat (pos + n)) dst' = take (Z.to_nat pos) dst ++ take (Z.to_nat n) src
    ∧ (∀ P : A → Prop, Forall P dst → Forall P src → Forall P dst').
Proof.
  intros Hp Hn Hfit. unfold memcpy, mem_read, mem_write.
  rewrite decide_True by lia. cbn [cbind]. rewrite decide_True by (rewrite blen_take, blen_drop; lia).
  eexists. split; [reflexivity|]. rewrite drop_0. set (blk := take _ src).
  assert (length blk = Z.to_nat n) as Hblk by (unfold blk; rewrite length_take; unfold blen in *; lia).
  split; [unfold blen in *; rewrite length_splice; lia|]. split.
  - rewrite Z2Nat.inj_add by lia. rewrite <-Hblk at 1. apply splice_prefix. unfold blen in *. lia.
  - intros P Hd Hs. unfold splice. rewrite !Forall_app. unfold blk. auto using Forall_take, Forall_drop.
Qed.

Lemma list_alter_insert {A} (f : A → A) (l : list A) i x :
  l !! i = Some x → alter f i l = <[i := f x]> l.
Proof.
  revert i. induction l as [|y l IH]; intros [|i] Hi; simpl in *; [done|done|by inversion Hi|].
  f_equal. by apply IH.
Qed.

Lemma arr_get_Val {A} (l : list A) i x :
  arr_get l i = Val x ↔ 0 ≤ i ∧ l !! Z.to_nat i = Some x.
Proof. unfold arr_get. case_decide; [|naive_solver]. destruct (l !! _); naive_solver. Qed.

Lemma cwp_arr_get {A} (l : list A) i (Q : A → Prop) :
  0 ≤ i < blen l → (∀ x, l !! Z.to_nat i = Some x → Q x) → cwp (arr_get l i) Q.
Proof.
  intros Hi HQ. unfold arr_get. rewrite decide_True by lia.
  destruct (l !! Z.to_nat i) eqn:E; [by apply HQ|].
  apply lookup_ge_None in E. unfold blen in Hi. lia.
Qed.

(** The code reads a byte of an array inside its bounds. *)
Tactic Notation "wp_byte" simple_intropattern(x) simple_intropattern(Hx) :=
  apply wp_bind, wp_liftC, cwp_arr_get; [lia|]; intros x Hx.

Lemma cwp_arr_set {A} (l : list A) i x (Q : list A → Prop) :
  0 ≤ i < blen l → Q (<[Z.to_nat i:=x]> l) → cwp (arr_set l i x) Q.
Proof. intros Hi HQ. unfold arr_set. by rewrite decide_True. Qed.

Lemma cwp_mem_read {A} (l : list A) off n (Q : list A → Prop) :
  0 ≤ off → 0 ≤ n → off + n ≤ blen l →
  Q (take (Z.to_nat n) (drop (Z.to_nat off) l)) → cwp (mem_read l off n) Q.
Proof. intros ??? HQ. unfold mem_read. by rewrite decide_True. Qed.

Lemma cwp_mem_write {A} (l : list A) off src (Q : list A → Prop) :
  0 ≤ off → off + blen src ≤ blen l → Q (splice l (Z.to_nat off) src) →
  cwp (mem_write l off src) Q.
Proof. intros ?? HQ. unfold mem_write. by rewrite decide_True. Qed.

Lemma mem_read_blen {A} (l : list A) off n b : mem_read l off n = Val b → blen b = n.
Proof.
  unfold mem_read. case_decide; [|done]. intros [= <-].
  rewrite blen_take, blen_drop; lia.
Qed.

(** * Lemmas: byte images of integers *)

Lemma le_bytes_length n v : 0 ≤ n → length (le_bytes n v) = Z.to_nat n.
Proof. intros. unfold le_bytes. pose proof (length_Z_to_little_endian n 8 v). lia. Qed.

Lemma be_bytes_length n v : 0 ≤ n → length (be_bytes n v) = Z.to_nat n.
Proof. intros. unfold be_bytes. rewrite length_reverse. by apply le_bytes_length. Qed.

Lemma le_bytes_byte n v : 0 ≤ n → Forall is_byte (le_bytes n v).
Proof.
  intros. eapply Forall_impl; [apply Z_to_little_endian_bound; lia|done].
Qed.

Lemma of_le_le_bytes n v : 0 ≤ n → of_le (le_bytes n v) = v mod 2 ^ (n * 8).
Proof. intros. apply little_endian_to_Z_to_little_endian; lia. Qed.

Lemma of_be_be_bytes n v : 0 ≤ n → of_be (be_bytes n v) = v mod 2 ^ (n * 8).
Proof. intros. unfold of_be, be_bytes. rewrite reverse_involutive. by apply of_le_le_bytes. Qed.

Lemma le_bytes_of_le bs :
  Forall is_byte bs → le_bytes (blen bs) (of_le bs) = bs.
Proof.
  intros Hbs. unfold le_bytes, of_le. apply Z_to_little_endian_to_Z; [done|lia|].
  by eapply Forall_impl; [done|].
Qed.

Lemma of_le_bound bs : Forall is_byte bs → 0 ≤ of_le bs < 2 ^ (8 * blen bs).
Proof.
  intros Hbs. rewrite (Z.mul_comm 8). apply little_endian_to_Z_bound; [lia|].
  by eapply Forall_impl; [done|].
Qed.
