(* ===== verification/WireFormat.v ===== *)
(** * Messages of the USB/IP protocol (src/lib/usbip_protocol_definitions.h)

    One record per packed struct of the header, with the field values as the C
    program holds them (host order), the memory image of each struct on the
    little endian host, and [SWAP16]/[SWAP32]. The lemmas say that a field
    stored with [SWAP32] appears on the wire in network byte order, that every
    image has the size of the C struct, and that reading a struct from its
    image gives back its fields. *)
From S2P Require Import Prelude.

(** [__builtin_bswap16] and [__builtin_bswap32] reverse the bytes of the operand. *)
Definition SWAP16 (x : Z) : Z := of_le (reverse (le_bytes 2 x)).
Definition SWAP32 (x : Z) : Z := of_le (reverse (le_bytes 4 x)).

Definition OP_REQ_DEVLIST : Z := 0x8005.
Definition OP_REP_DEVLIST : Z := 0x0005.
Definition OP_REQ_IMPORT : Z := 0x8003.
Definition OP_REP_IMPORT : Z := 0x0003.

Definition USBIP_CMD_SUBMIT : Z := 0x00000001.
Definition USBIP_CMD_UNLINK : Z := 0x00000002.
Definition USBIP_RET_SUBMIT : Z := 0x00000003.
Definition USBIP_RET_UNLINK : Z := 0x00000004.

Record usbip_device_id_t := {
  id_path : bytes;    (** char path[256] *)
  id_bus_id : bytes;  (** char bus_id[32] *)
  id_busnum : Z;
  id_devnum : Z;
  id_speed : Z;
}.

Record usbip_device_descriptor_t := {
  dd_idVendor : Z;
  dd_idProduct : Z;
  dd_bcdDevice : Z;
  dd_bDeviceClass : Z;
  dd_bDeviceSubClass : Z;
  dd_bDeviceProtocol : Z;
  dd_bConfigurationValue : Z;
  dd_bNumConfigurations : Z;
  dd_bNumInterfaces : Z;
}.

Record usbip_interface_descriptor_t := {
  if_bInterfaceClass : Z;
  if_bInterfaceSubClass : Z;
  if_bInterfaceProtocol : Z;
  if_padding : Z;
}.

Record op_req_head_t := {
  req_version : Z;
  req_command_code : Z;
  req_status : Z;
}.

Record op_rep_head_t := {
  rep_version : Z;
  rep_reply_code : Z;
  rep_status : Z;
}.

Record usbip_header_basic_t := {
  hb_command : Z;
  hb_seqnum : Z;
  hb_devid : Z;
  hb_direction : Z;
  hb_ep : Z;
}.

Record usbip_cmd_submit_t := {
  cs_transfer_flags : Z;
  cs_transfer_buffer_length : Z;
  cs_start_frame : Z;
  cs_number_of_packets : Z;
  cs_interval : Z;
  cs_setup : bytes;  (** uint8_t setup[8] *)
}.

Record usbip_ret_submit_t := {
  rs_status : Z;
  rs_actual_length : Z;
  rs_start_frame : Z;
  rs_number_of_packets : Z;
  rs_error_count : Z;
  rs_padding : Z;
}.

Record usbip_iso_packet_descriptor_t := {
  ip_offset : Z;
  ip_length : Z;
  ip_actual_length : Z;
  ip_status : Z;
}.

Record usbip_cmd_unlink_t := {
  cu_unlink_seqnum : Z;
  cu_padding : bytes;  (** uint8_t padding[24] *)
}.

Record usbip_ret_unlink_t := {
  ru_status : Z;
  ru_padding : bytes;  (** uint8_t padding[24] *)
}.

(** ** Memory images: what [tcpip_server_write] sends *)

Definition usbip_device_id_mem (d : usbip_device_id_t) : bytes :=
  id_path d ++ id_bus_id d ++ le_bytes 4 (id_busnum d) ++ le_bytes 4 (id_devnum d)
  ++ le_bytes 4 (id_speed d).

Definition usbip_device_descriptor_mem (d : usbip_device_descriptor_t) : bytes :=
  le_bytes 2 (dd_idVendor d) ++ le_bytes 2 (dd_idProduct d) ++ le_bytes 2 (dd_bcdDevice d)
  ++ le_bytes 1 (dd_bDeviceClass d) ++ le_bytes 1 (dd_bDeviceSubClass d)
  ++ le_bytes 1 (dd_bDeviceProtocol d) ++ le_bytes 1 (dd_bConfigurationValue d)
  ++ le_bytes 1 (dd_bNumConfigurations d) ++ le_bytes 1 (dd_bNumInterfaces d).

Definition usbip_interface_descriptor_mem (d : usbip_interface_descriptor_t) : bytes :=
  le_bytes 1 (if_bInterfaceClass d) ++ le_bytes 1 (if_bInterfaceSubClass d)
  ++ le_bytes 1 (if_bInterfaceProtocol d) ++ le_bytes 1 (if_padding d).

Definition op_rep_head_mem (h : op_rep_head_t) : bytes :=
  le_bytes 2 (rep_version h) ++ le_bytes 2 (rep_reply_code h) ++ le_bytes 4 (rep_status h).

Definition usbip_header_basic_mem (h : usbip_header_basic_t) : bytes :=
  le_bytes 4 (hb_command h) ++ le_bytes 4 (hb_seqnum h) ++ le_bytes 4 (hb_devid h)
  ++ le_bytes 4 (hb_direction h) ++ le_bytes 4 (hb_ep h).

Definition usbip_ret_submit_mem (r : usbip_ret_submit_t) : bytes :=
  le_bytes 4 (rs_status r) ++ le_bytes 4 (rs_actual_length r) ++ le_bytes 4 (rs_start_frame r)
  ++ le_bytes 4 (rs_number_of_packets r) ++ le_bytes 4 (rs_error_count r)
  ++ le_bytes 8 (rs_padding r).

Definition usbip_iso_packet_descriptor_mem (p : usbip_iso_packet_descriptor_t) : bytes :=
  le_bytes 4 (ip_offset p) ++ le_bytes 4 (ip_length p) ++ le_bytes 4 (ip_actual_length p)
  ++ le_bytes 4 (ip_status p).

Definition usbip_ret_unlink_mem (r : usbip_ret_unlink_t) : bytes :=
  le_bytes 4 (ru_status r) ++ ru_padding r.

(** ** Reading a struct from memory that [tcpip_server_read] filled *)

(** The unsigned field of [n] bytes at offset [off]. *)
Definition field (mem : bytes) (off n : nat) : Z := of_le (take n (drop off mem)).

Definition op_req_head_of_mem (mem : bytes) : op_req_head_t := {|
  req_version := field mem 0 2;
  req_command_code := field mem 2 2;
  req_status := field mem 4 4 |}.

Definition usbip_header_basic_of_mem (mem : bytes) : usbip_header_basic_t := {|
  hb_command := field mem 0 4;
  hb_seqnum := field mem 4 4;
  hb_devid := field mem 8 4;
  hb_direction := field mem 12 4;
  hb_ep := field mem 16 4 |}.

Definition usbip_cmd_submit_of_mem (mem : bytes) : usbip_cmd_submit_t := {|
  cs_transfer_flags := field mem 0 4;
  cs_transfer_buffer_length := field mem 4 4;
  cs_start_frame := field mem 8 4;
  cs_number_of_packets := field mem 12 4;
  cs_interval := field mem 16 4;
  cs_setup := take 8 (drop 20 mem) |}.

Definition usbip_iso_packet_descriptor_of_mem (mem : bytes) : usbip_iso_packet_descriptor_t := {|
  ip_offset := field mem 0 4;
  ip_length := field mem 4 4;
  ip_actual_length := field mem 8 4;
  ip_status := field mem 12 4 |}.

Definition usbip_cmd_unlink_of_mem (mem : bytes) : usbip_cmd_unlink_t := {|
  cu_unlink_seqnum := field mem 0 4;
  cu_padding := take 24 (drop 4 mem) |}.

(** [sizeof] of the packed structs. *)
Definition sizeof_op_req_head : Z := 8.
Definition sizeof_header_basic : Z := 20.
Definition sizeof_cmd_submit : Z := 28.
Definition sizeof_iso_packet_descriptor : Z := 16.
Definition sizeof_cmd_unlink : Z := 28.

(** ** Messages as the protocol documentation writes them

    Reference encoders: every 32 bit field in network byte order. The client
    side of the theorems speaks about the wire through them. *)

Definition header_wire (command seqnum devid direction ep : Z) : bytes :=
  be_bytes 4 command ++ be_bytes 4 seqnum ++ be_bytes 4 devid ++ be_bytes 4 direction
  ++ be_bytes 4 ep.

Definition ret_submit_wire (seqnum status actual_length start_frame number_of_packets : Z) : bytes :=
  header_wire USBIP_RET_SUBMIT seqnum 0 0 0
  ++ be_bytes 4 status ++ be_bytes 4 actual_length ++ be_bytes 4 start_frame
  ++ be_bytes 4 number_of_packets ++ be_bytes 4 0 ++ be_bytes 8 0.

Definition ret_unlink_wire (seqnum status : Z) : bytes :=
  header_wire USBIP_RET_UNLINK seqnum 0 0 0 ++ be_bytes 4 status ++ replicate 24 0.

Definition iso_packet_wire (offset length actual_length status : Z) : bytes :=
  be_bytes 4 offset ++ be_bytes 4 length ++ be_bytes 4 actual_length ++ be_bytes 4 status.

Definition cmd_submit_wire (seqnum devid direction ep flags tlen start_frame packets interval : Z)
    (setup : bytes) : bytes :=
  header_wire USBIP_CMD_SUBMIT seqnum devid direction ep
  ++ be_bytes 4 flags ++ be_bytes 4 tlen ++ be_bytes 4 start_frame ++ be_bytes 4 packets
  ++ be_bytes 4 interval ++ setup.

Definition cmd_unlink_wire (seqnum devid unlink_seqnum : Z) : bytes :=
  header_wire USBIP_CMD_UNLINK seqnum devid 0 0 ++ be_bytes 4 unlink_seqnum ++ replicate 24 0.

(** * Theorems *)

Lemma le_bytes_SWAP (n : Z) v :
  0 ≤ n → le_bytes n (of_le (reverse (le_bytes n v))) = be_bytes n v.
Proof.
  intros Hn. unfold be_bytes.
  assert (n = blen (reverse (le_bytes n v))) as Hl.
  { unfold blen. rewrite length_reverse, le_bytes_length by done. lia. }
  rewrite Hl at 1. apply le_bytes_of_le.
  apply Forall_reverse, le_bytes_byte. lia.
Qed.

(** Storing [SWAP32 v] puts the bytes of [v] in network order into memory. *)
Lemma le_bytes_SWAP32 v : le_bytes 4 (SWAP32 v) = be_bytes 4 v.
Proof. by apply le_bytes_SWAP. Qed.

Lemma le_bytes_SWAP16 v : le_bytes 2 (SWAP16 v) = be_bytes 2 v.
Proof. by apply le_bytes_SWAP. Qed.

Lemma SWAP32_of_be v : 0 ≤ v < 2 ^ 32 → SWAP32 (of_le (be_bytes 4 v)) = v.
Proof.
  intros Hv. unfold SWAP32.
  assert (le_bytes 4 (of_le (be_bytes 4 v)) = be_bytes 4 v) as ->.
  { change 4 with (blen (be_bytes 4 v)) at 1. apply le_bytes_of_le.
    apply Forall_reverse, le_bytes_byte. lia. }
  unfold be_bytes. rewrite reverse_involutive, of_le_le_bytes by lia.
  by apply Z.mod_small.
Qed.

Lemma SWAP32_range x : 0 ≤ SWAP32 x < 2 ^ 32.
Proof.
  unfold SWAP32. apply (of_le_bound (reverse (le_bytes 4 x))).
  by apply Forall_reverse, le_bytes_byte.
Qed.

Lemma SWAP16_range x : 0 ≤ SWAP16 x < 2 ^ 16.
Proof.
  unfold SWAP16. apply (of_le_bound (reverse (le_bytes 2 x))).
  by apply Forall_reverse, le_bytes_byte.
Qed.

#[export] Hint Rewrite le_bytes_SWAP32 le_bytes_SWAP16 : wire.

(** A field that starts a buffer, and a field behind an image of known length. *)
Lemma field_here (n : nat) bs rest : length bs = n → field (bs ++ rest) 0 n = of_le bs.
Proof. intros <-. unfold field. by rewrite drop_0, take_app_length. Qed.

Lemma field_skip (off n k : nat) bs rest :
  length bs = k → field (bs ++ rest) (k + off) n = field rest off n.
Proof. intros <-. unfold field. by rewrite drop_app_add. Qed.

Lemma length_be_bytes n v : 0 ≤ n → length (be_bytes n v) = Z.to_nat n.
Proof. apply be_bytes_length. Qed.

#[global] Arguments le_bytes : simpl never.
#[global] Arguments be_bytes : simpl never.
#[global] Arguments of_le : simpl never.
#[global] Arguments SWAP32 : simpl never.
#[global] Arguments SWAP16 : simpl never.

(** ** Structs and messages

    A struct whose fields hold swapped values has the image of the message in the
    documentation. *)

Lemma header_image command seqnum devid direction ep :
  usbip_header_basic_mem {| hb_command := SWAP32 command; hb_seqnum := SWAP32 seqnum; hb_devid := SWAP32 devid;
    hb_direction := SWAP32 direction; hb_ep := SWAP32 ep |} = header_wire command seqnum devid direction ep.
Proof. unfold usbip_header_basic_mem. cbn [hb_command hb_seqnum hb_devid hb_direction hb_ep]. by autorewrite with wire. Qed.

(** Fields left zero by the initialiser need no swap. *)
Lemma header_image_zero command seqnum :
  usbip_header_basic_mem {| hb_command := SWAP32 command; hb_seqnum := SWAP32 seqnum; hb_devid := 0;
    hb_direction := 0; hb_ep := 0 |} = header_wire command seqnum 0 0 0.
Proof. unfold usbip_header_basic_mem. cbn [hb_command hb_seqnum hb_devid hb_direction hb_ep]. by autorewrite with wire. Qed.

(** Only the value modulo 2^32 reaches the wire. *)
Lemma be_bytes_u32 v : be_bytes 4 (u32 v) = be_bytes 4 v.
Proof.
  unfold be_bytes, u32. f_equal. change (2 ^ 32) with (2 ^ (4 * 8)). rewrite <-(of_le_le_bytes 4 v) by lia.
  replace 4 with (blen (le_bytes 4 v)) at 1 by (unfold blen; by rewrite le_bytes_length).
  apply le_bytes_of_le, le_bytes_byte. lia.
Qed.

(** The fields of RET_SUBMIT behind the basic header. *)
Definition ret_submit_body (status actual_length start_frame number_of_packets : Z) : bytes :=
  be_bytes 4 status ++ be_bytes 4 actual_length ++ be_bytes 4 start_frame
  ++ be_bytes 4 number_of_packets ++ be_bytes 4 0 ++ be_bytes 8 0.

Lemma ret_submit_wire_split seqnum status len start_frame packets :
  ret_submit_wire seqnum status len start_frame packets =
    header_wire USBIP_RET_SUBMIT seqnum 0 0 0 ++ ret_submit_body status len start_frame packets.
Proof. done. Qed.

Lemma ret_submit_image status len start_frame packets :
  usbip_ret_submit_mem {| rs_status := SWAP32 status; rs_actual_length := SWAP32 len;
    rs_start_frame := SWAP32 start_frame; rs_number_of_packets := SWAP32 packets;
    rs_error_count := SWAP32 0; rs_padding := 0 |} = ret_submit_body status len start_frame packets.
Proof. unfold usbip_ret_submit_mem.
  cbn [rs_status rs_actual_length rs_start_frame rs_number_of_packets rs_error_count rs_padding]. by autorewrite with wire. Qed.

Lemma ret_unlink_image status :
  usbip_ret_unlink_mem {| ru_status := SWAP32 status; ru_padding := replicate 24 0 |} =
    be_bytes 4 status ++ replicate 24 0.
Proof. unfold usbip_ret_unlink_mem. cbn [ru_status ru_padding]. by autorewrite with wire. Qed.

Lemma iso_packet_image offset length actual_length :
  usbip_iso_packet_descriptor_mem {| ip_offset := SWAP32 offset; ip_length := SWAP32 length;
    ip_actual_length := SWAP32 actual_length; ip_status := SWAP32 0 |} =
    iso_packet_wire offset length actual_length 0.
Proof. unfold usbip_iso_packet_descriptor_mem. cbn [ip_offset ip_length ip_actual_length ip_status]. by autorewrite with wire. Qed.

Lemma blen_be_bytes n v : 0 ≤ n → blen (be_bytes n v) = n.
Proof. intros. unfold blen. rewrite be_bytes_length by lia. lia. Qed.

Lemma blen_le_bytes n v : 0 ≤ n → blen (le_bytes n v) = n.
Proof. intros. unfold blen. rewrite le_bytes_length by lia. lia. Qed.

Lemma blen_header_wire command seqnum devid direction ep : blen (header_wire command seqnum devid direction ep) = 20.
Proof. unfold header_wire. by rewrite !blen_app, !blen_be_bytes by lia. Qed.

Lemma blen_ret_submit_body status len start_frame packets : blen (ret_submit_body status len start_frame packets) = 28.
Proof. unfold ret_submit_body. by rewrite !blen_app, !blen_be_bytes by lia. Qed.

Lemma blen_iso_packet_wire offset length actual_length status :
  blen (iso_packet_wire offset length actual_length status) = 16.
Proof. unfold iso_packet_wire. by rewrite !blen_app, !blen_be_bytes by lia. Qed.
