(* ===== verification/DeviceStore.v ===== *)
(** * Endpoint buffers of the device side (src/lib/usbip_device.c, first half)

    The static variables of usbip_device.c, the operations on the endpoint
    buffers, the event file descriptor and the two mutexes. The second part
    gives the abstract contract of the buffers: one message slot of bytes per
    endpoint, with no array, length or mutex in sight, and proves that the
    operations implement it. *)
From S2P Require Import Prelude.

Definition NUMBER_OF_ENDPOINTS : Z := 16.
Definition ENDPOINT_MAX_DATA_LENGTH : Z := 512.

Record device_endpoint_data_t := {
  data : bytes;      (** uint8_t data[ENDPOINT_MAX_DATA_LENGTH] *)
  data_length : Z;   (** size_t data_length *)
}.

(** The static variables. A mutex is held or not; the condition variable
    [ep_data_consumed] is represented by the number of broadcasts on it, the
    event file descriptor by its number and its 64 bit counter. *)
Record device_state := {
  receive_lock : bool;
  ep_access_mutex : bool;
  ep_data_consumed : Z;
  device_stopped : bool;
  endpoint_data : list device_endpoint_data_t;
  ep_data_event_fd : Z;
  event_counter : Z;
  configuration_value : Z;
  control_answered : bool;
  reset_generation : Z;
}.

(** Thread-local variables of the calling thread. *)
Record thread_flags := {
  is_server_thread : bool;
  in_critical_section : bool;
}.

Definition server_thread : thread_flags :=
  {| is_server_thread := true; in_critical_section := false |}.
Definition other_thread : thread_flags :=
  {| is_server_thread := false; in_critical_section := false |}.

(** ** Field updates *)

Definition set_receive_lock (v : bool) (s : device_state) : device_state :=
  Build_device_state v (ep_access_mutex s) (ep_data_consumed s) (device_stopped s)
    (endpoint_data s) (ep_data_event_fd s) (event_counter s) (configuration_value s)
    (control_answered s) (reset_generation s).
Definition set_ep_access_mutex (v : bool) (s : device_state) : device_state :=
  Build_device_state (receive_lock s) v (ep_data_consumed s) (device_stopped s)
    (endpoint_data s) (ep_data_event_fd s) (event_counter s) (configuration_value s)
    (control_answered s) (reset_generation s).
Definition set_ep_data_consumed (v : Z) (s : device_state) : device_state :=
  Build_device_state (receive_lock s) (ep_access_mutex s) v (device_stopped s)
    (endpoint_data s) (ep_data_event_fd s) (event_counter s) (configuration_value s)
    (control_answered s) (reset_generation s).
Definition set_device_stopped (v : bool) (s : device_state) : device_state :=
  Build_device_state (receive_lock s) (ep_access_mutex s) (ep_data_consumed s) v
    (endpoint_data s) (ep_data_event_fd s) (event_counter s) (configuration_value s)
    (control_answered s) (reset_generation s).
Definition set_endpoint_data (v : list device_endpoint_data_t) (s : device_state) : device_state :=
  Build_device_state (receive_lock s) (ep_access_mutex s) (ep_data_consumed s)
    (device_stopped s) v (ep_data_event_fd s) (event_counter s) (configuration_value s)
    (control_answered s) (reset_generation s).
Definition set_event_fd (fd counter : Z) (s : device_state) : device_state :=
  Build_device_state (receive_lock s) (ep_access_mutex s) (ep_data_consumed s)
    (device_stopped s) (endpoint_data s) fd counter (configuration_value s)
    (control_answered s) (reset_generation s).
Definition set_configuration_value (v : Z) (s : device_state) : device_state :=
  Build_device_state (receive_lock s) (ep_access_mutex s) (ep_data_consumed s)
    (device_stopped s) (endpoint_data s) (ep_data_event_fd s) (event_counter s) v
    (control_answered s) (reset_generation s).
Definition set_control_answered (v : bool) (s : device_state) : device_state :=
  Build_device_state (receive_lock s) (ep_access_mutex s) (ep_data_consumed s)
    (device_stopped s) (endpoint_data s) (ep_data_event_fd s) (event_counter s)
    (configuration_value s) v (reset_generation s).
Definition set_reset_generation (v : Z) (s : device_state) : device_state :=
  Build_device_state (receive_lock s) (ep_access_mutex s) (ep_data_consumed s)
    (device_stopped s) (endpoint_data s) (ep_data_event_fd s) (event_counter s)
    (configuration_value s) (control_answered s) v.

Definition with_length (n : Z) (e : device_endpoint_data_t) : device_endpoint_data_t :=
  {| data := data e; data_length := n |}.

(** ** Mutexes, condition variable and event file descriptor *)

Definition lock_ep_access : M device_state unit := λ s,
  if ep_access_mutex s then Fault Deadlock else Ok tt (set_ep_access_mutex true s).
Definition unlock_ep_access : M device_state unit := modify (set_ep_access_mutex false).
Definition lock_receive : M device_state unit := λ s,
  if receive_lock s then Fault Deadlock else Ok tt (set_receive_lock true s).
Definition unlock_receive : M device_state unit := modify (set_receive_lock false).

Definition broadcast_consumed : M device_state unit :=
  modify (λ s, set_ep_data_consumed (ep_data_consumed s + 1) s).

(** [eventfd (0, EFD_NONBLOCK)] returns [fd]; a negative value is its failure. *)
Definition usbip_device_init (fd : Z) : M device_state bool :=
  modify (set_event_fd fd 0);;
  ret (bool_decide (0 ≤ fd)).

(** [write] of 1 to a non-blocking event file descriptor: fails without effect
    when the counter would overflow or the descriptor is invalid. *)
Definition EVENTFD_MAX : Z := 2 ^ 64 - 2.
Definition write_event : M device_state unit := modify (λ s,
  if bool_decide (0 ≤ ep_data_event_fd s ∧ event_counter s < EVENTFD_MAX)
  then set_event_fd (ep_data_event_fd s) (event_counter s + 1) s else s).

(** [read] takes the whole counter. *)
Definition usbip_device_clear_event : M device_state unit := modify (λ s,
  if bool_decide (0 ≤ ep_data_event_fd s) then set_event_fd (ep_data_event_fd s) 0 s else s).

Definition usbip_device_get_event_fd : M device_state Z := gets ep_data_event_fd.

Definition usbip_device_mark_server_thread (th : thread_flags) : thread_flags :=
  {| is_server_thread := true; in_critical_section := in_critical_section th |}.

Definition usbip_device_critical_section_enter (th : thread_flags) : M device_state thread_flags :=
  lock_receive;;
  ret {| is_server_thread := is_server_thread th; in_critical_section := true |}.

Definition usbip_device_critical_section_exit (th : thread_flags) : M device_state thread_flags :=
  unlock_receive;;
  ret {| is_server_thread := is_server_thread th; in_critical_section := false |}.

(** ** Endpoint data *)

(** [for (idx...) endpoint_data[idx].data_length = 0] *)
Definition clear_all_endpoints : M device_state unit :=
  modify (λ s, set_endpoint_data (with_length 0 <$> endpoint_data s) s).

(** The part of [usbip_device_reset] before the device's reset callback. *)
Definition usbip_device_reset_state : M device_state unit :=
  lock_ep_access;;
  clear_all_endpoints;;
  modify (set_configuration_value 0);;
  modify (set_control_answered false);;
  modify (λ s, set_reset_generation (u32 (reset_generation s + 1)) s);;
  broadcast_consumed;;
  unlock_ep_access;;
  usbip_device_clear_event.

Definition usbip_device_stop : M device_state unit :=
  lock_ep_access;;
  modify (set_device_stopped true);;
  clear_all_endpoints;;
  broadcast_consumed;;
  unlock_ep_access.

(** Condition of the wait loop of [usbip_device_transmit]. *)
Definition transmit_guard (th : thread_flags) (ep_masked : Z) : M device_state bool :=
  let* s := get in
  let* e := liftC (arr_get (endpoint_data s) ep_masked) in
  ret (negb (ep_masked =? 0) && (negb (is_server_thread th) && negb (in_critical_section th))
        && negb (device_stopped s) && (0 <? data_length e)).

(** What follows the wait loop, up to the unlock: (stored, stopped, was_reset). *)
Definition transmit_store (generation ep_masked : Z) (msg : bytes) (len : Z) :
    M device_state (bool * bool * bool) :=
  let* s := get in
  let* e := liftC (arr_get (endpoint_data s) ep_masked) in
  let stopped := device_stopped s in
  let was_reset := negb (generation =? reset_generation s) in
  let replace := ep_masked =? 0 in
  if negb stopped && negb was_reset && (replace || (data_length e =? 0)) then
    let* data' := (if 0 <? len then liftC (memcpy (data e) 0 msg 0 len) else ret (data e)) in
    let* ed' := liftC (arr_set (endpoint_data s) ep_masked {| data := data'; data_length := len |}) in
    modify (set_endpoint_data ed');;
    (if ep_masked =? 0 then modify (set_control_answered true) else ret tt);;
    ret (true, stopped, was_reset)
  else ret (false, stopped, was_reset).

(** [usbip_device_transmit (ep, data, data_length)] called by a thread with flags
    [th]. A thread that has to wait sleeps in [pthread_cond_wait]; its wake-up is
    the business of the other threads, see Threads.v. *)
Definition usbip_device_transmit (th : thread_flags) (ep : Z) (msg : bytes) (len : Z) :
    M device_state bool :=
  let ep_masked := Z.land ep 0xf in
  let len := if ENDPOINT_MAX_DATA_LENGTH <? len then ENDPOINT_MAX_DATA_LENGTH else len in
  lock_ep_access;;
  let* generation := gets reset_generation in
  let* waits := transmit_guard th ep_masked in
  if waits then unlock_ep_access;; wait_forever else
  let* '(stored, _, _) := transmit_store generation ep_masked msg len in
  unlock_ep_access;;
  (if stored && negb (ep_masked =? 0) then write_event else ret tt);;
  ret stored.

(** Returns the length and the destination buffer. *)
Definition usbip_device_fetch_ep_data (ep : Z) (buffer : bytes) (max_length : Z) :
    M device_state (Z * bytes) :=
  let ep_masked := Z.land ep 0xf in
  lock_ep_access;;
  let* ed := gets endpoint_data in
  let* e := liftC (arr_get ed ep_masked) in
  let available := data_length e in
  let len := if max_length <? available then max_length else available in
  let remaining := available - len in
  let* buffer' := liftC (memcpy buffer 0 (data e) 0 len) in
  (* Control transfer is complete, drop anything beyond wLength *)
  let remaining := if ep_masked =? 0 then 0 else remaining in
  let* data' := liftC (memcpy (data e) 0 (data e) len remaining) in
  let* ed' := liftC (arr_set ed ep_masked {| data := data'; data_length := remaining |}) in
  modify (set_endpoint_data ed');;
  (if remaining =? 0 then broadcast_consumed else ret tt);;
  unlock_ep_access;;
  ret (len, buffer').

(** Returns (answered, length, buffer). *)
Definition usbip_device_fetch_control_reply (buffer : bytes) (max_length : Z) :
    M device_state (bool * Z * bytes) :=
  lock_ep_access;;
  let* answered := gets control_answered in
  modify (set_control_answered false);;
  unlock_ep_access;;
  let* '(len, buffer') := usbip_device_fetch_ep_data 0 buffer max_length in
  ret (answered, len, buffer').

(** First block of [usbip_device_control]: only an answer given to this request
    may reply to it. *)
Definition control_begin : M device_state unit :=
  lock_ep_access;;
  let* ed := gets endpoint_data in
  let* e := liftC (arr_get ed 0) in
  let* ed' := liftC (arr_set ed 0 (with_length 0 e)) in
  modify (set_endpoint_data ed');;
  modify (set_control_answered false);;
  unlock_ep_access.

(** Initial values of the static variables. *)
Definition empty_endpoint : device_endpoint_data_t :=
  {| data := replicate (Z.to_nat ENDPOINT_MAX_DATA_LENGTH) 0; data_length := 0 |}.
Definition initial_device_state : device_state :=
  Build_device_state false false 0 false
    (replicate (Z.to_nat NUMBER_OF_ENDPOINTS) empty_endpoint) (-1) 0 0 false 0.

(** ** The abstract contract: a slot of bytes per endpoint *)

Record slots := {
  slot : list bytes;
  answered : bool;
  stopped : bool;
  configuration : Z;
  generation : Z;
}.

Definition set_slot (ep : nat) (q : bytes) (a : slots) : slots :=
  {| slot := <[ep := q]> (slot a); answered := answered a; stopped := stopped a;
     configuration := configuration a; generation := generation a |}.
Definition set_answered (v : bool) (a : slots) : slots :=
  {| slot := slot a; answered := v; stopped := stopped a;
     configuration := configuration a; generation := generation a |}.

Definition slot_of (ep : nat) (a : slots) : bytes := default [] (slot a !! ep).

(** Queue a message: endpoint 0 replaces, the others refuse while data is unread. *)
Definition spec_store (ep : nat) (msg : bytes) (a : slots) : bool * slots :=
  if stopped a then (false, a)
  else if decide (ep = 0%nat) then (true, set_answered true (set_slot ep msg a))
  else if decide (slot_of ep a = []) then (true, set_slot ep msg a)
  else (false, a).

(** Take up to [n] bytes: the rest stays, except on endpoint 0. *)
Definition spec_fetch (ep : nat) (n : Z) (a : slots) : bytes * slots :=
  (take (Z.to_nat n) (slot_of ep a),
   set_slot ep (if decide (ep = 0%nat) then [] else drop (Z.to_nat n) (slot_of ep a)) a).

Definition spec_reset (a : slots) : slots :=
  {| slot := (λ _, []) <$> slot a; answered := false; stopped := stopped a;
     configuration := 0; generation := u32 (generation a + 1) |}.

Definition spec_stop (a : slots) : slots :=
  {| slot := (λ _, []) <$> slot a; answered := answered a; stopped := true;
     configuration := configuration a; generation := generation a |}.

(** Abstraction function: the bytes an endpoint holds. *)
Definition contents (e : device_endpoint_data_t) : bytes :=
  take (Z.to_nat (data_length e)) (data e).

Definition abs (s : device_state) : slots :=
  {| slot := contents <$> endpoint_data s; answered := control_answered s;
     stopped := device_stopped s; configuration := configuration_value s;
     generation := reset_generation s |}.

(** Well-formedness of the static variables between calls. *)
Definition wf_endpoint (e : device_endpoint_data_t) : Prop :=
  blen (data e) = ENDPOINT_MAX_DATA_LENGTH ∧ 0 ≤ data_length e ≤ ENDPOINT_MAX_DATA_LENGTH
  ∧ Forall is_byte (data e).

Record wf_state (s : device_state) : Prop := {
  wf_mutex : ep_access_mutex s = false;
  wf_count : length (endpoint_data s) = 16%nat;
  wf_endpoints : Forall wf_endpoint (endpoint_data s);
  wf_configuration : is_byte (configuration_value s);
  wf_generation : 0 ≤ reset_generation s < 2 ^ 32;
  wf_event : 0 ≤ event_counter s ≤ EVENTFD_MAX;
}.

(** The endpoint number the code derives from the endpoint argument. *)
Definition ep_number (ep : Z) : nat := Z.to_nat (Z.land ep 0xf).

(** What a call leaves alone: everything but endpoint data, answers and events. *)
Definition same_control (s s' : device_state) : Prop :=
  receive_lock s' = receive_lock s ∧ ep_access_mutex s' = ep_access_mutex s
  ∧ device_stopped s' = device_stopped s ∧ ep_data_event_fd s' = ep_data_event_fd s
  ∧ configuration_value s' = configuration_value s
  ∧ reset_generation s' = reset_generation s.

(** * Theorems *)

Lemma land_15_range ep : 0 ≤ Z.land ep 0xf < 16.
Proof. change 0xf with (Z.ones 4). rewrite Z.land_ones by lia. by apply Z.mod_pos_bound. Qed.

Lemma ep_number_lt ep : (ep_number ep < 16)%nat.
Proof. unfold ep_number. pose proof (land_15_range ep). lia. Qed.

Lemma ep_number_Z ep : Z.of_nat (ep_number ep) = Z.land ep 0xf.
Proof. unfold ep_number. pose proof (land_15_range ep). lia. Qed.

Lemma ep_number_eq0 ep : (Z.land ep 0xf =? 0) = bool_decide (ep_number ep = 0%nat).
Proof.
  pose proof (ep_number_Z ep). destruct (Z.eqb_spec (Z.land ep 0xf) 0);
    [rewrite bool_decide_true|rewrite bool_decide_false]; lia || done.
Qed.

(** Access to the endpoint of a well-formed state never leaves the array. *)
Lemma wf_arr_get s ep :
  wf_state s → ∃ e, endpoint_data s !! ep_number ep = Some e ∧ wf_endpoint e
    ∧ arr_get (endpoint_data s) (Z.land ep 0xf) = Val e.
Proof.
  intros Hwf. destruct (lookup_lt_is_Some_2 (endpoint_data s) (ep_number ep)) as [e He].
  { rewrite (wf_count s Hwf). apply ep_number_lt. }
  exists e. split; [done|]. split.
  - eapply Forall_lookup_1; [apply (wf_endpoints s Hwf)|done].
  - apply arr_get_Val. pose proof (ep_number_Z ep). unfold ep_number in *. by split; [lia|].
Qed.

Lemma wf_arr_set s ep e :
  wf_state s →
  arr_set (endpoint_data s) (Z.land ep 0xf) e = Val (<[ep_number ep := e]> (endpoint_data s)).
Proof.
  intros Hwf. unfold arr_set. rewrite decide_True; [done|].
  pose proof (ep_number_Z ep). pose proof (ep_number_lt ep).
  unfold blen. rewrite (wf_count s Hwf). lia.
Qed.

Lemma blen_contents e : wf_endpoint e → blen (contents e) = data_length e.
Proof. intros (Hl & Hd & _). unfold contents. rewrite blen_take by lia. lia. Qed.

Lemma contents_nil e : wf_endpoint e → contents e = [] ↔ data_length e = 0.
Proof.
  intros Hwf. pose proof (blen_contents e Hwf) as H. split.
  - intros E. rewrite E in H. done.
  - intros E. unfold contents. by rewrite E.
Qed.

Lemma slot_of_abs s ep e :
  endpoint_data s !! ep = Some e → slot_of ep (abs s) = contents e.
Proof. intros He. unfold slot_of, abs. simpl. by rewrite list_lookup_fmap, He. Qed.

Lemma contents_byte e : wf_endpoint e → Forall is_byte (contents e).
Proof. intros (_ & _ & H). unfold contents. by apply Forall_take. Qed.

(** Copying a block to the front of the endpoint's array. *)
Lemma wf_endpoint_store e msg :
  wf_endpoint e → blen msg ≤ ENDPOINT_MAX_DATA_LENGTH → Forall is_byte msg →
  wf_endpoint {| data := splice (data e) 0 msg; data_length := blen msg |}.
Proof.
  intros (Hl & Hd & Hb) Hm Hmb. unfold wf_endpoint; simpl. split_and!.
  - unfold blen in *. rewrite length_splice; lia.
  - apply blen_nonneg.
  - done.
  - unfold splice. rewrite !Forall_app. eauto using Forall_take, Forall_drop.
Qed.

Lemma contents_store e msg :
  contents {| data := splice (data e) 0 msg; data_length := blen msg |} = msg.
Proof. unfold contents, blen. simpl. by rewrite Nat2Z.id, splice_0_take. Qed.

Lemma memcpy_front {A} (dst src : list A) n off :
  0 ≤ off → 0 ≤ n → off + n ≤ blen src → n ≤ blen dst →
  memcpy dst 0 src off n = Val (splice dst 0 (take (Z.to_nat n) (drop (Z.to_nat off) src))).
Proof.
  intros. unfold memcpy, mem_read, mem_write. rewrite decide_True by lia. simpl.
  rewrite decide_True; [done|]. rewrite blen_take, blen_drop by lia. lia.
Qed.

Lemma wf_state_endpoints s eds :
  wf_state s → length eds = 16%nat → Forall wf_endpoint eds → wf_state (set_endpoint_data eds s).
Proof. intros [] ??. by constructor. Qed.

Lemma wf_state_insert s ep e :
  wf_state s → wf_endpoint e → wf_state (set_endpoint_data (<[ep := e]> (endpoint_data s)) s).
Proof.
  intros Hwf He. apply wf_state_endpoints; [done|..].
  - rewrite length_insert. apply (wf_count s Hwf).
  - apply Forall_insert; [apply (wf_endpoints s Hwf)|done].
Qed.

(** Two ways to write the same update of a well-formed state are equal. *)
Ltac solve_state s Hwf :=
  let H := fresh in
  pose proof (wf_mutex s Hwf) as H; destruct s; simpl in H; subst;
  unfold modify, ret, bind, broadcast_consumed, set_ep_access_mutex, set_endpoint_data,
    set_ep_data_consumed, set_control_answered, set_configuration_value, set_reset_generation,
    set_device_stopped, set_event_fd; simpl; rewrite ?Z.add_0_r; try done.

(** *** Fetching *)

(** The endpoint after [n] bytes were taken from it. *)
Definition after_fetch (drop_rest : bool) (n : Z) (e : device_endpoint_data_t) :
    device_endpoint_data_t :=
  let len := Z.min n (data_length e) in
  let remaining := if drop_rest then 0 else data_length e - len in
  {| data := splice (data e) 0 (take (Z.to_nat remaining) (drop (Z.to_nat len) (data e)));
     data_length := remaining |}.

Lemma after_fetch_store (drop_rest : bool) n e :
  wf_endpoint e → 0 ≤ n →
  let rest := if drop_rest then [] else drop (Z.to_nat n) (contents e) in
  after_fetch drop_rest n e = {| data := splice (data e) 0 rest; data_length := blen rest |}.
Proof.
  intros Hwf Hn rest. pose proof (blen_contents e Hwf) as Hlen.
  destruct Hwf as (Hl & Hd & _). unfold rest, after_fetch. destruct drop_rest; [done|].
  rewrite blen_drop by lia. rewrite Hlen. f_equal; [f_equal|lia].
  unfold contents. rewrite take_drop_commute.
  destruct (decide (n ≤ data_length e)).
  - rewrite Z.min_l by lia. f_equal. f_equal. lia.
  - rewrite !drop_ge; [done|..]; rewrite length_take; unfold blen in *; lia.
Qed.

Lemma after_fetch_wf drop_rest n e : wf_endpoint e → 0 ≤ n → wf_endpoint (after_fetch drop_rest n e).
Proof.
  intros Hwf Hn. rewrite after_fetch_store by done. pose proof (blen_contents e Hwf) as Hlen.
  pose proof (contents_byte e Hwf) as Hb. apply wf_endpoint_store; [done|..].
  - destruct Hwf as (_ & ? & _), drop_rest; [done|]. rewrite blen_drop by lia. lia.
  - destruct drop_rest; [done|by apply Forall_drop].
Qed.

(** The result of [usbip_device_fetch_ep_data], as an equation. *)
Lemma fetch_eq s ep buffer n e :
  wf_state s → 0 ≤ n → endpoint_data s !! ep_number ep = Some e →
  blen (take (Z.to_nat n) (contents e)) ≤ blen buffer →
  let e' := after_fetch (bool_decide (ep_number ep = 0%nat)) n e in
  usbip_device_fetch_ep_data ep buffer n s =
    Ok (blen (take (Z.to_nat n) (contents e)), splice buffer 0 (take (Z.to_nat n) (contents e)))
       (set_ep_data_consumed (ep_data_consumed s + if data_length e' =? 0 then 1 else 0)
         (set_endpoint_data (<[ep_number ep := e']> (endpoint_data s)) s)).
Proof.
  intros Hwf Hn He Hbuf e'. destruct (wf_arr_get s ep Hwf) as (e2 & He2 & Hewf & Hget).
  simplify_eq. pose proof (blen_contents e Hewf) as Hlen. destruct Hewf as (Hl & Hd & Hb).
  rewrite blen_take in * by lia.
  unfold usbip_device_fetch_ep_data, bind, lock_ep_access, gets, liftC.
  rewrite (wf_mutex s Hwf). simpl. rewrite Hget.
  replace (if n <? data_length e then n else data_length e) with (Z.min n (data_length e))
    by (destruct (Z.ltb_spec n (data_length e)); lia).
  rewrite (memcpy_front buffer) by lia. rewrite ep_number_eq0.
  rewrite (memcpy_front (data e)) by (try case_bool_decide; lia).
  rewrite wf_arr_set by done. rewrite drop_0.
  replace (take (Z.to_nat (Z.min n (data_length e))) (data e)) with (take (Z.to_nat n) (contents e))
    by (unfold contents; rewrite take_take; f_equal; lia).
  rewrite Hlen. unfold e', after_fetch. simpl.
  destruct (_ =? 0); solve_state s Hwf.
Qed.

(** [usbip_device_fetch_ep_data] implements [spec_fetch]. *)
Lemma fetch_spec s ep buffer n :
  wf_state s → 0 ≤ n →
  let out := take (Z.to_nat n) (slot_of (ep_number ep) (abs s)) in
  blen out ≤ blen buffer →
  ∃ s', usbip_device_fetch_ep_data ep buffer n s = Ok (blen out, splice buffer 0 out) s'
    ∧ abs s' = (spec_fetch (ep_number ep) n (abs s)).2
    ∧ wf_state s' ∧ same_control s s' ∧ event_counter s' = event_counter s.
Proof.
  intros Hwf Hn out. destruct (wf_arr_get s ep Hwf) as (e & He & Hewf & _).
  unfold out. rewrite (slot_of_abs _ _ _ He). intros Hbuf.
  eexists. split; [by apply fetch_eq|]. split_and!; [|..|done|done].
  - unfold spec_fetch. rewrite (slot_of_abs _ _ _ He). rewrite after_fetch_store by done.
    unfold set_slot, abs. simpl. f_equal. rewrite list_fmap_insert, contents_store. f_equal.
    case_bool_decide; case_decide; naive_solver.
  - pose proof (wf_state_insert s (ep_number ep) _ Hwf
      (after_fetch_wf (bool_decide (ep_number ep = 0%nat)) n e Hewf Hn)) as []. by constructor.
Qed.

(** *** Transmitting *)

(** The bytes [usbip_device_transmit] keeps of its argument. *)
Definition cut_message (msg : bytes) (len : Z) : bytes :=
  take (Z.to_nat (Z.min len ENDPOINT_MAX_DATA_LENGTH)) msg.

(** Whether the calling thread sleeps before it can queue. *)
Definition transmit_waits (th : thread_flags) (ep : nat) (a : slots) : bool :=
  negb (is_server_thread th) && negb (in_critical_section th)
  && bool_decide (ep ≠ 0%nat) && negb (stopped a) && bool_decide (slot_of ep a ≠ []).

Lemma cut_message_blen msg len :
  0 ≤ len → Z.min len ENDPOINT_MAX_DATA_LENGTH ≤ blen msg →
  blen (cut_message msg len) = Z.min len ENDPOINT_MAX_DATA_LENGTH.
Proof. intros. unfold cut_message. rewrite blen_take by (unfold ENDPOINT_MAX_DATA_LENGTH in *; lia). lia. Qed.

Lemma transmit_guard_eq th ep s e :
  wf_state s → endpoint_data s !! ep_number ep = Some e →
  transmit_guard th (Z.land ep 0xf) (set_ep_access_mutex true s) =
    Ok (transmit_waits th (ep_number ep) (abs s)) (set_ep_access_mutex true s).
Proof.
  intros Hwf He. destruct (wf_arr_get s ep Hwf) as (e2 & He2 & Hewf & Hget). simplify_eq.
  unfold transmit_guard, bind, get, liftC. simpl. rewrite Hget. unfold ret. f_equal.
  unfold transmit_waits. rewrite (slot_of_abs _ _ _ He). simpl. rewrite ep_number_eq0.
  pose proof (contents_nil e Hewf) as Hnil. destruct Hewf as (_ & Hd & _).
  assert (bool_decide (contents e ≠ []) = (0 <? data_length e)) as ->.
  { destruct (Z.ltb_spec 0 (data_length e)); [apply bool_decide_true|apply bool_decide_false];
      rewrite Hnil; lia. }
  destruct (is_server_thread th), (in_critical_section th), (device_stopped s);
    repeat case_bool_decide; simpl; try done; tauto.
Qed.

(** Queuing a message in the endpoint [e], when the code does. *)
Lemma transmit_store_eq g ep s e msg len :
  wf_state s → endpoint_data s !! ep_number ep = Some e →
  0 ≤ len ≤ ENDPOINT_MAX_DATA_LENGTH → len ≤ blen msg →
  let s1 := set_ep_access_mutex true s in
  let ok := negb (device_stopped s) && (g =? reset_generation s)
            && (bool_decide (ep_number ep = 0%nat) || bool_decide (contents e = [])) in
  transmit_store g (Z.land ep 0xf) msg len s1 =
    Ok (ok, device_stopped s, negb (g =? reset_generation s))
      (if ok then
         let s2 := set_endpoint_data
           (<[ep_number ep := {| data := splice (data e) 0 (take (Z.to_nat len) msg);
                                 data_length := len |}]> (endpoint_data s)) s1 in
         if bool_decide (ep_number ep = 0%nat) then set_control_answered true s2 else s2
       else s1).
Proof.
  intros Hwf He Hlen Hmsg s1 ok. destruct (wf_arr_get s ep Hwf) as (e2 & He2 & Hewf & Hget).
  simplify_eq. unfold transmit_store, bind, get, s1. simpl. rewrite Hget. simpl.
  pose proof (contents_nil e Hewf) as Hnil. destruct Hewf as (Hl & Hd & _).
  rewrite ep_number_eq0, negb_involutive.
  assert ((data_length e =? 0) = bool_decide (contents e = [])) as ->.
  { destruct (Z.eqb_spec (data_length e) 0); symmetry; [apply bool_decide_true|apply bool_decide_false];
      rewrite Hnil; lia. }
  fold ok. destruct ok; [|done].
  assert (∀ s' : device_state,
    (if 0 <? len then liftC (memcpy (data e) 0 msg 0 len) else ret (data e)) s'
    = Ok (splice (data e) 0 (take (Z.to_nat len) msg)) s') as Hcpy.
  { intros s'. destruct (Z.ltb_spec 0 len).
    - rewrite memcpy_front by lia. by rewrite drop_0.
    - replace len with 0 by lia. done. }
  rewrite Hcpy, wf_arr_set by done. by destruct (bool_decide (ep_number ep = 0%nat)).
Qed.

Lemma stored_endpoint s ep e msg :
  wf_state s → endpoint_data s !! ep = Some e →
  blen msg ≤ ENDPOINT_MAX_DATA_LENGTH → Forall is_byte msg →
  let s' := set_endpoint_data
    (<[ep := {| data := splice (data e) 0 msg; data_length := blen msg |}]> (endpoint_data s)) s in
  wf_state s' ∧ abs s' = set_slot ep msg (abs s).
Proof.
  intros Hwf He Hmsg Hb s'. assert (wf_endpoint e) as Hewf.
  { eapply Forall_lookup_1; [apply (wf_endpoints s Hwf)|done]. }
  split; [by apply wf_state_insert, wf_endpoint_store|].
  unfold abs, set_slot. simpl. f_equal. by rewrite list_fmap_insert, contents_store.
Qed.

Lemma write_event_eq s :
  wf_state s →
  write_event s = Ok tt (set_event_fd (ep_data_event_fd s)
    (if bool_decide (0 ≤ ep_data_event_fd s) then Z.min (event_counter s + 1) EVENTFD_MAX
     else event_counter s) s).
Proof.
  intros Hwf. pose proof (wf_event s Hwf). unfold write_event, modify. f_equal.
  repeat case_bool_decide; try tauto; destruct s; simpl in *; unfold set_event_fd; simpl; f_equal; lia.
Qed.

#[local] Opaque write_event.

Lemma wf_state_event s c :
  wf_state s → 0 ≤ c ≤ EVENTFD_MAX → wf_state (set_event_fd (ep_data_event_fd s) c s).
Proof. intros [] ?. by constructor. Qed.

(** [usbip_device_transmit] implements [spec_store], and sleeps exactly when the
    contract says so. *)
Lemma transmit_spec th s ep msg len :
  wf_state s → 0 ≤ len → Z.min len ENDPOINT_MAX_DATA_LENGTH ≤ blen msg → Forall is_byte msg →
  if transmit_waits th (ep_number ep) (abs s)
  then usbip_device_transmit th ep msg len s = Idle s
  else
    let '(stored, a') := spec_store (ep_number ep) (cut_message msg len) (abs s) in
    ∃ s', usbip_device_transmit th ep msg len s = Ok stored s'
      ∧ abs s' = a' ∧ wf_state s' ∧ same_control s s'
      ∧ ep_data_consumed s' = ep_data_consumed s
      ∧ event_counter s' =
          if stored && bool_decide (ep_number ep ≠ 0%nat) && bool_decide (0 ≤ ep_data_event_fd s)
          then Z.min (event_counter s + 1) EVENTFD_MAX else event_counter s.
Proof.
  intros Hwf Hlen Hmsg Hbytes. destruct (wf_arr_get s ep Hwf) as (e & He & Hewf & _).
  unfold usbip_device_transmit, bind, lock_ep_access, gets. rewrite (wf_mutex s Hwf). simpl.
  rewrite (transmit_guard_eq th ep s e) by done. destruct (transmit_waits _ _ _) eqn:Hw.
  { solve_state s Hwf. }
  replace (if ENDPOINT_MAX_DATA_LENGTH <? len then ENDPOINT_MAX_DATA_LENGTH else len)
    with (Z.min len ENDPOINT_MAX_DATA_LENGTH)
    by (destruct (Z.ltb_spec ENDPOINT_MAX_DATA_LENGTH len); lia).
  rewrite (transmit_store_eq _ ep s e) by (done || unfold ENDPOINT_MAX_DATA_LENGTH in *; lia).
  rewrite Z.eqb_refl, ep_number_eq0. unfold spec_store. rewrite (slot_of_abs _ _ _ He). simpl.
  destruct (device_stopped s) eqn:Hst; simpl.
  { exists s. split_and!; try done. solve_state s Hwf. }
  pose proof (cut_message_blen msg len Hlen Hmsg) as Hcut.
  destruct (stored_endpoint s (ep_number ep) e (cut_message msg len) Hwf He) as [Hwf' Habs'].
  { rewrite Hcut. lia. } { by apply Forall_take. }
  rewrite Hcut in Hwf', Habs'. fold (cut_message msg len).
  set (s' := set_endpoint_data _ s) in Hwf', Habs'.
  case_bool_decide as Hep; case_decide; try done; simpl.
  - exists (set_control_answered true s'). split_and!; try done.
    + unfold s'. solve_state s Hwf.
    + by rewrite <-Habs'.
    + by destruct Hwf'; constructor.
    + case_bool_decide; done.
  - rewrite (bool_decide_true (ep_number ep ≠ 0%nat)) by done.
    case_bool_decide; case_decide; try done; simpl.
    + replace (set_ep_access_mutex false _) with s' by (unfold s'; solve_state s Hwf).
      rewrite write_event_eq by done. eexists. split; [done|]. split_and!; try done.
      apply wf_state_event; [done|]. pose proof (wf_event s' Hwf'). unfold EVENTFD_MAX in *.
      case_bool_decide; lia.
    + exists s. split_and!; try done. solve_state s Hwf.
Qed.

Lemma slot_of_set_slot k j q a :
  slot_of k (set_slot j q a) = if decide (k = j ∧ (k < length (slot a))%nat) then q else slot_of k a.
Proof.
  unfold slot_of, set_slot. cbn [slot]. destruct (decide (k = j)) as [->|Hne].
  - case_decide as Hd; [by rewrite list_lookup_insert_eq by apply Hd|].
    rewrite list_insert_ge; [done|]. destruct (decide (j < length (slot a))%nat); [tauto|lia].
  - rewrite decide_False by tauto. by rewrite list_lookup_insert_ne.
Qed.

Lemma wf_slot_count s : wf_state s → length (slot (abs s)) = 16%nat.
Proof. intros Hwf. simpl. by rewrite length_fmap, (wf_count s Hwf). Qed.

(** *** Reset, stop and the control endpoint *)

Lemma contents_cleared (eds : list device_endpoint_data_t) :
  contents <$> (with_length 0 <$> eds) = (λ _ : bytes, []) <$> (contents <$> eds).
Proof. rewrite <-!list_fmap_compose. by apply list_fmap_ext. Qed.

Lemma wf_endpoints_cleared (eds : list device_endpoint_data_t) :
  Forall wf_endpoint eds → Forall wf_endpoint (with_length 0 <$> eds).
Proof.
  intros H. apply Forall_fmap. eapply Forall_impl; [done|].
  intros e (Hl & Hd & Hb). unfold wf_endpoint, ENDPOINT_MAX_DATA_LENGTH in *. simpl. by split_and!.
Qed.

Lemma reset_state_spec s :
  wf_state s →
  ∃ s', usbip_device_reset_state s = Ok tt s' ∧ abs s' = spec_reset (abs s) ∧ wf_state s'
    ∧ receive_lock s' = receive_lock s ∧ ep_data_event_fd s' = ep_data_event_fd s
    ∧ ep_data_consumed s' = ep_data_consumed s + 1
    ∧ event_counter s' = if bool_decide (0 ≤ ep_data_event_fd s) then 0 else event_counter s.
Proof.
  intros Hwf. unfold usbip_device_reset_state, bind, lock_ep_access.
  rewrite (wf_mutex s Hwf). eexists. split; [done|]. simpl.
  destruct Hwf as [Hm Hc He Hcfg Hg Hev]. unfold EVENTFD_MAX in *. case_bool_decide; split_and!; try done.
  1, 3: unfold spec_reset, abs; simpl; f_equal; apply contents_cleared.
  all: constructor; simpl; try done; [by rewrite length_fmap|by apply wf_endpoints_cleared|].
  all: unfold u32; by apply Z.mod_pos_bound.
Qed.

Lemma stop_spec s :
  wf_state s →
  ∃ s', usbip_device_stop s = Ok tt s' ∧ abs s' = spec_stop (abs s) ∧ wf_state s'
    ∧ receive_lock s' = receive_lock s ∧ ep_data_consumed s' = ep_data_consumed s + 1.
Proof.
  intros Hwf. unfold usbip_device_stop, bind, lock_ep_access.
  rewrite (wf_mutex s Hwf). eexists. split; [done|]. simpl.
  destruct Hwf as [Hm Hc He Hcfg Hg Hev]. split_and!; try done.
  - unfold spec_stop, abs; simpl; f_equal; apply contents_cleared.
  - constructor; simpl; try done; [by rewrite length_fmap|by apply wf_endpoints_cleared].
Qed.

(** Only an answer given after it is seen by [usbip_device_fetch_control_reply]. *)
Lemma control_begin_spec s :
  wf_state s →
  ∃ s', control_begin s = Ok tt s' ∧ abs s' = set_answered false (set_slot 0 [] (abs s))
    ∧ wf_state s' ∧ same_control s s' ∧ event_counter s' = event_counter s
    ∧ ep_data_consumed s' = ep_data_consumed s.
Proof.
  intros Hwf. destruct (wf_arr_get s 0 Hwf) as (e & He & Hewf & Hget).
  assert (wf_endpoint (with_length 0 e)) as Hewf'.
  { destruct Hewf as (? & ? & ?). unfold wf_endpoint, ENDPOINT_MAX_DATA_LENGTH in *. simpl. by split_and!. }
  pose proof (wf_state_insert s (ep_number 0) _ Hwf Hewf') as Hwf'.
  unfold control_begin, bind, lock_ep_access, gets, liftC. rewrite (wf_mutex s Hwf). simpl.
  pose proof (wf_arr_set s 0 (with_length 0 e) Hwf) as Hset.
  change (Z.land 0 15) with 0 in Hget, Hset. rewrite Hget, Hset.
  eexists. split; [done|]. simpl. split_and!; try done.
  - unfold abs, set_slot, set_answered. simpl. f_equal. by rewrite list_fmap_insert.
  - destruct Hwf'; by constructor.
  - by destruct Hwf.
Qed.

Lemma fetch_control_reply_spec s buffer n :
  wf_state s → 0 ≤ n →
  let out := take (Z.to_nat n) (slot_of 0 (abs s)) in
  blen out ≤ blen buffer →
  ∃ s', usbip_device_fetch_control_reply buffer n s =
          Ok (answered (abs s), blen out, splice buffer 0 out) s'
    ∧ abs s' = set_answered false (set_slot 0 [] (abs s))
    ∧ wf_state s' ∧ same_control s s' ∧ event_counter s' = event_counter s.
Proof.
  intros Hwf Hn out Hout.
  assert (wf_state (set_control_answered false s)) as Hwf1 by (by destruct Hwf; constructor).
  destruct (fetch_spec (set_control_answered false s) 0 buffer n Hwf1 Hn Hout)
    as (s' & Hf & Habs & Hwf' & Hsame & Hev).
  exists s'. split_and!; [|by rewrite Habs|done|done|done].
  unfold usbip_device_fetch_control_reply, bind, lock_ep_access, gets.
  rewrite (wf_mutex s Hwf). simpl.
  replace (set_ep_access_mutex false _) with (set_control_answered false s) by solve_state s Hwf.
  by rewrite Hf.
Qed.

(** ** Properties *)

(** The transfers a host makes: one fetch per entry, each with a transfer
    buffer of that size; the bytes each of them received. *)
Fixpoint host_reads (ep : Z) (sizes : list Z) : M device_state (list bytes) :=
  match sizes with
  | [] => ret []
  | n :: sizes =>
      let* '(len, buffer) := usbip_device_fetch_ep_data ep (replicate (Z.to_nat n) 0) n in
      let* rest := host_reads ep sizes in
      ret (take (Z.to_nat len) buffer :: rest)
  end.

Lemma host_reads_spec ep sizes s :
  wf_state s → Forall (λ n, 0 ≤ n) sizes → ep_number ep ≠ 0%nat →
  ∃ chunks s', host_reads ep sizes s = Ok chunks s'
    ∧ wf_state s'
    ∧ slot_of (ep_number ep) (abs s) = concat chunks ++ slot_of (ep_number ep) (abs s')
    ∧ blen (concat chunks) = Z.min (foldr Z.add 0 sizes) (blen (slot_of (ep_number ep) (abs s))).
Proof.
  intros Hwf Hsz Hep. revert s Hwf. induction Hsz as [|n sizes Hn Hsz IH]; intros s Hwf.
  { exists [], s. split_and!; try done. unfold blen. simpl. lia. }
  simpl. set (q := slot_of (ep_number ep) (abs s)).
  destruct (fetch_spec s ep (replicate (Z.to_nat n) 0) n Hwf Hn) as (s1 & Hf & Habs & Hwf1 & _ & _).
  { rewrite blen_take, blen_replicate by done. lia. }
  destruct (IH s1 Hwf1) as (chunks & s' & Hr & Hwf' & Hq & Hlen).
  unfold bind. rewrite Hf. fold q. simpl. rewrite Hr.
  assert (slot_of (ep_number ep) (abs s1) = drop (Z.to_nat n) q) as Hs1.
  { rewrite Habs. unfold spec_fetch, slot_of, set_slot. simpl. rewrite list_lookup_insert_eq.
    - by rewrite decide_False.
    - rewrite length_fmap, (wf_count s Hwf). apply ep_number_lt. }
  rewrite Hs1 in Hq, Hlen. eexists _, _. split; [done|]. split; [done|].
  assert (take (Z.to_nat (blen (take (Z.to_nat n) q))) (splice (replicate (Z.to_nat n) 0) 0 (take (Z.to_nat n) q))
    = take (Z.to_nat n) q) as ->.
  { unfold blen. rewrite Nat2Z.id. apply splice_0_take. }
  simpl. split.
  - rewrite <-app_assoc, <-Hq. by rewrite take_drop.
  - rewrite blen_app, Hlen, blen_take, blen_drop by done. pose proof (blen_nonneg q).
    assert (0 ≤ foldr Z.add 0 sizes) by (clear -Hsz; induction Hsz; simpl; lia). lia.
Qed.

Lemma wf_initial_device_state : wf_state initial_device_state.
Proof.
  constructor; try done. apply Forall_replicate. unfold wf_endpoint. split_and!; try done.
  by apply Forall_replicate.
Qed.

(** C12: [usbip_device_transmit] implements the slot contract for every calling
    thread, endpoint argument, message and state: the caller sleeps exactly when it
    is an ordinary thread and a running device still has unread data on a non-zero
    endpoint, otherwise the call returns what [spec_store] returns for the first
    512 bytes, changes the slots as [spec_store] does and nothing else, and wakes
    the server through the event descriptor exactly when data was stored on an
    endpoint other than 0. *)
Theorem transmit_refines_slots th s ep msg len :
  wf_state s → 0 ≤ len → Z.min len ENDPOINT_MAX_DATA_LENGTH ≤ blen msg → Forall is_byte msg →
  if transmit_waits th (ep_number ep) (abs s)
  then usbip_device_transmit th ep msg len s = Idle s
  else
    let '(stored, a') := spec_store (ep_number ep) (cut_message msg len) (abs s) in
    ∃ s', usbip_device_transmit th ep msg len s = Ok stored s'
      ∧ abs s' = a' ∧ wf_state s' ∧ same_control s s'
      ∧ ep_data_consumed s' = ep_data_consumed s
      ∧ event_counter s' =
          if stored && bool_decide (ep_number ep ≠ 0%nat) && bool_decide (0 ≤ ep_data_event_fd s)
          then Z.min (event_counter s + 1) EVENTFD_MAX else event_counter s.
Proof. apply transmit_spec. Qed.

Lemma transmit_refines_slots_witness :
  ∃ s', usbip_device_transmit server_thread 0x81 [1; 2; 3] 3 initial_device_state = Ok true s'
    ∧ slot_of 1 (abs s') = [1; 2; 3].
Proof.
  pose proof (transmit_refines_slots server_thread initial_device_state 0x81 [1; 2; 3] 3
    wf_initial_device_state) as H.
  destruct H as (s' & H1 & H2 & _).
  - lia.
  - done.
  - repeat constructor; done.
  - exists s'. split; [exact H1|]. rewrite H2. vm_compute. reflexivity.
Defined.

(** C18: [usbip_device_fetch_ep_data] implements [spec_fetch]: it returns the oldest
    [min max_length available] bytes of the endpoint in the caller's buffer, keeps
    the rest in order for the next transfer (endpoint 0 drops it), never leaves the
    endpoint array or the buffers, and changes no other variable. *)
Theorem fetch_refines_slots s ep buffer n :
  wf_state s → 0 ≤ n →
  let out := take (Z.to_nat n) (slot_of (ep_number ep) (abs s)) in
  blen out ≤ blen buffer →
  ∃ s', usbip_device_fetch_ep_data ep buffer n s = Ok (blen out, splice buffer 0 out) s'
    ∧ abs s' = (spec_fetch (ep_number ep) n (abs s)).2
    ∧ wf_state s' ∧ same_control s s' ∧ event_counter s' = event_counter s.
Proof. apply fetch_spec. Qed.

Lemma fetch_refines_slots_witness :
  ∃ s', usbip_device_fetch_ep_data 1 [0; 0] 2 initial_device_state = Ok (0, [0; 0]) s'.
Proof.
  destruct (fetch_refines_slots initial_device_state 1 [0; 0] 2 wf_initial_device_state)
    as (s' & H & _).
  - lia.
  - vm_compute. discriminate.
  - exists s'. exact H.
Defined.

(** C19: a message of at most 512 bytes queued on an empty non-zero endpoint reaches
    the host complete, in order and without duplicates, however the host sizes its
    transfers, and leaves the endpoint empty for the next message. *)
Theorem transmitted_message_is_delivered th s ep msg sizes :
  wf_state s → Forall is_byte msg → blen msg ≤ ENDPOINT_MAX_DATA_LENGTH →
  ep_number ep ≠ 0%nat → stopped (abs s) = false → slot_of (ep_number ep) (abs s) = [] →
  Forall (λ n, 0 ≤ n) sizes → blen msg ≤ foldr Z.add 0 sizes →
  ∃ chunks s',
    (let* stored := usbip_device_transmit th ep msg (blen msg) in
     let* chunks := host_reads ep sizes in ret (stored, chunks)) s = Ok (true, chunks) s'
    ∧ concat chunks = msg ∧ slot_of (ep_number ep) (abs s') = [] ∧ wf_state s'.
Proof.
  intros Hwf Hmb Hlen Hep Hst Hempty Hsz Hsum. pose proof (blen_nonneg msg) as Hpos.
  pose proof (transmit_spec th s ep msg (blen msg) Hwf Hpos) as H.
  assert (transmit_waits th (ep_number ep) (abs s) = false) as Hw.
  { unfold transmit_waits. rewrite Hempty, (bool_decide_false ([] ≠ [])) by tauto. apply andb_false_r. }
  rewrite Hw in H. unfold spec_store in H. rewrite Hst, decide_False, decide_True in H by done.
  destruct H as (s1 & Hs1 & Habs & Hwf1 & _); [lia|done|].
  assert (cut_message msg (blen msg) = msg) as Hcut.
  { unfold cut_message. apply take_ge. unfold blen in *. lia. }
  assert (slot_of (ep_number ep) (abs s1) = msg) as Hslot.
  { rewrite Habs, Hcut. unfold slot_of, set_slot. simpl.
    rewrite list_lookup_insert_eq; [done|]. rewrite length_fmap, (wf_count s Hwf). apply ep_number_lt. }
  destruct (host_reads_spec ep sizes s1 Hwf1 Hsz Hep) as (chunks & s' & Hr & Hwf' & Hq & Hl).
  rewrite Hslot in Hq, Hl. exists chunks, s'. unfold bind. rewrite Hs1, Hr. split; [done|].
  assert (slot_of (ep_number ep) (abs s') = []) as Hnil.
  { apply (f_equal blen) in Hq. rewrite blen_app in Hq.
    destruct (slot_of (ep_number ep) (abs s')); [done|]. unfold blen in *. simpl in *. lia. }
  rewrite Hnil, app_nil_r in Hq. done.
Qed.

Lemma transmitted_message_is_delivered_witness :
  ∃ chunks s',
    (let* stored := usbip_device_transmit other_thread 1 [7; 8; 9] 3 in
     let* chunks := host_reads 1 [2; 0; 2] in ret (stored, chunks)) initial_device_state
      = Ok (true, chunks) s'
    ∧ concat chunks = [7; 8; 9].
Proof.
  destruct (transmitted_message_is_delivered other_thread initial_device_state 1 [7; 8; 9] [2; 0; 2]
    wf_initial_device_state) as (chunks & s' & H1 & H2 & _).
  - repeat constructor; done.
  - done.
  - done.
  - done.
  - vm_compute. reflexivity.
  - repeat constructor; lia.
  - done.
  - exists chunks, s'. split; [exact H1|exact H2].
Defined.
