(* ===== verification/Threads.v ===== *)
(** * Threads that transmit (src/lib/usbip_device.c, concurrently)

    [usbip_device_transmit] may be called by any number of threads while the server
    thread fetches, resets and stops. Everything between a lock and the following
    unlock of [ep_access_mutex] is one step; [pthread_cond_wait] unlocks, sleeps and
    locks again, so a call that waits is a step that ends asleep and later steps
    that wake up, which may happen at any time (a spurious wake-up included).

    The relation [step] interleaves the steps of the calling threads with the
    operations of the server thread. *)
From S2P Require Import Prelude DeviceStore.

Record request := {
  rq_ep : Z;
  rq_data : bytes;
  rq_length : Z;
}.

(** Where a call is. Asleep, it remembers [generation], a local variable of the
    call, and [seen], the broadcasts on [ep_data_consumed] before it slept. *)
Inductive call_state :=
| Calling
| Waiting (generation seen : Z)
| Returned (stored : bool).

Record caller := {
  c_flags : thread_flags;
  c_request : request;
  c_state : call_state;
}.

Definition with_state (st : call_state) (c : caller) : caller :=
  {| c_flags := c_flags c; c_request := c_request c; c_state := st |}.

(** ** usbip_device_transmit in steps *)

(** From the end of the wait loop to the return. *)
Definition transmit_finish (generation ep_masked : Z) (msg : bytes) (len : Z) : M device_state bool :=
  let* '(stored, _, _) := transmit_store generation ep_masked msg len in
  unlock_ep_access;;
  (if stored && negb (ep_masked =? 0) then write_event else ret tt);;
  ret stored.

(** The test of the wait loop, and what follows. *)
Definition wait_or_finish (th : thread_flags) (r : request) (generation : Z) : M device_state call_state :=
  let ep_masked := Z.land (rq_ep r) 0xf in
  let len := if ENDPOINT_MAX_DATA_LENGTH <? rq_length r then ENDPOINT_MAX_DATA_LENGTH else rq_length r in
  let* waits := transmit_guard th ep_masked in
  if waits then
    let* seen := gets ep_data_consumed in
    unlock_ep_access;; ret (Waiting generation seen)
  else
    let* stored := transmit_finish generation ep_masked (rq_data r) len in
    ret (Returned stored).

Definition transmit_enter (th : thread_flags) (r : request) : M device_state call_state :=
  lock_ep_access;;
  let* generation := gets reset_generation in
  wait_or_finish th r generation.

Definition transmit_wake (th : thread_flags) (r : request) (generation : Z) : M device_state call_state :=
  lock_ep_access;;
  wait_or_finish th r generation.

(** ** The system *)

Record system := {
  store : device_state;
  callers : list caller;
}.

(** What a step does to the endpoint buffers. *)
Inductive event :=
| Queued (k : nat) (msg : bytes)
| Fetched (k : nat) (out : bytes)
| ResetDone
| StopDone
| Quiet.

Definition message_of (r : request) : bytes := cut_message (rq_data r) (rq_length r).
Definition event_of (r : request) (st : call_state) : event :=
  match st with
  | Returned true => Queued (ep_number (rq_ep r)) (message_of r)
  | _ => Quiet
  end.

Inductive step : system → event → system → Prop :=
| step_enter σ i c st s' :
    callers σ !! i = Some c → c_state c = Calling →
    transmit_enter (c_flags c) (c_request c) (store σ) = Ok st s' →
    step σ (event_of (c_request c) st) {| store := s'; callers := <[i := with_state st c]> (callers σ) |}
| step_wake σ i c g seen st s' :
    callers σ !! i = Some c → c_state c = Waiting g seen →
    transmit_wake (c_flags c) (c_request c) g (store σ) = Ok st s' →
    step σ (event_of (c_request c) st) {| store := s'; callers := <[i := with_state st c]> (callers σ) |}
| step_fetch σ ep n len buffer s' :
    0 ≤ n → usbip_device_fetch_ep_data ep (replicate (Z.to_nat n) 0) n (store σ) = Ok (len, buffer) s' →
    step σ (Fetched (ep_number ep) (take (Z.to_nat len) buffer)) {| store := s'; callers := callers σ |}
| step_fetch_control σ n r s' :
    0 ≤ n → usbip_device_fetch_control_reply (replicate (Z.to_nat n) 0) n (store σ) = Ok r s' →
    step σ Quiet {| store := s'; callers := callers σ |}
| step_control_begin σ s' :
    control_begin (store σ) = Ok tt s' → step σ Quiet {| store := s'; callers := callers σ |}
| step_clear_event σ s' :
    usbip_device_clear_event (store σ) = Ok tt s' → step σ Quiet {| store := s'; callers := callers σ |}
| step_reset σ s' :
    usbip_device_reset_state (store σ) = Ok tt s' → step σ ResetDone {| store := s'; callers := callers σ |}
| step_stop σ s' :
    usbip_device_stop (store σ) = Ok tt s' → step σ StopDone {| store := s'; callers := callers σ |}.

Inductive steps : system → list event → system → Prop :=
| steps_nil σ : steps σ [] σ
| steps_cons σ e σ1 es σ2 : step σ e σ1 → steps σ1 es σ2 → steps σ (e :: es) σ2.

(** The same as a function: who moves next, [None] when that step is not possible. *)
Inductive action :=
| Enter (i : nat)
| Wake (i : nat)
| Fetch (ep n : Z)
| FetchControl (n : Z)
| ControlBegin
| ClearEvent
| ResetDevice
| StopDevice.

Definition server_step {A} (m : M device_state A) (e : A → event) (σ : system) : option (event * system) :=
  match m (store σ) with
  | Ok a s' => Some (e a, {| store := s'; callers := callers σ |})
  | _ => None
  end.

Definition caller_step (i : nat) (run : caller → option (M device_state call_state)) (σ : system) :
    option (event * system) :=
  c ← callers σ !! i;
  m ← run c;
  match m (store σ) with
  | Ok st s' => Some (event_of (c_request c) st, {| store := s'; callers := <[i := with_state st c]> (callers σ) |})
  | _ => None
  end.

Definition exec (a : action) (σ : system) : option (event * system) :=
  match a with
  | Enter i => caller_step i (λ c,
      match c_state c with Calling => Some (transmit_enter (c_flags c) (c_request c)) | _ => None end) σ
  | Wake i => caller_step i (λ c,
      match c_state c with Waiting g _ => Some (transmit_wake (c_flags c) (c_request c) g) | _ => None end) σ
  | Fetch ep n =>
      if n <? 0 then None else
      server_step (usbip_device_fetch_ep_data ep (replicate (Z.to_nat n) 0) n)
        (λ '(len, buffer), Fetched (ep_number ep) (take (Z.to_nat len) buffer)) σ
  | FetchControl n =>
      if n <? 0 then None else
      server_step (usbip_device_fetch_control_reply (replicate (Z.to_nat n) 0) n) (λ _, Quiet) σ
  | ControlBegin => server_step control_begin (λ _, Quiet) σ
  | ClearEvent => server_step usbip_device_clear_event (λ _, Quiet) σ
  | ResetDevice => server_step usbip_device_reset_state (λ _, ResetDone) σ
  | StopDevice => server_step usbip_device_stop (λ _, StopDone) σ
  end.

Fixpoint exec_all (acts : list action) (σ : system) : option (list event * system) :=
  match acts with
  | [] => Some ([], σ)
  | a :: acts =>
      '(e, σ1) ← exec a σ;
      '(es, σ2) ← exec_all acts σ1;
      Some (e :: es, σ2)
  end.

Definition request_ok (r : request) : Prop :=
  0 ≤ rq_length r ∧ Z.min (rq_length r) ENDPOINT_MAX_DATA_LENGTH ≤ blen (rq_data r) ∧ Forall is_byte (rq_data r).
Definition system_ok (σ : system) : Prop :=
  wf_state (store σ) ∧ Forall (λ c, request_ok (c_request c)) (callers σ).

(** ** Observations of a run *)

Definition queued (k : nat) (e : event) : bytes :=
  match e with Queued k' msg => if decide (k' = k) then msg else [] | _ => [] end.
Definition fetched (k : nat) (e : event) : bytes :=
  match e with Fetched k' out => if decide (k' = k) then out else [] | _ => [] end.
Definition clears (e : event) : bool := match e with ResetDone | StopDone => true | _ => false end.
Definition is_reset (e : event) : bool := match e with ResetDone => true | _ => false end.
Definition resets (es : list event) : Z := Z.of_nat (length (filter (λ e, is_reset e = true) es)).

(** A sleeping thread that could go on has been woken by a broadcast. *)
Definition no_missed_wakeup (σ : system) : Prop :=
  ∀ i c g seen, callers σ !! i = Some c → c_state c = Waiting g seen →
    seen ≤ ep_data_consumed (store σ) ∧
    (transmit_waits (c_flags c) (ep_number (rq_ep (c_request c))) (abs (store σ)) = false →
     seen < ep_data_consumed (store σ)).

(** * Theorems *)

(** ** The steps of a call *)

Lemma transmit_store_returns g ep_masked msg len s s' : transmit_store g ep_masked msg len s ≠ Idle s'.
Proof.
  unfold transmit_store, bind, get, liftC. destruct (arr_get _ _) as [e|]; [|done].
  destruct (_ && _); [|done]. destruct (0 <? len); [destruct (memcpy _ _ _ _ _); [|done]|]; cbn [ret];
    (destruct (arr_set _ _ _); [|done]); cbn [modify]; by destruct (ep_masked =? 0).
Qed.

(** [transmit_enter] is [usbip_device_transmit] up to the sleep. *)
Lemma transmit_enter_eq th r s :
  transmit_enter th r s =
    match usbip_device_transmit th (rq_ep r) (rq_data r) (rq_length r) s with
    | Ok stored s' => Ok (Returned stored) s'
    | Idle s' => Ok (Waiting (reset_generation s) (ep_data_consumed s)) s'
    | Fault f => Fault f
    end.
Proof.
  unfold transmit_enter, wait_or_finish, usbip_device_transmit, transmit_finish, bind, lock_ep_access.
  destruct (ep_access_mutex s); [done|]. cbn [gets].
  unfold transmit_guard, bind, get, liftC.
  destruct (arr_get _ _) as [e|f]; [|done]. cbn [ret].
  destruct (_ && (0 <? data_length e)); [done|].
  destruct (transmit_store _ _ _ _ _) as [[[stored ?] ?] s'|s'|f] eqn:Hs; [|by apply transmit_store_returns in Hs|done].
  cbn [unlock_ep_access modify].
  destruct (stored && _); [|done]. unfold write_event, modify. done.
Qed.

(** A call made since the last reset continues as a new call would. *)
Lemma transmit_wake_enter th r s : transmit_wake th r (reset_generation s) s = transmit_enter th r s.
Proof. unfold transmit_wake, transmit_enter, bind, lock_ep_access. by destruct (ep_access_mutex s). Qed.

(** A call made before a reset queues nothing. *)
Lemma transmit_wake_stale th r g s :
  wf_state s → request_ok r → g ≠ reset_generation s →
  transmit_wake th r g s =
    Ok (if transmit_waits th (ep_number (rq_ep r)) (abs s) then Waiting g (ep_data_consumed s) else Returned false) s.
Proof.
  intros Hwf (Hlen & Hmsg & Hb) Hg. destruct (wf_arr_get s (rq_ep r) Hwf) as (e & He & Hewf & _).
  unfold transmit_wake, wait_or_finish, bind, lock_ep_access. rewrite (wf_mutex s Hwf).
  rewrite (transmit_guard_eq th (rq_ep r) s e) by done. destruct (transmit_waits _ _ _).
  { solve_state s Hwf. }
  replace (if ENDPOINT_MAX_DATA_LENGTH <? rq_length r then ENDPOINT_MAX_DATA_LENGTH else rq_length r)
    with (Z.min (rq_length r) ENDPOINT_MAX_DATA_LENGTH)
    by (destruct (Z.ltb_spec ENDPOINT_MAX_DATA_LENGTH (rq_length r)); lia).
  unfold transmit_finish, bind. rewrite (transmit_store_eq _ (rq_ep r) s e) by (done || unfold ENDPOINT_MAX_DATA_LENGTH in *; lia).
  rewrite (proj2 (Z.eqb_neq _ _)) by done. rewrite andb_false_r. simpl. solve_state s Hwf.
Qed.

(** ** What a step does *)

Record effect (e : event) (s s' : device_state) : Prop := {
  eff_wf : wf_state s';
  eff_data k : k ≠ 0%nat → clears e = false →
    slot_of k (abs s) ++ queued k e = fetched k e ++ slot_of k (abs s');
  eff_generation : reset_generation s' = if is_reset e then u32 (reset_generation s + 1) else reset_generation s;
  eff_broadcasts : ep_data_consumed s ≤ ep_data_consumed s';
  eff_signal th k : transmit_waits th k (abs s) = true → transmit_waits th k (abs s') = false →
    ep_data_consumed s < ep_data_consumed s';
}.

(** An operation that leaves the buffers of the endpoints other than 0 alone. *)
Lemma effect_quiet s s' :
  wf_state s' → (∀ k, k ≠ 0%nat → slot_of k (abs s') = slot_of k (abs s)) → same_control s s' →
  ep_data_consumed s ≤ ep_data_consumed s' → effect Quiet s s'.
Proof.
  intros Hwf Hk (_ & _ & Hst & _ & _ & Hg) Hb. constructor; try done.
  - intros k Hne _. simpl. rewrite app_nil_r. by rewrite Hk.
  - intros th k Hw Hw'. exfalso. revert Hw Hw'. unfold transmit_waits. simpl. rewrite Hst.
    destruct (decide (k = 0%nat)) as [->|Hne].
    + rewrite (bool_decide_false (0%nat ≠ 0%nat)) by tauto. rewrite andb_false_r. done.
    + rewrite (Hk k) by done. congruence.
Qed.

Lemma transmit_effect th r s stored s' :
  wf_state s → request_ok r →
  usbip_device_transmit th (rq_ep r) (rq_data r) (rq_length r) s = Ok stored s' →
  effect (event_of r (Returned stored)) s s'.
Proof.
  intros Hwf (Hlen & Hmsg & Hb) Hrun.
  pose proof (transmit_spec th s (rq_ep r) (rq_data r) (rq_length r) Hwf Hlen Hmsg Hb) as H.
  destruct (transmit_waits _ _ _); [congruence|]. destruct (spec_store _ _ _) as [b a'] eqn:Hspec.
  destruct H as (s1 & Hs1 & Habs & Hwf' & Hsame & Hc & _). rewrite Hrun in Hs1. injection Hs1 as <- <-.
  pose proof (ep_number_lt (rq_ep r)) as Hlt. pose proof (wf_slot_count s Hwf) as Hn.
  revert Hspec. unfold spec_store, event_of. fold (message_of r). set (k0 := ep_number (rq_ep r)) in *.
  destruct (stopped (abs s)) eqn:Hst; [intros [<- Ha]%pair_equal_spec; apply effect_quiet; [done|by rewrite Habs, <-Ha|done|lia]|].
  destruct (decide (k0 = 0%nat)) as [Hk0|Hk0]; [|destruct (decide (slot_of k0 (abs s) = [])) as [Hemp|Hemp]];
    intros [<- Ha]%pair_equal_spec; [| |apply effect_quiet; [done|by rewrite Habs, <-Ha|done|lia]].
  all: assert (∀ k, k ≠ k0 → slot_of k (abs s') = slot_of k (abs s)) as Hother
    by (intros k Hk; rewrite Habs, <-Ha; unfold slot_of, set_answered; simpl; by rewrite list_lookup_insert_ne).
  - destruct (effect_quiet s s') as [H1 H2 H3 H4 H5]; [done|intros k Hk; apply Hother; congruence|done|lia|].
    constructor; try done. intros k Hk _. simpl. rewrite decide_False by congruence. by apply H2.
  - destruct Hsame as (_ & _ & Hst' & _ & _ & Hg). constructor; try done; [|lia|].
    + intros k Hk _. cbn [queued fetched]. rewrite Habs, <-Ha, slot_of_set_slot. destruct (decide (k0 = k)) as [<-|Hne].
      * rewrite decide_True by (split; [done|lia]). by rewrite Hemp.
      * rewrite decide_False by naive_solver. by rewrite app_nil_r.
    + intros th' k Hw Hw'. exfalso. revert Hw Hw'. unfold transmit_waits. destruct (decide (k = k0)) as [->|Hne].
      * rewrite Hemp. rewrite (bool_decide_false ([] ≠ [])) by tauto. by rewrite andb_false_r.
      * rewrite (Hother k Hne). simpl in *. rewrite Hst'. congruence.
Qed.

Lemma call_effect th r s st s' :
  wf_state s → request_ok r →
  transmit_enter th r s = Ok st s' → effect (event_of r st) s s'.
Proof.
  intros Hwf Hr. rewrite transmit_enter_eq. destruct (usbip_device_transmit _ _ _ _ s) as [stored s1|s1|] eqn:Hrun; [..|done].
  - intros [= <- <-]. by eapply transmit_effect.
  - intros [= <- <-]. destruct Hr as (Hlen & Hmsg & Hb).
    pose proof (transmit_spec th s (rq_ep r) (rq_data r) (rq_length r) Hwf Hlen Hmsg Hb) as H.
    destruct (transmit_waits _ _ _).
    + assert (s1 = s) as -> by congruence. by apply effect_quiet.
    + destruct (spec_store _ _ _) as [b a']. destruct H as (? & H & _). congruence.
Qed.

Lemma wake_effect th r g s st s' :
  wf_state s → request_ok r →
  transmit_wake th r g s = Ok st s' → effect (event_of r st) s s'.
Proof.
  intros Hwf Hr. destruct (decide (g = reset_generation s)) as [->|Hg].
  - rewrite transmit_wake_enter. by apply call_effect.
  - rewrite transmit_wake_stale by done. intros [= <- <-].
    destruct (transmit_waits _ _ _); by apply effect_quiet.
Qed.

(** A broadcast comes with every transfer that empties an endpoint. *)
Lemma fetch_broadcasts s ep buffer n out s' :
  wf_state s → 0 ≤ n → blen (take (Z.to_nat n) (slot_of (ep_number ep) (abs s))) ≤ blen buffer →
  usbip_device_fetch_ep_data ep buffer n s = Ok out s' →
  ep_data_consumed s ≤ ep_data_consumed s' ∧
  (slot_of (ep_number ep) (abs s') = [] → ep_data_consumed s < ep_data_consumed s').
Proof.
  intros Hwf Hn. destruct (wf_arr_get s ep Hwf) as (e & He & Hewf & _).
  rewrite (slot_of_abs _ _ _ He). intros Hbuf. rewrite (fetch_eq s ep buffer n e) by done.
  cbv zeta. intros H. apply (f_equal (λ r, match r with Ok _ x => x | _ => s end)) in H. cbn beta iota in H. subst s'.
  cbn [ep_data_consumed set_ep_data_consumed]. set (e' := after_fetch _ n e). split; [case_match; lia|].
  assert (wf_endpoint e') as Hwf' by (by apply after_fetch_wf).
  intros Hnil. rewrite (proj2 (Z.eqb_eq _ _)); [lia|]. apply contents_nil; [done|].
  revert Hnil. unfold slot_of. simpl. rewrite list_fmap_insert, list_lookup_insert_eq; [done|].
  rewrite length_fmap. by apply lookup_lt_Some in He.
Qed.

Lemma take_of_buffer n (q : bytes) :
  let out := take (Z.to_nat n) q in
  take (Z.to_nat (blen out)) (splice (replicate (Z.to_nat n) 0) 0 out) = out.
Proof. intros out. unfold blen. rewrite Nat2Z.id. apply splice_0_take. Qed.

Lemma blen_take_replicate n (q : bytes) : 0 ≤ n → blen (take (Z.to_nat n) q) ≤ blen (replicate (Z.to_nat n) 0).
Proof. intros. rewrite blen_take, blen_replicate by done. lia. Qed.

Lemma fetch_effect s ep n len buffer s' :
  wf_state s → 0 ≤ n →
  usbip_device_fetch_ep_data ep (replicate (Z.to_nat n) 0) n s = Ok (len, buffer) s' →
  effect (Fetched (ep_number ep) (take (Z.to_nat len) buffer)) s s'.
Proof.
  intros Hwf Hn Hrun. pose proof (blen_take_replicate n (slot_of (ep_number ep) (abs s)) Hn) as Hbuf.
  destruct (fetch_spec s ep _ n Hwf Hn Hbuf) as (s1 & Hf & Habs & Hwf' & Hsame & _).
  rewrite Hrun in Hf. injection Hf as -> -> <-.
  destruct (fetch_broadcasts _ _ _ _ _ _ Hwf Hn Hbuf Hrun) as [Hmono Hsig].
  rewrite take_of_buffer. set (k0 := ep_number ep) in *. pose proof (wf_slot_count s Hwf) as Hc.
  pose proof (ep_number_lt ep) as Hlt.
  assert (∀ k, k ≠ k0 → slot_of k (abs s') = slot_of k (abs s)) as Hother.
  { intros k Hk. rewrite Habs. unfold spec_fetch. cbn [snd]. rewrite slot_of_set_slot.
    by rewrite decide_False by naive_solver. }
  destruct Hsame as (_ & _ & Hst & _ & _ & Hg). constructor; try done.
  - intros k Hk _. cbn [queued fetched]. rewrite app_nil_r. destruct (decide (k0 = k)) as [<-|Hne].
    + rewrite Habs. unfold spec_fetch. cbn [snd]. rewrite slot_of_set_slot.
      rewrite decide_True by (split; [done|lia]). rewrite decide_False by done. by rewrite take_drop.
    + by rewrite Hother.
  - intros th k Hw Hw'. destruct (decide (k = k0)) as [->|Hne].
    + apply Hsig. destruct (decide (slot_of k0 (abs s') = [])) as [|Hne]; [done|]. exfalso.
      revert Hw Hw'. unfold transmit_waits. simpl. rewrite Hst. rewrite (bool_decide_true (slot_of k0 (abs s') ≠ [])) by done.
      rewrite !andb_true_r. rewrite andb_true_iff. intros [-> _]. done.
    + exfalso. revert Hw Hw'. unfold transmit_waits. rewrite (Hother k Hne). simpl. rewrite Hst. congruence.
Qed.

Lemma fetch_control_effect s n r s' :
  wf_state s → 0 ≤ n →
  usbip_device_fetch_control_reply (replicate (Z.to_nat n) 0) n s = Ok r s' → effect Quiet s s'.
Proof.
  intros Hwf Hn Hrun. pose proof (blen_take_replicate n (slot_of 0 (abs s)) Hn) as Hbuf.
  destruct (fetch_control_reply_spec s _ n Hwf Hn Hbuf) as (s1 & Hf & Habs & Hwf' & Hsame & _).
  rewrite Hrun in Hf. injection Hf as -> <-. apply effect_quiet; [done| |done|].
  - intros k Hk. rewrite Habs. unfold set_answered, slot_of. simpl. by rewrite list_lookup_insert_ne.
  - revert Hrun. unfold usbip_device_fetch_control_reply, bind at 1 2 3 4, lock_ep_access, gets.
    rewrite (wf_mutex s Hwf). cbn [modify unlock_ep_access]. set (s2 := set_ep_access_mutex false _).
    assert (wf_state s2) as Hwf2 by (by destruct Hwf; constructor).
    change (ep_data_consumed s) with (ep_data_consumed s2). unfold bind.
    destruct (usbip_device_fetch_ep_data _ _ _ s2) as [[? ?] s3|?|?] eqn:Hf; [|done..]. cbn [ret].
    intros H. apply (f_equal (λ r, match r with Ok _ x => x | _ => s end)) in H. cbn beta iota in H. subst s'.
    apply (fetch_broadcasts s2 0 _ n _ _ Hwf2 Hn Hbuf Hf).
Qed.

Lemma step_effect σ e σ' :
  step σ e σ' → system_ok σ → effect e (store σ) (store σ') ∧ system_ok σ'.
Proof.
  intros Hstep [Hwf Hc]. assert (∀ i c st, callers σ !! i = Some c →
    Forall (λ c, request_ok (c_request c)) (<[i := with_state st c]> (callers σ))) as Hins.
  { intros i c st Hi. apply Forall_insert; [done|]. apply (Forall_lookup_1 _ _ _ _ Hc Hi). }
  assert (effect e (store σ) (store σ') → Forall (λ c, request_ok (c_request c)) (callers σ') →
    effect e (store σ) (store σ') ∧ system_ok σ') as Hboth
    by (intros Heff HF; split; [done|by split; [apply (eff_wf _ _ _ Heff)|]]).
  destruct Hstep as [σ i c st s' Hi Hst Hrun|σ i c g seen st s' Hi Hst Hrun|σ ep n len buffer s' Hn Hrun
    |σ n r s' Hn Hrun|σ s' Hrun|σ s' Hrun|σ s' Hrun|σ s' Hrun]; cbn [store callers] in *;
    apply Hboth; eauto using fetch_effect, fetch_control_effect.
  - eapply call_effect; [done| |done]. apply (Forall_lookup_1 _ _ _ _ Hc Hi).
  - eapply wake_effect; [done| |done]. apply (Forall_lookup_1 _ _ _ _ Hc Hi).
  - destruct (control_begin_spec (store σ) Hwf) as (s1 & H1 & Habs & Hwf' & Hsame & _ & Hb).
    rewrite Hrun in H1. injection H1 as <-. apply effect_quiet; [done| |done|lia].
    intros k Hk. rewrite Habs. unfold set_answered, slot_of. simpl. by rewrite list_lookup_insert_ne.
  - revert Hrun. unfold usbip_device_clear_event, modify. intros [= <-].
    case_bool_decide; [|by apply effect_quiet]. apply effect_quiet; [|done..|by simpl].
    apply wf_state_event; [done|]. done.
  - destruct (reset_state_spec (store σ) Hwf) as (s1 & H1 & Habs & Hwf' & _ & _ & Hb & _).
    rewrite Hrun in H1. injection H1 as <-. constructor; try done; [|lia|lia].
    apply (f_equal generation) in Habs. exact Habs.
  - destruct (stop_spec (store σ) Hwf) as (s1 & H1 & Habs & Hwf' & _ & Hb).
    rewrite Hrun in H1. injection H1 as <-. constructor; try done; [|lia|lia].
    apply (f_equal generation) in Habs. exact Habs.
Qed.

(** ** Runs *)

Lemma transmit_enter_sleeps th r s g seen s' :
  wf_state s → request_ok r → transmit_enter th r s = Ok (Waiting g seen) s' →
  s' = s ∧ seen = ep_data_consumed s ∧ transmit_waits th (ep_number (rq_ep r)) (abs s) = true.
Proof.
  intros Hwf (Hlen & Hmsg & Hb). rewrite transmit_enter_eq.
  pose proof (transmit_spec th s (rq_ep r) (rq_data r) (rq_length r) Hwf Hlen Hmsg Hb) as H.
  destruct (transmit_waits _ _ _); [rewrite H; by intros [= <- <- <-]|].
  destruct (spec_store _ _ _). destruct H as (? & -> & _). done.
Qed.

Lemma transmit_wake_sleeps th r g0 s g seen s' :
  wf_state s → request_ok r → transmit_wake th r g0 s = Ok (Waiting g seen) s' →
  s' = s ∧ seen = ep_data_consumed s ∧ transmit_waits th (ep_number (rq_ep r)) (abs s) = true.
Proof.
  intros Hwf Hr. destruct (decide (g0 = reset_generation s)) as [->|Hg].
  - rewrite transmit_wake_enter. by apply transmit_enter_sleeps.
  - rewrite transmit_wake_stale by done. destruct (transmit_waits _ _ _); [|done]. by intros [= <- <- <-].
Qed.

(** A caller after a step: the same, or the one that moved. *)
Lemma step_callers σ e σ' j c' :
  step σ e σ' → callers σ' !! j = Some c' →
  callers σ !! j = Some c' ∨
  ∃ c st, callers σ !! j = Some c ∧ c' = with_state st c ∧
    (c_state c = Calling ∧ transmit_enter (c_flags c) (c_request c) (store σ) = Ok st (store σ')
     ∨ ∃ g seen, c_state c = Waiting g seen ∧ transmit_wake (c_flags c) (c_request c) g (store σ) = Ok st (store σ')).
Proof.
  intros Hstep. destruct Hstep as [σ i c st s' Hi Hst Hrun|σ i c g seen st s' Hi Hst Hrun| | | | | | ]; cbn [callers]; auto.
  all: destruct (decide (j = i)) as [->|Hne]; [|rewrite list_lookup_insert_ne by done; auto].
  all: rewrite list_lookup_insert_eq by (by apply lookup_lt_Some in Hi); intros [= <-]; right; eauto 10.
Qed.

Lemma step_no_missed_wakeup σ e σ' :
  step σ e σ' → system_ok σ → no_missed_wakeup σ → no_missed_wakeup σ'.
Proof.
  intros Hstep Hok Hinv j c' g seen Hj Hst. destruct (step_effect _ _ _ Hstep Hok) as [Heff _].
  destruct Hok as [Hwf HF].
  destruct (step_callers _ _ _ _ _ Hstep Hj) as [Hold|(c & st & Hc & -> & Hmove)].
  - destruct (Hinv j c' g seen Hold Hst) as [Hle Hwake]. pose proof (eff_broadcasts _ _ _ Heff). split; [lia|].
    intros Hw'. destruct (transmit_waits (c_flags c') (ep_number (rq_ep (c_request c'))) (abs (store σ))) eqn:Hw.
    + pose proof (eff_signal _ _ _ Heff _ _ Hw Hw'). lia.
    + specialize (Hwake eq_refl). lia.
  - pose proof (Forall_lookup_1 _ _ _ _ HF Hc) as Hr. cbn [c_state with_state c_flags c_request] in *. subst st.
    assert (store σ' = store σ ∧ seen = ep_data_consumed (store σ)
      ∧ transmit_waits (c_flags c) (ep_number (rq_ep (c_request c))) (abs (store σ)) = true) as (-> & -> & ->).
    { destruct Hmove as [[_ Hrun]|(g0 & s0 & _ & Hrun)]; [by eapply transmit_enter_sleeps|by eapply transmit_wake_sleeps]. }
    done.
Qed.

Lemma steps_ok σ es σ' : steps σ es σ' → system_ok σ → system_ok σ'.
Proof. induction 1 as [|σ e σ1 es σ2 Hs _ IH]; [done|]. intros Hok. apply IH. by eapply step_effect. Qed.

(** A call that slept in a past generation never queues. *)
Definition cancelled (g : Z) (c : caller) : Prop :=
  (∃ seen, c_state c = Waiting g seen) ∨ c_state c = Returned false.

Lemma step_cancelled σ e σ' j g c :
  step σ e σ' → system_ok σ → callers σ !! j = Some c → cancelled g c → g ≠ reset_generation (store σ) →
  ∃ c', callers σ' !! j = Some c' ∧ cancelled g c'.
Proof.
  intros Hstep [Hwf HF] Hj Hc Hg.
  assert (length (callers σ') = length (callers σ)) as Hlen.
  { destruct Hstep; cbn [callers]; rewrite ?length_insert; done. }
  destruct (lookup_lt_is_Some_2 (callers σ') j) as [c' Hj']; [rewrite Hlen; by apply lookup_lt_Some in Hj|].
  exists c'. split; [done|]. destruct (step_callers _ _ _ _ _ Hstep Hj') as [Hold|(c0 & st & Hc0 & -> & Hmove)];
    [congruence|]. assert (c0 = c) as -> by congruence. pose proof (Forall_lookup_1 _ _ _ _ HF Hj) as Hr.
  destruct Hc as [[seen Hst]|Hst]; destruct Hmove as [[Hst' _]|(g0 & s0 & Hst' & Hrun)]; try congruence.
  assert (g0 = g) as -> by congruence. rewrite transmit_wake_stale in Hrun by done. injection Hrun as <- _.
  destruct (transmit_waits _ _ _); [left|right]; simpl; eauto.
Qed.

Lemma resets_cons e es : resets (e :: es) = (if is_reset e then 1 else 0) + resets es.
Proof. unfold resets. rewrite filter_cons. case_decide; destruct (is_reset e); simpl; try done; lia. Qed.

Lemma steps_cancelled σ es σ' j g c k :
  steps σ es σ' → system_ok σ → callers σ !! j = Some c → cancelled g c →
  0 ≤ g < 2 ^ 32 → 0 < k → reset_generation (store σ) = u32 (g + k) → k + resets es < 2 ^ 32 →
  ∃ c', callers σ' !! j = Some c' ∧ cancelled g c'.
Proof.
  intros Hsteps. revert c k. induction Hsteps as [σ|σ e σ1 es σ2 Hs _ IH]; intros c k Hok Hj Hc Hg Hk Hgen Hres; [eauto|].
  rewrite resets_cons in Hres. destruct (step_effect _ _ _ Hs Hok) as [Heff Hok1].
  assert (0 ≤ resets es) by (unfold resets; lia).
  destruct (step_cancelled _ _ _ _ _ _ Hs Hok Hj Hc) as (c1 & Hj1 & Hc1).
  { rewrite Hgen. unfold u32. destruct (decide (g + k < 2 ^ 32)); [rewrite Z.mod_small by lia; lia|].
    rewrite <-(Z_mod_plus_full _ (-1)), Z.mod_small; destruct (is_reset e); lia. }
  pose proof (eff_generation _ _ _ Heff) as Hgen1. destruct (is_reset e).
  - apply (IH c1 (k + 1)); try done; try lia. rewrite Hgen1, Hgen. unfold u32.
    rewrite Zplus_mod_idemp_l. f_equal. lia.
  - apply (IH c1 k); try done; congruence || lia.
Qed.

Lemma server_step_run {A} (m : M device_state A) ev σ e σ' :
  server_step m ev σ = Some (e, σ') →
  ∃ a s', m (store σ) = Ok a s' ∧ e = ev a ∧ σ' = {| store := s'; callers := callers σ |}.
Proof. unfold server_step. destruct (m (store σ)); naive_solver. Qed.

Lemma caller_step_run i run σ e σ' :
  caller_step i run σ = Some (e, σ') →
  ∃ c m st s', callers σ !! i = Some c ∧ run c = Some m ∧ m (store σ) = Ok st s' ∧ e = event_of (c_request c) st
    ∧ σ' = {| store := s'; callers := <[i := with_state st c]> (callers σ) |}.
Proof.
  unfold caller_step. destruct (callers σ !! i) as [c|]; simpl; [|done].
  destruct (run c) as [m|] eqn:Hr; simpl; [|done]. destruct (m (store σ)) as [st s'| |] eqn:Hm; [|done..].
  intros [= <- <-]. eauto 10.
Qed.

Lemma exec_sound a σ e σ' : exec a σ = Some (e, σ') → step σ e σ'.
Proof.
  destruct a as [i|i|ep n|n| | | |]; simpl;
    [| |destruct (Z.ltb_spec n 0); [done|]|destruct (Z.ltb_spec n 0); [done|]| | | |].
  1, 2: intros (c & m & st & s' & Hi & Hm & Hrun & -> & ->)%caller_step_run; destruct (c_state c) eqn:Hst; [..];
    simplify_eq; eauto using step.
  all: intros (r & s' & Hrun & -> & ->)%server_step_run; try destruct r; eauto using step.
Qed.

Lemma exec_all_sound acts σ es σ' : exec_all acts σ = Some (es, σ') → steps σ es σ'.
Proof.
  revert σ es. induction acts as [|a acts IH]; intros σ es; simpl; [intros [= <- <-]; constructor|].
  destruct (exec a σ) as [[e σ1]|] eqn:He; simpl; [|done].
  destruct (exec_all acts σ1) as [[es1 σ2]|] eqn:Hes; simpl; [|done].
  intros [= <- <-]. econstructor; [by apply exec_sound in He|by apply IH].
Qed.

(** ** Properties *)

(** C13: however the calls of any number of threads, the transfers of the host, resets and
    the stop of the server are interleaved, a thread asleep in [usbip_device_transmit]
    that could go on (its endpoint is empty or the server has stopped) has been woken by
    a broadcast after it fell asleep: no wake-up is ever missed. *)
Theorem no_wakeup_is_missed σ es σ' :
  system_ok σ → Forall (λ c, c_state c = Calling) (callers σ) → steps σ es σ' → no_missed_wakeup σ'.
Proof.
  intros Hok HF Hsteps. assert (no_missed_wakeup σ) as Hinv.
  { intros i c g seen Hi Hst. pose proof (Forall_lookup_1 _ _ _ _ HF Hi). simpl in *. congruence. }
  clear HF. induction Hsteps as [|σ e σ1 es σ2 Hs _ IH]; [done|].
  apply IH; [by eapply step_effect|by eapply step_no_missed_wakeup].
Qed.

(** C9: between resets, the host reads from an endpoint exactly the bytes the threads queued
    there, each message once and in the order in which the calls returned true, whatever
    the number of threads, the interleaving and the sizes of the transfers. *)
Theorem host_reads_what_was_queued σ es σ' k :
  system_ok σ → steps σ es σ' → Forall (λ e, clears e = false) es → k ≠ 0%nat →
  slot_of k (abs (store σ)) ++ concat (queued k <$> es) = concat (fetched k <$> es) ++ slot_of k (abs (store σ')).
Proof.
  intros Hok Hsteps HF Hk. induction Hsteps as [|σ e σ1 es σ2 Hs _ IH]; [by rewrite app_nil_r|].
  apply Forall_cons in HF as [He HF]. destruct (step_effect _ _ _ Hs Hok) as [Heff Hok1].
  cbn [fmap list_fmap concat]. rewrite <-app_assoc, <-(IH Hok1 HF), !app_assoc. f_equal. by apply Heff.
Qed.

(** C20: data transmitted before a reset never reaches the next host: a call that sleeps when
    the device is reset never queues its message, whatever happens next (for fewer than
    2^32 - 1 further resets, the range of the generation counter). *)
Theorem reset_cancels_sleeping_calls σ σ1 es σ2 i c g seen :
  system_ok σ → callers σ !! i = Some c → c_state c = Waiting g seen → g = reset_generation (store σ) →
  step σ ResetDone σ1 → steps σ1 es σ2 → resets es < 2 ^ 32 - 1 →
  ∃ c', callers σ2 !! i = Some c' ∧ ((∃ seen', c_state c' = Waiting g seen') ∨ c_state c' = Returned false).
Proof.
  intros Hok Hi Hst Hg Hs Hsteps Hres. destruct (step_effect _ _ _ Hs Hok) as [Heff Hok1].
  assert (callers σ1 !! i = Some c) as Hi1.
  { inversion Hs as [? ? ? st|? ? ? ? ? st| | | | | |]; simplify_eq/=; try done; by destruct st as [| |[]]. }
  eapply (steps_cancelled σ1 es σ2 i g c 1); try done; [left; eauto| |..|lia].
  - subst g. apply (wf_generation _ (proj1 Hok)).
  - rewrite (eff_generation _ _ _ Heff). subst g. done.
Qed.

Lemma slot_at_most s k : wf_state s → blen (slot_of k (abs s)) ≤ ENDPOINT_MAX_DATA_LENGTH.
Proof.
  intros Hwf. unfold slot_of. simpl. rewrite list_lookup_fmap.
  destruct (endpoint_data s !! k) as [e|] eqn:He; simpl; [|done].
  pose proof (Forall_lookup_1 _ _ _ _ (wf_endpoints s Hwf) He) as Hewf. rewrite blen_contents by done. apply Hewf.
Qed.

(** On an empty endpoint a sleeping call ends. *)
Lemma transmit_wake_empty th r g s :
  wf_state s → request_ok r → slot_of (ep_number (rq_ep r)) (abs s) = [] →
  ∃ s', transmit_wake th r g s =
    Ok (Returned (bool_decide (g = reset_generation s ∧ device_stopped s = false))) s'.
Proof.
  intros Hwf Hr Hslot. assert (transmit_waits th (ep_number (rq_ep r)) (abs s) = false) as Hw.
  { unfold transmit_waits. rewrite Hslot, (bool_decide_false ([] ≠ [])) by tauto. apply andb_false_r. }
  destruct (decide (g = reset_generation s)) as [->|Hg].
  - rewrite transmit_wake_enter, transmit_enter_eq. destruct Hr as (Hlen & Hmsg & Hb).
    pose proof (transmit_spec th s (rq_ep r) (rq_data r) (rq_length r) Hwf Hlen Hmsg Hb) as H.
    rewrite Hw in H. unfold spec_store in H. rewrite Hslot in H. simpl in H. destruct (device_stopped s).
    + destruct H as (s' & -> & _). rewrite bool_decide_false by naive_solver. eauto.
    + rewrite bool_decide_true by done. destruct (decide (_ = 0%nat)); destruct H as (s' & -> & _); eauto.
  - rewrite transmit_wake_stale, Hw by done. rewrite bool_decide_false by tauto. eauto.
Qed.

(** C21: a call never sleeps for ever while the host reads: one transfer of 512 bytes or more
    from its endpoint lets the next wake-up finish it, and it has queued its message
    exactly when the device was neither reset since it was called nor stopped. *)
Theorem one_transfer_releases_a_call σ i c g seen n :
  system_ok σ → callers σ !! i = Some c → c_state c = Waiting g seen → ENDPOINT_MAX_DATA_LENGTH ≤ n →
  ∃ out σ1 e σ2,
    step σ (Fetched (ep_number (rq_ep (c_request c))) out) σ1
    ∧ out = slot_of (ep_number (rq_ep (c_request c))) (abs (store σ))
    ∧ step σ1 e σ2
    ∧ callers σ2 !! i = Some (with_state
        (Returned (bool_decide (g = reset_generation (store σ) ∧ device_stopped (store σ) = false))) c).
Proof.
  intros [Hwf HF] Hi Hst Hn. unfold ENDPOINT_MAX_DATA_LENGTH in Hn. set (k := ep_number (rq_ep (c_request c))).
  pose proof (Forall_lookup_1 _ _ _ _ HF Hi) as Hr. simpl in Hr.
  pose proof (slot_at_most (store σ) k Hwf) as Hmax. unfold ENDPOINT_MAX_DATA_LENGTH in Hmax.
  destruct (fetch_spec (store σ) (rq_ep (c_request c)) (replicate (Z.to_nat n) 0) n Hwf) as (s1 & Hf & Habs & Hwf1 & Hsame & _);
    [lia|apply blen_take_replicate; lia|].
  destruct (transmit_wake_empty (c_flags c) (c_request c) g s1 Hwf1 Hr) as (s2 & Hwake).
  { fold k. rewrite Habs. unfold spec_fetch. cbn [snd]. rewrite slot_of_set_slot. fold k. case_decide; [|exfalso].
    - case_decide; [done|]. apply drop_ge. unfold blen in *. lia.
    - pose proof (wf_slot_count (store σ) Hwf). pose proof (ep_number_lt (rq_ep (c_request c))). unfold k in *. naive_solver lia. }
  destruct Hsame as (_ & _ & <- & _ & _ & <-).
  eexists _, {| store := s1; callers := callers σ |}, _, _. split; [eapply step_fetch; [|exact Hf]; lia|].
  split; [rewrite take_of_buffer; fold k; apply take_ge; unfold blen in *; lia|].
  split; [eapply step_wake; [exact Hi|exact Hst|exact Hwake]|].
  cbn [callers]. apply list_lookup_insert_eq. by apply lookup_lt_Some in Hi.
Qed.

(** *** Two threads on endpoint 1, and the host. *)
Definition call_of (msg : bytes) : caller :=
  {| c_flags := other_thread; c_request := {| rq_ep := 1; rq_data := msg; rq_length := blen msg |};
     c_state := Calling |}.
Definition two_callers : system := {| store := initial_device_state; callers := [call_of [1; 2]; call_of [3]] |}.

Lemma two_callers_ok : system_ok two_callers.
Proof. split; [apply wf_initial_device_state|]. repeat constructor; simpl; done || lia. Qed.

(** The second thread sleeps until the host has read both bytes of the first. *)
Definition sample_run : list action := [Enter 0; Enter 1; Fetch 1 1; Wake 1; Fetch 1 1; Wake 1; Fetch 1 64].
Definition after (acts : list action) : system :=
  match exec_all acts two_callers with Some (_, σ) => σ | None => two_callers end.
Definition events (acts : list action) : list event :=
  match exec_all acts two_callers with Some (es, _) => es | None => [] end.

Lemma sample_steps acts : is_Some (exec_all acts two_callers) → steps two_callers (events acts) (after acts).
Proof.
  intros [[es σ'] H]. unfold events, after. rewrite H. by eapply exec_all_sound.
Qed.

Lemma no_wakeup_is_missed_witness : no_missed_wakeup (after [Enter 0; Enter 1; Fetch 1 2]).
Proof.
  apply (no_wakeup_is_missed two_callers (events [Enter 0; Enter 1; Fetch 1 2])).
  - apply two_callers_ok.
  - repeat constructor.
  - apply sample_steps. eexists. vm_compute. reflexivity.
Defined.

Lemma host_reads_what_was_queued_witness :
  steps two_callers (events sample_run) (after sample_run)
  ∧ concat (queued 1 <$> events sample_run) = concat (fetched 1 <$> events sample_run)
  ∧ concat (fetched 1 <$> events sample_run) = [1; 2; 3].
Proof.
  assert (steps two_callers (events sample_run) (after sample_run)) as Hs
    by (apply sample_steps; eexists; vm_compute; reflexivity).
  split; [exact Hs|].
  pose proof (host_reads_what_was_queued two_callers (events sample_run) (after sample_run) 1 two_callers_ok Hs) as H.
  assert (concat (fetched 1 <$> events sample_run) = [1; 2; 3]) as Hf by (vm_compute; reflexivity).
  split; [|exact Hf]. rewrite Hf in *. apply (app_inj_1 [] []); [reflexivity|].
  assert (slot_of 1 (abs (store (after sample_run))) = []) as Hn by (vm_compute; reflexivity).
  rewrite Hn in H. apply H; [|discriminate].
  apply (bool_decide_eq_true_1 _). vm_compute. reflexivity.
Defined.

(** The second thread asleep, with the data of the first unread. *)
Definition one_asleep : system := after [Enter 0; Enter 1].
Definition run_from (acts : list action) (σ : system) : list event * system := default ([], σ) (exec_all acts σ).

Lemma run_from_steps acts σ : is_Some (exec_all acts σ) → steps σ (run_from acts σ).1 (run_from acts σ).2.
Proof. intros [[es σ'] H]. unfold run_from. rewrite H. by eapply exec_all_sound. Qed.

Lemma one_asleep_ok : system_ok one_asleep.
Proof.
  apply (steps_ok two_callers (events [Enter 0; Enter 1])); [|apply two_callers_ok].
  apply sample_steps. eexists. vm_compute. reflexivity.
Qed.

Lemma reset_cancels_sleeping_calls_witness :
  ∃ σ1 σ2 c', step one_asleep ResetDone σ1 ∧ steps σ1 (run_from [Wake 1] σ1).1 σ2
    ∧ callers σ2 !! 1%nat = Some c' ∧ cancelled 0 c'.
Proof.
  set (σ1 := (run_from [ResetDevice] one_asleep).2). exists σ1, (run_from [Wake 1] σ1).2.
  assert (step one_asleep ResetDone σ1) as Hr by (apply (exec_sound ResetDevice); vm_compute; reflexivity).
  assert (steps σ1 (run_from [Wake 1] σ1).1 (run_from [Wake 1] σ1).2) as Hs
    by (apply run_from_steps; eexists; vm_compute; reflexivity).
  destruct (reset_cancels_sleeping_calls one_asleep σ1 (run_from [Wake 1] σ1).1 (run_from [Wake 1] σ1).2 1
    (with_state (Waiting 0 0) (call_of [3])) 0 0 one_asleep_ok) as (c' & H1 & H2);
    [vm_compute; reflexivity|reflexivity|vm_compute; reflexivity|exact Hr|exact Hs|vm_compute; reflexivity|].
  exists c'. split; [exact Hr|]. split; [exact Hs|]. split; [exact H1|exact H2].
Defined.

Lemma one_transfer_releases_a_call_witness :
  ∃ σ1 e σ2, step one_asleep (Fetched 1 [1; 2]) σ1 ∧ step σ1 e σ2
    ∧ callers σ2 !! 1%nat = Some (with_state (Returned true) (call_of [3])).
Proof.
  destruct (one_transfer_releases_a_call one_asleep 1 (with_state (Waiting 0 0) (call_of [3])) 0 0 512 one_asleep_ok)
    as (out & σ1 & e & σ2 & H1 & -> & H2 & H3); [vm_compute; reflexivity|reflexivity|discriminate|].
  exists σ1, e, σ2. split; [exact H1|]. split; [exact H2|exact H3].
Defined.
