(* ===== verification/Descriptors.v ===== *)
(** * USB descriptors (include/descriptor_utils.h)

    Constants and helpers for descriptors, and the structure the code relies on
    when it walks a configuration: the configuration descriptor is a sequence of
    descriptors, each starting with its own length. The lemmas relate an index
    into the flat array to a position in that sequence. *)
From S2P Require Import Prelude.

Definition LOBYTE (x : Z) : Z := Z.land x 0xff.
Definition HIBYTE (x : Z) : Z := Z.land (Z.shiftr x 8) 0xff.

Definition USB_DEVICE_DESCRIPTOR_LENGTH : Z := 18.
Definition USB_BCD_DEVICE_REL : Z := 0x0200.
Definition USB_BCD_VERSION : Z := 0x0200.

Definition USB_DESCRIPTOR_TYPE_DEVICE : Z := 0x01.
Definition USB_DESCRIPTOR_TYPE_CONFIGURATION : Z := 0x02.
Definition USB_DESCRIPTOR_TYPE_STRING : Z := 0x03.
Definition USB_DESCRIPTOR_TYPE_INTERFACE : Z := 0x04.
Definition USB_DESCRIPTOR_TYPE_ENDPOINT : Z := 0x05.
Definition USB_DESCRIPTOR_TYPE_DEVICE_QUALIFIER : Z := 0x06.
Definition USB_DESCRIPTOR_TYPE_OTHER_SPEED_CONFIGURATION : Z := 0x07.
Definition USB_DESCRIPTOR_TYPE_HID : Z := 0x21.
Definition USB_DESCRIPTOR_TYPE_REPORT : Z := 0x22.

Definition USB_REQUEST_GET_STATUS : Z := 0.
Definition USB_REQUEST_CLEAR_FEATURE : Z := 1.
Definition USB_REQUEST_SET_FEATURE : Z := 3.
Definition USB_REQUEST_GET_DESCRIPTOR : Z := 6.
Definition USB_REQUEST_GET_CONFIGURATION : Z := 8.
Definition USB_REQUEST_SET_CONFIGURATION : Z := 9.
Definition USB_REQUEST_GET_INTERFACE : Z := 10.
Definition USB_REQUEST_SET_INTERFACE : Z := 11.

(** [(hi << 8) | lo] *)
Definition word16 (lo hi : Z) : Z := Z.lor (Z.shiftl hi 8) lo.

(** [(desc[3] << 8) | desc[2]], the wTotalLength of a configuration. *)
Definition total_length_of (config_desc : bytes) : cres Z :=
  let? hi := arr_get config_desc 3 in
  let? lo := arr_get config_desc 2 in
  Val (word16 lo hi).

(** ** Structure of a configuration *)

(** A descriptor starts with its length and its type. *)
Definition desc_type (d : bytes) : Z := default 0 (d !! 1%nat).
Definition wf_desc (d : bytes) : Prop :=
  d !! 0%nat = Some (blen d) ∧ 2 ≤ blen d ≤ 255 ∧ Forall is_byte d.

(** An endpoint descriptor has at least its 7 standard bytes. *)
Definition wf_sized (d : bytes) : Prop :=
  desc_type d = USB_DESCRIPTOR_TYPE_ENDPOINT → 7 ≤ blen d.
Definition wf_interface (d : bytes) : Prop :=
  desc_type d = USB_DESCRIPTOR_TYPE_INTERFACE → 9 ≤ blen d.

(** A whole configuration: the configuration descriptor (9 bytes, with the total
    length and the number of interfaces) and what follows it. *)
Record wf_config (ds : list bytes) : Prop := {
  wfc_descs : Forall wf_desc ds;
  wfc_sized : Forall wf_sized ds;
  wfc_interfaces : Forall wf_interface ds;
  wfc_head : ∃ c rest, ds = c :: rest ∧ desc_type c = USB_DESCRIPTOR_TYPE_CONFIGURATION
    ∧ blen c = 9
    ∧ Forall (λ d, desc_type d ≠ USB_DESCRIPTOR_TYPE_CONFIGURATION) rest;
  wfc_total : total_length_of (concat ds) = Val (blen (concat ds));
}.

(** Executable check: split a flat array into its descriptors. *)
Fixpoint split_descs (fuel : nat) (bs : bytes) : option (list bytes) :=
  match bs with
  | [] => Some []
  | n :: _ =>
      if bool_decide (2 ≤ n ≤ blen bs) then
        match fuel with
        | O => None
        | S fuel => rest ← split_descs fuel (drop (Z.to_nat n) bs);
                    Some (take (Z.to_nat n) bs :: rest)
        end
      else None
  end.

Definition is_byteb (b : Z) : bool := bool_decide (is_byte b).

#[global] Instance is_byte_dec b : Decision (is_byte b).
Proof. unfold is_byte. apply _. Defined.
#[global] Instance wf_desc_dec d : Decision (wf_desc d).
Proof. unfold wf_desc. apply _. Defined.
#[global] Instance wf_sized_dec d : Decision (wf_sized d).
Proof. unfold wf_sized. apply _. Defined.
#[global] Instance wf_interface_dec d : Decision (wf_interface d).
Proof. unfold wf_interface. apply _. Defined.

Definition cres_eqb (c : cres Z) (v : Z) : bool :=
  match c with Val x => x =? v | Err _ => false end.

Definition config_okb (bs : bytes) : bool :=
  match split_descs (length bs) bs with
  | Some (c :: rest) =>
      bool_decide (Forall wf_desc (c :: rest)) && bool_decide (Forall wf_sized (c :: rest))
      && bool_decide (Forall wf_interface (c :: rest))
      && (desc_type c =? USB_DESCRIPTOR_TYPE_CONFIGURATION) && (blen c =? 9)
      && bool_decide (Forall (λ d, desc_type d ≠ USB_DESCRIPTOR_TYPE_CONFIGURATION) rest)
      && cres_eqb (total_length_of bs) (blen bs)
  | _ => false
  end.

(** * Theorems *)

Lemma lor_shiftl_byte lo hi : is_byte lo → Z.lor (Z.shiftl hi 8) lo = lo + 256 * hi.
Proof.
  unfold is_byte. intros Hlo.
  pose proof (Z.add_lor_land (Z.shiftl hi 8) lo) as H.
  assert (Z.land (Z.shiftl hi 8) lo = 0) as Hz.
  { apply Z.bits_inj_iff'. intros i Hi. rewrite Z.land_spec, Z.bits_0.
    destruct (decide (i < 8)).
    - by rewrite Z.shiftl_spec_low by lia.
    - assert (Z.testbit lo i = false) as ->; [|apply andb_false_r].
      apply (Z.bounded_iff_bits_nonneg 8); lia. }
  rewrite Hz, Z.shiftl_mul_pow2 in H by lia. rewrite Z.shiftl_mul_pow2 by lia. lia.
Qed.

Lemma word16_add lo hi : is_byte lo → is_byte hi → word16 lo hi = lo + 256 * hi.
Proof. intros Hlo _. by apply lor_shiftl_byte. Qed.

(** A 16 bit value survives being stored as two little endian bytes. *)
Lemma word16_LOBYTE_HIBYTE x : 0 ≤ x < 65536 → word16 (LOBYTE x) (HIBYTE x) = x.
Proof.
  intros Hx. unfold LOBYTE, HIBYTE. change 0xff with (Z.ones 8).
  rewrite !Z.land_ones, Z.shiftr_div_pow2 by lia.
  rewrite word16_add; unfold is_byte; [|apply Z.mod_pos_bound; lia..].
  change (2 ^ 8) with 256. pose proof (Z.div_mod x 256). 
  rewrite (Z.mod_small (x / 256)) by (split; [apply Z.div_pos|apply Z.div_lt_upper_bound]; lia). lia.
Qed.

(** ** Windows of a flat array *)

Lemma arr_get_app_r {A} (pre w : list A) k :
  0 ≤ k → arr_get (pre ++ w) (blen pre + k) = arr_get w k.
Proof.
  intros Hk. unfold arr_get, blen in *. rewrite !decide_True by lia.
  rewrite lookup_app_r by lia.
  replace (Z.to_nat (Z.of_nat (length pre) + k) - length pre)%nat with (Z.to_nat k) by lia. done.
Qed.

Lemma arr_get_app_l {A} (w post : list A) k :
  k < blen w → arr_get (w ++ post) k = arr_get w k.
Proof.
  intros Hk. unfold arr_get, blen in *. case_decide; [|done]. by rewrite lookup_app_l by lia.
Qed.

Lemma arr_set_Val {A} (l : list A) i x : 0 ≤ i < blen l → arr_set l i x = Val (<[Z.to_nat i := x]> l).
Proof. intros. unfold arr_set. by rewrite decide_True. Qed.

Lemma arr_set_app_r {A} (pre w : list A) k x :
  0 ≤ k < blen w → arr_set (pre ++ w) (blen pre + k) x = Val (pre ++ <[Z.to_nat k := x]> w).
Proof.
  intros Hk. rewrite arr_set_Val by (rewrite blen_app; unfold blen in *; lia).
  f_equal. unfold blen in *. rewrite insert_app_r_alt by lia. f_equal. f_equal. lia.
Qed.

Lemma arr_get_Val_0 d : wf_desc d → arr_get d 0 = Val (blen d).
Proof. intros (H & _). by apply arr_get_Val. Qed.

Lemma arr_get_Val_1 d : wf_desc d → arr_get d 1 = Val (desc_type d).
Proof.
  intros (_ & Hl & _). apply arr_get_Val. split; [lia|]. unfold desc_type.
  destruct (lookup_lt_is_Some_2 d 1) as [x Hx]; [unfold blen in *; lia|].
  change (Z.to_nat 1) with 1%nat. by rewrite Hx.
Qed.

Lemma wf_desc_nonempty d : wf_desc d → 0 < blen d.
Proof. intros (_ & ? & _). lia. Qed.

Lemma wf_concat_byte ds : Forall wf_desc ds → Forall is_byte (concat ds).
Proof. induction 1 as [|d ds (_ & _ & Hb) _ IH]; simpl; [done|]. by apply Forall_app. Qed.

Lemma concat_length_le (ds : list bytes) : Forall wf_desc ds → (length ds ≤ length (concat ds))%nat.
Proof.
  induction 1 as [|d ds (_ & Hd & _) _ IH]; simpl; [done|]. rewrite length_app. unfold blen in Hd. lia.
Qed.

(** Reading inside one descriptor of a sequence. *)
Lemma arr_get_window {A} (pre d rest : list A) k :
  0 ≤ k < blen d → arr_get (pre ++ d ++ rest) (blen pre + k) = arr_get d k.
Proof. intros. rewrite arr_get_app_r, arr_get_app_l by lia. done. Qed.

(** ** The executable check *)

Lemma split_descs_concat fuel bs ds : split_descs fuel bs = Some ds → concat ds = bs.
Proof.
  revert bs ds. induction fuel as [|fuel IH]; intros [|n bs] ds; simpl; try naive_solver.
  - case_bool_decide; naive_solver.
  - case_bool_decide; [|done]. intros H'. apply bind_Some in H' as (rest & Hr & [= <-]).
    apply IH in Hr. simpl. rewrite Hr. by rewrite (take_drop (Z.to_nat n) (n :: bs)).
Qed.

Lemma config_okb_split bs ds :
  config_okb bs = true → split_descs (length bs) bs = Some ds → bs = concat ds ∧ wf_config ds.
Proof.
  unfold config_okb. intros Hok E. rewrite E in Hok. destruct ds as [|c rest]; [done|].
  revert Hok. rewrite !andb_true_iff, !bool_decide_eq_true, !Z.eqb_eq.
  intros ((((((? & ?) & ?) & ?) & ?) & ?) & Ht).
  apply split_descs_concat in E as <-. split; [done|]. constructor; [done..|naive_solver|].
  unfold cres_eqb in Ht. destruct (total_length_of _); [|done]. f_equal. by apply Z.eqb_eq.
Qed.

Lemma config_okb_sound bs : config_okb bs = true → ∃ ds, bs = concat ds ∧ wf_config ds.
Proof.
  intros Hok. destruct (split_descs (length bs) bs) as [ds|] eqn:E.
  - exists ds. by apply config_okb_split.
  - unfold config_okb in Hok. by rewrite E in Hok.
Qed.

(** The form used for concrete configurations. *)
Lemma wf_config_check ds :
  config_okb (concat ds) = true → split_descs (length (concat ds)) (concat ds) = Some ds → wf_config ds.
Proof. intros H1 H2. by destruct (config_okb_split _ _ H1 H2). Qed.

(** The lengths in the descriptors determine where each of them ends. *)
Lemma wf_descs_unique ds ds' : Forall wf_desc ds → Forall wf_desc ds' → concat ds = concat ds' → ds = ds'.
Proof.
  intros Hds. revert ds'. induction Hds as [|d ds Hd _ IH]; intros ds' Hds' Heq.
  - destruct Hds' as [|d' ds' Hd' _]; [done|]. pose proof (wf_desc_nonempty d' Hd'). destruct d'; [done|]. done.
  - destruct Hds' as [|d' ds' Hd' Hds'].
    { pose proof (wf_desc_nonempty d Hd). destruct d; [done|]. done. }
    cbn [concat] in Heq. assert (length d = length d') as Hl.
    { pose proof (wf_desc_nonempty d Hd). pose proof (wf_desc_nonempty d' Hd').
      assert (d !! 0%nat = d' !! 0%nat) as Hhead.
      { by rewrite <-(lookup_app_l d (concat ds)), Heq, lookup_app_l by (unfold blen in *; lia). }
      rewrite (proj1 Hd), (proj1 Hd') in Hhead. injection Hhead as Hhead. unfold blen in Hhead. lia. }
    apply app_inj_1 in Heq as [-> Heq]; [|done]. f_equal. by apply IH.
Qed.

Lemma wf_config_unique ds ds' : wf_config ds → wf_config ds' → concat ds = concat ds' → ds = ds'.
Proof. intros [] []. by apply wf_descs_unique. Qed.
