(* ===== verification/OtherSpeed.v ===== *)
(** * The other-speed configuration (build_other_speed_config of src/lib/usbip_device.c)

    The loop works in place on a copy of the configuration descriptor. The
    reference definition [full_speed_desc] says, per descriptor, what a full speed
    host has to see; the main theorem is that the loop computes exactly the
    sequence of converted descriptors, for every well-formed configuration. *)
From S2P Require Import Prelude Descriptors.

Definition USB_TRANSFER_TYPE_ISOCHRONOUS : Z := 1.
Definition USB_TRANSFER_TYPE_BULK : Z := 2.
Definition USB_TRANSFER_TYPE_INTERRUPT : Z := 3.
Definition FULL_SPEED_MAX_PACKET_SIZE : Z := 64.
Definition FULL_SPEED_MAX_ISO_PACKET_SIZE : Z := 1023.

(** The interrupt interval in milliseconds, from a high speed bInterval. *)
Definition interrupt_interval_ms (bInterval : Z) : Z :=
  let exponent := if 16 <? bInterval then 16 else bInterval in
  let interval_ms := Z.shiftl 1 (exponent - 1) / 8 in
  if interval_ms <? 1 then 1 else if 255 <? interval_ms then 255 else interval_ms.

(** Branch for bulk and interrupt endpoints; [idx] is the position of the
    descriptor in [buffer]. *)
Definition convert_bulk_interrupt (buffer : bytes) (idx transfer_type : Z) : cres bytes :=
  let? d5 := arr_get buffer (idx + 5) in
  let? d4 := arr_get buffer (idx + 4) in
  let? buffer := (if FULL_SPEED_MAX_PACKET_SIZE <? word16 d4 d5 then
                    let? b := arr_set buffer (idx + 4) FULL_SPEED_MAX_PACKET_SIZE in
                    arr_set b (idx + 5) 0
                  else Val buffer) in
  if transfer_type =? USB_TRANSFER_TYPE_INTERRUPT then
    let? d6 := arr_get buffer (idx + 6) in
    if 0 <? d6 then arr_set buffer (idx + 6) (interrupt_interval_ms d6) else Val buffer
  else Val buffer.

(** Branch for isochronous endpoints. *)
Definition convert_isochronous (buffer : bytes) (idx : Z) : cres bytes :=
  let? d5 := arr_get buffer (idx + 5) in
  let? d4 := arr_get buffer (idx + 4) in
  let max_packet_size := Z.land (word16 d4 d5) 0x07ff in
  let max_packet_size := if FULL_SPEED_MAX_ISO_PACKET_SIZE <? max_packet_size
                         then FULL_SPEED_MAX_ISO_PACKET_SIZE else max_packet_size in
  let? buffer := arr_set buffer (idx + 4) (Z.land max_packet_size 0xff) in
  let? buffer := arr_set buffer (idx + 5) (Z.shiftr max_packet_size 8) in
  let? d6 := arr_get buffer (idx + 6) in
  arr_set buffer (idx + 6) (if 3 <? d6 then d6 - 3 else 1).

(** Body of the while loop, before [idx += desc[0]]. *)
Definition convert_at (buffer : bytes) (idx : Z) : cres bytes :=
  let? d3 := arr_get buffer (idx + 3) in
  let transfer_type := Z.land d3 0x03 in
  let? d1 := arr_get buffer (idx + 1) in
  if (d1 =? USB_DESCRIPTOR_TYPE_ENDPOINT)
     && ((transfer_type =? USB_TRANSFER_TYPE_BULK) || (transfer_type =? USB_TRANSFER_TYPE_INTERRUPT))
  then convert_bulk_interrupt buffer idx transfer_type
  else if (d1 =? USB_DESCRIPTOR_TYPE_ENDPOINT) && (transfer_type =? USB_TRANSFER_TYPE_ISOCHRONOUS)
  then convert_isochronous buffer idx
  else Val buffer.

(** [while ((idx + 7 <= total_length) && (buffer[idx] > 0))]. *)
Fixpoint convert_loop (fuel : nat) (buffer : bytes) (idx total_length : Z) : cres bytes :=
  if idx + 7 <=? total_length then
    let? d0 := arr_get buffer idx in
    if 0 <? d0 then
      match fuel with
      | O => Err Diverges
      | S fuel =>
          let? buffer := convert_at buffer idx in
          let? d0 := arr_get buffer idx in
          convert_loop fuel buffer (idx + d0) total_length
      end
    else Val buffer
  else Val buffer.

(** Returns the length and the filled buffer. [idx] grows in every iteration, so
    [total_length] iterations are enough. *)
Definition build_other_speed_config (config_desc buffer : bytes) (buffer_length : Z) :
    cres (Z * bytes) :=
  let? total := total_length_of config_desc in
  let total_length := if buffer_length <? total then buffer_length else total in
  let? buffer := memcpy buffer 0 config_desc 0 total_length in
  let? buffer := arr_set buffer 1 USB_DESCRIPTOR_TYPE_OTHER_SPEED_CONFIGURATION in
  let? buffer := convert_loop (Z.to_nat total_length) buffer 0 total_length in
  Val (total_length, buffer).

(** ** Reference: what a full speed host sees of one descriptor *)

(** Packet size field [lo, hi] and bInterval of an endpoint at full speed. *)
Definition full_speed_fields (transfer_type lo hi interval : Z) : Z * Z * Z :=
  let size := lo + 256 * hi in
  if decide (transfer_type = USB_TRANSFER_TYPE_BULK) then
    (Z.min size 64 mod 256, Z.min size 64 / 256, interval)
  else if decide (transfer_type = USB_TRANSFER_TYPE_INTERRUPT) then
    (Z.min size 64 mod 256, Z.min size 64 / 256,
     if decide (interval = 0) then 0 else Z.max 1 (Z.min 255 (2 ^ (Z.min interval 16 - 1) / 8)))
  else if decide (transfer_type = USB_TRANSFER_TYPE_ISOCHRONOUS) then
    (Z.min (size mod 2048) 1023 mod 256, Z.min (size mod 2048) 1023 / 256, Z.max 1 (interval - 3))
  else (lo, hi, interval).

Definition full_speed_desc (d : bytes) : bytes :=
  match d with
  | len :: ty :: addr :: attr :: lo :: hi :: interval :: rest =>
      if decide (ty = USB_DESCRIPTOR_TYPE_ENDPOINT) then
        let '(lo', hi', interval') := full_speed_fields (attr mod 4) lo hi interval in
        len :: ty :: addr :: attr :: lo' :: hi' :: interval' :: rest
      else d
  | _ => d
  end.

(** The configuration descriptor itself only changes its type. *)
Definition other_speed_head (c : bytes) : bytes :=
  <[1%nat := USB_DESCRIPTOR_TYPE_OTHER_SPEED_CONFIGURATION]> c.

Definition other_speed_descs (ds : list bytes) : list bytes :=
  match ds with
  | [] => []
  | c :: rest => other_speed_head c :: (full_speed_desc <$> rest)
  end.

(** * Theorems *)

Lemma word16_cap lo hi :
  is_byte lo → is_byte hi →
  (if 64 <? word16 lo hi then (64, 0) else (lo, hi))
    = (Z.min (lo + 256 * hi) 64 mod 256, Z.min (lo + 256 * hi) 64 / 256).
Proof.
  intros Hlo Hhi. rewrite word16_add by done. unfold is_byte in *.
  destruct (Z.ltb_spec 64 (lo + 256 * hi)).
  - by rewrite Z.min_r by lia.
  - rewrite Z.min_l by lia. assert (hi = 0) as -> by lia.
    rewrite Z.mod_small, Z.div_small by lia. f_equal; lia.
Qed.

Lemma word16_iso_cap lo hi :
  is_byte lo → is_byte hi →
  let m := Z.land (word16 lo hi) 0x07ff in
  let m := if FULL_SPEED_MAX_ISO_PACKET_SIZE <? m then FULL_SPEED_MAX_ISO_PACKET_SIZE else m in
  Z.land m 0xff = Z.min ((lo + 256 * hi) mod 2048) 1023 mod 256
  ∧ Z.shiftr m 8 = Z.min ((lo + 256 * hi) mod 2048) 1023 / 256.
Proof.
  intros Hlo Hhi m m'. unfold m', m, FULL_SPEED_MAX_ISO_PACKET_SIZE.
  change 0x07ff with (Z.ones 11). change 0xff with (Z.ones 8).
  rewrite word16_add by done. rewrite !Z.land_ones, Z.shiftr_div_pow2 by lia.
  change (2 ^ 11) with 2048. change (2 ^ 8) with 256.
  destruct (Z.ltb_spec 1023 ((lo + 256 * hi) mod 2048)); [rewrite !Z.min_r by lia|rewrite !Z.min_l by lia]; done.
Qed.

Lemma interrupt_interval_ms_spec b :
  0 < b → interrupt_interval_ms b = Z.max 1 (Z.min 255 (2 ^ (Z.min b 16 - 1) / 8)).
Proof.
  intros Hb. unfold interrupt_interval_ms.
  replace (if 16 <? b then 16 else b) with (Z.min b 16) by (destruct (Z.ltb_spec 16 b); lia).
  rewrite Z.shiftl_mul_pow2, Z.mul_1_l by lia. set (v := 2 ^ _ / 8).
  destruct (Z.ltb_spec v 1); [lia|]. destruct (Z.ltb_spec 255 v); lia.
Qed.

(** The conversion of the descriptor at [idx] touches its seven standard bytes
    only, wherever it lies in the buffer. *)
Section window.
Context (pre : bytes) (b0 b1 b2 b3 b4 b5 b6 : Z) (tail : bytes).
Let w := b0 :: b1 :: b2 :: b3 :: b4 :: b5 :: b6 :: tail.
Context (Hb : Forall is_byte w).

(** Step through reads and writes at constant offsets of a window. *)
Ltac window_steps :=
  repeat first
    [ rewrite arr_get_app_r by lia
    | rewrite arr_set_app_r by (unfold blen; simpl; lia)
    | progress simpl ].

Lemma convert_bulk_interrupt_window tt :
  tt = USB_TRANSFER_TYPE_BULK ∨ tt = USB_TRANSFER_TYPE_INTERRUPT →
  let '(lo, hi, i) := full_speed_fields tt b4 b5 b6 in
  convert_bulk_interrupt (pre ++ w) (blen pre) tt =
    Val (pre ++ b0 :: b1 :: b2 :: b3 :: lo :: hi :: i :: tail).
Proof using Hb.
  intros Htt. unfold w in Hb. rewrite !Forall_cons in Hb.
  destruct Hb as (_ & _ & _ & _ & H4 & H5 & H6 & _). unfold is_byte in H6.
  unfold convert_bulk_interrupt, w, FULL_SPEED_MAX_PACKET_SIZE, full_speed_fields.
  pose proof (word16_cap b4 b5 H4 H5) as Hcap.
  destruct Htt as [-> | ->]; window_steps; destruct (64 <? word16 b4 b5);
    injection Hcap as Hlo Hhi; rewrite <-Hlo, <-Hhi; window_steps; try done.
  all: destruct (Z.ltb_spec 0 b6); [rewrite decide_False by lia; by rewrite interrupt_interval_ms_spec|].
  all: replace b6 with 0 by lia; done.
Qed.

Lemma convert_isochronous_window :
  let '(lo, hi, i) := full_speed_fields USB_TRANSFER_TYPE_ISOCHRONOUS b4 b5 b6 in
  convert_isochronous (pre ++ w) (blen pre) =
    Val (pre ++ b0 :: b1 :: b2 :: b3 :: lo :: hi :: i :: tail).
Proof using Hb.
  unfold w in Hb. rewrite !Forall_cons in Hb.
  destruct Hb as (_ & _ & _ & _ & H4 & H5 & H6 & _).
  destruct (word16_iso_cap b4 b5 H4 H5) as [Hlo Hhi].
  unfold convert_isochronous, w, full_speed_fields. window_steps.
  rewrite Hlo, Hhi. window_steps. do 8 f_equal.
  destruct (Z.ltb_spec 3 b6); [rewrite Z.max_r by lia|rewrite Z.max_l by lia]; done.
Qed.

Lemma convert_at_window : convert_at (pre ++ w) (blen pre) = Val (pre ++ full_speed_desc w).
Proof using Hb.
  pose proof convert_bulk_interrupt_window as Hbi. pose proof convert_isochronous_window as Hiso.
  unfold convert_at, full_speed_desc. unfold w at 1 2 5. window_steps.
  change 3 with (Z.ones 2). rewrite Z.land_ones by lia. change (2 ^ 2) with 4.
  unfold USB_DESCRIPTOR_TYPE_ENDPOINT. destruct (Z.eqb_spec b1 5); [rewrite decide_True by done|by rewrite decide_False].
  simpl. destruct (Z.eqb_spec (b3 mod 4) USB_TRANSFER_TYPE_BULK) as [->|]; simpl.
  { specialize (Hbi _ (or_introl eq_refl)). revert Hbi. by destruct (full_speed_fields _ _ _ _) as [[??]?]. }
  destruct (Z.eqb_spec (b3 mod 4) USB_TRANSFER_TYPE_INTERRUPT) as [->|]; simpl.
  { specialize (Hbi _ (or_intror eq_refl)). revert Hbi. by destruct (full_speed_fields _ _ _ _) as [[??]?]. }
  destruct (Z.eqb_spec (b3 mod 4) USB_TRANSFER_TYPE_ISOCHRONOUS) as [->|]; simpl.
  { exact Hiso. }
  unfold full_speed_fields. by rewrite !decide_False.
Qed.
End window.

Lemma list_7 (w : bytes) :
  7 ≤ blen w → ∃ b0 b1 b2 b3 b4 b5 b6 tail, w = b0 :: b1 :: b2 :: b3 :: b4 :: b5 :: b6 :: tail.
Proof.
  unfold blen. intros H.
  destruct w as [|? [|? [|? [|? [|? [|? [|? ?]]]]]]]; simpl in H; try lia. by eexists _, _, _, _, _, _, _, _.
Qed.

Lemma convert_at_spec (pre w : bytes) :
  7 ≤ blen w → Forall is_byte w → convert_at (pre ++ w) (blen pre) = Val (pre ++ full_speed_desc w).
Proof. intros (b0 & b1 & b2 & b3 & b4 & b5 & b6 & tail & ->)%list_7 Hb. by apply convert_at_window. Qed.

Lemma full_speed_fields_byte tt lo hi i :
  is_byte lo → is_byte hi → is_byte i →
  let '(lo', hi', i') := full_speed_fields tt lo hi i in is_byte lo' ∧ is_byte hi' ∧ is_byte i'.
Proof.
  intros Hlo Hhi Hi. unfold full_speed_fields.
  assert (0 ≤ lo + 256 * hi < 65536) as Hs by (unfold is_byte in *; lia).
  pose proof (Z.mod_pos_bound (lo + 256 * hi) 2048) as Hm.
  assert (∀ x, is_byte (x mod 256)) as Hmod by (intros x; by apply Z.mod_pos_bound).
  assert (∀ x, 0 ≤ x < 65536 → is_byte (x / 256)) as Hdiv.
  { intros x Hx. split; [apply Z.div_pos|apply Z.div_lt_upper_bound]; lia. }
  repeat case_decide; (split; [|split]); auto; try (apply Hdiv; lia); unfold is_byte in *; lia.
Qed.

Lemma full_speed_desc_app d rest :
  wf_desc d → wf_sized d → full_speed_desc (d ++ rest) = full_speed_desc d ++ rest.
Proof.
  intros (H0 & Hl & _) Hs. unfold wf_sized, desc_type in Hs.
  destruct (decide (7 ≤ blen d)) as [H7|H7].
  - apply list_7 in H7 as (b0 & b1 & b2 & b3 & b4 & b5 & b6 & tail & ->).
    unfold full_speed_desc. simpl. case_decide; [|done]. by destruct (full_speed_fields _ _ _ _) as [[??]?].
  - destruct d as [|b0 [|b1 d]]; [done|unfold blen in Hl; simpl in Hl; lia|].
    simpl in Hs. assert (b1 ≠ USB_DESCRIPTOR_TYPE_ENDPOINT) as Hne by tauto.
    assert (∀ l, full_speed_desc (b0 :: b1 :: l) = b0 :: b1 :: l) as Hid.
    { intros l. unfold full_speed_desc. destruct l as [|? [|? [|? [|? [|? ?]]]]]; try done.
      by rewrite decide_False. }
    rewrite Hid. apply (Hid (d ++ rest)).
Qed.

Lemma full_speed_desc_short d : blen d < 7 → full_speed_desc d = d.
Proof.
  unfold blen. intros H. destruct d as [|? [|? [|? [|? [|? [|? [|? ?]]]]]]]; try done. simpl in H. lia.
Qed.

(** Whatever it is applied to, the conversion keeps length, first two bytes and
    the byte range. *)
Lemma full_speed_desc_keeps (w : bytes) :
  Forall is_byte w →
  length (full_speed_desc w) = length w ∧ take 2 (full_speed_desc w) = take 2 w
    ∧ Forall is_byte (full_speed_desc w).
Proof.
  intros Hb. destruct (decide (7 ≤ blen w)) as [H7|H7]; [|by rewrite full_speed_desc_short by lia].
  apply list_7 in H7 as (b0 & b1 & b2 & b3 & b4 & b5 & b6 & tail & ->).
  unfold full_speed_desc. case_decide; [|done].
  rewrite !Forall_cons in Hb. destruct Hb as (? & ? & ? & ? & ? & ? & ? & ?).
  pose proof (full_speed_fields_byte (b3 mod 4) b4 b5 b6) as Hf.
  destruct (full_speed_fields _ _ _ _) as [[lo hi] i]. destruct Hf as (? & ? & ?); [done..|].
  split; [done|]. split; [done|]. rewrite !Forall_cons. tauto.
Qed.

Lemma lookup_take_2 {A} (v w : list A) i : take 2 v = take 2 w → (i < 2)%nat → v !! i = w !! i.
Proof. intros H Hi. rewrite <-(lookup_take_lt v 2 i), H by done. by apply lookup_take_lt. Qed.

Lemma full_speed_desc_shape d :
  wf_desc d → blen (full_speed_desc d) = blen d ∧ wf_desc (full_speed_desc d)
    ∧ desc_type (full_speed_desc d) = desc_type d.
Proof.
  intros (H0 & Hl & Hb). destruct (full_speed_desc_keeps d Hb) as (Hlen & H2 & Hb').
  assert (blen (full_speed_desc d) = blen d) as Hbl by (unfold blen; by rewrite Hlen).
  split; [done|]. unfold wf_desc, desc_type. rewrite Hbl.
  rewrite !(lookup_take_2 _ _ _ H2) by lia. done.
Qed.

(** ** The loop *)

(** One iteration in the middle of any buffer. *)
Lemma convert_at_any buffer idx :
  0 ≤ idx → idx + 7 ≤ blen buffer → Forall is_byte buffer →
  ∃ buffer', convert_at buffer idx = Val buffer' ∧ blen buffer' = blen buffer
    ∧ Forall is_byte buffer' ∧ arr_get buffer' idx = arr_get buffer idx.
Proof.
  intros Hi Hlen Hb. set (pre := take (Z.to_nat idx) buffer). set (w := drop (Z.to_nat idx) buffer).
  assert (buffer = pre ++ w) as Hsplit by (unfold pre, w; by rewrite take_drop).
  assert (blen pre = idx) as Hpre by (unfold pre; rewrite blen_take; lia).
  assert (Forall is_byte pre ∧ Forall is_byte w) as [Hbp Hbw].
  { unfold pre, w. split; [by apply Forall_take|by apply Forall_drop]. }
  assert (7 ≤ blen w) as Hw by (unfold w; rewrite blen_drop; lia).
  destruct (full_speed_desc_keeps w Hbw) as (Hl & H2 & Hb').
  exists (pre ++ full_speed_desc w). rewrite Hsplit, <-Hpre at 1. rewrite convert_at_spec by done.
  split; [done|]. split; [rewrite Hsplit, !blen_app; unfold blen; by rewrite Hl|].
  split; [by apply Forall_app|]. rewrite Hsplit, <-Hpre, <-(Z.add_0_r (blen pre)), !arr_get_app_r by lia.
  unfold arr_get. by rewrite (lookup_take_2 _ _ _ H2) by (simpl; lia).
Qed.

Lemma convert_loop_safe fuel buffer idx total :
  0 ≤ idx → total ≤ blen buffer → Forall is_byte buffer → total - idx ≤ Z.of_nat fuel →
  ∃ buffer', convert_loop fuel buffer idx total = Val buffer' ∧ blen buffer' = blen buffer
    ∧ Forall is_byte buffer'.
Proof.
  revert buffer idx. induction fuel as [|fuel IH]; intros buffer idx Hi Ht Hb Hf; simpl;
    (destruct (Z.leb_spec (idx + 7) total); [|by exists buffer]); [lia|].
  destruct (convert_at_any buffer idx) as (b' & Hc & Hl & Hb' & Hg); [lia..|done|].
  destruct (lookup_lt_is_Some_2 buffer (Z.to_nat idx)) as [d0 Hd0]; [unfold blen in *; lia|].
  assert (arr_get buffer idx = Val d0) as Hget by (by apply arr_get_Val).
  rewrite Hget. simpl. destruct (Z.ltb_spec 0 d0); [|by exists buffer].
  rewrite Hc. simpl. rewrite Hg, Hget. simpl.
  destruct (IH b' (idx + d0)) as (b'' & ? & ? & ?); [lia..|done|lia|]. exists b''. by rewrite <-Hl.
Qed.

Lemma full_speed_descs_short ds : blen (concat ds) < 7 → full_speed_desc <$> ds = ds.
Proof.
  induction ds as [|d ds IH]; [done|]. cbn [concat]. rewrite blen_app, fmap_cons. intros H.
  pose proof (blen_nonneg d). pose proof (blen_nonneg (concat ds)).
  rewrite full_speed_desc_short, IH by lia. done.
Qed.

(** On a sequence of descriptors, the loop converts each of them in place. *)
Lemma convert_loop_spec fuel pre ds post :
  Forall wf_desc ds → Forall wf_sized ds → Forall is_byte post → (length ds ≤ fuel)%nat →
  convert_loop fuel (pre ++ concat ds ++ post) (blen pre) (blen pre + blen (concat ds)) =
    Val (pre ++ concat (full_speed_desc <$> ds) ++ post).
Proof.
  intros Hwf Hs Hpost. revert fuel pre.
  induction Hwf as [|d ds Hd Hwf IH]; intros fuel pre Hfuel.
  { unfold convert_loop; destruct fuel; simpl; by rewrite Z.add_0_r, (proj2 (Z.leb_gt _ _)) by lia. }
  apply Forall_cons in Hs as [Hsd Hs]. destruct fuel as [|fuel]; simpl in Hfuel; [lia|].
  set (w := concat (d :: ds)). cbn [convert_loop].
  destruct (Z.leb_spec (blen pre + 7) (blen pre + blen w)) as [H7|H7].
  2: { by rewrite full_speed_descs_short by (unfold w in H7; lia). }
  assert (∀ k l, arr_get (pre ++ (d ++ l) ++ k) (blen pre) = Val (blen d)) as Hhead.
  { intros k l. rewrite <-(Z.add_0_r (blen pre)), arr_get_app_r by lia. pose proof (wf_desc_nonempty d Hd).
    rewrite <-app_assoc, arr_get_app_l by lia. by apply arr_get_Val_0. }
  unfold w in *. simpl in *. rewrite Hhead. simpl. pose proof (wf_desc_nonempty d Hd).
  rewrite (proj2 (Z.ltb_lt _ _)) by lia.
  rewrite convert_at_spec.
  2: { rewrite blen_app. pose proof (blen_nonneg post). lia. }
  2: { rewrite !Forall_app. pose proof (wf_concat_byte ds Hwf). by destruct Hd as (_ & _ & ?). }
  simpl. rewrite <-(app_assoc d), full_speed_desc_app by done.
  destruct (full_speed_desc_shape d Hd) as (Hlen & Hd' & _).
  rewrite <-(Z.add_0_r (blen pre)) at 1.
  rewrite arr_get_app_r, arr_get_app_l by (pose proof (wf_desc_nonempty _ Hd'); lia).
  rewrite arr_get_Val_0 by done. simpl. rewrite Hlen, (app_assoc pre), blen_app.
  replace (blen pre + blen d) with (blen (pre ++ full_speed_desc d)) by (rewrite blen_app; lia).
  replace (blen pre + (blen d + blen (concat ds)))
    with (blen (pre ++ full_speed_desc d) + blen (concat ds)) by (rewrite blen_app; lia).
  rewrite IH by (done || lia). by rewrite <-!app_assoc.
Qed.

(** ** Properties *)

Lemma other_speed_head_shape c :
  wf_desc c → desc_type (other_speed_head c) = USB_DESCRIPTOR_TYPE_OTHER_SPEED_CONFIGURATION
    ∧ wf_desc (other_speed_head c) ∧ blen (other_speed_head c) = blen c.
Proof.
  intros (H0 & Hl & Hb). unfold other_speed_head, desc_type, wf_desc. rewrite blen_insert.
  rewrite list_lookup_insert_eq by (unfold blen in *; lia). rewrite list_lookup_insert_ne by lia.
  split; [done|]. split; [|done]. split; [done|]. split; [done|]. by apply Forall_insert.
Qed.

Lemma full_speed_desc_other d :
  desc_type d ≠ USB_DESCRIPTOR_TYPE_ENDPOINT → full_speed_desc d = d.
Proof.
  unfold desc_type. intros H. destruct (decide (7 ≤ blen d)) as [H7|]; [|by apply full_speed_desc_short; lia].
  apply list_7 in H7 as (b0 & b1 & b2 & b3 & b4 & b5 & b6 & tail & ->).
  unfold full_speed_desc. by rewrite decide_False.
Qed.

Lemma memcpy_whole {A} (dst src : list A) :
  blen src ≤ blen dst → memcpy dst 0 src 0 (blen src) = Val (splice dst 0 src).
Proof.
  intros H. pose proof (blen_nonneg src). unfold memcpy, mem_read, mem_write.
  rewrite decide_True by lia. simpl. rewrite drop_0, take_ge by (unfold blen; lia). by rewrite decide_True by lia.
Qed.

(** [buffer[1] = ...] changes the type of the first descriptor. *)
Lemma set_head_type c rest post :
  wf_desc c →
  arr_set ((c ++ rest) ++ post) 1 USB_DESCRIPTOR_TYPE_OTHER_SPEED_CONFIGURATION =
    Val ((other_speed_head c ++ rest) ++ post).
Proof.
  intros (_ & Hl & _). pose proof (blen_nonneg rest). pose proof (blen_nonneg post).
  rewrite arr_set_Val by (rewrite !blen_app; lia). rewrite <-!app_assoc.
  by rewrite insert_app_l by (unfold blen in *; lia).
Qed.

(** On a well-formed configuration that fits the buffer, the result is the
    sequence of converted descriptors. *)
Lemma build_other_speed_config_eq ds buffer :
  wf_config ds → blen (concat ds) ≤ blen buffer → Forall is_byte buffer →
  build_other_speed_config (concat ds) buffer (blen buffer) =
    Val (blen (concat ds), splice buffer 0 (concat (other_speed_descs ds))).
Proof.
  intros [Hd Hs _ (c & rest & -> & Hty & H9 & _) Htot] Hfit Hb.
  unfold build_other_speed_config. rewrite Htot. cbn [cbind].
  rewrite (proj2 (Z.ltb_ge _ _)) by lia. rewrite memcpy_whole by done. cbn [cbind]. unfold splice.
  apply Forall_cons in Hd as [Hc Hrest]. apply Forall_cons in Hs as [Hsc Hsrest].
  destruct (other_speed_head_shape c Hc) as (Hty' & Hc' & Hlen').
  assert (blen (concat (other_speed_head c :: rest)) = blen (concat (c :: rest))) as Hflat.
  { simpl. rewrite !blen_app. lia. }
  rewrite !take_0, !app_nil_l. cbn [concat]. rewrite set_head_type by done. cbn [cbind].
  fold (concat (other_speed_head c :: rest)). set (post := drop _ buffer).
  pose proof (convert_loop_spec (Z.to_nat (blen (concat (c :: rest)))) [] (other_speed_head c :: rest)
    post) as Hloop.
  rewrite Hflat in Hloop. change (blen (@nil Z)) with 0 in Hloop. rewrite Z.add_0_l in Hloop.
  change (c ++ concat rest) with (concat (c :: rest)).
  change (other_speed_head c ++ concat rest) with (concat (other_speed_head c :: rest)).
  rewrite !app_nil_l in Hloop. rewrite Hloop.
  - cbn [cbind other_speed_descs]. rewrite fmap_cons, full_speed_desc_other by (by rewrite Hty').
    do 2 f_equal. unfold post. f_equal. f_equal. simpl. rewrite !length_app.
    assert (length (concat (full_speed_desc <$> rest)) = length (concat rest)) as ->.
    { clear -Hrest. induction Hrest as [|d rest Hd _ IH]; [done|]. rewrite fmap_cons. simpl.
      rewrite !length_app, IH. destruct (full_speed_desc_shape d Hd) as (H & _). unfold blen in H. lia. }
    unfold blen in Hlen'. lia.
  - by constructor.
  - constructor; [|done]. unfold wf_sized. by rewrite Hty'.
  - by apply Forall_drop.
  - pose proof (concat_length_le (other_speed_head c :: rest)). rewrite <-Hflat. unfold blen. rewrite Nat2Z.id.
    apply H. by constructor.
Qed.

(** What full speed allows in an endpoint descriptor. *)
Definition full_speed_legal (d : bytes) : Prop :=
  ∀ len addr attr lo hi interval rest,
    d = len :: USB_DESCRIPTOR_TYPE_ENDPOINT :: addr :: attr :: lo :: hi :: interval :: rest →
    let size := word16 lo hi in
    match attr mod 4 with
    | 1 => size ≤ 1023 ∧ 1 ≤ interval
    | 2 => size ≤ 64
    | 3 => size ≤ 64 ∧ 0 ≤ interval ≤ 255
    | _ => True
    end.

Lemma word16_mod_div x : 0 ≤ x < 65536 → word16 (x mod 256) (x / 256) = x.
Proof.
  intros Hx. rewrite word16_add.
  - pose proof (Z.div_mod x 256). lia.
  - by apply Z.mod_pos_bound.
  - split; [apply Z.div_pos|apply Z.div_lt_upper_bound]; lia.
Qed.

Lemma full_speed_desc_legal d : wf_desc d → full_speed_legal (full_speed_desc d).
Proof.
  intros (_ & _ & Hb) len addr attr lo' hi' interval' rest.
  destruct (decide (7 ≤ blen d)) as [H7|H7].
  2: { rewrite full_speed_desc_short by lia. intros ->. unfold blen in H7. simpl in H7. lia. }
  apply list_7 in H7 as (b0 & b1 & b2 & b3 & lo & hi & i & tail & ->).
  rewrite !Forall_cons in Hb. destruct Hb as (_ & _ & _ & _ & Hlo & Hhi & Hi & _). unfold is_byte in *.
  unfold full_speed_desc. case_decide; [|congruence].
  destruct (full_speed_fields (b3 mod 4) lo hi i) as [[l h] v] eqn:E. intros [= <- _ <- <- <- <- <- <-].
  assert (b3 mod 4 = 0 ∨ b3 mod 4 = 1 ∨ b3 mod 4 = 2 ∨ b3 mod 4 = 3) as Hc
    by (pose proof (Z.mod_pos_bound b3 4); lia).
  pose proof (Z.mod_pos_bound (lo + 256 * hi) 2048).
  unfold full_speed_fields in E. destruct Hc as [Hc|[Hc|[Hc|Hc]]]; rewrite Hc in *; simpl in E; [done|..];
    injection E as <- <- <-; rewrite word16_mod_div by lia; repeat case_decide; lia.
Qed.

Lemma head_type_legal c : wf_desc c → full_speed_legal (other_speed_head c).
Proof.
  intros Hc len addr attr lo hi interval rest Heq. destruct (other_speed_head_shape c Hc) as (Hty & _).
  rewrite Heq in Hty. done.
Qed.

(** C24: for every well-formed configuration of at most 512 bytes the in-place loop of
    [build_other_speed_config] ends, stays inside the buffer and produces exactly
    the sequence of descriptors a full speed host should see: the configuration
    descriptor with its type changed and every endpoint converted by the reference
    rule, all other descriptors untouched. *)
Theorem other_speed_config_is_full_speed_view ds buffer :
  wf_config ds → blen (concat ds) ≤ blen buffer → Forall is_byte buffer →
  build_other_speed_config (concat ds) buffer (blen buffer) =
    Val (blen (concat ds), splice buffer 0 (concat (other_speed_descs ds))).
Proof. apply build_other_speed_config_eq. Qed.

(** A configuration with an interrupt IN, a bulk OUT and an isochronous IN endpoint. *)
Definition sample_config : bytes :=
  [9; 2; 39; 0; 1; 1; 0; 192; 50]
  ++ [9; 4; 0; 0; 3; 255; 0; 0; 0]
  ++ [7; 5; 0x81; 3; 0; 2; 7] ++ [7; 5; 1; 2; 0; 2; 0] ++ [7; 5; 0x82; 5; 0; 12; 4].

Lemma other_speed_config_is_full_speed_view_witness :
  ∃ ds, sample_config = concat ds ∧ build_other_speed_config sample_config (replicate 512 0) 512 =
    Val (39, splice (replicate 512 0) 0 (concat (other_speed_descs ds))).
Proof.
  destruct (config_okb_sound sample_config) as (ds & Hds & Hwf); [vm_compute; reflexivity|].
  exists ds. split; [exact Hds|]. rewrite Hds.
  assert (blen (concat ds) = 39) as Hlen by (rewrite <-Hds; reflexivity).
  pose proof (other_speed_config_is_full_speed_view ds (replicate 512 0) Hwf) as H.
  rewrite Hlen in H. apply H.
  - vm_compute. discriminate.
  - by apply Forall_replicate.
Defined.

(** Every descriptor of the other-speed configuration respects the limits of full
    speed (bulk and interrupt packets of at most 64 bytes, isochronous packets of at
    most 1023 bytes, intervals in range), and no descriptor changes its length. *)
Theorem other_speed_config_respects_full_speed_limits ds buffer :
  wf_config ds → blen (concat ds) ≤ blen buffer → Forall is_byte buffer →
  ∃ ds', build_other_speed_config (concat ds) buffer (blen buffer) =
           Val (blen (concat ds), splice buffer 0 (concat ds'))
    ∧ Forall full_speed_legal ds' ∧ length <$> ds' = length <$> ds.
Proof.
  intros Hwf Hfit Hb. exists (other_speed_descs ds). split; [by apply build_other_speed_config_eq|].
  destruct Hwf as [Hd _ _ (c & rest & -> & _) _]. apply Forall_cons in Hd as [Hc Hrest]. simpl. split.
  - constructor; [by apply head_type_legal|]. apply Forall_fmap. eapply Forall_impl; [done|].
    apply full_speed_desc_legal.
  - rewrite <-list_fmap_compose. f_equal.
    + unfold other_speed_head. apply length_insert.
    + eapply Forall_fmap_ext_1, Forall_impl; [done|]. intros d Hd'. unfold compose.
      destruct (full_speed_desc_shape d Hd') as (H & _). unfold blen in H. lia.
Qed.

Lemma other_speed_config_respects_full_speed_limits_witness :
  ∃ ds', build_other_speed_config sample_config (replicate 512 0) 512 =
           Val (39, splice (replicate 512 0) 0 (concat ds')) ∧ Forall full_speed_legal ds'.
Proof.
  destruct (config_okb_sound sample_config) as (ds & Hds & Hwf); [vm_compute; reflexivity|].
  assert (blen (concat ds) = 39) as Hlen by (rewrite <-Hds; reflexivity).
  destruct (other_speed_config_respects_full_speed_limits ds (replicate 512 0) Hwf) as (ds' & H1 & H2 & _).
  - rewrite Hlen. vm_compute. discriminate.
  - by apply Forall_replicate.
  - exists ds'. rewrite Hds. rewrite Hlen in H1. split; [exact H1|exact H2].
Defined.

Lemma build_other_speed_config_total config buffer total :
  Forall is_byte config → total_length_of config = Val total → total ≤ blen config →
  2 ≤ blen buffer → Forall is_byte buffer → 0 ≤ total →
  ∃ buffer', build_other_speed_config config buffer (blen buffer) =
               Val (Z.min total (blen buffer), buffer')
    ∧ blen buffer' = blen buffer ∧ Forall is_byte buffer'.
Proof.
  intros Hcb Htot Hfit H2 Hb Hpos. unfold build_other_speed_config. rewrite Htot. cbn [cbind].
  replace (if blen buffer <? total then blen buffer else total) with (Z.min total (blen buffer))
    by (destruct (Z.ltb_spec (blen buffer) total); lia).
  set (n := Z.min total (blen buffer)). unfold memcpy, mem_read, mem_write.
  rewrite decide_True by lia. cbn [cbind]. rewrite decide_True by (rewrite blen_take, blen_drop; lia).
  cbn [cbind]. set (b1 := splice _ _ _).
  assert (blen b1 = blen buffer) as Hl1.
  { unfold b1, blen. rewrite length_splice; [done|]. rewrite length_take, length_drop. unfold blen in *. lia. }
  assert (Forall is_byte b1) as Hb1.
  { unfold b1, splice. rewrite !Forall_app. eauto using Forall_take, Forall_drop. }
  rewrite arr_set_Val by lia. cbn [cbind].
  destruct (convert_loop_safe (Z.to_nat n) (<[Z.to_nat 1 := USB_DESCRIPTOR_TYPE_OTHER_SPEED_CONFIGURATION]> b1) 0 n)
    as (b' & Hl & Hlen & Hbytes); [lia|rewrite blen_insert; lia|by apply Forall_insert|lia|].
  exists b'. rewrite Hl. cbn [cbind]. rewrite blen_insert in Hlen. by rewrite Hlen, Hl1.
Qed.

(** Whatever bytes the configuration holds (zero lengths, truncated or nonsensical
    descriptors), as long as the array has the length it announces, the loop ends,
    reads and writes only inside the 512 byte buffer and returns the announced
    length, cut to the buffer. *)
Theorem build_other_speed_config_memory_safe config buffer total :
  Forall is_byte config → total_length_of config = Val total → total ≤ blen config →
  2 ≤ blen buffer → Forall is_byte buffer → 0 ≤ total →
  ∃ buffer', build_other_speed_config config buffer (blen buffer) =
               Val (Z.min total (blen buffer), buffer')
    ∧ blen buffer' = blen buffer ∧ Forall is_byte buffer'.
Proof. apply build_other_speed_config_total. Qed.

Lemma build_other_speed_config_memory_safe_witness :
  ∃ buffer', build_other_speed_config [9; 2; 12; 0; 1; 5; 5; 3; 255; 1; 5; 3] (replicate 512 0) 512 =
    Val (12, buffer').
Proof.
  destruct (build_other_speed_config_memory_safe [9; 2; 12; 0; 1; 5; 5; 3; 255; 1; 5; 3] (replicate 512 0) 12)
    as (b & H & _).
  - eapply bool_decide_eq_true_1. vm_compute. reflexivity.
  - reflexivity.
  - vm_compute. discriminate.
  - vm_compute. discriminate.
  - by apply Forall_replicate.
  - lia.
  - exists b. exact H.
Defined.
