(* ===== verification/Host.v ===== *)
(** * Devices and the state their callbacks run in (include/usbip_server_api.h)

    [usbip_device_t D] is the struct a device program fills in: descriptors,
    strings and callbacks, for a device whose own static variables have type [D].
    Callbacks run on the server thread with [receive_lock] held and see the
    device's variables, the endpoint store and the clock: the record [host D].

    [DeviceSound] is the interface between the library and a device: what the
    library relies on when it calls back. The library's theorems are proved
    against it, the example devices are its instances. *)
From Stdlib Require Strings.String Strings.Ascii.
From S2P Require Import Prelude DeviceStore Descriptors.
Export String.StringSyntax.
Delimit Scope string_scope with string.

(** [struct timespec] and the monotonic clock: the readings the next calls of
    [clock_gettime] return. *)
Record timespec := { tv_sec : Z; tv_nsec : Z }.
Record clock := { readings : list timespec; last_reading : timespec }.

Definition clock_gettime : M clock timespec := λ c,
  match readings c with
  | [] => Ok (last_reading c) c
  | t :: ts => Ok t {| readings := ts; last_reading := t |}
  end.

Record host (D : Type) := {
  dev : D;             (** static variables of the device program *)
  lib : device_state;  (** static variables of usbip_device.c *)
  clk : clock;
}.
Arguments dev {D} _.
Arguments lib {D} _.
Arguments clk {D} _.

Definition set_dev {D} (d : D) (h : host D) : host D := {| dev := d; lib := lib h; clk := clk h |}.
Definition set_lib {D} (l : device_state) (h : host D) : host D := {| dev := dev h; lib := l; clk := clk h |}.
Definition set_clk {D} (c : clock) (h : host D) : host D := {| dev := dev h; lib := lib h; clk := c |}.

Definition in_lib {D A} (m : M device_state A) : M (host D) A := zoom lib set_lib m.
Definition in_clk {D A} (m : M clock A) : M (host D) A := zoom clk set_clk m.
Definition in_dev {D A} (m : M D A) : M (host D) A := zoom dev set_dev m.

(** [usb_string_t]; the text is the memory of a C string, its NUL included. *)
Record usb_string_t := {
  id : Z;
  string : option bytes;
}.

(** Memory of a string literal: the codes of its characters and the NUL. *)
Definition cstring (s : String.string) : bytes :=
  ((λ c, Z.of_N (Ascii.N_of_ascii c)) <$> String.list_ascii_of_string s) ++ [0].

Record usbip_device_t (D : Type) := {
  device_desc : bytes;
  config_desc : bytes;
  langid_desc : bytes;
  usb_strings : option (list usb_string_t);
  (** [setup], [data], [data_length] *)
  control_data_callback : bytes → bytes → Z → M (host D) unit;
  (** [ep], [data], [data_length] *)
  ep_data_callback : option (Z → bytes → Z → M (host D) unit);
  reset_callback : option (M (host D) unit);
  (** [ep], [buffer], [max_length]; returns the length and the filled buffer *)
  iso_in_callback : option (Z → bytes → Z → M (host D) (Z * bytes));
}.
Arguments device_desc {D} _.
Arguments config_desc {D} _.
Arguments langid_desc {D} _.
Arguments usb_strings {D} _.
Arguments control_data_callback {D} _ _ _ _.
Arguments ep_data_callback {D} _.
Arguments reset_callback {D} _.
Arguments iso_in_callback {D} _.

(** [usbip_device_transmit (ep, data, len)] from a device callback. *)
Definition callback_transmit {D} (ep : Z) (msg : bytes) (len : Z) : M (host D) bool :=
  in_lib (usbip_device_transmit server_thread ep msg len).

(** ** Calling the device: usbip_device.c around its callbacks *)

Section calls.
Context {D : Type} (usb_device : usbip_device_t D).

Definition control_callback (setup buffer : bytes) (length : Z) : M (host D) unit :=
  in_lib lock_receive;;
  control_data_callback usb_device setup buffer length;;
  in_lib unlock_receive.

Definition usbip_device_reset : M (host D) unit :=
  in_lib usbip_device_reset_state;;
  match reset_callback usb_device with
  | Some callback => in_lib lock_receive;; callback;; in_lib unlock_receive
  | None => ret tt
  end.

(** The caller checks that the callback is set; calling NULL is a fault. *)
Definition usbip_device_receive (ep : Z) (data : bytes) (data_length : Z) : M (host D) unit :=
  in_lib lock_receive;;
  match ep_data_callback usb_device with
  | Some callback => callback ep data data_length
  | None => fail OutOfBounds
  end;;
  in_lib unlock_receive.

(** Returns the clamped length and the buffer. *)
Definition usbip_device_iso_in (ep : Z) (buffer : bytes) (max_length : Z) : M (host D) (Z * bytes) :=
  let* '(length, buffer) :=
    match iso_in_callback usb_device with
    | Some callback =>
        in_lib lock_receive;;
        let* r := callback ep buffer max_length in
        in_lib unlock_receive;;
        ret r
    | None => ret (0, buffer)
    end in
  ret (if length <? max_length then length else max_length, buffer).

End calls.

(** ** Reference: a reset

    Every unread message is discarded, the device is in configuration 0 and a new generation
    starts; then the device's callback runs, once, with [receive_lock] held. *)
Definition freshly_reset {D} (d : usbip_device_t D) (h h' : host D) : Prop :=
  ∃ s, abs s = spec_reset (abs (lib h)) ∧
  match reset_callback d with
  | None => h' = set_lib s h
  | Some callback => ∃ h1, callback (set_lib (set_receive_lock true s) h) = Ok tt h1
      ∧ h' = set_lib (set_receive_lock false (lib h1)) h1
  end.

(** ** What the library relies on *)

Definition host_ok {D} (I : D → Prop) (h : host D) : Prop := I (dev h) ∧ wf_state (lib h).

(** A callback called with the lock held ends, keeps the device's invariant and the
    store well-formed, and leaves the library's control variables alone. *)
Definition callback_ok {D A} (I : D → Prop) (m : M (host D) A) (post : A → Prop) : Prop :=
  ∀ h, host_ok I h → receive_lock (lib h) = true →
    wp m (λ a h', post a ∧ host_ok I h' ∧ same_control (lib h) (lib h')) never h.

(** A string table ends with id 0, its texts end with NUL. *)
Fixpoint terminated (mem : bytes) : bool :=
  match mem with
  | [] => false
  | c :: mem => (c =? 0) || terminated mem
  end.
Fixpoint strings_okb (l : list usb_string_t) : bool :=
  match l with
  | [] => false
  | e :: l =>
      (id e =? 0) ||
      (match string e with
       | Some mem => terminated mem && bool_decide (Forall is_byte mem)
       | None => true
       end && strings_okb l)
  end.

Definition interface_count (ds : list bytes) : nat :=
  length (filter (λ d, desc_type d = USB_DESCRIPTOR_TYPE_INTERFACE) ds).

(** bNumInterfaces of a configuration. *)
Definition num_interfaces (config : bytes) : Z := default 0 (config !! 4%nat).

(** Arguments the library passes to the callbacks. *)
Definition data_ok (data : bytes) (len : Z) : Prop := Forall is_byte data ∧ 0 ≤ len ≤ blen data.

Class DeviceSound {D} (I : D → Prop) (d : usbip_device_t D) : Prop := {
  sound_device_desc : wf_desc (device_desc d) ∧ blen (device_desc d) = 18;
  sound_config_desc : ∃ ds, config_desc d = concat ds ∧ wf_config ds
    ∧ num_interfaces (config_desc d) ≤ Z.of_nat (interface_count ds);
  sound_langid_desc : wf_desc (langid_desc d);
  sound_strings : ∀ l, usb_strings d = Some l → strings_okb l = true;
  sound_control setup data len :
    blen setup = 8 → Forall is_byte setup → data_ok data len →
    callback_ok I (control_data_callback d setup data len) (λ _, True);
  sound_ep_data callback ep data len :
    ep_data_callback d = Some callback → data_ok data len →
    callback_ok I (callback ep data len) (λ _, True);
  sound_reset callback :
    reset_callback d = Some callback → callback_ok I callback (λ _, True);
  sound_iso_in callback ep buffer n :
    iso_in_callback d = Some callback → data_ok buffer n →
    callback_ok I (callback ep buffer n)
      (λ '(len, buffer'), 0 ≤ len ∧ blen buffer' = blen buffer ∧ Forall is_byte buffer');
}.

(** The conditions on the static part of a device, as a check. *)
Definition interfaces_okb (config : bytes) : bool :=
  match split_descs (length config) config with
  | Some ds => num_interfaces config <=? Z.of_nat (interface_count ds)
  | None => false
  end.
Definition device_okb {D} (d : usbip_device_t D) : bool :=
  bool_decide (wf_desc (device_desc d)) && (blen (device_desc d) =? 18)
  && config_okb (config_desc d) && interfaces_okb (config_desc d)
  && bool_decide (wf_desc (langid_desc d))
  && match usb_strings d with Some l => strings_okb l | None => true end.

(** * Theorems *)

Lemma config_okb_interfaces bs :
  config_okb bs = true → interfaces_okb bs = true →
  ∃ ds, bs = concat ds ∧ wf_config ds ∧ num_interfaces bs ≤ Z.of_nat (interface_count ds).
Proof.
  intros Hc Hi. unfold interfaces_okb in Hi. destruct (split_descs _ _) as [ds|] eqn:Hs; [|done].
  exists ds. destruct (config_okb_split bs ds) as [H1 H2]; [done..|]. split; [done|]. split; [done|].
  by apply Z.leb_le.
Qed.

(** The device's variables and the clock as before. *)
Definition same_device {D} (h h' : host D) : Prop := dev h' = dev h ∧ clk h' = clk h.

#[export] Instance same_device_preorder {D} : PreOrder (@same_device D).
Proof. split; [done|]. intros h1 h2 h3 [H1 H2] [H3 H4]. split; congruence. Qed.

(** A device is sound when its static part passes the check and its callbacks behave. *)
Lemma device_sound {D} (I : D → Prop) (d : usbip_device_t D) :
  device_okb d = true →
  (∀ setup data len, blen setup = 8 → Forall is_byte setup → data_ok data len →
     callback_ok I (control_data_callback d setup data len) (λ _, True)) →
  (∀ callback ep data len, ep_data_callback d = Some callback → data_ok data len →
     callback_ok I (callback ep data len) (λ _, True)) →
  (∀ callback, reset_callback d = Some callback → callback_ok I callback (λ _, True)) →
  (∀ callback ep buffer n, iso_in_callback d = Some callback → data_ok buffer n →
     callback_ok I (callback ep buffer n)
       (λ '(len, buffer'), 0 ≤ len ∧ blen buffer' = blen buffer ∧ Forall is_byte buffer')) →
  DeviceSound I d.
Proof.
  unfold device_okb. rewrite !andb_true_iff, !bool_decide_eq_true, Z.eqb_eq.
  intros (((((Hd & Hl) & Hc) & Hi) & Hlang) & Hs) H1 H2 H3 H4. constructor; try done.
  - by apply config_okb_interfaces.
  - intros l Heq. by rewrite Heq in Hs.
Qed.

Lemma wp_in_lib {D A} (m : M device_state A) (Q : A → host D → Prop) (E : host D → Prop) h :
  wp m (λ a l, Q a (set_lib l h)) (λ l, E (set_lib l h)) (lib h) → wp (in_lib m) Q E h.
Proof. apply wp_zoom. Qed.

Lemma same_control_refl s : same_control s s.
Proof. done. Qed.

Lemma same_control_trans s1 s2 s3 : same_control s1 s2 → same_control s2 s3 → same_control s1 s3.
Proof. unfold same_control. naive_solver congruence. Qed.

#[export] Instance same_control_preorder : PreOrder same_control.
Proof. split; [intros ?; apply same_control_refl|intros ???; apply same_control_trans]. Qed.

(** Transmitting from a callback never waits and keeps the store well-formed. *)
Lemma callback_transmit_ok {D} (I : D → Prop) ep msg len (h : host D) :
  host_ok I h → 0 ≤ len → Z.min len ENDPOINT_MAX_DATA_LENGTH ≤ blen msg → Forall is_byte msg →
  wp (callback_transmit ep msg len)
    (λ _ h', host_ok I h' ∧ same_control (lib h) (lib h') ∧ dev h' = dev h ∧ clk h' = clk h) never h.
Proof.
  intros [HI Hwf] Hlen Hmsg Hb. apply wp_in_lib.
  pose proof (transmit_spec server_thread (lib h) ep msg len Hwf Hlen Hmsg Hb) as H.
  assert (transmit_waits server_thread (ep_number ep) (abs (lib h)) = false) as Hw by done.
  rewrite Hw in H. destruct (spec_store _ _ _) as [stored a'].
  destruct H as (s' & Hs & _ & Hwf' & Hsame & _). unfold wp. rewrite Hs. simpl. done.
Qed.

(** Between callbacks the lock is free. *)
Definition host_idle {D} (I : D → Prop) (h : host D) : Prop :=
  host_ok I h ∧ receive_lock (lib h) = false.

Section lock.
Context {D : Type} (I : D → Prop).

Lemma lock_receive_wp (h : host D) (Q : unit → host D → Prop) E :
  host_idle I h →
  (∀ h', host_ok I h' → receive_lock (lib h') = true →
     h' = set_lib (set_receive_lock true (lib h)) h → Q tt h') →
  wp (in_lib lock_receive) Q E h.
Proof.
  intros [[HI Hwf] Hl] HQ. apply wp_in_lib. unfold wp, lock_receive. rewrite Hl. apply HQ; [|done..].
  split; [done|]. destruct Hwf; by constructor.
Qed.

Lemma unlock_receive_wp (h0 h : host D) (Q : unit → host D → Prop) E :
  host_ok I h → same_control (set_receive_lock true (lib h0)) (lib h) →
  receive_lock (lib h0) = false →
  (∀ h', host_idle I h' → same_control (lib h0) (lib h') → abs (lib h') = abs (lib h) →
     dev h' = dev h → clk h' = clk h → Q tt h') →
  wp (in_lib unlock_receive) Q E h.
Proof.
  intros [HI Hwf] (_ & Hsame) Hl HQ. apply wp_in_lib. unfold unlock_receive. apply wp_modify. apply HQ; try done.
  split; [|done]. split; [done|]. destruct Hwf; by constructor.
Qed.

(** Running a callback between [lock] and [unlock] of [receive_lock]. *)
Lemma locked_unit_ok (m : M (host D) unit) (post : unit → Prop) h :
  callback_ok I m post → host_idle I h →
  wp (in_lib lock_receive;; m;; in_lib unlock_receive)
    (λ _ h', host_idle I h' ∧ same_control (lib h) (lib h')) never h.
Proof.
  intros Hm Hh. apply wp_bind. apply lock_receive_wp; [done|]. intros h1 Hok1 Hl1 ->.
  apply wp_bind. eapply wp_post; [by apply Hm|]. intros [] h2 (_ & Hok2 & Hsame).
  destruct Hh as [_ Hl]. by apply (unlock_receive_wp h).
Qed.

Lemma locked_ok {A} (m : M (host D) A) (post : A → Prop) h :
  callback_ok I m post → host_idle I h →
  wp (in_lib lock_receive;; let* a := m in in_lib unlock_receive;; ret a)
    (λ a h', post a ∧ host_idle I h' ∧ same_control (lib h) (lib h')) never h.
Proof.
  intros Hm Hh. apply wp_bind. apply lock_receive_wp; [done|]. intros h1 Hok1 Hl1 ->.
  apply wp_bind. eapply wp_post; [by apply Hm|]. intros a h2 (Hpost & Hok2 & Hsame).
  destruct Hh as [_ Hl]. apply wp_bind. by apply (unlock_receive_wp h).
Qed.

End lock.

Section sound.
Context {D : Type} (I : D → Prop) (d : usbip_device_t D) `{!DeviceSound I d}.

Lemma control_callback_ok setup data len h :
  blen setup = 8 → Forall is_byte setup → data_ok data len → host_idle I h →
  wp (control_callback d setup data len)
    (λ _ h', host_idle I h' ∧ same_control (lib h) (lib h')) never h.
Proof using All. intros. eapply locked_unit_ok; [|done]. by apply sound_control. Qed.

Lemma usbip_device_receive_ok ep data len h :
  is_Some (ep_data_callback d) → data_ok data len → host_idle I h →
  wp (usbip_device_receive d ep data len)
    (λ _ h', host_idle I h' ∧ same_control (lib h) (lib h')) never h.
Proof using All.
  intros [callback Hc] Hd Hh. unfold usbip_device_receive. rewrite Hc.
  eapply locked_unit_ok; [|done]. by eapply sound_ep_data.
Qed.

(** The number of bytes reported never exceeds the space offered. *)
Lemma usbip_device_iso_in_ok ep buffer n h :
  data_ok buffer n → host_idle I h →
  wp (usbip_device_iso_in d ep buffer n)
    (λ '(len, buffer') h', 0 ≤ len ≤ n ∧ blen buffer' = blen buffer ∧ Forall is_byte buffer'
       ∧ host_idle I h' ∧ same_control (lib h) (lib h')) never h.
Proof using All.
  intros Hd Hh. unfold usbip_device_iso_in. apply wp_bind.
  assert (∀ len, (if len <? n then len else n) = Z.min len n) as Hmin
    by (intros len; destruct (Z.ltb_spec len n); lia).
  destruct Hd as [Hb Hn]. destruct (iso_in_callback d) as [callback|] eqn:Hc.
  - eapply wp_post; [eapply locked_ok; [|done]; eapply sound_iso_in; done|].
    intros [len buffer'] h' ((H1 & H2 & H3) & H4 & H5). apply wp_ret. rewrite Hmin.
    split; [lia|done].
  - apply wp_ret, wp_ret. rewrite Hmin. split; [lia|]. done.
Qed.

(** A reset returns to configuration 0 and starts a new generation. *)
Lemma usbip_device_reset_runs h h' :
  host_idle I h → usbip_device_reset d h = Ok tt h' → freshly_reset d h h'.
Proof using.
  intros [[_ Hwf] Hl] Hr. destruct (reset_state_spec (lib h) Hwf) as (s1 & Hs & Habs & _ & Hl1 & _).
  unfold usbip_device_reset, bind at 1, in_lib at 1, zoom at 1 in Hr. rewrite Hs in Hr. exists s1. split; [done|].
  destruct (reset_callback d) as [callback|]; [|by injection Hr].
  unfold bind, in_lib, zoom, lock_receive in Hr. cbn [lib set_lib] in Hr. rewrite Hl1, Hl in Hr.
  destruct (callback _) as [[] h2|h2|f] eqn:Hc; [|done..]. exists h2. by injection Hr.
Qed.

Lemma usbip_device_reset_ok h :
  host_idle I h →
  wp (usbip_device_reset d)
    (λ _ h', host_idle I h' ∧ configuration (abs (lib h')) = 0
       ∧ generation (abs (lib h')) = u32 (generation (abs (lib h)) + 1)
       ∧ stopped (abs (lib h')) = stopped (abs (lib h))
       ∧ ep_data_event_fd (lib h') = ep_data_event_fd (lib h)) never h.
Proof using All.
  intros [[HI Hwf] Hl]. unfold usbip_device_reset. apply wp_bind, wp_in_lib.
  destruct (reset_state_spec (lib h) Hwf) as (s1 & Hs & Habs & Hwf1 & Hl1 & Hfd & _ & Hev).
  unfold wp at 1. rewrite Hs.
  assert (host_idle I (set_lib s1 h)) as Hidle by (split; [by split|simpl; congruence]).
  assert (configuration (abs s1) = 0 ∧ generation (abs s1) = u32 (generation (abs (lib h)) + 1)
    ∧ stopped (abs s1) = stopped (abs (lib h))) as (H1 & H2 & H3) by (by rewrite Habs).
  destruct (reset_callback d) as [callback|] eqn:Hc; [|by apply wp_ret].
  eapply wp_post; [eapply locked_unit_ok; [by apply sound_reset|done]|].
  intros _ h' (Hh' & Hsame). destruct Hsame as (_ & _ & Hst & Hfd' & Hcfg & Hgen). simpl in *.
  split_and!; congruence || done.
Qed.

End sound.
