(* ===== verification/BulkDevice.v ===== *)
(** * The bulk example device (src/usb_bulk)

    Descriptors, the two callbacks and the body of the main loop of
    usb_bulk_device.c. The device collects what the host sends and answers each
    batch with a counter. It is the smallest instance of [DeviceSound], and the
    library's theorems are instantiated with it. *)
From S2P Require Import Prelude DeviceStore Descriptors Host.

Module Bulk.

(** ** Descriptors *)

Definition usb_strings : list usb_string_t := [
  {| id := 1; Host.string := Some (cstring "Virtual UsbIP"%string) |};
  {| id := 2; Host.string := Some (cstring "Virtual Bulk Device"%string) |};
  {| id := 4; Host.string := Some (cstring "ABC123"%string) |};
  {| id := 0; Host.string := None |} ].

Definition USB_VID : Z := 0xfa00.
Definition USB_PID : Z := 0xc001.

Definition usb_device_descriptor : bytes := [
  USB_DEVICE_DESCRIPTOR_LENGTH; USB_DESCRIPTOR_TYPE_DEVICE;
  LOBYTE USB_BCD_VERSION; HIBYTE USB_BCD_VERSION;
  0x00; 0x00; 0x00; 64;
  LOBYTE USB_VID; HIBYTE USB_VID; LOBYTE USB_PID; HIBYTE USB_PID;
  LOBYTE USB_BCD_DEVICE_REL; HIBYTE USB_BCD_DEVICE_REL;
  1; 2; 4; 1 ].

Definition USB_BULK_CONFIG_DESC_LENGTH : Z := 32.
Definition BULK_DATA_PACKET_SZE : Z := 512.

Definition bulk_config_descriptor : bytes := [
  0x09; USB_DESCRIPTOR_TYPE_CONFIGURATION;
  LOBYTE USB_BULK_CONFIG_DESC_LENGTH; HIBYTE USB_BULK_CONFIG_DESC_LENGTH;
  0x01; 0x01; 0x00; 0xC0; 0x32;
  (* Vendor specific interface descriptor *)
  0x09; USB_DESCRIPTOR_TYPE_INTERFACE; 0x00; 0x00; 0x02; 0xFF; 0x00; 0x00; 0x00;
  (* Endpoint OUT Descriptor *)
  0x07; USB_DESCRIPTOR_TYPE_ENDPOINT; 0x01; 0x02;
  LOBYTE BULK_DATA_PACKET_SZE; HIBYTE BULK_DATA_PACKET_SZE; 0x00;
  (* Endpoint IN Descriptor *)
  0x07; USB_DESCRIPTOR_TYPE_ENDPOINT; 0x81; 0x02;
  LOBYTE BULK_DATA_PACKET_SZE; HIBYTE BULK_DATA_PACKET_SZE; 0x00 ].

Definition USB_LANGID_STRING : Z := 0x409.
Definition USB_LANGID_DESC_LENGTH : Z := 4.

Definition langid_desc : bytes := [
  USB_LANGID_DESC_LENGTH; USB_DESCRIPTOR_TYPE_STRING;
  LOBYTE USB_LANGID_STRING; HIBYTE USB_LANGID_STRING ].

(** ** Static variables and callbacks *)

Definition INPUT_BUFFER_LENGTH : Z := 512.

Record state := {
  input_buffer : bytes;
  input_buffer_pos : Z;
  msg_counter : Z;
}.

Definition control_data (setup data : bytes) (data_length : Z) : M (host state) unit := ret tt.

Definition endpoint_data (ep : Z) (data : bytes) (data_length : Z) : M (host state) unit :=
  let* s := gets dev in
  if input_buffer_pos s + data_length <=? INPUT_BUFFER_LENGTH then
    let* buffer := liftC (memcpy (input_buffer s) (input_buffer_pos s) data 0 data_length) in
    modify (set_dev {| input_buffer := buffer;
                       input_buffer_pos := input_buffer_pos s + data_length;
                       msg_counter := msg_counter s |})
  else ret tt.

Definition bulk_device : usbip_device_t state := {|
  device_desc := usb_device_descriptor;
  config_desc := bulk_config_descriptor;
  Host.langid_desc := langid_desc;
  Host.usb_strings := Some usb_strings;
  control_data_callback := control_data;
  ep_data_callback := Some endpoint_data;
  reset_callback := None;
  iso_in_callback := None |}.

(** ** Main loop *)

(** [msg_counter++] of an [int], undefined at its largest value. *)
Definition increment (counter : Z) : cres Z :=
  if counter <? 2 ^ 31 - 1 then Val (counter + 1) else Err SignedOverflow.

(** Digits of [%d] for a non-negative number. *)
Fixpoint digits (fuel : nat) (n : Z) : bytes :=
  match fuel with
  | O => []
  | S fuel => (if n <? 10 then [] else digits fuel (n / 10)) ++ [48 + n mod 10]
  end.
Definition message (counter : Z) : bytes :=
  removelast (cstring "Message Counter: "%string) ++ digits 10 counter.

(** [printf ("%c", input_buffer[idx])] for each position: the bytes printed. *)
Fixpoint print_input (n : nat) (idx : Z) (buffer : bytes) : cres bytes :=
  match n with
  | O => Val []
  | S n =>
      let? c := arr_get buffer idx in
      let? rest := print_input n (idx + 1) buffer in
      Val (c :: rest)
  end.

(** One round of [while (!usbip_server_interrupted ())]: the bytes shown, if any. The
    main thread is [other_thread]. *)
Definition main_round : M (host state) (option bytes) :=
  let* th := in_lib (usbip_device_critical_section_enter other_thread) in
  let* s := gets dev in
  let* shown :=
    if 0 <? input_buffer_pos s then
      let* text := liftC (print_input (Z.to_nat (input_buffer_pos s)) 0 (input_buffer s)) in
      let* counter := liftC (increment (msg_counter s)) in
      modify (set_dev {| input_buffer := input_buffer s; input_buffer_pos := 0; msg_counter := counter |});;
      ret (Some text)
    else ret None in
  let* th := in_lib (usbip_device_critical_section_exit th) in
  match shown with
  | Some _ =>
      let* s := gets dev in
      let str := message (msg_counter s) in
      in_lib (usbip_device_transmit th 1 str (blen str));;
      ret shown
  | None => ret None
  end.

Definition initial_state : state := {|
  input_buffer := replicate (Z.to_nat INPUT_BUFFER_LENGTH) 0;
  input_buffer_pos := 0;
  msg_counter := 0 |}.

(** The buffer is never overrun. *)
Definition inv (s : state) : Prop :=
  blen (input_buffer s) = INPUT_BUFFER_LENGTH ∧ 0 ≤ input_buffer_pos s ≤ INPUT_BUFFER_LENGTH
  ∧ Forall is_byte (input_buffer s).

(** What the host sent since the last round. *)
Definition received (s : state) : bytes := take (Z.to_nat (input_buffer_pos s)) (input_buffer s).

(** * Theorems *)

Lemma endpoint_data_step ep data len h :
  inv (dev h) → data_ok data len → input_buffer_pos (dev h) + len ≤ INPUT_BUFFER_LENGTH →
  ∃ s', endpoint_data ep data len h = Ok tt (set_dev s' h) ∧ inv s'
    ∧ received s' = received (dev h) ++ take (Z.to_nat len) data
    ∧ input_buffer_pos s' = input_buffer_pos (dev h) + len ∧ msg_counter s' = msg_counter (dev h).
Proof.
  intros (Hl & Hp & Hb) [Hdb Hd] Hfit. unfold endpoint_data, bind, gets.
  rewrite (proj2 (Z.leb_le _ _)) by done.
  destruct (memcpy_append (input_buffer (dev h)) data (input_buffer_pos (dev h)) len)
    as (buffer & -> & Hbl & Hbuf & HF); [lia..|].
  eexists. split; [reflexivity|]. unfold inv, received. cbn [input_buffer input_buffer_pos msg_counter].
  split; [|done]. split; [congruence|]. split; [lia|]. by apply HF.
Qed.

#[global] Instance bulk_sound : DeviceSound inv bulk_device.
Proof.
  apply device_sound; [vm_compute; reflexivity|..]; try done.
  - intros callback ep data len [= <-] Hd h [HI Hwf] _.
    destruct (decide (input_buffer_pos (dev h) + len ≤ INPUT_BUFFER_LENGTH)) as [Hfit|Hfit].
    + destruct (endpoint_data_step ep data len h HI Hd Hfit) as (s' & Hs & HI' & _).
      unfold wp. rewrite Hs. done.
    + unfold endpoint_data. wp_steps; try done. lia.
Qed.

Lemma inv_initial_state : inv initial_state.
Proof. split; [done|]. split; [done|]. by apply Forall_replicate. Qed.

(** The process before the first client. *)
Definition initial_host : host state :=
  {| dev := initial_state; lib := initial_device_state;
     clk := {| readings := []; last_reading := {| tv_sec := 0; tv_nsec := 0 |} |} |}.

Lemma initial_host_idle : host_idle inv initial_host.
Proof. split; [split; [apply inv_initial_state|apply wf_initial_device_state]|done]. Qed.

Lemma digits_byte fuel n : 0 ≤ n → Forall is_byte (digits fuel n).
Proof.
  revert n. induction fuel as [|fuel IH]; intros n Hn; simpl; [constructor|]. apply Forall_app. split.
  - destruct (n <? 10); [constructor|]. apply IH. by apply Z.div_pos.
  - repeat constructor; pose proof (Z.mod_pos_bound n 10 ltac:(lia)); lia.
Qed.

Lemma digits_length fuel n : (length (digits fuel n) ≤ fuel)%nat.
Proof.
  revert n. induction fuel as [|fuel IH]; intros n; simpl; [done|]. rewrite length_app. simpl.
  destruct (n <? 10); simpl; [lia|]. specialize (IH (n / 10)). lia.
Qed.

Lemma message_byte n : 0 ≤ n → Forall is_byte (message n).
Proof.
  intros. unfold message. apply Forall_app. split; [|by apply digits_byte].
  eapply bool_decide_eq_true_1. vm_compute. reflexivity.
Qed.

Lemma message_blen n : 0 ≤ blen (message n) ≤ 512.
Proof.
  unfold message. rewrite blen_app. pose proof (digits_length 10 n).
  assert (blen (removelast (cstring "Message Counter: "%string)) = 17) as -> by reflexivity.
  unfold blen. lia.
Qed.

Lemma message_nonempty n : message n ≠ [].
Proof. done. Qed.

Lemma print_input_spec (n : nat) idx buffer :
  0 ≤ idx → idx + Z.of_nat n ≤ blen buffer →
  print_input n idx buffer = Val (take n (drop (Z.to_nat idx) buffer)).
Proof.
  revert idx. induction n as [|n IH]; intros idx Hi Hn; simpl; [by rewrite take_0|].
  destruct (lookup_lt_is_Some_2 buffer (Z.to_nat idx)) as [c Hc]; [unfold blen in Hn; lia|].
  rewrite (proj2 (arr_get_Val buffer idx c)) by done. simpl. rewrite IH by lia. simpl.
  rewrite (drop_S _ _ _ Hc). simpl. by replace (Z.to_nat (idx + 1)) with (S (Z.to_nat idx)) by lia.
Qed.

#[local] Opaque message usbip_device_transmit.

(** What [main_round] does when the host has fetched the previous message. *)
Lemma main_round_spec h :
  host_idle inv h → slot_of 1 (abs (lib h)) = [] → stopped (abs (lib h)) = false →
  0 < input_buffer_pos (dev h) → 0 ≤ msg_counter (dev h) < 2 ^ 31 - 1 →
  ∃ h', main_round h = Ok (Some (received (dev h))) h' ∧ host_idle inv h'
    ∧ received (dev h') = [] ∧ msg_counter (dev h') = msg_counter (dev h) + 1
    ∧ slot_of 1 (abs (lib h')) = message (msg_counter (dev h) + 1).
Proof.
  intros [[(Hl & Hp & Hb) Hwf] Hlock] Hslot Hst Hpos Hc. unfold main_round.
  set (str := message (msg_counter (dev h) + 1)).
  set (l1 := set_receive_lock false (set_receive_lock true (lib h))).
  assert (abs l1 = abs (lib h)) as Habs1 by done.
  assert (wf_state l1) as Hwf1 by (destruct Hwf; by constructor).
  pose proof (message_blen (msg_counter (dev h) + 1)) as Hmb. fold str in Hmb.
  pose proof (transmit_spec other_thread l1 1 str (blen str) Hwf1) as H.
  assert (transmit_waits other_thread (ep_number 1) (abs l1) = false) as Hw.
  { unfold transmit_waits. rewrite Habs1. change (ep_number 1) with 1%nat. rewrite Hslot, Hst. done. }
  rewrite Hw in H. unfold spec_store in H. rewrite Habs1, Hst in H. change (ep_number 1) with 1%nat in H.
  rewrite decide_False in H by done. rewrite decide_True in H by done.
  destruct H as (s' & Hs & Habs' & Hwf' & Hsame & _); [lia|lia|apply message_byte; lia|].
  assert (in_lib (usbip_device_critical_section_enter other_thread) h
    = Ok {| is_server_thread := false; in_critical_section := true |}
         (set_lib (set_receive_lock true (lib h)) h)) as Henter.
  { unfold in_lib, zoom, usbip_device_critical_section_enter, bind, lock_receive. by rewrite Hlock. }
  unfold bind at 1. rewrite Henter. unfold bind at 1. cbn [gets dev set_lib].
  rewrite (proj2 (Z.ltb_lt _ _)) by done. rewrite print_input_spec by (unfold blen in *; lia).
  unfold increment. rewrite (proj2 (Z.ltb_lt _ _)) by apply Hc.
  unfold bind. cbn [liftC modify ret gets]. unfold in_lib at 1. unfold zoom at 1. cbn.
  unfold in_lib, zoom. cbn [lib set_lib set_dev]. fold l1. fold str. fold other_thread. rewrite Hs. eexists. split; [rewrite drop_0; reflexivity|].
  cbn. split; [|split; [by unfold received|split; [done|]]].
  - destruct Hsame as (Hl' & _). split; [split; [done|done]|done].
  - rewrite Habs'. unfold slot_of, set_slot. cbn [slot].
    rewrite list_lookup_insert_eq; [|simpl; rewrite length_fmap, (wf_count _ Hwf); lia].
    unfold cut_message. simpl. apply take_ge. unfold ENDPOINT_MAX_DATA_LENGTH, blen in *. lia.
Qed.
End Bulk.
