(* ===== verification/Control.v ===== *)
(** * Standard control requests (src/lib/usbip_device.c, second half)

    [usbip_device_control] and the requests the library answers itself. The
    reference [standard_reply] says which bytes answer each standard request; the
    theorems relate the handlers to it on every branch. *)
From S2P Require Import Prelude DeviceStore Descriptors OtherSpeed Host BulkDevice.

Definition USB_REQUEST_TYPE_STANDARD : Z := 0.
Definition USB_REQUEST_RECIPIENT_DEVICE : Z := 0.
Definition USB_REQUEST_RECIPIENT_INTERFACE : Z := 1.
Definition USB_REQUEST_RECIPIENT_ENDPOINT : Z := 2.

(** [strlen]: reads up to the NUL. *)
Fixpoint strlen (mem : bytes) : cres Z :=
  match mem with
  | [] => Err OutOfBounds
  | c :: mem => if c =? 0 then Val 0 else let? n := strlen mem in Val (n + 1)
  end.

Fixpoint get_string_loop (usb_string : list usb_string_t) (index : Z) : cres (option bytes) :=
  match usb_string with
  | [] => Err OutOfBounds
  | e :: rest =>
      if id e =? index then Val (string e)
      else if id e =? 0 then Val None
      else get_string_loop rest index
  end.

Definition get_string {D} (usb_device : usbip_device_t D) (index : Z) : cres (option bytes) :=
  match usb_strings usb_device with
  | Some l => get_string_loop l index
  | None => Val None
  end.

(** The loop that widens the characters to 16 bits, from index [idx]. *)
Fixpoint fill_string (n : nat) (idx : Z) (string string_buffer : bytes) : cres bytes :=
  match n with
  | O => Val string_buffer
  | S n =>
      let? c := arr_get string idx in
      let? string_buffer := arr_set string_buffer (2 + 2 * idx + 0) c in
      let? string_buffer := arr_set string_buffer (2 + 2 * idx + 1) 0 in
      fill_string n (idx + 1) string string_buffer
  end.

(** The local array [string_buffer[512]] and its contents before the transmit. *)
Definition string_descriptor (string : bytes) : cres bytes :=
  let? len := strlen string in
  let string_len := if 126 <? len then 126 else len in
  let? string_buffer := arr_set (replicate 512 0) 0 (u8 (2 * string_len + 2)) in
  let? string_buffer := arr_set string_buffer 1 3 in
  fill_string (Z.to_nat string_len) 0 string string_buffer.

Section requests.
Context {D : Type} (usb_device : usbip_device_t D).

(** [usbip_device_transmit (0, data, length)], the result ignored. *)
Definition reply (msg : bytes) (len : Z) : M (host D) unit := callback_transmit 0 msg len;; ret tt.

(** [(req_size < length) ? req_size : length] *)
Definition shorter (req_size length : Z) : Z := if req_size <? length then req_size else length.

(** [(bDescriptorType == type) && (device_desc[3] >= 0x02)] *)
Definition is_usb2_type (bDescriptorType type : Z) : M (host D) bool :=
  if bDescriptorType =? type then
    let* bcd_high := liftC (arr_get (device_desc usb_device) 3) in
    ret (0x02 <=? bcd_high)
  else ret false.

(** The bDescriptorType cases of GET_DESCRIPTOR. *)
Definition get_descriptor (setup : bytes) (req_size : Z) : M (host D) unit :=
  let device_desc := device_desc usb_device in
  let config_desc := config_desc usb_device in
  let* bDescriptorType := liftC (arr_get setup 3) in
  let* bDescriptorIndex := liftC (arr_get setup 2) in
  if bDescriptorType =? USB_DESCRIPTOR_TYPE_DEVICE then
    let* desc_length := liftC (arr_get device_desc 0) in
    reply device_desc (shorter req_size desc_length)
  else if bDescriptorType =? USB_DESCRIPTOR_TYPE_CONFIGURATION then
    let* desc_length := liftC (total_length_of config_desc) in
    reply config_desc (shorter req_size desc_length)
  else
    (* Only USB 2.0 devices have these, device_desc[3] is read after the type matched *)
    let* is_qualifier := is_usb2_type bDescriptorType USB_DESCRIPTOR_TYPE_DEVICE_QUALIFIER in
    if is_qualifier then
      let* d2 := liftC (arr_get device_desc 2) in
      let* d3 := liftC (arr_get device_desc 3) in
      let* d4 := liftC (arr_get device_desc 4) in
      let* d5 := liftC (arr_get device_desc 5) in
      let* d6 := liftC (arr_get device_desc 6) in
      let* d7 := liftC (arr_get device_desc 7) in
      let* d17 := liftC (arr_get device_desc 17) in
      let qualifier_desc := [10; USB_DESCRIPTOR_TYPE_DEVICE_QUALIFIER; d2; d3; d4; d5; d6; d7; d17; 0] in
      reply qualifier_desc (shorter req_size 10)
    else
    let* is_other_speed :=
      is_usb2_type bDescriptorType USB_DESCRIPTOR_TYPE_OTHER_SPEED_CONFIGURATION in
    if is_other_speed then
      let* '(desc_length, other_speed_desc) :=
        liftC (build_other_speed_config config_desc
                 (replicate (Z.to_nat ENDPOINT_MAX_DATA_LENGTH) 0) ENDPOINT_MAX_DATA_LENGTH) in
      reply other_speed_desc (shorter req_size desc_length)
    else if bDescriptorType =? USB_DESCRIPTOR_TYPE_STRING then
      if bDescriptorIndex =? 0 then
        let* desc_length := liftC (arr_get (langid_desc usb_device) 0) in
        reply (langid_desc usb_device) (shorter req_size desc_length)
      else
        let* string := liftC (get_string usb_device bDescriptorIndex) in
        match string with
        | Some mem =>
            let* string_buffer := liftC (string_descriptor mem) in
            let* desc_length := liftC (arr_get string_buffer 0) in
            reply string_buffer (shorter req_size desc_length)
        | None => ret tt
        end
    else ret tt.

Definition device_request (setup buffer : bytes) (req_size : Z) : M (host D) bool :=
  let* bmRequestType := liftC (arr_get setup 0) in
  let* bRequest := liftC (arr_get setup 1) in
  let bfDataDirection := Z.land bmRequestType 0x80 in
  if negb (bfDataDirection =? 0) then
    (if bRequest =? USB_REQUEST_GET_STATUS then
       let* attributes := liftC (arr_get (config_desc usb_device) 7) in
       let self_powered := if negb (Z.land attributes 0x40 =? 0) then 0x01 else 0x00 in
       reply [self_powered; 0x00] 2
     else if bRequest =? USB_REQUEST_GET_DESCRIPTOR then get_descriptor setup req_size
     else if bRequest =? USB_REQUEST_GET_CONFIGURATION then
       let* configuration := in_lib (gets configuration_value) in
       reply [configuration] 1
     else ret tt);;
    ret true
  else if bRequest =? USB_REQUEST_SET_CONFIGURATION then
    let* value := liftC (arr_get setup 2) in
    in_lib (modify (set_configuration_value value));;
    control_callback usb_device setup buffer req_size;;
    ret true
  else ret false.

Definition endpoint_request (setup : bytes) : M (host D) bool :=
  let* bRequest := liftC (arr_get setup 1) in
  if bRequest =? USB_REQUEST_GET_STATUS then
    reply [0x00; 0x00] 2;; ret true
  else if (bRequest =? USB_REQUEST_CLEAR_FEATURE) || (bRequest =? USB_REQUEST_SET_FEATURE) then
    ret true
  else ret false.

Definition interface_request (setup buffer : bytes) (req_size : Z) : M (host D) unit :=
  control_callback usb_device setup buffer req_size.

Definition usbip_device_control (setup buffer : bytes) (length : Z) : M (host D) bool :=
  in_lib control_begin;;
  let* bmRequestType := liftC (arr_get setup 0) in
  let bfType := Z.land (Z.shiftr bmRequestType 5) 0x03 in
  let bfRecipient := Z.land bmRequestType 0x1f in
  if negb (bfType =? USB_REQUEST_TYPE_STANDARD) then
    control_callback usb_device setup buffer length;; ret true
  else if bfRecipient =? USB_REQUEST_RECIPIENT_DEVICE then device_request setup buffer length
  else if bfRecipient =? USB_REQUEST_RECIPIENT_INTERFACE then
    interface_request setup buffer length;; ret true
  else if bfRecipient =? USB_REQUEST_RECIPIENT_ENDPOINT then endpoint_request setup
  else ret false.

End requests.

(** The data stage of a control IN transfer as process_submit runs it: handle the
    request, then fetch its answer into [tx_buffer]. *)
Definition control_in {D} (usb_device : usbip_device_t D) (setup rx_buffer tx_buffer : bytes)
    (transfer_buffer_length : Z) : M (host D) (bool * bool * bytes) :=
  let* supported := usbip_device_control usb_device setup rx_buffer transfer_buffer_length in
  let* '(answered, tx_length, tx_buffer) :=
    in_lib (usbip_device_fetch_control_reply tx_buffer transfer_buffer_length) in
  ret (supported, answered, take (Z.to_nat tx_length) tx_buffer).

(** ** Reference: the answers chapter 9 of the USB specification asks for *)

(** The text of a C string. *)
Fixpoint c_text (mem : bytes) : bytes :=
  match mem with
  | [] => []
  | c :: mem => if decide (c = 0) then [] else c :: c_text mem
  end.

(** A string descriptor: length, type 3 and the characters as 16 bit little endian. *)
Definition widen_text (text : bytes) : bytes := text ≫= λ c, [c; 0].
Definition string_desc (text : bytes) : bytes :=
  (2 * blen (take 126 text) + 2) :: USB_DESCRIPTOR_TYPE_STRING :: widen_text (take 126 text).

Fixpoint find_text (l : list usb_string_t) (index : Z) : option bytes :=
  match l with
  | [] => None
  | e :: l =>
      if decide (id e = index) then c_text <$> string e
      else if decide (id e = 0) then None else find_text l index
  end.

Definition qualifier_desc (dd : bytes) : bytes :=
  [10; USB_DESCRIPTOR_TYPE_DEVICE_QUALIFIER] ++ take 6 (drop 2 dd) ++ take 1 (drop 17 dd) ++ [0].

Definition standard_descriptor {D} (d : usbip_device_t D) (type index : Z) : option bytes :=
  let usb2 := bool_decide (2 ≤ default 0 (device_desc d !! 3%nat)) in
  if decide (type = USB_DESCRIPTOR_TYPE_DEVICE) then Some (device_desc d)
  else if decide (type = USB_DESCRIPTOR_TYPE_CONFIGURATION) then Some (config_desc d)
  else if decide (type = USB_DESCRIPTOR_TYPE_DEVICE_QUALIFIER) then
    if usb2 then Some (qualifier_desc (device_desc d)) else None
  else if decide (type = USB_DESCRIPTOR_TYPE_OTHER_SPEED_CONFIGURATION) then
    if usb2 then
      match build_other_speed_config (config_desc d) (replicate 512 0) 512 with
      | Val (n, b) => Some (take (Z.to_nat n) b)
      | Err _ => None
      end
    else None
  else if decide (type = USB_DESCRIPTOR_TYPE_STRING) then
    if decide (index = 0) then Some (langid_desc d)
    else string_desc <$> (l ← usb_strings d; find_text l index)
  else None.

(** Standard IN requests to the device; [None] is a request without an answer. *)
Definition standard_reply {D} (d : usbip_device_t D) (configuration : Z) (setup : bytes) : option bytes :=
  let bRequest := default 0 (setup !! 1%nat) in
  if decide (bRequest = USB_REQUEST_GET_STATUS) then
    Some [if Z.testbit (default 0 (config_desc d !! 7%nat)) 6 then 1 else 0; 0]
  else if decide (bRequest = USB_REQUEST_GET_DESCRIPTOR) then
    standard_descriptor d (default 0 (setup !! 3%nat)) (default 0 (setup !! 2%nat))
  else if decide (bRequest = USB_REQUEST_GET_CONFIGURATION) then Some [configuration]
  else None.

(** * Theorems *)

(** ** Strings *)

Lemma strlen_text mem : terminated mem = true → strlen mem = Val (blen (c_text mem)).
Proof.
  induction mem as [|c mem IH]; simpl; [done|]. destruct (Z.eqb_spec c 0) as [->|Hc]; [done|].
  simpl. intros Ht. rewrite IH by done. simpl. rewrite decide_False by done. unfold blen. simpl. f_equal. lia.
Qed.

Lemma c_text_prefix mem : terminated mem = true → c_text mem = take (length (c_text mem)) mem.
Proof.
  induction mem as [|c mem IH]; simpl; [done|]. destruct (Z.eqb_spec c 0) as [->|Hc]; [done|].
  rewrite decide_False by done. simpl. intros. by rewrite <-IH.
Qed.

Lemma widen_text_length text : length (widen_text text) = (2 * length text)%nat.
Proof.
  induction text as [|c text IH]; [done|].
  change (widen_text (c :: text)) with (c :: 0 :: widen_text text). simpl. lia.
Qed.

Lemma widen_text_byte text : Forall is_byte text → Forall is_byte (widen_text text).
Proof.
  induction 1 as [|c l Hc _ IH]; [constructor|].
  change (widen_text (c :: l)) with (c :: 0 :: widen_text l). by repeat (constructor; [done|]).
Qed.

Lemma c_text_byte mem : Forall is_byte mem → Forall is_byte (c_text mem).
Proof. induction 1; simpl; [done|]. case_decide; [done|]. by constructor. Qed.

(** Writing one character at the front of what is left of the buffer. *)
Lemma fill_string_spec n idx (string pre post : bytes) :
  0 ≤ idx → blen pre = 2 + 2 * idx → idx + Z.of_nat n ≤ blen string → 2 * Z.of_nat n ≤ blen post →
  fill_string n idx string (pre ++ post) =
    Val (pre ++ widen_text (take n (drop (Z.to_nat idx) string)) ++ drop (2 * n) post).
Proof.
  revert idx pre post. induction n as [|n IH]; intros idx pre post Hi Hpre Hs Hp.
  { simpl. by rewrite drop_0. }
  destruct post as [|p0 [|p1 post]]; [unfold blen in Hp; simpl in Hp; lia..|].
  destruct (lookup_lt_is_Some_2 string (Z.to_nat idx)) as [c Hc]; [unfold blen in *; lia|].
  cbn [fill_string]. rewrite (proj2 (arr_get_Val string idx c)) by done. cbn [cbind].
  replace (2 + 2 * idx + 0) with (blen pre + 0) by lia. replace (2 + 2 * idx + 1) with (blen pre + 1) by lia.
  assert (2 ≤ blen (p0 :: p1 :: post)) by (unfold blen; simpl; lia).
  rewrite arr_set_app_r by lia. cbn [cbind]. rewrite arr_set_app_r by (rewrite blen_insert; lia).
  cbn [cbind]. simpl. change (pre ++ c :: 0 :: post) with (pre ++ [c; 0] ++ post). rewrite app_assoc, IH.
  - rewrite (drop_S string c (Z.to_nat idx)) by done. simpl.
    replace (Z.to_nat (idx + 1)) with (S (Z.to_nat idx)) by lia.
    replace (n + S (n + 0))%nat with (S (2 * n)) by lia. simpl. by rewrite <-!app_assoc.
  - lia.
  - rewrite blen_app, Hpre. unfold blen. simpl. lia.
  - lia.
  - unfold blen in *. simpl in *. lia.
Qed.

Lemma string_descriptor_spec mem :
  terminated mem = true →
  ∃ buf, string_descriptor mem = Val buf ∧ blen buf = 512
    ∧ take (length (string_desc (c_text mem))) buf = string_desc (c_text mem)
    ∧ (Forall is_byte mem → Forall is_byte buf).
Proof.
  intros Ht. unfold string_descriptor. rewrite strlen_text by done. cbn [cbind].
  set (text := c_text mem). pose proof (blen_nonneg text) as Hpos.
  replace (if 126 <? blen text then 126 else blen text) with (blen (take 126 text)).
  2: { change 126%nat with (Z.to_nat 126). rewrite blen_take by lia. destruct (Z.ltb_spec 126 (blen text)); lia. }
  set (t := take 126 text). assert (blen t ≤ 126) as Ht126 by (unfold t, blen; rewrite length_take; lia).
  pose proof (blen_nonneg t). rewrite arr_set_Val by (vm_compute; split; congruence). cbn [cbind].
  rewrite arr_set_Val by (rewrite blen_insert; vm_compute; split; congruence). cbn [cbind].
  assert (u8 (2 * blen t + 2) = 2 * blen t + 2) as -> by (unfold u8; rewrite Z.mod_small; lia).
  set (v := 2 * blen t + 2).
  change (<[Z.to_nat 1 := 3]> (<[Z.to_nat 0 := v]> (replicate 512 0))) with ([v; 3] ++ replicate 510 0).
  assert (Z.to_nat (blen t) = length t) as Hlt by (unfold blen; lia).
  assert (blen t ≤ blen mem) as Hle.
  { unfold t, blen. rewrite length_take.
    pose proof (f_equal length (c_text_prefix mem Ht)) as Hp. rewrite length_take in Hp. unfold text. lia. }
  rewrite fill_string_spec; [|lia|done|lia|rewrite Hlt; unfold blen in *; rewrite length_replicate; lia].
  eexists. split; [done|]. rewrite drop_0, Hlt.
  assert (take (length t) mem = t) as ->.
  { unfold t, text. rewrite (c_text_prefix mem Ht) at 2. rewrite take_take, length_take. done. }
  split; [|split].
  - rewrite !blen_app. unfold blen. rewrite widen_text_length, length_drop, length_replicate. simpl. lia.
  - rewrite app_assoc, take_app_length'; [done|]. done.
  - intros Hb. rewrite !Forall_app, !Forall_cons. split; [unfold is_byte, v; split_and!; try lia; constructor|]. split.
    + apply widen_text_byte, Forall_take. by apply c_text_byte.
    + apply Forall_drop, Forall_replicate. done.
Qed.

Lemma get_string_loop_spec l index :
  strings_okb l = true → index ≠ 0 →
  ∃ o, get_string_loop l index = Val o ∧ find_text l index = c_text <$> o
    ∧ ∀ mem, o = Some mem → terminated mem = true ∧ Forall is_byte mem.
Proof.
  intros Hok Hi. induction l as [|e l IH]; simpl in *; [done|].
  destruct (Z.eqb_spec (id e) 0) as [H0|H0]; simpl in Hok.
  { rewrite (proj2 (Z.eqb_neq _ _)) by lia. rewrite decide_False by lia. rewrite decide_True by done. by exists None. }
  apply andb_true_iff in Hok as [Hs Hok].
  destruct (Z.eqb_spec (id e) index) as [He|He]; [rewrite decide_True by done|].
  - eexists. split; [done|]. split; [done|]. intros mem Hmem. rewrite Hmem in Hs.
    apply andb_true_iff in Hs as [? Hb%bool_decide_eq_true]. done.
  - rewrite !decide_False by done. by apply IH.
Qed.

Lemma string_desc_byte text : Forall is_byte text → Forall is_byte (string_desc text).
Proof.
  intros Hb. unfold string_desc.
  assert (blen (take 126 text) ≤ 126) by (unfold blen; rewrite length_take; lia).
  constructor; [pose proof (blen_nonneg (take 126 text)); unfold is_byte; lia|]. constructor; [done|].
  by apply widen_text_byte, Forall_take.
Qed.

(** ** The requests the library answers *)

Section answers.
Context {D : Type} (I : D → Prop) (d : usbip_device_t D) `{!DeviceSound I d}.

(** The answer [r] (or none) was queued for a request of [n] bytes; a stopped device
    queues nothing. *)
Definition replied (h : host D) (r : option bytes) (n : Z) (h' : host D) : Prop :=
  host_idle I h' ∧ same_control (lib h) (lib h') ∧ (dev h' = dev h ∧ clk h' = clk h)
  ∧ match r with
    | Some r =>
        if stopped (abs (lib h)) then abs (lib h') = abs (lib h)
        else ∃ m, abs (lib h') = set_answered true (set_slot 0 m (abs (lib h)))
               ∧ take (Z.to_nat n) m = take (Z.to_nat (Z.min n 512)) r
    | None => abs (lib h') = abs (lib h)
    end.

Lemma reply_wp msg len h :
  host_idle I h → 0 ≤ len → Z.min len 512 ≤ blen msg → Forall is_byte msg →
  wp (reply msg len)
    (λ _ h', host_idle I h' ∧ same_control (lib h) (lib h') ∧ (dev h' = dev h ∧ clk h' = clk h)
       ∧ abs (lib h') = if stopped (abs (lib h)) then abs (lib h)
           else set_answered true (set_slot 0 (cut_message msg len) (abs (lib h)))) never h.
Proof.
  intros [[HI Hwf] Hl] Hlen Hmsg Hb. unfold reply. apply wp_bind, wp_in_lib.
  pose proof (transmit_spec server_thread (lib h) 0 msg len Hwf Hlen Hmsg Hb) as H.
  assert (transmit_waits server_thread (ep_number 0) (abs (lib h)) = false) as Hw by done.
  rewrite Hw in H. unfold spec_store in H. simpl decide in H.
  destruct (stopped (abs (lib h))); destruct H as (s' & Hs & Habs & Hwf' & Hsame & _);
    unfold wp at 1; rewrite Hs; apply wp_ret;
    (split; [split; [done|]|done]); destruct Hsame as (Hl' & _); simpl; congruence.
Qed.

(** Answering with the first bytes of [full], which starts the buffer [msg]. *)
Lemma reply_desc msg full n h :
  host_idle I h → 0 ≤ n →
  take (length full) msg = full → Forall is_byte msg →
  wp (reply msg (shorter n (blen full))) (λ _ h', replied h (Some full) n h') never h.
Proof.
  intros Hh Hn Hfull Hb.
  assert (shorter n (blen full) = Z.min n (blen full)) as ->
    by (unfold shorter; destruct (Z.ltb_spec n (blen full)); lia).
  assert (blen full ≤ blen msg) as Hle.
  { apply (f_equal length) in Hfull. rewrite length_take in Hfull. unfold blen. lia. }
  pose proof (blen_nonneg full).
  eapply wp_post; [apply reply_wp; [done|lia|lia|done]|].
  intros _ h' (Hh' & Hsame & Hdev & Habs). split; [done|]. split; [done|]. split; [done|].
  destruct (stopped _); [done|]. eexists. split; [exact Habs|]. unfold cut_message, ENDPOINT_MAX_DATA_LENGTH.
  assert (∀ k, (k ≤ length full)%nat → take k msg = take k full) as Hk.
  { intros k Hk. rewrite <-Hfull, take_take. f_equal. lia. }
  rewrite Hk by (unfold blen; lia). rewrite take_take.
  destruct (decide (Z.min n 512 ≤ blen full)); [f_equal; lia|].
  rewrite !take_ge; [done|unfold blen in *; lia..].
Qed.

Lemma is_usb2_type_wp ty t h (Q : bool → host D → Prop) :
  Q (bool_decide (ty = t) && bool_decide (2 ≤ default 0 (device_desc d !! 3%nat))) h →
  wp (is_usb2_type d ty t) Q never h.
Proof using All.
  intros HQ. unfold is_usb2_type. destruct (Z.eqb_spec ty t); [|by rewrite bool_decide_false in HQ].
  rewrite bool_decide_true in HQ by done. destruct sound_device_desc as [_ Hl].
  wp_byte x Hx. apply wp_ret.
  change (Z.to_nat 3) with 3%nat in Hx. rewrite Hx in HQ. simpl in HQ.
  destruct (Z.leb_spec 2 x); [by rewrite bool_decide_true in HQ|by rewrite bool_decide_false in HQ by lia].
Qed.

Lemma qualifier_wp n h :
  host_idle I h → 0 ≤ n →
  wp (let* d2 := liftC (arr_get (device_desc d) 2) in
      let* d3 := liftC (arr_get (device_desc d) 3) in
      let* d4 := liftC (arr_get (device_desc d) 4) in
      let* d5 := liftC (arr_get (device_desc d) 5) in
      let* d6 := liftC (arr_get (device_desc d) 6) in
      let* d7 := liftC (arr_get (device_desc d) 7) in
      let* d17 := liftC (arr_get (device_desc d) 17) in
      reply [10; USB_DESCRIPTOR_TYPE_DEVICE_QUALIFIER; d2; d3; d4; d5; d6; d7; d17; 0] (shorter n 10))
    (λ _ h', replied h (Some (qualifier_desc (device_desc d))) n h') never h.
Proof using All.
  intros Hh Hn. destruct sound_device_desc as [(_ & _ & Hb) Hl].
  assert (length (device_desc d) = 18%nat) as Hlen by (unfold blen in Hl; lia).
  destruct (device_desc d) as [|b0 [|b1 [|b2 [|b3 [|b4 [|b5 [|b6 [|b7 [|b8 [|b9 [|b10 [|b11 [|b12 [|b13 [|b14
    [|b15 [|b16 [|b17 [|??]]]]]]]]]]]]]]]]]]]; try done.
  rewrite !Forall_cons in Hb. repeat (apply wp_bind, wp_liftC, cwp_ret).
  change 10 with (blen (qualifier_desc [b0; b1; b2; b3; b4; b5; b6; b7; b8; b9; b10; b11; b12; b13; b14; b15; b16; b17])) at 2.
  apply reply_desc; [done..|]. rewrite !Forall_cons. unfold is_byte, USB_DESCRIPTOR_TYPE_DEVICE_QUALIFIER in *. 
  split; [lia|]. split; [lia|]. destruct Hb as (? & ? & ? & ? & ? & ? & ? & ? & ? & ? & ? & ? & ? & ? & ? & ? & ? & ? & ?).
  do 8 (split; [lia|]). constructor.
Qed.

Lemma sound_total : ∃ ds, config_desc d = concat ds ∧ wf_config ds
  ∧ total_length_of (config_desc d) = Val (blen (config_desc d)) ∧ 9 ≤ blen (config_desc d)
  ∧ Forall is_byte (config_desc d).
Proof using All.
  destruct sound_config_desc as (ds & Heq & Hwf & _). exists ds. split; [done|]. split; [done|].
  rewrite Heq. split; [apply Hwf|]. destruct Hwf as [Hd _ _ (c & rest & -> & _ & H9 & _) _]. split.
  - simpl. rewrite blen_app. pose proof (blen_nonneg (concat rest)). lia.
  - by apply wf_concat_byte.
Qed.

Lemma desc_reply_wp desc n h :
  host_idle I h → 0 ≤ n → Forall is_byte desc →
  wp (reply desc (shorter n (blen desc))) (λ _ h', replied h (Some desc) n h') never h.
Proof. intros. apply reply_desc; try done. by apply take_ge. Qed.

Lemma none_wp n h :
  host_idle I h → wp (ret tt) (λ _ h', replied h None n h') never h.
Proof. intros. by apply wp_ret. Qed.

Lemma other_speed_wp n h :
  host_idle I h → 0 ≤ n →
  wp (let* '(desc_length, other_speed_desc) :=
        liftC (build_other_speed_config (config_desc d)
                 (replicate (Z.to_nat ENDPOINT_MAX_DATA_LENGTH) 0) ENDPOINT_MAX_DATA_LENGTH) in
      reply other_speed_desc (shorter n desc_length))
    (λ _ h', replied h (match build_other_speed_config (config_desc d) (replicate 512 0) 512 with
                        | Val (k, b) => Some (take (Z.to_nat k) b) | Err _ => None end) n h') never h.
Proof using All.
  intros Hh Hn. destruct sound_total as (ds & _ & _ & Htot & H9 & Hb).
  destruct (build_other_speed_config_total (config_desc d) (replicate 512 0) (blen (config_desc d)))
    as (b & Hbuild & Hlb & Hbb); [done|done|lia|vm_compute; congruence|by apply Forall_replicate|lia|].
  change (blen (replicate 512 0)) with 512 in *. change (Z.to_nat ENDPOINT_MAX_DATA_LENGTH) with 512%nat.
  unfold ENDPOINT_MAX_DATA_LENGTH. rewrite Hbuild. apply wp_bind, wp_liftC, cwp_ret.
  set (k := Z.min (blen (config_desc d)) 512). assert (blen (take (Z.to_nat k) b) = k) as Hk.
  { rewrite blen_take by lia. lia. }
  rewrite <-Hk at 1. apply reply_desc; [done..| |done]. rewrite length_take. f_equal. unfold blen in *. lia.
Qed.

Lemma string_wp index n h :
  host_idle I h → 0 ≤ n → index ≠ 0 →
  wp (let* string := liftC (get_string d index) in
      match string with
      | Some mem =>
          let* string_buffer := liftC (string_descriptor mem) in
          let* desc_length := liftC (arr_get string_buffer 0) in
          reply string_buffer (shorter n desc_length)
      | None => ret tt
      end)
    (λ _ h', replied h (string_desc <$> (l ← usb_strings d; find_text l index)) n h') never h.
Proof using All.
  intros Hh Hn Hi. unfold get_string. destruct (usb_strings d) as [l|] eqn:Hl; [|by apply none_wp].
  destruct (get_string_loop_spec l index) as (o & Hget & Hfind & Ho); [by apply sound_strings|done|].
  rewrite Hget. apply wp_bind, wp_liftC, cwp_ret. simpl. rewrite Hfind.
  destruct o as [mem|]; [|by apply none_wp]. simpl. destruct (Ho mem eq_refl) as [Ht Hb].
  destruct (string_descriptor_spec mem Ht) as (buf & Hbuf & Hlen & Hpre & Hbb).
  rewrite Hbuf. apply wp_bind, wp_liftC, cwp_ret. set (sd := string_desc (c_text mem)) in *.
  assert (Forall is_byte sd) as Hsdb by (by apply string_desc_byte, c_text_byte).
  assert (arr_get buf 0 = Val (blen sd)) as ->.
  { apply arr_get_Val. split; [lia|]. change (Z.to_nat 0) with 0%nat.
    rewrite <-(lookup_take_lt buf (length sd) 0), Hpre by (unfold sd, string_desc; simpl; lia).
    unfold sd, string_desc, blen. simpl. rewrite widen_text_length. f_equal. lia. }
  apply wp_bind, wp_liftC, cwp_ret. apply reply_desc; try done. by apply Hbb.
Qed.

Lemma get_descriptor_wp setup n h :
  host_idle I h → 0 ≤ n → blen setup = 8 →
  wp (get_descriptor d setup n)
    (λ _ h', replied h (standard_descriptor d (default 0 (setup !! 3%nat)) (default 0 (setup !! 2%nat))) n h')
    never h.
Proof using All.
  intros Hh Hn Hs. unfold get_descriptor. destruct sound_total as (ds & _ & _ & Htot & _ & Hcb).
  destruct sound_device_desc as [Hdd _]. pose proof sound_langid_desc as Hlang.
  wp_byte ty Hty. change (Z.to_nat 3) with 3%nat in Hty.
  wp_byte ix Hix. change (Z.to_nat 2) with 2%nat in Hix.
  rewrite Hty, Hix. simpl. unfold standard_descriptor.
  destruct (Z.eqb_spec ty USB_DESCRIPTOR_TYPE_DEVICE); [rewrite decide_True by done|rewrite decide_False by done].
  { rewrite arr_get_Val_0 by done. apply wp_bind, wp_liftC, cwp_ret. apply desc_reply_wp; try done. apply Hdd. }
  destruct (Z.eqb_spec ty USB_DESCRIPTOR_TYPE_CONFIGURATION); [rewrite decide_True by done|rewrite decide_False by done].
  { rewrite Htot. apply wp_bind, wp_liftC, cwp_ret. by apply desc_reply_wp. }
  apply wp_bind, is_usb2_type_wp. case_bool_decide as Hq; [rewrite (decide_True (P := ty = _)) by done|rewrite (decide_False (P := ty = _)) by done]; simpl.
  { destruct (bool_decide (2 ≤ default 0 _)); [by apply qualifier_wp|]. apply wp_bind, is_usb2_type_wp.
    rewrite bool_decide_false by (rewrite Hq; done). simpl. rewrite Hq. simpl. by apply none_wp. }
  apply wp_bind, is_usb2_type_wp. case_bool_decide as Ho; [rewrite (decide_True (P := ty = _)) by done|rewrite (decide_False (P := ty = _)) by done]; simpl.
  { destruct (bool_decide (2 ≤ default 0 _)); [by apply other_speed_wp|]. rewrite Ho. simpl. by apply none_wp. }
  destruct (Z.eqb_spec ty USB_DESCRIPTOR_TYPE_STRING); [rewrite decide_True by done|rewrite decide_False by done; by apply none_wp].
  destruct (Z.eqb_spec ix 0); [rewrite decide_True by done|rewrite decide_False by done; by apply string_wp].
  rewrite arr_get_Val_0 by done. apply wp_bind, wp_liftC, cwp_ret. apply desc_reply_wp; try done. apply Hlang.
Qed.

Lemma reply_whole_wp msg n h :
  host_idle I h → 0 ≤ n → blen msg ≤ 512 → Forall is_byte msg →
  wp (reply msg (blen msg)) (λ _ h', replied h (Some msg) n h') never h.
Proof.
  intros Hh Hn Hm Hb. pose proof (blen_nonneg msg).
  eapply wp_post; [apply reply_wp; [done|lia|lia|done]|].
  intros _ h' (Hh' & Hsame & Hdev & Habs). split; [done|]. split; [done|]. split; [done|].
  destruct (stopped _); [done|]. eexists. split; [exact Habs|]. unfold cut_message, ENDPOINT_MAX_DATA_LENGTH.
  rewrite (take_ge msg) by (unfold blen in *; lia).
  destruct (decide (n ≤ 512)); [by rewrite Z.min_l|]. rewrite !take_ge; [done|unfold blen in *; lia..].
Qed.

(** Standard IN requests to the device. *)
Lemma device_request_in_wp setup buffer n h bm :
  host_idle I h → 0 ≤ n → blen setup = 8 → setup !! 0%nat = Some bm → Z.land bm 0x80 ≠ 0 →
  wp (device_request d setup buffer n)
    (λ supported h', supported = true
       ∧ replied h (standard_reply d (configuration (abs (lib h))) setup) n h') never h.
Proof using All.
  intros Hh Hn Hs Hbm Hdir. unfold device_request, standard_reply.
  rewrite (proj2 (arr_get_Val setup 0 bm)) by done. apply wp_bind, wp_liftC, cwp_ret.
  wp_byte req Hreq. change (Z.to_nat 1) with 1%nat in Hreq.
  rewrite Hreq. simpl default. rewrite (proj2 (Z.eqb_neq _ _)) by done. simpl negb.
  set (r := if decide (req = USB_REQUEST_GET_STATUS) then _ else _).
  apply wp_bind. apply (wp_post _ (λ _ h', replied h r n h')); [|intros [] h' H; by apply wp_ret].
  unfold r; clear r.
  destruct (Z.eqb_spec req USB_REQUEST_GET_STATUS); [rewrite decide_True by done|rewrite decide_False by done].
  { destruct sound_total as (_ & _ & _ & _ & H9 & _).
    wp_byte a Ha. change (Z.to_nat 7) with 7%nat in Ha. rewrite Ha.
    simpl default.
    assert ((if negb (Z.land a 64 =? 0) then 1 else 0) = if Z.testbit a 6 then 1 else 0) as ->.
    { assert (Z.land a 64 = if Z.testbit a 6 then 64 else 0) as ->; [|by destruct (Z.testbit a 6)].
      apply Z.bits_inj_iff'. intros i Hi. rewrite Z.land_spec. change 64 with (2 ^ 6) at 1.
      rewrite Z.pow2_bits_eqb by lia. destruct (Z.eqb_spec 6 i) as [<-|Hne].
      - by destruct (Z.testbit a 6).
      - rewrite andb_false_r. destruct (Z.testbit a 6); [|by rewrite Z.bits_0].
        change 64 with (2 ^ 6). rewrite Z.pow2_bits_eqb by lia. symmetry. by apply Z.eqb_neq. }
    apply (reply_whole_wp [_; 0]); [done|done|done|]. repeat constructor; destruct (Z.testbit a 6); done. }
  destruct (Z.eqb_spec req USB_REQUEST_GET_DESCRIPTOR); [rewrite decide_True by done; by apply get_descriptor_wp|rewrite decide_False by done].
  destruct (Z.eqb_spec req USB_REQUEST_GET_CONFIGURATION); [rewrite decide_True by done|rewrite decide_False by done; by apply none_wp].
  apply wp_bind, wp_in_lib, wp_gets. replace (set_lib (lib h) h) with h by (by destruct h).
  apply (reply_whole_wp [_]); [done|done|done|]. repeat constructor; destruct Hh as [[_ Hwf] _]; apply (wf_configuration _ Hwf).
Qed.

(** After [control_begin] nothing answers the request yet. *)
Lemma control_begin_wp h :
  host_idle I h →
  wp (in_lib control_begin)
    (λ _ h', host_idle I h' ∧ same_control (lib h) (lib h') ∧ (dev h' = dev h ∧ clk h' = clk h)
       ∧ abs (lib h') = set_answered false (set_slot 0 [] (abs (lib h)))) never h.
Proof.
  intros [[HI Hwf] Hl]. apply wp_in_lib.
  destruct (control_begin_spec (lib h) Hwf) as (s' & Hs & Habs & Hwf' & Hsame & _).
  unfold wp. rewrite Hs. split; [split; [done|]|done]. destruct Hsame as (Hl' & _). simpl. congruence.
Qed.

(** What no control request changes. *)
Definition same_run (s s' : device_state) : Prop :=
  device_stopped s' = device_stopped s ∧ ep_data_event_fd s' = ep_data_event_fd s
  ∧ reset_generation s' = reset_generation s.

Lemma same_control_run s s' : same_control s s' → same_run s s'.
Proof. unfold same_control, same_run. tauto. Qed.

Lemma same_run_trans s1 s2 s3 : same_run s1 s2 → same_run s2 s3 → same_run s1 s3.
Proof. unfold same_run. naive_solver congruence. Qed.

Lemma device_request_wp setup buffer n h :
  host_idle I h → data_ok buffer n → blen setup = 8 → Forall is_byte setup →
  wp (device_request d setup buffer n) (λ _ h', host_idle I h' ∧ same_run (lib h) (lib h')) never h.
Proof using All.
  intros Hh Hd Hs Hsb. destruct (lookup_lt_is_Some_2 setup 0) as [bm Hbm]; [unfold blen in Hs; lia|].
  destruct (decide (Z.land bm 0x80 = 0)) as [Hdir|Hdir].
  2: { eapply wp_post; [apply (device_request_in_wp _ _ _ _ bm); try done; apply Hd|].
       intros _ h' (_ & Hh' & Hsame & _). eauto using same_control_run. }
  unfold device_request. rewrite (proj2 (arr_get_Val setup 0 bm)) by done. apply wp_bind, wp_liftC, cwp_ret.
  wp_byte req _. rewrite Hdir. simpl.
  destruct (req =? USB_REQUEST_SET_CONFIGURATION); [|by apply wp_ret].
  wp_byte v Hv.
  apply wp_bind, wp_in_lib, wp_modify. set (h1 := set_lib _ h).
  assert (host_idle I h1) as Hh1.
  { destruct Hh as [[HI []] Hl]. split; [split; [done|]|done]. constructor; try done. simpl.
    by eapply (Forall_lookup_1 is_byte setup). }
  apply wp_bind. eapply wp_post; [by apply (control_callback_ok I d)|].
  intros _ h' (Hh' & Hsame). apply wp_ret. split; [done|]. apply same_control_run in Hsame. exact Hsame.
Qed.

Lemma endpoint_request_wp setup h :
  host_idle I h → blen setup = 8 →
  wp (endpoint_request setup) (λ _ h', host_idle I h' ∧ same_run (lib h) (lib h')) never h.
Proof.
  intros Hh Hs. unfold endpoint_request. wp_byte req _.
  destruct (req =? _); [|destruct (_ || _); by apply wp_ret].
  apply wp_bind. eapply wp_post; [apply (reply_whole_wp [0; 0] 0); [done|lia|done|by repeat constructor]|].
  intros _ h' (Hh' & Hsame & _). apply wp_ret. eauto using same_control_run.
Qed.

(** Any control request, well-formed or not, is handled without a fault. *)
Lemma usbip_device_control_wp setup buffer n h :
  host_idle I h → data_ok buffer n → blen setup = 8 → Forall is_byte setup →
  wp (usbip_device_control d setup buffer n) (λ _ h', host_idle I h' ∧ same_run (lib h) (lib h')) never h.
Proof using All.
  intros Hh Hd Hs Hsb. unfold usbip_device_control. apply wp_bind.
  eapply wp_post; [by apply control_begin_wp|]. intros _ h1 (Hh1 & Hsame1%same_control_run & _ & _).
  wp_byte bm _.
  assert (∀ (m : M (host D) bool), wp m (λ _ h', host_idle I h' ∧ same_run (lib h1) (lib h')) never h1 →
    wp m (λ _ h', host_idle I h' ∧ same_run (lib h) (lib h')) never h1) as Hstep.
  { intros m Hm. eapply wp_post; [exact Hm|]. intros _ h' [? ?]. eauto using same_run_trans. }
  assert (wp (control_callback d setup buffer n;; ret true)
    (λ _ h', host_idle I h' ∧ same_run (lib h1) (lib h')) never h1) as Hcb.
  { apply wp_bind. eapply wp_post; [by apply (control_callback_ok I d)|].
    intros _ h' [? ?]. apply wp_ret. eauto using same_control_run. }
  apply Hstep. repeat (destruct (negb _) || destruct (_ =? _)); try done; try by apply wp_ret.
  - by apply device_request_wp.
  - by apply endpoint_request_wp.
Qed.
End answers.

Section properties.
Context {D : Type} (I : D → Prop) (d : usbip_device_t D) `{!DeviceSound I d}.

(** The first byte selects the branch of [usbip_device_control]. *)
Lemma usbip_device_control_0x80 setup buffer n h :
  host_idle I h → 0 ≤ n → blen setup = 8 → setup !! 0%nat = Some 0x80 →
  wp (usbip_device_control d setup buffer n)
    (λ supported h', supported = true ∧ host_idle I h' ∧ same_control (lib h) (lib h') ∧ same_device h h'
       ∧ match standard_reply d (configuration (abs (lib h))) setup with
         | Some r =>
             if stopped (abs (lib h)) then abs (lib h') = set_answered false (set_slot 0 [] (abs (lib h)))
             else ∃ m, abs (lib h') = set_answered true (set_slot 0 m (abs (lib h)))
                    ∧ take (Z.to_nat n) m = take (Z.to_nat (Z.min n 512)) r
         | None => abs (lib h') = set_answered false (set_slot 0 [] (abs (lib h)))
         end) never h.
Proof using All.
  intros Hh Hn Hs Hbm. unfold usbip_device_control. apply wp_bind.
  eapply wp_post; [by apply control_begin_wp|]. intros _ h1 (Hh1 & Hsame1 & Hsd1 & Habs1).
  rewrite (proj2 (arr_get_Val setup 0 0x80)) by done. apply wp_bind, wp_liftC, cwp_ret.
  replace (negb (Z.land (Z.shiftr 0x80 5) 0x03 =? USB_REQUEST_TYPE_STANDARD)) with false by done.
  replace (Z.land 0x80 0x1f =? USB_REQUEST_RECIPIENT_DEVICE) with true by done.
  assert (configuration (abs (lib h)) = configuration (abs (lib h1))) as ->.
  { by rewrite Habs1. }
  assert (stopped (abs (lib h)) = stopped (abs (lib h1))) as -> by (by rewrite Habs1).
  eapply wp_post; [apply (device_request_in_wp I d _ _ _ _ 0x80); done|].
  intros sup h' (-> & Hh' & Hsame & Hsd & Hr). split; [done|]. split; [done|].
  split; [by etrans|]. split; [by transitivity h1|].
  destruct (standard_reply _ _ _) as [r|]; [|by rewrite Hr, Habs1].
  destruct (stopped (abs (lib h1))); [by rewrite Hr, Habs1|].
  destruct Hr as (m & Hm & Ht). exists m. split; [|done]. rewrite Hm, Habs1.
  unfold set_answered, set_slot. simpl. by rewrite list_insert_insert_eq.
Qed.

Lemma fetch_control_reply_wp tx n h :
  host_idle I h → 0 ≤ n ≤ blen tx →
  wp (in_lib (usbip_device_fetch_control_reply tx n))
    (λ '(ans, len, tx') h',
       let out := take (Z.to_nat n) (slot_of 0 (abs (lib h))) in
       ans = answered (abs (lib h)) ∧ len = blen out ∧ tx' = splice tx 0 out
       ∧ Forall is_byte out ∧ host_idle I h' ∧ same_control (lib h) (lib h')
       ∧ abs (lib h') = set_answered false (set_slot 0 [] (abs (lib h)))
       ∧ dev h' = dev h ∧ clk h' = clk h) never h.
Proof using.
  intros [[HI Hwf] Hl] Hn. apply wp_in_lib.
  destruct (fetch_control_reply_spec (lib h) tx n Hwf) as (s' & Hf & Habs & Hwf' & Hsame & _); [lia| |].
  { rewrite blen_take by lia. lia. }
  unfold wp. rewrite Hf. split; [done|]. split; [done|]. split; [done|].
  destruct (wf_arr_get (lib h) 0 Hwf) as (e & He & Hewf & _). split.
  { apply Forall_take. change (slot_of 0 (abs (lib h))) with (slot_of (ep_number 0) (abs (lib h))).
    rewrite (slot_of_abs _ _ _ He). by apply contents_byte. }
  split; [split; [done|]|done]. destruct Hsame as (Hl' & _). simpl. congruence.
Qed.

Lemma control_in_0x80 setup rx tx n h :
  host_idle I h → stopped (abs (lib h)) = false → 0 ≤ n ≤ blen tx →
  blen setup = 8 → setup !! 0%nat = Some 0x80 →
  let r := standard_reply d (configuration (abs (lib h))) setup in
  ∃ h', control_in d setup rx tx n h =
          Ok (true, bool_decide (is_Some r), take (Z.to_nat (Z.min n 512)) (default [] r)) h'
    ∧ host_idle I h'.
Proof using All.
  intros Hh Hst Hn Hs Hbm r.
  assert (wp (control_in d setup rx tx n) (λ a h',
    a = (true, bool_decide (is_Some r), take (Z.to_nat (Z.min n 512)) (default [] r)) ∧ host_idle I h') never h) as H.
  { unfold control_in. apply wp_bind.
    eapply wp_post; [apply usbip_device_control_0x80; [done|lia|done..]|]. intros sup h1 (-> & Hh1 & _ & _ & Hr).
    apply wp_bind. eapply wp_post; [by apply fetch_control_reply_wp|].
    intros [[ans len] tx'] h2 (-> & -> & -> & _ & Hh2 & _). apply wp_ret. split; [|done].
    unfold blen. rewrite Nat2Z.id, splice_0_take. fold r in Hr. rewrite Hst in Hr.
    assert (∀ v q, answered (set_answered v (set_slot 0 q (abs (lib h)))) = v
      ∧ slot_of 0 (set_answered v (set_slot 0 q (abs (lib h)))) = q) as Hslot.
    { intros v q. split; [done|]. unfold slot_of, set_slot. simpl. rewrite list_lookup_insert_eq; [done|].
      destruct Hh as [[_ Hwf] _]. rewrite length_fmap, (wf_count _ Hwf). lia. }
    destruct r as [r|].
    - destruct Hr as (m & -> & Hm). destruct (Hslot true m) as [-> ->]. by rewrite Hm.
    - rewrite Hr. destruct (Hslot false []) as [-> ->]. simpl. by rewrite !take_nil. }
  apply wp_never_Ok in H as (a & h' & Hrun & -> & Hh'). eauto.
Qed.

(** C17: every standard IN request to the device (bmRequestType 0x80: GET_STATUS,
    GET_DESCRIPTOR of each type, GET_CONFIGURATION) of a sound device is handled as
    chapter 9 asks: the host receives the first min(wLength, 512) bytes of
    the reference answer, and a request without a reference answer is left
    unanswered, so that it is stalled. *)
Theorem standard_in_request_is_answered setup rx tx n h :
  host_idle I h → stopped (abs (lib h)) = false → 0 ≤ n ≤ blen tx →
  blen setup = 8 → setup !! 0%nat = Some 0x80 →
  let r := standard_reply d (configuration (abs (lib h))) setup in
  ∃ h', control_in d setup rx tx n h =
          Ok (true, bool_decide (is_Some r), take (Z.to_nat (Z.min n 512)) (default [] r)) h'
    ∧ host_idle I h'.
Proof using All. apply control_in_0x80. Qed.

(** A control request of any content (any setup packet, any data stage the transfer
    buffer holds) is handled without an out-of-bounds access and without a deadlock;
    it always ends, releases both mutexes, keeps the device's invariant and the store
    well-formed, and never stops the device or starts a new generation. *)
Theorem control_request_never_faults setup buffer n h :
  host_idle I h → data_ok buffer n → blen setup = 8 → Forall is_byte setup →
  ∃ supported h', usbip_device_control d setup buffer n h = Ok supported h'
    ∧ host_idle I h' ∧ same_run (lib h) (lib h').
Proof using All.
  intros Hh Hd Hs Hb. pose proof (usbip_device_control_wp I d setup buffer n h Hh Hd Hs Hb) as H.
  apply wp_never_Ok in H as (a & h' & Hrun & Hpost). eauto.
Qed.

(** SET_CONFIGURATION stores its value whatever the device's callback does, and the
    following GET_CONFIGURATION reports it. *)
Theorem set_then_get_configuration setup setup' rx tx v h :
  host_idle I h → stopped (abs (lib h)) = false → data_ok rx 0 → 1 ≤ blen tx →
  setup = [0x00; USB_REQUEST_SET_CONFIGURATION; v; 0; 0; 0; 0; 0] → is_byte v →
  setup' = [0x80; USB_REQUEST_GET_CONFIGURATION; 0; 0; 0; 0; 1; 0] →
  ∃ h', (usbip_device_control d setup rx 0;; control_in d setup' rx tx 1) h =
          Ok (true, true, [v]) h'.
Proof using All.
  intros Hh Hst Hd Htx -> Hv ->.
  assert (wp (usbip_device_control d [0x00; USB_REQUEST_SET_CONFIGURATION; v; 0; 0; 0; 0; 0] rx 0)
    (λ _ h1, host_idle I h1 ∧ configuration_value (lib h1) = v ∧ device_stopped (lib h1) = false) never h) as Hset.
  { unfold usbip_device_control. apply wp_bind. eapply wp_post; [by apply control_begin_wp|].
    intros _ h1 (Hh1 & (_ & _ & Hst1 & _) & _ & _).
    apply wp_bind, wp_liftC, cwp_ret.
    replace (negb (Z.land (Z.shiftr 0x00 5) 0x03 =? USB_REQUEST_TYPE_STANDARD)) with false by done.
    replace (Z.land 0x00 0x1f =? USB_REQUEST_RECIPIENT_DEVICE) with true by done. unfold device_request.
    apply wp_bind, wp_liftC, cwp_ret, wp_bind, wp_liftC, cwp_ret. simpl negb. cbv iota.
    replace (USB_REQUEST_SET_CONFIGURATION =? USB_REQUEST_SET_CONFIGURATION) with true by done.
    apply wp_bind, wp_liftC, cwp_ret, wp_bind, wp_in_lib, wp_modify.
    set (h2 := set_lib _ h1). assert (host_idle I h2) as Hh2.
    { destruct Hh1 as [[HI []] Hl]. split; [split; [done|]|done]. by constructor. }
    apply wp_bind. eapply wp_post; [apply (control_callback_ok I d); [done| |done|done]|].
    { rewrite !Forall_cons. unfold is_byte in *. split_and!; try lia; done. }
    intros _ h' (Hh' & (_ & _ & Hst' & _ & Hc & _)). apply wp_ret. split; [done|].
    rewrite Hc, Hst'. split; [done|]. simpl. rewrite Hst1. exact Hst. }
  apply wp_never_Ok in Hset as (sup & h1 & Hrun & Hh1 & Hc & Hst1).
  destruct (control_in_0x80 [0x80; USB_REQUEST_GET_CONFIGURATION; 0; 0; 0; 0; 1; 0] rx tx 1 h1)
    as (h' & Hin & _); [done|done|lia|done|done|].
  exists h'. unfold bind. rewrite Hrun, Hin. simpl. by rewrite Hc.
Qed.
End properties.

(** ** Witnesses: the bulk device *)

Lemma bulk_data_ok n : (0 ≤ n ≤ 64)%nat → data_ok (replicate 64 0) (Z.of_nat n).
Proof. intros. split; [by apply Forall_replicate|]. unfold blen. rewrite length_replicate. lia. Qed.

(** String descriptor 4, "ABC123". *)
Lemma standard_in_request_is_answered_witness :
  ∃ h', control_in Bulk.bulk_device [0x80; 6; 4; 3; 9; 4; 255; 0] (replicate 64 0) (replicate 256 0) 255
          Bulk.initial_host
        = Ok (true, true, [14; 3; 65; 0; 66; 0; 67; 0; 49; 0; 50; 0; 51; 0]) h'.
Proof.
  destruct (standard_in_request_is_answered Bulk.inv Bulk.bulk_device [0x80; 6; 4; 3; 9; 4; 255; 0]
    (replicate 64 0) (replicate 256 0) 255 Bulk.initial_host) as (h' & H & _).
  - exact Bulk.initial_host_idle.
  - reflexivity.
  - vm_compute. split; discriminate.
  - reflexivity.
  - reflexivity.
  - exists h'. rewrite H. reflexivity.
Defined.

Lemma control_request_never_faults_witness :
  ∃ supported h', usbip_device_control Bulk.bulk_device [0x21; 9; 255; 255; 255; 255; 255; 255]
    (replicate 64 0) (Z.of_nat 64) Bulk.initial_host = Ok supported h' ∧ host_idle Bulk.inv h'.
Proof.
  destruct (control_request_never_faults Bulk.inv Bulk.bulk_device [0x21; 9; 255; 255; 255; 255; 255; 255]
    (replicate 64 0) (Z.of_nat 64) Bulk.initial_host) as (b & h' & H1 & H2 & _).
  - exact Bulk.initial_host_idle.
  - apply bulk_data_ok. lia.
  - reflexivity.
  - apply (bool_decide_eq_true_1 _). vm_compute. reflexivity.
  - exists b, h'. split; [exact H1|exact H2].
Defined.

Lemma set_then_get_configuration_witness :
  ∃ h', (usbip_device_control Bulk.bulk_device [0x00; 9; 1; 0; 0; 0; 0; 0] (replicate 64 0) 0;;
         control_in Bulk.bulk_device [0x80; 8; 0; 0; 0; 0; 1; 0] (replicate 64 0) (replicate 64 0) 1)
        Bulk.initial_host = Ok (true, true, [1]) h'.
Proof.
  apply (set_then_get_configuration Bulk.inv Bulk.bulk_device [0x00; 9; 1; 0; 0; 0; 0; 0]
    [0x80; 8; 0; 0; 0; 0; 1; 0] (replicate 64 0) (replicate 64 0) 1 Bulk.initial_host).
  - exact Bulk.initial_host_idle.
  - reflexivity.
  - apply (bulk_data_ok 0). lia.
  - vm_compute. discriminate.
  - reflexivity.
  - split; [discriminate|reflexivity].
  - reflexivity.
Defined.
