(* ===== verification/Silent.v ===== *)
(** * What callbacks leave alone

    A control request, OUT data or the demand for an isochronous packet may change the
    device's variables, and a control request queues an answer on endpoint 0. [SilentDevice]
    says that its callbacks, that for a reset included, do not touch the messages that wait
    on the other endpoints; the library then does not either. The property needs no
    invariant, so it is proved by following the structure of the programs. *)
From S2P Require Import Prelude DeviceStore Descriptors OtherSpeed Host BulkDevice Control.

(** ** Programs that respect a relation *)

(** Whenever [m] returns, its final state is related to its initial one. *)
Definition keeps {S A} (R : S → S → Prop) (m : M S A) : Prop := ∀ s a s', m s = Ok a s' → R s s'.

Section keeps.
Context {S : Type} (R : S → S → Prop) `{!PreOrder R}.

Lemma keeps_ret {A} (a : A) : keeps R (ret a).
Proof using All. by intros s b s' [= _ <-]. Qed.

Lemma keeps_bind {A B} (m : M S A) (k : A → M S B) : keeps R m → (∀ a, keeps R (k a)) → keeps R (bind m k).
Proof using All.
  intros Hm Hk s b s'. unfold bind. destruct (m s) as [a s1|s1|] eqn:H; [|done..]. intros H'.
  etrans; [by eapply Hm|by eapply Hk].
Qed.

Lemma keeps_get : keeps R get.
Proof using All. by intros s b s' [= _ <-]. Qed.

Lemma keeps_gets {A} (f : S → A) : keeps R (gets f).
Proof using All. by intros s b s' [= _ <-]. Qed.

Lemma keeps_liftC {A} (c : cres A) : keeps R (liftC c).
Proof using All. intros s b s'. unfold liftC. destruct c; [|done]. by intros [= _ <-]. Qed.

Lemma keeps_read {A B} (c : cres A) a (k : A → M S B) : c = Val a → keeps R (k a) → keeps R (bind (liftC c) k).
Proof using. by intros ->. Qed.

Lemma keeps_fail {A} (f : fault) : keeps R (fail (A := A) f).
Proof using. by intros s b s'. Qed.

Lemma keeps_wait {A} : keeps R (wait_forever (A := A)).
Proof using. by intros s b s'. Qed.

Lemma keeps_modify (f : S → S) : (∀ s, R s (f s)) → keeps R (modify f).
Proof using. intros Hf s b s' [= _ <-]. apply Hf. Qed.

Lemma keeps_zoom {T A} (R' : T → T → Prop) (getter : S → T) setter (m : M T A) :
  keeps R' m → (∀ s t, R' (getter s) t → R s (setter t s)) → keeps R (zoom getter setter m).
Proof using.
  intros Hm Hs s b s'. unfold zoom. destruct (m (getter s)) as [a t|t|] eqn:H; [|done..]. intros [= _ <-].
  apply Hs. by eapply Hm.
Qed.
End keeps.

(** ** Messages of the endpoints other than 0 *)

Definition same_messages (s s' : device_state) : Prop :=
  ∀ k, k ≠ 0%nat → endpoint_data s' !! k = endpoint_data s !! k.

Definition other_messages {D} (h h' : host D) : Prop := same_messages (lib h) (lib h').

(** No message is touched at all, and the clock was not read. *)
Definition same_data (s s' : device_state) : Prop := endpoint_data s' = endpoint_data s.

Definition still {D} (h h' : host D) : Prop := same_data (lib h) (lib h') ∧ clk h' = clk h.

(** A part [f] of the device's variables stays as it is. *)
Definition same_view {D T} (f : D → T) (h h' : host D) : Prop := f (dev h') = f (dev h).

Class SilentDevice {D} (d : usbip_device_t D) : Prop := {
  silent_control setup data len : keeps other_messages (control_data_callback d setup data len);
  silent_ep_data callback ep data len : ep_data_callback d = Some callback → keeps other_messages (callback ep data len);
  silent_reset callback : reset_callback d = Some callback → keeps other_messages callback;
  silent_iso_in callback ep buffer n : iso_in_callback d = Some callback → keeps still (callback ep buffer n);
}.

(** * Theorems *)

#[export] Instance same_messages_preorder : PreOrder same_messages.
Proof.
  split; [by intros s k _|]. intros s1 s2 s3 H1 H2 k Hk. by rewrite (H2 k Hk), (H1 k Hk).
Qed.

#[export] Instance other_messages_preorder {D} : PreOrder (@other_messages D).
Proof.
  split; [by intros h k _|]. intros h1 h2 h3 H1 H2. unfold other_messages in *. by etrans.
Qed.

#[export] Instance same_data_preorder : PreOrder same_data.
Proof. split; [done|]. unfold same_data. congruence. Qed.

#[export] Instance still_preorder {D} : PreOrder (@still D).
Proof. split; [done|]. unfold still, same_data. intros h1 h2 h3 [H1 C1] [H2 C2]. split; congruence. Qed.

#[export] Instance same_view_preorder {D T} (f : D → T) : PreOrder (same_view f).
Proof. split; [by intros h|]. intros h1 h2 h3. unfold same_view. congruence. Qed.

Lemma other_messages_slot {D} (h h' : host D) k :
  other_messages h h' → k ≠ 0%nat → slot_of k (abs (lib h')) = slot_of k (abs (lib h)).
Proof. intros H Hk. unfold slot_of, abs. cbn [slot]. by rewrite !list_lookup_fmap, (H k Hk). Qed.

Lemma in_lib_keeps {D A} (m : M device_state A) : keeps same_messages m → keeps (@other_messages D) (in_lib m).
Proof. intros Hm. by eapply keeps_zoom. Qed.

Lemma in_clk_keeps {D A} (m : M clock A) : keeps (@other_messages D) (in_clk m).
Proof. apply (keeps_zoom _ (λ _ _, True)); [done|]. by intros h c _ k _. Qed.

Lemma still_slot {D} (h h' : host D) k : still h h' → slot_of k (abs (lib h')) = slot_of k (abs (lib h)).
Proof. intros [H _]. unfold slot_of, abs. cbn [slot]. by rewrite H. Qed.

Lemma in_lib_still {D A} (m : M device_state A) : keeps same_data m → keeps (@still D) (in_lib m).
Proof. intros Hm. by eapply keeps_zoom. Qed.

Lemma in_lib_view {D T A} (f : D → T) (m : M device_state A) : keeps (same_view f) (in_lib m).
Proof. by apply (keeps_zoom _ (λ _ _, True)). Qed.

Lemma in_clk_view {D T A} (f : D → T) (m : M clock A) : keeps (same_view f) (in_clk m).
Proof. by apply (keeps_zoom _ (λ _ _, True)). Qed.

(** Follows the structure of a program; the database holds lemmas for the calls in it. *)
Create HintDb keeps.
Ltac keeps :=
  repeat first
    [ solve [first [apply keeps_ret | apply keeps_get | apply keeps_gets | apply keeps_liftC | apply keeps_fail | apply keeps_wait]; apply _]
    | solve [auto 2 with keeps] | apply in_lib_keeps | apply in_lib_still | apply in_clk_keeps | apply in_lib_view | apply in_clk_view | apply keeps_bind; [apply _| |intros ?] | solve [apply keeps_modify; first [by intros ? ? ?|by intros|by split]] | case_match ].

Lemma lock_ep_access_keeps : keeps same_messages lock_ep_access.
Proof. intros s b s'. unfold lock_ep_access. destruct (ep_access_mutex s); [done|]. by intros [= _ <-]. Qed.

Lemma lock_receive_keeps : keeps same_messages lock_receive.
Proof. intros s b s'. unfold lock_receive. destruct (receive_lock s); [done|]. by intros [= _ <-]. Qed.

Lemma unlock_ep_access_keeps : keeps same_messages unlock_ep_access.
Proof. apply keeps_modify. by intros s k _. Qed.

Lemma unlock_receive_keeps : keeps same_messages unlock_receive.
Proof. apply keeps_modify. by intros s k _. Qed.

Lemma write_event_keeps : keeps same_messages write_event.
Proof. apply keeps_modify. intros s k _. by case_bool_decide. Qed.

Lemma lock_receive_data : keeps same_data lock_receive.
Proof. intros s b s'. unfold lock_receive. destruct (receive_lock s); [done|]. by intros [= _ <-]. Qed.

Lemma unlock_receive_data : keeps same_data unlock_receive.
Proof. by apply keeps_modify. Qed.

#[export] Hint Resolve lock_receive_data unlock_receive_data : keeps.
#[export] Hint Resolve lock_ep_access_keeps lock_receive_keeps unlock_ep_access_keeps unlock_receive_keeps write_event_keeps : keeps.

Lemma arr_set_0_others {A} (l l' : list A) x k : arr_set l 0 x = Val l' → k ≠ 0%nat → l' !! k = l !! k.
Proof.
  unfold arr_set. case_decide; [|done]. intros [= <-] Hk. by rewrite list_lookup_insert_ne.
Qed.

Lemma transmit_guard_keeps th e : keeps same_messages (transmit_guard th e).
Proof. unfold transmit_guard. keeps. Qed.

Lemma transmit_store_keeps g msg len : keeps same_messages (transmit_store g 0 msg len).
Proof.
  intros s b s'. unfold transmit_store. unfold bind at 1, get. unfold bind at 1, liftC. destruct (arr_get _ _) as [e|]; [|done].
  destruct (_ && _); [|by intros [= _ <-]]. unfold bind at 1. destruct (if 0 <? len then _ else _) as [dat s1|s1|] eqn:Hd; [|done..].
  assert (s1 = s) as -> by (unfold liftC, ret in Hd; repeat case_match; congruence).
  unfold bind at 1, liftC. destruct (arr_set _ _ _) as [ed|] eqn:Hed; [|done]. cbn. intros [= _ <-] k Hk.
  by apply (arr_set_0_others _ _ _ _ Hed).
Qed.

#[export] Hint Resolve transmit_guard_keeps transmit_store_keeps : keeps.

Lemma transmit_0_keeps th msg len : keeps same_messages (usbip_device_transmit th 0 msg len).
Proof. unfold usbip_device_transmit. change (Z.land 0 15) with 0. cbn [Z.eqb negb]. keeps. Qed.

Lemma control_begin_keeps : keeps same_messages control_begin.
Proof.
  intros s b s'. unfold control_begin, bind, lock_ep_access, gets, liftC. destruct (ep_access_mutex s); [done|]. cbn [endpoint_data set_ep_access_mutex].
  destruct (arr_get _ _) as [e|]; [|done]. destruct (arr_set _ _ _) as [ed|] eqn:Hed; [|done]. cbn. intros [= _ <-] k Hk.
  by apply (arr_set_0_others _ _ _ _ Hed).
Qed.

#[export] Hint Resolve transmit_0_keeps control_begin_keeps : keeps.

Lemma callback_transmit_keeps {D} msg len : keeps (@other_messages D) (callback_transmit 0 msg len).
Proof. apply in_lib_keeps, transmit_0_keeps. Qed.

#[export] Hint Resolve callback_transmit_keeps : keeps.

(** ** The library's control requests *)

Section control.
Context {D : Type} (d : usbip_device_t D) `{!SilentDevice d}.

Lemma reply_keeps msg len : keeps (@other_messages D) (reply msg len).
Proof. unfold reply. keeps. Qed.

Lemma get_descriptor_keeps setup n : keeps other_messages (get_descriptor d setup n).
Proof. pose proof reply_keeps. unfold get_descriptor, is_usb2_type. keeps. Qed.

Lemma control_callback_keeps setup buffer n : keeps other_messages (control_callback d setup buffer n).
Proof using All. pose proof silent_control. unfold control_callback. keeps. Qed.

Lemma usbip_device_control_keeps setup buffer n : keeps other_messages (usbip_device_control d setup buffer n).
Proof using All.
  pose proof reply_keeps. pose proof get_descriptor_keeps. pose proof control_callback_keeps.
  unfold usbip_device_control, device_request, interface_request, endpoint_request. keeps.
Qed.

Lemma usbip_device_receive_keeps ep data n : keeps other_messages (usbip_device_receive d ep data n).
Proof using All. pose proof silent_ep_data. unfold usbip_device_receive. keeps. Qed.

Lemma usbip_device_iso_in_keeps ep buffer n : keeps still (usbip_device_iso_in d ep buffer n).
Proof using All. pose proof silent_iso_in. unfold usbip_device_iso_in. keeps. Qed.

(** After a reset no message waits for the host. *)
Lemma usbip_device_reset_empty h h' :
  wf_state (lib h) → usbip_device_reset d h = Ok tt h' → ∀ k, k ≠ 0%nat → slot_of k (abs (lib h')) = [].
Proof using All.
  intros Hwf Hr k Hk. unfold usbip_device_reset in Hr. unfold bind at 1 in Hr.
  destruct (reset_state_spec (lib h) Hwf) as (s1 & Hs & Habs & _). unfold in_lib at 1, zoom at 1 in Hr. rewrite Hs in Hr.
  assert (other_messages (set_lib s1 h) h') as Hsame.
  { pose proof silent_reset. destruct (reset_callback d) as [callback|] eqn:Hc; [|by injection Hr as <-].
    assert (keeps other_messages (in_lib lock_receive;; callback;; in_lib unlock_receive)) as Hk'; [|by eapply Hk'].
    assert (keeps other_messages callback) by (by apply silent_reset). keeps. }
  rewrite (other_messages_slot _ _ _ Hsame Hk). cbn [lib set_lib]. rewrite Habs.
  unfold slot_of, spec_reset. cbn [slot]. rewrite list_lookup_fmap. by destruct (slot (abs (lib h)) !! k).
Qed.
End control.

#[export] Instance bulk_silent : SilentDevice Bulk.bulk_device.
Proof. constructor; [intros; cbn; keeps|intros callback ep data len [= <-]; unfold Bulk.endpoint_data; keeps|done..]. Qed.
