(* ===== verification/DeviceRequests.v ===== *)
(** * Requests that reach a device's callback

    Lemmas the example devices share: a control request for the class, the vendor or an
    interface goes to [control_data_callback], whose answer is what the host receives;
    answering from the callback; the HID report descriptor, which the two HID examples
    send with the same code; and a message from the device's main loop, which the host
    fetches with its next transfer when the endpoint was free. *)
From S2P Require Import Prelude DeviceStore Descriptors Host Control Silent.

(** [bmRequestType] of a request the library does not answer itself. *)
Definition to_device (bm : Z) : bool :=
  negb (Z.land (Z.shiftr bm 5) 0x03 =? USB_REQUEST_TYPE_STANDARD)
  || (Z.land bm 0x1f =? USB_REQUEST_RECIPIENT_INTERFACE).

(** ** The report descriptor of a HID device *)

(** The body of [if (setup[3] == USB_DESCRIPTOR_TYPE_REPORT)] of the two HID devices;
    [wLength] is a [uint16_t]. *)
Definition transmit_report {D} (report setup : bytes) : M (host D) unit :=
  let* s7 := liftC (arr_get setup 7) in
  let* s6 := liftC (arr_get setup 6) in
  let length := u16 (word16 s6 s7) in
  let length := if blen report <? length then blen report else length in
  callback_transmit 0 report length;; ret tt.

(** ** The host's side of an IN endpoint *)

(** A transfer of [n] bytes and what the host reads. *)
Definition host_poll {D} (ep n : Z) : M (host D) bytes :=
  let* '(len, buffer) := in_lib (usbip_device_fetch_ep_data ep (replicate (Z.to_nat n) 0) n) in
  ret (take (Z.to_nat len) buffer).

(** The callers are idle, nothing is queued on [ep] and the server is not being stopped. *)
Definition endpoint_free {D} (I : D → Prop) (ep : Z) (h : host D) : Prop :=
  host_idle I h ∧ slot_of (ep_number ep) (abs (lib h)) = [] ∧ stopped (abs (lib h)) = false.

(** * Theorems *)

(** The state of the endpoint store after an answer of the device. *)
Definition answered_with (msg : bytes) (a a' : slots) : Prop := a' = set_answered true (set_slot 0 msg a).

Lemma transmit_report_keeps {D} report setup : keeps (@other_messages D) (transmit_report report setup).
Proof. unfold transmit_report. keeps. Qed.
#[export] Hint Resolve transmit_report_keeps : keeps.

Section answering.
Context {D : Type} (I : D → Prop).

(** Answering a control request from its callback. *)
Lemma callback_answer_wp msg len (h : host D) :
  host_ok I h → stopped (abs (lib h)) = false → 0 ≤ len → Z.min len ENDPOINT_MAX_DATA_LENGTH ≤ blen msg → Forall is_byte msg →
  wp (callback_transmit 0 msg len)
    (λ _ h', host_ok I h' ∧ same_control (lib h) (lib h') ∧ dev h' = dev h
       ∧ answered_with (cut_message msg len) (abs (lib h)) (abs (lib h'))) never h.
Proof.
  intros [HI Hwf] Hst Hlen Hmsg Hb. apply wp_in_lib.
  pose proof (transmit_spec server_thread (lib h) 0 msg len Hwf Hlen Hmsg Hb) as H.
  assert (transmit_waits server_thread (ep_number 0) (abs (lib h)) = false) as Hw by done.
  rewrite Hw in H. unfold spec_store in H. rewrite Hst in H. simpl decide in H.
  destruct H as (s' & Hs & Habs & Hwf' & Hsame & _). unfold wp. rewrite Hs.
  split; [done|]. split; [done|]. split; [done|]. exact Habs.
Qed.

Lemma transmit_report_ok report setup h :
  host_ok I h → blen setup = 8 → Forall is_byte setup → Forall is_byte report →
  wp (transmit_report report setup) (λ _ h', host_ok I h' ∧ same_control (lib h) (lib h') ∧ dev h' = dev h) never h.
Proof.
  intros Hh Hs Hb Hr. unfold transmit_report. wp_byte s7 _.
  wp_byte s6 _.
  set (wl := u16 _). assert (0 ≤ wl) as Hwl by (by apply Z.mod_pos_bound). pose proof (blen_nonneg report).
  assert ((if blen report <? wl then blen report else wl) = Z.min wl (blen report)) as ->
    by (destruct (Z.ltb_spec (blen report) wl); lia).
  apply wp_bind. eapply wp_post; [apply (callback_transmit_ok I); [done|lia|unfold ENDPOINT_MAX_DATA_LENGTH; lia|done]|].
  intros b h' (H1 & H2 & H3 & _). by apply wp_ret.
Qed.

Lemma transmit_report_answers report setup lo hi h :
  host_ok I h → stopped (abs (lib h)) = false → is_byte lo → is_byte hi → Forall is_byte report →
  blen report ≤ ENDPOINT_MAX_DATA_LENGTH →
  setup !! 6%nat = Some lo → setup !! 7%nat = Some hi →
  wp (transmit_report report setup)
    (λ _ h', host_ok I h' ∧ same_control (lib h) (lib h')
       ∧ answered_with (take (Z.to_nat (256 * hi + lo)) report) (abs (lib h)) (abs (lib h'))) never h.
Proof.
  intros Hh Hst Hlo Hhi Hr Hmax H6 H7. unfold transmit_report.
  rewrite (proj2 (arr_get_Val setup 7 hi)) by done. apply wp_bind, wp_liftC, cwp_ret.
  rewrite (proj2 (arr_get_Val setup 6 lo)) by done. apply wp_bind, wp_liftC, cwp_ret.
  assert (u16 (word16 lo hi) = 256 * hi + lo) as ->.
  { rewrite word16_add by done. unfold u16, is_byte in *. rewrite Z.mod_small; lia. }
  unfold is_byte in *. pose proof (blen_nonneg report). set (wl := 256 * hi + lo) in *.
  assert ((if blen report <? wl then blen report else wl) = Z.min wl (blen report)) as ->
    by (destruct (Z.ltb_spec (blen report) wl); lia).
  apply wp_bind. eapply wp_post; [apply callback_answer_wp; [done|done|lia|lia|done]|].
  intros b h' (H1 & H2 & _ & H3). apply wp_ret. split; [done|]. split; [done|].
  unfold answered_with in *. rewrite H3. f_equal. f_equal. unfold cut_message.
  destruct (decide (wl ≤ blen report)); [f_equal; lia|]. rewrite !take_ge; [done|unfold blen in *; lia..].
Qed.

(** ** Routing *)

Context (d : usbip_device_t D).

(** A request for the device runs its callback, with the lock held and no answer yet. *)
Lemma device_control_wp setup buffer n bm h (P : host D → Prop) :
  host_idle I h → setup !! 0%nat = Some bm → to_device bm = true →
  (∀ h1, host_ok I h1 → receive_lock (lib h1) = true → dev h1 = dev h →
     abs (lib h1) = set_answered false (set_slot 0 [] (abs (lib h))) →
     wp (control_data_callback d setup buffer n)
       (λ _ h2, host_ok I h2 ∧ same_control (lib h1) (lib h2) ∧ P h2) never h1) →
  wp (usbip_device_control d setup buffer n)
    (λ supported h', supported = true ∧ host_idle I h' ∧ ∃ h2, P h2 ∧ dev h' = dev h2 ∧ abs (lib h') = abs (lib h2)) never h.
Proof.
  intros Hh Hbm Hto Hcb. unfold usbip_device_control. apply wp_bind.
  eapply wp_post; [by apply (control_begin_wp I)|]. intros _ h1 (Hh1 & _ & [Hdev _] & Habs).
  rewrite (proj2 (arr_get_Val setup 0 bm)) by done. apply wp_bind, wp_liftC, cwp_ret.
  assert (wp (control_callback d setup buffer n;; ret true)
    (λ supported h', supported = true ∧ host_idle I h' ∧ ∃ h2, P h2 ∧ dev h' = dev h2 ∧ abs (lib h') = abs (lib h2)) never h1) as Hrun.
  { unfold control_callback. apply wp_bind, wp_bind. apply (lock_receive_wp I); [done|]. intros h2 Hok2 Hl2 ->.
    apply wp_bind. eapply wp_post; [apply Hcb; done|]. intros [] h3 (Hok3 & Hsame & HP).
    apply (unlock_receive_wp I h1); [done|done|apply Hh1|]. intros h4 Hh4 _ Habs4 Hdev4 _. apply wp_ret. eauto 10. }
  unfold to_device in Hto. destruct (negb _); [done|]. cbn [orb] in Hto. rewrite Hto.
  destruct (Z.eqb_spec (Z.land bm 31) USB_REQUEST_RECIPIENT_DEVICE) as [He|]; [rewrite He in Hto; done|].
  unfold interface_request. exact Hrun.
Qed.

(** The host receives what the callback answered, cut to the length it asked for. *)
Lemma device_control_in setup rx tx n bm h msg (Q : D → Prop) :
  host_idle I h → 0 ≤ n ≤ blen tx → setup !! 0%nat = Some bm → to_device bm = true →
  (∀ h1, host_ok I h1 → receive_lock (lib h1) = true → dev h1 = dev h →
     abs (lib h1) = set_answered false (set_slot 0 [] (abs (lib h))) →
     wp (control_data_callback d setup rx n)
       (λ _ h2, host_ok I h2 ∧ same_control (lib h1) (lib h2) ∧ answered_with msg (abs (lib h1)) (abs (lib h2))
          ∧ Q (dev h2)) never h1) →
  ∃ h', control_in d setup rx tx n h = Ok (true, true, take (Z.to_nat n) msg) h' ∧ host_idle I h' ∧ Q (dev h').
Proof.
  intros Hh Hn Hbm Hto Hcb.
  assert (wp (control_in d setup rx tx n)
    (λ a h', a = (true, true, take (Z.to_nat n) msg) ∧ host_idle I h' ∧ Q (dev h')) never h) as H.
  { unfold control_in. apply wp_bind.
    eapply wp_post; [apply (device_control_wp _ _ _ bm h
      (λ h2, answered (abs (lib h2)) = true ∧ slot_of 0 (abs (lib h2)) = msg ∧ Q (dev h2))); [done..|]|].
    - intros h1 H1 H2 H3 H4. eapply wp_post; [by apply Hcb|]. intros _ h2 (H5 & H6 & -> & HQ).
      split; [done|]. split; [done|]. split; [done|]. split; [|done]. unfold slot_of, set_slot. simpl.
      rewrite list_lookup_insert_eq; [done|]. destruct H1 as [_ Hwf]. rewrite length_fmap, (wf_count _ Hwf). lia.
    - intros supported h1 (-> & Hh1 & h2 & (Hans & Hslot & HQ) & Hdev & Habs).
      apply wp_bind. eapply wp_post; [by apply (fetch_control_reply_wp I)|].
      intros [[ans len] tx'] h3 (-> & -> & -> & _ & Hh3 & _ & _ & Hdev3 & _). apply wp_ret.
      split; [|split; [done|by rewrite Hdev3, Hdev]].
      unfold blen. rewrite Nat2Z.id, splice_0_take. by rewrite Habs, Hans, Hslot. }
  apply wp_never_Ok in H as (a & h' & Hrun & -> & Hh'). eauto.
Qed.

(** ** A message for a free endpoint *)

(** It is queued, without waiting. *)
Lemma transmit_free ep msg h :
  endpoint_free I ep h → ep_number ep ≠ 0%nat → Forall is_byte msg → blen msg ≤ ENDPOINT_MAX_DATA_LENGTH →
  ∃ s, in_lib (usbip_device_transmit other_thread ep msg (blen msg)) h = Ok true (set_lib s h)
    ∧ host_idle I (set_lib s h) ∧ slot_of (ep_number ep) (abs s) = msg ∧ stopped (abs s) = false.
Proof.
  intros ([[HI Hwf] Hl] & Hslot & Hst) Hep Hb Hlen. pose proof (blen_nonneg msg).
  pose proof (transmit_spec other_thread (lib h) ep msg (blen msg) Hwf) as HT.
  assert (transmit_waits other_thread (ep_number ep) (abs (lib h)) = false) as Hw
    by (unfold transmit_waits; rewrite Hslot, (bool_decide_false ([] ≠ [])) by tauto; apply andb_false_r).
  rewrite Hw in HT. unfold spec_store in HT. rewrite Hst, Hslot, decide_False, decide_True in HT by done.
  destruct HT as (s & Hs & Habs & Hwf' & Hsame & _); [lia|unfold ENDPOINT_MAX_DATA_LENGTH; lia|done|].
  assert (cut_message msg (blen msg) = msg) as Hcut by (unfold cut_message; apply take_ge; unfold blen in *; lia).
  exists s. destruct Hsame as (Hl' & _ & Hst' & _). split; [|split; [|split]].
  - unfold in_lib, zoom. by rewrite Hs.
  - split; [done|cbn; congruence].
  - rewrite Habs, Hcut, slot_of_set_slot, (wf_slot_count _ Hwf). by rewrite decide_True by (split; [done|apply ep_number_lt]).
  - cbn in *. congruence.
Qed.

(** The host's next transfer on the endpoint reads it whole and leaves the endpoint free. *)
Lemma report_round ep report n h :
  endpoint_free I ep h → ep_number ep ≠ 0%nat → Forall is_byte report →
  blen report ≤ n → n ≤ ENDPOINT_MAX_DATA_LENGTH →
  ∃ h1 h2, in_lib (usbip_device_transmit other_thread ep report (blen report)) h = Ok true h1
    ∧ host_poll ep n h1 = Ok report h2 ∧ endpoint_free I ep h2 ∧ dev h2 = dev h.
Proof.
  intros Hh Hep Hb Hlen Hn. pose proof (blen_nonneg report).
  destruct (transmit_free ep report h Hh Hep Hb) as (s1 & Hs1 & [[HI1 Hwf1] Hl1] & Hslot1 & Hst1); [lia|].
  assert (take (Z.to_nat n) report = report) as Htake by (apply take_ge; unfold blen in Hlen; lia).
  destruct (fetch_spec s1 ep (replicate (Z.to_nat n) 0) n Hwf1) as (s2 & Hs2 & Habs2 & Hwf2 & Hsame2 & _); [lia|..];
    rewrite Hslot1, Htake in *; [rewrite blen_replicate; lia|].
  exists (set_lib s1 h), (set_lib s2 h). split; [done|]. split; [|split; [|done]].
  - unfold host_poll, bind, in_lib, zoom. cbn [lib set_lib]. rewrite Hs2. cbn [ret]. f_equal.
    unfold blen. by rewrite Nat2Z.id, splice_0_take.
  - destruct Hsame2 as (Hl2 & _ & Hst2 & _). split; [split; [done|cbn in *; congruence]|]. split; [|cbn in *; congruence].
    cbn [lib set_lib]. rewrite Habs2. unfold spec_fetch. cbn [snd].
    rewrite slot_of_set_slot, (wf_slot_count s1 Hwf1), decide_True by (split; [done|apply ep_number_lt]).
    rewrite decide_False by done. rewrite Hslot1. apply drop_ge. unfold blen in Hlen. lia.
Qed.

(** A poll of an endpoint without data gets nothing. *)
Lemma empty_poll ep n h :
  endpoint_free I ep h → 0 ≤ n → ∃ h', host_poll ep n h = Ok [] h' ∧ endpoint_free I ep h' ∧ dev h' = dev h.
Proof.
  intros ([[HI Hwf] Hl] & Hslot & Hst) Hn.
  destruct (fetch_spec (lib h) ep (replicate (Z.to_nat n) 0) n Hwf Hn) as (s & Hs & Habs & Hwf' & Hsame & _);
    rewrite Hslot, take_nil in *; [rewrite blen_replicate; unfold blen; simpl; lia|].
  exists (set_lib s h). destruct Hsame as (Hl' & _ & Hst' & _).
  split; [unfold host_poll, bind, in_lib, zoom; by rewrite Hs|]. split; [|done].
  split; [split; [done|cbn in *; congruence]|]. split; [|cbn in *; congruence].
  cbn [lib set_lib]. rewrite Habs. unfold spec_fetch. cbn [snd].
  rewrite slot_of_set_slot, (wf_slot_count _ Hwf), Hslot, drop_nil. by case_decide; [case_decide|].
Qed.

End answering.
