(* ===== verification/Tcpip.v ===== *)
(** * The TCP connection (src/lib/tcpip_server.c)

    The static variables of tcpip_server.c and its functions. The kernel side of
    the sockets is a script of what the coming system calls meet: the chunks in
    which the client's bytes arrive, timeouts, signals, errors, the end of the
    connection, and calls of [tcpip_server_stop] by other threads. The theorems
    quantify over the scripts. An exhausted input script is a client that stays
    connected and sends nothing more: the reading thread waits for ever. *)
From S2P Require Import Prelude.

(** ** The environment *)

(** What [read] meets on the client socket. *)
Inductive rx_event :=
| RxData (bs : bytes)  (** bytes in the receive buffer *)
| RxAgain              (** EAGAIN: the 500 ms receive timeout *)
| RxIntr               (** EINTR: a signal *)
| RxError              (** any other error *)
| RxEof                (** the client closed the connection *)
| RxStop.              (** another thread sets [stop_server] *)

(** What [write] meets. *)
Inductive tx_event :=
| TxAccept (n : Z)     (** the kernel takes at most [n] bytes *)
| TxAgain
| TxError              (** EPIPE, EINTR, ... *)
| TxStop (n : Z).      (** [stop_server] is set while the kernel takes at most [n] bytes *)

(** What [ppoll] meets: events on the client socket, on the event file descriptor
    only, the timeout, an error or a signal. *)
Inductive poll_event := PollClient | PollWake | PollTimeout | PollError.

(** Results of [select] and [accept]; a new connection comes with its own future. *)
Inductive accept_event :=
| AcceptTimeout        (** [select] times out or fails *)
| AcceptFd (fd : Z) (rx : list rx_event) (tx : list tx_event) (polls : list poll_event)
| AcceptStop.          (** another thread sets [stop_server] while [select] waits *)

Record net := {
  server_socket : Z;
  client_socket : Z;
  stop_server : bool;
  rx : list rx_event;
  tx : list tx_event;
  polls : list poll_event;
  accepts : list accept_event;
  sent : bytes;          (** every byte the kernel accepted *)
  closed_fds : list Z;   (** descriptors passed to [close], latest first *)
}.

Definition set_server_socket (v : Z) (n : net) : net :=
  Build_net v (client_socket n) (stop_server n) (rx n) (tx n) (polls n) (accepts n) (sent n) (closed_fds n).
Definition set_client_socket (v : Z) (n : net) : net :=
  Build_net (server_socket n) v (stop_server n) (rx n) (tx n) (polls n) (accepts n) (sent n) (closed_fds n).
Definition set_stop_server (v : bool) (n : net) : net :=
  Build_net (server_socket n) (client_socket n) v (rx n) (tx n) (polls n) (accepts n) (sent n) (closed_fds n).
Definition set_rx (v : list rx_event) (n : net) : net :=
  Build_net (server_socket n) (client_socket n) (stop_server n) v (tx n) (polls n) (accepts n) (sent n) (closed_fds n).
Definition set_tx (v : list tx_event) (n : net) : net :=
  Build_net (server_socket n) (client_socket n) (stop_server n) (rx n) v (polls n) (accepts n) (sent n) (closed_fds n).
Definition set_polls (v : list poll_event) (n : net) : net :=
  Build_net (server_socket n) (client_socket n) (stop_server n) (rx n) (tx n) v (accepts n) (sent n) (closed_fds n).
Definition set_accepts (v : list accept_event) (n : net) : net :=
  Build_net (server_socket n) (client_socket n) (stop_server n) (rx n) (tx n) (polls n) v (sent n) (closed_fds n).
Definition set_sent (v : bytes) (n : net) : net :=
  Build_net (server_socket n) (client_socket n) (stop_server n) (rx n) (tx n) (polls n) (accepts n) v (closed_fds n).

(** [close (fd)] *)
Definition sys_close (fd : Z) : M net unit := modify (λ n,
  Build_net (server_socket n) (client_socket n) (stop_server n) (rx n) (tx n) (polls n) (accepts n)
    (sent n) (fd :: closed_fds n)).

(** Result of [read] and [write]; a negative [res] with [EAGAIN] or [EINTR] is told apart. *)
Inductive io_result := IoBytes (bs : bytes) | IoAgain | IoIntr | IoError.

(** [read (client_socket, buffer, n)] with [n > 0]. *)
Definition sys_read (n : Z) : M net io_result := λ s,
  match rx s with
  | [] => Idle s
  | RxData bs :: rest =>
      let left := drop (Z.to_nat n) bs in
      Ok (IoBytes (take (Z.to_nat n) bs)) (set_rx (if decide (left = []) then rest else RxData left :: rest) s)
  | RxAgain :: rest => Ok IoAgain (set_rx rest s)
  | RxIntr :: rest => Ok IoIntr (set_rx rest s)
  | RxError :: rest => Ok IoError (set_rx rest s)
  | RxEof :: _ => Ok (IoBytes []) s
  | RxStop :: rest => Ok IoAgain (set_stop_server true (set_rx rest s))
  end.

(** [write (client_socket, buffer, length)]: the bytes taken are a prefix. *)
Definition sys_write (buffer : bytes) : M net io_result := λ s,
  match tx s with
  | [] => Ok (IoBytes buffer) (set_sent (sent s ++ buffer) s)
  | TxAccept n :: rest =>
      let taken := take (Z.to_nat n) buffer in
      Ok (IoBytes taken) (set_sent (sent s ++ taken) (set_tx rest s))
  | TxAgain :: rest => Ok IoAgain (set_tx rest s)
  | TxError :: rest => Ok IoError (set_tx rest s)
  | TxStop n :: rest =>
      let taken := take (Z.to_nat n) buffer in
      Ok (IoBytes taken) (set_sent (sent s ++ taken) (set_stop_server true (set_tx rest s)))
  end.

(** ** tcpip_server.c *)

(** Results of the system calls of [tcpip_server_open]. *)
Record open_results := {
  socket_result : Z;
  inet_pton_ok : bool;
  bind_result : Z;
  listen_result : Z;
}.

Definition tcpip_server_close : M net unit :=
  let* n := get in
  if 0 <=? server_socket n then
    sys_close (server_socket n);;
    modify (set_server_socket (-1))
  else ret tt.

Definition tcpip_server_open (r : open_results) : M net bool :=
  modify (set_server_socket (socket_result r));;
  if socket_result r <? 0 then ret false
  else if negb (inet_pton_ok r) then tcpip_server_close;; ret false
  else if bind_result r <? 0 then tcpip_server_close;; ret false
  else if listen_result r <? 0 then tcpip_server_close;; ret false
  else ret true.

Definition tcpip_server_stop : M net unit := modify (set_stop_server true).

Definition tcpip_server_close_client : M net unit :=
  let* n := get in
  if 0 <=? client_socket n then
    sys_close (client_socket n);;
    modify (set_client_socket (-1))
  else ret tt.

(** The socket options set on the new socket have no state here. *)
Definition tcpip_server_wait_for_client : M net bool := λ n,
  match accepts n with
  | [] => Idle n
  | AcceptTimeout :: rest => Ok false (set_accepts rest n)
  | AcceptFd fd rx' tx' polls' :: rest =>
      Ok (0 <? fd) (set_client_socket fd (set_rx rx' (set_tx tx' (set_polls polls' (set_accepts rest n)))))
  | AcceptStop :: rest => Ok false (set_stop_server true (set_accepts rest n))
  end.

(** The two pollfd and the timeout select which outcomes are possible; the script
    holds the one that happens. *)
Definition tcpip_server_wait_for_data (wake_fd timeout_us : Z) : M net bool := λ n,
  if stop_server n then Ok false n else
  match polls n with
  | [] => Idle n
  | PollClient :: rest => Ok true (set_polls rest n)
  | PollWake :: rest | PollTimeout :: rest | PollError :: rest => Ok false (set_polls rest n)
  end.

(** The loop of [tcpip_server_read]: [acc] holds the bytes read so far, [length] of them. *)
Fixpoint read_loop (fuel : nat) (acc : bytes) (read_size : Z) : M net bytes :=
  let* stop := gets stop_server in
  if negb stop && (blen acc <? read_size) then
    match fuel with
    | O => fail Diverges
    | S fuel =>
        let* res := sys_read (read_size - blen acc) in
        match res with
        | IoAgain | IoIntr => read_loop fuel acc read_size
        | IoBytes [] => ret acc
        | IoBytes bs => read_loop fuel (acc ++ bs) read_size
        | IoError => ret acc
        end
    end
  else ret acc.

(** Every pass of the loop takes an event or some bytes from the script. *)
Fixpoint rx_weight (evs : list rx_event) : nat :=
  match evs with
  | [] => 0
  | RxData bs :: rest => S (length bs) + rx_weight rest
  | _ :: rest => S (rx_weight rest)
  end.

(** Returns the status and the bytes stored at the start of the buffer. *)
Definition tcpip_server_read (read_size : Z) : M net (bool * bytes) :=
  let* n := get in
  let* bs := read_loop (S (rx_weight (rx n))) [] read_size in
  ret (blen bs =? read_size, bs).

(** The loop of [tcpip_server_write], [length] bytes being written; [None] is the early
    return after EAGAIN. *)
Fixpoint write_loop (fuel : nat) (buffer : bytes) (length write_size : Z) : M net (option Z) :=
  let* stop := gets stop_server in
  if negb stop && (length <? write_size) then
    match fuel with
    | O => fail Diverges
    | S fuel =>
        let* block := liftC (mem_read buffer length (write_size - length)) in
        let* res := sys_write block in
        match res with
        | IoAgain => ret None
        | IoBytes [] => ret (Some length)
        | IoBytes bs => write_loop fuel buffer (length + blen bs) write_size
        | IoIntr | IoError => ret (Some length)
        end
    end
  else ret (Some length).

Definition tcpip_server_write (buffer : bytes) (write_size : Z) : M net bool :=
  let* r := write_loop (S (Z.to_nat write_size)) buffer 0 write_size in
  ret (match r with Some length => length =? write_size | None => false end).

(** The calls that make the socket a listening one all succeed. *)
Definition listening (r : open_results) : Prop :=
  0 ≤ socket_result r ∧ inet_pton_ok r = true ∧ 0 ≤ bind_result r ∧ 0 ≤ listen_result r.

(** ** The client's bytes, whatever their arrival *)

(** How the input goes on after the bytes that arrive: it breaks, or the client is idle. *)
Inductive rx_end := EndBroken | EndStop | EndIdle.

#[global] Instance rx_end_eq_dec : EqDecision rx_end.
Proof. solve_decision. Defined.

Fixpoint stream (evs : list rx_event) : bytes :=
  match evs with
  | [] => []
  | RxData [] :: _ => []
  | RxData bs :: rest => bs ++ stream rest
  | RxAgain :: rest | RxIntr :: rest => stream rest
  | RxError :: _ | RxEof :: _ | RxStop :: _ => []
  end.

Fixpoint stream_end (evs : list rx_event) : rx_end :=
  match evs with
  | [] => EndIdle
  | RxData [] :: _ => EndBroken
  | RxData _ :: rest | RxAgain :: rest | RxIntr :: rest => stream_end rest
  | RxError :: _ | RxEof :: _ => EndBroken
  | RxStop :: _ => EndStop
  end.

(** The scripts hold bytes. *)
Definition rx_event_ok (e : rx_event) : Prop :=
  match e with RxData bs => Forall is_byte bs | _ => True end.
Definition rx_ok (evs : list rx_event) : Prop := Forall rx_event_ok evs.
Definition net_ok (n : net) : Prop :=
  rx_ok (rx n) ∧ Forall (λ a, match a with AcceptFd _ evs _ _ => rx_ok evs | _ => True end) (accepts n).

(** A connection the kernel serves without errors, in pieces of any size. *)
Definition tx_clean (evs : list tx_event) : Prop :=
  Forall (λ e, match e with TxAccept n => 0 < n | _ => False end) evs.
Definition connected (n : net) : Prop := stop_server n = false ∧ tx_clean (tx n).

(** The connection as the reading side sees it. *)
Definition same_but_rx (n n' : net) : Prop :=
  server_socket n' = server_socket n ∧ client_socket n' = client_socket n ∧ tx n' = tx n
  ∧ polls n' = polls n ∧ accepts n' = accepts n ∧ sent n' = sent n ∧ closed_fds n' = closed_fds n.

Definition same_but_tx (n n' : net) : Prop :=
  server_socket n' = server_socket n ∧ client_socket n' = client_socket n ∧ rx n' = rx n
  ∧ polls n' = polls n ∧ accepts n' = accepts n ∧ closed_fds n' = closed_fds n.

(** * Theorems *)

#[export] Instance same_but_rx_preorder : PreOrder same_but_rx.
Proof. split; [done|]. unfold same_but_rx. intros ???. naive_solver congruence. Qed.

#[export] Instance same_but_tx_preorder : PreOrder same_but_tx.
Proof. split; [done|]. unfold same_but_tx. intros ???. naive_solver congruence. Qed.

(** The read loop against the stream: [want] bytes are still missing. *)

(** Splitting a chunk at [n] and going on with the rest. *)
Lemma stream_chunk (bs : bytes) rest n :
  bs ≠ [] →
  let rx' := if decide (drop n bs = []) then rest else RxData (drop n bs) :: rest in
  stream rx' = drop n bs ++ stream rest ∧ stream_end rx' = stream_end rest
  ∧ ((0 < n)%nat → (rx_weight rx' < rx_weight (RxData bs :: rest))%nat).
Proof.
  intros Hbs. simpl. case_decide as Hd; simpl.
  - rewrite Hd. split; [done|]. split; [done|lia].
  - destruct (drop n bs) as [|b l] eqn:E; [done|]. split; [done|]. split; [done|]. intros Hn.
    assert (length (drop n bs) < length bs)%nat; [|rewrite E in *; simpl in *; lia].
    rewrite length_drop. destruct bs; simpl; [done|lia].
Qed.

Lemma take_drop_chunk {A} (bs l : list A) n :
  take n bs ++ take (n - length (take n bs)) (drop n bs ++ l) = take n (bs ++ l)
  ∧ drop (n - length (take n bs)) (drop n bs ++ l) = drop n (bs ++ l).
Proof.
  rewrite length_take. destruct (decide (n ≤ length bs)%nat).
  - replace (n - n `min` length bs)%nat with 0%nat by lia.
    by rewrite take_0, drop_0, app_nil_r, take_app_le, drop_app_le by lia.
  - replace (n `min` length bs)%nat with (length bs) by lia.
    rewrite (take_ge bs), (drop_ge bs) by lia. simpl. by rewrite take_app_ge, drop_app_ge by lia.
Qed.

Lemma read_loop_stopped fuel acc size n : stop_server n = true → read_loop fuel acc size n = Ok acc n.
Proof. intros H. destruct fuel; simpl; unfold bind, gets; by rewrite H. Qed.

(** The read loop against the stream: [want] bytes are still missing. *)
Definition read_result (n : net) (acc : bytes) (want : Z) (r : res net bytes) : Prop :=
  if decide (want ≤ blen (stream (rx n)))
  then ∃ n', r = Ok (acc ++ take (Z.to_nat want) (stream (rx n))) n'
         ∧ same_but_rx n n' ∧ stop_server n' = false
         ∧ stream (rx n') = drop (Z.to_nat want) (stream (rx n)) ∧ stream_end (rx n') = stream_end (rx n)
  else match stream_end (rx n) with
       | EndIdle => ∃ n', r = Idle n' ∧ same_but_rx n n' ∧ stop_server n' = false
       | e => ∃ n', r = Ok (acc ++ stream (rx n)) n'
           ∧ same_but_rx n n' ∧ stop_server n' = bool_decide (e = EndStop)
       end.

Lemma read_result_step n acc want evs r :
  0 < want → stop_server n = false →
  stream evs = stream (rx n) → stream_end evs = stream_end (rx n) →
  read_result (set_rx evs n) acc want r → read_result n acc want r.
Proof.
  intros Hw Hs H1 H2. unfold read_result. change (rx (set_rx evs n)) with evs. rewrite H1, H2. done.
Qed.

Lemma read_result_chunk n acc want bs rest r :
  0 < want → bs ≠ [] → rx n = RxData bs :: rest →
  let evs := if decide (drop (Z.to_nat want) bs = []) then rest else RxData (drop (Z.to_nat want) bs) :: rest in
  read_result (set_rx evs n) (acc ++ take (Z.to_nat want) bs) (want - blen (take (Z.to_nat want) bs)) r →
  read_result n acc want r.
Proof.
  intros Hw Hbs Hrx evs. destruct (stream_chunk bs rest (Z.to_nat want) Hbs) as (H1 & H2 & _). fold evs in H1, H2.
  unfold read_result. change (rx (set_rx evs n)) with evs. rewrite H1, H2, Hrx.
  assert (stream (RxData bs :: rest) = bs ++ stream rest) as -> by (by destruct bs).
  assert (stream_end (RxData bs :: rest) = stream_end rest) as -> by (by destruct bs).
  destruct (take_drop_chunk bs (stream rest) (Z.to_nat want)) as [H3 H4].
  set (tk := take (Z.to_nat want) bs) in *.
  assert (Z.to_nat (want - blen tk) = (Z.to_nat want - length tk)%nat) as Hsub by (unfold blen; lia).
  assert (blen (drop (Z.to_nat want) bs ++ stream rest) = blen (bs ++ stream rest) - blen tk) as Hlen.
  { rewrite !blen_app. unfold tk. rewrite blen_take, blen_drop by lia. lia. }
  rewrite Hsub, Hlen. destruct (decide (want ≤ blen (bs ++ stream rest))) as [Hle|Hle].
  - rewrite decide_True by lia. rewrite H4, <-app_assoc, H3. done.
  - rewrite decide_False by lia. assert (tk = bs) as Htk.
    { unfold tk. rewrite blen_app in Hle. pose proof (blen_nonneg (stream rest)).
      apply take_ge. unfold blen in *. lia. }
    rewrite (drop_ge bs), Htk, <-app_assoc by (rewrite <-Htk; unfold tk; rewrite length_take;
      rewrite blen_app in Hle; pose proof (blen_nonneg (stream rest)); unfold blen in *; lia). done.
Qed.

Lemma read_loop_spec fuel acc want n :
  0 ≤ want → stop_server n = false → (rx_weight (rx n) < fuel)%nat →
  read_result n acc want (read_loop fuel acc (blen acc + want) n).
Proof.
  revert acc want n. induction fuel as [|fuel IH]; intros acc want n Hw Hs Hf; [lia|].
  simpl. unfold bind at 1, gets. rewrite Hs. simpl. destruct (Z.ltb_spec (blen acc) (blen acc + want)) as [Hlt|Hge].
  2: { assert (want = 0) as -> by lia. unfold read_result. pose proof (blen_nonneg (stream (rx n))).
       rewrite decide_True by lia. exists n. rewrite take_0, app_nil_r. done. }
  replace (blen acc + want - blen acc) with want by lia. unfold bind, sys_read.
  destruct (rx n) as [|ev rest] eqn:Hrx.
  { unfold read_result. rewrite Hrx. rewrite decide_False by (unfold blen; simpl; lia). by exists n. }
  assert (rx_weight rest < fuel)%nat as Hf' by (destruct ev; simpl in Hf; lia).
  destruct ev as [bs| | | | |].
  - destruct (decide (bs = [])) as [->|Hbs].
    { rewrite take_nil. unfold read_result. rewrite Hrx. rewrite decide_False by (unfold blen; simpl; lia).
      eexists. rewrite app_nil_r. done. }
    destruct (stream_chunk bs rest (Z.to_nat want) Hbs) as (_ & _ & Hwt).
    eapply read_result_chunk; [lia|done|done|]. set (tk := take (Z.to_nat want) bs).
    assert (0 < blen tk ≤ want) as Htk.
    { unfold tk. rewrite blen_take by lia. destruct bs; [done|]. unfold blen. simpl. lia. }
    destruct tk as [|t tk'] eqn:E; [unfold blen in Htk; simpl in Htk; lia|]. rewrite <-E in *.
    replace (blen acc + want) with (blen (acc ++ tk) + (want - blen tk)) by (rewrite blen_app; lia).
    apply IH; [lia|done|]. specialize (Hwt ltac:(lia)). simpl rx. lia.
  - apply (read_result_step n acc want rest); [lia|done|by rewrite Hrx..|]. by apply IH.
  - apply (read_result_step n acc want rest); [lia|done|by rewrite Hrx..|]. by apply IH.
  - unfold read_result. rewrite Hrx. rewrite decide_False by (unfold blen; simpl; lia).
    eexists. rewrite app_nil_r. done.
  - unfold read_result. rewrite Hrx. rewrite decide_False by (unfold blen; simpl; lia).
    eexists. rewrite app_nil_r. done.
  - rewrite read_loop_stopped by done. unfold read_result. rewrite Hrx.
    rewrite decide_False by (unfold blen; simpl; lia). eexists. rewrite app_nil_r. done.
Qed.

Lemma stream_byte evs : rx_ok evs → Forall is_byte (stream evs).
Proof.
  unfold rx_ok. induction 1 as [|e evs He _ IH]; simpl; [done|].
  destruct e as [[|b bs]| | | | |]; try done. by apply Forall_app.
Qed.

(** [tcpip_server_read] delivers the next bytes of the client, however they arrive. *)
Lemma tcpip_server_read_ok size n :
  0 ≤ size ≤ blen (stream (rx n)) → stop_server n = false →
  ∃ n', tcpip_server_read size n = Ok (true, take (Z.to_nat size) (stream (rx n))) n'
    ∧ same_but_rx n n' ∧ stop_server n' = false
    ∧ stream (rx n') = drop (Z.to_nat size) (stream (rx n)) ∧ stream_end (rx n') = stream_end (rx n).
Proof.
  intros Hsize Hs. pose proof (read_loop_spec (S (rx_weight (rx n))) [] size n) as H.
  unfold read_result in H. rewrite decide_True in H by lia.
  destruct H as (n' & Hr & H); [lia|done|lia|]. exists n'. split; [|done].
  unfold tcpip_server_read, bind, get, ret. change (blen [] + size) with size in Hr. rewrite Hr. simpl.
  rewrite (proj2 (Z.eqb_eq _ _)); [done|]. rewrite blen_take; lia.
Qed.

Lemma tcpip_server_read_short size n :
  blen (stream (rx n)) < size → stop_server n = false →
  match stream_end (rx n) with
  | EndIdle => ∃ n', tcpip_server_read size n = Idle n' ∧ same_but_rx n n'
  | e => ∃ n', tcpip_server_read size n = Ok (false, stream (rx n)) n' ∧ same_but_rx n n'
           ∧ stop_server n' = bool_decide (e = EndStop)
  end.
Proof.
  intros Hsize Hs. pose proof (blen_nonneg (stream (rx n))).
  pose proof (read_loop_spec (S (rx_weight (rx n))) [] size n) as H0.
  unfold read_result in H0. rewrite decide_False in H0 by lia. change (blen [] + size) with size in H0.
  specialize (H0 ltac:(lia) Hs ltac:(lia)). unfold tcpip_server_read, bind, get, ret.
  destruct (stream_end (rx n)); destruct H0 as (n' & Hr & Hn); exists n'; rewrite Hr; simpl;
    try rewrite (proj2 (Z.eqb_neq _ _)) by lia; try done. by split; [|apply Hn].
Qed.

Lemma read_loop_rx_ok fuel acc size n :
  rx_ok (rx n) → wp (read_loop fuel acc size) (λ _ n', rx_ok (rx n')) (λ n', rx_ok (rx n')) n
                 ∨ read_loop fuel acc size n = Fault Diverges.
Proof.
  revert acc n. induction fuel as [|fuel IH]; intros acc n Hn; simpl; unfold wp, bind, gets.
  { destruct (negb _ && _); [by right|by left]. }
  destruct (negb _ && _); [|by left]. unfold sys_read.
  destruct (rx n) as [|ev rest] eqn:Hrx; [left; by rewrite Hrx|].
  apply Forall_cons in Hn as [He Hrest]. unfold wp in IH. destruct ev; simpl.
  - set (evs := if decide _ then _ else _).
    assert (rx_ok evs) as Hevs.
    { unfold evs. case_decide; [done|]. constructor; [|done]. by apply Forall_drop. }
    destruct (take _ bs); [by left|]. by apply IH.
  - by apply IH.
  - by apply IH.
  - by left.
  - left. by rewrite Hrx; constructor.
  - by apply IH.
Qed.

Lemma tcpip_server_read_stopped size n : stop_server n = true → tcpip_server_read size n = Ok (0 =? size, []) n.
Proof. intros Hs. unfold tcpip_server_read, bind, get. by rewrite read_loop_stopped. Qed.

(** What every call of [tcpip_server_read] guarantees. *)
Lemma tcpip_server_read_wp size n :
  0 ≤ size → net_ok n →
  wp (tcpip_server_read size)
    (λ '(status, bs) n', 0 ≤ blen bs ≤ size ∧ (status = true → blen bs = size) ∧ Forall is_byte bs
       ∧ net_ok n' ∧ same_but_rx n n')
    (λ n', net_ok n' ∧ same_but_rx n n' ∧ stop_server n' = false) n.
Proof.
  intros Hsize [Hn Ha]. pose proof (stream_byte _ Hn) as Hb. pose proof (blen_nonneg (stream (rx n))).
  assert (∀ n', rx_ok (rx n') → same_but_rx n n' → net_ok n' ∧ same_but_rx n n') as Hok.
  { intros n' Hrx' Hsame. split; [|done]. split; [done|]. by destruct Hsame as (_ & _ & _ & _ & -> & _). }
  destruct (stop_server n) eqn:Hs.
  { unfold wp, tcpip_server_read, bind, get, ret. rewrite read_loop_stopped by done. cbv beta iota.
    split; [by unfold blen; simpl; lia|]. split; [by intros ?%Z.eqb_eq|]. split; [constructor|]. by apply Hok. }
  pose proof (read_loop_rx_ok (S (rx_weight (rx n))) [] size n Hn) as Hrx.
  pose proof (read_loop_spec (S (rx_weight (rx n))) [] size n ltac:(lia) Hs ltac:(lia)) as Hspec.
  unfold read_result in Hspec. change (blen [] + size) with size in Hspec. unfold wp in Hrx.
  unfold wp, tcpip_server_read, bind, get, ret.
  case_decide as Hle; [|destruct (stream_end (rx n))]; destruct Hspec as (n' & Hr & Hspec); rewrite Hr in *;
    (destruct Hrx as [Hrx|]; [|done]); simpl.
  - destruct Hspec as (Hsame & _). rewrite blen_take by lia. split; [lia|]. split; [lia|].
    split; [by apply Forall_take|]. by apply Hok.
  - destruct Hspec as (Hsame & _). split; [lia|]. split; [by intros ?%Z.eqb_eq|]. split; [done|]. by apply Hok.
  - destruct Hspec as (Hsame & _). split; [lia|]. split; [by intros ?%Z.eqb_eq|]. split; [done|]. by apply Hok.
  - destruct Hspec as [Hsame Hstop]. destruct (Hok n') as [? ?]; done.
Qed.

(** The write loop sends a prefix, and [length] counts it: what it has done when it ends,
    from [len] bytes on. *)
Definition write_result (buffer : bytes) (len size : Z) (n : net) (r : res net (option Z)) : Prop :=
  ∃ o k n', r = Ok o n' ∧ same_but_tx n n'
    ∧ len ≤ k ≤ size ∧ sent n' = sent n ++ take (Z.to_nat (k - len)) (drop (Z.to_nat len) buffer)
    ∧ match o with Some l => l = k | None => k < size end
    ∧ (connected n → k = size ∧ connected n').

Lemma write_result_end buffer len size n n' o :
  len ≤ size → same_but_tx n n' → sent n' = sent n → o = Some len ∨ o = None ∧ len < size →
  (connected n → len = size ∧ connected n') →
  write_result buffer len size n (Ok o n').
Proof.
  intros Hlen Hsame Hsent Ho Hc. exists o, len, n'. rewrite Z.sub_diag, take_0, app_nil_r.
  split_and!; try done. destruct Ho as [->|[-> ?]]; lia.
Qed.

Lemma write_result_step buffer len size m n n1 r :
  0 ≤ len → 0 ≤ m → same_but_tx n n1 → sent n1 = sent n ++ take (Z.to_nat m) (drop (Z.to_nat len) buffer) →
  (connected n → connected n1) → write_result buffer (len + m) size n1 r → write_result buffer len size n r.
Proof.
  intros Hlen Hm Hsame Hsent Hc (o & k & n' & Hr & Hsame' & Hk & Hsent' & Ho & Hc').
  exists o, k, n'. split; [done|]. split; [by etrans|]. split; [lia|]. split; [|split; [done|tauto]].
  rewrite Hsent', Hsent, <-app_assoc. f_equal.
  replace (Z.to_nat (k - len)) with (Z.to_nat m + Z.to_nat (k - (len + m)))%nat by lia.
  rewrite <-take_take_drop, drop_drop. f_equal. f_equal. f_equal. lia.
Qed.

Lemma connected_step n ev rest :
  tx n = ev :: rest → connected n →
  match ev with TxAccept m => 0 < m | _ => False end ∧ connected (set_tx rest n).
Proof. intros Heq [Hc1 Hc2]. rewrite Heq in Hc2. by apply Forall_cons in Hc2 as [? ?]. Qed.

Lemma write_loop_spec fuel buffer len size n :
  0 ≤ len ≤ size → size ≤ blen buffer → size - len < Z.of_nat fuel →
  write_result buffer len size n (write_loop fuel buffer len size n).
Proof.
  revert len n. induction fuel as [|fuel IH]; intros len n Hlen Hsize Hf; [lia|].
  simpl. unfold bind at 1, gets. destruct (stop_server n) eqn:Hs; simpl.
  { apply write_result_end; [lia|done|done|by left|]. intros [Hc _]. congruence. }
  destruct (Z.ltb_spec len size) as [Hlt|Hge].
  2: { apply write_result_end; [lia|done|done|by left|]. split; [lia|done]. }
  unfold mem_read. rewrite decide_True by lia. unfold bind at 1. simpl liftC.
  set (rest := drop (Z.to_nat len) buffer). set (block := take (Z.to_nat (size - len)) rest).
  assert (∀ m n1, same_but_tx n n1 → sent n1 = sent n ++ take (Z.to_nat m) block →
    (connected n → 0 < m ∧ connected n1) →
    write_result buffer len size n
      match take (Z.to_nat m) block with
      | [] => Ok (Some len) n1
      | bs => write_loop fuel buffer (len + blen bs) size n1
      end) as Hgo.
  { intros m n1 Hsame Hsent Hc. assert (blen block = size - len) as Hb.
    { unfold block, rest. rewrite blen_take, blen_drop by lia. lia. }
    destruct (take (Z.to_nat m) block) as [|b bl] eqn:Eb.
    - rewrite app_nil_r in Hsent. apply write_result_end; [lia|done|done|by left|]. intros [Hm _]%Hc.
      apply (f_equal blen) in Eb. rewrite blen_take in Eb by lia. unfold blen in Eb at 2. simpl in Eb. lia.
    - rewrite <-Eb in *. assert (0 < m) as Hm by (destruct (decide (0 < m)); [done|]; by replace (Z.to_nat m) with 0%nat in Eb by lia).
      rewrite blen_take by lia. apply (write_result_step _ _ _ (Z.min m (blen block)) n n1); try done; [lia|lia| |tauto|apply IH; lia].
      rewrite Hsent. f_equal. unfold block. rewrite take_take. fold block. f_equal. lia. }
  unfold bind, sys_write. destruct (tx n) as [|ev evs] eqn:Htx.
  - specialize (Hgo (blen block) (set_sent (sent n ++ block) n)). unfold blen in Hgo at 1 3.
    rewrite Nat2Z.id, take_ge in Hgo by done. destruct block as [|b bl] eqn:Eb; (apply Hgo; [done|done|]);
      intros [? _]; (split; [|by split; [|simpl; rewrite Htx; constructor]]); [|unfold blen; simpl; lia].
    apply (f_equal blen) in Eb. unfold block, rest in Eb. rewrite blen_take, blen_drop in Eb by lia. unfold blen in *. simpl in Eb. lia.
  - destruct ev as [m| | |m].
    + specialize (Hgo m). destruct (take _ block); (apply Hgo; [done|done|]); by intros Hc%(connected_step _ _ _ Htx).
    + apply write_result_end; [lia|done|done|right; split; [done|lia]|]. by intros [? _]%(connected_step _ _ _ Htx).
    + apply write_result_end; [lia|done|done|by left|]. by intros [? _]%(connected_step _ _ _ Htx).
    + specialize (Hgo m). destruct (take _ block); (apply Hgo; [done|done|]); by intros [? _]%(connected_step _ _ _ Htx).
Qed.

(** What every call of [tcpip_server_write] does: a prefix goes out, the result says
    whether it is everything, and a working connection takes everything. *)
Lemma tcpip_server_write_spec buffer size n :
  0 ≤ size ≤ blen buffer →
  ∃ k n', tcpip_server_write buffer size n = Ok (bool_decide (k = size)) n' ∧ same_but_tx n n'
    ∧ 0 ≤ k ≤ size ∧ sent n' = sent n ++ take (Z.to_nat k) buffer
    ∧ (connected n → k = size ∧ connected n').
Proof.
  intros Hsize. destruct (write_loop_spec (S (Z.to_nat size)) buffer 0 size n)
    as (o & k & n' & Hr & Hsame & Hk & Hsent & Ho & Hc); [lia..|].
  exists k, n'. unfold tcpip_server_write, bind. rewrite Hr. split; [|by rewrite Z.sub_0_r in Hsent].
  unfold ret. f_equal. destruct o as [l|]; [|rewrite bool_decide_false by lia; done]. subst l.
  destruct (Z.eqb_spec k size); [by rewrite bool_decide_true|by rewrite bool_decide_false].
Qed.

Lemma tcpip_server_write_wp buffer size n (Q : bool → net → Prop) :
  0 ≤ size ≤ blen buffer →
  (∀ status n' k, same_but_tx n n' → sent n' = sent n ++ take (Z.to_nat k) buffer →
     (status = true → k = size) → Q status n') →
  wp (tcpip_server_write buffer size) Q never n.
Proof.
  intros Hsize HQ. destruct (tcpip_server_write_spec buffer size n Hsize) as (k & n' & Hr & Hsame & _ & Hs & _).
  unfold wp. rewrite Hr. eapply HQ; [done|done|]. apply bool_decide_eq_true_1.
Qed.

Lemma same_but_tx_net_ok n n' : same_but_tx n n' → net_ok n → net_ok n'.
Proof. unfold net_ok. intros (_ & _ & -> & _ & -> & _). done. Qed.

(** C26: [tcpip_server_read] returns true exactly with the next [size] bytes the client
    sent, however the network cuts them and however many timeouts and signals come
    between, and leaves the following bytes for the next call; when the connection
    ends or the server is stopped first it returns false; when the client is idle it
    keeps waiting. The loop always makes progress. *)
Theorem read_is_independent_of_chunking size n :
  0 ≤ size → stop_server n = false →
  if decide (size ≤ blen (stream (rx n)))
  then ∃ n', tcpip_server_read size n = Ok (true, take (Z.to_nat size) (stream (rx n))) n'
         ∧ same_but_rx n n' ∧ stream (rx n') = drop (Z.to_nat size) (stream (rx n))
         ∧ stream_end (rx n') = stream_end (rx n)
  else match stream_end (rx n) with
       | EndIdle => ∃ n', tcpip_server_read size n = Idle n'
       | e => ∃ n' bs, tcpip_server_read size n = Ok (false, bs) n'
                ∧ stop_server n' = bool_decide (e = EndStop)
       end.
Proof.
  intros Hsize Hs. case_decide as Hle.
  - destruct (tcpip_server_read_ok size n) as (n' & H1 & H2 & _ & H3 & H4); [lia|done|]. eauto.
  - pose proof (tcpip_server_read_short size n ltac:(lia) Hs) as H.
    destruct (stream_end (rx n)); naive_solver.
Qed.

(** A client whose bytes arrive in pieces, with a timeout and a signal in between. *)
Definition sample_net : net :=
  Build_net 3 4 false [RxData [1; 2]; RxAgain; RxData [3]; RxIntr; RxData [4; 5; 6]] [TxAccept 2; TxAgain]
    [] [] [] [].

Lemma read_is_independent_of_chunking_witness :
  ∃ n', tcpip_server_read 5 sample_net = Ok (true, [1; 2; 3; 4; 5]) n' ∧ stream (rx n') = [6].
Proof.
  pose proof (read_is_independent_of_chunking 5 sample_net ltac:(lia) eq_refl) as H.
  rewrite decide_True in H by (vm_compute; discriminate). destruct H as (n' & H1 & _ & H2 & _).
  exists n'. split; [exact H1|exact H2].
Defined.

(** C29: [tcpip_server_write] sends a prefix of the buffer in order, never a byte beyond
    it, returns true exactly when the whole buffer was sent, and on a working connection
    sends everything, in pieces of any size. *)
Theorem write_sends_a_prefix_and_reports_it buffer size n :
  0 ≤ size ≤ blen buffer →
  ∃ k n', tcpip_server_write buffer size n = Ok (bool_decide (k = size)) n' ∧ same_but_tx n n'
    ∧ 0 ≤ k ≤ size ∧ sent n' = sent n ++ take (Z.to_nat k) buffer
    ∧ (connected n → k = size ∧ connected n').
Proof. apply tcpip_server_write_spec. Qed.

Lemma write_sends_a_prefix_and_reports_it_witness :
  ∃ k n', tcpip_server_write [7; 8; 9] 3 sample_net = Ok (bool_decide (k = 3)) n'
    ∧ sent n' = take (Z.to_nat k) [7; 8; 9].
Proof.
  destruct (write_sends_a_prefix_and_reports_it [7; 8; 9] 3 sample_net) as (k & n' & H1 & _ & _ & H2 & _).
  - split; [lia|]. vm_compute. discriminate.
  - exists k, n'. split; [exact H1|exact H2].
Defined.

Lemma tcpip_server_open_spec r n :
  ∃ ok n', tcpip_server_open r n = Ok ok n' ∧ (rx n' = rx n ∧ accepts n' = accepts n) ∧ (ok = true ↔ listening r)
    ∧ (ok = true → server_socket n' = socket_result r ∧ 0 ≤ server_socket n' ∧ closed_fds n' = closed_fds n)
    ∧ (ok = false → server_socket n' < 0
         ∧ closed_fds n' = if bool_decide (0 ≤ socket_result r) then socket_result r :: closed_fds n else closed_fds n).
Proof.
  assert (∀ n', server_socket n' = socket_result r → closed_fds n' = closed_fds n → 0 ≤ socket_result r →
    ∃ n'', (tcpip_server_close;; ret false) n' = Ok false n'' ∧ (rx n'' = rx n' ∧ accepts n'' = accepts n')
      ∧ server_socket n'' < 0 ∧ closed_fds n'' = socket_result r :: closed_fds n) as Hclose.
  { intros n' H1 H2 H3. unfold tcpip_server_close, bind, get. rewrite H1, (proj2 (Z.leb_le _ _)) by done.
    eexists. split; [done|]. simpl. by rewrite H2. }
  unfold tcpip_server_open, bind at 1, modify, listening. destruct (Z.ltb_spec (socket_result r) 0) as [Hneg|Hpos].
  { eexists false, _. split; [done|]. split; [done|]. split; [split; [done|lia]|]. split; [done|]. intros _. rewrite bool_decide_false by lia. by split. }
  rewrite bool_decide_true by done.
  destruct (Hclose (set_server_socket (socket_result r) n)) as (n' & Hcl & Hsame & Hn'); [done..|].
  destruct (inet_pton_ok r), (Z.ltb_spec (bind_result r) 0), (Z.ltb_spec (listen_result r) 0); cbn [negb];
    try (exists false, n'; split; [exact Hcl|]; split; [done|]; split; [split; [done|intros (_ & ? & ? & ?); (done || lia)]|];
         split; [done|]; intros _; apply Hn').
  eexists true, _. split; [done|]. done.
Qed.

(** The listening socket is never leaked: [tcpip_server_open] ends with an open
    socket exactly when it returns true, and on every failing path after [socket] it has
    closed the descriptor it opened. *)
Theorem open_closes_on_failure r n :
  ∃ ok n', tcpip_server_open r n = Ok ok n'
    ∧ (ok = true → server_socket n' = socket_result r ∧ 0 ≤ server_socket n' ∧ closed_fds n' = closed_fds n)
    ∧ (ok = false → server_socket n' < 0
         ∧ closed_fds n' = if bool_decide (0 ≤ socket_result r) then socket_result r :: closed_fds n else closed_fds n).
Proof. destruct (tcpip_server_open_spec r n) as (ok & n' & Hrun & _ & _ & Hok). eauto. Qed.
