(* ===== verification/ConfigWalk.v ===== *)
(** * Walking the configuration descriptor (src/lib/usbip_protocol.c)

    The two functions of usbip_protocol.c that step through the descriptors of the
    device's configuration: [load_endpoints], which fills the table of endpoints,
    and [get_next_interface_idx], which finds the interfaces for the device list.
    The theorems relate both loops to folds over the list of descriptors. *)
From S2P Require Import Prelude Descriptors DeviceStore.

(** From linux/usb/ch9.h. *)
Definition USB_DT_ENDPOINT_SIZE : Z := 7.
Definition USB_DT_ENDPOINT : Z := 0x05.
Definition USB_DIR_IN : Z := 0x80.
Definition USB_ENDPOINT_NUMBER_MASK : Z := 0x0f.
Definition USB_ENDPOINT_XFERTYPE_MASK : Z := 0x03.
Definition USB_ENDPOINT_XFER_ISOC : Z := 1.
Definition USB_ENDPOINT_XFER_INT : Z := 3.

Record endpoint_t := {
  ep_type : Z;          (** USB_ENDPOINT_XFER_* from the endpoint descriptor *)
  interval_us : Z;      (** service interval of interrupt IN and isochronous endpoints *)
  next_poll_us : Z;     (** interrupt IN: when the next transfer may complete *)
  stream_end_us : Z;    (** isochronous: when the last queued transfer completes *)
}.

(** [endpoint_t endpoints[2][NUMBER_OF_ENDPOINTS]] *)
Abbreviation endpoint_table := (list (list endpoint_t)).

Definition zero_endpoint : endpoint_t :=
  {| ep_type := 0; interval_us := 0; next_poll_us := 0; stream_end_us := 0 |}.
Definition zero_table : endpoint_table := replicate 2 (replicate (Z.to_nat NUMBER_OF_ENDPOINTS) zero_endpoint).

Definition table_get (t : endpoint_table) (dir num : Z) : cres endpoint_t :=
  let? row := arr_get t dir in arr_get row num.
Definition table_set (t : endpoint_table) (dir num : Z) (e : endpoint_t) : cres endpoint_table :=
  let? row := arr_get t dir in
  let? row' := arr_set row num e in
  arr_set t dir row'.

(** ** load_endpoints *)

(** The body of the [if] for an endpoint descriptor at [desc = &config_desc[idx]]. *)
Definition load_endpoint (config_desc : bytes) (idx : Z) (t : endpoint_table) : cres endpoint_table :=
  let? address := arr_get config_desc (idx + 2) in
  let is_in := negb (Z.land address USB_DIR_IN =? 0) in
  let dir := if is_in then 1 else 0 in
  let num := Z.land address USB_ENDPOINT_NUMBER_MASK in
  let? endpoint := table_get t dir num in
  let? attributes := arr_get config_desc (idx + 3) in
  let type := Z.land attributes USB_ENDPOINT_XFERTYPE_MASK in
  let paced := (type =? USB_ENDPOINT_XFER_ISOC) || (is_in && (type =? USB_ENDPOINT_XFER_INT)) in
  let? bInterval := (if paced then arr_get config_desc (idx + 6) else Val 0) in
  let interval :=
    if paced && (0 <? bInterval) then
      let exponent := if 16 <? bInterval then 16 else bInterval in
      u64 (Z.shiftl 125 (exponent - 1))
    else interval_us endpoint in
  table_set t dir num
    {| ep_type := type; interval_us := interval;
       next_poll_us := next_poll_us endpoint; stream_end_us := stream_end_us endpoint |}.

Fixpoint load_endpoints_loop (fuel : nat) (config_desc : bytes) (total_length idx : Z)
    (t : endpoint_table) : cres endpoint_table :=
  if idx + USB_DT_ENDPOINT_SIZE <=? total_length then
    let? len := arr_get config_desc idx in
    if 0 <? len then
      match fuel with
      | O => Err Diverges
      | S fuel =>
          let? type := arr_get config_desc (idx + 1) in
          let? t' := (if type =? USB_DT_ENDPOINT then load_endpoint config_desc idx t else Val t) in
          load_endpoints_loop fuel config_desc total_length (idx + len) t'
      end
    else Val t
  else Val t.

(** The table starts from [memset (endpoints, 0)]; each pass moves at least one byte. *)
Definition load_endpoints (config_desc : bytes) : cres endpoint_table :=
  let? total_length := total_length_of config_desc in
  load_endpoints_loop (Z.to_nat total_length) config_desc total_length 0 zero_table.

(** ** get_next_interface_idx *)

Fixpoint next_interface_loop (fuel : nat) (config_ptr : bytes) (total_size desc_size idx : Z) : cres Z :=
  if idx <? total_size then
    match fuel with
    | O => Err Diverges
    | S fuel =>
        let idx := idx + desc_size in
        let? type := arr_get config_ptr (idx + 1) in
        if type =? 0x04 then Val idx else
        let? desc_size := arr_get config_ptr idx in
        next_interface_loop fuel config_ptr total_size desc_size idx
    end
  else Val idx.

(** A pass over a descriptor of length zero does not move: with more passes than bytes
    left the loop never ends. *)
Definition get_next_interface_idx (config_ptr : bytes) (start_idx : Z) : cres Z :=
  let? total_size := total_length_of config_ptr in
  let? desc_size := arr_get config_ptr start_idx in
  next_interface_loop (S (Z.to_nat total_size)) config_ptr total_size desc_size start_idx.

(** ** Reference: the descriptors one after the other *)

(** What the device says about an endpoint with one descriptor. *)
Definition described_interval (is_in : bool) (type bInterval : Z) : option Z :=
  if decide ((type = USB_ENDPOINT_XFER_ISOC ∨ is_in = true ∧ type = USB_ENDPOINT_XFER_INT) ∧ 0 < bInterval)
  then Some (125 * 2 ^ (Z.min bInterval 16 - 1)) else None.

Definition add_endpoint (t : endpoint_table) (d : bytes) : endpoint_table :=
  match d with
  | _ :: ty :: address :: attributes :: _ :: _ :: bInterval :: _ =>
      if decide (ty = USB_DESCRIPTOR_TYPE_ENDPOINT) then
        let is_in := Z.testbit address 7 in
        let dir := if is_in then 1%nat else 0%nat in
        alter (alter (λ e, {| ep_type := attributes mod 4;
                              interval_us := default (interval_us e)
                                (described_interval is_in (attributes mod 4) bInterval);
                              next_poll_us := next_poll_us e; stream_end_us := stream_end_us e |})
                     (Z.to_nat (address mod 16))) dir t
      else t
  | _ => t
  end.

Definition endpoints_of (ds : list bytes) : endpoint_table := foldl add_endpoint zero_table ds.

(** Direction and number an endpoint descriptor is about. *)
Definition endpoint_key (d : bytes) : option (nat * nat) :=
  match d with
  | _ :: ty :: address :: _ :: _ :: _ :: _ :: _ =>
      if decide (ty = USB_DESCRIPTOR_TYPE_ENDPOINT)
      then Some (if Z.testbit address 7 then 1%nat else 0%nat, Z.to_nat (address mod 16)) else None
  | _ => None
  end.

(** The descriptors of one endpoint, one for each alternate setting that has it, and the
    service interval one of them asks for. *)
Definition descriptors_of (ds : list bytes) (key : nat * nat) : list bytes :=
  filter (λ d, endpoint_key d = Some key) ds.

Definition endpoint_interval (d : bytes) : option Z :=
  described_interval (Z.testbit (default 0 (d !! 2%nat)) 7) (default 0 (d !! 3%nat) mod 4) (default 0 (d !! 6%nat)).

(** What a configuration says of an endpoint: the type of its last descriptor, and the last
    service interval one of its descriptors asks for; nothing of an endpoint without
    descriptor. *)
Definition described (ds : list bytes) (key : nat * nat) : endpoint_t :=
  let eps := descriptors_of ds key in
  {| ep_type := default 0 ((λ d, default 0 (d !! 3%nat) mod 4) <$> last eps);
     interval_us := default 0 (last (omap endpoint_interval eps));
     next_poll_us := 0; stream_end_us := 0 |}.

Definition table_lookup (t : endpoint_table) (key : nat * nat) : option endpoint_t :=
  row ← t !! key.1; row !! key.2.

(** The interface descriptors of a configuration, in order. *)
Definition interfaces_of (ds : list bytes) : list bytes :=
  filter (λ d, desc_type d = USB_DESCRIPTOR_TYPE_INTERFACE) ds.

Definition wf_table (t : endpoint_table) : Prop :=
  length t = 2%nat ∧ Forall (λ row, length row = 16%nat ∧
    Forall (λ e, is_byte (ep_type e) ∧ 0 ≤ interval_us e < 2 ^ 64 ∧ 0 ≤ next_poll_us e < 2 ^ 64
      ∧ 0 ≤ stream_end_us e < 2 ^ 64) row) t.

(** * Theorems *)

(** ** The endpoint table *)

Lemma wf_zero_table : wf_table zero_table.
Proof. by repeat constructor. Qed.

Lemma table_update t dir num :
  wf_table t → 0 ≤ dir < 2 → 0 ≤ num < 16 →
  ∃ e, table_get t dir num = Val e
    ∧ (∀ row, t !! Z.to_nat dir = Some row → row !! Z.to_nat num = Some e)
    ∧ ∀ f, table_set t dir num (f e) = Val (alter (alter f (Z.to_nat num)) (Z.to_nat dir) t).
Proof.
  intros [Ht Hrows] Hdir Hnum.
  destruct (lookup_lt_is_Some_2 t (Z.to_nat dir)) as [row Hrow]; [lia|].
  rewrite Forall_lookup in Hrows. destruct (Hrows _ _ Hrow) as [Hlen _].
  destruct (lookup_lt_is_Some_2 row (Z.to_nat num)) as [e He]; [lia|].
  exists e. unfold table_get, table_set. rewrite (proj2 (arr_get_Val t dir row)) by (split; [lia|done]). simpl.
  rewrite (proj2 (arr_get_Val row num e)) by (split; [lia|done]). split; [done|]. split; [by intros; simplify_eq|].
  intros f. rewrite arr_set_Val by (unfold blen; lia). simpl. rewrite arr_set_Val by (unfold blen; lia).
  f_equal. rewrite (list_alter_insert _ _ _ _ Hrow). f_equal. by rewrite (list_alter_insert _ _ _ _ He).
Qed.

Lemma wf_table_alter t (f : endpoint_t → endpoint_t) i j :
  wf_table t →
  (∀ e, is_byte (ep_type e) ∧ 0 ≤ interval_us e < 2 ^ 64 ∧ 0 ≤ next_poll_us e < 2 ^ 64
     ∧ 0 ≤ stream_end_us e < 2 ^ 64 →
   is_byte (ep_type (f e)) ∧ 0 ≤ interval_us (f e) < 2 ^ 64 ∧ 0 ≤ next_poll_us (f e) < 2 ^ 64
     ∧ 0 ≤ stream_end_us (f e) < 2 ^ 64) →
  wf_table (alter (alter f j) i t).
Proof.
  intros [Ht Hrows] Hf. split; [by rewrite length_alter|].
  apply Forall_alter; [done|]. intros row _ [Hl He]. split; [by rewrite length_alter|].
  apply Forall_alter; [done|]. intros e _ Hok. by apply Hf.
Qed.

Lemma land_128_testbit x : is_byte x → negb (Z.land x USB_DIR_IN =? 0) = Z.testbit x 7.
Proof.
  intros Hx. assert (∀ b, Z.land b 128 = if Z.testbit b 7 then 128 else 0) as H.
  { intros b. apply Z.bits_inj_iff'. intros i Hi. rewrite Z.land_spec. change 128 with (2 ^ 7) at 1.
    rewrite Z.pow2_bits_eqb by lia. destruct (Z.eqb_spec 7 i) as [<-|Hne].
    - by destruct (Z.testbit b 7).
    - rewrite andb_false_r. destruct (Z.testbit b 7); [|by rewrite Z.bits_0].
      change 128 with (2 ^ 7). rewrite Z.pow2_bits_eqb by lia. symmetry. by apply Z.eqb_neq. }
  unfold USB_DIR_IN. rewrite H. by destruct (Z.testbit x 7).
Qed.

Lemma described_interval_range is_in type b us :
  described_interval is_in type b = Some us → 0 < us < 2 ^ 64.
Proof.
  unfold described_interval. case_decide as H; [|done]. intros [= <-].
  assert (0 ≤ Z.min b 16 - 1 ≤ 15) as Hr by lia.
  assert (1 ≤ 2 ^ (Z.min b 16 - 1) ≤ 2 ^ 15); [|lia].
  split; [change 1 with (2 ^ 0)|]; apply Z.pow_le_mono_r; lia.
Qed.

(** One endpoint descriptor at its place in the array. *)
Lemma load_endpoint_spec pre d rest t :
  wf_table t → wf_desc d → 7 ≤ blen d → desc_type d = USB_DESCRIPTOR_TYPE_ENDPOINT →
  load_endpoint (pre ++ d ++ rest) (blen pre) t = Val (add_endpoint t d).
Proof.
  intros Ht (_ & _ & Hb) Hl Hty. unfold load_endpoint. rewrite !arr_get_window by lia.
  destruct d as [|b0 [|b1 [|b2 [|b3 [|b4 [|b5 [|b6 d]]]]]]]; try (unfold blen in Hl; simpl in Hl; lia).
  unfold desc_type in Hty. simpl in Hty. subst b1. rewrite !Forall_cons in Hb. destruct Hb as (_ & _ & Hb2 & Hb3 & _ & _ & Hb6 & _).
  set (l := b0 :: _). assert (arr_get l 2 = Val b2) as -> by done. assert (arr_get l 3 = Val b3) as -> by done.
  assert (arr_get l 6 = Val b6) as -> by done. cbn [cbind]. rewrite land_128_testbit by done.
  change USB_ENDPOINT_NUMBER_MASK with (Z.ones 4). change USB_ENDPOINT_XFERTYPE_MASK with (Z.ones 2).
  rewrite !Z.land_ones by lia. change (2 ^ 4) with 16. change (2 ^ 2) with 4.
  set (is_in := Z.testbit b2 7). set (ty := b3 mod 4).
  destruct (table_update t (if is_in then 1 else 0) (b2 mod 16) Ht) as (e & Hget & _ & Hset);
    [by destruct is_in|apply Z.mod_pos_bound; lia|].
  rewrite Hget. cbn [cbind].
  set (paced := (ty =? USB_ENDPOINT_XFER_ISOC) || is_in && (ty =? USB_ENDPOINT_XFER_INT)).
  set (f e := {| ep_type := ty; interval_us := default (interval_us e) (described_interval is_in ty b6);
                 next_poll_us := next_poll_us e; stream_end_us := stream_end_us e |}).
  assert ((if paced && (0 <? (if paced then b6 else 0))
    then u64 (Z.shiftl 125 ((if 16 <? (if paced then b6 else 0) then 16 else (if paced then b6 else 0)) - 1))
    else interval_us e) = default (interval_us e) (described_interval is_in ty b6)) as Hint.
  { pose proof (described_interval_range is_in ty b6) as Hr. unfold described_interval in *.
    destruct paced eqn:Hp; simpl.
    - assert (ty = USB_ENDPOINT_XFER_ISOC ∨ is_in = true ∧ ty = USB_ENDPOINT_XFER_INT) as Hp'.
      { unfold paced in Hp. rewrite orb_true_iff, andb_true_iff, !Z.eqb_eq in Hp. done. }
      destruct (Z.ltb_spec 0 b6); [rewrite decide_True in * by done|rewrite decide_False in * by (intros [_ ?]; lia); done].
      simpl. replace (if 16 <? b6 then 16 else b6) with (Z.min b6 16) by (destruct (Z.ltb_spec 16 b6); lia).
      rewrite Z.shiftl_mul_pow2 by lia. unfold u64. apply Z.mod_small. specialize (Hr _ eq_refl). lia.
    - rewrite decide_False; [done|]. intros [Hp' _]. unfold paced in Hp.
      rewrite orb_false_iff, andb_false_iff, !Z.eqb_neq in Hp.
      destruct Hp as [? [?|?]], Hp' as [?|[??]]; congruence. }
  specialize (Hset f). unfold f in Hset at 1. rewrite <-Hint in Hset. unfold add_endpoint.
  unfold l. rewrite decide_True by done. fold is_in ty. fold f. destruct is_in, paced; exact Hset.
Qed.

Lemma add_endpoint_other t d : desc_type d ≠ USB_DESCRIPTOR_TYPE_ENDPOINT → add_endpoint t d = t.
Proof.
  intros Hty. destruct d as [|? [|b1 [|? [|? [|? [|? [|? ?]]]]]]]; try done. simpl.
  by rewrite decide_False.
Qed.

Lemma add_endpoint_short t d : blen d < 7 → add_endpoint t d = t.
Proof. intros Hl. destruct d as [|? [|b1 [|? [|? [|? [|? [|? ?]]]]]]]; try done. unfold blen in Hl. simpl in Hl. lia. Qed.

Lemma add_endpoint_wf t d : wf_table t → wf_table (add_endpoint t d).
Proof.
  intros Ht. destruct d as [|? [|b1 [|b2 [|b3 [|? [|? [|b6 ?]]]]]]]; try done. simpl. case_decide; [|done].
  apply wf_table_alter; [done|]. intros e (He1 & He2 & He3 & He4). simpl. split.
  { unfold is_byte. pose proof (Z.mod_pos_bound b3 4). lia. }
  split; [|done]. destruct (described_interval _ _ _) as [us|] eqn:E; [|done].
  apply described_interval_range in E. simpl. lia.
Qed.

Lemma foldl_short t ds : blen (concat ds) < 7 → foldl add_endpoint t ds = t.
Proof.
  revert t. induction ds as [|d ds IH]; intros t; [done|]. cbn [concat]. rewrite blen_app. intros H.
  pose proof (blen_nonneg d). pose proof (blen_nonneg (concat ds)). simpl.
  rewrite add_endpoint_short by lia. apply IH. lia.
Qed.

Lemma load_endpoints_loop_spec fuel pre ds t :
  Forall wf_desc ds → Forall wf_sized ds → wf_table t → (length ds ≤ fuel)%nat →
  load_endpoints_loop fuel (pre ++ concat ds) (blen pre + blen (concat ds)) (blen pre) t =
    Val (foldl add_endpoint t ds).
Proof.
  intros Hwf Hs. revert fuel pre t.
  induction Hwf as [|d ds Hd Hwf IH]; intros fuel pre t Ht Hfuel.
  { destruct fuel; simpl; unfold USB_DT_ENDPOINT_SIZE; by rewrite Z.add_0_r, (proj2 (Z.leb_gt _ _)) by lia. }
  apply Forall_cons in Hs as [Hsd Hs]. destruct fuel as [|fuel]; simpl in Hfuel; [lia|].
  cbn [load_endpoints_loop concat]. unfold USB_DT_ENDPOINT_SIZE.
  destruct (Z.leb_spec (blen pre + 7) (blen pre + blen (d ++ concat ds))) as [H7|H7].
  2: { rewrite foldl_short; [done|]. cbn [concat]. lia. }
  pose proof (wf_desc_nonempty d Hd). assert (2 ≤ blen d) by (destruct Hd as (_ & ? & _); lia).
  rewrite <-(Z.add_0_r (blen pre)) at 1. rewrite !arr_get_window by lia.
  rewrite arr_get_Val_0, arr_get_Val_1 by done. cbn [cbind]. rewrite (proj2 (Z.ltb_lt _ _)) by lia.
  assert ((if desc_type d =? USB_DT_ENDPOINT then load_endpoint (pre ++ d ++ concat ds) (blen pre) t else Val t)
    = Val (add_endpoint t d)) as ->.
  { destruct (Z.eqb_spec (desc_type d) USB_DT_ENDPOINT) as [He|He].
    - apply load_endpoint_spec; try done. by apply Hsd.
    - by rewrite add_endpoint_other. }
  cbn [cbind foldl]. rewrite (app_assoc pre d), (blen_app d), Z.add_assoc, <-(blen_app pre d).
  apply IH; [done|by apply add_endpoint_wf|lia].
Qed.

Lemma load_endpoints_eq ds : wf_config ds → load_endpoints (concat ds) = Val (endpoints_of ds).
Proof.
  intros [Hd Hs _ _ Htot]. unfold load_endpoints. rewrite Htot. cbn [cbind].
  pose proof (load_endpoints_loop_spec (Z.to_nat (blen (concat ds))) [] ds zero_table) as H. simpl in H.
  apply H; [done|done|apply wf_zero_table|]. pose proof (concat_length_le ds Hd). unfold blen. lia.
Qed.

Lemma endpoints_of_wf ds : wf_table (endpoints_of ds).
Proof.
  unfold endpoints_of. assert (∀ t, wf_table t → wf_table (foldl add_endpoint t ds)) as H.
  { induction ds as [|d ds IH]; intros t Ht; [done|]. apply IH. by apply add_endpoint_wf. }
  apply H, wf_zero_table.
Qed.

Lemma add_endpoint_ne t d key :
  endpoint_key d ≠ Some key → table_lookup (add_endpoint t d) key = table_lookup t key.
Proof.
  destruct key as [dir num]. unfold table_lookup. simpl.
  destruct d as [|? [|b1 [|b2 [|b3 [|? [|? [|b6 ?]]]]]]]; try done. simpl. case_decide; [|done]. intros Hk.
  destruct (decide (dir = if Z.testbit b2 7 then 1%nat else 0%nat)) as [->|Hne].
  - rewrite list_lookup_alter_eq. destruct (t !! _) as [row|]; [|done]. simpl.
    rewrite list_lookup_alter_ne; [done|]. contradict Hk. by rewrite Hk.
  - by rewrite list_lookup_alter_ne by done.
Qed.

Lemma table_lookup_zero key : (key.1 < 2)%nat → (key.2 < 16)%nat → table_lookup zero_table key = Some zero_endpoint.
Proof.
  destruct key as [dir num]. simpl. intros H1 H2. unfold table_lookup, zero_table.
  rewrite (proj2 (lookup_replicate _ _ _ _)) by done. cbn. by apply (lookup_replicate 16).
Qed.

Lemma add_endpoint_eq t d key e :
  endpoint_key d = Some key → table_lookup t key = Some e →
  table_lookup (add_endpoint t d) key =
    Some {| ep_type := default 0 (d !! 3%nat) mod 4; interval_us := default (interval_us e) (endpoint_interval d);
            next_poll_us := next_poll_us e; stream_end_us := stream_end_us e |}.
Proof.
  unfold endpoint_interval. destruct d as [|? [|b1 [|b2 [|b3 [|? [|? [|b6 ?]]]]]]]; try done. cbn [endpoint_key add_endpoint].
  case_decide; [|done]. intros <-%(inj Some). unfold table_lookup. cbn [fst snd]. intros (row & Hrow & He)%bind_Some.
  rewrite list_lookup_alter_eq, Hrow. cbn [fmap option_fmap option_map mbind option_bind]. by rewrite list_lookup_alter_eq, He.
Qed.

Lemma endpoints_of_described ds key :
  (key.1 < 2)%nat → (key.2 < 16)%nat → table_lookup (endpoints_of ds) key = Some (described ds key).
Proof.
  intros H1 H2. unfold endpoints_of. induction ds as [|d ds IH] using rev_ind; [by apply table_lookup_zero|].
  rewrite foldl_app. cbn [foldl]. unfold described, descriptors_of. rewrite filter_app, filter_cons, filter_nil.
  case_decide as Hk; [|by rewrite add_endpoint_ne, app_nil_r, IH].
  rewrite (add_endpoint_eq _ _ _ _ Hk IH), omap_app, last_snoc. cbn [omap list_omap fmap option_fmap option_map default from_option id].
  destruct (endpoint_interval d) as [us|]; [by rewrite last_snoc|by rewrite app_nil_r].
Qed.

(** ** Interfaces *)

Lemma next_interface_loop_spec fuel (pre d : bytes) mid i post total :
  0 < blen d → Forall wf_desc mid → Forall (λ d, desc_type d ≠ USB_DESCRIPTOR_TYPE_INTERFACE) mid →
  wf_desc i → desc_type i = USB_DESCRIPTOR_TYPE_INTERFACE →
  blen pre + blen d + blen (concat mid) < total → (length mid < fuel)%nat →
  next_interface_loop fuel (pre ++ d ++ concat mid ++ i ++ post) total (blen d) (blen pre) =
    Val (blen pre + blen d + blen (concat mid)).
Proof.
  intros Hd Hmid. revert fuel pre d Hd.
  induction Hmid as [|m mid Hm Hmid IH]; intros fuel pre d Hd Hne Hi Hti Htot Hf;
    (destruct fuel as [|fuel]; [simpl in Hf; lia|]); cbn [next_interface_loop concat] in *.
  - change (blen []) with 0 in *. rewrite (proj2 (Z.ltb_lt _ _)) by lia.
    assert (arr_get (pre ++ d ++ [] ++ i ++ post) (blen pre + blen d + 1) = Val 4) as ->.
    { change ([] ++ i ++ post) with (i ++ post). rewrite app_assoc, <-blen_app, arr_get_window; [|destruct Hi as (_ & ? & _); lia].
      by rewrite arr_get_Val_1, Hti. }
    simpl. f_equal. lia.
  - rewrite blen_app in *. pose proof (blen_nonneg (concat mid)). pose proof (wf_desc_nonempty m Hm).
    rewrite (proj2 (Z.ltb_lt _ _)) by lia.
    apply Forall_cons in Hne as [Hnm Hne]. assert (2 ≤ blen m) by (destruct Hm as (_ & ? & _); lia).
    rewrite <-(app_assoc m), (app_assoc pre), <-blen_app.
    rewrite arr_get_window, arr_get_Val_1 by (done || lia). cbn [cbind].
    rewrite (proj2 (Z.eqb_neq _ _)) by done.
    rewrite <-(Z.add_0_r (blen (pre ++ d))) at 1. rewrite arr_get_window, arr_get_Val_0 by (done || lia). cbn [cbind].
    rewrite IH; try done; [|rewrite blen_app; lia|simpl in Hf; lia].
    rewrite !blen_app. f_equal. lia.
Qed.

(** From a descriptor to the next interface descriptor after it. *)
Lemma get_next_interface_idx_spec pre d mid i post :
  let ds := pre ++ d :: mid ++ i :: post in
  Forall wf_desc ds → total_length_of (concat ds) = Val (blen (concat ds)) →
  Forall (λ d, desc_type d ≠ USB_DESCRIPTOR_TYPE_INTERFACE) mid →
  desc_type i = USB_DESCRIPTOR_TYPE_INTERFACE →
  get_next_interface_idx (concat ds) (blen (concat pre)) = Val (blen (concat (pre ++ d :: mid))).
Proof.
  intros ds Hds Htot Hmid Hi. unfold get_next_interface_idx. rewrite Htot. cbn [cbind].
  assert (concat ds = concat pre ++ d ++ concat mid ++ i ++ concat post) as Heq.
  { unfold ds. rewrite concat_app. cbn [concat]. rewrite concat_app. done. }
  pose proof (concat_length_le ds Hds) as Hlen. unfold ds in Hds.
  rewrite Forall_app, Forall_cons, Forall_app, Forall_cons in Hds. destruct Hds as (_ & Hd & Hm & Hiw & _).
  pose proof (wf_desc_nonempty d Hd). pose proof (wf_desc_nonempty i Hiw).
  assert (arr_get (concat ds) (blen (concat pre)) = Val (blen d)) as ->.
  { rewrite Heq, <-(Z.add_0_r (blen (concat pre))), arr_get_window by lia. by apply arr_get_Val_0. }
  cbn [cbind]. rewrite Heq at 2. rewrite next_interface_loop_spec; try done.
  - rewrite concat_app. cbn [concat]. rewrite !blen_app. f_equal. lia.
  - rewrite Heq, !blen_app. pose proof (blen_nonneg (concat post)). lia.
  - unfold ds in Hlen. rewrite length_app in Hlen. simpl in Hlen. rewrite length_app in Hlen. simpl in Hlen. fold ds in Hlen.
    unfold blen. lia.
Qed.

(** The walk of the device list: starting at the configuration descriptor, [n] calls
    visit the first [n] interface descriptors in order. *)
Fixpoint interface_walk (n : nat) (config : bytes) (idx : Z) : cres (list Z) :=
  match n with
  | O => Val []
  | S n =>
      let? idx := get_next_interface_idx config idx in
      let? rest := interface_walk n config idx in
      Val (idx :: rest)
  end.

Lemma first_interface (l : list bytes) (n : nat) :
  (S n ≤ length (interfaces_of l))%nat →
  ∃ mid i post, l = mid ++ i :: post ∧ Forall (λ d, desc_type d ≠ USB_DESCRIPTOR_TYPE_INTERFACE) mid
    ∧ desc_type i = USB_DESCRIPTOR_TYPE_INTERFACE ∧ interfaces_of l = i :: interfaces_of post.
Proof.
  unfold interfaces_of. induction l as [|x l IH]; [simpl; lia|]. rewrite filter_cons. case_decide as Hx.
  - intros _. by exists [], x, l.
  - intros Hn. destruct (IH Hn) as (mid & i & post & -> & Hm & Hi & Hf). exists (x :: mid), i, post.
    split; [done|]. split; [by constructor|]. done.
Qed.

Lemma interface_walk_spec n ds pre d l :
  ds = pre ++ d :: l → Forall wf_desc ds → total_length_of (concat ds) = Val (blen (concat ds)) →
  (n ≤ length (interfaces_of l))%nat →
  ∃ idxs, interface_walk n (concat ds) (blen (concat pre)) = Val idxs
    ∧ Forall2 (λ idx i, ∃ before after, concat ds = before ++ i ++ after ∧ blen before = idx)
        idxs (take n (interfaces_of l)).
Proof.
  revert pre d l. induction n as [|n IH]; intros pre d l Heq Hds Htot Hn; simpl.
  { rewrite take_0. eauto. }
  destruct (first_interface l n Hn) as (mid & i & post & -> & Hm & Hi & Hf). rewrite Hf in *.
  rewrite Heq in *. rewrite get_next_interface_idx_spec by done. cbn [cbind].
  replace (pre ++ d :: mid ++ i :: post) with ((pre ++ d :: mid) ++ i :: post) in * by (by rewrite <-app_assoc).
  destruct (IH (pre ++ d :: mid) i post) as (idxs & Hw & H2); [done..|simpl in Hn; lia|].
  rewrite Hw. cbn [cbind]. eexists. split; [done|]. constructor; [|done].
  exists (concat (pre ++ d :: mid)), (concat post). by rewrite concat_app.
Qed.

(** ** Properties *)

(** C25: for every well-formed configuration [load_endpoints] ends, reads only inside the
    descriptor and produces the table in which each of the 32 endpoints is as described,
    by descriptors of any length, once or in several alternate settings: its transfer type
    is that of its last descriptor, and its service interval the last one that a paced
    descriptor (isochronous, or interrupt IN) asks for, 2^(bInterval-1) * 125 us as at high
    speed; an endpoint without descriptor, or never paced, has interval 0. *)
Theorem load_endpoints_matches_descriptors ds :
  wf_config ds →
  ∃ t, load_endpoints (concat ds) = Val t ∧ wf_table t
    ∧ ∀ dir num, (dir < 2)%nat → (num < 16)%nat → table_lookup t (dir, num) = Some (described ds (dir, num)).
Proof.
  intros Hwf. exists (endpoints_of ds). split; [by apply load_endpoints_eq|]. split; [apply endpoints_of_wf|].
  intros dir num H1 H2. by apply endpoints_of_described.
Qed.

(** An interface with an interrupt IN endpoint of bInterval 7, and one with two alternate
    settings of an isochronous endpoint, whose descriptors have 9 bytes. *)
Definition walked_config : list bytes :=
  [[9; 2; 68; 0; 2; 1; 0; 192; 50]; [9; 4; 0; 0; 1; 255; 0; 0; 0]; [7; 5; 0x81; 3; 8; 0; 7];
   [9; 4; 1; 0; 0; 1; 2; 0; 0]; [9; 4; 1; 1; 1; 1; 2; 0; 0]; [9; 5; 2; 1; 96; 0; 1; 0; 0];
   [7; 36; 1; 0; 0; 0; 0]; [9; 5; 2; 1; 192; 0; 4; 0; 0]].

Lemma load_endpoints_matches_descriptors_witness :
  ∃ t, load_endpoints (concat walked_config) = Val t
    ∧ table_lookup t (1%nat, 1%nat) = Some {| ep_type := 3; interval_us := 8000; next_poll_us := 0; stream_end_us := 0 |}
    ∧ table_lookup t (0%nat, 2%nat) = Some {| ep_type := 1; interval_us := 1000; next_poll_us := 0; stream_end_us := 0 |}.
Proof.
  destruct (load_endpoints_matches_descriptors walked_config) as (t & H1 & _ & H2).
  - apply wf_config_check; vm_compute; reflexivity.
  - exists t. split; [exact H1|]. rewrite !H2 by lia. split; vm_compute; reflexivity.
Defined.

(** The calls of [get_next_interface_idx] made for the device list visit the
    interface descriptors of the configuration in order, without skipping one and
    without reading outside the array, as long as the configuration has as many
    interface descriptors as it is asked for. *)
Theorem interfaces_are_visited_in_order n ds :
  wf_config ds → (n ≤ length (interfaces_of ds))%nat →
  ∃ idxs, interface_walk n (concat ds) 0 = Val idxs
    ∧ Forall2 (λ idx i, ∃ before after, concat ds = before ++ i ++ after ∧ blen before = idx)
        idxs (take n (interfaces_of ds)).
Proof.
  intros [Hd _ _ (c & rest & -> & Hc & _) Htot] Hn.
  assert (interfaces_of (c :: rest) = interfaces_of rest) as Hi.
  { unfold interfaces_of. rewrite filter_cons_False; [done|]. by rewrite Hc. }
  rewrite Hi in *. by apply (interface_walk_spec n (c :: rest) [] c rest).
Qed.

Lemma interfaces_are_visited_in_order_witness :
  ∃ idxs, interface_walk 2 ([9; 2; 27; 0; 2; 1; 0; 192; 50] ++ [9; 4; 0; 0; 0; 2; 2; 1; 0]
            ++ [9; 4; 1; 0; 0; 10; 0; 0; 0]) 0 = Val idxs ∧ length idxs = 2%nat.
Proof.
  destruct (interfaces_are_visited_in_order 2
    [[9; 2; 27; 0; 2; 1; 0; 192; 50]; [9; 4; 0; 0; 0; 2; 2; 1; 0]; [9; 4; 1; 0; 0; 10; 0; 0; 0]])
    as (idxs & H1 & H2).
  - apply wf_config_check; vm_compute; reflexivity.
  - vm_compute. lia.
  - exists idxs. split; [exact H1|]. apply Forall2_length in H2. rewrite H2. reflexivity.
Defined.
