(* ===== verification/Protocol.v ===== *)
(** * The USB/IP protocol (src/lib/usbip_protocol.c)

    The static variables of usbip_protocol.c and its functions, on a state [world D]
    that holds the device with the endpoint store and the clock ([host D]), the
    connection ([net]) and the protocol's own variables ([proto]). Other threads may
    queue data while the server thread sleeps in [ppoll]: the script [others].

    This file holds the definitions and the specifications of the functions that
    only send: each of them [emits] a given sequence of bytes. *)
From S2P Require Import Prelude WireFormat DeviceStore Descriptors Host Control Tcpip ConfigWalk.

Definition USBIP_MAX_PACKET_SIZE : Z := 64 * 1024.
Definition USBIP_PROTOCOL_VERSION : Z := 0x0111.
Definition EP_STALL : Z := -32.
Definition URB_UNLINKED : Z := -104.
Definition MAX_PENDING_URBS : Z := 32.
Definition MAX_ISO_PACKETS : Z := 128.
Definition WAIT_TIMEOUT_US : Z := 500000.
Definition USB_SPEED_HIGH : Z := 3.

Record iso_packet_t := {
  pk_offset : Z;
  pk_length : Z;
}.

Record pending_urb_t := {
  urb_seqnum : Z;
  urb_ep : Z;
  urb_direction : Z;
  urb_transfer_buffer_length : Z;
  urb_isochronous : bool;
  urb_start_frame : Z;
  urb_number_of_packets : Z;
  urb_complete_us : Z;
  urb_packets : list iso_packet_t;  (** iso_packet_t packets[MAX_ISO_PACKETS] *)
}.

(** The static variables; [static_urb] is the one of [process_iso_submit]. *)
Record proto := {
  device_imported : bool;
  pending_urbs : list pending_urb_t;  (** pending_urb_t pending_urbs[MAX_PENDING_URBS] *)
  num_pending_urbs : Z;
  endpoints : endpoint_table;
  wait_timeout_us : Z;
  rx_buffer : bytes;
  tx_buffer : bytes;
  static_urb : pending_urb_t;
}.

(** A call of [usbip_device_transmit] by a thread of the device program. *)
Record transmit_call := {
  tc_ep : Z;
  tc_data : bytes;
  tc_length : Z;
}.

Record world (D : Type) := {
  w_host : host D;
  w_net : net;
  w_proto : proto;
  others : list (list transmit_call);  (** calls that end during the coming sleeps *)
}.
Arguments w_host {D} _.
Arguments w_net {D} _.
Arguments w_proto {D} _.
Arguments others {D} _.

(** ** Field updates *)

Definition set_device_imported (v : bool) (p : proto) : proto :=
  Build_proto v (pending_urbs p) (num_pending_urbs p) (endpoints p) (wait_timeout_us p) (rx_buffer p) (tx_buffer p) (static_urb p).
Definition set_pending (urbs : list pending_urb_t) (n : Z) (p : proto) : proto :=
  Build_proto (device_imported p) urbs n (endpoints p) (wait_timeout_us p) (rx_buffer p) (tx_buffer p) (static_urb p).
Definition set_num_pending (n : Z) (p : proto) : proto := set_pending (pending_urbs p) n p.
Definition set_endpoints (v : endpoint_table) (p : proto) : proto :=
  Build_proto (device_imported p) (pending_urbs p) (num_pending_urbs p) v (wait_timeout_us p) (rx_buffer p) (tx_buffer p) (static_urb p).
Definition set_wait_timeout (v : Z) (p : proto) : proto :=
  Build_proto (device_imported p) (pending_urbs p) (num_pending_urbs p) (endpoints p) v (rx_buffer p) (tx_buffer p) (static_urb p).
Definition set_rx_buffer (v : bytes) (p : proto) : proto :=
  Build_proto (device_imported p) (pending_urbs p) (num_pending_urbs p) (endpoints p) (wait_timeout_us p) v (tx_buffer p) (static_urb p).
Definition set_tx_buffer (v : bytes) (p : proto) : proto :=
  Build_proto (device_imported p) (pending_urbs p) (num_pending_urbs p) (endpoints p) (wait_timeout_us p) (rx_buffer p) v (static_urb p).
Definition set_static_urb (v : pending_urb_t) (p : proto) : proto :=
  Build_proto (device_imported p) (pending_urbs p) (num_pending_urbs p) (endpoints p) (wait_timeout_us p) (rx_buffer p) (tx_buffer p) v.

Definition set_next_poll (v : Z) (e : endpoint_t) : endpoint_t :=
  {| ep_type := ep_type e; interval_us := interval_us e; next_poll_us := v; stream_end_us := stream_end_us e |}.
Definition set_stream_end (v : Z) (e : endpoint_t) : endpoint_t :=
  {| ep_type := ep_type e; interval_us := interval_us e; next_poll_us := next_poll_us e; stream_end_us := v |}.

Section protocol.
Context {D : Type}.

Definition set_host (h : host D) (w : world D) : world D :=
  {| w_host := h; w_net := w_net w; w_proto := w_proto w; others := others w |}.
Definition set_net (n : net) (w : world D) : world D :=
  {| w_host := w_host w; w_net := n; w_proto := w_proto w; others := others w |}.
Definition set_proto (p : proto) (w : world D) : world D :=
  {| w_host := w_host w; w_net := w_net w; w_proto := p; others := others w |}.
Definition set_others (o : list (list transmit_call)) (w : world D) : world D :=
  {| w_host := w_host w; w_net := w_net w; w_proto := w_proto w; others := o |}.

Definition in_host {A} (m : M (host D) A) : M (world D) A := zoom w_host set_host m.
Definition in_net {A} (m : M net A) : M (world D) A := zoom w_net set_net m.
Definition getp {A} (f : proto → A) : M (world D) A := gets (λ w, f (w_proto w)).
Definition setp (f : proto → proto) : M (world D) unit := modify (λ w, set_proto (f (w_proto w)) w).

Definition tcp_read (size : Z) : M (world D) (bool * bytes) := in_net (tcpip_server_read size).
Definition tcp_write (buffer : bytes) (size : Z) : M (world D) bool := in_net (tcpip_server_write buffer size).

(** [memset] to zero of the rest of a char array of length [n] after a string. *)
Definition pad (n : nat) (s : bytes) : bytes := s ++ replicate (n - length s) 0.

(** ** Sending *)

Definition header_of (command seqnum devid direction ep : Z) : usbip_header_basic_t :=
  {| hb_command := SWAP32 command; hb_seqnum := SWAP32 seqnum; hb_devid := SWAP32 devid;
     hb_direction := SWAP32 direction; hb_ep := SWAP32 ep |}.

Definition transmit_ret_submit (seqnum urb_status actual_length : Z) (send_data : bool) : M (world D) bool :=
  let ret_header := header_of USBIP_RET_SUBMIT seqnum 0 0 0 in
  let* status := tcp_write (usbip_header_basic_mem ret_header) 20 in
  let* status :=
    if status then
      let ret_submit := {| rs_status := SWAP32 (u32 urb_status); rs_actual_length := SWAP32 actual_length;
        rs_start_frame := SWAP32 0; rs_number_of_packets := SWAP32 0xffffffff;
        rs_error_count := SWAP32 0; rs_padding := 0 |} in
      tcp_write (usbip_ret_submit_mem ret_submit) 28
    else ret false in
  if status && send_data && (0 <? actual_length) then
    let* buffer := getp tx_buffer in
    tcp_write buffer actual_length
  else ret status.

Definition transmit_response_head (response_code : Z) : M (world D) bool :=
  let rep_head := {| rep_version := SWAP16 USBIP_PROTOCOL_VERSION;
    rep_reply_code := SWAP16 response_code; rep_status := SWAP32 0 |} in
  tcp_write (op_rep_head_mem rep_head) 8.

Definition transmit_number_of_devices (num_devices : Z) : M (world D) bool :=
  tcp_write (le_bytes 4 (SWAP32 num_devices)) 4.

Definition transmit_device_id : M (world D) bool :=
  let device_id := {| id_path := pad 256 (cstring "sys/usb/virtual_device"%string);
    id_bus_id := pad 32 (cstring "1-1"%string); id_busnum := SWAP32 2; id_devnum := SWAP32 3;
    id_speed := SWAP32 USB_SPEED_HIGH |} in
  tcp_write (usbip_device_id_mem device_id) 300.

(** [SWAP16 ((uint16_t)((p[i + 1] << 8) | p[i]))] *)
Definition swapped_word (p : bytes) (i : Z) : cres Z :=
  let? hi := arr_get p (i + 1) in
  let? lo := arr_get p i in
  Val (SWAP16 (u16 (word16 lo hi))).

Definition transmit_device (usb_device : usbip_device_t D) : M (world D) bool :=
  let* idVendor := liftC (swapped_word (device_desc usb_device) 8) in
  let* idProduct := liftC (swapped_word (device_desc usb_device) 10) in
  let* bcdDevice := liftC (swapped_word (device_desc usb_device) 12) in
  let* bDeviceClass := liftC (arr_get (device_desc usb_device) 4) in
  let* bDeviceSubClass := liftC (arr_get (device_desc usb_device) 5) in
  let* bDeviceProtocol := liftC (arr_get (device_desc usb_device) 6) in
  let* bConfigurationValue := liftC (arr_get (config_desc usb_device) 5) in
  let* bNumConfigurations := liftC (arr_get (device_desc usb_device) 17) in
  let* bNumInterfaces := liftC (arr_get (config_desc usb_device) 4) in
  let device := {| dd_idVendor := idVendor; dd_idProduct := idProduct; dd_bcdDevice := bcdDevice;
    dd_bDeviceClass := bDeviceClass; dd_bDeviceSubClass := bDeviceSubClass;
    dd_bDeviceProtocol := bDeviceProtocol; dd_bConfigurationValue := bConfigurationValue;
    dd_bNumConfigurations := bNumConfigurations; dd_bNumInterfaces := bNumInterfaces |} in
  tcp_write (usbip_device_descriptor_mem device) 12.

(** The loop over the interfaces, [n] of them left. *)
Fixpoint transmit_interfaces (n : nat) (config : bytes) (iface_idx : Z) (status : bool) : M (world D) bool :=
  match n with
  | O => ret status
  | S n =>
      let* iface_idx := liftC (get_next_interface_idx config iface_idx) in
      let* bInterfaceClass := liftC (arr_get config (iface_idx + 5)) in
      let* bInterfaceSubClass := liftC (arr_get config (iface_idx + 6)) in
      let* bInterfaceProtocol := liftC (arr_get config (iface_idx + 7)) in
      let interface := {| if_bInterfaceClass := bInterfaceClass; if_bInterfaceSubClass := bInterfaceSubClass;
        if_bInterfaceProtocol := bInterfaceProtocol; if_padding := 0 |} in
      let* status := (if status then tcp_write (usbip_interface_descriptor_mem interface) 4 else ret false) in
      if negb status then ret status (* early exit for connection problems *)
      else transmit_interfaces n config iface_idx status
  end.

Definition transmit_devlist_response (usb_device : usbip_device_t D) : M (world D) bool :=
  let* status := transmit_response_head OP_REP_DEVLIST in
  let* status := (if status then transmit_number_of_devices 1 else ret false) in
  let* status := (if status then transmit_device_id else ret false) in
  let* status := (if status then transmit_device usb_device else ret false) in
  let* num_interfaces := liftC (arr_get (config_desc usb_device) 4) in
  transmit_interfaces (Z.to_nat num_interfaces) (config_desc usb_device) 0 status.

Definition transmit_import_response (usb_device : usbip_device_t D) : M (world D) bool :=
  let* status := transmit_response_head OP_REP_IMPORT in
  let* status := (if status then transmit_device_id else ret false) in
  if status then transmit_device usb_device else ret false.

(** ** Pending transfers *)

Definition now_us : M (world D) Z :=
  let* now := in_host (in_clk clock_gettime) in
  ret (u64 (u64 (u64 (tv_sec now) * 1000000) + u64 (tv_nsec now) / 1000)).

(** The value the next call of [now_us] returns. *)
Definition clock_us (c : clock) : Z :=
  let t := match readings c with [] => last_reading c | t :: _ => t end in
  u64 (u64 (u64 (tv_sec t) * 1000000) + u64 (tv_nsec t) / 1000).

(** [memmove] moves the urbs behind position [idx] down by one. *)
Definition remove_pending_urb (idx : Z) : M (world D) unit :=
  let* p := getp (λ p, p) in
  let num := num_pending_urbs p - 1 in
  let* urbs := liftC (memcpy (pending_urbs p) idx (pending_urbs p) (idx + 1) (num - idx)) in
  setp (set_pending urbs num).

(** [pending_urbs[num_pending_urbs++] = urb] *)
Definition append_pending_urb (urb : pending_urb_t) : M (world D) unit :=
  let* p := getp (λ p, p) in
  let* urbs := liftC (arr_set (pending_urbs p) (num_pending_urbs p) urb) in
  setp (set_pending urbs (num_pending_urbs p + 1)).

Fixpoint has_pending_iso_loop (n : nat) (urbs : list pending_urb_t) (idx ep direction : Z) : cres bool :=
  match n with
  | O => Val false
  | S n =>
      let? urb := arr_get urbs idx in
      if urb_isochronous urb && (urb_ep urb =? ep) && (urb_direction urb =? direction) then Val true
      else has_pending_iso_loop n urbs (idx + 1) ep direction
  end.
Definition has_pending_iso_urbs (ep direction : Z) : M (world D) bool :=
  let* p := getp (λ p, p) in
  liftC (has_pending_iso_loop (Z.to_nat (num_pending_urbs p)) (pending_urbs p) 0 ep direction).

(** [&endpoints[(direction != 0) ? 1 : 0][ep & USB_ENDPOINT_NUMBER_MASK]] *)
Definition endpoint_dir (direction : Z) : Z := if negb (direction =? 0) then 1 else 0.
Definition get_endpoint (dir ep : Z) : M (world D) endpoint_t :=
  let* t := getp endpoints in
  liftC (table_get t dir (Z.land ep USB_ENDPOINT_NUMBER_MASK)).
Definition put_endpoint (dir ep : Z) (e : endpoint_t) : M (world D) unit :=
  let* t := getp endpoints in
  let* t' := liftC (table_set t dir (Z.land ep USB_ENDPOINT_NUMBER_MASK) e) in
  setp (set_endpoints t').

(** ** Isochronous replies *)

(** The loop over the packets from position [idx], [n] of them left: the total length
    and the descriptors filled in. *)
Fixpoint fill_iso_packets (usb_device : usbip_device_t D) (urb : pending_urb_t) (n : nat) (idx total_length : Z) :
    M (world D) (Z * list usbip_iso_packet_descriptor_t) :=
  match n with
  | O => ret (total_length, [])
  | S n =>
      let* packet := liftC (arr_get (urb_packets urb) idx) in
      let* actual_length :=
        if negb (urb_direction urb =? 0) then
          let space := u64 (urb_transfer_buffer_length urb - total_length) in
          let max_length := if pk_length packet <? space then pk_length packet else space in
          let* tx := getp tx_buffer in
          let* window := liftC (mem_read tx total_length (blen tx - total_length)) in
          let* '(actual_length, window') := in_host (usbip_device_iso_in usb_device (u8 (urb_ep urb)) window max_length) in
          let* tx' := liftC (mem_write tx total_length window') in
          setp (set_tx_buffer tx');;
          ret actual_length
        else ret (pk_length packet) in
      let total_length := total_length + actual_length in
      let descriptor := {| ip_offset := SWAP32 (pk_offset packet); ip_length := SWAP32 (pk_length packet);
        ip_actual_length := SWAP32 (u32 actual_length); ip_status := SWAP32 0 |} in
      let* '(total, descriptors) := fill_iso_packets usb_device urb n (idx + 1) total_length in
      ret (total, descriptor :: descriptors)
  end.

Definition transmit_iso_ret_submit (usb_device : usbip_device_t D) (urb : pending_urb_t) : M (world D) bool :=
  let* '(total_length, descriptors) := fill_iso_packets usb_device urb (Z.to_nat (urb_number_of_packets urb)) 0 0 in
  let ret_header := {| hb_command := SWAP32 USBIP_RET_SUBMIT; hb_seqnum := SWAP32 (urb_seqnum urb);
    hb_devid := 0; hb_direction := 0; hb_ep := 0 |} in
  let* status := tcp_write (usbip_header_basic_mem ret_header) 20 in
  let* status :=
    if status then
      let ret_submit := {| rs_status := SWAP32 0; rs_actual_length := SWAP32 (u32 total_length);
        rs_start_frame := SWAP32 (urb_start_frame urb);
        rs_number_of_packets := SWAP32 (urb_number_of_packets urb);
        rs_error_count := SWAP32 0; rs_padding := 0 |} in
      tcp_write (usbip_ret_submit_mem ret_submit) 28
    else ret false in
  let* status :=
    if status && negb (urb_direction urb =? 0) && (0 <? total_length) then
      let* buffer := getp tx_buffer in
      tcp_write buffer total_length
    else ret status in
  if status && (0 <? urb_number_of_packets urb) then
    tcp_write (concat (usbip_iso_packet_descriptor_mem <$> descriptors)) (urb_number_of_packets urb * 16)
  else ret status.

(** ** Commands *)

(** Reading the packet descriptors into [urb.packets]; [None] for a packet outside the
    transfer buffer. *)
Fixpoint load_iso_packets (n : nat) (descriptors : bytes) (idx transfer_buffer_length : Z)
    (packets : list iso_packet_t) : cres (bool * list iso_packet_t) :=
  match n with
  | O => Val (true, packets)
  | S n =>
      let? mem := mem_read descriptors (idx * 16) 16 in
      let d := usbip_iso_packet_descriptor_of_mem mem in
      let packet := {| pk_offset := SWAP32 (ip_offset d); pk_length := SWAP32 (ip_length d) |} in
      let? packets := arr_set packets idx packet in
      if transfer_buffer_length <? u64 (pk_offset packet + pk_length packet) then Val (false, packets)
      else load_iso_packets n descriptors (idx + 1) transfer_buffer_length packets
  end.

(** [usbip_device_receive] for each packet with data. *)
Fixpoint receive_iso_packets (usb_device : usbip_device_t D) (n : nat) (idx ep : Z) (packets : list iso_packet_t) :
    M (world D) unit :=
  match n with
  | O => ret tt
  | S n =>
      let* packet := liftC (arr_get packets idx) in
      (if (0 <? pk_length packet) && bool_decide (is_Some (ep_data_callback usb_device)) then
         let* rx := getp rx_buffer in
         let* data := liftC (mem_read rx (pk_offset packet) (blen rx - pk_offset packet)) in
         in_host (usbip_device_receive usb_device (u8 ep) data (pk_length packet))
       else ret tt);;
      receive_iso_packets usb_device n (idx + 1) ep packets
  end.

Definition with_complete (t : Z) (u : pending_urb_t) : pending_urb_t :=
  {| urb_seqnum := urb_seqnum u; urb_ep := urb_ep u; urb_direction := urb_direction u;
     urb_transfer_buffer_length := urb_transfer_buffer_length u; urb_isochronous := urb_isochronous u;
     urb_start_frame := urb_start_frame u; urb_number_of_packets := urb_number_of_packets u;
     urb_complete_us := t; urb_packets := urb_packets u |}.

(** The last part of [process_iso_submit]: a transfer takes one service interval per packet
    and starts when the previous transfer on the endpoint ends. [urb] is the static one. *)
Definition queue_iso_urb (usb_device : usbip_device_t D) (urb : pending_urb_t) : M (world D) bool :=
  let* now := now_us in
  let* endpoint := get_endpoint (endpoint_dir (urb_direction urb)) (urb_ep urb) in
  let start := if now <? stream_end_us endpoint then stream_end_us endpoint else now in
  let complete := u64 (start + u64 (urb_number_of_packets urb * interval_us endpoint)) in
  let urb := with_complete complete urb in
  setp (set_static_urb urb);;
  put_endpoint (endpoint_dir (urb_direction urb)) (urb_ep urb) (set_stream_end complete endpoint);;
  let* num := getp num_pending_urbs in
  if num =? MAX_PENDING_URBS then transmit_iso_ret_submit usb_device urb
  else append_pending_urb urb;; ret true.

Definition process_iso_submit (usb_device : usbip_device_t D) (seqnum ep direction : Z)
    (cmd_submit : usbip_cmd_submit_t) : M (world D) bool :=
  let number_of_packets := SWAP32 (cs_number_of_packets cmd_submit) in
  if MAX_ISO_PACKETS <? number_of_packets then ret false else
  let* '(status, descriptors) := tcp_read (number_of_packets * sizeof_iso_packet_descriptor) in
  if negb status then ret false else
  let* old := getp static_urb in
  let transfer_buffer_length := SWAP32 (cs_transfer_buffer_length cmd_submit) in
  let* '(inside, packets) := liftC (load_iso_packets (Z.to_nat number_of_packets) descriptors 0
                                      transfer_buffer_length (urb_packets old)) in
  let urb := {| urb_seqnum := seqnum; urb_ep := ep; urb_direction := direction;
    urb_transfer_buffer_length := transfer_buffer_length; urb_isochronous := true;
    urb_start_frame := SWAP32 (cs_start_frame cmd_submit); urb_number_of_packets := number_of_packets;
    urb_complete_us := urb_complete_us old; urb_packets := packets |} in
  setp (set_static_urb urb);;
  if negb inside then ret false else
  (if direction =? 0 then receive_iso_packets usb_device (Z.to_nat number_of_packets) 0 ep packets else ret tt);;
  queue_iso_urb usb_device urb.

Definition process_submit (usb_device : usbip_device_t D) (seqnum ep direction : Z) : M (world D) bool :=
  let* '(status, mem) := tcp_read sizeof_cmd_submit in
  let cmd_submit := usbip_cmd_submit_of_mem mem in
  let transfer_buffer_length := SWAP32 (cs_transfer_buffer_length cmd_submit) in
  let* endpoint := get_endpoint (endpoint_dir direction) ep in
  let status := status && negb (USBIP_MAX_PACKET_SIZE <? transfer_buffer_length) in
  let* status :=
    if status && (direction =? 0) then
      let* '(status, data) := tcp_read transfer_buffer_length in
      let* rx := getp rx_buffer in
      let* rx' := liftC (mem_write rx 0 data) in
      setp (set_rx_buffer rx');;
      ret status
    else ret status in
  if negb status then ret false else
  if negb (ep =? 0) && (ep_type endpoint =? USB_ENDPOINT_XFER_ISOC) then
    process_iso_submit usb_device seqnum ep direction cmd_submit
  else if ep =? 0 then
    let* rx := getp rx_buffer in
    let* supported := in_host (usbip_device_control usb_device (cs_setup cmd_submit) rx transfer_buffer_length) in
    let* '(supported, tx_length) :=
      if direction =? 1 then
        let* tx := getp tx_buffer in
        let* '(answered, tx_length, tx') :=
          in_host (in_lib (usbip_device_fetch_control_reply tx transfer_buffer_length)) in
        setp (set_tx_buffer tx');;
        ret (supported && negb ((0 <? transfer_buffer_length) && negb answered), tx_length)
      else ret (supported, 0) in
    if negb supported then transmit_ret_submit seqnum EP_STALL 0 false
    else if direction =? 0 then transmit_ret_submit seqnum 0 transfer_buffer_length false
    else transmit_ret_submit seqnum 0 tx_length true
  else if direction =? 0 then
    (if (0 <? transfer_buffer_length) && bool_decide (is_Some (ep_data_callback usb_device)) then
       let* rx := getp rx_buffer in
       in_host (usbip_device_receive usb_device (u8 ep) rx transfer_buffer_length)
     else ret tt);;
    transmit_ret_submit seqnum 0 transfer_buffer_length false
  else
    let* p := getp (λ p, p) in
    if num_pending_urbs p =? MAX_PENDING_URBS then transmit_ret_submit seqnum 0 0 true
    else
      let* old := liftC (arr_get (pending_urbs p) (num_pending_urbs p)) in
      append_pending_urb {| urb_seqnum := seqnum; urb_ep := ep; urb_direction := direction;
        urb_transfer_buffer_length := transfer_buffer_length; urb_isochronous := false;
        urb_start_frame := urb_start_frame old; urb_number_of_packets := urb_number_of_packets old;
        urb_complete_us := urb_complete_us old; urb_packets := urb_packets old |};;
      ret true.

(** The search loop of [process_unlink]: the status it ends with. *)
Fixpoint unlink_loop (n : nat) (idx unlink_seqnum : Z) : M (world D) Z :=
  match n with
  | O => ret 0
  | S n =>
      let* urbs := getp pending_urbs in
      let* urb := liftC (arr_get urbs idx) in
      if urb_seqnum urb =? unlink_seqnum then
        remove_pending_urb idx;;
        (if urb_isochronous urb then
           let* pending := has_pending_iso_urbs (urb_ep urb) (urb_direction urb) in
           if negb pending then
             let* e := get_endpoint (endpoint_dir (urb_direction urb)) (urb_ep urb) in
             put_endpoint (endpoint_dir (urb_direction urb)) (urb_ep urb) (set_stream_end 0 e)
           else ret tt
         else ret tt);;
        ret URB_UNLINKED
      else unlink_loop n (idx + 1) unlink_seqnum
  end.

Definition process_unlink (seqnum : Z) : M (world D) bool :=
  let* '(status, mem) := tcp_read sizeof_cmd_unlink in
  if negb status then ret false else
  let unlink_seqnum := SWAP32 (cu_unlink_seqnum (usbip_cmd_unlink_of_mem mem)) in
  let* num := getp num_pending_urbs in
  let* unlink_status := unlink_loop (Z.to_nat num) 0 unlink_seqnum in
  let* status := tcp_write (usbip_header_basic_mem (header_of USBIP_RET_UNLINK seqnum 0 0 0)) 20 in
  if status then
    tcp_write (usbip_ret_unlink_mem {| ru_status := SWAP32 (u32 unlink_status); ru_padding := replicate 24 0 |}) 28
  else ret false.

Definition process_imported_cmd (usb_device : usbip_device_t D) : M (world D) bool :=
  let* '(status, mem) := tcp_read sizeof_header_basic in
  if negb status then ret false else
  let cmd_header := usbip_header_basic_of_mem mem in
  let command := SWAP32 (hb_command cmd_header) in
  let seqnum := SWAP32 (hb_seqnum cmd_header) in
  if command =? USBIP_CMD_SUBMIT then
    process_submit usb_device seqnum (SWAP32 (hb_ep cmd_header)) (SWAP32 (hb_direction cmd_header))
  else if command =? USBIP_CMD_UNLINK then process_unlink seqnum
  else ret false.

(** The loop of [complete_pending_urbs]; every pass moves on or removes a transfer. *)
Fixpoint complete_loop (fuel : nat) (usb_device : usbip_device_t D) (now idx : Z) : M (world D) bool :=
  let* p := getp (λ p, p) in
  if idx <? num_pending_urbs p then
    match fuel with
    | O => fail Diverges
    | S fuel =>
        let* urb := liftC (arr_get (pending_urbs p) idx) in
        let* endpoint := get_endpoint 1 (urb_ep urb) in
        let due_us := if urb_isochronous urb then urb_complete_us urb else next_poll_us endpoint in
        if now <? due_us then
          (if due_us - now <? wait_timeout_us p then setp (set_wait_timeout (due_us - now)) else ret tt);;
          complete_loop fuel usb_device now (idx + 1)
        else if urb_isochronous urb then
          let* status := transmit_iso_ret_submit usb_device urb in
          remove_pending_urb idx;;
          if status then complete_loop fuel usb_device now idx else ret false
        else
          let* '(tx_length, tx') :=
            in_host (in_lib (usbip_device_fetch_ep_data (u8 (urb_ep urb)) (tx_buffer p) (urb_transfer_buffer_length urb))) in
          setp (set_tx_buffer tx');;
          if 0 <? tx_length then
            put_endpoint 1 (urb_ep urb) (set_next_poll (u64 (now + interval_us endpoint)) endpoint);;
            remove_pending_urb idx;;
            let* status := transmit_ret_submit (urb_seqnum urb) 0 tx_length true in
            if status then complete_loop fuel usb_device now idx else ret false
          else complete_loop fuel usb_device now (idx + 1)
    end
  else ret true.

Definition complete_pending_urbs (usb_device : usbip_device_t D) : M (world D) bool :=
  let* now := now_us in
  setp (set_wait_timeout WAIT_TIMEOUT_US);;
  let* num := getp num_pending_urbs in
  complete_loop (Z.to_nat num) usb_device now 0.

(** ** Entry points *)

(** What the other threads do while the server thread sleeps: calls that would wait
    for space are not finished then. *)
Fixpoint run_transmits (calls : list transmit_call) : M (world D) unit :=
  match calls with
  | [] => ret tt
  | c :: calls =>
      (λ w, match in_host (in_lib (usbip_device_transmit other_thread (tc_ep c) (tc_data c) (tc_length c))) w with
            | Ok _ w' => Ok tt w'
            | Idle w' => Ok tt w'
            | Fault f => Fault f
            end);;
      run_transmits calls
  end.
Definition sleep : M (world D) unit :=
  let* o := gets others in
  match o with
  | [] => ret tt
  | calls :: rest => modify (set_others rest);; run_transmits calls
  end.

Definition usbip_protocol_process_cmd (usb_device : usbip_device_t D) : M (world D) bool :=
  let* '(status, mem) := tcp_read sizeof_op_req_head in
  let req_head := op_req_head_of_mem mem in
  let status := status && (SWAP16 (req_version req_head) =? USBIP_PROTOCOL_VERSION) in
  let* status :=
    if status then
      let cmd := SWAP16 (req_command_code req_head) in
      if cmd =? OP_REQ_DEVLIST then transmit_devlist_response usb_device
      else if cmd =? OP_REQ_IMPORT then
        let* '(status, busid_str) := tcp_read 32 in
        if status then
          setp (set_num_pending 0);;
          setp (set_wait_timeout WAIT_TIMEOUT_US);;
          let* t := liftC (load_endpoints (config_desc usb_device)) in
          setp (set_endpoints t);;
          in_host (usbip_device_reset usb_device);;
          let* imported := transmit_import_response usb_device in
          setp (set_device_imported imported);;
          ret true
        else ret false
      else ret false
    else ret false in
  let* imported := getp device_imported in
  ret (negb (status && imported)).

Definition usbip_protocol_process_imported_device (usb_device : usbip_device_t D) : M (world D) bool :=
  let* fd := in_host (in_lib usbip_device_get_event_fd) in
  let* timeout := getp wait_timeout_us in
  sleep;;
  let* ready := in_net (tcpip_server_wait_for_data fd timeout) in
  let* status := (if ready then process_imported_cmd usb_device else ret true) in
  in_host (in_lib usbip_device_clear_event);;
  let* status := (if status then complete_pending_urbs usb_device else ret false) in
  (if negb status then
     setp (set_device_imported false);;
     setp (set_num_pending 0);;
     in_host (usbip_device_reset usb_device)
   else ret tt);;
  ret (negb status).

Definition usbip_protocol_is_device_imported : M (world D) bool := getp device_imported.

End protocol.

(** ** Replies as the protocol documentation writes them *)

Definition rep_head_wire (code : Z) : bytes := be_bytes 2 USBIP_PROTOCOL_VERSION ++ be_bytes 2 code ++ be_bytes 4 0.

(** Path, bus id, bus number 2, device number 3, high speed. *)
Definition device_id_wire : bytes :=
  pad 256 (cstring "sys/usb/virtual_device"%string) ++ pad 32 (cstring "1-1"%string)
  ++ be_bytes 4 2 ++ be_bytes 4 3 ++ be_bytes 4 3.

(** The fields of the device and configuration descriptors, the 16 bit fields swapped
    from their little endian order in the descriptor to network order. *)
Definition device_wire {D} (d : usbip_device_t D) : bytes :=
  let dd i := default 0 (device_desc d !! i) in
  let cd i := default 0 (config_desc d !! i) in
  [dd 9%nat; dd 8%nat; dd 11%nat; dd 10%nat; dd 13%nat; dd 12%nat; dd 4%nat; dd 5%nat; dd 6%nat;
   cd 5%nat; dd 17%nat; cd 4%nat].

(** Class, subclass and protocol of an interface descriptor. *)
Definition interface_wire (i : bytes) : bytes :=
  [default 0 (i !! 5%nat); default 0 (i !! 6%nat); default 0 (i !! 7%nat); 0].

Definition import_wire {D} (d : usbip_device_t D) : bytes :=
  rep_head_wire OP_REP_IMPORT ++ device_id_wire ++ device_wire d.

(** One device with the interfaces [listed]. *)
Definition devlist_wire {D} (d : usbip_device_t D) (listed : list bytes) : bytes :=
  rep_head_wire OP_REP_DEVLIST ++ be_bytes 4 1 ++ device_id_wire ++ device_wire d ++ concat (interface_wire <$> listed).

(** The interface descriptor of interface [k]: an alternate setting is not an interface of
    its own, the interface is described by its setting 0. *)
Definition interface_of (ds : list bytes) (k : nat) : bytes :=
  default [] (head (filter (λ i, i !! 2%nat = Some (Z.of_nat k) ∧ i !! 3%nat = Some 0) (interfaces_of ds))).

(** All the interfaces that the configuration announces. *)
Definition announced_interfaces (ds : list bytes) : list bytes :=
  interface_of ds <$> seq 0 (Z.to_nat (num_interfaces (concat ds))).

(** The interfaces are described in the order of their numbers, and a further alternate
    setting comes only after the last interface. *)
Definition interfaces_first (ds : list bytes) : Prop :=
  ∀ k, (k < Z.to_nat (num_interfaces (concat ds)))%nat →
    ∃ i, interfaces_of ds !! k = Some i ∧ i !! 2%nat = Some (Z.of_nat k) ∧ i !! 3%nat = Some 0.

(** The same as a check. *)
Definition interfaces_firstb (ds : list bytes) : bool :=
  forallb (λ k, match interfaces_of ds !! k with
                | Some i => bool_decide (i !! 2%nat = Some (Z.of_nat k)) && bool_decide (i !! 3%nat = Some 0)
                | None => false
                end) (seq 0 (Z.to_nat (num_interfaces (concat ds)))).

(** * Theorems *)

Lemma interfaces_firstb_sound ds : interfaces_firstb ds = true → interfaces_first ds.
Proof.
  unfold interfaces_firstb. rewrite forallb_forall. intros H k Hk. specialize (H k). rewrite <-list_elem_of_In in H.
  specialize (H ltac:(apply elem_of_seq; lia)). destruct (interfaces_of ds !! k) as [i|]; [|done].
  apply andb_true_iff in H as [H2%bool_decide_eq_true_1 H3%bool_decide_eq_true_1]. eauto.
Qed.

(** ** Sequences of writes

    [emits m bs w]: run in [w], the computation sends the bytes [bs] and changes
    nothing but the connection; if the connection fails it has sent a prefix and
    returns false. *)
Definition emits {D} (m : M (world D) bool) (bs : bytes) (w : world D) : Prop :=
  ∃ k n', m w = Ok (bool_decide (k = length bs)) (set_net n' w) ∧ (k ≤ length bs)%nat
    ∧ same_but_tx (w_net w) n' ∧ sent n' = sent (w_net w) ++ take k bs
    ∧ (connected (w_net w) → k = length bs ∧ connected n').

(** Such a configuration has its interfaces at the front. *)
Lemma take_interfaces ds :
  interfaces_first ds → take (Z.to_nat (num_interfaces (concat ds))) (interfaces_of ds) = announced_interfaces ds.
Proof.
  unfold interfaces_first, announced_interfaces. set (n := Z.to_nat _). intros H. apply list_eq. intros k.
  destruct (decide (k < n)%nat) as [Hk|Hk].
  2: { rewrite lookup_take_ge, list_lookup_fmap, (proj2 (lookup_ge_None (seq 0 n) k)) by (rewrite ?length_seq; lia). done. }
  destruct (H k Hk) as (i & Hi & Hi2 & Hi3). rewrite lookup_take_lt, Hi, list_lookup_fmap, lookup_seq_lt by done.
  cbn [fmap option_fmap option_map]. f_equal. unfold interface_of. rewrite Nat.add_0_l.
  rewrite <-(take_drop_middle _ _ _ Hi), filter_app, filter_cons_True by done.
  assert (filter (λ i, i !! 2%nat = Some (Z.of_nat k) ∧ i !! 3%nat = Some 0) (take k (interfaces_of ds)) = []) as ->; [|done].
  apply filter_none. rewrite Forall_lookup. intros j x Hx [Hx2 _].
  apply lookup_take_Some in Hx as [Hx Hj]. destruct (H j) as (i' & Hi' & Hi2' & _); [lia|]. simplify_eq. lia.
Qed.

(** With an alternate setting before the last interface the first descriptors are not the
    interfaces: here interface 0 is listed twice and interface 1 not at all. *)
Definition settings_between : list bytes :=
  [[9; 2; 36; 0; 2; 1; 0; 192; 50]; [9; 4; 0; 0; 0; 1; 2; 0; 0]; [9; 4; 0; 1; 0; 1; 2; 0; 0]; [9; 4; 1; 0; 0; 3; 0; 0; 0]].

Lemma alternate_setting_is_listed_as_interface :
  wf_config settings_between
  ∧ interface_wire <$> take 2 (interfaces_of settings_between) = [[1; 2; 0; 0]; [1; 2; 0; 0]]
  ∧ interface_wire <$> announced_interfaces settings_between = [[1; 2; 0; 0]; [3; 0; 0; 0]].
Proof. split; [apply wf_config_check|split]; vm_compute; reflexivity. Qed.

(** What a sequence of writes of [bs] has sent when it reports [status]: all of it, or
    only a part. *)
Definition sent_part (status : bool) (bs before after : bytes) : Prop :=
  if status then after = before ++ bs else ∃ k, (k < length bs)%nat ∧ after = before ++ take k bs.

Section emits.
Context {D : Type}.
Implicit Types (w : world D).

Lemma set_net_id w : set_net (w_net w) w = w.
Proof. by destruct w. Qed.

Lemma emits_ret w : emits (ret true) [] w.
Proof. exists 0%nat, (w_net w). by rewrite set_net_id, app_nil_r. Qed.

Lemma emits_write buffer size w :
  0 ≤ size ≤ blen buffer → emits (tcp_write buffer size) (take (Z.to_nat size) buffer) w.
Proof.
  intros Hsize. destruct (tcpip_server_write_spec buffer size (w_net w) Hsize) as (k & n' & Hr & Hs & Hk & Hsent & Hc).
  assert (length (take (Z.to_nat size) buffer) = Z.to_nat size) as Hl by (rewrite length_take; unfold blen in *; lia).
  exists (Z.to_nat k), n'. rewrite Hl. unfold tcp_write, in_net, zoom. rewrite Hr.
  split; [f_equal; apply bool_decide_ext; lia|]. split; [lia|]. split; [done|]. split.
  - rewrite Hsent, take_take. f_equal. f_equal. lia.
  - intros H. apply Hc in H as [-> ?]. done.
Qed.

(** Writing a whole image. *)
Lemma emits_image bs size w : blen bs = size → emits (tcp_write bs size) bs w.
Proof.
  intros <-. pose proof (emits_write bs (blen bs) w) as H. rewrite take_ge in H by (unfold blen; lia).
  apply H. pose proof (blen_nonneg bs). lia.
Qed.

(** [status = a; if (status) status = b] *)
Lemma emits_seq (m : M (world D) bool) (k : bool → M (world D) bool) b1 b2 w :
  emits m b1 w → (∀ n1, emits (k true) b2 (set_net n1 w)) → (∀ v, k false v = Ok false v) →
  emits (bind m k) (b1 ++ b2) w.
Proof.
  intros (k1 & n1 & Hm & Hk1 & Hs1 & Hsent1 & Hc1) H2 Hf. unfold bind. unfold emits. rewrite Hm.
  case_bool_decide as Hall.
  - destruct (H2 n1) as (k2 & n2 & Hm2 & Hk2 & Hs2 & Hsent2 & Hc2).
    exists (k1 + k2)%nat, n2. rewrite Hm2, length_app. subst k1. split.
    { f_equal. apply bool_decide_ext. lia. }
    split; [lia|]. split; [by etrans|]. simpl in Hsent2, Hc2. split.
    + rewrite Hsent2, Hsent1, take_app_add, (take_ge b1), <-app_assoc by lia. done.
    + intros [_ Hc]%Hc1. apply Hc2 in Hc as [-> ?]. done.
  - exists k1, n1. rewrite Hf. rewrite length_app. split.
    { f_equal. rewrite bool_decide_false by lia. done. }
    split; [lia|]. split; [done|]. split.
    + rewrite Hsent1, take_app_le by lia. done.
    + intros [? _]%Hc1. done.
Qed.

Lemma emits_ext m m' bs w : m w = m' w → emits m bs w → emits m' bs w.
Proof. unfold emits. intros ->. done. Qed.

Lemma emits_liftC {A} (c : cres A) (k : A → M (world D) bool) a bs w :
  c = Val a → emits (k a) bs w → emits (bind (liftC c) k) bs w.
Proof. intros -> H. exact H. Qed.

Lemma emits_part_wp m bs w (Q : bool → world D → Prop) E :
  emits m bs w →
  (∀ status n', same_but_tx (w_net w) n' →
     (connected (w_net w) → status = true ∧ connected n') → sent_part status bs (sent (w_net w)) (sent n') →
     Q status (set_net n' w)) → wp m Q E w.
Proof.
  intros (k & n' & Hm & Hk & Hs & Hsent & Hc) HQ. unfold wp. rewrite Hm. apply HQ; [done| |].
  - intros [-> ?]%Hc. by rewrite bool_decide_true.
  - unfold sent_part. case_bool_decide as Hall; [by rewrite Hsent, Hall, take_ge|]. exists k. split; [lia|done].
Qed.

Lemma emits_wp m bs w (Q : bool → world D → Prop) E :
  emits m bs w →
  (∀ status n', same_but_tx (w_net w) n' →
     (connected (w_net w) → status = true ∧ connected n') →
     (status = true → sent n' = sent (w_net w) ++ bs) →
     Q status (set_net n' w)) → wp m Q E w.
Proof. intros Hm HQ. eapply emits_part_wp; [done|]. intros status n' Hs Hc Hp. apply HQ; [done..|]. by intros ->. Qed.

(** ** The messages *)

(** Every reply of [transmit_ret_submit] is the RET_SUBMIT message of the protocol
    documentation, followed by the data. *)
Lemma transmit_ret_submit_emits seqnum status len (send : bool) w :
  0 ≤ len ∧ (len ≤ blen (tx_buffer (w_proto w)) ∨ send = false) →
  emits (transmit_ret_submit seqnum status len send)
    (ret_submit_wire seqnum (u32 status) len 0 0xffffffff
     ++ if send then take (Z.to_nat len) (tx_buffer (w_proto w)) else []) w.
Proof.
  intros [H0 Hlen]. unfold transmit_ret_submit. rewrite ret_submit_wire_split, <-!app_assoc.
  apply emits_seq; [|intros n1|done].
  { unfold header_of. rewrite header_image. apply emits_image, blen_header_wire. }
  apply emits_seq; [|intros n2|done].
  { rewrite ret_submit_image. apply emits_image, blen_ret_submit_body. }
  cbn [andb]. destruct send; cbn [andb]; [|apply emits_ret].
  destruct (Z.ltb_spec 0 len).
  - apply (emits_write (tx_buffer (w_proto w))). destruct Hlen; [lia|done].
  - replace (Z.to_nat len) with 0%nat by lia. apply emits_ret.
Qed.

Lemma transmit_response_head_emits code w : emits (transmit_response_head code) (rep_head_wire code) w.
Proof.
  unfold transmit_response_head, op_rep_head_mem. cbn [rep_version rep_reply_code rep_status].
  autorewrite with wire. apply emits_image. unfold rep_head_wire. by rewrite !blen_app, !blen_be_bytes by lia.
Qed.

Lemma transmit_number_of_devices_emits n w : emits (transmit_number_of_devices n) (be_bytes 4 n) w.
Proof. unfold transmit_number_of_devices. autorewrite with wire. apply emits_image. by apply blen_be_bytes. Qed.

Lemma transmit_device_id_emits w : emits transmit_device_id device_id_wire w.
Proof.
  unfold transmit_device_id, usbip_device_id_mem. cbn [id_path id_bus_id id_busnum id_devnum id_speed].
  autorewrite with wire. apply emits_image. unfold device_id_wire. rewrite !blen_app, !blen_be_bytes by lia. done.
Qed.

Lemma byte_mod b : is_byte b → b mod 256 = b.
Proof. intros. by apply Z.mod_small. Qed.

Lemma le_bytes_1 b : is_byte b → le_bytes 1 b = [b].
Proof.
  intros Hb. unfold le_bytes. change 1 with (Z.succ 0). rewrite Z_to_little_endian_succ by lia.
  change (Z_to_little_endian 0 8 (b ≫ 8)) with (@nil Z). rewrite Z.land_ones by lia. change (2 ^ 8) with 256. by rewrite byte_mod.
Qed.

Lemma be_bytes_word lo hi : is_byte lo → is_byte hi → be_bytes 2 (u16 (word16 lo hi)) = [hi; lo].
Proof.
  intros Hlo Hhi. unfold u16. rewrite word16_add by done. unfold is_byte in *. rewrite Z.mod_small by lia.
  unfold be_bytes, le_bytes. change 2 with (Z.succ (Z.succ 0)). rewrite !Z_to_little_endian_succ by lia.
  change (Z_to_little_endian 0 8 _) with (@nil Z). rewrite !Z.land_ones, Z.shiftr_div_pow2 by lia. change (2 ^ 8) with 256.
  rewrite (Z.mul_comm 256), Z_mod_plus_full, Z.div_add, (Z.div_small lo), (Z.mod_small lo), Z.add_0_l, Z.mod_small by lia.
  done.
Qed.

Lemma swapped_word_Val p i lo hi :
  is_byte lo → is_byte hi → 0 ≤ i → p !! Z.to_nat i = Some lo → p !! Z.to_nat (i + 1) = Some hi →
  ∃ v, swapped_word p i = Val v ∧ le_bytes 2 v = [hi; lo].
Proof.
  intros Hlo Hhi Hi H1 H2. unfold swapped_word. rewrite (proj2 (arr_get_Val p (i + 1) hi)) by (split; [lia|done]).
  rewrite (proj2 (arr_get_Val p i lo)) by done. eexists. split; [reflexivity|].
  rewrite le_bytes_SWAP16. by apply be_bytes_word.
Qed.

Section sound.
Context (I : D → Prop) (d : usbip_device_t D) `{!DeviceSound I d}.

Lemma dd_lookup (i : nat) : (i < 18)%nat → ∃ b, device_desc d !! i = Some b ∧ is_byte b.
Proof using All.
  intros Hi. destruct sound_device_desc as [(_ & _ & Hb) Hl].
  destruct (lookup_lt_is_Some_2 (device_desc d) i) as [b Hx]; [unfold blen in Hl; lia|].
  exists b. split; [done|]. by eapply Forall_lookup_1.
Qed.

Lemma cd_lookup (i : nat) : (i < 9)%nat → ∃ b, config_desc d !! i = Some b ∧ is_byte b.
Proof using All.
  intros Hi. destruct (sound_total I d) as (ds & _ & _ & _ & H9 & Hb).
  destruct (lookup_lt_is_Some_2 (config_desc d) i) as [b Hx]; [unfold blen in H9; lia|].
  exists b. split; [done|]. by eapply Forall_lookup_1.
Qed.

Lemma transmit_device_emits w : emits (transmit_device d) (device_wire d) w.
Proof using All.
  unfold transmit_device, device_wire.
  destruct (dd_lookup 4) as (b4 & E4 & B4), (dd_lookup 5) as (b5 & E5 & B5), (dd_lookup 6) as (b6 & E6 & B6),
    (dd_lookup 8) as (b8 & E8 & B8), (dd_lookup 9) as (b9 & E9 & B9), (dd_lookup 10) as (b10 & E10 & B10),
    (dd_lookup 11) as (b11 & E11 & B11), (dd_lookup 12) as (b12 & E12 & B12), (dd_lookup 13) as (b13 & E13 & B13),
    (dd_lookup 17) as (b17 & E17 & B17), (cd_lookup 4) as (c4 & F4 & G4), (cd_lookup 5) as (c5 & F5 & G5); [lia..|].
  destruct (swapped_word_Val (device_desc d) 8 b8 b9) as (v1 & Hv1 & Hi1); [done|done|lia|done|done|].
  destruct (swapped_word_Val (device_desc d) 10 b10 b11) as (v2 & Hv2 & Hi2); [done|done|lia|done|done|].
  destruct (swapped_word_Val (device_desc d) 12 b12 b13) as (v3 & Hv3 & Hi3); [done|done|lia|done|done|].
  rewrite E4, E5, E6, E8, E9, E10, E11, E12, E13, E17, F4, F5. cbn [default from_option].
  apply (emits_liftC _ _ v1); [done|]. apply (emits_liftC _ _ v2); [done|]. apply (emits_liftC _ _ v3); [done|].
  apply (emits_liftC _ _ b4); [by apply arr_get_Val|]. apply (emits_liftC _ _ b5); [by apply arr_get_Val|].
  apply (emits_liftC _ _ b6); [by apply arr_get_Val|]. apply (emits_liftC _ _ c5); [by apply arr_get_Val|].
  apply (emits_liftC _ _ b17); [by apply arr_get_Val|]. apply (emits_liftC _ _ c4); [by apply arr_get_Val|].
  unfold usbip_device_descriptor_mem. cbn [dd_idVendor dd_idProduct dd_bcdDevice dd_bDeviceClass dd_bDeviceSubClass
    dd_bDeviceProtocol dd_bConfigurationValue dd_bNumConfigurations dd_bNumInterfaces].
  rewrite Hi1, Hi2, Hi3, !le_bytes_1 by done. by apply emits_image.
Qed.

Lemma transmit_import_response_emits w : emits (transmit_import_response d) (import_wire d) w.
Proof using All.
  unfold transmit_import_response, import_wire. apply emits_seq; [apply transmit_response_head_emits|intros n1|done].
  apply emits_seq; [apply transmit_device_id_emits|intros n2|done]. apply transmit_device_emits.
Qed.

Lemma interface_fields ds i before after :
  Forall wf_desc ds → Forall wf_interface ds → i ∈ ds → desc_type i = USB_DESCRIPTOR_TYPE_INTERFACE →
  concat ds = before ++ i ++ after →
  ∃ c s p, interface_wire i = [c; s; p; 0] ∧ is_byte c ∧ is_byte s ∧ is_byte p
    ∧ arr_get (concat ds) (blen before + 5) = Val c ∧ arr_get (concat ds) (blen before + 6) = Val s
    ∧ arr_get (concat ds) (blen before + 7) = Val p.
Proof using.
  intros Hd Hi Hin Hty Heq. rewrite Forall_forall in Hi, Hd. specialize (Hi _ Hin Hty).
  destruct (Hd _ Hin) as (_ & _ & Hb). unfold interface_wire.
  destruct (lookup_lt_is_Some_2 i 5) as [c Hc]; [unfold blen in Hi; lia|].
  destruct (lookup_lt_is_Some_2 i 6) as [s Hs]; [unfold blen in Hi; lia|].
  destruct (lookup_lt_is_Some_2 i 7) as [p Hp]; [unfold blen in Hi; lia|].
  exists c, s, p. rewrite Hc, Hs, Hp, Heq, !arr_get_window by lia.
  split; [done|]. split; [by eapply (Forall_lookup_1 is_byte i)|]. split; [by eapply (Forall_lookup_1 is_byte i)|].
  split; [by eapply (Forall_lookup_1 is_byte i)|]. by split_and!; apply arr_get_Val.
Qed.

(** From a descriptor of the configuration on, with enough interfaces behind it. *)
Lemma transmit_interfaces_emits n ds pre c l w :
  ds = pre ++ c :: l → Forall wf_desc ds → Forall wf_interface ds →
  total_length_of (concat ds) = Val (blen (concat ds)) → (n ≤ length (interfaces_of l))%nat →
  emits (transmit_interfaces n (concat ds) (blen (concat pre)) true)
    (concat (interface_wire <$> take n (interfaces_of l))) w
  ∧ ∀ v : world D, transmit_interfaces n (concat ds) (blen (concat pre)) false v = Ok false v.
Proof using.
  revert pre c l w. induction n as [|n IH]; intros pre c l w Heq Hds Hif Htot Hn; cbn [transmit_interfaces].
  { rewrite take_0. split; [apply emits_ret|done]. }
  destruct (first_interface l n Hn) as (mid & i & post & -> & Hm & Hi & Hf). rewrite Hf in *.
  assert (get_next_interface_idx (concat ds) (blen (concat pre)) = Val (blen (concat (pre ++ c :: mid)))) as Hnext.
  { rewrite Heq in *. by apply get_next_interface_idx_spec. }
  assert (ds = (pre ++ c :: mid) ++ i :: post) as Heq' by (rewrite Heq; by rewrite <-app_assoc).
  destruct (interface_fields ds i (concat (pre ++ c :: mid)) (concat post)) as (b5 & b6 & b7 & Hw & B5 & B6 & B7 & E5 & E6 & E7);
    [done|done|rewrite Heq'; apply elem_of_app; right; apply list_elem_of_here|done|by rewrite Heq', concat_app|].
  destruct (IH (pre ++ c :: mid) i post w) as [_ Hfalse]; [done..|simpl in Hn; lia|]. split.
  - apply (emits_liftC _ _ _ _ _ Hnext). apply (emits_liftC _ _ _ _ _ E5). apply (emits_liftC _ _ _ _ _ E6).
    apply (emits_liftC _ _ _ _ _ E7). cbn [take fmap list_fmap concat]. rewrite Hw. apply emits_seq; [|intros n1|done].
    + unfold usbip_interface_descriptor_mem. cbn [if_bInterfaceClass if_bInterfaceSubClass if_bInterfaceProtocol if_padding].
      rewrite !le_bytes_1 by (done || by unfold is_byte). by apply emits_image.
    + by apply (IH (pre ++ c :: mid) i post); [..|simpl in Hn; lia].
  - intros v. unfold bind, liftC. by rewrite Hnext, E5, E6, E7.
Qed.

Lemma transmit_devlist_response_emits w :
  ∃ ds, config_desc d = concat ds ∧ wf_config ds
    ∧ emits (transmit_devlist_response d) (devlist_wire d (take (Z.to_nat (num_interfaces (concat ds))) (interfaces_of ds))) w.
Proof using All.
  destruct sound_config_desc as (ds & Heq & Hwf & Hnum). exists ds. split; [done|]. split; [done|].
  destruct (cd_lookup 4) as (c4 & F4 & _); [lia|].
  rewrite <-Heq. unfold num_interfaces in *. rewrite F4 in *. simpl in Hnum.
  unfold transmit_devlist_response, devlist_wire. cbn [default from_option].
  destruct Hwf as [Hd _ Hi (c & rest & -> & Hc & _) Htot].
  assert (interfaces_of (c :: rest) = interfaces_of rest) as Hrest.
  { unfold interfaces_of. rewrite filter_cons_False; [done|]. by rewrite Hc. }
  unfold interface_count in Hnum. fold (interfaces_of (c :: rest)) in Hnum. rewrite Hrest in *.
  assert (∀ v : world D, emits (transmit_interfaces (Z.to_nat c4) (config_desc d) 0 true)
      (concat (interface_wire <$> take (Z.to_nat c4) (interfaces_of rest))) v
    ∧ ∀ v : world D, transmit_interfaces (Z.to_nat c4) (config_desc d) 0 false v = Ok false v) as Hwalk.
  { intros v. rewrite Heq in *. apply (transmit_interfaces_emits _ _ [] c rest); try done. lia. }
  assert (∀ v : world D, (let* num := liftC (arr_get (config_desc d) 4) in
    transmit_interfaces (Z.to_nat num) (config_desc d) 0 false) v = Ok false v) as Hfalse.
  { intros v. unfold bind, liftC. rewrite (proj2 (arr_get_Val (config_desc d) 4 c4)) by done. by apply (Hwalk w). }
  apply emits_seq; [apply transmit_response_head_emits|intros n1|done].
  apply emits_seq; [apply transmit_number_of_devices_emits|intros n2|done].
  apply emits_seq; [apply transmit_device_id_emits|intros n3|done].
  apply emits_seq; [apply transmit_device_emits|intros n4|done].
  apply (emits_liftC _ _ c4); [by apply arr_get_Val|]. apply Hwalk.
Qed.
End sound.
End emits.
