(* ===== verification/ProtocolSafety.v ===== *)
(** * Safety of the protocol (src/lib/usbip_protocol.c)

    The invariant of the server's state between two calls, and the proof that every
    function of usbip_protocol.c keeps it and never faults: no access outside an
    array, no deadlock, no endless loop, for every sequence of bytes a client may
    send and every way the connection may fail, provided the device is sound. *)
From S2P Require Import Prelude WireFormat DeviceStore Descriptors Host BulkDevice Control Tcpip ConfigWalk Protocol.

(** ** The invariant *)

Definition packet_ok (transfer_buffer_length : Z) (pk : iso_packet_t) : Prop :=
  0 ≤ pk_offset pk ∧ 0 ≤ pk_length pk ∧ pk_offset pk + pk_length pk ≤ transfer_buffer_length.

Definition urb_ok (u : pending_urb_t) : Prop :=
  0 ≤ urb_transfer_buffer_length u ≤ USBIP_MAX_PACKET_SIZE
  ∧ (urb_isochronous u = true →
     0 ≤ urb_number_of_packets u ≤ MAX_ISO_PACKETS ∧ length (urb_packets u) = 128%nat
     ∧ Forall (packet_ok (urb_transfer_buffer_length u))
         (take (Z.to_nat (urb_number_of_packets u)) (urb_packets u))).

(** The transfers that are pending, oldest first. *)
Definition live (p : proto) : list pending_urb_t := take (Z.to_nat (num_pending_urbs p)) (pending_urbs p).

Record proto_ok (p : proto) : Prop := {
  po_slots : length (pending_urbs p) = 32%nat;
  po_num : 0 ≤ num_pending_urbs p ≤ MAX_PENDING_URBS;
  po_live : Forall urb_ok (live p);
  po_table : wf_table (endpoints p);
  po_timeout : 0 ≤ wait_timeout_us p ≤ WAIT_TIMEOUT_US;
  po_rx : blen (rx_buffer p) = USBIP_MAX_PACKET_SIZE ∧ Forall is_byte (rx_buffer p);
  po_tx : blen (tx_buffer p) = USBIP_MAX_PACKET_SIZE ∧ Forall is_byte (tx_buffer p);
  po_static : length (urb_packets (static_urb p)) = 128%nat;
}.

Definition call_ok (c : transmit_call) : Prop :=
  0 ≤ tc_length c ∧ Z.min (tc_length c) ENDPOINT_MAX_DATA_LENGTH ≤ blen (tc_data c) ∧ Forall is_byte (tc_data c).

Record world_ok {D} (I : D → Prop) (w : world D) : Prop := {
  wo_host : host_idle I (w_host w);
  wo_net : net_ok (w_net w);
  wo_proto : proto_ok (w_proto w);
  wo_others : Forall (Forall call_ok) (others w);
}.

(** * Theorems *)

(** ** Exact equations of the small operations *)

Section equations.
Context {D : Type}.
Implicit Types (w : world D) (p : proto).

Lemma set_host_id w : set_host (w_host w) w = w.
Proof. by destruct w. Qed.

Lemma live_length p : proto_ok p → length (live p) = Z.to_nat (num_pending_urbs p).
Proof. intros H. unfold live. rewrite length_take, (po_slots _ H). pose proof (po_num _ H). unfold MAX_PENDING_URBS in *. lia. Qed.

Lemma live_get p idx u :
  proto_ok p → 0 ≤ idx < num_pending_urbs p → live p !! Z.to_nat idx = Some u → arr_get (pending_urbs p) idx = Val u.
Proof.
  intros H Hi Hu. apply arr_get_Val. split; [lia|]. unfold live in Hu. by rewrite lookup_take_lt in Hu by lia.
Qed.

(** Taking out one transfer keeps the order of the others. *)
Lemma remove_pending_urb_eq w idx :
  proto_ok (w_proto w) → 0 ≤ idx < num_pending_urbs (w_proto w) →
  ∃ urbs, remove_pending_urb idx w =
            Ok tt (set_proto (set_pending urbs (num_pending_urbs (w_proto w) - 1) (w_proto w)) w)
    ∧ length urbs = 32%nat
    ∧ take (Z.to_nat (num_pending_urbs (w_proto w) - 1)) urbs = delete (Z.to_nat idx) (live (w_proto w)).
Proof.
  intros H Hi. unfold remove_pending_urb, getp, gets, setp, modify, bind. cbv beta.
  set (p := w_proto w) in *. set (n := num_pending_urbs p) in *. pose proof (po_num _ H) as Hn. fold n in Hn.
  pose proof (po_slots _ H) as Hs. unfold MAX_PENDING_URBS in Hn.
  unfold memcpy, mem_read, mem_write. rewrite decide_True by (unfold blen; lia). cbn [cbind].
  set (blk := take _ _). assert (length blk = Z.to_nat (n - 1 - idx)) as Hblk.
  { unfold blk. rewrite length_take, length_drop. lia. }
  rewrite decide_True by (unfold blen; lia). cbn [liftC]. eexists. split; [done|]. split.
  - rewrite length_splice; [done|]. lia.
  - unfold splice. rewrite app_assoc, take_app_length'.
    2: { rewrite length_app, length_take. lia. }
    unfold live. fold n. rewrite delete_take_drop, take_take. f_equal; [f_equal; lia|].
    unfold blk. rewrite skipn_firstn_comm. f_equal; [lia|]. f_equal. lia.
Qed.

Lemma append_pending_urb_eq w u :
  proto_ok (w_proto w) → num_pending_urbs (w_proto w) < MAX_PENDING_URBS →
  ∃ urbs, append_pending_urb u w =
            Ok tt (set_proto (set_pending urbs (num_pending_urbs (w_proto w) + 1) (w_proto w)) w)
    ∧ length urbs = 32%nat
    ∧ take (Z.to_nat (num_pending_urbs (w_proto w) + 1)) urbs = live (w_proto w) ++ [u].
Proof.
  intros H Hlt. pose proof (po_num _ H) as Hn. pose proof (po_slots _ H) as Hs. unfold MAX_PENDING_URBS in *.
  unfold append_pending_urb, getp, gets, setp, modify, bind. cbv beta. set (p := w_proto w) in *.
  rewrite arr_set_Val by (unfold blen; lia). cbn [liftC]. eexists. split; [done|]. split; [by rewrite length_insert|].
  replace (Z.to_nat (num_pending_urbs p + 1)) with (S (Z.to_nat (num_pending_urbs p))) by lia.
  erewrite take_S_r by (apply list_lookup_insert_eq; lia). by rewrite take_insert_ge.
Qed.

(** The endpoint a transfer is about. *)
Definition key_of (dir ep : Z) : nat * nat := (Z.to_nat dir, ep_number ep).

Lemma get_endpoint_eq w dir ep :
  wf_table (endpoints (w_proto w)) → 0 ≤ dir < 2 →
  ∃ e, get_endpoint dir ep w = Ok e w ∧ table_lookup (endpoints (w_proto w)) (key_of dir ep) = Some e
    ∧ ∀ f, put_endpoint dir ep (f e) w =
        Ok tt (set_proto (set_endpoints (alter (alter f (ep_number ep)) (Z.to_nat dir) (endpoints (w_proto w))) (w_proto w)) w).
Proof.
  intros Ht Hdir. destruct (table_update _ dir (Z.land ep USB_ENDPOINT_NUMBER_MASK) Ht Hdir) as (e & Hg & Hl & Hs);
    [apply land_15_range|].
  exists e. unfold get_endpoint, put_endpoint, getp, gets, setp, modify, bind. rewrite Hg. split; [done|]. split.
  - unfold table_lookup, key_of, table_get in *. cbn [fst snd].
    apply cbind_Val in Hg as (row & Hrow & _). apply arr_get_Val in Hrow as [_ Hrow]. rewrite Hrow. cbn. by apply Hl.
  - intros f. by rewrite Hs.
Qed.

(** When the clock was read last. *)
Definition last_us (c : clock) : Z := clock_us {| readings := []; last_reading := last_reading c |}.

Lemma clock_us_range c : 0 ≤ clock_us c < 2 ^ 64.
Proof. apply Z.mod_pos_bound. lia. Qed.

Lemma now_us_eq w :
  ∃ c, now_us w = Ok (clock_us (clk (w_host w))) (set_host (set_clk c (w_host w)) w)
    ∧ last_us c = clock_us (clk (w_host w)).
Proof.
  unfold now_us, bind, in_host, in_clk, zoom, clock_gettime, ret, clock_us.
  destruct (readings (clk (w_host w))) as [|t ts]; eexists; done.
Qed.
End equations.

Lemma endpoint_dir_range direction : 0 ≤ endpoint_dir direction < 2.
Proof. unfold endpoint_dir. destruct (negb _); lia. Qed.

(** ** The invariant is kept by each kind of update *)

Section preservation.
Context {D : Type} (I : D → Prop).
Implicit Types (w : world D).

Lemma proto_ok_pending p urbs n l :
  proto_ok p → length urbs = 32%nat → 0 ≤ n ≤ MAX_PENDING_URBS → take (Z.to_nat n) urbs = l → Forall urb_ok l →
  proto_ok (set_pending urbs n p).
Proof. intros [] H1 H2 H3 H4. constructor; try done. unfold live. simpl. by rewrite H3. Qed.

Lemma world_ok_proto w p : world_ok I w → proto_ok p → world_ok I (set_proto p w).
Proof. intros [] ?. by constructor. Qed.

Lemma world_ok_host w h : world_ok I w → host_idle I h → world_ok I (set_host h w).
Proof. intros [] ?. by constructor. Qed.

Lemma world_ok_net w n : world_ok I w → net_ok n → world_ok I (set_net n w).
Proof. intros [] ?. by constructor. Qed.

Lemma world_ok_write w n : world_ok I w → same_but_tx (w_net w) n → world_ok I (set_net n w).
Proof. intros Hw Hs. apply world_ok_net; [done|]. eapply same_but_tx_net_ok; [done|]. apply Hw. Qed.

(** What the updates leave alone, as equations. *)
Lemma remove_pending_urb_wp w idx (Q : unit → world D → Prop) E :
  world_ok I w → 0 ≤ idx < num_pending_urbs (w_proto w) →
  (∀ p', proto_ok p' → world_ok I (set_proto p' w) → live p' = delete (Z.to_nat idx) (live (w_proto w)) →
     p' = set_pending (pending_urbs p') (num_pending_urbs (w_proto w) - 1) (w_proto w) → Q tt (set_proto p' w)) →
  wp (remove_pending_urb idx) Q E w.
Proof.
  intros Hw Hi HQ. pose proof (wo_proto _ _ Hw) as Hp.
  destruct (remove_pending_urb_eq w idx Hp Hi) as (urbs & Heq & Hl & Ht). unfold wp. rewrite Heq.
  assert (proto_ok (set_pending urbs (num_pending_urbs (w_proto w) - 1) (w_proto w))) as Hok.
  { eapply proto_ok_pending; try done; [pose proof (po_num _ Hp); lia|]. apply Forall_delete, (po_live _ Hp). }
  apply HQ; [done|by apply world_ok_proto|done|done].
Qed.

Lemma append_pending_urb_wp w u (Q : unit → world D → Prop) E :
  world_ok I w → num_pending_urbs (w_proto w) < MAX_PENDING_URBS → urb_ok u →
  (∀ p', proto_ok p' → world_ok I (set_proto p' w) → live p' = live (w_proto w) ++ [u] →
     p' = set_pending (pending_urbs p') (num_pending_urbs (w_proto w) + 1) (w_proto w) → Q tt (set_proto p' w)) →
  wp (append_pending_urb u) Q E w.
Proof.
  intros Hw Hlt Hu HQ. pose proof (wo_proto _ _ Hw) as Hp.
  destruct (append_pending_urb_eq w u Hp Hlt) as (urbs & Heq & Hl & Ht). unfold wp. rewrite Heq.
  assert (proto_ok (set_pending urbs (num_pending_urbs (w_proto w) + 1) (w_proto w))) as Hok.
  { eapply proto_ok_pending; try done; [pose proof (po_num _ Hp); lia|].
    apply Forall_app. split; [apply (po_live _ Hp)|by constructor]. }
  apply HQ; [done|by apply world_ok_proto|done|done].
Qed.

(** An endpoint field with a new 64 bit time. *)
Lemma set_times_wf e t : 0 ≤ t < 2 ^ 64 →
  is_byte (ep_type e) ∧ 0 ≤ interval_us e < 2 ^ 64 ∧ 0 ≤ next_poll_us e < 2 ^ 64 ∧ 0 ≤ stream_end_us e < 2 ^ 64 →
  (is_byte (ep_type (set_next_poll t e)) ∧ 0 ≤ interval_us (set_next_poll t e) < 2 ^ 64
     ∧ 0 ≤ next_poll_us (set_next_poll t e) < 2 ^ 64 ∧ 0 ≤ stream_end_us (set_next_poll t e) < 2 ^ 64)
  ∧ (is_byte (ep_type (set_stream_end t e)) ∧ 0 ≤ interval_us (set_stream_end t e) < 2 ^ 64
     ∧ 0 ≤ next_poll_us (set_stream_end t e) < 2 ^ 64 ∧ 0 ≤ stream_end_us (set_stream_end t e) < 2 ^ 64).
Proof. intros. simpl. tauto. Qed.

Lemma world_ok_table w f i j :
  world_ok I w → (∃ t, 0 ≤ t < 2 ^ 64 ∧ (f = set_next_poll t ∨ f = set_stream_end t)) →
  proto_ok (set_endpoints (alter (alter f j) i (endpoints (w_proto w))) (w_proto w)).
Proof.
  intros Hw (t & Ht & Hf). pose proof (wo_proto _ _ Hw) as []. constructor; try done. simpl.
  apply wf_table_alter; [done|]. intros e He. destruct (set_times_wf e t Ht He) as [H1 H2]. destruct Hf as [-> | ->]; done.
Qed.

Lemma u64_range x : 0 ≤ u64 x < 2 ^ 64.
Proof. apply Z.mod_pos_bound. lia. Qed.

(** The server waits for the client, and was not told to stop. *)
Definition waiting (w : world D) : Prop := world_ok I w ∧ stop_server (w_net w) = false.

Lemma tcp_read_wp w size (Q : bool * bytes → world D → Prop) E :
  world_ok I w → 0 ≤ size →
  (∀ status bs n', world_ok I (set_net n' w) → same_but_rx (w_net w) n' → 0 ≤ blen bs ≤ size →
     (status = true → blen bs = size) → Forall is_byte bs → Q (status, bs) (set_net n' w)) →
  (∀ n', waiting (set_net n' w) → E (set_net n' w)) →
  wp (tcp_read size) Q E w.
Proof.
  intros Hw Hs HQ HE. unfold tcp_read, in_net. apply wp_zoom.
  eapply wp_mono; [apply tcpip_server_read_wp; [done|apply Hw]|..].
  - intros [status bs] n' (H1 & H2 & H3 & H4 & H5). apply HQ; try done. by apply world_ok_net.
  - intros n' (H1 & _ & H2). apply HE. split; [by apply world_ok_net|done].
Qed.

Lemma emits_safe_wp m bs w (Q : bool → world D → Prop) E :
  world_ok I w → emits m bs w → (∀ status n', world_ok I (set_net n' w) → Q status (set_net n' w)) → wp m Q E w.
Proof. intros Hw Hm HQ. eapply emits_wp; [done|]. intros st n' Hs _ _. by apply HQ, world_ok_write. Qed.

Lemma transmit_ret_submit_wp w seqnum status len send (Q : bool → world D → Prop) E :
  world_ok I w → 0 ≤ len → len ≤ USBIP_MAX_PACKET_SIZE ∨ send = false →
  (∀ st n', world_ok I (set_net n' w) → Q st (set_net n' w)) →
  wp (transmit_ret_submit seqnum status len send) Q E w.
Proof.
  intros Hw H0 Hlen HQ. eapply emits_safe_wp; [done|apply transmit_ret_submit_emits|done].
  split; [done|]. destruct (po_tx _ (wo_proto _ _ Hw)) as [Hl _]. rewrite Hl. done.
Qed.
End preservation.

(** ** Isochronous replies *)

Definition iso_descriptor (pk : iso_packet_t) (actual : Z) : usbip_iso_packet_descriptor_t :=
  {| ip_offset := SWAP32 (pk_offset pk); ip_length := SWAP32 (pk_length pk);
     ip_actual_length := SWAP32 (u32 actual); ip_status := SWAP32 0 |}.

Fixpoint sum (l : list Z) : Z := match l with [] => 0 | x :: l => x + sum l end.

Lemma sum_app l k : sum (l ++ k) = sum l + sum k.
Proof. induction l; simpl; lia. Qed.

(** Where the world of a call may differ from the one before it. *)
Definition same_net {D} (w w' : world D) : Prop :=
  w_net w' = w_net w ∧ others w' = others w
  ∧ w_proto w' = set_tx_buffer (tx_buffer (w_proto w')) (w_proto w).

Lemma same_net_trans {D} (w1 w2 w3 : world D) : same_net w1 w2 → same_net w2 w3 → same_net w1 w3.
Proof.
  intros (H1 & H2 & H3) (H4 & H5 & H6). split; [congruence|]. split; [congruence|].
  rewrite H6, H3. done.
Qed.

(** The reply to an isochronous transfer: the lengths of its packets, the data of all of
    them back to back, none for OUT, and the descriptors. *)
Definition iso_reply_wire (u : pending_urb_t) (actuals : list Z) (data : bytes) : bytes :=
  ret_submit_wire (urb_seqnum u) 0 (sum actuals) (urb_start_frame u) (urb_number_of_packets u)
  ++ data
  ++ concat (zip_with (λ pk a, iso_packet_wire (pk_offset pk) (pk_length pk) a 0)
               (take (Z.to_nat (urb_number_of_packets u)) (urb_packets u)) actuals).

(** What the device does for the packets of an IN transfer of [len] bytes on endpoint [ep],
    of which [total] are used: it is asked for each packet in turn, for no more than its
    length and the space that is left, and may give less. *)
Inductive iso_run {D} (d : usbip_device_t D) (ep len : Z) : Z → list iso_packet_t → host D → list Z → bytes → host D → Prop :=
| iso_run_nil total h : iso_run d ep len total [] h [] [] h
| iso_run_cons total pk pks h window a window' h1 acts data h2 :
    let n := Z.min (pk_length pk) (len - total) in
    data_ok window n → usbip_device_iso_in d ep window n h = Ok (a, window') h1 →
    iso_run d ep len (total + a) pks h1 acts data h2 →
    iso_run d ep len total (pk :: pks) h (a :: acts) (take (Z.to_nat a) window' ++ data) h2.

(** The lengths and the data of the packets [pks] of [u]; the device has no part in the
    answer to an OUT transfer. *)
Definition iso_exchange {D} (d : usbip_device_t D) (u : pending_urb_t) (total : Z) (pks : list iso_packet_t)
    (h : host D) (acts : list Z) (data : bytes) (h' : host D) : Prop :=
  if decide (urb_direction u = 0) then acts = pk_length <$> pks ∧ data = [] ∧ h' = h
  else iso_run d (u8 (urb_ep u)) (urb_transfer_buffer_length u) total pks h acts data h'.

(** The packets of a transfer. *)
Definition packets_of (u : pending_urb_t) : list iso_packet_t := take (Z.to_nat (urb_number_of_packets u)) (urb_packets u).

Section iso.
Context {D : Type} (I : D → Prop) (d : usbip_device_t D) `{!DeviceSound I d}.
Implicit Types (w : world D).

Lemma proto_ok_tx p tx :
  proto_ok p → blen tx = USBIP_MAX_PACKET_SIZE → Forall is_byte tx → proto_ok (set_tx_buffer tx p).
Proof. intros [] ??. by constructor. Qed.

(** One call of the device's callback. *)
Lemma iso_in_returns ep window n h a window' h' :
  data_ok window n → host_idle I h → usbip_device_iso_in d ep window n h = Ok (a, window') h' →
  0 ≤ a ≤ n ∧ blen window' = blen window ∧ Forall is_byte window' ∧ host_idle I h' ∧ same_control (lib h) (lib h').
Proof using All.
  intros Hd Hh Hr. pose proof (usbip_device_iso_in_ok I d ep window n h Hd Hh) as H. unfold wp in H. by rewrite Hr in H.
Qed.

Lemma iso_run_facts ep len total pks h acts data h' :
  iso_run d ep len total pks h acts data h' → host_idle I h → total ≤ len →
  Forall2 (λ a pk, 0 ≤ a ≤ pk_length pk) acts pks ∧ blen data = sum acts ∧ total + sum acts ≤ len ∧ Forall is_byte data.
Proof using All.
  induction 1 as [total h|total pk pks h window a window' h1 acts data h2 n Hd Hr _ IH]; intros Hh Hle.
  { split; [constructor|]. split; [done|]. split; [cbn; lia|constructor]. }
  destruct (iso_in_returns _ _ _ _ _ _ _ Hd Hh Hr) as (Ha & Hb & Hbs & Hh1 & _). destruct Hd as [_ Hn].
  destruct IH as (H1 & H2 & H3 & H4); [done|lia|]. cbn [sum]. rewrite blen_app, blen_take by lia.
  split; [constructor; [lia|done]|]. split; [lia|]. split; [lia|]. apply Forall_app. split; [by apply Forall_take|done].
Qed.

Lemma iso_exchange_facts u total pks h acts data h' :
  iso_exchange d u total pks h acts data h' → host_idle I h → total ≤ urb_transfer_buffer_length u →
  Forall (λ pk, 0 ≤ pk_length pk) pks →
  Forall2 (λ a pk, 0 ≤ a ≤ pk_length pk) acts pks
  ∧ (urb_direction u ≠ 0 → blen data = sum acts ∧ total + sum acts ≤ urb_transfer_buffer_length u).
Proof using All.
  unfold iso_exchange. intros H Hh Hle Hp. case_decide.
  - destruct H as (-> & -> & ->). split; [|done]. apply Forall2_fmap_l, Forall_Forall2_diag. eapply Forall_impl; [exact Hp|]. intros pk. cbn. lia.
  - destruct (iso_run_facts _ _ _ _ _ _ _ _ H Hh Hle) as (? & ? & ? & _). done.
Qed.

(** The call at position [total] of the transmit buffer. *)
Lemma iso_in_step_wp w ep total n (Q : Z → world D → Prop) :
  world_ok I w → 0 ≤ total → 0 ≤ n → total + n ≤ USBIP_MAX_PACKET_SIZE →
  (∀ a window window' h', 0 ≤ a ≤ n → a ≤ blen window' → data_ok window n →
     usbip_device_iso_in d ep window n (w_host w) = Ok (a, window') h' → same_control (lib (w_host w)) (lib h') →
     let tx' := splice (tx_buffer (w_proto w)) (Z.to_nat total) window' in
     world_ok I (set_proto (set_tx_buffer tx' (w_proto w)) (set_host h' w)) →
     take (Z.to_nat (total + a)) tx' = take (Z.to_nat total) (tx_buffer (w_proto w)) ++ take (Z.to_nat a) window' →
     Q a (set_proto (set_tx_buffer tx' (w_proto w)) (set_host h' w))) →
  wp (let* tx := getp tx_buffer in
      let* window := liftC (mem_read tx total (blen tx - total)) in
      let* '(actual_length, window') := in_host (usbip_device_iso_in d ep window n) in
      let* tx' := liftC (mem_write tx total window') in
      setp (set_tx_buffer tx');;
      ret actual_length) Q never w.
Proof using All.
  intros Hw H0 Hn Hfit HQ. destruct (po_tx _ (wo_proto _ _ Hw)) as [Hl Hb]. set (tx := tx_buffer (w_proto w)) in *.
  apply wp_bind, wp_gets. fold tx. apply wp_bind, wp_liftC, cwp_mem_read; [lia|lia|lia|].
  set (window := take _ _). assert (blen window = blen tx - total) as Hwl.
  { unfold window. rewrite blen_take, blen_drop by lia. lia. }
  assert (data_ok window n) as Hd by (split; [by apply Forall_take, Forall_drop|lia]).
  pose proof (usbip_device_iso_in_ok I d ep window n (w_host w) Hd (wo_host _ _ Hw)) as Hcall.
  apply wp_never_Ok in Hcall as ([a window'] & h' & Hr & Ha & Hwl' & Hwb & Hh & Hsame).
  apply wp_bind, wp_zoom. unfold wp at 1. rewrite Hr. apply wp_bind, wp_liftC, cwp_mem_write; [lia|lia|].
  apply wp_bind, wp_modify, wp_ret. cbn [w_proto set_host]. apply (HQ a window window'); [done|lia|done..| |].
  - apply world_ok_proto; [by apply world_ok_host|]. apply proto_ok_tx; [apply Hw| |].
    + unfold blen. rewrite length_splice; unfold blen in *; [lia|]. fold tx. lia.
    + unfold splice. rewrite !Forall_app. auto using Forall_take, Forall_drop.
  - fold tx. unfold splice. assert (length (take (Z.to_nat total) tx) = Z.to_nat total) as Ht by (rewrite length_take; unfold blen in *; lia).
    rewrite take_app, Ht, take_ge by lia. f_equal. replace (Z.to_nat (total + a) - Z.to_nat total)%nat with (Z.to_nat a) by lia.
    apply take_app_le. unfold blen in *. lia.
Qed.

(** What the loop over the packets [pks] has done: the device has filled them, and their
    data follows what was in the transmit buffer before. *)
Definition filled (u : pending_urb_t) (pks : list iso_packet_t) (total : Z) (w : world D)
    (r : Z * list usbip_iso_packet_descriptor_t) (w' : world D) : Prop :=
  world_ok I w' ∧ same_net w w' ∧ same_control (lib (w_host w)) (lib (w_host w'))
  ∧ ∃ actuals data, iso_exchange d u total pks (w_host w) actuals data (w_host w')
      ∧ r.2 = zip_with iso_descriptor pks actuals ∧ r.1 = total + sum actuals
      ∧ (urb_direction u ≠ 0 →
           take (Z.to_nat r.1) (tx_buffer (w_proto w')) = take (Z.to_nat total) (tx_buffer (w_proto w)) ++ data).

Lemma same_net_refl w : same_net w w.
Proof. by destruct w as [? ? [] ?]. Qed.

Lemma fill_iso_packets_wp u n idx total w :
  world_ok I w → urb_ok u → urb_isochronous u = true → 0 ≤ idx → 0 ≤ total →
  idx + Z.of_nat n = urb_number_of_packets u →
  (urb_direction u ≠ 0 → total ≤ urb_transfer_buffer_length u) →
  wp (fill_iso_packets d u n idx total) (filled u (take n (drop (Z.to_nat idx) (urb_packets u))) total w) never w.
Proof using All.
  revert idx total w. induction n as [|n IH]; intros idx total w Hw Hu Hiso Hi H0 Hn Htot; cbn [fill_iso_packets].
  { apply wp_ret. split; [done|]. split; [apply same_net_refl|]. split; [done|]. exists [], []. cbn [fst snd].
    rewrite take_0, Z.add_0_r. split; [|by rewrite app_nil_r]. unfold iso_exchange. case_decide; [done|constructor]. }
  destruct (proj2 Hu Hiso) as (Hnp & Hlen & Hpks). destruct Hu as [Htbl _]. unfold MAX_ISO_PACKETS in Hnp.
  destruct (lookup_lt_is_Some_2 (urb_packets u) (Z.to_nat idx)) as [pk Hlk]; [lia|].
  assert (packet_ok (urb_transfer_buffer_length u) pk) as (Hp1 & Hp2 & Hp3).
  { eapply (Forall_lookup_1 _ _ (Z.to_nat idx)); [exact Hpks|]. by rewrite lookup_take_lt by lia. }
  rewrite (proj2 (arr_get_Val (urb_packets u) idx pk)) by done. apply wp_bind, wp_liftC, cwp_ret.
  rewrite (drop_S _ _ _ Hlk). cbn [take]. replace (S (Z.to_nat idx)) with (Z.to_nat (idx + 1)) by lia.
  set (pks := take n _). apply wp_bind.
  destruct (Z.eqb_spec (urb_direction u) 0) as [Hd|Hd]; cbn [negb].
  - apply wp_ret, wp_bind. eapply wp_post; [apply (IH (idx + 1) (total + pk_length pk) w); done || lia|].
    intros [total' ds] w2 (Hw2 & Hs2 & Hc2 & acts & data & Hex & Hds & Ht & _). apply wp_ret.
    split; [done|]. split; [done|]. split; [done|]. unfold iso_exchange in *. rewrite decide_True in Hex by done.
    destruct Hex as (-> & -> & ->). eexists _, []. rewrite decide_True by done. split; [done|]. cbn [fst snd] in *.
    split; [by rewrite Hds|]. fold pks in Ht. split; [change (total' = total + (pk_length pk + sum (pk_length <$> pks))); lia|done].
  - specialize (Htot Hd). unfold u64. rewrite Z.mod_small by (unfold USBIP_MAX_PACKET_SIZE in *; lia).
    replace (if pk_length pk <? _ then _ else _) with (Z.min (pk_length pk) (urb_transfer_buffer_length u - total))
      by (destruct (Z.ltb_spec (pk_length pk) (urb_transfer_buffer_length u - total)); lia).
    apply iso_in_step_wp; [done|lia|lia|lia|]. intros a window window' h' Ha Hlw Hdata Hcall Hsame tx' Hw1 Htk.
    set (w1 := set_proto _ (set_host h' w)) in *. apply wp_bind.
    eapply wp_post; [apply (IH (idx + 1) (total + a) w1); [done|done|done|lia|lia|lia|intros _; lia]|].
    intros [total' ds] w2 (Hw2 & Hs2 & Hc2 & acts & data & Hex & Hds & Ht & Htx). apply wp_ret.
    split; [done|]. split; [eapply same_net_trans; [|exact Hs2]; done|]. split; [by etrans|].
    exists (a :: acts), (take (Z.to_nat a) window' ++ data). cbn [fst snd] in *.
    split; [|split; [by rewrite Hds|split; [simpl; lia|]]].
    + unfold iso_exchange in *. rewrite decide_False in Hex |- * by done. by eapply iso_run_cons.
    + intros _. rewrite (Htx Hd). change (tx_buffer (w_proto w1)) with tx'. by rewrite Htk, <-app_assoc.
Qed.

Lemma iso_descriptors_image pks actuals :
  concat (usbip_iso_packet_descriptor_mem <$> zip_with iso_descriptor pks actuals) =
    concat (zip_with (λ pk a, iso_packet_wire (pk_offset pk) (pk_length pk) a 0) pks actuals).
Proof.
  revert actuals. induction pks as [|pk pks IH]; intros [|a actuals]; try done.
  cbn [zip_with fmap list_fmap concat]. rewrite IH. unfold iso_descriptor. rewrite iso_packet_image.
  unfold iso_packet_wire at 1. by rewrite be_bytes_u32.
Qed.

Lemma iso_descriptors_blen pks actuals :
  length actuals = length pks →
  blen (concat (zip_with (λ pk a, iso_packet_wire (pk_offset pk) (pk_length pk) a 0) pks actuals)) = blen pks * 16.
Proof.
  revert actuals. induction pks as [|pk pks IH]; intros [|a actuals] Hl; try done. cbn [zip_with concat].
  rewrite blen_app, IH, blen_iso_packet_wire by (simpl in Hl; lia). unfold blen. simpl. lia.
Qed.

(** What sending an isochronous reply does. *)
Definition iso_sent (u : pending_urb_t) (w : world D) (status : bool) (w' : world D) : Prop :=
  world_ok I w' ∧ w_proto w' = set_tx_buffer (tx_buffer (w_proto w')) (w_proto w) ∧ others w' = others w
  ∧ same_control (lib (w_host w)) (lib (w_host w')) ∧ same_but_tx (w_net w) (w_net w')
  ∧ (connected (w_net w) → status = true ∧ connected (w_net w'))
  ∧ ∃ actuals data, iso_exchange d u 0 (packets_of u) (w_host w) actuals data (w_host w')
      ∧ sent_part status (iso_reply_wire u actuals data) (sent (w_net w)) (sent (w_net w')).

Lemma packets_of_ok u : urb_ok u → urb_isochronous u = true → Forall (λ pk, 0 ≤ pk_length pk) (packets_of u).
Proof using. intros Hu Hiso. destruct (proj2 Hu Hiso) as (_ & _ & H). eapply Forall_impl; [exact H|]. intros pk (_ & ? & _). done. Qed.

Lemma transmit_iso_ret_submit_wp u w :
  world_ok I w → urb_ok u → urb_isochronous u = true →
  wp (transmit_iso_ret_submit d u) (iso_sent u w) never w.
Proof using All.
  intros Hw Hu Hiso. destruct (proj2 Hu Hiso) as (Hnp & Hlen & _). unfold transmit_iso_ret_submit. apply wp_bind.
  eapply wp_post; [apply fill_iso_packets_wp; [done|done|done|lia|lia|lia|intros _; by apply Hu]|].
  change (Z.to_nat 0) with 0%nat. rewrite drop_0. fold (packets_of u). set (pks := packets_of u).
  intros [total ds] w1 (Hw1 & (Hn1 & Ho1 & Hp1) & Hc1 & acts & data & Hex & Hds & Htot & Htx). cbn [fst snd] in *. subst ds.
  destruct (iso_exchange_facts _ _ _ _ _ _ _ Hex (wo_host _ _ Hw)) as [HF Hin]; [apply Hu|by apply packets_of_ok|].
  rewrite Z.add_0_l in Htot. subst total. pose proof (Forall2_length _ _ _ HF) as Hal.
  assert (blen pks = urb_number_of_packets u) as Hpks.
  { unfold pks, packets_of. rewrite blen_take by lia. unfold MAX_ISO_PACKETS, blen in *. lia. }
  assert (0 ≤ sum acts) as Hsum by (clear -HF; induction HF as [|??????]; simpl; lia).
  destruct (po_tx _ (wo_proto _ _ Hw1)) as [Htxl _].
  eapply (emits_part_wp _ (iso_reply_wire u acts data)).
  - unfold iso_reply_wire. rewrite ret_submit_wire_split, <-!app_assoc.
    apply emits_seq; [|intros n1|done]. { rewrite header_image_zero. apply emits_image, blen_header_wire. }
    apply emits_seq; [|intros n2|done].
    { rewrite ret_submit_image. unfold ret_submit_body at 1. rewrite be_bytes_u32. apply emits_image, blen_ret_submit_body. }
    apply emits_seq; [|intros n3|done].
    { unfold iso_exchange in Hex. destruct (Z.eqb_spec (urb_direction u) 0) as [Hd|Hd]; cbn [negb andb].
      { rewrite decide_True in Hex by done. destruct Hex as (_ & -> & _). apply emits_ret. }
      specialize (Htx Hd). change (take (Z.to_nat 0) (tx_buffer (w_proto w))) with (@nil Z) in Htx. cbn [app] in Htx. rewrite <-Htx.
      destruct (Z.ltb_spec 0 (sum acts)).
      - apply (emits_write (tx_buffer (w_proto w1))). destruct (Hin Hd) as [_ Hle]. destruct Hu as [? _]. lia.
      - replace (Z.to_nat (sum acts)) with 0%nat by lia. apply emits_ret. }
    cbn [andb]. rewrite iso_descriptors_image. fold (packets_of u). fold pks. pose proof (iso_descriptors_blen pks acts Hal) as Hb.
    destruct (Z.ltb_spec 0 (urb_number_of_packets u)) as [Hpos|Hpos]; [apply emits_image; lia|].
    destruct pks; [apply emits_ret|]. unfold blen in Hpks. simpl in Hpks. lia.
  - intros status n' Hs Hconn Hsent. rewrite Hn1 in *. split; [by apply world_ok_write; [done|rewrite Hn1]|].
    split; [done|]. split; [done|]. split; [done|]. split; [done|]. split; [done|].
    by exists acts, data.
Qed.
End iso.

(** ** Commands *)

Lemma load_iso_packets_spec n mem idx tbl pks :
  0 ≤ idx → (idx + Z.of_nat n) * 16 ≤ blen mem → idx + Z.of_nat n ≤ 128 → length pks = 128%nat → tbl < 2 ^ 32 →
  ∃ inside pks', load_iso_packets n mem idx tbl pks = Val (inside, pks') ∧ length pks' = 128%nat
    ∧ take (Z.to_nat idx) pks' = take (Z.to_nat idx) pks
    ∧ (inside = true → Forall (packet_ok tbl) (take n (drop (Z.to_nat idx) pks'))).
Proof.
  revert idx pks. induction n as [|n IH]; intros idx pks Hi Hm Hn Hl Ht; cbn [load_iso_packets].
  { exists true, pks. by rewrite take_0. }
  assert (∃ b, mem_read mem (idx * 16) 16 = Val b) as [b Hb].
  { unfold mem_read. rewrite decide_True by lia. eauto. }
  rewrite Hb. cbn [cbind]. set (pk := {| pk_offset := _; pk_length := _ |}).
  assert (0 ≤ pk_offset pk < 2 ^ 32 ∧ 0 ≤ pk_length pk < 2 ^ 32) as [Ho Hlen] by (split; apply SWAP32_range).
  rewrite arr_set_Val by (unfold blen; lia). cbn [cbind]. unfold u64. rewrite Z.mod_small by lia.
  set (pks1 := <[Z.to_nat idx := pk]> pks). assert (length pks1 = 128%nat) as Hl1 by (unfold pks1; by rewrite length_insert).
  assert (take (Z.to_nat idx) pks1 = take (Z.to_nat idx) pks) as Htk by (unfold pks1; by rewrite take_insert_ge).
  destruct (Z.ltb_spec tbl (pk_offset pk + pk_length pk)); [exists false, pks1; done|].
  destruct (IH (idx + 1) pks1) as (inside & pks' & Hr & Hl' & Htk' & Hok); [lia..|done|done|].
  exists inside, pks'. split; [done|]. split; [done|].
  assert (pks' !! Z.to_nat idx = Some pk) as Hlk.
  { rewrite <-(lookup_take_lt _ (Z.to_nat (idx + 1))), Htk', lookup_take_lt by lia. apply list_lookup_insert_eq. lia. }
  split.
  - apply (f_equal (take (Z.to_nat idx))) in Htk'. rewrite !take_take in Htk'.
    by replace (Z.to_nat idx `min` Z.to_nat (idx + 1))%nat with (Z.to_nat idx) in Htk' by lia; rewrite Htk', Htk.
  - intros Hin. rewrite (drop_S _ _ _ Hlk). cbn [take]. constructor; [split_and!; lia|].
    replace (S (Z.to_nat idx)) with (Z.to_nat (idx + 1)) by lia. by apply Hok.
Qed.

(** The data of a packet in a transfer with [data]. *)
Definition packet_part (pk : iso_packet_t) (data : bytes) : bytes :=
  take (Z.to_nat (pk_length pk)) (drop (Z.to_nat (pk_offset pk)) data).

(** What the device does with the packets of an OUT transfer: it is given each one that is
    not empty, in their order. *)
Inductive iso_receive {D} (d : usbip_device_t D) (ep : Z) (data : bytes) : list iso_packet_t → host D → host D → Prop :=
| iso_receive_nil h : iso_receive d ep data [] h h
| iso_receive_skip pk pks h h' :
    (0 <? pk_length pk) && bool_decide (is_Some (ep_data_callback d)) = false →
    iso_receive d ep data pks h h' → iso_receive d ep data (pk :: pks) h h'
| iso_receive_give pk pks h buffer h1 h' :
    (0 <? pk_length pk) && bool_decide (is_Some (ep_data_callback d)) = true →
    data_ok buffer (pk_length pk) → take (Z.to_nat (pk_length pk)) buffer = packet_part pk data →
    usbip_device_receive d ep buffer (pk_length pk) h = Ok tt h1 →
    iso_receive d ep data pks h1 h' → iso_receive d ep data (pk :: pks) h h'.

Section commands.
Context {D : Type} (I : D → Prop) (d : usbip_device_t D) `{!DeviceSound I d}.
Implicit Types (w : world D).

(** The shape of the safety statements. *)
Definition safe {A} (m : M (world D) A) (w : world D) : Prop :=
  wp m (λ _ w', world_ok I w') (waiting I) w.

Lemma safe_ret {A} (a : A) w : world_ok I w → safe (ret a) w.
Proof. done. Qed.

Lemma receive_wp w ep off len (Q : unit → world D → Prop) :
  world_ok I w → is_Some (ep_data_callback d) → 0 ≤ off → 0 ≤ len → off + len ≤ USBIP_MAX_PACKET_SIZE →
  (∀ buffer h', world_ok I (set_host h' w) → same_control (lib (w_host w)) (lib h') → data_ok buffer len →
     take (Z.to_nat len) buffer = packet_part {| pk_offset := off; pk_length := len |} (rx_buffer (w_proto w)) →
     usbip_device_receive d ep buffer len (w_host w) = Ok tt h' → Q tt (set_host h' w)) →
  wp (let* rx := getp rx_buffer in
      let* data := liftC (mem_read rx off (blen rx - off)) in
      in_host (usbip_device_receive d ep data len)) Q never w.
Proof using All.
  intros Hw Hcb Hoff Hlen Hfit HQ. destruct (po_rx _ (wo_proto _ _ Hw)) as [Hl Hb].
  apply wp_bind, wp_gets. apply wp_bind, wp_liftC, cwp_mem_read; [lia..|]. set (buffer := take _ _).
  assert (data_ok buffer len) as Hd.
  { split; [by apply Forall_take, Forall_drop|]. unfold buffer. rewrite blen_take, blen_drop by lia. lia. }
  pose proof (usbip_device_receive_ok I d ep buffer len (w_host w) Hcb Hd (wo_host _ _ Hw)) as H.
  apply wp_never_Ok in H as ([] & h' & Hr & Hh & Hs). apply wp_zoom. unfold wp at 1. rewrite Hr.
  apply (HQ buffer); [by apply world_ok_host|done|done| |done].
  unfold buffer, packet_part. cbn [pk_offset pk_length]. rewrite take_take. f_equal. lia.
Qed.

Lemma receive_iso_packets_wp n idx ep pks tbl w :
  world_ok I w → 0 ≤ idx → length pks = 128%nat → idx + Z.of_nat n ≤ 128 → tbl ≤ USBIP_MAX_PACKET_SIZE →
  Forall (packet_ok tbl) (take n (drop (Z.to_nat idx) pks)) →
  wp (receive_iso_packets d n idx ep pks)
    (λ _ w', ∃ h', w' = set_host h' w ∧ world_ok I w' ∧ same_control (lib (w_host w)) (lib h')
       ∧ iso_receive d (u8 ep) (rx_buffer (w_proto w)) (take n (drop (Z.to_nat idx) pks)) (w_host w) h') never w.
Proof using All.
  revert idx w. induction n as [|n IH]; intros idx w Hw Hi Hl Hn Ht Hpk; cbn [receive_iso_packets].
  { apply wp_ret. exists (w_host w). rewrite take_0. split; [by destruct w|]. split; [done|]. split; [done|constructor]. }
  destruct (lookup_lt_is_Some_2 pks (Z.to_nat idx)) as [pk Hlk]; [lia|].
  rewrite (drop_S _ _ _ Hlk) in Hpk |- *. cbn [take] in Hpk |- *. apply Forall_cons in Hpk as [(Hp1 & Hp2 & Hp3) Hpk].
  rewrite (proj2 (arr_get_Val pks idx pk)) by done. apply wp_bind, wp_liftC, cwp_ret, wp_bind.
  assert (∀ h', world_ok I (set_host h' w) → same_control (lib (w_host w)) (lib h') →
    (∀ h2, iso_receive d (u8 ep) (rx_buffer (w_proto w)) (take n (drop (S (Z.to_nat idx)) pks)) h' h2 →
       iso_receive d (u8 ep) (rx_buffer (w_proto w)) (pk :: take n (drop (S (Z.to_nat idx)) pks)) (w_host w) h2) →
    wp (receive_iso_packets d n (idx + 1) ep pks)
      (λ _ w', ∃ h', w' = set_host h' w ∧ world_ok I w' ∧ same_control (lib (w_host w)) (lib h')
         ∧ iso_receive d (u8 ep) (rx_buffer (w_proto w)) (pk :: take n (drop (S (Z.to_nat idx)) pks)) (w_host w) h') never (set_host h' w)) as Hgo.
  { intros h' Hw' Hs Hstep. eapply wp_post; [apply IH; [done|lia|done|lia|done|]|].
    - by replace (Z.to_nat (idx + 1)) with (S (Z.to_nat idx)) by lia.
    - intros _ w2 (h2 & -> & Hw2 & Hs2 & Hr2). exists h2. split; [done|]. split; [done|]. split; [by etrans|].
      apply Hstep. by replace (Z.to_nat (idx + 1)) with (S (Z.to_nat idx)) in Hr2 by lia. }
  destruct ((0 <? pk_length pk) && _) eqn:Hc.
  - pose proof Hc as [_ Hcb%bool_decide_eq_true]%andb_true_iff. apply receive_wp; [done|done|lia..|].
    intros buffer h' Hw' Hs Hd Htk Hr. apply Hgo; [done|done|]. intros h2. by eapply iso_receive_give.
  - apply wp_ret. specialize (Hgo (w_host w)). rewrite set_host_id in Hgo. apply Hgo; [done|done|].
    intros h2. by apply iso_receive_skip.
Qed.

Lemma proto_ok_static p u : proto_ok p → length (urb_packets u) = 128%nat → proto_ok (set_static_urb u p).
Proof. intros [] ?. by constructor. Qed.

Lemma with_complete_ok t u : urb_ok u → urb_ok (with_complete t u).
Proof. done. Qed.

(** The endpoint's stream after a transfer is queued: the transfer ends one service
    interval per packet after the later of now and the end of the stream. *)
Definition iso_complete (now : Z) (e : endpoint_t) (u : pending_urb_t) : Z :=
  u64 (Z.max now (stream_end_us e) + u64 (urb_number_of_packets u * interval_us e)).

Lemma queue_iso_urb_wp u w (Q : bool → world D → Prop) :
  world_ok I w → urb_ok u → urb_isochronous u = true →
  (∀ e w1, let now := clock_us (clk (w_host w)) in
     table_lookup (endpoints (w_proto w)) (key_of (endpoint_dir (urb_direction u)) (urb_ep u)) = Some e →
     let u' := with_complete (iso_complete now e u) u in
     world_ok I w1 → w_net w1 = w_net w → lib (w_host w1) = lib (w_host w) ∧ dev (w_host w1) = dev (w_host w) ∧ others w1 = others w →
     w_proto w1 = set_endpoints (alter (alter (set_stream_end (iso_complete now e u)) (ep_number (urb_ep u)))
       (Z.to_nat (endpoint_dir (urb_direction u))) (endpoints (w_proto w))) (set_static_urb u' (w_proto w)) →
     if decide (num_pending_urbs (w_proto w) = MAX_PENDING_URBS)
     then wp (transmit_iso_ret_submit d u') Q never w1
     else ∀ p', world_ok I (set_proto p' w1) → live p' = live (w_proto w) ++ [u'] →
       p' = set_pending (pending_urbs p') (num_pending_urbs (w_proto w) + 1) (w_proto w1) → Q true (set_proto p' w1)) →
  wp (queue_iso_urb d u) Q never w.
Proof using All.
  intros Hw Hu Hiso HQ. unfold queue_iso_urb. apply wp_bind. destruct (now_us_eq w) as (c & Hnow & _).
  set (now := clock_us (clk (w_host w))) in *. unfold wp at 1. rewrite Hnow. set (w1 := set_host _ w).
  assert (world_ok I w1) as Hw1 by (apply world_ok_host; [done|]; apply Hw).
  destruct (get_endpoint_eq w1 (endpoint_dir (urb_direction u)) (urb_ep u)) as (e & Hge & Hlk & Hpe);
    [apply (wo_proto _ _ Hw1)|apply endpoint_dir_range|].
  apply wp_bind. unfold wp at 1. rewrite Hge.
  replace (if now <? stream_end_us e then stream_end_us e else now) with (Z.max now (stream_end_us e))
    by (destruct (Z.ltb_spec now (stream_end_us e)); lia).
  fold (iso_complete now e u). set (u' := with_complete (iso_complete now e u) u).
  apply wp_bind, wp_modify. set (w2 := set_proto _ w1).
  assert (world_ok I w2) as Hw2.
  { apply world_ok_proto; [done|]. apply proto_ok_static; [apply Hw1|]. by apply Hu. }
  destruct (get_endpoint_eq w2 (endpoint_dir (urb_direction u)) (urb_ep u)) as (e' & _ & Hlk' & Hpe');
    [apply (wo_proto _ _ Hw2)|apply endpoint_dir_range|].
  assert (e' = e) as -> by (cbn [w_proto w2 set_proto w1 set_host endpoints set_static_urb] in Hlk, Hlk'; congruence).
  apply wp_bind. unfold wp at 1. cbn [u' with_complete urb_direction urb_ep]. rewrite Hpe'. set (w3 := set_proto _ w2).
  assert (world_ok I w3) as Hw3.
  { apply world_ok_proto; [done|]. apply (world_ok_table I); [done|]. eexists. split; [apply u64_range|by right]. }
  specialize (HQ e w3 Hlk Hw3 eq_refl (conj eq_refl (conj eq_refl eq_refl)) eq_refl). apply wp_bind, wp_gets.
  change (num_pending_urbs (w_proto w3)) with (num_pending_urbs (w_proto w)).
  destruct (Z.eqb_spec (num_pending_urbs (w_proto w)) MAX_PENDING_URBS).
  - by rewrite decide_True in HQ.
  - rewrite decide_False in HQ by done. apply wp_bind. apply (append_pending_urb_wp I); [done| |done|].
    + pose proof (po_num _ (wo_proto _ _ Hw)). change (num_pending_urbs (w_proto w3)) with (num_pending_urbs (w_proto w)). lia.
    + intros p' _ Hw4 Hlive Hp'. apply wp_ret. by apply HQ.
Qed.

Lemma process_iso_submit_safe seqnum ep direction cmd w :
  world_ok I w → SWAP32 (cs_transfer_buffer_length cmd) ≤ USBIP_MAX_PACKET_SIZE →
  safe (process_iso_submit d seqnum ep direction cmd) w.
Proof using All.
  intros Hw Htbl. unfold process_iso_submit, safe. set (n := SWAP32 (cs_number_of_packets cmd)).
  set (tbl := SWAP32 (cs_transfer_buffer_length cmd)) in *.
  pose proof (SWAP32_range (cs_number_of_packets cmd)) as Hn. fold n in Hn.
  pose proof (SWAP32_range (cs_transfer_buffer_length cmd)) as Ht0. fold tbl in Ht0.
  destruct (Z.ltb_spec MAX_ISO_PACKETS n) as [|Hmax]; [by apply wp_ret|]. unfold MAX_ISO_PACKETS in Hmax.
  apply wp_bind. apply (tcp_read_wp I); [done|unfold sizeof_iso_packet_descriptor; lia| |done].
  intros status mem n1 Hw1 _ Hb Hst _. destruct status; cbn [negb]; [|by apply wp_ret]. specialize (Hst eq_refl).
  unfold sizeof_iso_packet_descriptor in *. apply wp_bind, wp_gets. cbn [w_proto set_net].
  set (p := w_proto w) in *. pose proof (wo_proto _ _ Hw1) as Hp. cbn [w_proto set_net] in Hp. fold p in Hp.
  destruct (load_iso_packets_spec (Z.to_nat n) mem 0 tbl (urb_packets (static_urb p))) as (inside & pks & Hload & Hl & _ & Hok);
    [lia|lia|lia|apply Hp|lia|].
  rewrite Hload. apply wp_bind, wp_liftC, cwp_ret, wp_bind, wp_modify. cbn [w_proto set_net].
  match goal with |- context [set_static_urb ?u] => set (urb := u) end.
  set (w2 := set_proto (set_static_urb urb p) (set_net n1 w)).
  assert (world_ok I w2) as Hw2 by (apply world_ok_proto; [done|by apply proto_ok_static]).
  destruct inside; cbn [negb]; [|by apply wp_ret]. specialize (Hok eq_refl).
  assert (urb_ok urb) as Hurb.
  { unfold urb_ok, urb, MAX_ISO_PACKETS. cbn [urb_transfer_buffer_length urb_number_of_packets urb_packets].
    split; [lia|]. intros _. split; [lia|]. by split; [|exact Hok]. }
  apply wp_bind. eapply (wp_post _ (λ _ w', world_ok I w')).
  { destruct (direction =? 0); [|by apply wp_ret]. apply wp_total.
    eapply wp_post; [apply receive_iso_packets_wp with tbl; done || lia|]. intros _ w' (h' & _ & Hw' & _). exact Hw'. }
  intros _ w3 Hw3. apply wp_total. apply queue_iso_urb_wp; [done|done|done|].
  intros e w4 now _ u' Hw4 _ _ _. case_decide; [|by intros p' Hw5 _ _].
  eapply wp_post; [apply (transmit_iso_ret_submit_wp I d); [done|done|done]|]. intros st w7 Hs. apply Hs.
Qed.

Lemma proto_ok_rx p data :
  proto_ok p → blen data ≤ USBIP_MAX_PACKET_SIZE → Forall is_byte data →
  proto_ok (set_rx_buffer (splice (rx_buffer p) 0 data) p).
Proof.
  intros [] Hl Hb. constructor; try done. destruct po_rx0 as [Hlen Hrx]. cbn [rx_buffer set_rx_buffer]. split.
  - unfold blen. rewrite length_splice; unfold blen in *; lia.
  - unfold splice. rewrite !Forall_app. auto using Forall_take, Forall_drop.
Qed.

(** Reading the OUT data into [rx_buffer]. *)
Lemma read_rx_wp w len (Q : bool → world D → Prop) :
  world_ok I w → 0 ≤ len ≤ USBIP_MAX_PACKET_SIZE →
  (∀ status data n1, same_but_rx (w_net w) n1 → (status = true → blen data = len) → blen data ≤ len →
     world_ok I (set_proto (set_rx_buffer (splice (rx_buffer (w_proto w)) 0 data) (w_proto w)) (set_net n1 w)) →
     Q status (set_proto (set_rx_buffer (splice (rx_buffer (w_proto w)) 0 data) (w_proto w)) (set_net n1 w))) →
  wp (let* '(status, data) := tcp_read len in
      let* rx := getp rx_buffer in
      let* rx' := liftC (mem_write rx 0 data) in
      setp (set_rx_buffer rx');;
      ret status) Q (waiting I) w.
Proof using.
  intros Hw Hlen HQ. apply wp_bind. apply (tcp_read_wp I); [done|lia| |done].
  intros status data n1 Hw1 Hs Hl Hst Hb. apply wp_bind, wp_gets. destruct (po_rx _ (wo_proto _ _ Hw)) as [Hrx _].
  apply wp_bind, wp_liftC, cwp_mem_write; [lia|cbn [w_proto set_net]; lia|].
  apply wp_bind, wp_modify, wp_ret. apply HQ; try done; [lia|]. apply world_ok_proto; [done|].
  apply proto_ok_rx; [apply Hw|lia|done].
Qed.

(** Fetching the device's answer into [tx_buffer]. *)
Lemma fetch_reply_wp w len (Q : bool * Z → world D → Prop) supported :
  world_ok I w → 0 ≤ len ≤ USBIP_MAX_PACKET_SIZE →
  (∀ h' tx', let out := take (Z.to_nat len) (slot_of 0 (abs (lib (w_host w)))) in
     let w' := set_proto (set_tx_buffer tx' (w_proto w)) (set_host h' w) in
     tx' = splice (tx_buffer (w_proto w)) 0 out → blen out ≤ len →
     abs (lib h') = set_answered false (set_slot 0 [] (abs (lib (w_host w)))) → same_device (w_host w) h' →
     world_ok I w' →
     Q (supported && negb ((0 <? len) && negb (answered (abs (lib (w_host w))))), blen out) w') →
  wp (let* tx := getp tx_buffer in
      let* '(answered, tx_length, tx') := in_host (in_lib (usbip_device_fetch_control_reply tx len)) in
      setp (set_tx_buffer tx');;
      ret (supported && negb ((0 <? len) && negb answered), tx_length)) Q never w.
Proof using.
  intros Hw Hlen HQ. destruct (po_tx _ (wo_proto _ _ Hw)) as [Htx Htxb]. apply wp_bind, wp_gets.
  apply wp_bind, wp_zoom. eapply wp_mono; [apply (fetch_control_reply_wp I); [apply Hw|lia]| |done].
  intros [[ans tl] tx'] h' (-> & -> & -> & Hb & Hh & _ & Habs & Hsd). set (out := take _ _) in *.
  assert (blen out ≤ len) as Hol by (unfold out; rewrite blen_take by lia; lia).
  apply wp_bind, wp_modify, wp_ret. apply HQ; try done.
  apply world_ok_proto; [by apply world_ok_host|]. apply proto_ok_tx; [apply Hw| |].
  - unfold blen. rewrite length_splice; unfold blen in *; lia.
  - unfold splice. rewrite !Forall_app. auto using Forall_take, Forall_drop.
Qed.

Lemma SWAP32_nonneg x : 0 ≤ SWAP32 x.
Proof. apply SWAP32_range. Qed.

(** The control transfer of [process_submit], behind the reading of its data. *)
Lemma control_submit_safe seqnum direction setup len w :
  world_ok I w → 0 ≤ len ≤ USBIP_MAX_PACKET_SIZE → blen setup = 8 → Forall is_byte setup →
  safe (let* rx := getp rx_buffer in
    let* supported := in_host (usbip_device_control d setup rx len) in
    let* '(supported, tx_length) :=
      if direction =? 1 then
        let* tx := getp tx_buffer in
        let* '(answered, tx_length, tx') := in_host (in_lib (usbip_device_fetch_control_reply tx len)) in
        setp (set_tx_buffer tx');;
        ret (supported && negb ((0 <? len) && negb answered), tx_length)
      else ret (supported, 0) in
    if negb supported then transmit_ret_submit seqnum EP_STALL 0 false
    else if direction =? 0 then transmit_ret_submit seqnum 0 len false
    else transmit_ret_submit seqnum 0 tx_length true) w.
Proof using All.
  intros Hw Hlen Hs Hsb. unfold safe. apply wp_bind, wp_gets. destruct (po_rx _ (wo_proto _ _ Hw)) as [Hrx Hrxb].
  apply wp_bind, wp_zoom. eapply wp_mono; [apply (usbip_device_control_wp I d); [apply Hw| |done|done]| |done].
  { split; [done|lia]. }
  intros supported h1 [Hh1 _]. assert (world_ok I (set_host h1 w)) as Hw1 by (by apply world_ok_host).
  apply wp_bind. eapply (wp_post _ (λ '(_, tl) w', world_ok I w' ∧ 0 ≤ tl ≤ USBIP_MAX_PACKET_SIZE)).
  { destruct (direction =? 1); [|by apply wp_ret]. apply wp_total. apply fetch_reply_wp; [done|done|].
    intros h' tx' out w' _ Hout _ _ Hw'. split; [done|]. pose proof (blen_nonneg out). lia. }
  intros [sup tl] w2 [Hw2 Htl]. unfold USBIP_MAX_PACKET_SIZE in *.
  destruct sup; cbn [negb]; [|by apply (transmit_ret_submit_wp I); [done|lia|by right|]].
  destruct (direction =? 0); (apply (transmit_ret_submit_wp I); [done|lia| |done]); [by right|].
  left. unfold USBIP_MAX_PACKET_SIZE. lia.
Qed.

Lemma process_submit_safe seqnum ep direction w : world_ok I w → safe (process_submit d seqnum ep direction) w.
Proof using All.
  intros Hw. unfold process_submit, safe. apply wp_bind. apply (tcp_read_wp I); [done|done| |done].
  intros status mem n1 Hw1 _ Hl Hst Hb. set (cmd := usbip_cmd_submit_of_mem mem).
  set (len := SWAP32 (cs_transfer_buffer_length cmd)). pose proof (SWAP32_nonneg (cs_transfer_buffer_length cmd)) as Hlen0.
  fold len in Hlen0. apply wp_bind.
  destruct (get_endpoint_eq (set_net n1 w) (endpoint_dir direction) ep) as (e & Hge & _);
    [apply (wo_proto _ _ Hw1)|apply endpoint_dir_range|].
  unfold wp at 1. rewrite Hge. set (st := status && _). apply wp_bind.
  eapply (wp_post _ (λ b w', world_ok I w' ∧ (b = true → st = true))).
  { destruct (st && (direction =? 0)) eqn:Hr; [|by apply wp_ret].
    apply andb_true_iff in Hr as [Hr _]. apply read_rx_wp; [done| |by intros].
    unfold st in Hr. apply andb_true_iff in Hr as [_ Hr]. apply negb_true_iff, Z.ltb_ge in Hr. done. }
  intros b w2 [Hw2 Hbst]. destruct b; cbn [negb]; [|by apply wp_ret]. specialize (Hbst eq_refl).
  unfold st in Hbst. apply andb_true_iff in Hbst as [Hs Hfit]. apply negb_true_iff, Z.ltb_ge in Hfit.
  specialize (Hst Hs). assert (0 ≤ len ≤ USBIP_MAX_PACKET_SIZE) as Hlen by done.
  destruct (negb (ep =? 0) && _) eqn:Hiso; [by apply process_iso_submit_safe|].
  destruct (ep =? 0).
  { apply control_submit_safe; [done|done| |].
    - unfold cmd. cbn [cs_setup usbip_cmd_submit_of_mem]. unfold sizeof_cmd_submit, blen in *.
      rewrite length_take, length_drop. lia.
    - unfold cmd. cbn [cs_setup usbip_cmd_submit_of_mem]. by apply Forall_take, Forall_drop. }
  destruct (direction =? 0).
  - apply wp_bind. eapply (wp_post _ (λ _ w', world_ok I w')).
    + destruct ((0 <? len) && _) eqn:Hc; [|by apply wp_ret]. apply andb_true_iff in Hc as [_ Hcb%bool_decide_eq_true].
      apply wp_bind, wp_gets. destruct (po_rx _ (wo_proto _ _ Hw2)) as [Hrx Hrxb].
      apply wp_zoom. eapply wp_mono; [apply (usbip_device_receive_ok I d); [done|split; [done|lia]|apply Hw2]| |done].
      intros [] h' [Hh _]. by apply world_ok_host.
    + intros [] w3 Hw3. apply (transmit_ret_submit_wp I); [done|lia|by right|done].
  - apply wp_bind, wp_gets. destruct (Z.eqb_spec (num_pending_urbs (w_proto w2)) MAX_PENDING_URBS).
    { by apply (transmit_ret_submit_wp I); [done|lia|left|]. }
    pose proof (wo_proto _ _ Hw2) as Hp2. pose proof (po_num _ Hp2). unfold MAX_PENDING_URBS in *.
    apply wp_bind, wp_liftC, cwp_arr_get; [unfold blen; rewrite (po_slots _ Hp2); lia|]. intros old _.
    apply wp_bind. apply (append_pending_urb_wp I); [done|unfold MAX_PENDING_URBS; lia|done|].
    intros p' _ Hw3 _ _. by apply wp_ret.
Qed.

(** ** Unlinking *)

Definition iso_on (ep direction : Z) (u : pending_urb_t) : bool :=
  urb_isochronous u && (urb_ep u =? ep) && (urb_direction u =? direction).

Lemma has_pending_iso_loop_spec n urbs idx ep direction :
  0 ≤ idx → idx + Z.of_nat n ≤ blen urbs →
  has_pending_iso_loop n urbs idx ep direction =
    Val (existsb (iso_on ep direction) (take n (drop (Z.to_nat idx) urbs))).
Proof using.
  revert idx. induction n as [|n IH]; intros idx Hi Hn; cbn [has_pending_iso_loop]; [done|].
  destruct (lookup_lt_is_Some_2 urbs (Z.to_nat idx)) as [u Hu]; [unfold blen in Hn; lia|].
  rewrite (proj2 (arr_get_Val urbs idx u)) by done. cbn [cbind]. rewrite (drop_S _ _ _ Hu). cbn [take existsb].
  fold (iso_on ep direction u). destruct (iso_on ep direction u); [done|]. rewrite IH by lia.
  by replace (Z.to_nat (idx + 1)) with (S (Z.to_nat idx)) by lia.
Qed.

(** The effect of unlinking on the pending transfers: the oldest one with the sequence
    number is taken out. *)
Definition unlinked (s : Z) (l : list pending_urb_t) : option pending_urb_t * list pending_urb_t :=
  match list_find (λ u, urb_seqnum u = s) l with
  | Some (i, u) => (Some u, delete i l)
  | None => (None, l)
  end.

Definition unlink_status (u : option pending_urb_t) : Z :=
  match u with Some _ => URB_UNLINKED | None => 0 end.

(** The endpoint table after unlinking [u], [l] being the transfers left: a stream that
    has no transfer left starts over. *)
Definition unlinked_table (u : option pending_urb_t) (l : list pending_urb_t) (t : endpoint_table) : endpoint_table :=
  match u with
  | Some u =>
      if urb_isochronous u && negb (existsb (iso_on (urb_ep u) (urb_direction u)) l)
      then alter (alter (set_stream_end 0) (ep_number (urb_ep u))) (Z.to_nat (endpoint_dir (urb_direction u))) t
      else t
  | None => t
  end.

Lemma restart_stream_wp u w (Q : unit → world D → Prop) :
  world_ok I w →
  (∀ p', proto_ok p' → p' = set_endpoints (unlinked_table (Some u) (live (w_proto w)) (endpoints (w_proto w))) (w_proto w) →
     Q tt (set_proto p' w)) →
  wp (if urb_isochronous u then
        let* pending := has_pending_iso_urbs (urb_ep u) (urb_direction u) in
        if negb pending then
          let* e := get_endpoint (endpoint_dir (urb_direction u)) (urb_ep u) in
          put_endpoint (endpoint_dir (urb_direction u)) (urb_ep u) (set_stream_end 0 e)
        else ret tt
      else ret tt) Q never w.
Proof using.
  intros Hw HQ. pose proof (wo_proto _ _ Hw) as Hp.
  assert (set_proto (set_endpoints (endpoints (w_proto w)) (w_proto w)) w = w) as Hid by (by destruct w as [? ? [] ?]).
  assert (proto_ok (set_endpoints (endpoints (w_proto w)) (w_proto w))) as Hpid by (by destruct Hp; constructor).
  unfold unlinked_table in HQ. destruct (urb_isochronous u); cbn [andb] in HQ.
  2: { apply wp_ret. rewrite <-Hid. by apply HQ. }
  apply wp_bind, wp_bind, wp_gets. apply wp_liftC. rewrite has_pending_iso_loop_spec; [|lia|].
  2: { pose proof (po_num _ Hp). unfold blen, MAX_PENDING_URBS in *. rewrite (po_slots _ Hp). lia. }
  apply cwp_ret. change (drop (Z.to_nat 0) (pending_urbs (w_proto w))) with (pending_urbs (w_proto w)).
  fold (live (w_proto w)). destruct (existsb _ (live _)); cbn [negb] in *.
  { apply wp_ret. rewrite <-Hid. by apply HQ. }
  destruct (get_endpoint_eq w (endpoint_dir (urb_direction u)) (urb_ep u)) as (e & Hge & _ & Hpe);
    [apply Hp|apply endpoint_dir_range|].
  apply wp_bind. unfold wp at 1. rewrite Hge. unfold wp. rewrite Hpe. apply HQ; [|done].
  apply (world_ok_table I); [done|]. exists 0. split; [lia|by right].
Qed.

Lemma unlink_loop_wp n idx s w (Q : Z → world D → Prop) :
  world_ok I w → 0 ≤ idx → idx + Z.of_nat n = num_pending_urbs (w_proto w) →
  Forall (λ u, urb_seqnum u ≠ s) (take (Z.to_nat idx) (live (w_proto w))) →
  (∀ p', let '(u, l) := unlinked s (live (w_proto w)) in
     proto_ok p' → live p' = l →
     p' = set_endpoints (unlinked_table u l (endpoints (w_proto w)))
            (set_pending (pending_urbs p') (blen l) (w_proto w)) →
     Q (unlink_status u) (set_proto p' w)) →
  wp (unlink_loop n idx s) Q never w.
Proof using.
  revert idx. induction n as [|n IH]; intros idx Hw Hi Hn Hbefore HQ; pose proof (wo_proto _ _ Hw) as Hp;
    pose proof (live_length _ Hp) as Hlen; cbn [unlink_loop].
  { rewrite take_ge in Hbefore by lia. unfold unlinked in HQ.
    rewrite (proj2 (list_find_None _ _)) in HQ by done. apply wp_ret.
    replace w with (set_proto (w_proto w) w) at 1 by (by destruct w). apply HQ; [done|done|].
    unfold blen. rewrite Hlen, Z2Nat.id by apply (po_num _ Hp). by destruct (w_proto w). }
  destruct (lookup_lt_is_Some_2 (live (w_proto w)) (Z.to_nat idx)) as [u Hu]; [lia|].
  apply wp_bind, wp_gets. rewrite (live_get _ idx u Hp) by (done || lia). apply wp_bind, wp_liftC, cwp_ret.
  destruct (Z.eqb_spec (urb_seqnum u) s) as [Hs|Hs].
  - assert (unlinked s (live (w_proto w)) = (Some u, delete (Z.to_nat idx) (live (w_proto w)))) as Hunl.
    { unfold unlinked. rewrite (proj2 (list_find_Some _ _ (Z.to_nat idx) u)); [done|]. split; [done|]. split; [done|].
      intros j y Hj Hlt. rewrite Forall_lookup in Hbefore. apply (Hbefore j). by rewrite lookup_take_lt. }
    rewrite Hunl in HQ. apply wp_bind. apply (remove_pending_urb_wp I); [done|lia|]. intros p1 Hp1 Hw1 Hl1 Heq1.
    apply wp_bind. apply restart_stream_wp; [done|]. cbn [w_proto set_proto]. intros p2 Hp2 Heq2. apply wp_ret.
    apply (HQ p2); [done|by rewrite Heq2, <-Hl1|]. rewrite Heq2, Hl1, Heq1. cbn.
    assert (length (delete (Z.to_nat idx) (live (w_proto w))) = Z.to_nat (num_pending_urbs (w_proto w) - 1)) as Hdl.
    { rewrite length_delete by (rewrite Hu; eauto). lia. }
    unfold blen. rewrite Hdl, Z2Nat.id by lia. done.
  - apply IH; [done|lia|lia| |done]. replace (Z.to_nat (idx + 1)) with (S (Z.to_nat idx)) by lia.
    rewrite (take_S_r _ _ _ Hu). apply Forall_app. split; [done|by constructor].
Qed.

Lemma process_unlink_safe seqnum w : world_ok I w → safe (process_unlink seqnum) w.
Proof using.
  intros Hw. unfold process_unlink, safe. apply wp_bind. apply (tcp_read_wp I); [done|done| |done].
  intros status mem n1 Hw1 _ _ _ _. destruct status; cbn [negb]; [|by apply wp_ret].
  apply wp_bind, wp_gets, wp_bind, wp_total. pose proof (po_num _ (wo_proto _ _ Hw1)) as Hn.
  eapply unlink_loop_wp; [done|lia|lia|constructor|].
  intros p'. destruct (unlinked _ _) as [u l]. intros Hp' _ _.
  set (w2 := set_proto p' (set_net n1 w)). assert (world_ok I w2) as Hw2 by (by apply world_ok_proto).
  eapply (emits_safe_wp I _ (header_wire USBIP_RET_UNLINK seqnum 0 0 0 ++ _)); [done| |by intros].
  apply emits_seq; [|intros n3|done].
  { unfold header_of. rewrite header_image. apply emits_image, blen_header_wire. }
  rewrite ret_unlink_image. apply emits_image. rewrite blen_app, blen_be_bytes by lia. done.
Qed.

Lemma process_imported_cmd_safe w : world_ok I w → safe (process_imported_cmd d) w.
Proof using All.
  intros Hw. unfold process_imported_cmd, safe. apply wp_bind. apply (tcp_read_wp I); [done|done| |done].
  intros status mem n1 Hw1 _ _ _ _. destruct status; cbn [negb]; [|by apply wp_ret].
  destruct (_ =? USBIP_CMD_SUBMIT); [by apply process_submit_safe|].
  destruct (_ =? USBIP_CMD_UNLINK); [by apply process_unlink_safe|by apply wp_ret].
Qed.
End commands.

(** ** The initial state *)

Definition zero_urb : pending_urb_t :=
  {| urb_seqnum := 0; urb_ep := 0; urb_direction := 0; urb_transfer_buffer_length := 0; urb_isochronous := false;
     urb_start_frame := 0; urb_number_of_packets := 0; urb_complete_us := 0;
     urb_packets := replicate (Z.to_nat MAX_ISO_PACKETS) {| pk_offset := 0; pk_length := 0 |} |}.

Definition initial_proto : proto :=
  {| device_imported := false; pending_urbs := replicate (Z.to_nat MAX_PENDING_URBS) zero_urb;
     num_pending_urbs := 0; endpoints := zero_table; wait_timeout_us := WAIT_TIMEOUT_US;
     rx_buffer := replicate (Z.to_nat USBIP_MAX_PACKET_SIZE) 0;
     tx_buffer := replicate (Z.to_nat USBIP_MAX_PACKET_SIZE) 0; static_urb := zero_urb |}.

Lemma zero_buffer_ok : blen (replicate (Z.to_nat USBIP_MAX_PACKET_SIZE) 0) = USBIP_MAX_PACKET_SIZE
  ∧ Forall is_byte (replicate (Z.to_nat USBIP_MAX_PACKET_SIZE) 0).
Proof. split; [by apply blen_replicate|by apply Forall_replicate]. Qed.

Lemma initial_proto_ok : proto_ok initial_proto.
Proof.
  constructor; cbn [initial_proto pending_urbs num_pending_urbs endpoints wait_timeout_us rx_buffer tx_buffer static_urb].
  - reflexivity.
  - done.
  - constructor.
  - apply wf_zero_table.
  - done.
  - apply zero_buffer_ok.
  - apply zero_buffer_ok.
  - reflexivity.
Qed.

(** The bulk device with a client that sends [evs]. *)
Definition bulk_net (evs : list rx_event) : net := Build_net 3 4 false evs [] [PollClient] [] [] [].
Definition bulk_world (evs : list rx_event) : world Bulk.state :=
  {| w_host := Bulk.initial_host; w_net := bulk_net evs; w_proto := initial_proto; others := [] |}.

Lemma bulk_world_ok evs : rx_ok evs → world_ok Bulk.inv (bulk_world evs).
Proof.
  intros Hevs. constructor; [apply Bulk.initial_host_idle|by split|apply initial_proto_ok|constructor].
Qed.
