(* ===== verification/Completion.v ===== *)
(** * Completing pending transfers (complete_pending_urbs of src/lib/usbip_protocol.c)

    [pass] is the specification of one pass over the pending transfers, as rules:
    which transfers complete, with which reply, which stay, and how the polling
    times, the wake-up time and the device's message slots change. The refinement
    theorem says that the loop of [complete_pending_urbs], which works in place on
    the array, is such a pass; the properties of a pass are proved by induction on
    the rules. *)
From S2P Require Import Prelude WireFormat DeviceStore Descriptors Host BulkDevice Control Silent Tcpip ConfigWalk Protocol ProtocolSafety.

(** ** The specification of a pass *)

Record pass_state (D : Type) := {
  ps_slots : slots;             (** the device's unread messages *)
  ps_device : D;                (** the device's variables *)
  ps_table : endpoint_table;    (** when endpoints may be polled *)
  ps_timeout : Z;               (** when to wake up at the latest *)
}.
Arguments ps_slots {D} _.
Arguments ps_device {D} _.
Arguments ps_table {D} _.
Arguments ps_timeout {D} _.

(** The IN endpoint a transfer waits on. *)
Definition in_endpoint (t : endpoint_table) (u : pending_urb_t) : endpoint_t :=
  default zero_endpoint (table_lookup t (key_of 1 (urb_ep u))).

Definition due (t : endpoint_table) (u : pending_urb_t) : Z :=
  if urb_isochronous u then urb_complete_us u else next_poll_us (in_endpoint t u).

Definition poll_again (now : Z) (t : endpoint_table) (u : pending_urb_t) : endpoint_table :=
  alter (alter (set_next_poll (u64 (now + interval_us (in_endpoint t u)))) (ep_number (urb_ep u))) 1%nat t.

Definition data_reply (u : pending_urb_t) (data : bytes) : bytes :=
  ret_submit_wire (urb_seqnum u) 0 (blen data) 0 0xffffffff ++ data.

(** [pass I d now l s replies kept s']: transfers [l] in order, the replies sent, each with
    its transfer, and the transfers kept. *)
Inductive pass {D} (I : D → Prop) (d : usbip_device_t D) (now : Z) : list pending_urb_t → pass_state D →
    list (pending_urb_t * bytes) → list pending_urb_t → pass_state D → Prop :=
| pass_nil s : pass I d now [] s [] [] s
| pass_wait u l a x t timeout rs ks s' :
    now < due t u →
    pass I d now l {| ps_slots := a; ps_device := x; ps_table := t; ps_timeout := Z.min timeout (due t u - now) |} rs ks s' →
    pass I d now (u :: l) {| ps_slots := a; ps_device := x; ps_table := t; ps_timeout := timeout |} rs (u :: ks) s'
| pass_empty u l a x t timeout rs ks s' data a' :
    urb_isochronous u = false → due t u ≤ now →
    spec_fetch (ep_number (urb_ep u)) (urb_transfer_buffer_length u) a = (data, a') → data = [] →
    pass I d now l {| ps_slots := a'; ps_device := x; ps_table := t; ps_timeout := timeout |} rs ks s' →
    pass I d now (u :: l) {| ps_slots := a; ps_device := x; ps_table := t; ps_timeout := timeout |} rs (u :: ks) s'
| pass_data u l a x t timeout rs ks s' data a' :
    urb_isochronous u = false → due t u ≤ now →
    spec_fetch (ep_number (urb_ep u)) (urb_transfer_buffer_length u) a = (data, a') → data ≠ [] →
    pass I d now l {| ps_slots := a'; ps_device := x; ps_table := poll_again now t u; ps_timeout := timeout |} rs ks s' →
    pass I d now (u :: l) {| ps_slots := a; ps_device := x; ps_table := t; ps_timeout := timeout |}
      ((u, data_reply u data) :: rs) ks s'
| pass_iso u l t timeout h h' actuals data rs ks s' :
    urb_isochronous u = true → due t u ≤ now → host_idle I h →
    iso_exchange d u 0 (packets_of u) h actuals data h' → host_idle I h' →
    pass I d now l {| ps_slots := abs (lib h'); ps_device := dev h'; ps_table := t; ps_timeout := timeout |} rs ks s' →
    pass I d now (u :: l) {| ps_slots := abs (lib h); ps_device := dev h; ps_table := t; ps_timeout := timeout |}
      ((u, iso_reply_wire u actuals data) :: rs) ks s'.

(** The abstract state of a pass in a world. *)
Definition pass_of {D} (w : world D) : pass_state D :=
  {| ps_slots := abs (lib (w_host w)); ps_device := dev (w_host w); ps_table := endpoints (w_proto w);
     ps_timeout := wait_timeout_us (w_proto w) |}.

(** A bulk or interrupt transfer. *)
Definition plain (u : pending_urb_t) : Prop := urb_isochronous u = false ∧ 0 < urb_transfer_buffer_length u.

(** A transfer that is served without touching the messages of other endpoints. *)
Definition piped {D} (d : usbip_device_t D) (u : pending_urb_t) : Prop :=
  plain u ∨ urb_isochronous u = true ∧ SilentDevice d.

(** * Theorems *)

Lemma ep_number_u8 ep : ep_number (u8 ep) = ep_number ep.
Proof.
  unfold ep_number, u8. f_equal. change 0xf with (Z.ones 4). rewrite !Z.land_ones by lia.
  apply Z.mod_mod_divide. by exists (2 ^ 4).
Qed.

(** What a pass leaves alone. *)
Definition frame {D} (w w' : world D) : Prop :=
  device_imported (w_proto w') = device_imported (w_proto w) ∧ rx_buffer (w_proto w') = rx_buffer (w_proto w)
  ∧ static_urb (w_proto w') = static_urb (w_proto w) ∧ others w' = others w
  ∧ same_control (lib (w_host w)) (lib (w_host w')) ∧ same_but_tx (w_net w) (w_net w').

Lemma frame_refl {D} (w : world D) : frame w w.
Proof. done. Qed.

Lemma frame_trans {D} (w1 w2 w3 : world D) : frame w1 w2 → frame w2 w3 → frame w1 w3.
Proof.
  intros (H1 & H2 & H3 & H4 & H5 & H6) (H1' & H2' & H3' & H4' & H5' & H6').
  split_and!; try congruence; by etrans.
Qed.

Section completion.
Context {D : Type} (I : D → Prop) (d : usbip_device_t D) `{!DeviceSound I d}.
Implicit Types (w : world D).

(** The connection broke: the loop ended in the reply to a transfer [u], of which it has sent
    only a part. Up to there it was a pass, and the transfers behind [u] are still pending. *)
Definition broken_off (now : Z) (kept rest : list pending_urb_t) (w w' : world D) : Prop :=
  ∃ l1 u l2 rs ks bs k, rest = l1 ++ u :: l2
    ∧ pass I d now (l1 ++ [u]) (pass_of w) (rs ++ [(u, bs)]) ks (pass_of w')
    ∧ live (w_proto w') = kept ++ ks ++ l2
    ∧ (k < length bs)%nat ∧ sent (w_net w') = sent (w_net w) ++ concat (rs.*2) ++ take k bs.

(** The result of the loop over [rest], [kept] being the transfers already passed. *)
Definition pass_result (now : Z) (kept rest : list pending_urb_t) (w : world D) (status : bool) (w' : world D) : Prop :=
  world_ok I w' ∧ frame w w'
  ∧ (connected (w_net w) → status = true ∧ connected (w_net w'))
  ∧ (Forall (piped d) rest → clk (w_host w') = clk (w_host w))
  ∧ if status then ∃ rs ks, pass I d now rest (pass_of w) rs ks (pass_of w')
       ∧ live (w_proto w') = kept ++ ks ∧ sent (w_net w') = sent (w_net w) ++ concat (rs.*2)
    else broken_off now kept rest w w'.

(** One transfer passed without a reply. *)
Lemma pass_result_skip now kept u rest w w1 status w' :
  frame w w1 → w_net w1 = w_net w → clk (w_host w1) = clk (w_host w) →
  (∀ l rs ks s', pass I d now l (pass_of w1) rs ks s' → pass I d now (u :: l) (pass_of w) rs (u :: ks) s') →
  pass_result now (kept ++ [u]) rest w1 status w' → pass_result now kept (u :: rest) w status w'.
Proof using.
  intros Hf Hn Hd Hrule (Hw & Hf' & Hc & Hs & Hp). split; [done|]. split; [by eapply frame_trans|]. rewrite Hn in *. split; [done|].
  split; [intros [_ Hpl]%Forall_cons; rewrite <-Hd; by apply Hs|]. destruct status.
  - destruct Hp as (rs & ks & Hpass & Hl & Hsent). exists rs, (u :: ks).
    split; [by apply Hrule|]. split; [by rewrite Hl, <-app_assoc|done].
  - destruct Hp as (l1 & v & l2 & rs & ks & bs & k & -> & Hpass & Hl & Hk & Hsent). exists (u :: l1), v, l2, rs, (u :: ks), bs, k.
    split; [done|]. split; [by apply Hrule|]. rewrite Hn in Hsent. split; [by rewrite Hl, <-app_assoc|done].
Qed.

(** One transfer answered with [bs]. *)
Lemma pass_result_reply now kept u bs rest w w1 status w' :
  frame w w1 → sent (w_net w1) = sent (w_net w) ++ bs → (connected (w_net w) → connected (w_net w1)) →
  (piped d u → clk (w_host w1) = clk (w_host w)) →
  (∀ l rs ks s', pass I d now l (pass_of w1) rs ks s' → pass I d now (u :: l) (pass_of w) ((u, bs) :: rs) ks s') →
  pass_result now kept rest w1 status w' → pass_result now kept (u :: rest) w status w'.
Proof using.
  intros Hf Hs Hcn Hd Hrule (Hw & Hf' & Hc & Hsd & Hp). split; [done|]. split; [by eapply frame_trans|]. split; [tauto|].
  split; [intros [Hu Hpl]%Forall_cons; etrans; [by apply Hsd|by apply Hd]|]. destruct status.
  - destruct Hp as (rs & ks & Hpass & Hl & Hsent). exists ((u, bs) :: rs), ks.
    split; [by apply Hrule|]. split; [done|]. by rewrite Hsent, Hs, <-app_assoc.
  - destruct Hp as (l1 & v & l2 & rs & ks & bs' & k & -> & Hpass & Hl & Hk & Hsent).
    exists (u :: l1), v, l2, ((u, bs) :: rs), ks, bs', k. split; [done|]. split; [by apply (Hrule (l1 ++ [v]) (rs ++ [(v, bs')]))|].
    split; [done|]. split; [done|]. rewrite Hsent, Hs. cbn [fmap list_fmap concat]. by rewrite <-!app_assoc.
Qed.

(** A failed write ends the pass. *)
Lemma pass_result_fail now kept u bs rest w w' :
  world_ok I w' → frame w w' → (connected (w_net w) → False) → (piped d u → clk (w_host w') = clk (w_host w)) →
  (∀ l rs ks s', pass I d now l (pass_of w') rs ks s' → pass I d now (u :: l) (pass_of w) ((u, bs) :: rs) ks s') →
  live (w_proto w') = kept ++ rest → sent_part false bs (sent (w_net w)) (sent (w_net w')) →
  pass_result now kept (u :: rest) w false w'.
Proof using.
  intros Hw Hf Hc Hd Hrule Hl (k & Hk & Hsent). split; [done|]. split; [done|]. split; [by intros []%Hc|].
  split; [intros [Hu _]%Forall_cons; by apply Hd|]. exists [], u, rest, [], [], bs, k. split; [done|].
  split; [apply Hrule; constructor|done].
Qed.

(** A silent device is asked for packets without a look at the clock. *)
Lemma iso_run_still ep len total pks h acts data h' :
  SilentDevice d → iso_run d ep len total pks h acts data h' → still h h'.
Proof using.
  intros Hsil. induction 1 as [|total pk pks h window a window' h1 acts data h2 n _ Hr _ IH]; [done|].
  etrans; [|exact IH]. by eapply usbip_device_iso_in_keeps.
Qed.

Lemma iso_exchange_still u total pks h acts data h' :
  SilentDevice d → iso_exchange d u total pks h acts data h' → still h h'.
Proof using. unfold iso_exchange. intros Hsil. case_decide; [by intros (_ & _ & ->)|by apply iso_run_still]. Qed.

Lemma in_endpoint_eq w u :
  world_ok I w →
  get_endpoint 1 (urb_ep u) w = Ok (in_endpoint (endpoints (w_proto w)) u) w
  ∧ ∀ f, put_endpoint 1 (urb_ep u) (f (in_endpoint (endpoints (w_proto w)) u)) w =
      Ok tt (set_proto (set_endpoints (alter (alter f (ep_number (urb_ep u))) 1%nat (endpoints (w_proto w))) (w_proto w)) w).
Proof.
  intros Hw. destruct (get_endpoint_eq w 1 (urb_ep u)) as (e & Hg & Hl & Hp); [apply (wo_proto _ _ Hw)|lia|].
  unfold in_endpoint. rewrite Hl. done.
Qed.

(** Fetching the data of an endpoint into [tx_buffer]. *)
Lemma fetch_data_wp w u (Q : Z * bytes → world D → Prop) :
  world_ok I w → urb_ok u →
  (∀ data a' h', spec_fetch (ep_number (urb_ep u)) (urb_transfer_buffer_length u) (abs (lib (w_host w))) = (data, a') →
     blen data ≤ USBIP_MAX_PACKET_SIZE → abs (lib h') = a' → same_control (lib (w_host w)) (lib h') →
     same_device (w_host w) h' →
     world_ok I (set_proto (set_tx_buffer (splice (tx_buffer (w_proto w)) 0 data) (w_proto w)) (set_host h' w)) →
     Q (blen data, splice (tx_buffer (w_proto w)) 0 data) (set_host h' w)) →
  wp (in_host (in_lib (usbip_device_fetch_ep_data (u8 (urb_ep u)) (tx_buffer (w_proto w)) (urb_transfer_buffer_length u))))
    Q never w.
Proof using.
  intros Hw [Htbl _] HQ. destruct (po_tx _ (wo_proto _ _ Hw)) as [Htx Htxb]. destruct (wo_host _ _ Hw) as [[HI Hwf] Hl].
  destruct (fetch_spec (lib (w_host w)) (u8 (urb_ep u)) (tx_buffer (w_proto w)) (urb_transfer_buffer_length u) Hwf)
    as (s' & Hf & Habs & Hwf' & Hsame & _); [lia|rewrite blen_take by lia; lia|].
  rewrite ep_number_u8 in *. set (out := take _ _) in *.
  assert (Forall is_byte out) as Hout.
  { apply Forall_take. destruct (wf_arr_get (lib (w_host w)) (urb_ep u) Hwf) as (e & He & Hewf & _).
    rewrite (slot_of_abs _ _ _ He). by apply contents_byte. }
  assert (blen out ≤ urb_transfer_buffer_length u) as Hol by (unfold out; rewrite blen_take by lia; lia).
  unfold wp, in_host, in_lib, zoom. rewrite Hf.
  apply (HQ out (spec_fetch (ep_number (urb_ep u)) (urb_transfer_buffer_length u) (abs (lib (w_host w)))).2); try done; [lia|].
  assert (host_idle I (set_lib s' (w_host w))) as Hidle.
  { split; [done|]. destruct Hsame as (Hl' & _). cbn. congruence. }
  apply world_ok_proto; [by apply world_ok_host|]. apply proto_ok_tx; [apply Hw| |].
  - unfold blen. rewrite length_splice; unfold blen in *; lia.
  - unfold splice. rewrite !Forall_app. auto using Forall_take, Forall_drop.
Qed.

Lemma proto_ok_timeout p t : proto_ok p → 0 ≤ t ≤ WAIT_TIMEOUT_US → proto_ok (set_wait_timeout t p).
Proof. intros [] ?. by constructor. Qed.

(** The iteration of the loop for an isochronous transfer that is due. *)
Lemma complete_iso_wp now kept u rest w (k : M (world D) bool) :
  world_ok I w → live (w_proto w) = kept ++ u :: rest → urb_isochronous u = true →
  due (endpoints (w_proto w)) u ≤ now →
  (∀ w1, world_ok I w1 → live (w_proto w1) = kept ++ rest →
     wp k (pass_result now kept rest w1) never w1) →
  wp (let* status := transmit_iso_ret_submit d u in
      remove_pending_urb (blen kept);;
      if status then k else ret false) (pass_result now kept (u :: rest) w) never w.
Proof using All.
  intros Hw Hl Hiso Hdue Hk. pose proof (wo_proto _ _ Hw) as Hp. pose proof (live_length _ Hp) as Hlen.
  rewrite Hl, length_app in Hlen. simpl in Hlen.
  assert (urb_ok u) as Hu.
  { pose proof (po_live _ Hp) as HF. rewrite Hl, Forall_app, Forall_cons in HF. tauto. }
  apply wp_bind. eapply wp_post; [by apply (transmit_iso_ret_submit_wp I d)|].
  intros status w1 (Hw1 & Hp1 & Ho1 & Hc1 & Hn1 & Hconn & acts & data & Hex & Hsent).
  assert (piped d u → clk (w_host w1) = clk (w_host w)) as Hclk.
  { intros [[? _]|[_ Hsil]]; [congruence|]. by destruct (iso_exchange_still _ _ _ _ _ _ _ Hsil Hex). }
  assert (num_pending_urbs (w_proto w1) = num_pending_urbs (w_proto w)) as Hnum by (by rewrite Hp1).
  assert (live (w_proto w1) = kept ++ u :: rest) as Hl1 by (by rewrite Hp1).
  apply wp_bind. apply (remove_pending_urb_wp I); [done|unfold blen; lia|]. intros p2 Hp2 Hw2 Hl2 Heq2.
  assert (live p2 = kept ++ rest) as Hl2'.
  { rewrite Hl2, Hl1. unfold blen. rewrite Nat2Z.id. apply delete_middle. }
  assert (frame w (set_proto p2 w1)) as Hframe.
  { split_and!; cbn [w_proto set_proto w_host w_net others]; try done; by rewrite Heq2, Hp1. }
  assert (∀ l rs ks s', pass I d now l (pass_of (set_proto p2 w1)) rs ks s' →
    pass I d now (u :: l) (pass_of w) ((u, iso_reply_wire u acts data) :: rs) ks s') as Hrule.
  { intros l rs ks s' Hpass. eapply pass_iso; [done|done|apply Hw|done|apply Hw1|].
    assert (pass_of (set_proto p2 w1) = {| ps_slots := abs (lib (w_host w1)); ps_device := dev (w_host w1);
      ps_table := endpoints (w_proto w); ps_timeout := wait_timeout_us (w_proto w) |}) as <-; [|done].
    unfold pass_of. cbn [w_proto set_proto w_host]. by rewrite Heq2, Hp1. }
  destruct status.
  - eapply wp_post; [by apply Hk|]. intros st w' Hres.
    eapply pass_result_reply; [exact Hframe|exact Hsent|intros Hc; by apply Hconn|exact Hclk|exact Hrule|exact Hres].
  - apply wp_ret. eapply pass_result_fail; [done|done|intros [? _]%Hconn; done|exact Hclk|exact Hrule|done|exact Hsent].
Qed.

(** The part with data: [w1] is the state behind the fetch. *)
Lemma complete_reply_wp now kept u rest w w1 data (k1 : M (world D) bool) :
  world_ok I w1 → frame w w1 → w_net w1 = w_net w → same_device (w_host w) (w_host w1) →
  live (w_proto w1) = kept ++ u :: rest → 0 < blen data ≤ USBIP_MAX_PACKET_SIZE → take (length data) (tx_buffer (w_proto w1)) = data →
  (∀ l rs ks s', pass I d now l {| ps_slots := abs (lib (w_host w1)); ps_device := dev (w_host w1); ps_table := poll_again now (endpoints (w_proto w1)) u;
                                ps_timeout := wait_timeout_us (w_proto w1) |} rs ks s' →
     pass I d now (u :: l) (pass_of w) ((u, data_reply u data) :: rs) ks s') →
  (∀ w2, world_ok I w2 → live (w_proto w2) = kept ++ rest → wp k1 (pass_result now kept rest w2) never w2) →
  wp (put_endpoint 1 (urb_ep u) (set_next_poll (u64 (now + interval_us (in_endpoint (endpoints (w_proto w1)) u)))
        (in_endpoint (endpoints (w_proto w1)) u));;
      remove_pending_urb (blen kept);;
      let* status := transmit_ret_submit (urb_seqnum u) 0 (blen data) true in
      if status then k1 else ret false) (pass_result now kept (u :: rest) w) never w1.
Proof using All.
  intros Hw1 Hf1 Hn1 Hd1 Hl Hdl Htx Hrule Hk1. pose proof (live_length _ (wo_proto _ _ Hw1)) as Hlen.
  rewrite Hl, length_app in Hlen. simpl in Hlen.
  apply wp_bind. destruct (in_endpoint_eq w1 u Hw1) as [_ Hput].
  unfold wp at 1. rewrite (Hput (set_next_poll _)). set (w2 := set_proto _ w1).
  assert (world_ok I w2) as Hw2.
  { apply world_ok_proto; [done|]. apply (world_ok_table I); [done|]. eexists. split; [apply u64_range|by left]. }
  apply wp_bind. apply (remove_pending_urb_wp I); [done|unfold blen; change (num_pending_urbs (w_proto w2)) with (num_pending_urbs (w_proto w1)); lia|].
  intros p3 Hp3 Hw3 Hl3 Heq3. set (w3 := set_proto p3 w2) in *.
  change (live (w_proto w2)) with (live (w_proto w1)) in Hl3. rewrite Hl in Hl3. unfold blen in Hl3 at 1.
  rewrite Nat2Z.id, delete_middle in Hl3.
  apply wp_bind. eapply emits_part_wp; [apply transmit_ret_submit_emits; split; [lia|left]|].
  { change (tx_buffer (w_proto w3)) with (tx_buffer p3). rewrite (proj1 (po_tx _ Hp3)). lia. }
  intros status n4 Hs4 Hconn Hsent. set (w4 := set_net n4 w3).
  assert (world_ok I w4) as Hw4 by (by apply world_ok_write).
  assert (frame w w4) as Hf4.
  { eapply frame_trans; [exact Hf1|]. split_and!; cbn [w4 set_net w_proto w3 set_proto w_host w_net others]; try done; by rewrite Heq3. }
  cbn [w_net w3 set_proto w2] in Hconn, Hsent. rewrite Hn1 in Hconn, Hsent.
  assert (sent_part status (data_reply u data) (sent (w_net w)) (sent n4)) as Hsent'.
  { unfold data_reply. replace data with (take (Z.to_nat (blen data)) (tx_buffer (w_proto w3))) at 2; [exact Hsent|].
    change (tx_buffer (w_proto w3)) with (tx_buffer p3). rewrite Heq3. unfold blen. rewrite Nat2Z.id. exact Htx. }
  assert (∀ l rs ks s', pass I d now l (pass_of w4) rs ks s' →
    pass I d now (u :: l) (pass_of w) ((u, data_reply u data) :: rs) ks s') as Hrule4.
  { intros l rs ks s' Hpass. apply Hrule. revert Hpass. unfold pass_of. cbn [w4 set_net w_proto w3 set_proto w_host]. by rewrite Heq3. }
  destruct status.
  - eapply wp_post; [by apply Hk1|]. intros st w' Hres.
    eapply (pass_result_reply _ _ _ (data_reply u data)); [exact Hf4|exact Hsent'|intros Hc; by apply Hconn|intros _; apply Hd1|exact Hrule4|exact Hres].
  - apply wp_ret. eapply (pass_result_fail _ _ _ (data_reply u data)); [done|done|intros [? _]%Hconn; done|intros _; apply Hd1|exact Hrule4|done|exact Hsent'].
Qed.

(** The iteration for a transfer whose endpoint may be polled. *)
Lemma complete_data_wp now kept u rest w (k1 k2 : M (world D) bool) :
  world_ok I w → live (w_proto w) = kept ++ u :: rest → urb_isochronous u = false →
  due (endpoints (w_proto w)) u ≤ now →
  (∀ w1, world_ok I w1 → live (w_proto w1) = kept ++ rest → wp k1 (pass_result now kept rest w1) never w1) →
  (∀ w1, world_ok I w1 → live (w_proto w1) = kept ++ u :: rest →
     wp k2 (pass_result now (kept ++ [u]) rest w1) never w1) →
  wp (let* '(tx_length, tx') := in_host (in_lib (usbip_device_fetch_ep_data (u8 (urb_ep u)) (tx_buffer (w_proto w))
        (urb_transfer_buffer_length u))) in
      setp (set_tx_buffer tx');;
      if 0 <? tx_length then
        put_endpoint 1 (urb_ep u) (set_next_poll (u64 (now + interval_us (in_endpoint (endpoints (w_proto w)) u)))
          (in_endpoint (endpoints (w_proto w)) u));;
        remove_pending_urb (blen kept);;
        let* status := transmit_ret_submit (urb_seqnum u) 0 tx_length true in
        if status then k1 else ret false
      else k2) (pass_result now kept (u :: rest) w) never w.
Proof using All.
  intros Hw Hl Hiso Hdue Hk1 Hk2. pose proof (wo_proto _ _ Hw) as Hp. pose proof (live_length _ Hp) as Hlen.
  rewrite Hl, length_app in Hlen. simpl in Hlen.
  assert (urb_ok u) as Hu.
  { pose proof (po_live _ Hp) as HF. rewrite Hl, Forall_app, Forall_cons in HF. tauto. }
  apply wp_bind. apply fetch_data_wp; [done|done|]. intros data a' h' Hfetch Hdl Habs Hsame Hdev Hw1.
  apply wp_bind, wp_modify. cbn [w_proto set_host]. set (w1 := set_proto _ (set_host h' w)) in *.
  assert (frame w w1) as Hf1 by done.
  destruct (Z.ltb_spec 0 (blen data)) as [Hpos|Hnone].
  - assert (data ≠ []) as Hne by (intros ->; done).
    change (in_endpoint (endpoints (w_proto w)) u) with (in_endpoint (endpoints (w_proto w1)) u).
    apply complete_reply_wp; [done|done|done|done|done|lia| |intros l rs ks s' Hpass|done].
    + cbn [w1 w_proto set_proto tx_buffer set_tx_buffer]. apply splice_0_take.
    + eapply pass_data; [done|done|exact Hfetch|done|]. change (dev (w_host w1)) with (dev h') in Hpass.
      rewrite (proj1 Hdev) in Hpass. rewrite <-Habs. exact Hpass.
  - assert (data = []) as Hnil by (destruct data; [done|unfold blen in Hnone; simpl in Hnone; lia]).
    eapply wp_post; [by apply Hk2|]. intros st w' Hres. eapply (pass_result_skip _ _ _ _ w w1); [done|done|apply Hdev| |exact Hres].
    intros l rs ks s' Hpass. eapply pass_empty; [done|done|exact Hfetch|done|].
    assert (pass_of w1 = {| ps_slots := a'; ps_device := dev (w_host w); ps_table := endpoints (w_proto w); ps_timeout := wait_timeout_us (w_proto w) |}) as <-; [|done].
    unfold pass_of. rewrite <-Habs, <-(proj1 Hdev). done.
Qed.

Lemma complete_loop_wp fuel now kept rest w :
  world_ok I w → live (w_proto w) = kept ++ rest → (length rest ≤ fuel)%nat → 0 ≤ now →
  wp (complete_loop fuel d now (blen kept)) (pass_result now kept rest w) never w.
Proof using All.
  revert kept rest w. induction fuel as [|fuel IH]; intros kept rest w Hw Hl Hf Hnow; cbn [complete_loop];
    apply wp_bind, wp_gets; pose proof (wo_proto _ _ Hw) as Hp; pose proof (live_length _ Hp) as Hlen;
    rewrite Hl, length_app in Hlen; pose proof (po_num _ Hp) as Hn.
  all: destruct rest as [|u rest]; simpl in Hlen, Hf; [|try lia].
  all: try (rewrite (proj2 (Z.ltb_ge _ _)) by (unfold blen; lia); apply wp_ret; split; [done|]; split; [done|];
    split; [done|]; split; [done|]; exists [], []; rewrite !app_nil_r in *; by split; [constructor|]).
  rewrite (proj2 (Z.ltb_lt _ _)) by (unfold blen; lia).
  assert (live (w_proto w) !! Z.to_nat (blen kept) = Some u) as Hu.
  { rewrite Hl. unfold blen. rewrite Nat2Z.id. by apply list_lookup_middle. }
  rewrite (live_get _ (blen kept) u Hp) by (done || unfold blen; lia). apply wp_bind, wp_liftC, cwp_ret.
  apply wp_bind. destruct (in_endpoint_eq w u Hw) as [Hge _]. unfold wp at 1. rewrite Hge.
  fold (due (endpoints (w_proto w)) u). destruct (Z.ltb_spec now (due (endpoints (w_proto w)) u)) as [Hwait|Hdue].
  - apply wp_bind. set (t := due (endpoints (w_proto w)) u - now).
    pose proof (po_timeout _ Hp) as Ht.
    eapply (wp_post _ (λ _ w1, w1 = set_proto (set_wait_timeout (Z.min (wait_timeout_us (w_proto w)) t) (w_proto w)) w)).
    { destruct (Z.ltb_spec t (wait_timeout_us (w_proto w))).
      - apply wp_modify. by rewrite Z.min_r by lia.
      - apply wp_ret. rewrite Z.min_l by lia. by destruct w as [? ? [] ?]. }
    intros _ w1 ->. set (w1 := set_proto _ w). assert (world_ok I w1) as Hw1.
    { apply world_ok_proto; [done|]. apply proto_ok_timeout; [done|]. unfold t. lia. }
    replace (blen kept + 1) with (blen (kept ++ [u])) by (rewrite blen_app; done).
    eapply wp_post; [apply (IH (kept ++ [u]) rest w1); [done|by rewrite <-app_assoc|lia|done]|].
    intros st w' Hres. eapply (pass_result_skip _ _ _ _ w w1); [done|done|done| |exact Hres].
    intros l rs ks s' Hpass. by apply pass_wait.
  - destruct (urb_isochronous u) eqn:Hiso.
    + apply complete_iso_wp; [done|done|done|done|]. intros w1 Hw1 Hl1. apply IH; [done|done|lia|done].
    + apply complete_data_wp; [done|done|done|done|..].
      * intros w1 Hw1 Hl1. apply IH; [done|done|lia|done].
      * intros w1 Hw1 Hl1. replace (blen kept + 1) with (blen (kept ++ [u])) by (rewrite blen_app; done).
        apply IH; [done|by rewrite <-app_assoc|lia|done].
Qed.

(** [complete_pending_urbs] is a pass at the time of its clock reading, with the wake-up
    time starting at its maximum. *)
Definition pass_start (w : world D) : pass_state D :=
  {| ps_slots := abs (lib (w_host w)); ps_device := dev (w_host w); ps_table := endpoints (w_proto w); ps_timeout := WAIT_TIMEOUT_US |}.

Lemma complete_pending_urbs_wp w :
  world_ok I w →
  wp (complete_pending_urbs d)
    (λ status w', world_ok I w' ∧ frame w w'
       ∧ (connected (w_net w) → status = true ∧ connected (w_net w'))
       ∧ (Forall (piped d) (live (w_proto w)) → last_us (clk (w_host w')) = clock_us (clk (w_host w)))
       ∧ if status then ∃ rs,
            pass I d (clock_us (clk (w_host w))) (live (w_proto w)) (pass_start w) rs (live (w_proto w')) (pass_of w')
            ∧ sent (w_net w') = sent (w_net w) ++ concat (rs.*2)
         else ∃ l1 u l2 rs ks bs k, live (w_proto w) = l1 ++ u :: l2
            ∧ pass I d (clock_us (clk (w_host w))) (l1 ++ [u]) (pass_start w) (rs ++ [(u, bs)]) ks (pass_of w')
            ∧ live (w_proto w') = ks ++ l2
            ∧ (k < length bs)%nat ∧ sent (w_net w') = sent (w_net w) ++ concat (rs.*2) ++ take k bs) never w.
Proof using All.
  intros Hw. unfold complete_pending_urbs. apply wp_bind. destruct (now_us_eq w) as (c & Hnow & Hlast).
  set (now := clock_us (clk (w_host w))) in *. assert (0 ≤ now) by apply clock_us_range. unfold wp at 1. rewrite Hnow. apply wp_bind, wp_modify. cbn [w_proto set_host]. set (w1 := set_proto _ _).
  assert (world_ok I w1) as Hw1.
  { apply world_ok_proto; [apply world_ok_host; [done|]; apply Hw|]. apply proto_ok_timeout; [apply Hw|done]. }
  apply wp_bind, wp_gets. pose proof (live_length _ (wo_proto _ _ Hw1)) as Hlen.
  eapply wp_post; [apply (complete_loop_wp _ now [] (live (w_proto w1)) w1); [done|done|lia|lia]|].
  intros status w' (Hw' & Hf & Hc & Hd & Hp). split; [done|]. split; [exact Hf|]. split; [done|].
  split; [intros Hpl; by rewrite (Hd Hpl)|]. destruct status; [|exact Hp].
  destruct Hp as (rs & ks & Hpass & Hl & Hsent). simpl in Hl. subst ks. exists rs. split; [exact Hpass|done].
Qed.
End completion.

(** ** Properties of a pass *)

(** [replies] and [kept] are complementary parts of [l], each in the order of [l]. *)
Inductive merge {A} : list A → list A → list A → Prop :=
| merge_nil : merge [] [] []
| merge_left x l1 l2 l : merge l1 l2 l → merge (x :: l1) l2 (x :: l)
| merge_right x l1 l2 l : merge l1 l2 l → merge l1 (x :: l2) (x :: l).

Lemma idle_slots {D} (I : D → Prop) (h : host D) : host_idle I h → length (slot (abs (lib h))) = 16%nat.
Proof. intros [[_ Hwf] _]. cbn. by rewrite length_fmap, (wf_count _ Hwf). Qed.

Section passes.
Context {D : Type} {I : D → Prop} {d : usbip_device_t D}.

Lemma pass_merge now l s rs ks s' : pass I d now l s rs ks s' → merge (rs.*1) ks l.
Proof. induction 1; simpl; by constructor. Qed.

Lemma merge_Permutation {A} (l1 l2 l : list A) : merge l1 l2 l → l ≡ₚ l1 ++ l2.
Proof. induction 1; simpl; [done|by constructor|]. rewrite <-Permutation_middle. by constructor. Qed.

(** Each reply starts with the message that answers its own transfer, successfully. *)
Lemma pass_replies now l s rs ks s' :
  pass I d now l s rs ks s' →
  Forall (λ r, ∃ body, r.2 = header_wire USBIP_RET_SUBMIT (urb_seqnum r.1) 0 0 0 ++ be_bytes 4 0 ++ body) rs.
Proof.
  induction 1; try done; constructor; try done; cbn [fst snd]; unfold data_reply, iso_reply_wire, ret_submit_wire;
    rewrite <-!app_assoc; eexists; reflexivity.
Qed.

(** Looking up another endpoint after a poll. *)
Lemma poll_again_lookup now t u key :
  table_lookup (poll_again now t u) key =
    if decide (key = key_of 1 (urb_ep u))
    then set_next_poll (u64 (now + interval_us (in_endpoint t u))) <$> table_lookup t key
    else table_lookup t key.
Proof.
  destruct key as [i j]. unfold table_lookup, poll_again, key_of. cbn [fst snd]. change (Z.to_nat 1) with 1%nat.
  destruct (decide (i = 1%nat)) as [->|Hi].
  - rewrite list_lookup_alter_eq. destruct (t !! 1%nat) as [row|]; cbn; [|by case_decide].
    case_decide as Hd; [injection Hd as ->; by rewrite list_lookup_alter_eq|].
    rewrite list_lookup_alter_ne; [done|]. congruence.
  - rewrite decide_False by congruence. by rewrite list_lookup_alter_ne.
Qed.

Lemma pass_times_grow now l s rs ks s' key e :
  pass I d now l s rs ks s' → table_lookup (ps_table s) key = Some e →
  ∃ e', table_lookup (ps_table s') key = Some e' ∧ interval_us e' = interval_us e ∧ ep_type e' = ep_type e
    ∧ (next_poll_us e' = next_poll_us e ∨ next_poll_us e' = u64 (now + interval_us e)).
Proof.
  intros Hp. revert e. induction Hp; intros e He; cbn [ps_table] in *; eauto 10.
  pose proof (poll_again_lookup now t u key) as Hk. rewrite He in Hk. cbn in Hk. case_decide as Hd; [|by eauto].
  assert (in_endpoint t u = e) as Hin by (unfold in_endpoint; rewrite <-Hd, He; done).
  destruct (IHHp _ Hk) as (e' & E1 & E2 & E3 & E4). exists e'. rewrite Hin in *. cbn in *.
  split; [done|]. split; [done|]. split; [done|]. right. destruct E4; done.
Qed.

(** An endpoint that may not be polled yet gets no reply during the pass. *)
Definition on_endpoint (key : nat * nat) (u : pending_urb_t) : Prop :=
  urb_isochronous u = false ∧ key_of 1 (urb_ep u) = key.

#[global] Instance on_endpoint_dec key u : Decision (on_endpoint key u).
Proof. unfold on_endpoint. apply _. Defined.

Lemma due_on_endpoint t u key e :
  on_endpoint key u → table_lookup t key = Some e → due t u = next_poll_us e.
Proof. intros [Hiso <-] He. unfold due, in_endpoint. by rewrite Hiso, He. Qed.

Lemma pass_not_due now l s rs ks s' key e :
  pass I d now l s rs ks s' → table_lookup (ps_table s) key = Some e → now < next_poll_us e →
  Forall (λ r, ¬ on_endpoint key r.1) rs ∧ table_lookup (ps_table s') key = Some e.
Proof.
  induction 1 as [s|u l a x t to rs ks s' Hw _ IH|u l a x t to rs ks s' data a' Hiso Hdue Hf Hd _ IH
    |u l a x t to rs ks s' data a' Hiso Hdue Hf Hd _ IH|u l t to h h' acts data rs ks s' Hiso Hdue Hh Hex Hh' Hp IH];
    intros He Hlt; cbn [ps_table] in *; auto.
  - assert (¬ on_endpoint key u) as Hon.
    { intros Hon. rewrite (due_on_endpoint t u key e) in Hdue by done. lia. }
    destruct IH as [IH1 IH2]; [|done|].
    + rewrite poll_again_lookup, decide_False; [done|]. intros ->. by apply Hon.
    + split; [by constructor|done].
  - destruct IH as [IH1 IH2]; [done|done|]. split; [|done]. constructor; [|done]. intros [? _]. cbn in *. congruence.
Qed.

(** At most one transfer per pass completes on an endpoint with a polling interval. *)
Lemma pass_paced now l s rs ks s' key e :
  pass I d now l s rs ks s' → table_lookup (ps_table s) key = Some e →
  0 < interval_us e → 0 ≤ now → now + interval_us e < 2 ^ 64 →
  (length (filter (λ r, on_endpoint key r.1) rs) ≤ 1)%nat.
Proof.
  induction 1 as [s|u l a x t to rs ks s' Hw _ IH|u l a x t to rs ks s' data a' Hiso Hdue Hf Hd _ IH
    |u l a x t to rs ks s' data a' Hiso Hdue Hf Hd Hp IH|u l t to h h' acts data rs ks s' Hiso Hdue Hh Hex Hh' Hp IH];
    intros He Hi H0 Hlt; cbn [ps_table] in *; auto.
  - rewrite filter_cons. case_decide as Hon; cbn [fst] in Hon.
    + pose proof (poll_again_lookup now t u key) as Hk. rewrite He, decide_True in Hk by (symmetry; apply Hon). cbn in Hk.
      assert (in_endpoint t u = e) as Hin by (unfold in_endpoint; destruct Hon as [_ ->]; by rewrite He).
      destruct (pass_not_due _ _ _ _ _ _ _ _ Hp Hk) as [HF _].
      { cbn. rewrite Hin. unfold u64. rewrite Z.mod_small by lia. lia. }
      cbn [length]. assert (filter (λ r, on_endpoint key r.1) rs = []) as ->; [|cbn; lia].
      clear -HF. induction HF as [|r rs Hr _ IH]; [done|]. by rewrite filter_cons_False.
    + assert (key ≠ key_of 1 (urb_ep u)) as Hne by (intros ->; by apply Hon).
      apply IH; [|done..]. by rewrite poll_again_lookup, decide_False.
  - rewrite filter_cons_False; [by apply IH|]. intros [? _]. cbn in *. congruence.
Qed.

(** The data of a reply, behind its 48 bytes of headers. *)
Definition reply_data (r : pending_urb_t * bytes) : bytes := drop 48 r.2.

Lemma reply_data_eq u data : reply_data (u, data_reply u data) = data.
Proof.
  unfold reply_data, data_reply. cbn [snd]. rewrite ret_submit_wire_split.
  pose proof (blen_header_wire USBIP_RET_SUBMIT (urb_seqnum u) 0 0 0) as H1.
  pose proof (blen_ret_submit_body 0 (blen data) 0 4294967295) as H2.
  apply drop_app_length'. rewrite length_app. unfold blen in *. lia.
Qed.

Lemma spec_fetch_slot k j n a data a' :
  spec_fetch j n a = (data, a') → k ≠ 0%nat → (j < length (slot a))%nat →
  (if decide (k = j) then data ++ slot_of k a' = slot_of k a else slot_of k a' = slot_of k a)
  ∧ length (slot a') = length (slot a) ∧ (data = [] → 0 < n → slot_of j a = []).
Proof.
  unfold spec_fetch. intros [= <- <-] Hk Hj. rewrite slot_of_set_slot. split.
  - destruct (decide (k = j)) as [->|Hne].
    + rewrite decide_True by done. rewrite decide_False by done. apply take_drop.
    + by rewrite decide_False by tauto.
  - cbn [slot set_slot]. rewrite length_insert. split; [done|]. intros Hnil Hn.
    destruct (slot_of j a); [done|]. destruct (Z.to_nat n) eqn:E; [lia|done].
Qed.

(** The bytes of an endpoint: what the replies carry, then what is left. *)
Lemma pass_conserves now l s rs ks s' k :
  pass I d now l s rs ks s' → Forall plain l → k ≠ 0%nat → length (slot (ps_slots s)) = 16%nat →
  concat (reply_data <$> filter (λ r, ep_number (urb_ep r.1) = k) rs) ++ slot_of k (ps_slots s') = slot_of k (ps_slots s).
Proof.
  induction 1 as [s|u l a x t to rs ks s' Hw _ IH|u l a x t to rs ks s' data a' Hiso Hdue Hf Hd _ IH
    |u l a x t to rs ks s' data a' Hiso Hdue Hf Hd Hp IH|u l t to h h' acts data rs ks s' Hiso Hdue Hh Hex Hh' Hp IH];
    intros Hpl Hk Hlen; [done|apply Forall_cons in Hpl as [Hu Hpl]..]; cbn [ps_slots] in *.
  - by apply IH.
  - pose proof (ep_number_lt (urb_ep u)).
    destruct (spec_fetch_slot k _ _ _ _ _ Hf) as (H1 & H2 & _); [done|lia|]. rewrite IH by (done || congruence).
    destruct (decide (k = ep_number (urb_ep u))); [|done]. by rewrite Hd in H1.
  - pose proof (ep_number_lt (urb_ep u)).
    destruct (spec_fetch_slot k _ _ _ _ _ Hf) as (H1 & H2 & _); [done|lia|].
    rewrite filter_cons. cbn [fst]. specialize (IH Hpl Hk ltac:(congruence)).
    destruct (decide (ep_number (urb_ep u) = k)) as [Hon|Hon].
    + rewrite decide_True in H1 by done. cbn [fmap list_fmap concat]. by rewrite reply_data_eq, <-app_assoc, IH.
    + rewrite decide_False in H1 by done. by rewrite IH.
  - destruct Hu. congruence.
Qed.

Lemma spec_fetch_empty k j n a data a' :
  spec_fetch j n a = (data, a') → slot_of k a = [] → slot_of k a' = [].
Proof.
  unfold spec_fetch. intros [= <- <-] Hk. rewrite slot_of_set_slot. case_decide as Hd; [|done].
  destruct Hd as [-> _]. case_decide; [done|]. by rewrite Hk, drop_nil.
Qed.

Lemma pass_keeps_empty now l s rs ks s' k :
  pass I d now l s rs ks s' → Forall (piped d) l → slot_of k (ps_slots s) = [] → slot_of k (ps_slots s') = [].
Proof.
  induction 1 as [s|u l a x t to rs ks s' Hw _ IH|u l a x t to rs ks s' data a' Hiso Hdue Hf Hd _ IH
    |u l a x t to rs ks s' data a' Hiso Hdue Hf Hd Hp IH|u l t to h h' acts data rs ks s' Hiso Hdue Hh Hex Hh' Hp IH];
    intros Hpl Hk; [done|apply Forall_cons in Hpl as [Hu Hpl]..]; cbn [ps_slots] in *; auto.
  - apply IH; [done|]. by eapply spec_fetch_empty.
  - apply IH; [done|]. by eapply spec_fetch_empty.
  - destruct Hu as [[? _]|[_ Hsil]]; [congruence|]. apply IH; [done|].
    by rewrite (still_slot _ _ k (iso_exchange_still _ _ _ _ _ _ _ _ Hsil Hex)).
Qed.

Lemma pass_timeout_le now l s rs ks s' : pass I d now l s rs ks s' → ps_timeout s' ≤ ps_timeout s.
Proof. induction 1; cbn [ps_timeout] in *; lia. Qed.

Lemma pass_slot_count now l s rs ks s' :
  pass I d now l s rs ks s' → length (slot (ps_slots s')) = length (slot (ps_slots s)).
Proof using.
  induction 1; cbn [ps_slots] in *; rewrite ?IHpass; try done.
  - unfold spec_fetch in *. simplify_eq. cbn [slot set_slot]. by rewrite length_insert.
  - unfold spec_fetch in *. simplify_eq. cbn [slot set_slot]. by rewrite length_insert.
  - by rewrite !(idle_slots I).
Qed.

(** A transfer that is kept has no data to deliver, or it is not due, since its endpoint may
    not be polled yet or its packets take longer, and the server wakes up in time for it. *)
Definition rightly_kept (now : Z) (s : pass_state D) (u : pending_urb_t) : Prop :=
  (urb_isochronous u = false ∧ slot_of (ep_number (urb_ep u)) (ps_slots s) = [])
  ∨ now < due (ps_table s) u ∧ ps_timeout s ≤ due (ps_table s) u - now.

Lemma pass_exhaustive now l s rs ks s' :
  pass I d now l s rs ks s' → Forall (piped d) l → 0 ≤ now → length (slot (ps_slots s)) = 16%nat →
  Forall (rightly_kept now s') ks.
Proof.
  induction 1 as [s|u l a x t to rs ks s' Hw Hp IH|u l a x t to rs ks s' data a' Hiso Hdue Hf Hd Hp IH
    |u l a x t to rs ks s' data a' Hiso Hdue Hf Hd Hp IH|u l t to h h' acts data rs ks s' Hiso Hdue Hh Hex Hh' Hp IH];
    intros Hpl Hnow Hlen; [done|apply Forall_cons in Hpl as [Hu Hpl]..]; cbn [ps_slots] in *.
  - constructor; [|by apply IH]. right. pose proof (pass_timeout_le _ _ _ _ _ _ Hp) as Ht. cbn in Ht.
    unfold due in *. destruct (urb_isochronous u); [lia|]. unfold in_endpoint in *.
    destruct (table_lookup t (key_of 1 (urb_ep u))) as [e|] eqn:He; [|simpl in Hw; lia].
    destruct (pass_not_due _ _ _ _ _ _ _ e Hp He) as [_ ->]; [done|]. cbn in *. lia.
  - pose proof (ep_number_lt (urb_ep u)). constructor.
    + left. split; [done|]. destruct Hu as [[_ Hu]|[? _]]; [|congruence]. eapply pass_keeps_empty; [done|done|]. cbn. eapply spec_fetch_empty; [done|].
      destruct (spec_fetch_slot 1 _ _ _ _ _ Hf) as (_ & _ & H3); [done|lia|auto].
    + apply IH; [done|done|]. unfold spec_fetch in Hf. simplify_eq. cbn. by rewrite length_insert.
  - apply IH; [done|done|]. unfold spec_fetch in Hf. simplify_eq. cbn. by rewrite length_insert.
  - apply IH; [done|done|]. by apply (idle_slots I).
Qed.
End passes.

(** ** Properties of the code *)

Section properties.
Context {D : Type} (I : D → Prop) (d : usbip_device_t D) `{!DeviceSound I d}.

Lemma complete_pending_urbs_connected (w : world D) :
  world_ok I w → connected (w_net w) →
  ∃ w' rs, complete_pending_urbs d w = Ok true w'
    ∧ pass I d (clock_us (clk (w_host w))) (live (w_proto w)) (pass_start w) rs (live (w_proto w')) (pass_of w')
    ∧ sent (w_net w') = sent (w_net w) ++ concat (rs.*2)
    ∧ world_ok I w' ∧ frame w w' ∧ connected (w_net w')
    ∧ (Forall (piped d) (live (w_proto w)) → last_us (clk (w_host w')) = clock_us (clk (w_host w))).
Proof using All.
  intros Hw Hc. pose proof (complete_pending_urbs_wp I d w Hw) as H.
  apply wp_never_Ok in H as (status & w' & Hr & Hw' & Hf & Hconn & Hd & Hp). destruct (Hconn Hc) as [-> Hc'].
  destruct Hp as (rs & Hpass & Hsent). exists w', rs. done.
Qed.

Lemma pass_start_slots (w : world D) : world_ok I w → length (slot (ps_slots (pass_start w))) = 16%nat.
Proof using. intros Hw. apply (idle_slots I), Hw. Qed.

Lemma plain_piped l : Forall plain l → Forall (piped d) l.
Proof using. intros H. eapply Forall_impl; [exact H|]. intros u. by left. Qed.

(** C8: whatever the connection does, the in-place loop of [complete_pending_urbs] ends and
    implements one pass of the specification over the pending transfers. On a working
    connection it is a whole pass: exactly its replies are sent, in its order, the array
    then holds exactly the transfers the pass keeps, and message slots, polling times and
    wake-up time are those of the pass. If the connection breaks it is a pass up to the
    transfer whose reply could not be sent: the replies before, and a part of that one,
    are sent, and the transfers behind it stay pending. Everything else of the server's
    state is left alone. *)
Theorem complete_pending_urbs_refines_pass (w : world D) :
  world_ok I w →
  let now := clock_us (clk (w_host w)) in
  ∃ status w', complete_pending_urbs d w = Ok status w'
    ∧ world_ok I w' ∧ frame w w'
    ∧ (connected (w_net w) → status = true ∧ connected (w_net w'))
    ∧ if status then ∃ rs,
        pass I d now (live (w_proto w)) (pass_start w) rs (live (w_proto w')) (pass_of w')
        ∧ sent (w_net w') = sent (w_net w) ++ concat (rs.*2)
      else ∃ l1 u l2 rs ks bs k, live (w_proto w) = l1 ++ u :: l2
        ∧ pass I d now (l1 ++ [u]) (pass_start w) (rs ++ [(u, bs)]) ks (pass_of w')
        ∧ live (w_proto w') = ks ++ l2
        ∧ (k < length bs)%nat ∧ sent (w_net w') = sent (w_net w) ++ concat (rs.*2) ++ take k bs.
Proof using All.
  intros Hw now. pose proof (complete_pending_urbs_wp I d w Hw) as H.
  apply wp_never_Ok in H as (status & w' & Hr & Hw' & Hf & Hc & _ & Hp). exists status, w'. done.
Qed.

(** C10: completing neither loses nor repeats a transfer: the transfers answered and the
    transfers still pending together are the ones that were pending, both in the order
    they were queued, and each reply is a successful RET_SUBMIT with the sequence number
    of its own transfer. *)
Theorem completion_answers_each_transfer_once (w : world D) :
  world_ok I w → connected (w_net w) →
  ∃ w' rs, complete_pending_urbs d w = Ok true w'
    ∧ pass I d (clock_us (clk (w_host w))) (live (w_proto w)) (pass_start w) rs (live (w_proto w')) (pass_of w')
    ∧ merge (rs.*1) (live (w_proto w')) (live (w_proto w))
    ∧ live (w_proto w) ≡ₚ rs.*1 ++ live (w_proto w')
    ∧ sent (w_net w') = sent (w_net w) ++ concat (rs.*2)
    ∧ Forall (λ r, ∃ body, r.2 = header_wire USBIP_RET_SUBMIT (urb_seqnum r.1) 0 0 0 ++ be_bytes 4 0 ++ body) rs.
Proof using All.
  intros Hw Hc. destruct (complete_pending_urbs_connected w Hw Hc) as (w' & rs & Hr & Hp & Hs & _).
  pose proof (pass_merge _ _ _ _ _ _ Hp) as Hm. exists w', rs. split; [done|]. split; [done|]. split; [done|].
  split; [by apply merge_Permutation|]. split; [done|]. by eapply pass_replies.
Qed.

(** With bulk and interrupt transfers pending, completing loses no byte and delivers all
    it can: on every endpoint the data of the replies, in order, followed by what is left
    unread, is what was unread before; and a transfer that stays pending has no data
    waiting, or its endpoint may not be polled yet and the next wait ends in time for it. *)
Theorem completion_delivers_everything_due (w : world D) :
  world_ok I w → connected (w_net w) → Forall plain (live (w_proto w)) →
  ∃ w' rs, complete_pending_urbs d w = Ok true w'
    ∧ pass I d (clock_us (clk (w_host w))) (live (w_proto w)) (pass_start w) rs (live (w_proto w')) (pass_of w')
    ∧ sent (w_net w') = sent (w_net w) ++ concat (rs.*2)
    ∧ (∀ k, k ≠ 0%nat →
         concat (reply_data <$> filter (λ r, ep_number (urb_ep r.1) = k) rs) ++ slot_of k (abs (lib (w_host w')))
         = slot_of k (abs (lib (w_host w))))
    ∧ Forall (rightly_kept (clock_us (clk (w_host w))) (pass_of w')) (live (w_proto w')).
Proof using All.
  intros Hw Hc Hpl. destruct (complete_pending_urbs_connected w Hw Hc) as (w' & rs & Hr & Hp & Hs & _).
  pose proof (pass_start_slots w Hw) as Hlen. exists w', rs. split; [done|]. split; [done|]. split; [done|]. split.
  - intros k Hk. by apply (pass_conserves _ _ _ _ _ _ k Hp).
  - eapply pass_exhaustive; [done|by apply plain_piped|apply clock_us_range|done].
Qed.

(** C28: an endpoint with a polling interval completes at most one transfer per pass, and
    none before its polling time, like an interrupt endpoint on a real bus. *)
Theorem paced_endpoints_complete_once_per_interval (w : world D) key e :
  world_ok I w → connected (w_net w) → table_lookup (endpoints (w_proto w)) key = Some e →
  let now := clock_us (clk (w_host w)) in
  0 < interval_us e → now + interval_us e < 2 ^ 64 →
  ∃ w' rs, complete_pending_urbs d w = Ok true w'
    ∧ pass I d now (live (w_proto w)) (pass_start w) rs (live (w_proto w')) (pass_of w')
    ∧ ((length (filter (λ r, on_endpoint key r.1) rs) ≤ 1)%nat)
    ∧ (now < next_poll_us e → Forall (λ r, ¬ on_endpoint key r.1) rs)
    ∧ sent (w_net w') = sent (w_net w) ++ concat (rs.*2).
Proof using All.
  intros Hw Hc He now Hi Hlt. destruct (complete_pending_urbs_connected w Hw Hc) as (w' & rs & Hr & Hp & Hs & _).
  exists w', rs. split; [done|]. split; [done|]. split; [|split; [|done]].
  - eapply pass_paced; [done|done|done|apply clock_us_range|done].
  - intros Hearly. by eapply pass_not_due.
Qed.
End properties.

(** ** Witnesses: the bulk device with three unread bytes and two pending transfers *)

Definition sample_urb (seqnum : Z) : pending_urb_t :=
  {| urb_seqnum := seqnum; urb_ep := 1; urb_direction := 1; urb_transfer_buffer_length := 512; urb_isochronous := false;
     urb_start_frame := 0; urb_number_of_packets := 0; urb_complete_us := 0; urb_packets := [] |}.

Definition unread_lib : device_state :=
  set_endpoint_data (<[1%nat := {| data := [1; 2; 3] ++ replicate 509 0; data_length := 3 |}]>
    (endpoint_data initial_device_state)) initial_device_state.

Definition pending_world : world Bulk.state :=
  {| w_host := set_lib unread_lib Bulk.initial_host; w_net := bulk_net [];
     w_proto := set_pending ([sample_urb 4; sample_urb 5] ++ replicate 30 zero_urb) 2 initial_proto; others := [] |}.

Lemma pending_world_ok : world_ok Bulk.inv pending_world.
Proof.
  constructor; [|by split; constructor| |constructor].
  - split; [|done]. split; [apply Bulk.inv_initial_state|]. cbn [w_host pending_world lib set_lib].
    destruct wf_initial_device_state as []. constructor; try done; cbn [unread_lib set_endpoint_data endpoint_data].
    apply Forall_insert; [done|]. split; [done|]. split; [done|]. apply Forall_app. split; [by repeat constructor|by apply Forall_replicate].
  - apply (proto_ok_pending _ _ _ [sample_urb 4; sample_urb 5]); [apply initial_proto_ok|done|done|done|].
    repeat constructor; done.
Qed.

Lemma complete_pending_urbs_refines_pass_witness :
  ∃ w' (rs : list (pending_urb_t * bytes)), complete_pending_urbs Bulk.bulk_device pending_world = Ok true w'
    ∧ sent (w_net w') = concat (rs.*2).
Proof.
  destruct (complete_pending_urbs_refines_pass Bulk.inv Bulk.bulk_device pending_world) as (status & w' & H1 & _ & _ & Hc & H2).
  - exact pending_world_ok.
  - destruct Hc as [-> _]; [by split; [|constructor]|]. destruct H2 as (rs & _ & H2). exists w', rs. split; [exact H1|exact H2].
Defined.

Lemma completion_answers_each_transfer_once_witness :
  ∃ w' (rs : list (pending_urb_t * bytes)), complete_pending_urbs Bulk.bulk_device pending_world = Ok true w'
    ∧ [sample_urb 4; sample_urb 5] ≡ₚ rs.*1 ++ live (w_proto w').
Proof.
  destruct (completion_answers_each_transfer_once Bulk.inv Bulk.bulk_device pending_world) as (w' & rs & H1 & _ & _ & H2 & _).
  - exact pending_world_ok.
  - split; [reflexivity|constructor].
  - exists w', rs. split; [exact H1|exact H2].
Defined.

Lemma completion_delivers_everything_due_witness :
  ∃ w' (rs : list (pending_urb_t * bytes)), complete_pending_urbs Bulk.bulk_device pending_world = Ok true w'
    ∧ concat (reply_data <$> filter (λ r, ep_number (urb_ep r.1) = 1%nat) rs) ++ slot_of 1 (abs (lib (w_host w'))) = [1; 2; 3].
Proof.
  destruct (completion_delivers_everything_due Bulk.inv Bulk.bulk_device pending_world) as (w' & rs & H1 & _ & _ & H2 & _).
  - exact pending_world_ok.
  - split; [reflexivity|constructor].
  - repeat constructor.
  - exists w', rs. split; [exact H1|]. rewrite (H2 1%nat) by discriminate. vm_compute. reflexivity.
Defined.

(** The same with an 8 ms interval on endpoint 1. *)
Definition paced_endpoint : endpoint_t := {| ep_type := 3; interval_us := 8000; next_poll_us := 0; stream_end_us := 0 |}.
Definition paced_world : world Bulk.state :=
  set_proto (set_endpoints (alter (alter (λ _, paced_endpoint) 1%nat) 1%nat zero_table) (w_proto pending_world)) pending_world.

Lemma paced_world_ok : world_ok Bulk.inv paced_world.
Proof.
  apply world_ok_proto; [apply pending_world_ok|].
  assert (wf_table (alter (alter (λ _, paced_endpoint) 1%nat) 1%nat zero_table)) as Ht.
  { apply wf_table_alter; [apply wf_zero_table|]. intros e _. done. }
  destruct (wo_proto _ _ pending_world_ok). by constructor.
Qed.

Lemma paced_endpoints_complete_once_per_interval_witness :
  ∃ w' (rs : list (pending_urb_t * bytes)), complete_pending_urbs Bulk.bulk_device paced_world = Ok true w'
    ∧ (length (filter (λ r, on_endpoint (1%nat, 1%nat) r.1) rs) ≤ 1)%nat.
Proof.
  destruct (paced_endpoints_complete_once_per_interval Bulk.inv Bulk.bulk_device paced_world (1%nat, 1%nat) paced_endpoint)
    as (w' & rs & H1 & _ & H2 & _).
  - exact paced_world_ok.
  - split; [reflexivity|constructor].
  - reflexivity.
  - reflexivity.
  - reflexivity.
  - exists w', rs. split; [exact H1|exact H2].
Defined.
