(* ===== verification/ProtocolEntry.v ===== *)
(** * What a client observes (entry points of src/lib/usbip_protocol.c)

    The two functions the server thread calls, [usbip_protocol_process_cmd] before a
    device is imported and [usbip_protocol_process_imported_device] after. First
    their safety for arbitrary clients, then their behaviour for well-formed
    commands, stated on the bytes the client sends and receives. *)
From S2P Require Import Prelude WireFormat DeviceStore Descriptors Host BulkDevice Control Silent Tcpip ConfigWalk Protocol ProtocolSafety Completion.

(** ** Commands as the client encodes them *)

(** The fields of CMD_SUBMIT behind the basic header. *)
Definition cmd_submit_body (flags len start_frame packets interval : Z) (setup : bytes) : bytes :=
  be_bytes 4 flags ++ be_bytes 4 len ++ be_bytes 4 start_frame ++ be_bytes 4 packets ++ be_bytes 4 interval ++ setup.
Definition cmd_unlink_body (unlink_seqnum : Z) : bytes := be_bytes 4 unlink_seqnum ++ replicate 24 0.

Definition is_u32 (x : Z) : Prop := 0 ≤ x < 2 ^ 32.

(** * Theorems *)

(** ** Safety *)

Section safety.
Context {D : Type} (I : D → Prop) (d : usbip_device_t D) `{!DeviceSound I d}.
Implicit Types (w : world D).

Lemma run_transmits_wp calls w :
  world_ok I w → Forall call_ok calls →
  wp (run_transmits calls) (λ _ w', world_ok I w' ∧ ∃ h', w' = set_host h' w) never w.
Proof using.
  intros Hw Hc. revert w Hw. induction Hc as [|c calls (Hc1 & Hc2 & Hc3) _ IH]; intros w Hw; cbn [run_transmits].
  { apply wp_ret. split; [done|]. exists (w_host w). by rewrite set_host_id. }
  apply wp_bind. destruct (wo_host _ _ Hw) as [[HI Hwf] Hl].
  pose proof (transmit_spec other_thread (lib (w_host w)) (tc_ep c) (tc_data c) (tc_length c) Hwf Hc1 Hc2 Hc3) as H.
  assert (∀ s', wf_state s' → same_control (lib (w_host w)) s' →
    wp (run_transmits calls) (λ _ w', world_ok I w' ∧ ∃ h', w' = set_host h' w) never
      (set_host (set_lib s' (w_host w)) w)) as Hgo.
  { intros s' Hwf' Hsame. eapply wp_post; [apply IH|].
    - apply world_ok_host; [done|]. split; [done|]. destruct Hsame as (Hl' & _). cbn. congruence.
    - intros _ w' (Hw' & h' & ->). split; [done|]. by exists h'. }
  unfold wp at 1, in_host, in_lib, zoom. destruct (transmit_waits _ _ _).
  - rewrite H. by apply Hgo.
  - destruct (spec_store _ _ _). destruct H as (s' & Hs & _ & Hwf' & Hsame & _). rewrite Hs. by apply Hgo.
Qed.

Lemma sleep_wp w :
  world_ok I w → wp sleep (λ _ w', world_ok I w' ∧ w_net w' = w_net w ∧ w_proto w' = w_proto w) never w.
Proof using.
  intros Hw. unfold sleep. apply wp_bind, wp_gets. pose proof (wo_others _ _ Hw) as Ho.
  destruct (others w) as [|calls rest]; [by apply wp_ret|]. apply Forall_cons in Ho as [Hc Ho].
  apply wp_bind, wp_modify. eapply wp_post; [apply run_transmits_wp|].
  - destruct Hw. by constructor.
  - done.
  - intros _ w' [Hw' (h' & ->)]. done.
Qed.

Lemma in_host_lib_modify_ok w f :
  world_ok I w → wf_state (f (lib (w_host w))) → receive_lock (f (lib (w_host w))) = receive_lock (lib (w_host w)) →
  world_ok I (set_host (set_lib (f (lib (w_host w))) (w_host w)) w).
Proof using.
  intros Hw Hwf Hl. apply world_ok_host; [done|]. destruct (wo_host _ _ Hw) as [[HI _] Hl'].
  split; [done|]. cbn. congruence.
Qed.

Lemma clear_event_wp w (Q : unit → world D → Prop) :
  world_ok I w →
  (∀ h', world_ok I (set_host h' w) → abs (lib h') = abs (lib (w_host w)) → dev h' = dev (w_host w) →
     clk h' = clk (w_host w) → Q tt (set_host h' w)) →
  wp (in_host (in_lib usbip_device_clear_event)) Q never w.
Proof using.
  intros Hw HQ. apply wp_zoom, wp_in_lib, wp_modify. destruct (wo_host _ _ Hw) as [[_ Hwf] _].
  set (f := λ s : device_state, if bool_decide (0 ≤ ep_data_event_fd s) then set_event_fd (ep_data_event_fd s) 0 s else s).
  change (Q tt (set_host (set_lib (f (lib (w_host w))) (w_host w)) w)).
  assert (wf_state (f (lib (w_host w))) ∧ receive_lock (f (lib (w_host w))) = receive_lock (lib (w_host w))
    ∧ abs (f (lib (w_host w))) = abs (lib (w_host w))) as (H1 & H2 & H3).
  { unfold f. case_bool_decide; [|done]. split; [|done]. destruct Hwf. by constructor. }
  apply HQ; try done. by apply in_host_lib_modify_ok.
Qed.

Lemma reset_wp w (Q : unit → world D → Prop) :
  world_ok I w →
  (∀ h', world_ok I (set_host h' w) → configuration (abs (lib h')) = 0 → freshly_reset d (w_host w) h' →
     (SilentDevice d → ∀ k, k ≠ 0%nat → slot_of k (abs (lib h')) = []) → Q tt (set_host h' w)) →
  wp (in_host (usbip_device_reset d)) Q never w.
Proof using All.
  intros Hw HQ. apply wp_zoom. pose proof (usbip_device_reset_ok I d _ (wo_host _ _ Hw)) as H.
  apply wp_never_Ok in H as ([] & h' & Hr & Hh & Hc & _). unfold wp. rewrite Hr. apply HQ; [by apply world_ok_host|done| |].
  { by apply (usbip_device_reset_runs I); [apply (wo_host _ _ Hw)|]. }
  intros Hs k Hk. eapply (usbip_device_reset_empty d); [apply (wo_host _ _ Hw)|exact Hr|done].
Qed.

Lemma proto_ok_num0 p : proto_ok p → proto_ok (set_num_pending 0 p).
Proof using. intros []. by constructor. Qed.

Lemma proto_ok_imported p b : proto_ok p → proto_ok (set_device_imported b p).
Proof using. intros []. by constructor. Qed.

Lemma proto_ok_endpoints p t : proto_ok p → wf_table t → proto_ok (set_endpoints t p).
Proof using. intros [] ?. by constructor. Qed.

(** A computation that waits for the client, as [w'], when it started in [w]. *)
Definition unstopped (w w' : world D) : Prop := waiting I w' ∧ stop_server (w_net w) = false.

Lemma process_imported_device_wp w :
  world_ok I w →
  wp (usbip_protocol_process_imported_device d)
    (λ disconnect w', world_ok I w'
       ∧ (disconnect = true → device_imported (w_proto w') = false ∧ live (w_proto w') = []
            ∧ configuration (abs (lib (w_host w'))) = 0)) (unstopped w) w.
Proof using All.
  intros Hw. unfold usbip_protocol_process_imported_device. apply wp_bind, wp_zoom, wp_in_lib, wp_gets.
  replace (set_host _ w) with w by (by destruct w as [[] ? ? ?]). apply wp_bind, wp_gets.
  apply wp_bind, wp_total. eapply wp_post; [by apply sleep_wp|]. intros _ w1 (Hw1 & Hn1 & _).
  apply wp_bind. eapply (wp_post _ (λ ready w', world_ok I w' ∧ (ready = true → stop_server (w_net w) = false))).
  { apply wp_zoom. unfold wp, tcpip_server_wait_for_data.
    assert (∀ p, world_ok I (set_net (set_polls p (w_net w1)) w1)) as Hpolls by (intros p; apply world_ok_net; [done|apply Hw1]).
    unfold unstopped, waiting. rewrite <-Hn1. destruct (stop_server (w_net w1)) eqn:Hstop; [by rewrite set_net_id|].
    destruct (polls _) as [|[] ?]; auto. by rewrite set_net_id. }
  intros ready w2 [Hw2 Hready]. apply wp_bind. eapply (wp_post _ (λ _ w', world_ok I w')).
  { destruct ready; [|by apply wp_ret].
    eapply wp_mono; [by apply (process_imported_cmd_safe I d)|done|]. intros w' Hw'. split; [done|by apply Hready]. }
  intros status w3 Hw3. apply wp_bind, wp_total, clear_event_wp; [done|]. intros h4 Hw4 _ _ _.
  apply wp_bind. eapply (wp_post _ (λ _ w', world_ok I w')).
  { destruct status; [|by apply wp_ret]. eapply wp_post; [by apply wp_total, (complete_pending_urbs_wp I d)|]. intros st w' (Hw' & _). exact Hw'. }
  intros st w5 Hw5. apply wp_bind. destruct st; cbn [negb]; [by apply wp_ret, wp_ret|].
  apply wp_bind, wp_modify, wp_bind, wp_modify. cbn [w_proto set_proto]. set (w6 := set_proto _ _).
  assert (world_ok I w6) as Hw6.
  { unfold w6. repeat apply world_ok_proto; [done|..]; repeat first [apply proto_ok_num0 | apply proto_ok_imported]; apply Hw5. }
  apply wp_total, reset_wp; [done|]. intros h7 Hw7 Hcfg _ _. by apply wp_ret.
Qed.

(** A stopped server reads no request and disconnects the client. *)
Lemma process_cmd_stopped w :
  stop_server (w_net w) = true → usbip_protocol_process_cmd d w = Ok true w.
Proof using.
  intros Hs. unfold usbip_protocol_process_cmd, bind at 1, tcp_read, in_net, zoom.
  rewrite tcpip_server_read_stopped by done. rewrite set_net_id. reflexivity.
Qed.

Lemma process_cmd_wp w :
  world_ok I w → wp (usbip_protocol_process_cmd d)
    (λ disconnect w', world_ok I w'
       ∧ (device_imported (w_proto w) = false → disconnect = negb (device_imported (w_proto w')))) (unstopped w) w.
Proof using All.
  intros Hw. destruct (stop_server (w_net w)) eqn:Hstop.
  { unfold wp. rewrite process_cmd_stopped by done. split; [done|]. by intros ->. }
  eapply (wp_mono _ _ _ (waiting I)); [|intros ?? H; exact H|by split].
  unfold usbip_protocol_process_cmd. apply wp_bind. apply (tcp_read_wp I); [done|done| |done].
  intros status mem n1 Hw1 _ _ _ _. apply wp_bind.
  set (post := λ (st : bool) w', world_ok I w' ∧
    (device_imported (w_proto w) = false → st = false → device_imported (w_proto w') = false)).
  eapply (wp_post _ post).
  2: { intros st w' [Hw' Hst]. apply wp_bind, wp_gets, wp_ret. split; [done|]. intros Himp.
       destruct st; [done|]. by rewrite Hst. }
  unfold post. destruct (status && _); [|by apply wp_ret].
  destruct (_ =? OP_REQ_DEVLIST).
  { destruct (transmit_devlist_response_emits I d (set_net n1 w)) as (ds & _ & _ & Hem).
    eapply (emits_safe_wp I); [done|exact Hem|by intros]. }
  destruct (_ =? OP_REQ_IMPORT); [|by apply wp_ret].
  apply wp_bind. apply (tcp_read_wp I); [done|done| |done]. intros st busid n2 Hw2 _ _ _ _.
  destruct st; [|by apply wp_ret]. apply wp_bind, wp_modify, wp_bind, wp_modify.
  destruct (sound_total I d) as (ds & Hcfg & Hwf & _). rewrite Hcfg, load_endpoints_eq by done.
  apply wp_bind, wp_liftC, cwp_ret, wp_bind, wp_modify. cbn [w_proto set_proto set_net]. set (w3 := set_proto _ _).
  assert (world_ok I w3) as Hw3.
  { unfold w3. repeat apply world_ok_proto; [done|..];
      repeat first [apply proto_ok_endpoints; [|apply endpoints_of_wf] | apply proto_ok_timeout; [|done] | apply proto_ok_num0];
      apply Hw2. }
  apply wp_bind, wp_total, reset_wp; [done|]. intros h4 Hw4 _ _ _.
  apply wp_bind. eapply (emits_safe_wp I); [done|apply (transmit_import_response_emits I d)|].
  intros imported n5 Hw5. apply wp_bind, wp_modify, wp_ret. split; [|done].
  apply world_ok_proto; [done|]. apply proto_ok_imported, Hw5.
Qed.
End safety.

(** ** Reading what the client encoded *)

Lemma swap_field_here v rest : is_u32 v → SWAP32 (field (be_bytes 4 v ++ rest) 0 4) = v.
Proof. intros Hv. rewrite field_here by (by rewrite be_bytes_length). by apply SWAP32_of_be. Qed.

Lemma field_skip4 v off rest : (4 ≤ off)%nat → field (be_bytes 4 v ++ rest) off 4 = field rest (off - 4) 4.
Proof.
  intros Hoff. replace off with (4 + (off - 4))%nat at 1 by lia. apply field_skip. by rewrite be_bytes_length.
Qed.

(** Field number [k] of a sequence of 32 bit fields. *)
Lemma swap_field_nth (vs : list Z) k v rest :
  vs !! k = Some v → is_u32 v →
  SWAP32 (field (concat (be_bytes 4 <$> vs) ++ rest) (4 * k) 4) = v.
Proof.
  revert k. induction vs as [|x vs IH]; intros [|k] Hk Hv; [done|done|..]; cbn [fmap list_fmap concat].
  - injection Hk as ->. rewrite <-app_assoc. by apply swap_field_here.
  - rewrite <-app_assoc, field_skip4 by lia. replace (4 * S k - 4)%nat with (4 * k)%nat by lia. by apply IH.
Qed.

Lemma header_parse c s dv di e :
  is_u32 c → is_u32 s → is_u32 di → is_u32 e →
  let h := usbip_header_basic_of_mem (header_wire c s dv di e) in
  SWAP32 (hb_command h) = c ∧ SWAP32 (hb_seqnum h) = s ∧ SWAP32 (hb_direction h) = di ∧ SWAP32 (hb_ep h) = e.
Proof.
  intros Hc Hs Hdi He.
  assert (header_wire c s dv di e = concat (be_bytes 4 <$> [c; s; dv; di; e]) ++ []) as -> by (by rewrite app_nil_r; cbn; rewrite app_nil_r).
  unfold usbip_header_basic_of_mem. cbn [hb_command hb_seqnum hb_direction hb_ep].
  split; [by apply (swap_field_nth _ 0)|]. split; [by apply (swap_field_nth _ 1)|].
  split; [by apply (swap_field_nth _ 3)|by apply (swap_field_nth _ 4)].
Qed.

Lemma cmd_submit_parse flags len start_frame packets interval setup :
  is_u32 len → is_u32 start_frame → is_u32 packets → length setup = 8%nat →
  let c := usbip_cmd_submit_of_mem (cmd_submit_body flags len start_frame packets interval setup) in
  SWAP32 (cs_transfer_buffer_length c) = len ∧ SWAP32 (cs_start_frame c) = start_frame
  ∧ SWAP32 (cs_number_of_packets c) = packets ∧ cs_setup c = setup.
Proof.
  intros Hl Hf Hp Hs.
  assert (cmd_submit_body flags len start_frame packets interval setup =
    concat (be_bytes 4 <$> [flags; len; start_frame; packets; interval]) ++ setup) as ->.
  { unfold cmd_submit_body. cbn [fmap list_fmap concat]. by rewrite app_nil_r, <-!app_assoc. }
  unfold usbip_cmd_submit_of_mem. cbn [cs_transfer_buffer_length cs_start_frame cs_number_of_packets cs_setup].
  split; [by apply (swap_field_nth _ 1)|]. split; [by apply (swap_field_nth _ 2)|]. split; [by apply (swap_field_nth _ 3)|].
  rewrite drop_app_length'; [by rewrite take_ge by lia|]. cbn [fmap list_fmap concat].
  rewrite !length_app, !be_bytes_length by lia. done.
Qed.

Lemma cmd_unlink_parse s : is_u32 s → SWAP32 (cu_unlink_seqnum (usbip_cmd_unlink_of_mem (cmd_unlink_body s))) = s.
Proof.
  intros Hs. unfold usbip_cmd_unlink_of_mem, cmd_unlink_body. cbn [cu_unlink_seqnum]. by apply swap_field_here.
Qed.

Lemma blen_cmd_submit_body flags len start_frame packets interval setup :
  blen (cmd_submit_body flags len start_frame packets interval setup) = 20 + blen setup.
Proof. unfold cmd_submit_body. rewrite !blen_app, !blen_be_bytes by lia. lia. Qed.

Lemma cmd_submit_wire_split seqnum devid direction ep flags len start_frame packets interval setup :
  cmd_submit_wire seqnum devid direction ep flags len start_frame packets interval setup =
    header_wire USBIP_CMD_SUBMIT seqnum devid direction ep
    ++ cmd_submit_body flags len start_frame packets interval setup.
Proof. done. Qed.

Lemma connected_after_read n n' : connected n → same_but_rx n n' → stop_server n' = false → connected n'.
Proof. intros [_ Ht] (_ & _ & Htx & _) Hs. split; [done|by rewrite Htx]. Qed.

Section behaviour.
Context {D : Type} (I : D → Prop) (d : usbip_device_t D) `{!DeviceSound I d}.
Implicit Types (w : world D).

(** The same poll results and calls of other threads are to come, and the device is still
    imported if it was. *)
Definition same_scripts w w' : Prop :=
  polls (w_net w') = polls (w_net w) ∧ others w' = others w
  ∧ device_imported (w_proto w') = device_imported (w_proto w).

(** A client that has sent [bs], on a connection that works. *)
Definition client_sends (bs rest : bytes) (w : world D) : Prop :=
  connected (w_net w) ∧ stream (rx (w_net w)) = bs ++ rest.

Lemma tcp_read_exact w bs rest size (Q : bool * bytes → world D → Prop) E :
  world_ok I w → client_sends bs rest w → blen bs = size →
  (∀ n', world_ok I (set_net n' w) → client_sends rest [] (set_net n' w) → sent n' = sent (w_net w) ∧ polls n' = polls (w_net w) →
     Q (true, bs) (set_net n' w)) →
  wp (tcp_read size) Q E w.
Proof using.
  intros Hw [Hc Hs] Hsize HQ. pose proof (blen_nonneg bs).
  destruct (tcpip_server_read_ok size (w_net w)) as (n' & Hr & Hsame & Hstop & Hst & _).
  { rewrite Hs, blen_app. pose proof (blen_nonneg rest). lia. }
  { apply Hc. }
  unfold tcp_read, in_net. apply wp_zoom.
  pose proof (tcpip_server_read_wp size (w_net w) ltac:(lia) (wo_net _ _ Hw)) as Hok.
  unfold wp in *. rewrite Hr in *. destruct Hok as (_ & _ & _ & Hnok & _).
  rewrite Hs, <-Hsize in *. unfold blen in *. rewrite Nat2Z.id, take_app_length, drop_app_length in *.
  apply HQ; [by apply world_ok_net| |by destruct Hsame as (_ & _ & _ & ? & _ & ? & _)].
  split; [by eapply connected_after_read|]. cbn. by rewrite Hst, app_nil_r.
Qed.

(** The reply of an [emits] computation on a working connection. *)
Lemma emits_connected_wp m bs w (Q : bool → world D → Prop) E :
  world_ok I w → connected (w_net w) → emits m bs w →
  (∀ n', world_ok I (set_net n' w) → connected n' → same_but_tx (w_net w) n' → sent n' = sent (w_net w) ++ bs →
     Q true (set_net n' w)) → wp m Q E w.
Proof using.
  intros Hw Hc Hm HQ. eapply emits_wp; [done|]. intros st n' Hs Hcn Hsent. destruct (Hcn Hc) as [-> Hc'].
  apply HQ; [by apply world_ok_write|done|done|by apply Hsent].
Qed.

Lemma client_sends_app bs1 bs2 rest w : client_sends (bs1 ++ bs2) rest w ↔ client_sends bs1 (bs2 ++ rest) w.
Proof using. unfold client_sends. by rewrite app_assoc. Qed.

Lemma client_sends_nil bs w : client_sends bs [] w ↔ connected (w_net w) ∧ stream (rx (w_net w)) = bs.
Proof using. unfold client_sends. by rewrite app_nil_r. Qed.

(** *** Unlink *)

Definition unlink_result (s us : Z) (w w' : world D) : Prop :=
  let '(u, l) := unlinked us (live (w_proto w)) in
  live (w_proto w') = l
  ∧ endpoints (w_proto w') = unlinked_table u l (endpoints (w_proto w))
  ∧ sent (w_net w') = sent (w_net w) ++ ret_unlink_wire s (unlink_status u)
  ∧ w_host w' = w_host w.

Lemma unlink_command_wp w seqnum devid us rest :
  world_ok I w → client_sends (cmd_unlink_wire seqnum devid us) rest w → is_u32 seqnum → is_u32 us →
  wp (process_imported_cmd d)
    (λ status w', status = true ∧ world_ok I w' ∧ unlink_result seqnum us w w' ∧ client_sends rest [] w'
       ∧ same_scripts w w') never w.
Proof using.
  intros Hw Hcl Hsq Hus. change (cmd_unlink_wire seqnum devid us) with
    (header_wire USBIP_CMD_UNLINK seqnum devid 0 0 ++ cmd_unlink_body us) in Hcl. rewrite client_sends_app in Hcl.
  unfold process_imported_cmd. apply wp_bind.
  eapply tcp_read_exact; [done|exact Hcl|apply blen_header_wire|]. intros n1 Hw1 Hcl1 [Hs1 Hp1]. cbn [negb].
  destruct (header_parse USBIP_CMD_UNLINK seqnum devid 0 0) as (-> & -> & _ & _); [done..|].
  change (USBIP_CMD_UNLINK =? USBIP_CMD_SUBMIT) with false. change (USBIP_CMD_UNLINK =? USBIP_CMD_UNLINK) with true. cbv iota.
  unfold process_unlink. apply wp_bind. rewrite client_sends_nil in Hcl1.
  eapply tcp_read_exact; [done|exact Hcl1| |].
  { unfold cmd_unlink_body. rewrite blen_app, blen_be_bytes by lia. done. }
  intros n2 Hw2 Hcl2 [Hs2 Hp2]. cbn [negb]. rewrite cmd_unlink_parse by done.
  set (w2 := set_net n2 (set_net n1 w)) in *. apply wp_bind, wp_gets, wp_bind.
  pose proof (po_num _ (wo_proto _ _ Hw2)). unfold unlink_result.
  eapply (unlink_loop_wp I); [done|lia|lia|constructor|].
  change (w_proto w2) with (w_proto w).
  intros p'. destruct (unlinked us (live (w_proto w))) as [u l]. intros Hp' Hl Heq.
  set (w3 := set_proto p' w2). assert (world_ok I w3) as Hw3 by (by apply world_ok_proto).
  eapply (emits_connected_wp _ (ret_unlink_wire seqnum (unlink_status u))); [done|apply Hcl2| |].
  - change (ret_unlink_wire seqnum (unlink_status u)) with
      (header_wire USBIP_RET_UNLINK seqnum 0 0 0 ++ be_bytes 4 (unlink_status u) ++ replicate 24 0).
    apply emits_seq; [|intros n3|done].
    + unfold header_of. rewrite header_image. apply emits_image, blen_header_wire.
    + rewrite ret_unlink_image, be_bytes_u32. apply emits_image. rewrite blen_app, blen_be_bytes by lia. done.
  - intros n4 Hw4 Hc4 Hsame Hsent. split; [done|]. split; [done|]. split.
    + split; [done|]. split; [by cbn [w_proto set_net w3 set_proto]; rewrite Heq|]. split; [|done].
      cbn [w_net set_net]. rewrite Hsent. cbn [w_net w3 set_proto w2 set_net]. cbn in Hs2. by rewrite Hs2, Hs1.
    + destruct Hsame as (_ & _ & Hrx & Hpo & _). cbn in Hrx, Hpo, Hp1, Hp2. split; [|split; [cbn; congruence|split; [done|by cbn [w_proto set_net w3 set_proto]; rewrite Heq]]].
      split; [done|]. cbn [w_net set_net]. rewrite Hrx. apply Hcl2.
Qed.

(** *** Submit *)

Section submit.
Context (seqnum devid direction ep flags len start_frame packets interval : Z) (setup : bytes).
Context (Hseq : is_u32 seqnum) (Hdir : is_u32 direction) (Hep : is_u32 ep) (Hlen : 0 ≤ len ≤ USBIP_MAX_PACKET_SIZE)
  (Hfr : is_u32 start_frame) (Hpk : is_u32 packets) (Hsetup : length setup = 8%nat).

Definition submit_wire : bytes :=
  cmd_submit_wire seqnum devid direction ep flags len start_frame packets interval setup.

(** The first steps of a submit. *)
Lemma submit_header_wp w rest (Q : bool → world D → Prop) e :
  world_ok I w → client_sends submit_wire rest w →
  table_lookup (endpoints (w_proto w)) (key_of (endpoint_dir direction) ep) = Some e →
  (∀ n1 cmd, world_ok I (set_net n1 w) → client_sends rest [] (set_net n1 w) → sent n1 = sent (w_net w) ∧ polls n1 = polls (w_net w) →
     SWAP32 (cs_transfer_buffer_length cmd) = len ∧ SWAP32 (cs_start_frame cmd) = start_frame
       ∧ SWAP32 (cs_number_of_packets cmd) = packets →
     wp (let* status :=
           if direction =? 0 then
             let* '(status, data) := tcp_read len in
             let* rx := getp rx_buffer in
             let* rx' := liftC (mem_write rx 0 data) in
             setp (set_rx_buffer rx');; ret status
           else ret true in
         if negb status then ret false
         else if negb (ep =? 0) && (ep_type e =? USB_ENDPOINT_XFER_ISOC) then process_iso_submit d seqnum ep direction cmd
         else if ep =? 0 then
           let* rx := getp rx_buffer in
           let* supported := in_host (usbip_device_control d setup rx len) in
           let* '(supported, tx_length) :=
             if direction =? 1 then
               let* tx := getp tx_buffer in
               let* '(answered, tx_length, tx') := in_host (in_lib (usbip_device_fetch_control_reply tx len)) in
               setp (set_tx_buffer tx');;
               ret (supported && negb ((0 <? len) && negb answered), tx_length)
             else ret (supported, 0) in
           if negb supported then transmit_ret_submit seqnum EP_STALL 0 false
           else if direction =? 0 then transmit_ret_submit seqnum 0 len false
           else transmit_ret_submit seqnum 0 tx_length true
         else if direction =? 0 then
           (if (0 <? len) && bool_decide (is_Some (ep_data_callback d)) then
              let* rx := getp rx_buffer in in_host (usbip_device_receive d (u8 ep) rx len)
            else ret tt);;
           transmit_ret_submit seqnum 0 len false
         else
           let* p := getp (λ p, p) in
           if num_pending_urbs p =? MAX_PENDING_URBS then transmit_ret_submit seqnum 0 0 true
           else
             let* old := liftC (arr_get (pending_urbs p) (num_pending_urbs p)) in
             append_pending_urb {| urb_seqnum := seqnum; urb_ep := ep; urb_direction := direction;
               urb_transfer_buffer_length := len; urb_isochronous := false;
               urb_start_frame := urb_start_frame old; urb_number_of_packets := urb_number_of_packets old;
               urb_complete_us := urb_complete_us old; urb_packets := urb_packets old |};;
             ret true) Q never (set_net n1 w)) →
  wp (process_imported_cmd d) Q never w.
Proof using Hseq Hdir Hep Hlen Hfr Hpk Hsetup.
  intros Hw Hcl He HQ. unfold submit_wire in Hcl. rewrite cmd_submit_wire_split, client_sends_app in Hcl.
  unfold process_imported_cmd. apply wp_bind.
  eapply tcp_read_exact; [done|exact Hcl|apply blen_header_wire|]. intros n1 Hw1 Hcl1 [Hs1 Hp1]. cbn [negb].
  destruct (header_parse USBIP_CMD_SUBMIT seqnum devid direction ep) as (-> & -> & -> & ->); [done..|].
  change (USBIP_CMD_SUBMIT =? USBIP_CMD_SUBMIT) with true. cbv iota.
  unfold process_submit. apply wp_bind. rewrite client_sends_nil in Hcl1.
  eapply tcp_read_exact; [done|exact Hcl1| |].
  { rewrite blen_cmd_submit_body. unfold blen. by rewrite Hsetup. }
  intros n2 Hw2 Hcl2 [Hs2 Hp2].
  assert (is_u32 len) as Hl32 by (unfold is_u32, USBIP_MAX_PACKET_SIZE in *; lia).
  destruct (cmd_submit_parse flags len start_frame packets interval setup Hl32 Hfr Hpk Hsetup) as (H1 & H3 & H4 & H2).
  set (cmd := usbip_cmd_submit_of_mem _) in *. rewrite H1, H2. apply wp_bind.
  destruct (get_endpoint_eq (set_net n2 (set_net n1 w)) (endpoint_dir direction) ep) as (e' & Hge & He' & _);
    [apply (wo_proto _ _ Hw2)|apply endpoint_dir_range|].
  assert (e' = e) as -> by (cbn in He'; congruence). unfold wp at 1. rewrite Hge.
  rewrite (proj2 (Z.ltb_ge _ _)) by lia. cbn [negb andb]. apply HQ; try done. cbn in Hs2, Hp2. split; congruence.
Qed.

(** An IN transfer on a bulk or interrupt endpoint joins the queue. *)
Lemma submit_in_wp w rest e :
  world_ok I w → client_sends submit_wire rest w → ep ≠ 0 → direction ≠ 0 →
  table_lookup (endpoints (w_proto w)) (key_of (endpoint_dir direction) ep) = Some e →
  ep_type e ≠ USB_ENDPOINT_XFER_ISOC → num_pending_urbs (w_proto w) < MAX_PENDING_URBS →
  wp (process_imported_cmd d)
    (λ status w', status = true ∧ world_ok I w' ∧ client_sends rest [] w'
       ∧ (∃ u, live (w_proto w') = live (w_proto w) ++ [u] ∧ urb_seqnum u = seqnum ∧ urb_ep u = ep
            ∧ urb_direction u = direction ∧ urb_transfer_buffer_length u = len ∧ urb_isochronous u = false)
       ∧ sent (w_net w') = sent (w_net w) ∧ w_host w' = w_host w ∧ endpoints (w_proto w') = endpoints (w_proto w)
       ∧ same_scripts w w') never w.
Proof using Hseq Hdir Hep Hlen Hfr Hpk Hsetup.
  intros Hw Hcl Hep0 Hd0 He Hty Hnum. eapply submit_header_wp; [done|done|done|].
  intros n1 cmd Hw1 Hcl1 [Hs1 Hp1] _. rewrite (proj2 (Z.eqb_neq direction 0)), (proj2 (Z.eqb_neq ep 0)),
    (proj2 (Z.eqb_neq (ep_type e) USB_ENDPOINT_XFER_ISOC)) by done. cbn [negb andb].
  apply wp_bind, wp_ret. cbn [negb].
  apply wp_bind, wp_gets. change (w_proto (set_net n1 w)) with (w_proto w).
  rewrite (proj2 (Z.eqb_neq _ _)) by lia. pose proof (wo_proto _ _ Hw) as Hp. pose proof (po_num _ Hp).
  apply wp_bind, wp_liftC, cwp_arr_get; [unfold blen, MAX_PENDING_URBS in *; rewrite (po_slots _ Hp); lia|]. intros old _.
  apply wp_bind. apply (append_pending_urb_wp I); [done|done|done|]. intros p' Hp' Hw' Hlive Heq. apply wp_ret.
  split; [done|]. split; [done|]. split; [done|]. split; [by eexists|]. split; [done|]. split; [done|]. cbn [w_proto set_proto].
  split; [by rewrite Heq|]. split; [done|]. split; [done|]. cbn [w_proto set_proto]. by rewrite Heq.
Qed.

(** With a full queue the transfer is answered at once, without data. *)
Lemma submit_in_full_wp w rest e :
  world_ok I w → client_sends submit_wire rest w → ep ≠ 0 → direction ≠ 0 →
  table_lookup (endpoints (w_proto w)) (key_of (endpoint_dir direction) ep) = Some e →
  ep_type e ≠ USB_ENDPOINT_XFER_ISOC → num_pending_urbs (w_proto w) = MAX_PENDING_URBS →
  wp (process_imported_cmd d)
    (λ status w', status = true ∧ world_ok I w' ∧ client_sends rest [] w' ∧ w_proto w' = w_proto w ∧ w_host w' = w_host w
       ∧ sent (w_net w') = sent (w_net w) ++ ret_submit_wire seqnum 0 0 0 0xffffffff ∧ same_scripts w w') never w.
Proof using Hseq Hdir Hep Hlen Hfr Hpk Hsetup.
  intros Hw Hcl Hep0 Hd0 He Hty Hnum. eapply submit_header_wp; [done|done|done|].
  intros n1 cmd Hw1 Hcl1 [Hs1 Hp1] _. rewrite (proj2 (Z.eqb_neq direction 0)), (proj2 (Z.eqb_neq ep 0)),
    (proj2 (Z.eqb_neq (ep_type e) USB_ENDPOINT_XFER_ISOC)) by done. cbn [negb andb].
  apply wp_bind, wp_ret. cbn [negb].
  apply wp_bind, wp_gets. change (w_proto (set_net n1 w)) with (w_proto w). rewrite (proj2 (Z.eqb_eq _ _)) by done.
  eapply emits_connected_wp; [done|apply Hcl1|apply transmit_ret_submit_emits; split; [done|]; left; apply blen_nonneg|].
  intros n2 Hw2 Hc2 Hsame Hsent. split; [done|]. split; [done|]. split.
  { split; [done|]. destruct Hsame as (_ & _ & Hrx & _). cbn [w_net set_net]. rewrite Hrx. apply Hcl1. }
  destruct Hsame as (_ & _ & _ & Hpo & _). do 2 (split; [done|]). cbn [w_net set_net] in *.
  split; [by rewrite Hsent, Hs1, app_nil_r|split; [by etrans|done]].
Qed.

(** What process_submit has the device do with a control request or with OUT data. *)
Definition hand_over (buffer : bytes) : M (host D) bool :=
  if ep =? 0 then usbip_device_control d setup buffer len
  else
    (if (0 <? len) && bool_decide (is_Some (ep_data_callback d)) then usbip_device_receive d (u8 ep) buffer len else ret tt);;
    ret true.

Lemma hand_over_wp buffer h :
  host_idle I h → data_ok buffer len → Forall is_byte setup → wp (hand_over buffer) (λ _ h', host_idle I h') never h.
Proof using All.
  intros Hh Hd Hb. unfold hand_over. destruct (ep =? 0).
  - eapply wp_post; [apply (usbip_device_control_wp I d); [done|done|unfold blen; by rewrite Hsetup|done]|]. by intros sup h' [? _].
  - apply wp_bind. destruct ((0 <? len) && _) eqn:Hc; [|by apply wp_ret, wp_ret].
    apply andb_true_iff in Hc as [_ Hcb%bool_decide_eq_true].
    eapply wp_post; [by apply (usbip_device_receive_ok I d)|]. intros [] h' [? _]. by apply wp_ret.
Qed.

(** The setup packet of the command is made of bytes. *)
Lemma submit_setup_byte w rest : world_ok I w → client_sends submit_wire rest w → Forall is_byte setup.
Proof using.
  intros Hw [_ Hs]. pose proof (stream_byte _ (proj1 (wo_net _ _ Hw))) as Hb. rewrite Hs in Hb.
  unfold submit_wire in Hb. rewrite cmd_submit_wire_split in Hb. unfold cmd_submit_body in Hb. rewrite !Forall_app in Hb. apply Hb.
Qed.

(** Commands that process_submit does not treat as isochronous. *)
Definition ordinary (t : endpoint_table) : Prop :=
  ep = 0 ∨ ∃ e, table_lookup t (key_of (endpoint_dir direction) ep) = Some e ∧ ep_type e ≠ USB_ENDPOINT_XFER_ISOC.

Lemma ordinary_endpoint w :
  world_ok I w → ordinary (endpoints (w_proto w)) →
  ∃ e, table_lookup (endpoints (w_proto w)) (key_of (endpoint_dir direction) ep) = Some e
    ∧ negb (ep =? 0) && (ep_type e =? USB_ENDPOINT_XFER_ISOC) = false.
Proof using.
  clear Hseq Hdir Hep Hlen Hfr Hpk Hsetup. intros Hw [Hep0|(e & He & Hty)].
  - destruct (get_endpoint_eq w (endpoint_dir direction) ep) as (e & _ & He & _); [apply (wo_proto _ _ Hw)|apply endpoint_dir_range|].
    exists e. split; [done|]. by rewrite (proj2 (Z.eqb_eq ep 0)).
  - exists e. split; [done|]. by rewrite (proj2 (Z.eqb_neq (ep_type e) _)), andb_false_r.
Qed.

(** The acknowledgement of the client's data, or the stall of a request without support. *)
Definition send_reply (supported : bool) : bytes :=
  if supported then ret_submit_wire seqnum 0 len 0 0xffffffff else ret_submit_wire seqnum EP_STALL 0 0 0xffffffff.

Lemma ret_submit_wire_u32 status l : ret_submit_wire seqnum (u32 status) l 0 0xffffffff = ret_submit_wire seqnum status l 0 0xffffffff.
Proof using. unfold ret_submit_wire. by rewrite be_bytes_u32. Qed.

Lemma send_reply_emits (supported : bool) w :
  emits (if negb supported then transmit_ret_submit seqnum EP_STALL 0 false else transmit_ret_submit seqnum 0 len false)
    (send_reply supported) w.
Proof using Hlen.
  clear Hsetup. destruct supported; cbn [negb send_reply].
  - pose proof (transmit_ret_submit_emits seqnum 0 len false w) as H. rewrite app_nil_r, ret_submit_wire_u32 in H.
    apply H. split; [lia|by right].
  - pose proof (transmit_ret_submit_emits seqnum EP_STALL 0 false w) as H. rewrite app_nil_r, ret_submit_wire_u32 in H.
    apply H. split; [lia|by right].
Qed.

(** The data of an OUT transfer is read into [rx_buffer]. *)
Lemma read_out_data_wp w data rest (Q : bool → world D → Prop) :
  world_ok I w → client_sends data rest w → (direction = 0 → blen data = len) → (direction ≠ 0 → data = []) →
  (∀ rx' n', let w' := set_proto (set_rx_buffer rx' (w_proto w)) (set_net n' w) in
     world_ok I w' → client_sends rest [] w' → sent n' = sent (w_net w) → polls n' = polls (w_net w) →
     (direction = 0 → data_ok rx' len ∧ take (Z.to_nat len) rx' = data) → Q true w') →
  wp (if direction =? 0 then
        let* '(status, data) := tcp_read len in
        let* rx := getp rx_buffer in
        let* rx' := liftC (mem_write rx 0 data) in
        setp (set_rx_buffer rx');; ret status
      else ret true) Q never w.
Proof using Hlen.
  clear Hsetup. intros Hw Hcl Hdl Hnil HQ. destruct (po_rx _ (wo_proto _ _ Hw)) as [Hrx Hrxb]. destruct (Z.eqb_spec direction 0) as [Hd0|Hd0].
  2: { rewrite (Hnil Hd0) in Hcl. specialize (HQ (rx_buffer (w_proto w)) (w_net w)).
    replace (set_proto _ _) with w in HQ by (by destruct w as [? ? [] ?]). apply wp_ret, HQ; try done.
    apply client_sends_nil. exact Hcl. }
  specialize (Hdl Hd0). apply wp_bind. assert (Forall is_byte data) as Hdb.
  { destruct Hcl as [_ Hstream]. pose proof (stream_byte _ (proj1 (wo_net _ _ Hw))) as Hb.
    rewrite Hstream in Hb. by apply Forall_app in Hb as [? _]. }
  eapply tcp_read_exact; [done|exact Hcl|done|]. intros n2 Hw2 Hcl2 [Hs2 Hp2].
  apply wp_bind, wp_gets, wp_bind, wp_liftC. change (w_proto (set_net n2 _)) with (w_proto w).
  apply cwp_mem_write; [lia|lia|]. change (Z.to_nat 0) with 0%nat. set (rx' := splice (rx_buffer (w_proto w)) 0 data).
  apply wp_bind, wp_modify, wp_ret. change (w_proto (set_net n2 w)) with (w_proto w).
  assert (world_ok I (set_proto (set_rx_buffer rx' (w_proto w)) (set_net n2 w))) as Hw3
    by (apply world_ok_proto; [done|]; apply proto_ok_rx; [apply Hw|lia|done]).
  apply HQ; [done|done|done|done|]. intros _. destruct (po_rx _ (wo_proto _ _ Hw3)) as [Hrx3 Hrxb3].
  cbn [set_proto w_proto rx_buffer set_rx_buffer] in Hrx3, Hrxb3. split; [split; [done|lia]|].
  unfold rx'. rewrite <-Hdl. unfold blen. rewrite Nat2Z.id. apply splice_0_take.
Qed.

(** A control OUT request or OUT data: the device gets the client's bytes, complete and
    unchanged. *)
Lemma submit_send_wp w data rest :
  world_ok I w → client_sends (submit_wire ++ data) rest w → direction = 0 → blen data = len →
  ordinary (endpoints (w_proto w)) →
  wp (process_imported_cmd d)
    (λ status w', status = true ∧ world_ok I w' ∧ client_sends rest [] w'
       ∧ (∃ buffer supported, data_ok buffer len ∧ take (Z.to_nat len) buffer = data
            ∧ hand_over buffer (w_host w) = Ok supported (w_host w')
            ∧ sent (w_net w') = sent (w_net w) ++ send_reply supported)
       ∧ live (w_proto w') = live (w_proto w) ∧ endpoints (w_proto w') = endpoints (w_proto w) ∧ same_scripts w w') never w.
Proof using All.
  intros Hw Hcl Hd0 Hdl Hord. rewrite client_sends_app in Hcl. pose proof (submit_setup_byte _ _ Hw Hcl) as Hsb.
  destruct (ordinary_endpoint w Hw Hord) as (e & He & Hiso). eapply submit_header_wp; [done|done|done|].
  intros n1 cmd Hw1 Hcl1 [Hs1 Hp1] _. rewrite Hiso. rewrite client_sends_nil in Hcl1. apply wp_bind.
  apply (read_out_data_wp _ data rest); [done|done|done|done|]. intros rx' n2 w3 Hw3 Hcl2 Hs2 Hp2 Hout. destruct (Hout Hd0) as [Hdata Htake].
  cbn [negb]. rewrite (proj2 (Z.eqb_eq direction 0)) by done. change (w_proto (set_net n1 w)) with (w_proto w) in w3. cbn in Hs2, Hp2.
  pose proof (hand_over_wp rx' (w_host w) (wo_host _ _ Hw) Hdata Hsb) as Hdel.
  apply wp_never_Ok in Hdel as (sup & h' & Hdel & Hh').
  set (w4 := set_host h' w3). assert (world_ok I w4) as Hw4 by (by apply world_ok_host).
  assert (∀ m, emits m (send_reply sup) w4 → wp m (λ status w', status = true ∧ world_ok I w' ∧ client_sends rest [] w'
       ∧ (∃ buffer supported, data_ok buffer len ∧ take (Z.to_nat len) buffer = data
            ∧ hand_over buffer (w_host w) = Ok supported (w_host w')
            ∧ sent (w_net w') = sent (w_net w) ++ send_reply supported)
       ∧ live (w_proto w') = live (w_proto w) ∧ endpoints (w_proto w') = endpoints (w_proto w) ∧ same_scripts w w') never w4) as Hend.
  { intros m Hm. eapply emits_connected_wp; [done|apply Hcl2|exact Hm|].
    intros n5 Hw5 Hc5 (_ & _ & Hrx5 & Hpo5 & _) Hsent. cbn in Hrx5, Hpo5. split; [done|]. split; [done|]. split.
    { split; [done|]. cbn [w_net set_net]. rewrite Hrx5. apply Hcl2. }
    split; [exists rx', sup; split; [done|split; [done|split; [done|]]]; cbn in *; congruence|].
    split; [done|]. split; [done|]. split; [cbn; congruence|done]. }
  unfold hand_over in Hdel. destruct (Z.eqb_spec ep 0) as [Hep0|Hep0].
  - apply wp_bind, wp_gets, wp_bind, wp_zoom. change (w_host w3) with (w_host w). change (rx_buffer (w_proto w3)) with rx'.
    unfold wp at 1. rewrite Hdel. fold w4. rewrite (proj2 (Z.eqb_neq direction 1)) by lia. apply wp_bind, wp_ret.
    apply Hend, send_reply_emits.
  - apply wp_bind. pose proof (send_reply_emits true w4) as Hack. unfold bind in Hdel.
    destruct ((0 <? len) && _).
    + apply wp_bind, wp_gets, wp_zoom. change (w_host w3) with (w_host w). change (rx_buffer (w_proto w3)) with rx'.
      unfold wp at 1. destruct (usbip_device_receive _ _ _ _ _) as [[] h1|h1|]; [|done..]. injection Hdel as <- <-. by apply Hend.
    + apply wp_ret. injection Hdel as <- <-. replace w3 with w4 by done. by apply Hend.
Qed.

(** OUT data reaches the device's callback complete and unchanged. *)
Definition received_by (h : host D) (data : bytes) (h' : host D) : Prop :=
  if (0 <? len) && bool_decide (is_Some (ep_data_callback d))
  then ∃ buffer, take (Z.to_nat len) buffer = data ∧ usbip_device_receive d (u8 ep) buffer len h = Ok tt h'
  else h' = h.

Lemma submit_out_wp w data rest e :
  world_ok I w → client_sends (submit_wire ++ data) rest w → ep ≠ 0 → direction = 0 → blen data = len →
  table_lookup (endpoints (w_proto w)) (key_of (endpoint_dir direction) ep) = Some e →
  ep_type e ≠ USB_ENDPOINT_XFER_ISOC →
  wp (process_imported_cmd d)
    (λ status w', status = true ∧ world_ok I w' ∧ client_sends rest [] w'
       ∧ received_by (w_host w) data (w_host w')
       ∧ sent (w_net w') = sent (w_net w) ++ ret_submit_wire seqnum 0 len 0 0xffffffff
       ∧ live (w_proto w') = live (w_proto w)) never w.
Proof using All.
  intros Hw Hcl Hep0 Hd0 Hdl He Hty.
  eapply wp_post; [apply (submit_send_wp _ _ _ Hw Hcl Hd0 Hdl); right; by exists e|].
  intros status w' (Hst & Hw' & Hcl' & (buffer & sup & _ & Hb & Hdel & Hs) & Hl & _).
  assert (sup = true ∧ received_by (w_host w) data (w_host w')) as [-> Hrecv].
  { unfold hand_over in Hdel. rewrite (proj2 (Z.eqb_neq ep 0)) in Hdel by done. unfold bind in Hdel. unfold received_by.
    destruct ((0 <? len) && _); [|by injection Hdel].
    destruct (usbip_device_receive d (u8 ep) buffer len (w_host w)) as [[] h1|h1|] eqn:Hr; [|done..].
    injection Hdel as <- <-. split; [done|]. by exists buffer. }
  done.
Qed.

(** What a control request reads: the answer the device queued, none when it has none or
    does not support the request. *)
Definition request_reply (supported : bool) (a : slots) : option bytes :=
  if supported && negb ((0 <? len) && negb (answered a)) then Some (take (Z.to_nat len) (slot_of 0 a)) else None.

Definition reply_wire (reply : option bytes) : bytes :=
  match reply with
  | Some out => ret_submit_wire seqnum 0 (blen out) 0 0xffffffff ++ out
  | None => ret_submit_wire seqnum EP_STALL 0 0 0xffffffff
  end.

Lemma reply_wire_emits (supported : bool) out w :
  world_ok I w → blen out ≤ len → take (Z.to_nat (blen out)) (tx_buffer (w_proto w)) = out →
  emits (if negb supported then transmit_ret_submit seqnum EP_STALL 0 false else transmit_ret_submit seqnum 0 (blen out) true)
    (reply_wire (if supported then Some out else None)) w.
Proof using Hlen.
  clear Hsetup. intros Hw Hol Htx. destruct supported; cbn [negb reply_wire].
  - pose proof (transmit_ret_submit_emits seqnum 0 (blen out) true w) as H. rewrite ret_submit_wire_u32, Htx in H.
    apply H. pose proof (blen_nonneg out). split; [lia|left]. rewrite (proj1 (po_tx _ (wo_proto _ _ Hw))). lia.
  - pose proof (transmit_ret_submit_emits seqnum EP_STALL 0 false w) as H. rewrite app_nil_r, ret_submit_wire_u32 in H.
    apply H. split; [lia|by right].
Qed.

(** A control IN request, of any kind: the client receives what the device answers. *)
Lemma submit_request_wp w rest :
  world_ok I w → client_sends submit_wire rest w → ep = 0 → direction = 1 →
  wp (process_imported_cmd d)
    (λ status w', status = true ∧ world_ok I w' ∧ client_sends rest [] w'
       ∧ (∃ buffer supported h1, data_ok buffer len ∧ usbip_device_control d setup buffer len (w_host w) = Ok supported h1 ∧ host_idle I h1
            ∧ sent (w_net w') = sent (w_net w) ++ reply_wire (request_reply supported (abs (lib h1)))
            ∧ abs (lib (w_host w')) = set_answered false (set_slot 0 [] (abs (lib h1))) ∧ same_device h1 (w_host w'))
       ∧ live (w_proto w') = live (w_proto w) ∧ endpoints (w_proto w') = endpoints (w_proto w) ∧ same_scripts w w') never w.
Proof using All.
  intros Hw Hcl Hep0 Hd1. pose proof (submit_setup_byte _ _ Hw Hcl) as Hsb.
  destruct (ordinary_endpoint w Hw ltac:(by left)) as (e & He & Hiso). eapply submit_header_wp; [done|done|done|].
  intros n1 cmd Hw1 Hcl1 [Hs1 Hp1] _.
  rewrite Hiso, (proj2 (Z.eqb_eq ep 0)), (proj2 (Z.eqb_eq direction 1)), (proj2 (Z.eqb_neq direction 0)) by (done || lia).
  apply wp_bind, wp_ret. cbn [negb]. destruct (po_rx _ (wo_proto _ _ Hw)) as [Hrx Hrxb].
  apply wp_bind, wp_gets, wp_bind, wp_zoom. change (w_host (set_net n1 w)) with (w_host w).
  change (w_proto (set_net n1 w)) with (w_proto w).
  assert (data_ok (rx_buffer (w_proto w)) len) as Hdata by (split; [done|lia]).
  pose proof (usbip_device_control_wp I d setup _ len (w_host w) (wo_host _ _ Hw) Hdata ltac:(unfold blen; by rewrite Hsetup) Hsb) as Hc.
  apply wp_never_Ok in Hc as (sup & h1 & Hc & Hh1 & _). unfold wp at 1. rewrite Hc.
  set (w2 := set_host h1 (set_net n1 w)). assert (world_ok I w2) as Hw2 by (by apply world_ok_host).
  apply wp_bind. apply (fetch_reply_wp I); [done|done|]. intros h' tx' out w3 Htx Hol Habs3 Hsd3 Hw3.
  change (w_host w2) with h1 in *.
  eapply emits_connected_wp; [done|apply Hcl1|apply reply_wire_emits; [done|exact Hol|]|].
  { change (tx_buffer (w_proto w3)) with tx'. rewrite Htx. unfold blen. rewrite Nat2Z.id. apply splice_0_take. }
  intros n4 Hw4 Hc4 (_ & _ & Hrx4 & Hpo4 & _) Hsent. cbn in Hrx4, Hpo4. split; [done|]. split; [done|]. split.
  { split; [done|]. cbn [w_net set_net]. rewrite Hrx4. apply Hcl1. }
  split; [|split; [done|split; [done|split; [cbn; congruence|done]]]].
  exists (rx_buffer (w_proto w)), sup, h1. do 3 (split; [done|]). split; [|done].
  cbn [w_net set_net]. rewrite Hsent. cbn [w_net w3 set_proto set_host w2 set_net]. by rewrite Hs1.
Qed.

(** The answer to a standard IN request to the device, on the wire. *)
Definition control_answer (reply : option bytes) : bytes :=
  match reply with
  | Some r =>
      let out := take (Z.to_nat (Z.min len 512)) r in
      ret_submit_wire seqnum 0 (blen out) 0 0xffffffff ++ out
  | None =>
      if 0 <? len then ret_submit_wire seqnum EP_STALL 0 0 0xffffffff else ret_submit_wire seqnum 0 0 0 0xffffffff
  end.

(** A stopped device answers nothing. *)
Definition answer_of (a : slots) : option bytes :=
  if stopped a then None else standard_reply d (configuration a) setup.

(** The state after the request, and what the fetch takes from it. *)
Lemma answered_with (a a1 : slots) (r : option bytes) :
  length (slot a) = 16%nat →
  match r with
  | Some r => ∃ m, a1 = set_answered true (set_slot 0 m a) ∧ take (Z.to_nat len) m = take (Z.to_nat (Z.min len 512)) r
  | None => a1 = set_answered false (set_slot 0 [] a)
  end →
  answered a1 = bool_decide (is_Some r) ∧ take (Z.to_nat len) (slot_of 0 a1) = take (Z.to_nat (Z.min len 512)) (default [] r)
  ∧ set_answered false (set_slot 0 [] a1) = set_answered false (set_slot 0 [] a).
Proof using.
  intros Hl Hr. clear Hsetup Hlen.
  assert (∀ v q, slot_of 0 (set_answered v (set_slot 0 q a)) = q
    ∧ set_answered false (set_slot 0 [] (set_answered v (set_slot 0 q a))) = set_answered false (set_slot 0 [] a)) as Hslot.
  { intros v q. split.
    - change (slot_of 0 (set_slot 0 q a) = q). rewrite slot_of_set_slot, decide_True; [done|lia].
    - unfold set_answered, set_slot. cbn. by rewrite list_insert_insert_eq. }
  destruct r as [r|]; [destruct Hr as (m & -> & Hm)|subst a1]; destruct (Hslot true m) as [H1 H2] || destruct (Hslot false []) as [H1 H2];
    rewrite H1, H2; split; try done. cbn. by rewrite !take_nil.
Qed.

Lemma reply_control_answer (a1 : slots) (r : option bytes) :
  answered a1 = bool_decide (is_Some r) → take (Z.to_nat len) (slot_of 0 a1) = take (Z.to_nat (Z.min len 512)) (default [] r) →
  reply_wire (request_reply true a1) = control_answer r.
Proof using.
  clear Hsetup Hlen. intros Ha Ht. unfold request_reply, control_answer. rewrite Ha, Ht. cbn [andb].
  destruct r as [r|]; cbn [default from_option].
  - rewrite bool_decide_true by done. by rewrite andb_false_r.
  - rewrite bool_decide_false by (by intros []). rewrite andb_true_r, take_nil.
    destruct (0 <? len); cbn [negb reply_wire]; [done|]. by rewrite app_nil_r.
Qed.

Lemma submit_control_in_wp w rest :
  world_ok I w → client_sends submit_wire rest w → ep = 0 → direction = 1 →
  setup !! 0%nat = Some 0x80 →
  wp (process_imported_cmd d)
    (λ status w', status = true ∧ world_ok I w' ∧ client_sends rest [] w'
       ∧ sent (w_net w') = sent (w_net w) ++
           control_answer (answer_of (abs (lib (w_host w))))
       ∧ live (w_proto w') = live (w_proto w) ∧ endpoints (w_proto w') = endpoints (w_proto w) ∧ same_scripts w w'
       ∧ abs (lib (w_host w')) = set_answered false (set_slot 0 [] (abs (lib (w_host w))))
       ∧ same_device (w_host w) (w_host w')) never w.
Proof using All.
  intros Hw Hcl Hep0 Hd1 Hbm. eapply wp_post; [by apply submit_request_wp|].
  intros status w' (Hst & Hw' & Hcl' & (buffer & sup & h1 & _ & Hc & _ & Hs & Habs & Hsd) & Hl & He & Hsc).
  pose proof (usbip_device_control_0x80 I d setup buffer len (w_host w) (wo_host _ _ Hw) (proj1 Hlen) ltac:(unfold blen; by rewrite Hsetup) Hbm) as Hr.
  unfold wp in Hr. rewrite Hc in Hr. destruct Hr as (-> & _ & _ & Hsd1 & Hr).
  destruct (answered_with (abs (lib (w_host w))) (abs (lib h1)) (answer_of (abs (lib (w_host w))))) as (Hans & Htake & Hclear).
  { cbn. rewrite length_fmap. apply (wf_count _ (proj2 (proj1 (wo_host _ _ Hw)))). }
  { unfold answer_of. destruct (standard_reply _ _ _), (stopped _); done. }
  rewrite (reply_control_answer _ _ Hans Htake) in Hs. rewrite Hclear in Habs. do 7 (split; [done|]). split; [done|]. by etrans.
Qed.
End submit.
End behaviour.

(** ** Operations before a device is imported *)

Definition op_req_wire (code : Z) : bytes :=
  be_bytes 2 USBIP_PROTOCOL_VERSION ++ be_bytes 2 code ++ be_bytes 4 0.

Lemma SWAP16_of_be v : 0 ≤ v < 2 ^ 16 → SWAP16 (of_le (be_bytes 2 v)) = v.
Proof.
  intros Hv. unfold SWAP16.
  assert (le_bytes 2 (of_le (be_bytes 2 v)) = be_bytes 2 v) as ->.
  { replace 2 with (blen (be_bytes 2 v)) at 1 by (by rewrite blen_be_bytes). apply le_bytes_of_le.
    apply Forall_reverse, le_bytes_byte. lia. }
  unfold be_bytes. rewrite reverse_involutive, of_le_le_bytes by lia. by apply Z.mod_small.
Qed.

Lemma req_head_parse code :
  0 ≤ code < 2 ^ 16 →
  SWAP16 (req_version (op_req_head_of_mem (op_req_wire code))) = USBIP_PROTOCOL_VERSION
  ∧ SWAP16 (req_command_code (op_req_head_of_mem (op_req_wire code))) = code.
Proof.
  intros Hc. unfold op_req_head_of_mem, op_req_wire. cbn [req_version req_command_code]. split.
  - rewrite field_here by (by rewrite be_bytes_length). by apply SWAP16_of_be.
  - replace 2%nat with (2 + 0)%nat at 1 by lia.
    rewrite (field_skip 0 2 2) by (by rewrite be_bytes_length). rewrite field_here by (by rewrite be_bytes_length).
    by apply SWAP16_of_be.
Qed.

Lemma blen_op_req_wire code : blen (op_req_wire code) = 8.
Proof. unfold op_req_wire. rewrite !blen_app, !blen_be_bytes by lia. done. Qed.

Section operations.
Context {D : Type} (I : D → Prop) (d : usbip_device_t D) `{!DeviceSound I d}.
Implicit Types (w : world D).

Lemma devlist_wp w rest ds :
  world_ok I w → client_sends (op_req_wire OP_REQ_DEVLIST) rest w → device_imported (w_proto w) = false →
  config_desc d = concat ds → wf_config ds →
  wp (usbip_protocol_process_cmd d)
    (λ disconnect w', disconnect = true ∧ world_ok I w'
       ∧ sent (w_net w') = sent (w_net w)
           ++ devlist_wire d (take (Z.to_nat (num_interfaces (concat ds))) (interfaces_of ds))) never w.
Proof using All.
  intros Hw Hcl Himp Hds Hwf. unfold usbip_protocol_process_cmd. apply wp_bind.
  eapply tcp_read_exact; [done|exact Hcl|apply blen_op_req_wire|]. intros n1 Hw1 Hcl1 [Hs1 Hp1].
  destruct (req_head_parse OP_REQ_DEVLIST) as [-> ->]; [done|]. cbn [andb]. rewrite Z.eqb_refl.
  change (OP_REQ_DEVLIST =? OP_REQ_DEVLIST) with true. cbv iota. apply wp_bind.
  destruct (transmit_devlist_response_emits I d (set_net n1 w)) as (ds' & Hds' & Hwf' & Hem).
  rewrite (wf_config_unique ds' ds) in Hem by congruence.
  eapply emits_connected_wp; [done|apply Hcl1|exact Hem|]. intros n2 Hw2 _ _ Hsent.
  apply wp_bind, wp_gets, wp_ret. cbn [w_proto set_net]. rewrite Himp. split; [done|]. split; [done|].
  cbn [w_net set_net] in *. by rewrite Hsent, Hs1.
Qed.

Lemma import_wp w busid rest :
  world_ok I w → client_sends (op_req_wire OP_REQ_IMPORT ++ busid) rest w → blen busid = 32 →
  ∃ ds, config_desc d = concat ds ∧ wf_config ds ∧
  wp (usbip_protocol_process_cmd d)
    (λ disconnect w', disconnect = false ∧ world_ok I w' ∧ client_sends rest [] w'
       ∧ sent (w_net w') = sent (w_net w) ++ import_wire d
       ∧ device_imported (w_proto w') = true ∧ live (w_proto w') = []
       ∧ endpoints (w_proto w') = endpoints_of ds ∧ freshly_reset d (w_host w) (w_host w')
       ∧ polls (w_net w') = polls (w_net w) ∧ others w' = others w
       ∧ (SilentDevice d → ∀ k, k ≠ 0%nat → slot_of k (abs (lib (w_host w'))) = [])) never w.
Proof using All.
  intros Hw Hcl Hb. destruct (sound_total I d) as (ds & Hcfg & Hwf & _). exists ds. split; [done|]. split; [done|].
  rewrite client_sends_app in Hcl. unfold usbip_protocol_process_cmd. apply wp_bind.
  eapply tcp_read_exact; [done|exact Hcl|apply blen_op_req_wire|]. intros n1 Hw1 Hcl1 [Hs1 Hp1].
  destruct (req_head_parse OP_REQ_IMPORT) as [-> ->]; [done|]. cbn [andb]. rewrite Z.eqb_refl.
  change (OP_REQ_IMPORT =? OP_REQ_DEVLIST) with false. change (OP_REQ_IMPORT =? OP_REQ_IMPORT) with true. cbv iota.
  apply wp_bind, wp_bind. rewrite client_sends_nil in Hcl1.
  eapply tcp_read_exact; [done|exact Hcl1|done|]. intros n2 Hw2 Hcl2 [Hs2 Hp2].
  apply wp_bind, wp_modify, wp_bind, wp_modify. rewrite Hcfg, load_endpoints_eq by done.
  apply wp_bind, wp_liftC, cwp_ret, wp_bind, wp_modify. cbn [w_proto set_proto set_net]. set (w3 := set_proto _ _).
  assert (world_ok I w3) as Hw3.
  { unfold w3. repeat apply world_ok_proto; [done|..];
      repeat first [apply proto_ok_endpoints; [|apply endpoints_of_wf] | apply proto_ok_timeout; [|done] | apply proto_ok_num0];
      apply Hw2. }
  apply wp_bind, (reset_wp I d); [done|]. intros h4 Hw4 _ Hreset Hempty.
  apply wp_bind. eapply emits_connected_wp; [done|apply Hcl2|apply (transmit_import_response_emits I d)|].
  intros n5 Hw5 Hc5 Hsame Hsent. apply wp_bind, wp_modify, wp_ret, wp_bind, wp_gets, wp_ret.
  cbn [w_proto set_net set_proto set_device_imported device_imported andb negb].
  split; [done|]. split; [apply world_ok_proto; [done|]; apply proto_ok_imported, Hw5|]. split.
  { split; [done|]. destruct Hsame as (_ & _ & Hrx & _). cbn [w_net set_net set_proto]. rewrite Hrx. apply Hcl2. }
  destruct Hsame as (_ & _ & _ & Hpo & _). cbn in Hpo, Hp2. split; [|do 4 (split; [done|]); split; [cbn; congruence|split; [done|exact Hempty]]].
  cbn [w_net set_net set_proto]. rewrite Hsent. cbn [w_net set_host w3 set_proto set_net]. cbn in Hs2. by rewrite Hs2, Hs1.
Qed.
End operations.

(** ** Properties *)

Section properties.
Context {D : Type} (I : D → Prop) (d : usbip_device_t D) `{!DeviceSound I d}.

(** C1: whatever bytes an importing client sends (any header, any lengths, any packet table,
    truncated at any point), however the connection fails and whatever other threads
    queue, one round of [usbip_protocol_process_imported_device] never accesses memory out
    of bounds, never deadlocks and never loops for ever; it keeps the invariant of the
    server's state, and when it reports a disconnect the device is no longer imported,
    no transfer is pending and the device is back in configuration 0. *)
Theorem imported_round_is_safe (w : world D) :
  world_ok I w →
  match usbip_protocol_process_imported_device d w with
  | Ok disconnect w' => world_ok I w'
      ∧ (disconnect = true → device_imported (w_proto w') = false ∧ live (w_proto w') = []
           ∧ configuration (abs (lib (w_host w'))) = 0)
  | Idle w' => world_ok I w'
  | Fault _ => False
  end.
Proof using All.
  intros Hw. eapply wp_mono; [by apply (process_imported_device_wp I d)|done|by intros ? [[? _] _]].
Qed.

(** The same for [usbip_protocol_process_cmd], the round before a device is imported:
    for any bytes of the client it never faults and keeps the invariant, and the client
    stays connected exactly when the device is imported at the end. *)
Theorem operation_round_is_safe (w : world D) :
  world_ok I w → device_imported (w_proto w) = false →
  match usbip_protocol_process_cmd d w with
  | Ok disconnect w' => world_ok I w' ∧ disconnect = negb (device_imported (w_proto w'))
  | Idle w' => world_ok I w'
  | Fault _ => False
  end.
Proof using All.
  intros Hw Himp. pose proof (process_cmd_wp I d w Hw) as H. unfold wp in H.
  destruct (usbip_protocol_process_cmd d w); [naive_solver|by destruct H as [[] _]|done].
Qed.

(** An OP_REQ_DEVLIST is answered with the device and its first bNumInterfaces interface
    descriptors, whatever these describe; then the client is disconnected. *)
Theorem devlist_request_lists_the_first_descriptors (w : world D) rest ds :
  world_ok I w → client_sends (op_req_wire OP_REQ_DEVLIST) rest w → device_imported (w_proto w) = false →
  config_desc d = concat ds → wf_config ds →
  ∃ w', usbip_protocol_process_cmd d w = Ok true w'
    ∧ sent (w_net w') = sent (w_net w)
        ++ devlist_wire d (take (Z.to_nat (num_interfaces (concat ds))) (interfaces_of ds)).
Proof using All.
  intros Hw Hcl Himp H1 H2. pose proof (devlist_wp I d w rest ds Hw Hcl Himp H1 H2) as H.
  apply wp_never_Ok in H as (b & w' & Hr & -> & _ & Hs). eauto 10.
Qed.

(** C23: an OP_REQ_DEVLIST is answered with the message of the protocol documentation: one
    device, its identification and device fields in network order, and class, subclass
    and protocol of each of its interfaces, once and in the order of their numbers; then
    the client is disconnected. This is so for a configuration in which no alternate
    setting comes before the last interface, as in all the examples; otherwise the
    settings are listed instead of interfaces. *)
Theorem devlist_request_is_answered (w : world D) rest ds :
  world_ok I w → client_sends (op_req_wire OP_REQ_DEVLIST) rest w → device_imported (w_proto w) = false →
  config_desc d = concat ds → wf_config ds → interfaces_first ds →
  ∃ w', usbip_protocol_process_cmd d w = Ok true w'
    ∧ sent (w_net w') = sent (w_net w) ++ devlist_wire d (announced_interfaces ds).
Proof using All.
  intros Hw Hcl Himp H1 H2 Hfirst. pose proof (devlist_wp I d w rest ds Hw Hcl Himp H1 H2) as H.
  rewrite (take_interfaces ds Hfirst) in H. apply wp_never_Ok in H as (b & w' & Hr & -> & _ & Hs). eauto 10.
Qed.

(** C22: an OP_REQ_IMPORT with any 32 byte bus id imports the device: the reply of the
    documentation is sent, the client stays connected, no transfer of an earlier client is
    pending, the endpoint table is the one of the configuration and the device is freshly
    reset: every message an earlier client left unread is discarded, the device is in
    configuration 0 of a new generation, and then its reset callback has run, once. *)
Theorem import_request_is_answered (w : world D) busid rest :
  world_ok I w → client_sends (op_req_wire OP_REQ_IMPORT ++ busid) rest w → blen busid = 32 →
  ∃ ds w', config_desc d = concat ds ∧ wf_config ds
    ∧ usbip_protocol_process_cmd d w = Ok false w' ∧ client_sends rest [] w'
    ∧ sent (w_net w') = sent (w_net w) ++ import_wire d
    ∧ device_imported (w_proto w') = true ∧ live (w_proto w') = []
    ∧ endpoints (w_proto w') = endpoints_of ds
    ∧ freshly_reset d (w_host w) (w_host w').
Proof using All.
  intros Hw Hcl Hb. destruct (import_wp I d w busid rest Hw Hcl Hb) as (ds & H1 & H2 & H).
  apply wp_never_Ok in H as (b & w' & Hr & -> & _ & H3 & H4 & H5 & H6 & H7 & H8 & _). eauto 15.
Qed.

(** C15: CMD_UNLINK takes the oldest pending transfer with the given sequence number out of
    the queue, keeping the order of the others, and answers -ECONNRESET; when there is none
    (it has completed) nothing changes and the answer is 0. An isochronous stream whose
    last transfer is unlinked starts over. *)
Theorem unlink_cancels_or_reports_completion (w : world D) seqnum devid us rest :
  world_ok I w → client_sends (cmd_unlink_wire seqnum devid us) rest w → is_u32 seqnum → is_u32 us →
  ∃ w', process_imported_cmd d w = Ok true w' ∧ unlink_result seqnum us w w' ∧ client_sends rest [] w'.
Proof using.
  intros Hw Hcl H1 H2. pose proof (unlink_command_wp I d w seqnum devid us rest Hw Hcl H1 H2) as H.
  apply wp_never_Ok in H as (b & w' & Hr & -> & _ & H3 & H4 & _). eauto.
Qed.

(** CMD_SUBMIT for an IN transfer on a bulk or interrupt endpoint sends nothing yet: the
    transfer, with its sequence number, endpoint and length, joins the end of the queue. *)
Theorem submit_in_is_queued (w : world D) seqnum devid direction ep flags len start_frame packets interval setup rest e :
  is_u32 seqnum → is_u32 direction → is_u32 ep → 0 ≤ len ≤ USBIP_MAX_PACKET_SIZE → is_u32 start_frame →
  is_u32 packets → length setup = 8%nat →
  world_ok I w →
  client_sends (submit_wire seqnum devid direction ep flags len start_frame packets interval setup) rest w →
  ep ≠ 0 → direction ≠ 0 → table_lookup (endpoints (w_proto w)) (key_of (endpoint_dir direction) ep) = Some e →
  ep_type e ≠ USB_ENDPOINT_XFER_ISOC → num_pending_urbs (w_proto w) < MAX_PENDING_URBS →
  ∃ w' u, process_imported_cmd d w = Ok true w' ∧ client_sends rest [] w'
    ∧ live (w_proto w') = live (w_proto w) ++ [u] ∧ urb_seqnum u = seqnum ∧ urb_ep u = ep
    ∧ urb_transfer_buffer_length u = len ∧ urb_isochronous u = false
    ∧ sent (w_net w') = sent (w_net w) ∧ w_host w' = w_host w.
Proof using All.
  intros H1 H2 H3 H4 H5 H6 H7 Hw Hcl H8 H9 He Hty Hn.
  pose proof (submit_in_wp I d seqnum devid direction ep flags len start_frame packets interval setup
    H1 H2 H3 H4 H5 H6 H7 w rest e Hw Hcl H8 H9 He Hty Hn) as H.
  apply wp_never_Ok in H as (b & w' & Hr & -> & _ & Hcl' & (u & ? & ? & ? & _ & ? & ?) & ? & ? & _). eauto 15.
Qed.

(** C16: CMD_SUBMIT for an OUT transfer hands exactly the bytes of the client to the device's
    callback, once, and acknowledges all of them; an empty transfer, or a device without
    callback, is only acknowledged. *)
Theorem submit_out_reaches_the_device (w : world D) seqnum devid ep flags len start_frame packets interval setup data rest e :
  is_u32 seqnum → is_u32 ep → 0 ≤ len ≤ USBIP_MAX_PACKET_SIZE → is_u32 start_frame →
  is_u32 packets → length setup = 8%nat →
  world_ok I w →
  client_sends (submit_wire seqnum devid 0 ep flags len start_frame packets interval setup ++ data) rest w →
  ep ≠ 0 → blen data = len → table_lookup (endpoints (w_proto w)) (key_of (endpoint_dir 0) ep) = Some e →
  ep_type e ≠ USB_ENDPOINT_XFER_ISOC →
  ∃ w', process_imported_cmd d w = Ok true w' ∧ client_sends rest [] w'
    ∧ received_by d ep len (w_host w) data (w_host w')
    ∧ sent (w_net w') = sent (w_net w) ++ ret_submit_wire seqnum 0 len 0 0xffffffff
    ∧ live (w_proto w') = live (w_proto w).
Proof using All.
  intros H1 H3 H4 H5 H6 H7 Hw Hcl H8 H9 He Hty.
  pose proof (submit_out_wp I d seqnum devid 0 ep flags len start_frame packets interval setup
    H1 ltac:(done) H3 H4 H5 H6 H7 w data rest e Hw Hcl H8 eq_refl H9 He Hty) as H.
  apply wp_never_Ok in H as (b & w' & Hr & -> & _ & ? & ? & ? & ?). eauto 10.
Qed.

(** C11: a standard IN request over the wire (bmRequestType 0x80): the client receives one
    RET_SUBMIT with the first min(length, 512) bytes of the answer chapter 9 asks for, or
    a stall (-EPIPE) when the request has no answer, and the queue is untouched. *)
Theorem standard_request_over_the_wire (w : world D) seqnum devid flags len start_frame packets interval setup rest :
  is_u32 seqnum → 0 ≤ len ≤ USBIP_MAX_PACKET_SIZE → is_u32 start_frame → is_u32 packets → length setup = 8%nat →
  world_ok I w →
  client_sends (submit_wire seqnum devid 1 0 flags len start_frame packets interval setup) rest w →
  setup !! 0%nat = Some 0x80 → stopped (abs (lib (w_host w))) = false →
  ∃ w', process_imported_cmd d w = Ok true w' ∧ client_sends rest [] w'
    ∧ sent (w_net w') = sent (w_net w) ++
        control_answer seqnum len (standard_reply d (configuration (abs (lib (w_host w)))) setup)
    ∧ live (w_proto w') = live (w_proto w).
Proof using All.
  intros H1 H4 H5 H6 H7 Hw Hcl Hbm Hst.
  pose proof (submit_control_in_wp I d seqnum devid 1 0 flags len start_frame packets interval setup
    H1 ltac:(done) ltac:(done) H4 H5 H6 H7 w rest Hw Hcl eq_refl eq_refl Hbm) as H.
  unfold answer_of in H. rewrite Hst in H. apply wp_never_Ok in H as (b & w' & Hr & -> & _ & ? & ? & ? & _). eauto 10.
Qed.

(** C27: an isochronous transfer is scheduled to take one service interval per packet,
    starting at the end of the stream or now, whichever is later; the end of the stream
    moves there, so transfers of a stream follow each other without gap, whenever they
    were submitted. *)
Theorem isochronous_transfers_keep_the_pace (w : world D) u e :
  world_ok I w → urb_ok u → urb_isochronous u = true → num_pending_urbs (w_proto w) < MAX_PENDING_URBS →
  table_lookup (endpoints (w_proto w)) (key_of (endpoint_dir (urb_direction u)) (urb_ep u)) = Some e →
  let now := clock_us (clk (w_host w)) in
  let finish := Z.max now (stream_end_us e) + urb_number_of_packets u * interval_us e in
  finish < 2 ^ 64 →
  ∃ w', queue_iso_urb d u w = Ok true w'
    ∧ live (w_proto w') = live (w_proto w) ++ [with_complete finish u]
    ∧ table_lookup (endpoints (w_proto w')) (key_of (endpoint_dir (urb_direction u)) (urb_ep u)) =
        Some (set_stream_end finish e)
    ∧ w_net w' = w_net w.
Proof using All.
  intros Hw Hu Hiso Hn He now finish Hfin. pose proof (clock_us_range (clk (w_host w))) as Hnow. fold now in Hnow.
  destruct (proj2 Hu Hiso) as (Hnp & _).
  assert (wp (queue_iso_urb d u) (λ status w', status = true
    ∧ live (w_proto w') = live (w_proto w) ++ [with_complete finish u]
    ∧ table_lookup (endpoints (w_proto w')) (key_of (endpoint_dir (urb_direction u)) (urb_ep u)) = Some (set_stream_end finish e)
    ∧ w_net w' = w_net w) never w) as H.
  { apply (queue_iso_urb_wp I d); [done|done|done|]. intros e' w1 now' He' u' Hw1 Hnet _ Hp1.
    assert (e' = e) as -> by congruence. assert (0 ≤ interval_us e) as Hi.
    { destruct (wo_proto _ _ Hw) as [_ _ _ [_ Ht] _ _ _ _]. unfold table_lookup in He. apply bind_Some in He as (row & Hrow & Hcell).
      eapply Forall_lookup_1 in Hrow; [|exact Ht]. destruct Hrow as [_ Hrow]. eapply Forall_lookup_1 in Hcell; [|exact Hrow]. simpl in Hcell. lia. }
    assert (iso_complete now' e u = finish) as Hc.
    { unfold iso_complete, u64. fold now. rewrite (Z.mod_small (urb_number_of_packets u * interval_us e)) by (unfold finish in *; nia).
      apply Z.mod_small. unfold finish in *. nia. }
    rewrite decide_False by lia. intros p' Hw' Hl Hp'. cbn [w_proto set_proto].
    split; [done|]. split; [by rewrite Hl; unfold u'; rewrite Hc|].
    split; [|done]. rewrite Hp', Hp1, Hc. cbn [endpoints set_pending set_endpoints set_static_urb].
    unfold table_lookup, key_of in *. cbn [fst snd] in *. apply bind_Some in He as (row & Hrow & Hcell).
    rewrite list_lookup_alter_eq, Hrow. cbn. by rewrite list_lookup_alter_eq, Hcell. }
  apply wp_never_Ok in H as (b & w' & Hr & -> & ?). eauto.
Qed.
End properties.

(** ** Witnesses: clients of the bulk device *)

Lemma bulk_client bs rest :
  stream [RxData (bs ++ rest)] = bs ++ rest → client_sends bs rest (bulk_world [RxData (bs ++ rest)]).
Proof. intros H. split; [by split; [|constructor]|exact H]. Qed.

Lemma bulk_client_ok bs : Forall is_byte bs → world_ok Bulk.inv (bulk_world [RxData bs]).
Proof. intros H. apply bulk_world_ok. by constructor. Qed.

(** Decides that a concrete list holds bytes. *)
Ltac check_bytes := apply (bool_decide_eq_true_1 _); vm_compute; reflexivity.

Lemma imported_round_is_safe_witness :
  match usbip_protocol_process_imported_device Bulk.bulk_device (bulk_world [RxData (replicate 60 255)]) with
  | Ok disconnect w' => world_ok Bulk.inv w'
      ∧ (disconnect = true → device_imported (w_proto w') = false ∧ live (w_proto w') = []
           ∧ configuration (abs (lib (w_host w'))) = 0)
  | Idle w' => world_ok Bulk.inv w'
  | Fault _ => False
  end.
Proof. apply (imported_round_is_safe Bulk.inv Bulk.bulk_device). apply bulk_client_ok. check_bytes. Defined.

Lemma operation_round_is_safe_witness :
  match usbip_protocol_process_cmd Bulk.bulk_device (bulk_world [RxData [1; 17; 128; 3; 0]; RxEof]) with
  | Ok disconnect w' => world_ok Bulk.inv w' ∧ disconnect = negb (device_imported (w_proto w'))
  | Idle w' => world_ok Bulk.inv w'
  | Fault _ => False
  end.
Proof.
  apply (operation_round_is_safe Bulk.inv Bulk.bulk_device); [|reflexivity]. apply bulk_world_ok.
  constructor; [cbn; check_bytes|]. constructor; [exact I|constructor].
Defined.

Definition bulk_descriptors : list bytes :=
  default [] (split_descs (length (config_desc Bulk.bulk_device)) (config_desc Bulk.bulk_device)).

(** The bulk device has one interface, of class 255. *)
Lemma devlist_request_is_answered_witness :
  ∃ w', usbip_protocol_process_cmd Bulk.bulk_device (bulk_world [RxData (op_req_wire OP_REQ_DEVLIST ++ [])]) = Ok true w'
    ∧ sent (w_net w') = devlist_wire Bulk.bulk_device [[9; 4; 0; 0; 2; 255; 0; 0; 0]].
Proof.
  destruct (devlist_request_is_answered Bulk.inv Bulk.bulk_device (bulk_world [RxData (op_req_wire OP_REQ_DEVLIST ++ [])]) []
    bulk_descriptors) as (w' & H1 & H2).
  - apply bulk_client_ok. check_bytes.
  - apply bulk_client. vm_compute. reflexivity.
  - reflexivity.
  - vm_compute. reflexivity.
  - apply wf_config_check; vm_compute; reflexivity.
  - apply interfaces_firstb_sound. vm_compute. reflexivity.
  - exists w'. split; [exact H1|exact H2].
Defined.

Lemma import_request_is_answered_witness :
  ∃ w', usbip_protocol_process_cmd Bulk.bulk_device
      (bulk_world [RxData ((op_req_wire OP_REQ_IMPORT ++ replicate 32 0) ++ [])]) = Ok false w'
    ∧ sent (w_net w') = import_wire Bulk.bulk_device ∧ device_imported (w_proto w') = true.
Proof.
  destruct (import_request_is_answered Bulk.inv Bulk.bulk_device
    (bulk_world [RxData ((op_req_wire OP_REQ_IMPORT ++ replicate 32 0) ++ [])]) (replicate 32 0) [])
    as (ds & w' & _ & _ & H1 & _ & H2 & H3 & _).
  - apply bulk_client_ok. check_bytes.
  - apply bulk_client. vm_compute. reflexivity.
  - reflexivity.
  - exists w'. split; [exact H1|]. split; [exact H2|exact H3].
Defined.

Lemma unlink_cancels_or_reports_completion_witness :
  ∃ w', process_imported_cmd Bulk.bulk_device (bulk_world [RxData (cmd_unlink_wire 9 1 4 ++ [])]) = Ok true w'
    ∧ sent (w_net w') = ret_unlink_wire 9 0.
Proof.
  destruct (unlink_cancels_or_reports_completion Bulk.inv Bulk.bulk_device
    (bulk_world [RxData (cmd_unlink_wire 9 1 4 ++ [])]) 9 1 4 []) as (w' & H1 & (_ & _ & H2 & _) & _).
  - apply bulk_client_ok. check_bytes.
  - apply bulk_client. vm_compute. reflexivity.
  - split; [discriminate|reflexivity].
  - split; [discriminate|reflexivity].
  - exists w'. split; [exact H1|exact H2].
Defined.

Lemma submit_in_is_queued_witness :
  ∃ w' u, process_imported_cmd Bulk.bulk_device (bulk_world [RxData (submit_wire 5 1 1 1 0 512 0 0 0 (replicate 8 0) ++ [])])
      = Ok true w' ∧ live (w_proto w') = [u] ∧ urb_seqnum u = 5.
Proof.
  destruct (submit_in_is_queued Bulk.inv Bulk.bulk_device
    (bulk_world [RxData (submit_wire 5 1 1 1 0 512 0 0 0 (replicate 8 0) ++ [])]) 5 1 1 1 0 512 0 0 0 (replicate 8 0) [] zero_endpoint)
    as (w' & u & H1 & _ & H2 & H3 & _).
  - split; [discriminate|reflexivity].
  - split; [discriminate|reflexivity].
  - split; [discriminate|reflexivity].
  - split; discriminate.
  - split; [discriminate|reflexivity].
  - split; [discriminate|reflexivity].
  - reflexivity.
  - apply bulk_client_ok. check_bytes.
  - apply bulk_client. vm_compute. reflexivity.
  - discriminate.
  - discriminate.
  - reflexivity.
  - discriminate.
  - reflexivity.
  - exists w', u. split; [exact H1|]. split; [exact H2|exact H3].
Defined.

Lemma submit_out_reaches_the_device_witness :
  ∃ w', process_imported_cmd Bulk.bulk_device
      (bulk_world [RxData ((submit_wire 6 1 0 1 0 3 0 0 0 (replicate 8 0) ++ [65; 66; 67]) ++ [])]) = Ok true w'
    ∧ sent (w_net w') = ret_submit_wire 6 0 3 0 0xffffffff.
Proof.
  destruct (submit_out_reaches_the_device Bulk.inv Bulk.bulk_device
    (bulk_world [RxData ((submit_wire 6 1 0 1 0 3 0 0 0 (replicate 8 0) ++ [65; 66; 67]) ++ [])])
    6 1 1 0 3 0 0 0 (replicate 8 0) [65; 66; 67] [] zero_endpoint)
    as (w' & H1 & _ & _ & H2 & _).
  - split; [discriminate|reflexivity].
  - split; [discriminate|reflexivity].
  - split; discriminate.
  - split; [discriminate|reflexivity].
  - split; [discriminate|reflexivity].
  - reflexivity.
  - apply bulk_client_ok. check_bytes.
  - apply bulk_client. vm_compute. reflexivity.
  - discriminate.
  - reflexivity.
  - reflexivity.
  - discriminate.
  - exists w'. split; [exact H1|exact H2].
Defined.

(** GET_DESCRIPTOR of the device descriptor. *)
Lemma standard_request_over_the_wire_witness :
  ∃ w', process_imported_cmd Bulk.bulk_device
      (bulk_world [RxData (submit_wire 7 1 1 0 0 18 0 0 0 [0x80; 6; 0; 1; 0; 0; 18; 0] ++ [])]) = Ok true w'
    ∧ sent (w_net w') = ret_submit_wire 7 0 18 0 0xffffffff ++ Bulk.usb_device_descriptor.
Proof.
  destruct (standard_request_over_the_wire Bulk.inv Bulk.bulk_device
    (bulk_world [RxData (submit_wire 7 1 1 0 0 18 0 0 0 [0x80; 6; 0; 1; 0; 0; 18; 0] ++ [])])
    7 1 0 18 0 0 0 [0x80; 6; 0; 1; 0; 0; 18; 0] [])
    as (w' & H1 & _ & H2 & _).
  - split; [discriminate|reflexivity].
  - split; discriminate.
  - split; [discriminate|reflexivity].
  - split; [discriminate|reflexivity].
  - reflexivity.
  - apply bulk_client_ok. check_bytes.
  - apply bulk_client. vm_compute. reflexivity.
  - reflexivity.
  - reflexivity.
  - exists w'. split; [exact H1|]. rewrite H2. vm_compute. reflexivity.
Defined.

(** An isochronous IN transfer of two packets on an endpoint without interval. *)
Definition sample_iso_urb : pending_urb_t :=
  {| urb_seqnum := 8; urb_ep := 2; urb_direction := 1; urb_transfer_buffer_length := 200; urb_isochronous := true;
     urb_start_frame := 0; urb_number_of_packets := 2; urb_complete_us := 0;
     urb_packets := {| pk_offset := 0; pk_length := 100 |} :: {| pk_offset := 100; pk_length := 100 |}
       :: replicate 126 {| pk_offset := 0; pk_length := 0 |} |}.

Lemma isochronous_transfers_keep_the_pace_witness :
  ∃ w', queue_iso_urb Bulk.bulk_device sample_iso_urb (bulk_world []) = Ok true w'
    ∧ live (w_proto w') = [with_complete 0 sample_iso_urb].
Proof.
  destruct (isochronous_transfers_keep_the_pace Bulk.inv Bulk.bulk_device (bulk_world []) sample_iso_urb zero_endpoint)
    as (w' & H1 & H2 & _); try reflexivity.
  - apply bulk_world_ok. constructor.
  - split; [split; discriminate|]. intros _. split; [split; discriminate|]. split; [reflexivity|].
    repeat constructor; discriminate.
  - exists w'. split; [exact H1|exact H2].
Defined.
