(* ===== verification/StreamEntry.v ===== *)
(** * Isochronous transfers on the wire (process_iso_submit of src/lib/usbip_protocol.c)

    A CMD_SUBMIT for an isochronous endpoint as a client sends it: header, command, for OUT
    the data, then a descriptor for each packet. What it makes of the queue, the stream of
    the endpoint and the device. *)
From S2P Require Import Prelude WireFormat DeviceStore Descriptors Host BulkDevice Control Tcpip ConfigWalk Protocol ProtocolSafety Completion ProtocolEntry.

(** A packet with the actual length and the status a client may put in its descriptor. *)
Definition sent_packet : Type := iso_packet_t * (Z * Z).

Definition packets_wire (pks : list sent_packet) : bytes :=
  concat ((λ x, iso_packet_wire (pk_offset x.1) (pk_length x.1) x.2.1 x.2.2) <$> pks).

(** The packets lie in a transfer of [len] bytes. *)
Definition packets_fit (len : Z) (pks : list sent_packet) : Prop := Forall (packet_ok len) pks.*1.

(** * Theorems *)

Lemma packets_wire_blen pks : blen (packets_wire pks) = blen pks * 16.
Proof.
  unfold packets_wire. induction pks as [|x pks IH]; [done|]. cbn [fmap list_fmap concat].
  rewrite blen_app, IH, blen_iso_packet_wire. unfold blen. simpl. lia.
Qed.

Lemma iso_packet_parse offset length actual status rest :
  is_u32 offset → is_u32 length →
  let d := usbip_iso_packet_descriptor_of_mem (take 16 (iso_packet_wire offset length actual status ++ rest)) in
  SWAP32 (ip_offset d) = offset ∧ SWAP32 (ip_length d) = length.
Proof.
  intros Ho Hl. rewrite take_app_length' by (pose proof (blen_iso_packet_wire offset length actual status); unfold blen in *; lia).
  assert (iso_packet_wire offset length actual status = concat (be_bytes 4 <$> [offset; length; actual; status]) ++ []) as ->
    by (unfold iso_packet_wire; cbn [fmap list_fmap concat]; by rewrite !app_nil_r).
  unfold usbip_iso_packet_descriptor_of_mem. cbn [ip_offset ip_length].
  split; [by apply (swap_field_nth _ 0)|by apply (swap_field_nth _ 1)].
Qed.

(** The loop that reads the descriptors stores the client's packets. *)
Lemma load_iso_packets_eq pre post len pks :
  packets_fit len post → len ≤ USBIP_MAX_PACKET_SIZE → (length pre + length post ≤ length pks)%nat →
  load_iso_packets (length post) (packets_wire (pre ++ post)) (blen pre) len (pre.*1 ++ drop (length pre) pks)
    = Val (true, (pre ++ post).*1 ++ drop (length pre + length post)%nat pks).
Proof.
  revert pre. induction post as [|x post IH]; intros pre Hfit Hlen Hl; cbn [length load_iso_packets].
  { by rewrite app_nil_r, Nat.add_0_r. }
  apply Forall_cons in Hfit as [(Ho & Hpl & Hsum) Hfit]. unfold USBIP_MAX_PACKET_SIZE in Hlen.
  assert (packets_wire (pre ++ x :: post) = packets_wire pre
    ++ iso_packet_wire (pk_offset x.1) (pk_length x.1) x.2.1 x.2.2 ++ packets_wire post) as Hw
    by (unfold packets_wire; by rewrite fmap_app, concat_app).
  pose proof (packets_wire_blen pre) as Hpre. pose proof (packets_wire_blen post) as Hpost. pose proof (blen_nonneg post).
  unfold sent_packet in *. cbn [length] in Hl. specialize (IH (pre ++ [x]) Hfit Hlen).
  rewrite <-app_assoc, length_app in IH. cbn [app length] in IH.
  assert (mem_read (packets_wire (pre ++ x :: post)) (blen pre * 16) 16 =
    Val (take 16 (iso_packet_wire (pk_offset x.1) (pk_length x.1) x.2.1 x.2.2 ++ packets_wire post))) as ->.
  { unfold mem_read. rewrite decide_True.
    - rewrite Hw, drop_app_length' by (unfold blen in *; lia). done.
    - rewrite Hw, !blen_app, blen_iso_packet_wire. pose proof (blen_nonneg pre). lia. }
  cbn [cbind]. destruct (iso_packet_parse (pk_offset x.1) (pk_length x.1) x.2.1 x.2.2 (packets_wire post)) as [-> ->];
    [unfold is_u32; lia..|].
  assert (length (pre.*1 ++ drop (length pre) pks) = length pks) as Hlp by (rewrite length_app, length_fmap, length_drop; lia).
  rewrite arr_set_Val by (unfold blen in *; lia). cbn [cbind pk_offset pk_length]. unfold u64. rewrite Z.mod_small by lia.
  rewrite (proj2 (Z.ltb_ge _ _)) by lia.
  replace (<[Z.to_nat (blen pre) := _]> _) with ((pre ++ [x]).*1 ++ drop (length pre + 1)%nat pks).
  - replace (blen pre + 1) with (blen (pre ++ [x])) by (unfold blen; rewrite length_app; simpl; lia).
    rewrite IH by lia. by replace (length pre + 1 + length post)%nat with (length pre + S (length post))%nat by lia.
  - destruct (lookup_lt_is_Some_2 pks (length pre)) as [y Hy]; [lia|]. rewrite (drop_S _ _ _ Hy).
    unfold blen. rewrite Nat2Z.id. rewrite insert_app_r_alt by (by rewrite length_fmap). rewrite length_fmap, Nat.sub_diag. cbn.
    rewrite fmap_app, <-app_assoc. cbn. by rewrite Nat.add_1_r; destruct (x.1).
Qed.

Lemma load_iso_packets_all len pks old n :
  packets_fit len pks → len ≤ USBIP_MAX_PACKET_SIZE → length old = 128%nat → blen pks = n → n ≤ MAX_ISO_PACKETS →
  ∃ packets, load_iso_packets (Z.to_nat n) (packets_wire pks) 0 len old = Val (true, packets)
    ∧ length packets = 128%nat ∧ take (Z.to_nat n) packets = pks.*1.
Proof.
  unfold MAX_ISO_PACKETS, blen, sent_packet in *. intros Hfit Hlen Hold Hn Hmax. exists (pks.*1 ++ drop (length pks) old).
  replace (Z.to_nat n) with (length pks) by lia.
  pose proof (load_iso_packets_eq [] pks len old Hfit Hlen ltac:(unfold sent_packet in *; simpl; lia)) as H. rewrite drop_0 in H.
  split; [exact H|]. rewrite length_app, length_drop, length_fmap. split; [lia|]. apply take_app_length'. by rewrite length_fmap.
Qed.

Section streams.
Context {D : Type} (I : D → Prop) (d : usbip_device_t D) `{!DeviceSound I d}.
Implicit Types (w : world D).

Section submit.
Context (seqnum devid direction ep flags len start_frame packets interval : Z) (setup : bytes).
Context (Hseq : is_u32 seqnum) (Hdir : is_u32 direction) (Hep : is_u32 ep) (Hlen : 0 ≤ len ≤ USBIP_MAX_PACKET_SIZE)
  (Hfr : is_u32 start_frame) (Hpk : is_u32 packets) (Hsetup : length setup = 8%nat).
Context (data : bytes) (pks : list sent_packet).

Definition stream_wire : bytes :=
  submit_wire seqnum devid direction ep flags len start_frame packets interval setup ++ data ++ packets_wire pks.

(** The command for a stream is complete: its packets lie in its data. *)
Record stream_ok (t : endpoint_table) (e : endpoint_t) : Prop := {
  stream_ep : ep ≠ 0;
  stream_endpoint : table_lookup t (key_of (endpoint_dir direction) ep) = Some e;
  stream_type : ep_type e = USB_ENDPOINT_XFER_ISOC;
  stream_count : blen pks = packets;
  stream_max : packets ≤ MAX_ISO_PACKETS;
  stream_fits : packets_fit len pks;
  stream_out : direction = 0 → blen data = len;
  stream_in : direction ≠ 0 → data = [];
}.

(** The transfer made of it. *)
Record stream_urb (u : pending_urb_t) : Prop := {
  stream_seqnum : urb_seqnum u = seqnum;
  stream_urb_ep : urb_ep u = ep;
  stream_direction : urb_direction u = direction;
  stream_length : urb_transfer_buffer_length u = len;
  stream_isochronous : urb_isochronous u = true;
  stream_start : urb_start_frame u = start_frame;
  stream_number : urb_number_of_packets u = packets;
  stream_packets : packets_of u = pks.*1;
}.

(** The device is given the data of an OUT transfer. *)
Definition stream_received (h h1 : host D) : Prop :=
  if decide (direction = 0) then iso_receive d (u8 ep) data pks.*1 h h1 else h1 = h.

(** The transfer [u] joins the queue, or is answered at once when the queue is full. *)
Definition stream_queued (u : pending_urb_t) (h1 : host D) w w' : Prop :=
  if decide (num_pending_urbs (w_proto w) = MAX_PENDING_URBS)
  then live (w_proto w') = live (w_proto w) ∧ ∃ acts payload, iso_exchange d u 0 pks.*1 h1 acts payload (w_host w')
         ∧ sent (w_net w') = sent (w_net w) ++ iso_reply_wire u acts payload
  else live (w_proto w') = live (w_proto w) ++ [u] ∧ w_host w' = h1 ∧ sent (w_net w') = sent (w_net w).

Lemma iso_receive_data ep' rx ps h h' :
  iso_receive d ep' rx ps h h' → Forall (packet_ok len) ps → take (Z.to_nat len) rx = data → iso_receive d ep' data ps h h'.
Proof using.
  clear. intros H Hps Htk. assert (∀ pk, packet_ok len pk → packet_part pk rx = packet_part pk data) as Hpart.
  { intros pk (H1 & H2 & H3). unfold packet_part. rewrite <-Htk, !take_drop_commute, take_take. do 2 f_equal. lia. }
  induction H; [constructor|..]; apply Forall_cons in Hps as [Hpk Hps].
  - apply iso_receive_skip; auto.
  - eapply iso_receive_give; eauto. by rewrite <-Hpart.
Qed.

(** The stream of the endpoint is used up to [t]. *)
Definition stream_table (t : Z) (table : endpoint_table) : endpoint_table :=
  alter (alter (set_stream_end t) (ep_number ep)) (Z.to_nat (endpoint_dir direction)) table.

Lemma receive_stream_wp all w :
  world_ok I w → packets_fit len pks → length all = 128%nat → take (Z.to_nat packets) all = pks.*1 → packets ≤ MAX_ISO_PACKETS →
  (direction = 0 → take (Z.to_nat len) (rx_buffer (w_proto w)) = data) →
  wp (if direction =? 0 then receive_iso_packets d (Z.to_nat packets) 0 ep all else ret tt)
    (λ _ w', ∃ h1, w' = set_host h1 w ∧ world_ok I w' ∧ stream_received (w_host w) h1) never w.
Proof using All.
  intros Hw Hfit Hall Htake Hmax Hrx. unfold stream_received, MAX_ISO_PACKETS in *. destruct (Z.eqb_spec direction 0) as [Hd|Hd].
  - eapply wp_post; [apply (receive_iso_packets_wp I d _ 0 ep all len w); [done|done|done|unfold is_u32 in Hpk; lia|lia|]|].
    { change (Z.to_nat 0) with 0%nat. rewrite drop_0, Htake. exact Hfit. }
    change (Z.to_nat 0) with 0%nat. rewrite drop_0, Htake. intros _ w' (h1 & -> & Hw' & _ & Hr). exists h1. split; [done|]. split; [done|].
    rewrite decide_True by done. eapply iso_receive_data; [exact Hr|exact Hfit|by apply Hrx].
  - apply wp_ret. exists (w_host w). rewrite decide_False by done. by rewrite set_host_id.
Qed.

Lemma queue_stream_wp u w e :
  world_ok I w → connected (w_net w) → urb_ok u → stream_urb u →
  table_lookup (endpoints (w_proto w)) (key_of (endpoint_dir direction) ep) = Some e →
  wp (queue_iso_urb d u)
    (λ status w', status = true ∧ world_ok I w' ∧ connected (w_net w') ∧ same_but_tx (w_net w) (w_net w') ∧ others w' = others w
       ∧ device_imported (w_proto w') = device_imported (w_proto w)
       ∧ ∃ h2 u', host_idle I h2 ∧ lib h2 = lib (w_host w) ∧ dev h2 = dev (w_host w) ∧ urb_ok u' ∧ stream_urb u'
           ∧ urb_complete_us u' = iso_complete (clock_us (clk (w_host w))) e u'
           ∧ endpoints (w_proto w') = stream_table (urb_complete_us u') (endpoints (w_proto w))
           ∧ stream_queued u' h2 w w') never w.
Proof using All.
  intros Hw Hc Hu Hs He. pose proof Hs as [_ Hue Hud _ Hiso _ _ _]. apply (queue_iso_urb_wp I d); [done..|].
  rewrite Hue, Hud. intros e' w1 now He' u' Hw1 Hnet (Hlib & Hdev & Hoth) Hp1. assert (e' = e) as -> by congruence.
  assert (stream_urb u') as Hs' by (by destruct Hs; constructor). unfold stream_queued. case_decide as Hfull.
  - eapply wp_post; [by apply (transmit_iso_ret_submit_wp I d)|].
    intros status w2 (Hw2 & Hp2 & Ho2 & _ & Hn2 & Hconn & acts & payload & Hex & Hsent). rewrite Hnet in *.
    destruct (Hconn Hc) as [-> Hc2]. rewrite Hp2, Hp1. split; [done|]. split; [done|]. split; [done|]. split; [done|].
    split; [congruence|]. split; [done|]. exists (w_host w1), u'. split; [apply Hw1|]. do 7 (split; [done|]).
    exists acts, payload. rewrite (stream_packets _ Hs') in Hex. by rewrite <-Hsent.
  - intros p' Hw2 Hl Hp'. cbn [w_net w_host w_proto set_proto others]. rewrite Hnet. split; [done|]. split; [done|]. split; [done|].
    split; [done|]. split; [done|]. split; [by rewrite Hp', Hp1|]. exists (w_host w1), u'. split; [apply Hw1|]. do 5 (split; [done|]).
    split; [by rewrite Hp', Hp1|]. done.
Qed.

Lemma submit_stream_wp w rest e :
  world_ok I w → client_sends stream_wire rest w → stream_ok (endpoints (w_proto w)) e →
  wp (process_imported_cmd d)
    (λ status w', status = true ∧ world_ok I w' ∧ client_sends rest [] w' ∧ same_scripts w w'
       ∧ ∃ h1 h2 u, stream_received (w_host w) h1 ∧ host_idle I h1 ∧ host_idle I h2 ∧ lib h2 = lib h1 ∧ dev h2 = dev h1
           ∧ urb_ok u ∧ stream_urb u ∧ urb_complete_us u = iso_complete (clock_us (clk h1)) e u
           ∧ endpoints (w_proto w') = stream_table (urb_complete_us u) (endpoints (w_proto w))
           ∧ stream_queued u h2 w w') never w.
Proof using All.
  intros Hw Hcl [Hep0 He Hty Hcount Hmax Hfit Hout Hin]. unfold MAX_ISO_PACKETS in Hmax.
  unfold stream_wire in Hcl. rewrite client_sends_app in Hcl.
  eapply (submit_header_wp I d seqnum devid direction ep flags len start_frame packets interval setup); [done..|exact Hw|exact Hcl|exact He|].
  intros n1 cmd Hw1 Hcl1 [Hs1 Hp1] (Hlc & Hfc & Hnc). rewrite client_sends_nil in Hcl1.
  change (client_sends (data ++ packets_wire pks) rest (set_net n1 w)) in Hcl1. rewrite client_sends_app in Hcl1.
  apply wp_bind. eapply read_out_data_wp; [done|done|exact Hcl1|done|done|].
  intros rx' n2 w2 Hw2 Hcl2 Hs2 Hp2 Hrx. rewrite client_sends_nil in Hcl2. cbn [negb].
  rewrite (proj2 (Z.eqb_neq ep 0)), (proj2 (Z.eqb_eq (ep_type e) _)) by done. cbn [negb andb].
  unfold process_iso_submit. rewrite Hnc, Hlc, Hfc. rewrite (proj2 (Z.ltb_ge _ _)) by done.
  apply wp_bind. eapply tcp_read_exact; [done|exact Hcl2|rewrite packets_wire_blen, Hcount; done|].
  intros n3 Hw3 Hcl3 [Hs3 Hp3]. cbn [negb]. apply wp_bind, wp_gets, wp_bind, wp_liftC.
  set (p := w_proto w2) in *. change (w_proto (set_net n3 w2)) with p.
  pose proof (po_static _ (wo_proto _ _ Hw2)) as Hold. change (w_proto w2) with p in Hold.
  destruct (load_iso_packets_all len pks (urb_packets (static_urb p)) packets Hfit) as (all & -> & Hall & Htake); [lia|done..|].
  apply cwp_ret. apply wp_bind, wp_modify. cbn [negb]. match goal with |- context [set_static_urb ?x] => set (urb := x) end.
  set (w3 := set_proto (set_static_urb urb p) (set_net n3 w2)).
  assert (world_ok I w3) as Hw3' by (apply world_ok_proto; [done|by apply proto_ok_static; [apply Hw2|]]).
  assert (urb_ok urb) as Hurb.
  { split; [done|]. intros _. pose proof (blen_nonneg pks). cbn [urb urb_number_of_packets urb_packets urb_transfer_buffer_length].
    split; [unfold MAX_ISO_PACKETS; lia|]. split; [done|]. by rewrite Htake. }
  assert (stream_urb urb) as Hstream by (by constructor). apply wp_bind.
  eapply wp_post; [apply (receive_stream_wp all w3); [done..|]|].
  { intros Hd. destruct (Hrx Hd) as [_ Ht]. exact Ht. }
  intros _ w4 (h1 & -> & Hw4 & Hrec). assert (connected (w_net (set_host h1 w3))) as Hc3 by apply Hcl3.
  eapply wp_post; [apply (queue_stream_wp urb _ e); [done|exact Hc3|done|done|exact He]|].
  intros status w5 (-> & Hw5 & Hc5 & Hn5 & Ho5 & Hi5 & h2 & u & Hh2 & Hl2 & Hd2 & Huok & Hu & Ht & Htab & Hq).
  pose proof Hn5 as (_ & _ & Hrx5 & Hpo5 & _). cbn in Hrx5, Hpo5, Hp2, Hp3, Hs2, Hs3.
  split; [done|]. split; [done|]. split; [split; [done|rewrite Hrx5; apply Hcl3]|].
  split; [split; [congruence|by split]|]. exists h1, h2, u. split; [exact Hrec|]. split; [apply Hw4|].
  do 7 (split; [done|]). unfold stream_queued in *. cbn [w_net w_proto set_host w3 set_proto set_net] in Hq.
  change (sent n3) with (sent (w_net (set_net n3 w2))) in Hq. cbn in Hq. rewrite Hs3, Hs2, Hs1 in Hq. exact Hq.
Qed.
End submit.
End streams.
