(* ===== verification/Rounds.v ===== *)
(** * A round of the server with the threads of the device

    [usbip_protocol_process_imported_device] from the wait to the replies: what other
    threads transmit while the server thread sleeps, and the completion of the pending
    transfers with it. *)
From S2P Require Import Prelude WireFormat DeviceStore Descriptors Host BulkDevice Control Tcpip ConfigWalk Protocol ProtocolSafety Completion ProtocolEntry.

(** ** Reference: calls of other threads on the slots *)

(** A call that would wait has not finished when the round goes on. *)
Definition spec_call (a : slots) (c : transmit_call) : slots :=
  if transmit_waits other_thread (ep_number (tc_ep c)) a then a
  else (spec_store (ep_number (tc_ep c)) (cut_message (tc_data c) (tc_length c)) a).2.

(** The bytes it adds to endpoint [k]. *)
Definition call_adds (k : nat) (a : slots) (c : transmit_call) : bytes :=
  if bool_decide (ep_number (tc_ep c) = k) && negb (stopped a) && bool_decide (slot_of k a = [])
  then cut_message (tc_data c) (tc_length c) else [].

Fixpoint calls_add (k : nat) (a : slots) (calls : list transmit_call) : bytes :=
  match calls with
  | [] => []
  | c :: calls => call_adds k a c ++ calls_add k (spec_call a c) calls
  end.

(** What the script has the other threads do during the next sleep. *)
Definition meanwhile {D} (w : world D) : list transmit_call := default [] (head (others w)).

(** A round in which no command of the client arrives. *)
Definition quiet {D} (w : world D) : Prop :=
  connected (w_net w) ∧ ∃ rest, polls (w_net w) = PollWake :: rest ∨ polls (w_net w) = PollTimeout :: rest.

(** * Theorems *)

Lemma spec_store_slots k msg a : length (slot a) = 16%nat → length (slot (spec_store k msg a).2) = 16%nat.
Proof. intros Hl. unfold spec_store. repeat case_match; cbn; try done; by rewrite length_insert. Qed.

Lemma spec_call_slots a c : length (slot a) = 16%nat → length (slot (spec_call a c)) = 16%nat.
Proof. intros Hl. unfold spec_call. case_match; [done|by apply spec_store_slots]. Qed.

Lemma spec_call_adds k a c :
  length (slot a) = 16%nat → k ≠ 0%nat → slot_of k (spec_call a c) = slot_of k a ++ call_adds k a c.
Proof.
  intros Hl Hk. unfold spec_call, call_adds, spec_store. set (e := ep_number (tc_ep c)).
  pose proof (ep_number_lt (tc_ep c)) as He. fold e in He.
  change (transmit_waits other_thread e a) with (bool_decide (e ≠ 0%nat) && negb (stopped a) && bool_decide (slot_of e a ≠ [])).
  destruct (stopped a); cbn [negb].
  { rewrite !andb_false_r. cbn [andb snd]. by rewrite app_nil_r. }
  rewrite !andb_true_r. destruct (decide (e = k)) as [->|Hne].
  - rewrite (bool_decide_true (k = k)), (bool_decide_true (k ≠ 0%nat)) by done. cbn [andb].
    destruct (decide (slot_of k a = [])) as [Hs|Hs].
    + rewrite (bool_decide_false (slot_of k a ≠ [])), (bool_decide_true (slot_of k a = [])) by tauto.
      rewrite decide_False by done. cbn [snd]. by rewrite slot_of_set_slot, Hl, decide_True, Hs by done.
    + rewrite (bool_decide_true (slot_of k a ≠ [])), (bool_decide_false (slot_of k a = [])) by done. by rewrite app_nil_r.
  - rewrite (bool_decide_false (e = k)) by done. cbn [andb]. rewrite app_nil_r. destruct (_ && _); [done|].
    assert (∀ q, slot_of k (set_slot e q a) = slot_of k a) as Hset
      by (intros q; rewrite slot_of_set_slot; by rewrite decide_False by naive_solver).
    repeat case_decide; cbn [snd]; [exact (Hset _)|exact (Hset _)|done].
Qed.

Lemma calls_add_spec k calls a :
  length (slot a) = 16%nat → k ≠ 0%nat → slot_of k (foldl spec_call a calls) = slot_of k a ++ calls_add k a calls.
Proof.
  revert a. induction calls as [|c calls IH]; intros a Hl Hk; cbn [foldl calls_add]; [by rewrite app_nil_r|].
  rewrite IH by (done || by apply spec_call_slots). by rewrite spec_call_adds, app_assoc.
Qed.

Section round.
Context {D : Type} (I : D → Prop) (d : usbip_device_t D) `{!DeviceSound I d}.
Implicit Types (w : world D).

Lemma one_transmit c w :
  world_ok I w → call_ok c →
  ∃ h', (match in_host (in_lib (usbip_device_transmit other_thread (tc_ep c) (tc_data c) (tc_length c))) w with
         | Ok _ w' | Idle w' => Ok tt w'
         | Fault f => Fault f
         end) = Ok tt (set_host h' w)
    ∧ world_ok I (set_host h' w) ∧ abs (lib h') = spec_call (abs (lib (w_host w))) c ∧ clk h' = clk (w_host w) ∧ dev h' = dev (w_host w).
Proof using.
  intros Hw (Hc1 & Hc2 & Hc3). destruct (wo_host _ _ Hw) as [[HI Hwf] Hl].
  pose proof (transmit_spec other_thread (lib (w_host w)) (tc_ep c) (tc_data c) (tc_length c) Hwf Hc1 Hc2 Hc3) as H.
  unfold in_host, in_lib, zoom, spec_call. destruct (transmit_waits _ _ _).
  - rewrite H. eexists. split; [reflexivity|]. split; [|done]. apply world_ok_host; [done|]. done.
  - destruct (spec_store _ _ _) as [stored a']. destruct H as (s' & Hs & Habs & Hwf' & (Hl' & _) & _). rewrite Hs.
    eexists. split; [reflexivity|]. split; [|done]. apply world_ok_host; [done|]. split; [done|]. cbn. congruence.
Qed.

Lemma run_transmits_slots calls w :
  world_ok I w → Forall call_ok calls →
  ∃ h', run_transmits calls w = Ok tt (set_host h' w) ∧ world_ok I (set_host h' w)
    ∧ abs (lib h') = foldl spec_call (abs (lib (w_host w))) calls ∧ clk h' = clk (w_host w) ∧ dev h' = dev (w_host w).
Proof using.
  intros Hw Hc. revert w Hw. induction Hc as [|c calls Hc _ IH]; intros w Hw.
  { exists (w_host w). cbn [run_transmits ret foldl]. by rewrite set_host_id. }
  destruct (one_transmit c w Hw Hc) as (h1 & H1 & Hw1 & Ha1 & Hc1 & Hd1).
  destruct (IH (set_host h1 w) Hw1) as (h2 & H2 & Hw2 & Ha2 & Hc2 & Hd2). exists h2.
  cbn [run_transmits]. unfold bind. rewrite H1, H2. cbn [w_host set_host foldl] in *.
  split; [done|]. split; [done|]. rewrite <-Ha1. by split_and!; [|congruence|congruence].
Qed.

Lemma sleep_slots w :
  world_ok I w →
  ∃ h', sleep w = Ok tt (set_host h' (set_others (tail (others w)) w)) ∧ world_ok I (set_host h' (set_others (tail (others w)) w))
    ∧ abs (lib h') = foldl spec_call (abs (lib (w_host w))) (meanwhile w) ∧ clk h' = clk (w_host w) ∧ dev h' = dev (w_host w).
Proof using.
  intros Hw. unfold sleep, meanwhile, bind, gets. destruct (others w) as [|calls rest] eqn:Ho.
  - exists (w_host w). cbn [ret tail head default from_option id foldl]. split; [f_equal; destruct w; by cbn in *; subst|].
    split; [|done]. destruct Hw, w. cbn in *. by subst.
  - cbn [modify]. pose proof (wo_others _ _ Hw) as HF. rewrite Ho in HF. apply Forall_cons in HF as [Hc HF].
    destruct (run_transmits_slots calls (set_others rest w)) as (h' & H & Hrest); [destruct Hw; by constructor|done|].
    exists h'. done.
Qed.

(** A round from the end of the wait on. *)
Definition after_wait (ready : bool) : M (world D) bool :=
  let* status := (if ready then process_imported_cmd d else ret true) in
  in_host (in_lib usbip_device_clear_event);;
  let* status := (if status then complete_pending_urbs d else ret false) in
  (if negb status then
     setp (set_device_imported false);; setp (set_num_pending 0);; in_host (usbip_device_reset d)
   else ret tt);;
  ret (negb status).

Definition client_ready (p : poll_event) : bool := match p with PollClient => true | _ => false end.

(** Up to there the other threads have transmitted, and nothing else has changed. *)
Lemma round_wakes w p more :
  world_ok I w → connected (w_net w) → polls (w_net w) = p :: more →
  ∃ h1, let w1 := set_net (set_polls more (w_net w)) (set_host h1 (set_others (tail (others w)) w)) in
    usbip_protocol_process_imported_device d w = after_wait (client_ready p) w1 ∧ world_ok I w1
    ∧ abs (lib h1) = foldl spec_call (abs (lib (w_host w))) (meanwhile w) ∧ same_device (w_host w) h1.
Proof using.
  intros Hw Hc Hp. destruct (sleep_slots w Hw) as (h1 & H1 & Hw1 & Ha1 & Hc1 & Hd1). exists h1. cbn zeta.
  split; [|split; [by apply world_ok_net; [|apply Hw]|done]].
  unfold usbip_protocol_process_imported_device. unfold bind at 1. cbn [in_host in_lib zoom usbip_device_get_event_fd gets].
  replace (set_host _ w) with w by (by destruct w as [[] ? ? ?]). unfold bind at 1. cbn [getp gets].
  unfold bind at 1. rewrite H1. unfold bind at 1. unfold in_net, zoom, tcpip_server_wait_for_data.
  cbn [w_net set_host set_others]. rewrite (proj1 Hc), Hp. by destruct p.
Qed.

Lemma clear_event_ok w :
  world_ok I w →
  ∃ h, in_host (in_lib usbip_device_clear_event) w = Ok tt (set_host h w) ∧ world_ok I (set_host h w)
    ∧ abs (lib h) = abs (lib (w_host w)) ∧ same_device (w_host w) h.
Proof using.
  intros Hw.
  assert (wp (in_host (in_lib usbip_device_clear_event)) (λ _ w', ∃ h, w' = set_host h w ∧ world_ok I w'
    ∧ abs (lib h) = abs (lib (w_host w)) ∧ same_device (w_host w) h) never w) as H.
  { apply (clear_event_wp I); [done|]. intros h Hh Ha Hd Hc. by exists h. }
  apply wp_never_Ok in H as ([] & w' & H & h & -> & Hrest). eauto.
Qed.

(** A round whose command, if any, was executed: the pending transfers are completed. *)
Lemma round_completes (ready : bool) w w1 :
  (if ready then process_imported_cmd d else ret true) w = Ok true w1 → world_ok I w1 → connected (w_net w1) →
  ∃ w2 rs, after_wait ready w = Ok false w2
    ∧ pass I d (clock_us (clk (w_host w1))) (live (w_proto w1)) (pass_start w1) rs (live (w_proto w2)) (pass_of w2)
    ∧ sent (w_net w2) = sent (w_net w1) ++ concat (rs.*2)
    ∧ world_ok I w2 ∧ connected (w_net w2) ∧ others w2 = others w1
    ∧ device_imported (w_proto w2) = device_imported (w_proto w1) ∧ same_but_tx (w_net w1) (w_net w2)
    ∧ (Forall (piped d) (live (w_proto w1)) → last_us (clk (w_host w2)) = clock_us (clk (w_host w1))).
Proof using All.
  intros H1 Hw1 Hc1. destruct (clear_event_ok w1 Hw1) as (h & H2 & Hw2 & Ha & Hdev & Hclk).
  destruct (complete_pending_urbs_connected I d _ Hw2 Hc1) as (w2 & rs & H3 & Hp & Hs & Hw3 & Hf & Hc3 & Hsd).
  exists w2, rs. unfold after_wait. unfold bind at 1. rewrite H1. unfold bind at 1. rewrite H2. unfold bind at 1. rewrite H3.
  split; [done|]. split; [|split; [done|split; [done|split; [done|]]]].
  - unfold pass_start in *. cbn [w_host w_proto set_host] in Hp. by rewrite Hclk, Ha, Hdev in Hp.
  - destruct Hf as (Hi & _ & _ & Ho & _ & Hn). cbn [w_host w_proto set_host] in Hsd. rewrite Hclk in Hsd. done.
Qed.

(** From a device thread to the client: in a round without a command, the messages that
    other threads transmit while the server thread sleeps reach the pending bulk and
    interrupt transfers of the same round. On every endpoint the data of the replies, in
    order, followed by what stays unread, is what was unread before followed by what the
    threads queued; a transfer stays pending only when its endpoint is empty or may not be
    polled yet; and the client stays connected for the next round. *)
Theorem round_delivers_what_threads_transmit (w : world D) :
  world_ok I w → quiet w → Forall plain (live (w_proto w)) →
  ∃ w' rs, usbip_protocol_process_imported_device d w = Ok false w'
    ∧ sent (w_net w') = sent (w_net w) ++ concat (rs.*2)
    ∧ (∀ k, k ≠ 0%nat →
         concat (reply_data <$> filter (λ r, ep_number (urb_ep r.1) = k) rs) ++ slot_of k (abs (lib (w_host w')))
         = slot_of k (abs (lib (w_host w))) ++ calls_add k (abs (lib (w_host w))) (meanwhile w))
    ∧ merge (rs.*1) (live (w_proto w')) (live (w_proto w))
    ∧ Forall (rightly_kept (clock_us (clk (w_host w))) (pass_of w')) (live (w_proto w'))
    ∧ world_ok I w' ∧ connected (w_net w') ∧ polls (w_net w') = tail (polls (w_net w)) ∧ others w' = tail (others w).
Proof using All.
  intros Hw (Hc & more & Hpoll) Hpl.
  assert (∃ p, polls (w_net w) = p :: more ∧ client_ready p = false) as (p & Hp & Hcr) by (destruct Hpoll; eauto).
  destruct (round_wakes w p more Hw Hc Hp) as (h1 & H1 & Hw1 & Ha1 & _ & Hclk). rewrite Hcr in H1.
  set (w1 := set_net _ _) in *.
  destruct (round_completes false w1 w1 eq_refl Hw1 Hc) as (w2 & rs & H2 & Hpass & Hs2 & Hw2 & Hc2 & Ho2 & _ & Hn2 & _).
  change (live (w_proto w1)) with (live (w_proto w)) in Hpass.
  change (pass_start w1) with (Build_pass_state D (abs (lib h1)) (dev h1) (endpoints (w_proto w)) WAIT_TIMEOUT_US) in Hpass.
  change (clk (w_host w1)) with (clk h1) in Hpass. rewrite Hclk in Hpass. pose proof (pass_start_slots I w Hw) as Hslots.
  assert (length (slot (abs (lib h1))) = 16%nat) as Hlen by apply (pass_start_slots I w1 Hw1).
  exists w2, rs. split; [congruence|]. split; [done|].
  split; [|split; [by eapply pass_merge|split; [|split; [done|split; [done|]]]]].
  - intros k Hk. change (slot_of k (abs (lib (w_host w2)))) with (slot_of k (ps_slots (pass_of w2))).
    rewrite (pass_conserves _ _ _ _ _ _ k Hpass) by done. cbn [ps_slots]. rewrite Ha1. by apply calls_add_spec.
  - eapply pass_exhaustive; [exact Hpass|by apply plain_piped|apply clock_us_range|done].
  - split; [|done]. rewrite Hp. by destruct Hn2 as (_ & _ & _ & -> & _).
Qed.
End round.

(** ** Witness: a thread of the bulk device transmits during a quiet round *)

Definition round_call : transmit_call := {| tc_ep := 1; tc_data := [1; 2; 3]; tc_length := 3 |}.

Definition round_world : world Bulk.state :=
  {| w_host := Bulk.initial_host; w_net := set_polls [PollWake] (bulk_net []);
     w_proto := set_pending ([sample_urb 4; sample_urb 5] ++ replicate 30 zero_urb) 2 initial_proto;
     others := [[round_call]] |}.

Lemma round_world_ok : world_ok Bulk.inv round_world.
Proof.
  constructor; [|by split; constructor| |].
  - split; [|done]. split; [apply Bulk.inv_initial_state|apply wf_initial_device_state].
  - apply (proto_ok_pending _ _ _ [sample_urb 4; sample_urb 5]); [apply initial_proto_ok|done|done|done|].
    repeat constructor; done.
  - constructor; [|constructor]. constructor; [|constructor]. split; [done|]. split; [done|]. repeat (constructor; [done|]). constructor.
Qed.

Lemma round_delivers_what_threads_transmit_witness :
  ∃ w' (rs : list (pending_urb_t * bytes)),
    usbip_protocol_process_imported_device Bulk.bulk_device round_world = Ok false w'
    ∧ concat (reply_data <$> filter (λ r, ep_number (urb_ep r.1) = 1%nat) rs) ++ slot_of 1 (abs (lib (w_host w'))) = [1; 2; 3].
Proof.
  destruct (round_delivers_what_threads_transmit Bulk.inv Bulk.bulk_device round_world) as (w' & rs & H1 & _ & H2 & _).
  - exact round_world_ok.
  - split; [split; [reflexivity|constructor]|]. exists []. by left.
  - repeat constructor; done.
  - exists w', rs. split; [exact H1|]. rewrite (H2 1%nat) by lia. reflexivity.
Defined.
