(* ===== verification/Pipes.v ===== *)
(** * What a client sends, and the pipes that serve it

    The commands of a client, and the reference for whole sessions: a machine of pipes
    around the device. Messages go in at one end, transfers take them out at the other,
    oldest first on each endpoint; requests, OUT data and isochronous packets go to the
    device. The properties of its traces, and that a pass over the pending transfers and the
    calls of threads are traces. *)
From S2P Require Import Prelude WireFormat DeviceStore Descriptors Host BulkDevice Control Silent Tcpip ConfigWalk Protocol ProtocolSafety Completion ProtocolEntry StreamEntry Rounds.

(** ** What the client sends *)

Record submit_in := {
  in_seqnum : Z;
  in_devid : Z;
  in_direction : Z;
  in_ep : Z;
  in_flags : Z;
  in_length : Z;
  in_start_frame : Z;
  in_packets : Z;
  in_interval : Z;
  in_setup : bytes;
}.

Inductive command :=
| CmdSubmit (c : submit_in)                (* an IN transfer *)
| CmdSend (c : submit_in) (data : bytes)   (* an OUT transfer with its data *)
| CmdStream (c : submit_in) (data : bytes) (pks : list sent_packet)   (* an isochronous transfer *)
| CmdUnlink (seqnum devid victim : Z).

Definition submit_bytes (c : submit_in) : bytes :=
  cmd_submit_wire (in_seqnum c) (in_devid c) (in_direction c) (in_ep c) (in_flags c) (in_length c)
    (in_start_frame c) (in_packets c) (in_interval c) (in_setup c).

Definition command_wire (c : command) : bytes :=
  match c with
  | CmdSubmit c => submit_bytes c
  | CmdSend c data => submit_bytes c ++ data
  | CmdStream c data pks => submit_bytes c ++ data ++ packets_wire pks
  | CmdUnlink seqnum devid victim => cmd_unlink_wire seqnum devid victim
  end.

Definition fields_ok (c : submit_in) : Prop :=
  is_u32 (in_seqnum c) ∧ is_u32 (in_direction c) ∧ is_u32 (in_ep c) ∧ 0 ≤ in_length c ≤ USBIP_MAX_PACKET_SIZE
  ∧ is_u32 (in_start_frame c) ∧ is_u32 (in_packets c) ∧ length (in_setup c) = 8%nat.

(** A submit asks for data of a bulk or interrupt endpoint. *)
Definition reads (t : endpoint_table) (c : submit_in) : Prop :=
  0 < in_length c ∧ in_direction c ≠ 0 ∧ ep_number (in_ep c) ≠ 0%nat
  ∧ ∃ e, table_lookup t (key_of (endpoint_dir (in_direction c)) (in_ep c)) = Some e ∧ ep_type e ≠ USB_ENDPOINT_XFER_ISOC.

(** Or it is a control request with IN data, for example a standard request to the device,
    as a host sends them to get its descriptors. *)
Definition asks (c : submit_in) : Prop := in_ep c = 0 ∧ in_direction c = 1.

Definition standard (c : submit_in) : Prop := in_setup c !! 0%nat = Some 0x80.

(** It sends a control request with its OUT data, or OUT data for a bulk or interrupt
    endpoint. *)
Definition writes (t : endpoint_table) (c : submit_in) (data : bytes) : Prop :=
  in_direction c = 0 ∧ blen data = in_length c ∧ ordinary (in_direction c) (in_ep c) t.

(** A transfer on an isochronous endpoint, its packets within its data. *)
Definition streams (t : endpoint_table) (c : submit_in) (data : bytes) (pks : list sent_packet) : Prop :=
  ∃ e, stream_ok (in_direction c) (in_ep c) (in_length c) (in_packets c) data pks t e.

Definition command_ok (t : endpoint_table) (c : command) : Prop :=
  match c with
  | CmdSubmit c => fields_ok c ∧ (reads t c ∨ asks c)
  | CmdSend c data => fields_ok c ∧ writes t c data
  | CmdStream c data pks => fields_ok c ∧ streams t c data pks
  | CmdUnlink seqnum devid victim => is_u32 seqnum ∧ is_u32 victim
  end.

(** One round: the client's command, or why the server wakes up without one. *)
Inductive turn := Sends (c : command) | Quiet (timeout : bool).

Definition poll_of (a : turn) : poll_event :=
  match a with Sends _ => PollClient | Quiet true => PollTimeout | Quiet false => PollWake end.

Definition command_of (a : turn) : option command := match a with Sends c => Some c | Quiet _ => None end.

Definition sent_by (a : turn) : bytes := from_option command_wire [] (command_of a).

(** ** Reference: pipes around the device *)

Record pipes (D : Type) := {
  waiting : list pending_urb_t;   (* transfers of the client, oldest first *)
  unread : slots;                 (* messages of the device *)
  device : D;                     (* its variables *)
}.
Arguments waiting {D} _.
Arguments unread {D} _.
Arguments device {D} _.

Inductive event :=
| Called (c : transmit_call) (stored : bool)   (* by a thread of the device *)
| Queued (c : submit_in) (u : pending_urb_t)
| Refused (c : submit_in)                      (* the queue is full *)
| Answered (c : submit_in) (reply : option bytes)       (* a standard request *)
| Requested (c : submit_in) (reply : option bytes)      (* any other control request *)
| Delivered (c : submit_in) (data : bytes) (supported : bool)
| Unlinked (seqnum devid victim : Z) (u : option pending_urb_t)
| Completed (u : pending_urb_t) (data : bytes)
| StreamQueued (c : submit_in) (data : bytes) (pks : list sent_packet) (u : pending_urb_t)
| StreamAnswered (c : submit_in) (data : bytes) (pks : list sent_packet) (u : pending_urb_t) (acts : list Z) (payload : bytes)
                                               (* the queue is full *)
| StreamCompleted (u : pending_urb_t) (acts : list Z) (payload : bytes).

Definition takes_call (a : slots) (c : transmit_call) : bool :=
  negb (stopped a) && (bool_decide (ep_number (tc_ep c) = 0%nat) || bool_decide (slot_of (ep_number (tc_ep c)) a = [])).

Definition transfer_of (c : submit_in) (u : pending_urb_t) : Prop :=
  urb_seqnum u = in_seqnum c ∧ urb_ep u = in_ep c ∧ urb_direction u = in_direction c
  ∧ urb_transfer_buffer_length u = in_length c ∧ urb_isochronous u = false.

Definition stream_of (c : submit_in) (pks : list sent_packet) (u : pending_urb_t) : Prop :=
  stream_urb (in_seqnum c) (in_direction c) (in_ep c) (in_length c) (in_start_frame c) (in_packets c) pks u.

(** A message is stored when its endpoint is free, a transfer is answered with the oldest
    bytes of its endpoint when there are some and no older transfer waits for them, the
    device carries out the requests and the data it is given, at some time, and it fills the
    packets of an isochronous transfer when this is answered, not before those that are
    complete earlier. *)
Inductive pipe_step {D} (I : D → Prop) (d : usbip_device_t D) : pipes D → event → pipes D → Prop :=
| step_called q a s c :
    pipe_step I d {| waiting := q; unread := a; device := s |} (Called c (takes_call a c))
      {| waiting := q;
         unread := if takes_call a c then (spec_store (ep_number (tc_ep c)) (cut_message (tc_data c) (tc_length c)) a).2 else a;
         device := s |}
| step_queued q a s c u :
    blen q < MAX_PENDING_URBS → transfer_of c u →
    pipe_step I d {| waiting := q; unread := a; device := s |} (Queued c u) {| waiting := q ++ [u]; unread := a; device := s |}
| step_refused q a s c :
    blen q = MAX_PENDING_URBS →
    pipe_step I d {| waiting := q; unread := a; device := s |} (Refused c) {| waiting := q; unread := a; device := s |}
| step_unlinked q a s seqnum devid victim u q' :
    unlinked victim q = (u, q') →
    pipe_step I d {| waiting := q; unread := a; device := s |} (Unlinked seqnum devid victim u)
      {| waiting := q'; unread := a; device := s |}
| step_completed q1 q2 a s u k n :
    urb_isochronous u = false → k = ep_number (urb_ep u) → n = Z.to_nat (urb_transfer_buffer_length u) →
    Forall (λ v, urb_isochronous v = false → ep_number (urb_ep v) ≠ k) q1 →
    take n (slot_of k a) ≠ [] →
    pipe_step I d {| waiting := q1 ++ u :: q2; unread := a; device := s |} (Completed u (take n (slot_of k a)))
      {| waiting := q1 ++ q2; unread := set_slot k (drop n (slot_of k a)) a; device := s |}
| step_answered q a s c :
    asks c → standard c →
    pipe_step I d {| waiting := q; unread := a; device := s |} (Answered c (answer_of d (in_setup c) a))
      {| waiting := q; unread := set_answered false (set_slot 0 [] a); device := s |}
| step_requested q c buffer supported h h' :
    asks c → ¬ standard c → host_idle I h → data_ok buffer (in_length c) →
    usbip_device_control d (in_setup c) buffer (in_length c) h = Ok supported h' → host_idle I h' →
    pipe_step I d {| waiting := q; unread := abs (lib h); device := dev h |}
      (Requested c (request_reply (in_length c) supported (abs (lib h'))))
      {| waiting := q; unread := set_answered false (set_slot 0 [] (abs (lib h'))); device := dev h' |}
| step_delivered q c data buffer supported h h' :
    host_idle I h → data_ok buffer (in_length c) → take (Z.to_nat (in_length c)) buffer = data →
    hand_over d (in_ep c) (in_length c) (in_setup c) buffer h = Ok supported h' → host_idle I h' →
    pipe_step I d {| waiting := q; unread := abs (lib h); device := dev h |} (Delivered c data supported)
      {| waiting := q; unread := abs (lib h'); device := dev h' |}
| step_stream_queued q c data pks u h h' :
    blen q < MAX_PENDING_URBS → stream_of c pks u →
    host_idle I h → stream_received d (in_direction c) (in_ep c) data pks h h' → host_idle I h' →
    pipe_step I d {| waiting := q; unread := abs (lib h); device := dev h |} (StreamQueued c data pks u)
      {| waiting := q ++ [u]; unread := abs (lib h'); device := dev h' |}
| step_stream_answered q c data pks u acts payload h h1 h2 h' :
    blen q = MAX_PENDING_URBS → stream_of c pks u → urb_ok u →
    host_idle I h → stream_received d (in_direction c) (in_ep c) data pks h h1 →
    host_idle I h2 → lib h2 = lib h1 → dev h2 = dev h1 → iso_exchange d u 0 pks.*1 h2 acts payload h' → host_idle I h' →
    pipe_step I d {| waiting := q; unread := abs (lib h); device := dev h |} (StreamAnswered c data pks u acts payload)
      {| waiting := q; unread := abs (lib h'); device := dev h' |}
| step_stream_completed q1 q2 u acts payload h h' :
    urb_isochronous u = true → urb_ok u → Forall (λ v, urb_isochronous v = true → urb_complete_us u < urb_complete_us v) q1 →
    host_idle I h → iso_exchange d u 0 (packets_of u) h acts payload h' → host_idle I h' →
    pipe_step I d {| waiting := q1 ++ u :: q2; unread := abs (lib h); device := dev h |} (StreamCompleted u acts payload)
      {| waiting := q1 ++ q2; unread := abs (lib h'); device := dev h' |}.

Inductive pipe_trace {D} (I : D → Prop) (d : usbip_device_t D) : pipes D → list event → pipes D → Prop :=
| trace_nil s : pipe_trace I d s [] s
| trace_cons s e s1 log s' : pipe_step I d s e s1 → pipe_trace I d s1 log s' → pipe_trace I d s (e :: log) s'.

(** What an event puts on the wire. *)
Definition event_wire (e : event) : bytes :=
  match e with
  | Called _ _ | Queued _ _ | StreamQueued _ _ _ _ => []
  | Refused c => ret_submit_wire (in_seqnum c) 0 0 0 0xffffffff
  | Unlinked seqnum _ _ u => ret_unlink_wire seqnum (unlink_status u)
  | Completed u data => data_reply u data
  | Answered c reply => control_answer (in_seqnum c) (in_length c) reply
  | Requested c reply => reply_wire (in_seqnum c) reply
  | Delivered c _ supported => send_reply (in_seqnum c) (in_length c) supported
  | StreamAnswered _ _ _ u acts payload | StreamCompleted u acts payload => iso_reply_wire u acts payload
  end.

(** ** Views of a log *)

Definition log_commands (log : list event) : list command :=
  omap (λ e, match e with
             | Queued c _ | Refused c | Answered c _ | Requested c _ => Some (CmdSubmit c)
             | Delivered c data _ => Some (CmdSend c data)
             | StreamQueued c data pks _ | StreamAnswered c data pks _ _ _ => Some (CmdStream c data pks)
             | Unlinked s d v _ => Some (CmdUnlink s d v)
             | _ => None
             end) log.
Definition log_calls (log : list event) : list transmit_call :=
  omap (λ e, match e with Called c _ => Some c | _ => None end) log.

Definition stored_bytes (k : nat) (e : event) : bytes :=
  match e with
  | Called c true => if decide (ep_number (tc_ep c) = k) then cut_message (tc_data c) (tc_length c) else []
  | _ => []
  end.
Definition read_bytes (k : nat) (e : event) : bytes :=
  match e with
  | Completed u data => if decide (ep_number (urb_ep u) = k) then data else []
  | _ => []
  end.

Definition log_queued (log : list event) : list pending_urb_t :=
  omap (λ e, match e with Queued _ u | StreamQueued _ _ _ u => Some u | _ => None end) log.
Definition log_unlinked (log : list event) : list pending_urb_t :=
  omap (λ e, match e with Unlinked _ _ _ u => u | _ => None end) log.
Definition log_completed (log : list event) : list pending_urb_t :=
  omap (λ e, match e with Completed u _ | StreamCompleted u _ _ => Some u | _ => None end) log.

(** The bulk and interrupt transfers of endpoint [k]. *)
Definition on_pipe (k : nat) (l : list pending_urb_t) : list pending_urb_t :=
  filter (λ u, urb_isochronous u = false ∧ ep_number (urb_ep u) = k) l.

(** What the device gave for the packets of isochronous transfers, in the order of the
    replies. *)
Definition streamed (log : list event) : bytes :=
  concat (omap (λ e, match e with StreamAnswered _ _ _ _ _ payload | StreamCompleted _ _ payload => Some payload | _ => None end) log).

(** * Theorems *)

(** ** Lists *)

Lemma filter_sublist_mono {A} (P : A → Prop) `{∀ x, Decision (P x)} l k : l `sublist_of` k → filter P l `sublist_of` filter P k.
Proof. induction 1; rewrite ?filter_cons; repeat case_decide; first [done|by constructor]. Qed.

(** ** Logs *)

Lemma log_commands_app log1 log2 : log_commands (log1 ++ log2) = log_commands log1 ++ log_commands log2.
Proof. apply omap_app. Qed.

Lemma streamed_app log1 log2 : streamed (log1 ++ log2) = streamed log1 ++ streamed log2.
Proof. unfold streamed. by rewrite omap_app, concat_app. Qed.

(** The event of a command of the client. *)
Lemma log_commands_split log l1 c l2 :
  log_commands log = l1 ++ c :: l2 →
  ∃ log1 e log2, log = log1 ++ e :: log2 ∧ log_commands log1 = l1 ∧ log_commands [e] = [c] ∧ log_commands log2 = l2.
Proof.
  revert l1. induction log as [|x log IH]; intros l1 H; [by destruct l1|]. change (x :: log) with ([x] ++ log) in *.
  rewrite log_commands_app in H. assert (log_commands [x] = [] ∨ ∃ y, log_commands [x] = [y]) as [Hx|[y Hx]] by (by destruct x; eauto).
  - rewrite Hx in H. destruct (IH l1 H) as (log1 & e & log2 & -> & H1 & H2 & H3). exists (x :: log1), e, log2.
    split; [done|]. split; [|done]. change (x :: log1) with ([x] ++ log1). by rewrite log_commands_app, Hx.
  - rewrite Hx in H. destruct l1 as [|y' l1]; injection H as -> H.
    + by exists [], x, log.
    + destruct (IH l1 H) as (log1 & e & log2 & -> & H1 & H2 & H3). exists (x :: log1), e, log2.
      split; [done|]. split; [|done]. change (x :: log1) with ([x] ++ log1). by rewrite log_commands_app, Hx, H1.
Qed.

(** ** The pipes *)

Section pipes.
Context {D : Type} (I : D → Prop) (d : usbip_device_t D) `{!SilentDevice d}.

Lemma pipe_trace_app s log1 s1 log2 s2 :
  pipe_trace I d s log1 s1 → pipe_trace I d s1 log2 s2 → pipe_trace I d s (log1 ++ log2) s2.
Proof using. induction 1; [done|]. intros. econstructor; eauto. Qed.

Lemma pipe_trace_one s e s' : pipe_step I d s e s' → pipe_trace I d s [e] s'.
Proof using. intros H. econstructor; [done|constructor]. Qed.

Lemma pipe_trace_split s log1 e log2 s' :
  pipe_trace I d s (log1 ++ e :: log2) s' →
  ∃ s1 s2, pipe_trace I d s log1 s1 ∧ pipe_step I d s1 e s2 ∧ pipe_trace I d s2 log2 s'.
Proof using.
  revert s. induction log1 as [|x log1 IH]; intros s H; inversion H as [|? ? s1 ? ? H1 H2]; subst.
  - exists s, s1. split; [constructor|done].
  - destruct (IH s1 H2) as (s3 & s4 & H3 & H4 & H5). exists s3, s4. split; [by econstructor|done].
Qed.

Lemma unlinked_spec v q u q' : unlinked v q = (u, q') → q ≡ₚ option_list u ++ q' ∧ q' `sublist_of` q.
Proof using.
  unfold unlinked. destruct (list_find _ q) as [[i x]|] eqn:Hf; intros [= <- <-]; [|done].
  apply list_find_Some in Hf as (Hi & _ & _). split; [|apply sublist_delete].
  rewrite <-(take_drop_middle q i x) at 1 by done. rewrite delete_take_drop. cbn. by rewrite Permutation_middle.
Qed.

Lemma step_slots s e s' : pipe_step I d s e s' → length (slot (unread s')) = length (slot (unread s)).
Proof using.
  destruct 1 as [q a s c| | | | | | | | | |]; cbn [unread]; try done; try (cbn; apply length_insert); try (by rewrite !(idle_slots I)).
  - destruct (takes_call a c); [|done]. unfold spec_store. repeat case_match; cbn; try done; apply length_insert.
  - cbn [slot set_answered set_slot]. rewrite length_insert. by rewrite !(idle_slots I).
Qed.

Lemma hand_over_keeps ep len setup buffer : keeps other_messages (hand_over d ep len setup buffer).
Proof using All.
  pose proof (usbip_device_control_keeps d). pose proof (usbip_device_receive_keeps d). unfold hand_over. keeps.
Qed.

Lemma iso_receive_keeps ep data pks h h' : iso_receive d ep data pks h h' → other_messages h h'.
Proof using All.
  induction 1 as [|pk pks h h' _ _ IH|pk pks h buffer h1 h' _ _ _ Hr _ IH]; [done|done|]. etrans; [|exact IH].
  by eapply usbip_device_receive_keeps.
Qed.

Lemma stream_received_keeps direction ep data pks h h' : stream_received d direction ep data pks h h' → other_messages h h'.
Proof using All. unfold stream_received. case_decide; [apply iso_receive_keeps|by intros ->]. Qed.

Lemma cleared_slot k a : k ≠ 0%nat → slot_of k (set_answered false (set_slot 0 [] a)) = slot_of k a.
Proof using.
  intros Hk. change (slot_of k (set_answered false ?x)) with (slot_of k x). by rewrite slot_of_set_slot, decide_False by naive_solver.
Qed.

(** No byte is lost, repeated or reordered. *)
Lemma step_conserves k s e s' :
  pipe_step I d s e s' → length (slot (unread s)) = 16%nat → k ≠ 0%nat →
  slot_of k (unread s) ++ stored_bytes k e = read_bytes k e ++ slot_of k (unread s').
Proof using All.
  intros H Hl Hk. destruct H as [q a s c| | | |q1 q2 a s u j n _ -> -> _ _|q a s c _ _|q c buffer sup h h' _ _ _ _ Hrun _
    |q c data buffer sup h h' _ _ _ Hrun _|q c data pks u h h' _ _ _ Hrec _
    |q c data pks u acts payload h h1 h2 h' _ _ _ _ Hrec _ Hl2 _ Hex _|q1 q2 u acts payload h h' _ _ _ _ Hex _]; cbn [unread stored_bytes read_bytes] in *; rewrite ?app_nil_r; try done.
  - set (j := ep_number (tc_ep c)). pose proof (ep_number_lt (tc_ep c)) as Hj. fold j in Hj.
    unfold takes_call. fold j. destruct (stopped a) eqn:Hst; cbn [negb andb]; [by rewrite app_nil_r|].
    unfold spec_store. rewrite Hst. destruct (decide (j = 0%nat)) as [Hj0|Hj0].
    { rewrite (bool_decide_true (j = 0%nat)) by done. cbn [orb snd]. rewrite decide_False by congruence. rewrite app_nil_r.
      change (slot_of k (set_answered true ?x)) with (slot_of k x). by rewrite slot_of_set_slot, decide_False by naive_solver. }
    rewrite (bool_decide_false (j = 0%nat)) by done. cbn [orb]. destruct (decide (slot_of j a = [])) as [He|He].
    + rewrite bool_decide_true by done. cbn [snd]. rewrite slot_of_set_slot, Hl. destruct (decide (j = k)) as [<-|Hne].
      * by rewrite decide_True, He by done.
      * by rewrite decide_False, app_nil_r by naive_solver.
    + rewrite bool_decide_false by done. by rewrite app_nil_r.
  - pose proof (ep_number_lt (urb_ep u)). rewrite slot_of_set_slot, Hl. destruct (decide (ep_number (urb_ep u) = k)) as [<-|Hne].
    + rewrite decide_True by done. by rewrite take_drop.
    + by rewrite decide_False by naive_solver.
  - by rewrite cleared_slot.
  - rewrite cleared_slot by done. symmetry. apply other_messages_slot; [|done]. by eapply usbip_device_control_keeps.
  - symmetry. apply other_messages_slot; [|done]. by eapply hand_over_keeps.
  - symmetry. apply other_messages_slot; [|done]. by eapply stream_received_keeps.
  - rewrite (still_slot _ _ k (iso_exchange_still _ _ _ _ _ _ _ _ _ Hex)), Hl2. symmetry. apply other_messages_slot; [|done].
    by eapply stream_received_keeps.
  - by rewrite (still_slot _ _ k (iso_exchange_still _ _ _ _ _ _ _ _ _ Hex)).
Qed.

Lemma trace_conserves k s log s' :
  pipe_trace I d s log s' → length (slot (unread s)) = 16%nat → k ≠ 0%nat →
  slot_of k (unread s) ++ concat (stored_bytes k <$> log) = concat (read_bytes k <$> log) ++ slot_of k (unread s').
Proof using All.
  induction 1 as [s|s e s1 log s' H _ IH]; intros Hl Hk; cbn [fmap list_fmap concat]; [by rewrite app_nil_r|].
  rewrite app_assoc, (step_conserves k _ _ _ H) by done. rewrite <-!app_assoc. f_equal. apply IH; [|done].
  by rewrite (step_slots _ _ _ H).
Qed.

(** Every transfer is completed, unlinked or still waiting, each once. *)
Lemma trace_accounts s log s' :
  pipe_trace I d s log s' → waiting s ++ log_queued log ≡ₚ log_completed log ++ log_unlinked log ++ waiting s'.
Proof using.
  induction 1 as [s|s e s1 log s' H _ IH]; [cbn; by rewrite app_nil_r|].
  destruct H as [| |q a s c Hq|q a s sn dv v u q' Hu|q1 q2 a s u k n _ -> -> _ _| | | | | |q1 q2 u acts payload h h' _ _ _ _ _ _];
    unfold log_queued, log_completed, log_unlinked in *; cbn [omap list_omap waiting] in *.
  - done.
  - by rewrite <-app_assoc in IH.
  - done.
  - apply unlinked_spec in Hu as [Hq' _]. rewrite Hq', <-app_assoc, IH. destruct u as [u|]; cbn [option_list app]; [|done].
    by rewrite <-Permutation_middle.
  - rewrite <-app_assoc in *. cbn [app]. rewrite <-Permutation_middle, IH. done.
  - done.
  - done.
  - done.
  - by rewrite <-app_assoc in IH.
  - done.
  - rewrite <-app_assoc in *. cbn [app]. rewrite <-Permutation_middle, IH. done.
Qed.

(** On each bulk or interrupt endpoint transfers complete in the order in which they were
    submitted. *)
Lemma trace_in_order k s log s' :
  pipe_trace I d s log s' →
  on_pipe k (log_completed log ++ waiting s') `sublist_of` on_pipe k (waiting s ++ log_queued log).
Proof using.
  induction 1 as [s|s e s1 log s' H _ IH]; [by rewrite app_nil_r|].
  destruct H as [| |q a s c Hq|q a s sn dv v u q' Hu|q1 q2 a s u j n Hiso -> -> Hq _| | | | | |q1 q2 u acts payload h h' Hiso _ _ _ _ _];
    unfold log_queued, log_completed in *; cbn [omap list_omap waiting] in *; unfold on_pipe in *.
  - done.
  - by rewrite <-app_assoc in IH.
  - done.
  - etrans; [exact IH|]. rewrite !filter_app. apply sublist_app; [|done]. apply filter_sublist_mono. by apply unlinked_spec in Hu as [_ ?].
  - rewrite filter_app in IH |- *. rewrite <-app_assoc, filter_app in IH |- *. cbn [app].
    rewrite filter_cons. rewrite (filter_cons _ u (q2 ++ _)). case_decide as Hon; [|exact IH].
    rewrite (filter_none _ q1) in * by (eapply Forall_impl; [exact Hq|]; intros v; naive_solver).
    cbn [app] in *. by apply sublist_skip.
  - done.
  - done.
  - done.
  - by rewrite <-app_assoc in IH.
  - done.
  - rewrite <-!app_assoc in *. cbn [app] in *. rewrite (filter_cons_False _ u) by (intros [? _]; congruence).
    rewrite !(filter_app _ q1) in *. rewrite (filter_cons_False _ u) by (intros [? _]; congruence). exact IH.
Qed.
End pipes.

(** ** A pass is a trace of completions *)

(** A transfer that the pipes serve. *)
Definition pipe_urb (u : pending_urb_t) : Prop :=
  (urb_isochronous u = true ∧ urb_ok u) ∨ plain u ∧ ep_number (urb_ep u) ≠ 0%nat.

Section passes.
Context {D : Type} (I : D → Prop) (d : usbip_device_t D) `{!SilentDevice d}.

Lemma pipe_urb_piped l : Forall pipe_urb l → Forall (piped d) l.
Proof using All. intros H. eapply Forall_impl; [exact H|]. intros u [[? _]|[? _]]; [by right|by left]. Qed.

(** Why a transfer was passed over. *)
Definition blocked (now : Z) (s : pass_state D) (v : pending_urb_t) : Prop :=
  (urb_isochronous v = false ∧ slot_of (ep_number (urb_ep v)) (ps_slots s) = []) ∨ now < due (ps_table s) v.

Lemma blocked_not_served now s u v :
  blocked now s v → urb_isochronous u = false → due (ps_table s) u ≤ now →
  slot_of (ep_number (urb_ep u)) (ps_slots s) ≠ [] → urb_isochronous v = false → ep_number (urb_ep v) ≠ ep_number (urb_ep u).
Proof using.
  intros Hb Hu Hdue Hs Hv Heq. destruct Hb as [[_ Hb]|Hb]; [by rewrite Heq in Hb|].
  unfold due, in_endpoint, key_of in *. rewrite Hu, Hv, Heq in *. lia.
Qed.

Lemma poll_again_other now t u v :
  (urb_isochronous v = false → ep_number (urb_ep v) ≠ ep_number (urb_ep u)) → due (poll_again now t u) v = due t v.
Proof using.
  intros Hne. unfold due, in_endpoint. destruct (urb_isochronous v); [done|].
  rewrite poll_again_lookup, decide_False; [done|]. unfold key_of. injection. by apply Hne.
Qed.

Lemma set_slot_same k a : (k < length (slot a))%nat → set_slot k (slot_of k a) a = a.
Proof using.
  intros Hk. destruct (lookup_lt_is_Some_2 _ _ Hk) as [q Hq]. unfold set_slot, slot_of. rewrite Hq. cbn.
  rewrite list_insert_id by done. by destruct a.
Qed.

Lemma fetch_nothing u a data a' :
  spec_fetch (ep_number (urb_ep u)) (urb_transfer_buffer_length u) a = (data, a') → data = [] →
  0 < urb_transfer_buffer_length u → ep_number (urb_ep u) ≠ 0%nat →
  length (slot a) = 16%nat → a' = a ∧ slot_of (ep_number (urb_ep u)) a = [].
Proof using.
  intros Hf -> Hn Hk Hl. pose proof (ep_number_lt (urb_ep u)).
  destruct (spec_fetch_slot 1 _ _ _ _ _ Hf) as (_ & _ & He); [done|lia|]. specialize (He eq_refl Hn).
  unfold spec_fetch in Hf. injection Hf as _ <-. rewrite decide_False, He, drop_nil by done. split; [|done].
  rewrite <-He. apply set_slot_same. lia.
Qed.

Definition pipes_in (q : list pending_urb_t) (s : pass_state D) : pipes D :=
  {| waiting := q; unread := ps_slots s; device := ps_device s |}.

(** The transfers of a pass complete, without a new command or call. *)
Record completes (rs : list (pending_urb_t * bytes)) (log : list event) : Prop := {
  completes_wire : event_wire <$> log = rs.*2;
  completes_transfers : log_completed log = rs.*1;
  completes_commands : log_commands log = [];
  completes_calls : log_calls log = [];
}.

Lemma completes_cons u data rs e log :
  event_wire e = data → log_completed [e] = [u] → log_commands [e] = [] → log_calls [e] = [] →
  completes rs log → completes ((u, data) :: rs) ([e] ++ log).
Proof using.
  intros <- H1 H2 H3 [W T C L]. unfold log_completed, log_commands, log_calls in *.
  constructor; [cbn; by rewrite W|..]; unfold log_completed, log_commands, log_calls; rewrite omap_app, ?H1, ?H2, ?H3; cbn; congruence.
Qed.

Lemma pass_trace now l s rs ks s' kept :
  pass I d now l s rs ks s' → Forall pipe_urb (kept ++ l) → length (slot (ps_slots s)) = 16%nat → Forall (blocked now s) kept →
  ∃ log, pipe_trace I d (pipes_in (kept ++ l) s) log (pipes_in (kept ++ ks) s') ∧ completes rs log.
Proof using All.
  intros Hp. revert kept. induction Hp as [s|u l a x t to rs ks s' Hw _ IH|u l a x t to rs ks s' data a' Hiso Hdue Hf Hd _ IH
    |u l a x t to rs ks s' data a' Hiso Hdue Hf Hd Hp IH|u l t to h h' acts data rs ks s' Hiso Hdue Hh Hex Hh' _ IH];
    intros kept Hu Hl Hb; [by exists []; split; [constructor|]|pose proof Hu as [Hk [Hu1 Hrest]%Forall_cons]%Forall_app..];
    cbn [ps_slots] in *.
  - rewrite !(cons_middle u), !(app_assoc kept) in *. apply IH; [done|done|]. apply Forall_app. split.
    + exact Hb.
    + constructor; [by right|constructor].
  - destruct Hu1 as [[? _]|[[_ Hn] H0]]; [congruence|].
    destruct (fetch_nothing _ _ _ _ Hf Hd Hn H0 Hl) as [-> He]. rewrite !(cons_middle u), !(app_assoc kept) in *.
    apply IH; [done|done|]. apply Forall_app. split; [exact Hb|]. constructor; [by left|constructor].
  - destruct Hu1 as [[? _]|[_ H0]]; [congruence|].
    pose proof Hf as Hf'. unfold spec_fetch in Hf'. rewrite decide_False in Hf' by done. injection Hf' as <- <-.
    assert (Forall (λ v, urb_isochronous v = false → ep_number (urb_ep v) ≠ ep_number (urb_ep u)) kept) as Hfirst.
    { rewrite Forall_forall in *. intros v Hv. apply (blocked_not_served now _ _ _ (Hb v Hv)); [done|done|].
      cbn. intros Hnil. by rewrite Hnil, take_nil in Hd. }
    destruct (IH kept) as (log & T & C).
    + by apply Forall_app.
    + cbn. by rewrite length_insert.
    + rewrite Forall_forall in *. intros v Hv. specialize (Hb v Hv). specialize (Hfirst v Hv). unfold blocked in *.
      cbn [ps_slots ps_table] in *. rewrite poll_again_other by done. destruct Hb as [[Hv0 Hb]|Hb]; [left|by right].
      split; [done|]. rewrite slot_of_set_slot, decide_False by naive_solver. done.
    + eexists ([Completed u _] ++ log). split; [econstructor; [by apply step_completed|exact T]|]. by apply completes_cons.
  - destruct (IH kept) as (log & T & C).
    + by apply Forall_app.
    + by apply (idle_slots I).
    + eapply Forall_impl; [exact Hb|]. intros v. unfold blocked. cbn [ps_slots ps_table].
      by rewrite (still_slot _ _ _ (iso_exchange_still _ _ _ _ _ _ _ _ _ Hex)).
    + exists ([StreamCompleted u acts data] ++ log). split; [econstructor; [|exact T]|by apply completes_cons].
      destruct Hu1 as [[_ Hok]|[[? _] _]]; [|congruence]. apply step_stream_completed; [done|exact Hok| |done..]. eapply Forall_impl; [exact Hb|]. intros v [[? _]|Hv] Hiv; [congruence|].
      unfold due in *. cbn [ps_table] in Hv. rewrite Hiso, Hiv in *. lia.
Qed.

Lemma pass_keeps {P : pending_urb_t → Prop} now l s rs ks s' : pass I d now l s rs ks s' → Forall P l → Forall P ks.
Proof using. intros H%pass_merge%merge_Permutation. rewrite H, Forall_app. by intros [_ ?]. Qed.
End passes.

(** ** Calls of the device's threads *)

Fixpoint call_events (a : slots) (calls : list transmit_call) : list event :=
  match calls with
  | [] => []
  | c :: calls => Called c (takes_call a c) :: call_events (spec_call a c) calls
  end.

Lemma spec_call_takes a c :
  spec_call a c = if takes_call a c then (spec_store (ep_number (tc_ep c)) (cut_message (tc_data c) (tc_length c)) a).2 else a.
Proof.
  unfold spec_call, takes_call, transmit_waits, spec_store. cbn [is_server_thread in_critical_section other_thread negb andb].
  destruct (stopped a); cbn [negb andb]; [by rewrite andb_false_r|]. repeat case_bool_decide; cbn; by repeat case_decide.
Qed.

Lemma calls_trace {D} (I : D → Prop) (d : usbip_device_t D) x q calls a :
  pipe_trace I d {| waiting := q; unread := a; device := x |} (call_events a calls)
    {| waiting := q; unread := foldl spec_call a calls; device := x |}.
Proof.
  revert a. induction calls as [|c calls IH]; intros a; [constructor|]. cbn [call_events foldl]. econstructor; [|apply IH].
  rewrite spec_call_takes. constructor.
Qed.

Lemma call_events_views a calls :
  log_commands (call_events a calls) = [] ∧ log_calls (call_events a calls) = calls ∧ concat (event_wire <$> call_events a calls) = [].
Proof.
  revert a. induction calls as [|c calls IH]; intros a; [done|]. destruct (IH (spec_call a c)) as (H1 & H2 & H3). cbn.
  split; [done|]. split; [by f_equal|done].
Qed.

