(* ===== verification/Session.v ===== *)
(** * A whole session of a client

    Any number of rounds of the server with a client that sends control requests, OUT data
    and isochronous transfers, submits IN transfers and unlinks them, while threads of the
    device transmit: a run of the machine of [Pipes]. *)
From S2P Require Import Prelude WireFormat DeviceStore Descriptors Host BulkDevice Control Silent Tcpip ConfigWalk Protocol ProtocolSafety Completion ProtocolEntry StreamEntry Rounds Pipes.

(** ** Rounds of the server *)

(** The types of the endpoints stay. *)
Definition types_kept (t t' : endpoint_table) : Prop :=
  ∀ key e, table_lookup t key = Some e → ∃ e', table_lookup t' key = Some e' ∧ ep_type e' = ep_type e.

#[global] Instance types_kept_preorder : PreOrder types_kept.
Proof.
  split; [by intros t key e; eauto|]. intros t1 t2 t3 H1 H2 key e He.
  destruct (H1 _ _ He) as (e2 & He2 & <-). by apply H2.
Qed.

Lemma types_kept_stream v i j t : types_kept t (alter (alter (set_stream_end v) i) j t).
Proof.
  intros [k1 k2] e He. unfold table_lookup in *. cbn [fst snd] in *. apply bind_Some in He as (row & Hrow & Hcell).
  destruct (decide (k1 = j)) as [->|Hj]; [|exists e; by rewrite list_lookup_alter_ne, Hrow by done].
  rewrite list_lookup_alter_eq, Hrow. cbn. destruct (decide (k2 = i)) as [->|Hi].
  - rewrite list_lookup_alter_eq, Hcell. by eexists.
  - rewrite list_lookup_alter_ne by done. by exists e.
Qed.

Lemma command_ok_kept t t' c : types_kept t t' → command_ok t c → command_ok t' c.
Proof.
  intros Ht. assert (∀ key, (∃ e, table_lookup t key = Some e ∧ ep_type e ≠ USB_ENDPOINT_XFER_ISOC) →
    ∃ e, table_lookup t' key = Some e ∧ ep_type e ≠ USB_ENDPOINT_XFER_ISOC) as Hkey.
  { intros key (e & He & Hty). destruct (Ht _ _ He) as (e' & He' & Hty'). exists e'. split; [done|congruence]. }
  destruct c as [c|c data|c data pks|]; [|..|done].
  - intros [Hf [(H1 & H2 & H3 & H4)|Ha]]; (split; [done|]); [left|by right]. do 3 (split; [done|]). by apply Hkey.
  - intros (Hf & H1 & H2 & [H3|H3]); do 3 (split; [done|]); [by left|right; by apply Hkey].
  - intros [Hf (e & [H1 H2 H3])]. split; [done|]. destruct (Ht _ _ H2) as (e' & He' & Hty'). exists e'.
    constructor; [done|done|congruence|done..].
Qed.

Lemma pass_types {D} (I : D → Prop) d now l s rs ks s' : pass I d now l s rs ks s' → types_kept (ps_table s) (ps_table s').
Proof. intros Hp key e He. destruct (pass_times_grow _ _ _ _ _ _ _ _ Hp He) as (e' & ? & _ & ? & _). eauto. Qed.

Definition pipes_of {D} (w : world D) : pipes D :=
  {| waiting := live (w_proto w); unread := abs (lib (w_host w)); device := dev (w_host w) |}.

Section session.
Context {D : Type} (I : D → Prop) (d : usbip_device_t D) `{!DeviceSound I d} `{!SilentDevice d}.
Implicit Types (w : world D).

(** What the server thread does for an imported device, [n] rounds of it. *)
Fixpoint rounds (n : nat) : M (world D) bool :=
  match n with
  | O => ret false
  | S n =>
      let* disconnect := usbip_protocol_process_imported_device d in
      if disconnect then ret true else rounds n
  end.

(** [n] rounds that leave the client connected and the device imported. *)
Inductive stays : nat → world D → world D → Prop :=
| stays_0 w : stays 0 w w
| stays_S n w w1 w' :
    usbip_protocol_process_imported_device d w = Ok false w1 →
    connected (w_net w1) → device_imported (w_proto w1) = device_imported (w_proto w) →
    stays n w1 w' → stays (S n) w w'.

Lemma stays_rounds n w w' : stays n w w' → rounds n w = Ok false w'.
Proof using. induction 1 as [|n w w1 w' H1 _ _ _ IH]; [done|]. cbn [rounds]. unfold bind at 1. by rewrite H1. Qed.

(** A world in which the pipes are served. *)
Record serving w : Prop := {
  serving_ok : world_ok I w;
  serving_urbs : Forall pipe_urb (live (w_proto w));
}.

(** From [w] to [w'] the pipes have gone through [log]. *)
Record evolves w (log : list event) w' : Prop := {
  evolves_trace : pipe_trace I d (pipes_of w) log (pipes_of w');
  evolves_sent : sent (w_net w') = sent (w_net w) ++ concat (event_wire <$> log);
  evolves_types : types_kept (endpoints (w_proto w)) (endpoints (w_proto w'));
  evolves_serving : serving w';
}.

Lemma evolves_app w log1 w1 log2 w2 : evolves w log1 w1 → evolves w1 log2 w2 → evolves w (log1 ++ log2) w2.
Proof using.
  intros [T1 S1 Y1 _] [T2 S2 Y2 V2]. constructor; [by eapply pipe_trace_app| |by etrans|done].
  by rewrite S2, S1, fmap_app, concat_app, app_assoc.
Qed.

Lemma live_count w : world_ok I w → blen (live (w_proto w)) = num_pending_urbs (w_proto w).
Proof using.
  intros Hw. unfold blen. rewrite live_length by apply Hw. pose proof (po_num _ (wo_proto _ _ Hw)). lia.
Qed.

(** The command of the round. *)
Definition command_result (c : command) rest w w1 : Prop :=
  ∃ log, evolves w log w1 ∧ log_commands log = [c] ∧ log_calls log = []
    ∧ client_sends rest [] w1 ∧ same_scripts w w1.

Lemma submit_result (c : submit_in) rest w :
  serving w → client_sends (command_wire (CmdSubmit c)) rest w → fields_ok c → reads (endpoints (w_proto w)) c →
  ∃ w1, process_imported_cmd d w = Ok true w1 ∧ command_result (CmdSubmit c) rest w w1.
Proof using All.
  intros [Hw Hu] Hcl (H1 & H2 & H3 & Hlen & H5 & H6 & H7) (H4 & Hd0 & Hk & e & He & Hty).
  assert (in_ep c ≠ 0) as He0 by (intros H0; by rewrite H0 in Hk).
  destruct (decide (num_pending_urbs (w_proto w) = MAX_PENDING_URBS)) as [Hfull|Hfree].
  - pose proof (submit_in_full_wp I d _ _ _ _ (in_flags c) _ _ _ (in_interval c) _ H1 H2 H3 Hlen H5 H6 H7 w rest e Hw Hcl He0 Hd0 He Hty Hfull) as H.
    apply wp_never_Ok in H as (b & w1 & Hr & -> & Hw1 & Hcl1 & Hp & Hh & Hs & Hsc). exists w1. split; [done|].
    exists [Refused c]. split; [|done]. constructor; [|by rewrite Hs; cbn; rewrite app_nil_r|by rewrite Hp|by constructor; rewrite ?Hp].
    unfold pipes_of. rewrite Hp, Hh. apply pipe_trace_one, step_refused. by rewrite live_count.
  - pose proof (po_num _ (wo_proto _ _ Hw)) as Hnum.
    pose proof (submit_in_wp I d _ _ _ _ (in_flags c) _ _ _ (in_interval c) _ H1 H2 H3 Hlen H5 H6 H7 w rest e Hw Hcl He0 Hd0 He Hty ltac:(lia)) as H.
    apply wp_never_Ok in H as (b & w1 & Hr & -> & Hw1 & Hcl1 & (u & Hl & Hu1 & Hu2 & Hu3 & Hu4 & Hu5) & Hs & Hh & Ht & Hsc).
    exists w1. split; [done|]. exists [Queued c u]. split; [|done].
    constructor; [|by rewrite Hs; cbn; rewrite app_nil_r|by rewrite Ht|constructor; [done|]].
    + unfold pipes_of. rewrite Hl, Hh. apply pipe_trace_one, step_queued; [rewrite live_count by done; lia|done].
    + rewrite Hl. apply Forall_app. split; [done|]. constructor; [|constructor]. right. split; [split; [done|lia]|congruence].
Qed.

Lemma ask_result (c : submit_in) rest w :
  serving w → client_sends (command_wire (CmdSubmit c)) rest w → fields_ok c → asks c → standard c →
  ∃ w1, process_imported_cmd d w = Ok true w1 ∧ command_result (CmdSubmit c) rest w w1.
Proof using All.
  intros [Hw Hu] Hcl (H1 & H2 & H3 & Hlen & H5 & H6 & H7) (He & Hd) Hbm.
  pose proof (submit_control_in_wp I d _ _ _ _ (in_flags c) _ _ _ (in_interval c) _ H1 H2 H3 Hlen H5 H6 H7 w rest Hw Hcl He Hd Hbm) as H.
  apply wp_never_Ok in H as (b & w1 & Hr & -> & Hw1 & Hcl1 & Hs & Hl & Ht & Hsc & Ha & Hdev & _).
  exists w1. split; [done|]. eexists [Answered c _]. split; [|done].
  constructor; [|by rewrite Hs; cbn; rewrite app_nil_r|by rewrite Ht|by constructor; rewrite ?Hl].
  unfold pipes_of. rewrite Hl, Ha, Hdev. by apply pipe_trace_one, step_answered.
Qed.

Lemma request_result (c : submit_in) rest w :
  serving w → client_sends (command_wire (CmdSubmit c)) rest w → fields_ok c → asks c → ¬ standard c →
  ∃ w1, process_imported_cmd d w = Ok true w1 ∧ command_result (CmdSubmit c) rest w w1.
Proof using All.
  intros [Hw Hu] Hcl (H1 & H2 & H3 & Hlen & H5 & H6 & H7) (He & Hd) Hbm.
  pose proof (submit_request_wp I d _ _ _ _ (in_flags c) _ _ _ (in_interval c) _ H1 H2 H3 Hlen H5 H6 H7 w rest Hw Hcl He Hd) as H.
  apply wp_never_Ok in H as (b & w1 & Hr & -> & Hw1 & Hcl1 & (buffer & sup & h1 & Hbuf & Hc & Hh1 & Hs & Ha & Hdev & _) & Hl & Ht & Hsc).
  exists w1. split; [done|]. eexists [Requested c _]. split; [|done].
  constructor; [|by rewrite Hs; cbn; rewrite app_nil_r|by rewrite Ht|by constructor; rewrite ?Hl].
  unfold pipes_of. rewrite Hl, Ha, Hdev. eapply pipe_trace_one, step_requested; [done|done|apply Hw|done..].
Qed.

Lemma send_result (c : submit_in) data rest w :
  serving w → client_sends (command_wire (CmdSend c data)) rest w → fields_ok c → writes (endpoints (w_proto w)) c data →
  ∃ w1, process_imported_cmd d w = Ok true w1 ∧ command_result (CmdSend c data) rest w w1.
Proof using All.
  intros [Hw Hu] Hcl (H1 & H2 & H3 & Hlen & H5 & H6 & H7) (Hd & Hdl & Hord).
  pose proof (submit_send_wp I d _ _ _ _ (in_flags c) _ _ _ (in_interval c) _ H1 H2 H3 Hlen H5 H6 H7 w data rest Hw Hcl Hd Hdl Hord) as H.
  apply wp_never_Ok in H as (b & w1 & Hr & -> & Hw1 & Hcl1 & (buffer & sup & Hbuf & Htake & Hc & Hs) & Hl & Ht & Hsc).
  exists w1. split; [done|]. exists [Delivered c data sup]. split; [|done].
  constructor; [|by rewrite Hs; cbn; rewrite app_nil_r|by rewrite Ht|by constructor; rewrite ?Hl].
  unfold pipes_of. rewrite Hl. eapply pipe_trace_one, step_delivered; [apply Hw|done..|apply Hw1].
Qed.

Lemma unlink_result_pipes seqnum devid victim rest w :
  serving w → client_sends (cmd_unlink_wire seqnum devid victim) rest w → is_u32 seqnum → is_u32 victim →
  ∃ w1, process_imported_cmd d w = Ok true w1 ∧ command_result (CmdUnlink seqnum devid victim) rest w w1.
Proof using All.
  intros [Hw Hu] Hcl H1 H2. pose proof (unlink_command_wp I d w seqnum devid victim rest Hw Hcl H1 H2) as H.
  apply wp_never_Ok in H as (b & w1 & Hr & -> & Hw1 & Hun & Hcl1 & Hsc). unfold unlink_result in Hun.
  destruct (unlinked victim (live (w_proto w))) as [u q] eqn:Hq. destruct Hun as (Hl & Ht & Hs & Hh).
  pose proof (unlinked_spec _ _ _ _ Hq) as [Hperm _]. rewrite Hperm in Hu. apply Forall_app in Hu as [Hu Hu'].
  exists w1. split; [done|]. exists [Unlinked seqnum devid victim u]. split; [|done].
  constructor; [|by rewrite Hs; cbn; rewrite app_nil_r| |by constructor; rewrite ?Hl].
  - unfold pipes_of. rewrite Hl, Hh. by apply pipe_trace_one, step_unlinked.
  - rewrite Ht. unfold unlinked_table. destruct u as [u|]; [|done]. case_match; [apply types_kept_stream|done].
Qed.

Lemma stream_result (c : submit_in) data pks rest w :
  serving w → client_sends (command_wire (CmdStream c data pks)) rest w → fields_ok c → streams (endpoints (w_proto w)) c data pks →
  ∃ w1, process_imported_cmd d w = Ok true w1 ∧ command_result (CmdStream c data pks) rest w w1.
Proof using All.
  intros [Hw Hu] Hcl (H1 & H2 & H3 & Hlen & H5 & H6 & H7) (e & Hok).
  pose proof (submit_stream_wp I d _ _ _ _ (in_flags c) _ _ _ (in_interval c) _ H1 H2 H3 Hlen H5 H6 H7 data pks w rest e Hw Hcl Hok) as H.
  apply wp_never_Ok in H as (b & w1 & Hr & -> & Hw1 & Hcl1 & Hsc & h1 & h2 & u & Hrec & Hh1 & Hh2 & Hl2 & Hd2 & Huok & Hurb & _ & Ht & Hq).
  exists w1. split; [done|]. unfold stream_queued in Hq.
  assert (types_kept (endpoints (w_proto w)) (endpoints (w_proto w1))) as Htypes by (rewrite Ht; apply types_kept_stream).
  assert (stream_of c pks u) as Hof by done. case_decide as Hfull.
  - destruct Hq as (Hl & acts & payload & Hex & Hs). exists [StreamAnswered c data pks u acts payload]. split; [|done].
    constructor; [|by rewrite Hs; cbn; rewrite app_nil_r|done|by constructor; rewrite ?Hl].
    unfold pipes_of. rewrite Hl. eapply pipe_trace_one, step_stream_answered; [by rewrite live_count|done|done|apply Hw|exact Hrec|exact Hh2|done..|apply Hw1].
  - destruct Hq as (Hl & Hh & Hs). exists [StreamQueued c data pks u]. split; [|done].
    constructor; [|by rewrite Hs; cbn; rewrite app_nil_r|done|].
    + unfold pipes_of. rewrite Hl, Hh, Hl2, Hd2. pose proof (po_num _ (wo_proto _ _ Hw)).
      eapply pipe_trace_one, step_stream_queued; [rewrite live_count by done; lia|done|apply Hw|done..].
    + constructor; [done|]. rewrite Hl. apply Forall_app. split; [done|]. constructor; [|constructor]. left. by destruct Hurb.
Qed.

Lemma command_runs (c : command) rest w :
  serving w → client_sends (command_wire c) rest w → command_ok (endpoints (w_proto w)) c →
  ∃ w1, process_imported_cmd d w = Ok true w1 ∧ command_result c rest w w1.
Proof using All.
  destruct c as [c|c data|c data pks|seqnum devid victim]; intros Hs Hcl [H1 H2]; [|by apply send_result|by apply stream_result|by apply unlink_result_pipes].
  destruct H2; [by apply submit_result|]. destruct (decide (standard c)); [by apply ask_result|by apply request_result].
Qed.

Lemma turn_runs (a : turn) rest w :
  serving w → client_sends (sent_by a) rest w → Forall (command_ok (endpoints (w_proto w))) (option_list (command_of a)) →
  ∃ w1 log, (if client_ready (poll_of a) then process_imported_cmd d else ret true) w = Ok true w1
    ∧ evolves w log w1 ∧ log_commands log = option_list (command_of a) ∧ log_calls log = []
    ∧ client_sends rest [] w1 ∧ same_scripts w w1.
Proof using All.
  intros Hs Hcl Hok. destruct a as [c|timeout]; cbn [command_of option_list] in *.
  - destruct (command_runs c rest w Hs Hcl) as (w1 & H1 & log & Hrest); [by apply Forall_cons in Hok as [? _]|]. eauto.
  - exists w, []. replace (client_ready (poll_of (Quiet timeout))) with false by (by destruct timeout). split; [done|].
    split; [|split; [done|split; [done|split; [|done]]]].
    + constructor; [constructor|by rewrite app_nil_r|done|done].
    + unfold client_sends in *. by rewrite app_nil_r.
Qed.

(** No transfer is kept without a reason by the round that ended. *)
Definition all_served w : Prop := Forall (rightly_kept (last_us (clk (w_host w))) (pass_of w)) (live (w_proto w)).

Lemma round_evolves (a : turn) rest more w :
  serving w → client_sends (sent_by a) rest w → polls (w_net w) = poll_of a :: more →
  Forall (command_ok (endpoints (w_proto w))) (option_list (command_of a)) →
  ∃ w' log, usbip_protocol_process_imported_device d w = Ok false w' ∧ evolves w log w'
    ∧ log_commands log = option_list (command_of a) ∧ log_calls log = meanwhile w
    ∧ client_sends rest [] w' ∧ polls (w_net w') = more ∧ others w' = tail (others w)
    ∧ device_imported (w_proto w') = device_imported (w_proto w)
    ∧ all_served w'.
Proof using All.
  intros [Hw Hu] Hcl Hp Hok. destruct (round_wakes I d w _ more Hw (proj1 Hcl) Hp) as (h1 & H1 & Hw1 & Ha1 & Hd1 & Hc1).
  set (w1 := set_net _ _) in *. assert (evolves w (call_events (abs (lib (w_host w))) (meanwhile w)) w1) as E1.
  { constructor; [|by rewrite (proj2 (proj2 (call_events_views _ _))), app_nil_r|done|by constructor].
    unfold pipes_of. cbn [w1 w_host w_proto set_net set_host set_others]. rewrite Ha1, Hd1. apply calls_trace. }
  destruct (turn_runs a rest w1) as (w2 & log & H2 & E2 & Hlc & Hll & Hcl2 & (Hpo2 & Ho2 & Hi2)); [by constructor|done|done|].
  pose proof (evolves_serving _ _ _ E2) as [Hw2 Hu2].
  destruct (round_completes I d _ w1 w2 H2 Hw2 (proj1 Hcl2)) as (w3 & rs & H3 & Hpass & Hs3 & Hw3 & Hc3 & Ho3 & Hi3 & Hn3 & Hsd3).
  pose proof (pass_start_slots I w2 Hw2) as Hslots.
  destruct (pass_trace I d _ _ _ _ _ _ [] Hpass) as (log2 & T2 & [W2 _ C2 L2]); [done|done|constructor|].
  assert (evolves w2 log2 w3) as E3.
  { constructor; [exact T2|by rewrite Hs3, W2|exact (pass_types _ _ _ _ _ _ _ _ Hpass)|].
    constructor; [done|]. by eapply (pass_keeps I d (P := pipe_urb)). }
  destruct (call_events_views (abs (lib (w_host w))) (meanwhile w)) as (V1 & V2 & _).
  exists w3, (call_events (abs (lib (w_host w))) (meanwhile w) ++ log ++ log2).
  split; [congruence|]. split; [do 2 (eapply evolves_app; [done|]); done|].
  unfold log_commands, log_calls in *. rewrite !omap_app, V1, V2, C2, L2, Hlc, Hll, !app_nil_r.
  destruct Hn3 as (_ & _ & Hrx & Hpo & _). cbn in Hpo2, Ho2.
  do 2 (split; [done|]). split; [split; [done|by rewrite Hrx; apply Hcl2]|].
  do 2 (split; [congruence|]). split; [by rewrite Hi3, Hi2|]. unfold all_served. rewrite Hsd3 by (by apply pipe_urb_piped).
  eapply pass_exhaustive; [exact Hpass|by apply pipe_urb_piped|apply clock_us_range|done].
Qed.

Definition session_commands (script : list turn) : list command := omap command_of script.

(** The client and the polls follow the script, and what comes after it. *)
Definition follows (script : list turn) (rest : bytes) (more : list poll_event) w : Prop :=
  client_sends (concat (sent_by <$> script)) rest w ∧ polls (w_net w) = (poll_of <$> script) ++ more.

Lemma session_evolves script rest more w :
  serving w → follows script rest more w → Forall (command_ok (endpoints (w_proto w))) (session_commands script) →
  ∃ w' log, stays (length script) w w' ∧ evolves w log w'
    ∧ log_commands log = session_commands script ∧ log_calls log = concat (take (length script) (others w))
    ∧ client_sends rest [] w' ∧ (script ≠ [] → all_served w').
Proof using All.
  revert w. induction script as [|a script IH]; intros w Hs [Hcl Hp] Hok.
  { exists w, []. split; [constructor|]. split; [constructor; [constructor|by rewrite app_nil_r|done|done]|].
    do 2 (split; [done|]). split; [|done]. unfold client_sends in *. by rewrite app_nil_r. }
  cbn [fmap list_fmap concat app length] in *. rewrite client_sends_app in Hcl.
  assert (Forall (command_ok (endpoints (w_proto w))) (option_list (command_of a))
    ∧ Forall (command_ok (endpoints (w_proto w))) (session_commands script)) as [Hok1 Hok2].
  { unfold session_commands in Hok. cbn [omap list_omap] in Hok. destruct (command_of a); cbn; [|done].
    apply Forall_cons in Hok as [? ?]. split; [by constructor; [|constructor]|done]. }
  destruct (round_evolves a _ _ w Hs Hcl Hp Hok1) as (w1 & log1 & H1 & E1 & C1 & L1 & Hcl1 & Hp1 & Ho1 & Hi1 & Hk1).
  destruct (IH w1) as (w2 & log2 & H2 & E2 & C2 & L2 & Hcl2 & Hk2).
  { apply E1. }
  { split; [|done]. unfold client_sends in *. by rewrite app_nil_r in Hcl1. }
  { eapply Forall_impl; [exact Hok2|]. intros c. apply command_ok_kept, E1. }
  exists w2, (log1 ++ log2). split; [econstructor; [exact H1|apply Hcl1|done|done]|].
  split; [by eapply evolves_app|]. unfold log_commands, log_calls, session_commands in *.
  rewrite !omap_app, C1, C2, L1, L2. split; [cbn [omap list_omap]; by destruct (command_of a)|].
  split; [rewrite Ho1; unfold meanwhile; destruct (others w); cbn; by rewrite ?take_nil|].
  split; [done|]. intros _. destruct script as [|a' script]; [by inversion H2; subst|by apply Hk2].
Qed.

(** C4: a session of a client, for any number of rounds: whatever control requests, OUT
    data and isochronous transfers it sends, whatever IN transfers it submits and unlinks,
    whenever its commands arrive and whatever the threads of the device transmit in between,
    the server stays up and behaves as the pipes do: every command and every
    call takes effect once, in order, the device carries out exactly the requests and the
    data the client sent, complete and unchanged, it fills the isochronous packets one
    after the other, and the client receives exactly the replies of the log. On every
    endpoint the data of the replies followed by what stays unread is what was unread at the
    start followed by the messages of the calls that succeeded; every transfer is
    completed, unlinked or still pending, once; those of a bulk or interrupt endpoint
    complete in the order of their submission; and after the last round one is pending only
    because its endpoint is empty or because it is not due, and then the server wakes up in
    time for it. *)
Theorem session_refines_pipes script rest more w :
  serving w → follows script rest more w → Forall (command_ok (endpoints (w_proto w))) (session_commands script) →
  ∃ w' log, rounds (length script) w = Ok false w' ∧ client_sends rest [] w' ∧ serving w'
    ∧ pipe_trace I d (pipes_of w) log (pipes_of w')
    ∧ sent (w_net w') = sent (w_net w) ++ concat (event_wire <$> log)
    ∧ log_commands log = session_commands script
    ∧ log_calls log = concat (take (length script) (others w))
    ∧ (∀ k, k ≠ 0%nat →
         slot_of k (abs (lib (w_host w))) ++ concat (stored_bytes k <$> log)
         = concat (read_bytes k <$> log) ++ slot_of k (abs (lib (w_host w'))))
    ∧ live (w_proto w) ++ log_queued log ≡ₚ log_completed log ++ log_unlinked log ++ live (w_proto w')
    ∧ (∀ k, on_pipe k (log_completed log ++ live (w_proto w')) `sublist_of` on_pipe k (live (w_proto w) ++ log_queued log))
    ∧ (script ≠ [] → all_served w').
Proof using All.
  intros Hs Hf Hok. destruct (session_evolves script rest more w Hs Hf Hok) as (w' & log & H%stays_rounds & [T S _ V] & C & L & Hcl & Hk).
  pose proof (pass_start_slots I w (serving_ok _ Hs)) as Hl. exists w', log.
  do 7 (split; [done|]). split; [intros k Hk0; by apply (trace_conserves I d k _ _ _ T)|].
  split; [apply (trace_accounts I d _ _ _ T)|]. split; [|done]. intros k. apply (trace_in_order I d k _ _ _ T).
Qed.
End session.

(** ** Witness: the bulk device is configured, gives its descriptor and gets a message; of
    two transfers one is unlinked, and a thread transmits *)

Definition in_command (seqnum ep len : Z) (setup : bytes) : command :=
  CmdSubmit {| in_seqnum := seqnum; in_devid := 1; in_direction := 1; in_ep := ep; in_flags := 0; in_length := len;
    in_start_frame := 0; in_packets := 0; in_interval := 0; in_setup := setup |}.

Definition out_command (seqnum ep : Z) (setup data : bytes) : command :=
  CmdSend {| in_seqnum := seqnum; in_devid := 1; in_direction := 0; in_ep := ep; in_flags := 0; in_length := blen data;
    in_start_frame := 0; in_packets := 0; in_interval := 0; in_setup := setup |} data.

Definition read_1 (seqnum : Z) : command := in_command seqnum 1 512 (replicate 8 0).
Definition write_1 (seqnum : Z) (data : bytes) : command := out_command seqnum 1 (replicate 8 0) data.
Definition get_device_descriptor (seqnum : Z) : command := in_command seqnum 0 18 [0x80; 6; 0; 1; 0; 0; 18; 0].
Definition set_configuration (seqnum : Z) : command := out_command seqnum 0 [0; 9; 1; 0; 0; 0; 0; 0] [].

Definition session_script : list turn :=
  [Sends (get_device_descriptor 1); Sends (set_configuration 2); Sends (read_1 4); Sends (read_1 5);
   Sends (write_1 3 [72; 105]); Sends (CmdUnlink 6 1 4); Quiet false].

Definition session_world : world Bulk.state :=
  {| w_host := Bulk.initial_host;
     w_net := set_polls (poll_of <$> session_script) (bulk_net [RxData (concat (sent_by <$> session_script))]);
     w_proto := initial_proto; others := [[]; []; []; []; []; []; [round_call]] |}.

Lemma in_command_ok t seqnum ep len setup :
  is_u32 seqnum → is_u32 ep → 0 ≤ len ≤ USBIP_MAX_PACKET_SIZE → length setup = 8%nat →
  ep = 0 ∨ (0 < len ∧ ep_number ep ≠ 0%nat
            ∧ ∃ e, table_lookup t (key_of 1 ep) = Some e ∧ ep_type e ≠ USB_ENDPOINT_XFER_ISOC) →
  command_ok t (in_command seqnum ep len setup).
Proof.
  intros H1 H2 H3 H4 H5. split; [unfold fields_ok; cbn; split_and!; done || lia|]. unfold reads, asks. cbn.
  destruct H5 as [H5|(H5 & H6 & H7)]; [by right|left; by split_and!].
Qed.

Lemma out_command_ok t seqnum ep setup data :
  is_u32 seqnum → is_u32 ep → blen data ≤ USBIP_MAX_PACKET_SIZE → length setup = 8%nat → ordinary 0 ep t →
  command_ok t (out_command seqnum ep setup data).
Proof.
  intros H1 H2 H3 H4 H5. split; [unfold fields_ok; cbn; split_and!; done || lia || apply blen_nonneg|]. by split_and!.
Qed.

Lemma session_commands_ok t e e' :
  table_lookup t (key_of 1 1) = Some e → ep_type e ≠ USB_ENDPOINT_XFER_ISOC →
  table_lookup t (key_of 0 1) = Some e' → ep_type e' ≠ USB_ENDPOINT_XFER_ISOC →
  Forall (command_ok t) (session_commands session_script).
Proof.
  intros He Hty He' Hty'. assert (∀ n, is_u32 n → command_ok t (read_1 n)) as Hr.
  { intros n Hn. apply in_command_ok; [done..|]. right. split; [done|]. split; [done|]. by exists e. }
  constructor; [apply in_command_ok; try done; by left|]. constructor; [apply out_command_ok; try done; by left|].
  do 2 (constructor; [by apply Hr|]). constructor; [apply out_command_ok; try done; right; by exists e'|]. by repeat constructor.
Qed.

Lemma session_world_serving : serving Bulk.inv session_world.
Proof.
  constructor; [|constructor]. constructor.
  - split; [|done]. split; [apply Bulk.inv_initial_state|apply wf_initial_device_state].
  - split; [|constructor]. constructor; [|constructor]. apply (bool_decide_eq_true_1 _). vm_compute. reflexivity.
  - apply initial_proto_ok.
  - do 6 (constructor; [by constructor|]). constructor; [|constructor]. constructor; [|constructor].
    split; [done|]. split; [done|]. repeat (constructor; [done|]). constructor.
Qed.

Lemma session_refines_pipes_witness :
  ∃ w' log, rounds Bulk.bulk_device 7 session_world = Ok false w'
    ∧ concat (stored_bytes 1 <$> log) = concat (read_bytes 1 <$> log) ++ slot_of 1 (abs (lib (w_host w'))).
Proof.
  destruct (session_refines_pipes Bulk.inv Bulk.bulk_device session_script [] [] session_world)
    as (w' & log & H1 & _ & _ & _ & _ & _ & _ & H2 & _).
  - exact session_world_serving.
  - split; [split; [split; [reflexivity|constructor]|]|]; vm_compute; reflexivity.
  - apply (session_commands_ok _ zero_endpoint zero_endpoint); [reflexivity|discriminate|reflexivity|discriminate].
  - exists w', log. split; [exact H1|]. exact (H2 1%nat ltac:(discriminate)).
Defined.
