(* ===== verification/Server.v ===== *)
(** * The server thread, start and stop (src/lib/usbip_server.c)

    The static variables of usbip_server.c, the signal handler, the loop of the
    worker thread, one iteration of either of its loops per step, and the functions
    a device program calls. Ctrl-C and [usbip_server_stop] arrive at any time: the
    script [arrivals] holds what happens before each test of [keep_running];
    [rest_of_iteration] is what a stop after the test still finds to be done. *)
From S2P Require Import Prelude WireFormat DeviceStore Descriptors Host BulkDevice Control Tcpip ConfigWalk Protocol ProtocolSafety Completion ProtocolEntry.

(** Where the worker thread is: not created, at its first statement, at the test of
    the outer loop, at the test of the inner loop, or ended. *)
Inductive worker_pc :=
| NotStarted
| Entry
| Outer
| Inner (disconnect : bool)
| Finished.

(** A signal, or the first part of [usbip_server_stop] on the main thread. *)
Inductive arrival := CtrlC | MainStop.

Record process (D : Type) := {
  p_world : world D;
  keep_running : Z;           (** volatile sig_atomic_t *)
  panic_counter : Z;          (** volatile sig_atomic_t *)
  handler_installed : bool;   (** sigaction (SIGINT, int_handler) was called *)
  worker_at : worker_pc;
  worker_flags : thread_flags;
  exited : bool;              (** _exit was called *)
  arrivals : list (list arrival);
}.
Arguments p_world {D} _.
Arguments keep_running {D} _.
Arguments panic_counter {D} _.
Arguments handler_installed {D} _.
Arguments worker_at {D} _.
Arguments worker_flags {D} _.
Arguments exited {D} _.
Arguments arrivals {D} _.

(** Results of the system calls of [usbip_server_start]. *)
Record start_results := {
  eventfd_result : Z;
  open_result : open_results;
  pthread_create_result : Z;
}.

Section server.
Context {D : Type} (usbip_device : usbip_device_t D).

Definition set_world (w : world D) (p : process D) : process D :=
  Build_process D w (keep_running p) (panic_counter p) (handler_installed p) (worker_at p) (worker_flags p) (exited p) (arrivals p).
Definition set_keep_running (v : Z) (p : process D) : process D :=
  Build_process D (p_world p) v (panic_counter p) (handler_installed p) (worker_at p) (worker_flags p) (exited p) (arrivals p).
Definition set_panic_counter (v : Z) (p : process D) : process D :=
  Build_process D (p_world p) (keep_running p) v (handler_installed p) (worker_at p) (worker_flags p) (exited p) (arrivals p).
Definition set_handler (v : bool) (p : process D) : process D :=
  Build_process D (p_world p) (keep_running p) (panic_counter p) v (worker_at p) (worker_flags p) (exited p) (arrivals p).
Definition set_pc (v : worker_pc) (p : process D) : process D :=
  Build_process D (p_world p) (keep_running p) (panic_counter p) (handler_installed p) v (worker_flags p) (exited p) (arrivals p).
Definition set_worker_flags (v : thread_flags) (p : process D) : process D :=
  Build_process D (p_world p) (keep_running p) (panic_counter p) (handler_installed p) (worker_at p) v (exited p) (arrivals p).
Definition set_exited (v : bool) (p : process D) : process D :=
  Build_process D (p_world p) (keep_running p) (panic_counter p) (handler_installed p) (worker_at p) (worker_flags p) v (arrivals p).
Definition set_arrivals (v : list (list arrival)) (p : process D) : process D :=
  Build_process D (p_world p) (keep_running p) (panic_counter p) (handler_installed p) (worker_at p) (worker_flags p) (exited p) v.

Definition in_world {A} (m : M (world D) A) : M (process D) A := zoom p_world set_world m.

(** ** Signals *)

(** [_exit] never returns. *)
Definition sys_exit : M (process D) unit := modify (set_exited true);; wait_forever.

Definition int_handler : M (process D) unit :=
  let* keep := gets keep_running in
  if 0 <? keep then
    modify (set_keep_running (keep - 1));;
    if keep - 1 =? 0 then in_world (in_net tcpip_server_stop) else ret tt
  else
    let* panic := gets panic_counter in
    modify (set_panic_counter (panic + 1));;
    if panic + 1 =? 5 then sys_exit else ret tt.

(** [usbip_server_stop] before it waits for the thread. *)
Definition request_stop : M (process D) unit :=
  modify (set_keep_running 0);;
  in_world (in_net tcpip_server_stop).

Definition usbip_server_interrupted : M (process D) bool := gets (λ p, keep_running p =? 0).

Fixpoint deliver (l : list arrival) : M (process D) unit :=
  match l with
  | [] => ret tt
  | CtrlC :: l => int_handler;; deliver l
  | MainStop :: l => request_stop;; deliver l
  end.

(** The test [keep_running > 0], after whatever arrived since the last one. Where
    [stop_server] was set during a system call, by the handler or by
    [usbip_server_stop], [keep_running] had become 0 before. *)
Definition test_keep_running : M (process D) bool :=
  let* l := gets arrivals in
  modify (set_arrivals (tail l));;
  deliver (default [] (head l));;
  let* stop := in_world (in_net (gets stop_server)) in
  (if stop then modify (set_keep_running 0) else ret tt);;
  gets (λ p, 0 <? keep_running p).

(** ** usbip_server_worker_thread *)

(** The body of the outer loop, up to the test of the inner one. *)
Definition accept_client : M (process D) unit :=
  let* connected := in_world (in_net tcpip_server_wait_for_client) in
  modify (set_pc (if connected then Inner false else Outer)).

(** The body of the inner loop. *)
Definition serve_client : M (process D) unit :=
  let* imported := in_world usbip_protocol_is_device_imported in
  let* disconnect := in_world (if imported then usbip_protocol_process_imported_device usbip_device
                               else usbip_protocol_process_cmd usbip_device) in
  modify (set_pc (Inner disconnect)).

Definition worker_step : M (process D) unit :=
  let* pc := gets worker_at in
  match pc with
  | NotStarted | Finished => ret tt
  | Entry =>
      modify (λ p, set_worker_flags (usbip_device_mark_server_thread (worker_flags p)) p);;
      modify (set_pc Outer)
  | Outer =>
      let* running := test_keep_running in
      if running then accept_client
      else
        in_world (in_host (in_lib usbip_device_stop));;
        in_world (in_net tcpip_server_close);;
        modify (set_pc Finished)
  | Inner disconnect =>
      let* running := test_keep_running in
      if running && negb disconnect then serve_client
      else
        in_world (in_net tcpip_server_close_client);;
        modify (set_pc Outer)
  end.

Fixpoint worker (rounds : nat) : M (process D) unit :=
  match rounds with
  | O => ret tt
  | S rounds => worker_step;; worker rounds
  end.

(** ** Start and stop *)

Definition usbip_server_start (r : start_results) : M (process D) bool :=
  modify (set_handler true);;
  let* status := in_world (in_host (in_lib (usbip_device_init (eventfd_result r)))) in
  let* status := (if status then in_world (in_net (tcpip_server_open (open_result r))) else ret false) in
  if status then
    if pthread_create_result r =? 0 then modify (set_pc Entry);; ret true else ret false
  else ret false.



(** [n] presses of Ctrl-C. *)
Fixpoint presses (n : nat) : M (process D) unit :=
  match n with
  | O => ret tt
  | S n => presses n;; int_handler
  end.

End server.

(** ** Reference: all that is needed to run *)

Definition all_created (r : start_results) : Prop :=
  0 ≤ eventfd_result r ∧ listening (open_result r) ∧ pthread_create_result r = 0.

(** ** Reference: a stop during an iteration *)


(** ** Invariant *)

(** A new client never finds the device imported by an earlier one. *)
Definition session_ok {D} (p : process D) : Prop :=
  match worker_at p with
  | NotStarted | Entry => device_imported (w_proto (p_world p)) = false
  | Outer => device_imported (w_proto (p_world p)) = false ∨ keep_running p = 0
  | Inner disconnect => disconnect = true → device_imported (w_proto (p_world p)) = false
  | Finished => device_stopped (lib (w_host (p_world p))) = true ∧ server_socket (w_net (p_world p)) < 0
  end.

Record process_ok {D} (I : D → Prop) (p : process D) : Prop := {
  ok_world : world_ok I (p_world p);
  ok_keep : 0 ≤ keep_running p ≤ 3;
  ok_session : session_ok p;
}.

(** * Theorems *)

Section theorems.
Context {D : Type} (I : D → Prop) (d : usbip_device_t D) `{!DeviceSound I d}.
Implicit Types (p : process D).

(** What an arrival may change. *)
Definition arrived (p p' : process D) : Prop :=
  worker_at p' = worker_at p ∧ w_host (p_world p') = w_host (p_world p) ∧ w_proto (p_world p') = w_proto (p_world p)
  ∧ client_socket (w_net (p_world p')) = client_socket (w_net (p_world p))
  ∧ server_socket (w_net (p_world p')) = server_socket (w_net (p_world p))
  ∧ (keep_running p = 0 → keep_running p' = 0)
  ∧ (stop_server (w_net (p_world p)) = true → stop_server (w_net (p_world p')) = true).

#[local] Instance arrived_preorder : PreOrder arrived.
Proof. split; [done|]. unfold arrived. intros ???. naive_solver congruence. Qed.

Lemma process_ok_arrived p p' :
  process_ok I p → arrived p p' → world_ok I (p_world p') → 0 ≤ keep_running p' ≤ 3 → process_ok I p'.
Proof using.
  intros [Hw Hk Hs] (Hpc & Hh & Hp & _ & Hss & H0 & _) Hw' Hk'. constructor; [done|done|].
  unfold session_ok in *. rewrite Hpc, Hp, Hh, Hss. destruct (worker_at p); try done. naive_solver.
Qed.

Lemma stop_net_wp p (Q : unit → process D → Prop) E :
  world_ok I (p_world p) →
  (∀ w', world_ok I w' → w' = set_net (set_stop_server true (w_net (p_world p))) (p_world p) → Q tt (set_world w' p)) →
  wp (in_world (in_net tcpip_server_stop)) Q E p.
Proof using.
  intros Hw HQ. apply wp_zoom, wp_zoom, wp_modify, HQ; [|done]. apply world_ok_net; [done|].
  apply (wo_net _ _ Hw).
Qed.

Lemma int_handler_wp p :
  process_ok I p →
  wp int_handler (λ _ p', process_ok I p' ∧ arrived p p') (λ p', exited p' = true) p.
Proof using.
  intros Hp. pose proof Hp as [Hw Hk Hs]. unfold int_handler. apply wp_bind, wp_gets.
  destruct (Z.ltb_spec 0 (keep_running p)).
  - apply wp_bind, wp_modify. set (p1 := set_keep_running _ p).
    assert (arrived p p1) as Ha by (split_and!; simpl; try done; lia).
    assert (process_ok I p1) as Hp1 by (eapply process_ok_arrived; [exact Hp|done|done|simpl; lia]).
    destruct (_ =? 0); [|by apply wp_ret]. apply stop_net_wp; [done|]. intros w' Hw' ->.
    assert (arrived p1 (set_world (set_net (set_stop_server true (w_net (p_world p1))) (p_world p1)) p1)) as Ha' by done.
    split; [|by etrans]. eapply process_ok_arrived; [exact Hp1|done|done|simpl; lia].
  - apply wp_bind, wp_gets, wp_bind, wp_modify. set (p1 := set_panic_counter _ p).
    destruct (_ =? 5); [done|]. apply wp_ret. split; [|done]. by constructor.
Qed.

Lemma request_stop_wp p (Q : unit → process D → Prop) E :
  process_ok I p →
  (∀ p', process_ok I p' → arrived p p' → keep_running p' = 0 → stop_server (w_net (p_world p')) = true →
     accepts (w_net (p_world p')) = accepts (w_net (p_world p)) → Q tt p') →
  wp request_stop Q E p.
Proof using.
  intros Hp HQ. pose proof Hp as [Hw Hk Hs]. apply wp_bind, wp_modify. set (p1 := set_keep_running 0 p).
  apply stop_net_wp; [done|]. intros w' Hw' ->. apply HQ; try done.
  eapply process_ok_arrived; [exact Hp|done|done|simpl; lia].
Qed.

Lemma deliver_wp l p :
  process_ok I p → wp (deliver l) (λ _ p', process_ok I p' ∧ arrived p p') (λ p', exited p' = true) p.
Proof using.
  revert p. induction l as [|[] l IH]; intros p Hp; cbn [deliver]; [by apply wp_ret|..]; apply wp_bind.
  - eapply wp_post; [by apply int_handler_wp|]. intros _ p1 [Hp1 Ha1].
    eapply wp_post; [by apply IH|]. intros _ p2 [Hp2 Ha2]. split; [done|by etrans].
  - apply request_stop_wp; [done|]. intros p1 Hp1 Ha1 _ _ _.
    eapply wp_post; [by apply IH|]. intros _ p2 [Hp2 Ha2]. split; [done|by etrans].
Qed.

Lemma test_keep_running_wp p :
  process_ok I p →
  wp test_keep_running (λ running p', process_ok I p' ∧ arrived p p' ∧ running = (0 <? keep_running p')
      ∧ (stop_server (w_net (p_world p')) = true → keep_running p' = 0))
    (λ p', exited p' = true) p.
Proof using.
  intros Hp. unfold test_keep_running. apply wp_bind, wp_gets, wp_bind, wp_modify.
  set (p1 := set_arrivals _ p). assert (process_ok I p1) as Hp1 by (by destruct Hp; constructor).
  apply wp_bind. eapply wp_post; [by apply deliver_wp|]. intros _ p2 [Hp2 Ha2].
  assert (arrived p p2) as Ha by (by trans p1).
  apply wp_bind, wp_zoom, wp_zoom, wp_gets.
  replace (set_world (set_net (w_net (p_world p2)) (p_world p2)) p2) with p2 by (by destruct p2 as [[] ? ? ? ? ? ? ?]).
  apply wp_bind. destruct (stop_server _) eqn:Hstop; [|by apply wp_ret, wp_gets; rewrite Hstop]. apply wp_modify, wp_gets.
  set (p3 := set_keep_running 0 p2).
  assert (arrived p2 p3) by done. split; [|split; [by etrans|done]].
  eapply process_ok_arrived; [exact Hp2|done|apply Hp2|simpl; lia].
Qed.

(** Putting a new world under the process. *)
Lemma process_ok_world p w pc :
  world_ok I w → 0 ≤ keep_running p ≤ 3 → session_ok (set_pc pc (set_world w p)) →
  process_ok I (set_pc pc (set_world w p)).
Proof using. intros. by constructor. Qed.

Lemma serve_wp p :
  process_ok I p → worker_at p = Inner false →
  wp (serve_client d) (λ _ p', process_ok I p' ∧ keep_running p' = keep_running p ∧ ∃ disconnect, worker_at p' = Inner disconnect)
    (λ p', process_ok I p' ∧ stop_server (w_net (p_world p')) = false ∧ stop_server (w_net (p_world p)) = false) p.
Proof using All.
  intros [Hw Hk Hs] Hpc. unfold serve_client. apply wp_bind, wp_zoom, wp_gets.
  replace (set_world (p_world p) p) with p by (by destruct p). apply wp_bind, wp_zoom.
  assert (∀ w', unstopped I (p_world p) w' → process_ok I (set_world w' p) ∧ stop_server (w_net w') = false
    ∧ stop_server (w_net (p_world p)) = false) as Hidle.
  { intros w' [[Hw' Hst'] Hst]. split; [|done]. constructor; [done|done|]. unfold session_ok. cbn [worker_at set_world]. by rewrite Hpc. }
  destruct (device_imported (w_proto (p_world p))) eqn:Himp.
  - eapply wp_mono; [by apply (process_imported_device_wp I d)| |exact Hidle].
    intros disconnect w' [Hw' Hd]. apply wp_modify. split; [|by eauto]. apply process_ok_world; [done..|]. intros ->. by apply Hd.
  - eapply wp_mono; [by apply (process_cmd_wp I d)| |exact Hidle].
    intros disconnect w' [Hw' Hd]. apply wp_modify. split; [|by eauto]. apply process_ok_world; [done..|]. intros ->.
    apply negb_true_iff. symmetry. exact (Hd Himp).
Qed.

Lemma accept_wp p :
  process_ok I p → worker_at p = Outer →
  wp accept_client (λ _ p', process_ok I p' ∧ keep_running p' = keep_running p ∧ (worker_at p' = Outer ∨ worker_at p' = Inner false))
    (λ p', process_ok I p' ∧ accepts (w_net (p_world p)) = []) p.
Proof using.
  intros [Hw Hk Hs] Hpc. unfold session_ok in Hs. rewrite Hpc in Hs. unfold accept_client.
  apply wp_bind, wp_zoom, wp_zoom. unfold wp at 1, tcpip_server_wait_for_client.
  destruct (wo_net _ _ Hw) as [Hrx Hacc].
  destruct (accepts (w_net (p_world p))) as [|[|fd rx' tx' polls'|] rest] eqn:Ha; cbn.
  - split; [|done]. constructor; [|done|]; cbn; [by rewrite set_net_id|]. unfold session_ok. cbn. by rewrite Hpc.
  - split; [|by auto]. apply process_ok_world; [|done..]. apply world_ok_net; [done|]. split; [done|]. by inversion Hacc.
  - inversion Hacc; subst. split; [|destruct (0 <? fd); by auto].
    apply process_ok_world; [apply world_ok_net; [done|by split]|done|]. by destruct (0 <? fd).
  - split; [|by auto]. apply process_ok_world; [|done..]. apply world_ok_net; [done|]. split; [done|]. by inversion Hacc.
Qed.

Lemma close_client_wp p (Q : unit → process D → Prop) E :
  world_ok I (p_world p) →
  (∀ w', world_ok I w' → w_host w' = w_host (p_world p) → w_proto w' = w_proto (p_world p) →
     client_socket (w_net w') < 0 → server_socket (w_net w') = server_socket (w_net (p_world p)) → Q tt (set_world w' p)) →
  wp (in_world (in_net tcpip_server_close_client)) Q E p.
Proof using.
  intros Hw HQ. apply wp_zoom, wp_zoom. unfold tcpip_server_close_client. apply wp_bind, wp_get.
  destruct (Z.leb_spec 0 (client_socket (w_net (p_world p)))).
  - apply wp_bind, wp_modify, wp_modify. apply HQ; try done. apply world_ok_net; [done|]. apply (wo_net _ _ Hw).
  - apply wp_ret. rewrite set_net_id. apply HQ; try done.
Qed.

Lemma close_server_wp p (Q : unit → process D → Prop) E :
  world_ok I (p_world p) →
  (∀ w', world_ok I w' → w_host w' = w_host (p_world p) → w_proto w' = w_proto (p_world p) →
     client_socket (w_net w') = client_socket (w_net (p_world p)) → server_socket (w_net w') < 0 → Q tt (set_world w' p)) →
  wp (in_world (in_net tcpip_server_close)) Q E p.
Proof using.
  intros Hw HQ. apply wp_zoom, wp_zoom. unfold tcpip_server_close. apply wp_bind, wp_get.
  destruct (Z.leb_spec 0 (server_socket (w_net (p_world p)))).
  - apply wp_bind, wp_modify, wp_modify. apply HQ; try done. apply world_ok_net; [done|]. apply (wo_net _ _ Hw).
  - apply wp_ret. rewrite set_net_id. apply HQ; try done.
Qed.

(** The end of the thread: the device stops, which releases sleeping transmitters. *)
Lemma finish_wp p (Q : unit → process D → Prop) E :
  world_ok I (p_world p) → 0 ≤ keep_running p ≤ 3 →
  (∀ p', process_ok I p' → worker_at p' = Finished → keep_running p' = keep_running p →
     client_socket (w_net (p_world p')) = client_socket (w_net (p_world p)) → Q tt p') →
  wp (in_world (in_host (in_lib usbip_device_stop));; in_world (in_net tcpip_server_close);; modify (set_pc Finished)) Q E p.
Proof using.
  intros Hw Hk HQ. apply wp_bind, wp_zoom, wp_zoom, wp_in_lib.
  destruct (wo_host _ _ Hw) as [[HI Hwf] Hl].
  destruct (stop_spec _ Hwf) as (s' & Hs & Habs & Hwf' & Hl' & _). unfold wp at 1. rewrite Hs.
  apply wp_bind, close_server_wp.
  - apply world_ok_host; [done|]. split; [done|]. cbn. congruence.
  - intros w' Hw' Hh _ Hc Hss. apply wp_modify. apply HQ; try done. constructor; [done|done|].
    split; [|done]. cbn [p_world set_pc set_world]. rewrite Hh. cbn. apply (f_equal stopped) in Habs. exact Habs.
Qed.

Lemma worker_step_wp p :
  process_ok I p → wp (worker_step d) (λ _, process_ok I) (λ p', process_ok I p' ∨ exited p' = true) p.
Proof using All.
  intros Hp. unfold worker_step. apply wp_bind, wp_gets. destruct (worker_at p) as [| | |disconnect|] eqn:Hpc.
  - by apply wp_ret.
  - apply wp_bind, wp_modify, wp_modify. destruct Hp as [Hw Hk Hs]. constructor; [done|done|].
    unfold session_ok in Hs. rewrite Hpc in Hs. by left.
  - apply wp_bind. eapply wp_mono; [by apply test_keep_running_wp| |by right].
    intros running p1 (Hp1 & Ha & -> & _). destruct Ha as (Hpc1 & _). destruct (Z.ltb_spec 0 (keep_running p1)).
    + eapply wp_mono; [apply accept_wp; [done|congruence]|by intros ?? [? _]|by intros ? [? _]; left].
    + apply finish_wp; [apply Hp1..|]. done.
  - apply wp_bind. eapply wp_mono; [by apply test_keep_running_wp| |by right].
    intros running p1 (Hp1 & Ha & -> & _). destruct Ha as (Hpc1 & _). rewrite Hpc in Hpc1.
    destruct (Z.ltb_spec 0 (keep_running p1)); [destruct disconnect|]; cbn [andb negb].
    2: { eapply wp_mono; [by apply serve_wp|by intros ?? [? _]|by intros ? [? _]; left]. }
    all: apply wp_bind, close_client_wp; [apply Hp1|]; intros w' Hw' _ Hproto _ _; apply wp_modify, process_ok_world;
      [done|apply Hp1|]; pose proof (ok_session _ _ Hp1) as Hs; unfold session_ok in *; cbn; rewrite Hproto.
    + rewrite Hpc1 in Hs. left. by apply Hs.
    + right. pose proof (ok_keep _ _ Hp1). lia.
  - by apply wp_ret.
Qed.

Lemma worker_wp rounds p :
  process_ok I p → wp (worker d rounds) (λ _, process_ok I) (λ p', process_ok I p' ∨ exited p' = true) p.
Proof using All.
  revert p. induction rounds as [|rounds IH]; intros p Hp; cbn [worker]; [by apply wp_ret|].
  apply wp_bind. eapply wp_post; [by apply worker_step_wp|]. intros [] p' Hp'. by apply IH.
Qed.

(** C2: the server survives every client: for any number of iterations of its loops, whatever
    clients connect and whatever bytes they send in whatever pieces, however connections
    fail, and whenever Ctrl-C or a stop arrives, the worker thread never accesses memory
    out of bounds, never deadlocks on itself and never hangs inside an iteration without
    waiting for the client; the invariant holds after each iteration, in particular a new
    client never finds the device imported by an earlier one. *)
Theorem server_survives_every_client rounds p :
  process_ok I p →
  match worker d rounds p with
  | Ok _ p' => process_ok I p'
  | Idle p' => process_ok I p' ∨ exited p' = true
  | Fault _ => False
  end.
Proof using All. apply worker_wp. Qed.















(** C31: as documented, three presses of Ctrl-C interrupt the server and five more end the
    process; the first two change nothing a client or the device program sees. *)
Theorem ctrl_c_counts p n :
  keep_running p = 3 → panic_counter p = 0 → exited p = false → stop_server (w_net (p_world p)) = false →
  (n ≤ 8)%nat →
  match presses n p with
  | Ok _ p' => (n < 8)%nat ∧ exited p' = false
      ∧ usbip_server_interrupted p' = Ok (bool_decide (3 ≤ n)%nat) p'
      ∧ stop_server (w_net (p_world p')) = bool_decide (3 ≤ n)%nat
  | Idle p' => n = 8%nat ∧ exited p' = true
  | Fault _ => False
  end.
Proof using.
  intros Hk Hpan Hex Hst Hn. destruct p as [[h [ss cs st r t po a se cl] pr o] k pan hi pc fl ex arr]. simpl in *. subst.
  do 9 (destruct n as [|n]; [cbn; split_and!; first [reflexivity|lia]|]). lia.
Qed.

(** What [usbip_server_start] leaves behind on each of its paths. *)
Lemma usbip_server_start_spec r p :
  process_ok I p → worker_at p = NotStarted →
  ∃ ok p', usbip_server_start r p = Ok ok p' ∧ process_ok I p' ∧ handler_installed p' = true
    ∧ (ok = true ↔ all_created r)
    ∧ (ok = true → worker_at p' = Entry ∧ server_socket (w_net (p_world p')) = socket_result (open_result r)
         ∧ ep_data_event_fd (lib (w_host (p_world p'))) = eventfd_result r
         ∧ closed_fds (w_net (p_world p')) = closed_fds (w_net (p_world p)))
    ∧ (ok = false → worker_at p' = NotStarted
         ∧ (0 ≤ eventfd_result r → ¬ listening (open_result r) → server_socket (w_net (p_world p')) < 0
            ∧ (0 ≤ socket_result (open_result r) → socket_result (open_result r) ∈ closed_fds (w_net (p_world p'))))).
Proof using.
  intros [Hw Hk Hs] Hpc. apply wp_never_Ok. unfold usbip_server_start. apply wp_bind, wp_modify.
  unfold session_ok in Hs. rewrite Hpc in Hs. set (p1 := set_handler true p).
  apply wp_bind, wp_zoom, wp_zoom, wp_in_lib. unfold usbip_device_init. apply wp_bind, wp_modify, wp_ret.
  set (w1 := set_host _ _). assert (world_ok I w1) as Hw1.
  { destruct (wo_host _ _ Hw) as [[HI []] Hl]. apply world_ok_host; [done|]. split; [|done]. split; [done|]. by constructor. }
  assert (∀ n, net_ok n → process_ok I (set_world (set_net n w1) p1)) as Hok.
  { intros n Hn. constructor; [by apply world_ok_net|done|]. unfold session_ok. cbn. by rewrite Hpc. }
  apply wp_bind. case_bool_decide as Hfd.
  2: { apply wp_ret, wp_ret. split; [rewrite <-(set_net_id w1); apply Hok; apply Hw1|]. split; [done|].
       split; [split; [done|by intros [? _]]|]. split; [done|]. intros _. split; [done|]. lia. }
  apply wp_zoom, wp_zoom.
  destruct (tcpip_server_open_spec (open_result r) (w_net (p_world (set_world w1 p1)))) as (ok & n' & Hrun & Hsame & Hiff & Ht & Hf).
  unfold wp at 1. rewrite Hrun. assert (net_ok n') as Hn'.
  { destruct Hsame as [Hrx Hacc]. unfold net_ok. rewrite Hrx, Hacc. apply (wo_net _ _ Hw). }
  specialize (Hok n' Hn'). destruct ok.
  2: { apply wp_ret. split; [done|]. split; [done|]. split; [split; [done|intros (_ & ?%Hiff & _); done]|]. split; [done|].
       intros _. split; [done|]. intros _ _. destruct (Hf eq_refl) as [H1 H2]. split; [done|]. intros H3. cbn. rewrite H2, bool_decide_true by done. by left. }
  specialize (Ht eq_refl). apply proj1 in Hiff. specialize (Hiff eq_refl).
  destruct (Z.eqb_spec (pthread_create_result r) 0) as [Hcreate|Hcreate].
  2: { apply wp_ret. split; [done|]. split; [done|]. split; [split; [done|by intros (_ & _ & ?)]|]. split; [done|]. by intros _. }
  apply wp_bind, wp_modify, wp_ret. split; [|split; [done|]].
  - destruct Hok as [H1 H2 H3]. constructor; [done|done|]. unfold session_ok in *. cbn in *. by rewrite Hpc in H3.
  - split; [done|]. split; [|done]. intros _. destruct Ht as (H1 & _ & H2). done.
Qed.

(** C30: [usbip_server_start] reports success exactly when the event descriptor was created,
    the socket was opened, bound to the address and listens, and the thread was created;
    then the thread is about to run on that socket. Otherwise no thread runs, and a socket
    that was opened but does not listen is closed again. *)
Theorem start_reports_a_running_server r p :
  process_ok I p → worker_at p = NotStarted →
  ∃ ok p', usbip_server_start r p = Ok ok p' ∧ process_ok I p' ∧ handler_installed p' = true
    ∧ (ok = true ↔ all_created r)
    ∧ (ok = true → worker_at p' = Entry ∧ server_socket (w_net (p_world p')) = socket_result (open_result r)
         ∧ ep_data_event_fd (lib (w_host (p_world p'))) = eventfd_result r
         ∧ closed_fds (w_net (p_world p')) = closed_fds (w_net (p_world p)))
    ∧ (ok = false → worker_at p' = NotStarted
         ∧ (0 ≤ eventfd_result r → ¬ listening (open_result r) → server_socket (w_net (p_world p')) < 0
            ∧ (0 ≤ socket_result (open_result r) → socket_result (open_result r) ∈ closed_fds (w_net (p_world p'))))).
Proof using. apply usbip_server_start_spec. Qed.

End theorems.

(** ** The bulk device *)

(** A client that asks for the device list, one that imports the device with its request
    cut in two and then sends nonsense, and Ctrl-C three times while it is served. *)
Definition bulk_clients : list accept_event := [
  AcceptTimeout;
  AcceptFd 5 [RxData (op_req_wire OP_REQ_DEVLIST); RxEof] [] [];
  AcceptFd 5 [RxData (op_req_wire OP_REQ_IMPORT); RxAgain; RxData (replicate 32 0); RxData [1; 2; 3]; RxEof] [] [PollClient] ].
Definition bulk_process (pc : worker_pc) (l : list (list arrival)) : process Bulk.state :=
  {| p_world := {| w_host := Bulk.initial_host; w_proto := initial_proto; others := [];
                   w_net := Build_net 3 (-1) false [] [] [] bulk_clients [] [] |};
     keep_running := 3; panic_counter := 0; handler_installed := true; worker_at := pc;
     worker_flags := other_thread; exited := false; arrivals := l |}.

Lemma bulk_process_ok pc l : pc = NotStarted ∨ pc = Entry ∨ pc = Outer ∨ pc = Inner false → process_ok Bulk.inv (bulk_process pc l).
Proof.
  intros Hpc. constructor.
  - constructor; [apply Bulk.initial_host_idle| |apply initial_proto_ok|constructor]. split; [constructor|].
    repeat constructor; try exact I; cbn; apply (bool_decide_eq_true_1 _); vm_compute; reflexivity.
  - cbn. lia.
  - unfold session_ok. cbn. destruct Hpc as [->|[->|[->| ->]]]; auto.
Qed.

Lemma server_survives_every_client_witness :
  match worker Bulk.bulk_device 20 (bulk_process Entry [[]; []; []; []; []; []; [CtrlC; CtrlC; CtrlC]]) with
  | Ok _ p' => process_ok Bulk.inv p'
  | Idle p' => process_ok Bulk.inv p' ∨ exited p' = true
  | Fault _ => False
  end.
Proof. apply (server_survives_every_client Bulk.inv Bulk.bulk_device). apply bulk_process_ok. auto. Defined.


Lemma ctrl_c_counts_witness :
  match presses 8 (bulk_process Outer []) with
  | Ok _ p' => (8 < 8)%nat ∧ exited p' = false
      ∧ usbip_server_interrupted p' = Ok (bool_decide (3 ≤ 8)%nat) p'
      ∧ stop_server (w_net (p_world p')) = bool_decide (3 ≤ 8)%nat
  | Idle p' => 8%nat = 8%nat ∧ exited p' = true
  | Fault _ => False
  end.
Proof. apply (ctrl_c_counts (bulk_process Outer []) 8); [reflexivity..|lia]. Defined.

Lemma start_reports_a_running_server_witness :
  ∃ p', usbip_server_start
      {| eventfd_result := 4; pthread_create_result := 0;
         open_result := {| socket_result := 3; inet_pton_ok := true; bind_result := 0; listen_result := 0 |} |}
      (bulk_process NotStarted []) = Ok true p' ∧ worker_at p' = Entry.
Proof.
  destruct (start_reports_a_running_server Bulk.inv
    {| eventfd_result := 4; pthread_create_result := 0;
       open_result := {| socket_result := 3; inet_pton_ok := true; bind_result := 0; listen_result := 0 |} |}
    (bulk_process NotStarted [])) as (ok & p' & H1 & _ & _ & [_ H2] & H3 & _).
  - apply bulk_process_ok. auto.
  - reflexivity.
  - rewrite H2 in H1, H3 by (repeat split; discriminate). exists p'. split; [exact H1|]. apply (H3 eq_refl).
Defined.
