(* ===== verification/Client.v ===== *)
(** * A client of the server, from its connection on

    The worker thread of usbip_server.c together with the protocol and the device: it
    accepts a client, which imports the device and then runs a session ([Session]). *)
From S2P Require Import Prelude WireFormat DeviceStore Descriptors Host BulkDevice Control Tcpip ConfigWalk Protocol ProtocolSafety Completion ProtocolEntry StreamEntry Rounds Silent Pipes Session Server.

Section client.
Context {D : Type} (I : D → Prop) (d : usbip_device_t D) `{!DeviceSound I d} `{!SilentDevice d}.
Implicit Types (p : process D).

(** Nobody presses Ctrl-C or stops the server. *)
Record undisturbed p : Prop := {
  undisturbed_running : 0 < keep_running p;
  undisturbed_arrivals : arrivals p = [];
  undisturbed_net : stop_server (w_net (p_world p)) = false;
}.

Lemma test_running_eq p : undisturbed p → test_keep_running p = Ok true p.
Proof using.
  intros [Hk Ha Hs]. unfold test_keep_running. unfold bind, gets, modify. rewrite Ha.
  cbn [tail head default from_option id deliver ret]. unfold in_world, in_net, zoom.
  change (w_net (p_world (set_arrivals [] p))) with (w_net (p_world p)). rewrite Hs.
  destruct p as [[] ? ? ? ? ? ? ?]. cbn in *. subst. rewrite (proj2 (Z.ltb_lt _ _)) by done. done.
Qed.

(** The rounds of an imported device. *)
Lemma worker_stays n w w' p :
  stays d n w w' → p_world p = w → worker_at p = Inner false → undisturbed p → device_imported (w_proto w) = true →
  worker d n p = Ok tt (set_world w' p).
Proof using.
  intros H. revert p. induction H as [w|n w w1 w' H1 Hc Hi _ IH]; intros p Hpw Hpc Hun Himp.
  { subst. by destruct p. }
  cbn [worker]. unfold bind at 1, worker_step. unfold bind at 1, gets. rewrite Hpc.
  unfold bind at 1. rewrite test_running_eq by done. cbn [andb negb]. unfold serve_client.
  unfold bind at 1, in_world at 1, zoom at 1, usbip_protocol_is_device_imported, getp, gets.
  rewrite Hpw, Himp. unfold bind at 1, in_world at 1, zoom at 1.
  replace (p_world (set_world w p)) with w by done. rewrite H1. unfold modify at 1.
  rewrite IH; [destruct p; cbn in *; by subst| | | |congruence]; try done.
  destruct Hun as [? ? _]. constructor; [done|done|apply Hc].
Qed.

(** From the connection to the import. *)
Definition accepting fd rx' tx' polls' p : Prop :=
  worker_at p = Outer ∧ 0 < fd ∧ tx_clean tx' ∧ ∃ later, accepts (w_net (p_world p)) = AcceptFd fd rx' tx' polls' :: later.

Lemma import_step p fd rx' tx' polls' busid rest t :
  process_ok I p → undisturbed p → accepting fd rx' tx' polls' p →
  stream rx' = (op_req_wire OP_REQ_IMPORT ++ busid) ++ rest → blen busid = 32 → load_endpoints (config_desc d) = Val t →
  ∃ p1, worker d 2 p = Ok tt p1 ∧ worker_at p1 = Inner false ∧ undisturbed p1
    ∧ world_ok I (p_world p1) ∧ client_sends rest [] (p_world p1)
    ∧ sent (w_net (p_world p1)) = sent (w_net (p_world p)) ++ import_wire d
    ∧ device_imported (w_proto (p_world p1)) = true ∧ live (w_proto (p_world p1)) = []
    ∧ endpoints (w_proto (p_world p1)) = t
    ∧ polls (w_net (p_world p1)) = polls' ∧ others (p_world p1) = others (p_world p)
    ∧ (∀ k, k ≠ 0%nat → slot_of k (abs (lib (w_host (p_world p1)))) = []).
Proof using All.
  intros [Hw Hk Hs] Hun (Hpc & Hfd & Htx & later & Hacc) Hst Hb Ht. pose proof Hun as [Hrun Harr Hnet].
  assert (device_imported (w_proto (p_world p)) = false) as Himp.
  { unfold session_ok in Hs. rewrite Hpc in Hs. destruct Hs; [done|lia]. }
  set (n1 := set_client_socket fd (set_rx rx' (set_tx tx' (set_polls polls' (set_accepts later (w_net (p_world p))))))).
  set (w1 := set_net n1 (p_world p)). set (p1 := set_pc (Inner false) (set_world w1 p)).
  assert (worker_step d p = Ok tt p1) as H1.
  { unfold worker_step. unfold bind at 1, gets. rewrite Hpc. unfold bind at 1. rewrite test_running_eq by done.
    unfold accept_client, bind at 1, in_world, in_net, zoom, tcpip_server_wait_for_client. rewrite Hacc, (proj2 (Z.ltb_lt _ _)) by done. done. }
  assert (world_ok I w1) as Hw1.
  { apply world_ok_net; [done|]. destruct (wo_net _ _ Hw) as [_ Ha]. rewrite Hacc in Ha. inversion Ha; subst. by split. }
  assert (client_sends (op_req_wire OP_REQ_IMPORT ++ busid) rest w1) as Hcl by (split; [by split|exact Hst]).
  assert (undisturbed p1) as Hun1 by (by constructor).
  destruct (import_wp I d w1 busid rest Hw1 Hcl Hb) as (ds & Hcfg & Hwf & H).
  apply wp_never_Ok in H as (b & w2 & H2 & -> & Hw2 & Hcl2 & Hsent & Hi2 & Hl2 & He2 & _ & Hp2 & Ho2 & Hempty).
  exists (set_world w2 p1). split.
  { cbn [worker]. unfold bind at 1. rewrite H1. unfold bind at 1, worker_step. unfold bind at 1, gets. cbn [p1 worker_at set_pc].
    unfold bind at 1. fold p1. rewrite test_running_eq by done. cbn [andb negb]. unfold serve_client.
    unfold bind at 1, in_world at 1, zoom at 1, usbip_protocol_is_device_imported, getp, gets.
    change (device_imported (w_proto (p_world p1))) with (device_imported (w_proto (p_world p))). rewrite Himp.
    unfold bind at 1, in_world at 1, zoom at 1. change (p_world (set_world (p_world p1) p1)) with w1. by rewrite H2. }
  split; [done|]. split; [constructor; [done|done|apply Hcl2]|].
  do 5 (split; [done|]). split; [|split; [exact Hp2|split; [exact Ho2|by apply Hempty]]].
  change (endpoints (w_proto w2) = t). rewrite He2. rewrite Hcfg, load_endpoints_eq in Ht by done. by injection Ht.
Qed.

(** What a client has got when the rounds of its [script] are over: the server is still
    there for it, and [log] says what happened since the import. *)
Record served (script : list turn) (calls : list (list transmit_call)) (before : bytes) (log : list event) p : Prop := {
  served_connected : worker_at p = Inner false ∧ connected (w_net (p_world p)) ∧ serving I (p_world p);
  served_replies : sent (w_net (p_world p)) = before ++ import_wire d ++ concat (event_wire <$> log);
  served_run : ∃ s, waiting s = [] ∧ pipe_trace I d s log (pipes_of (p_world p));
  served_commands : log_commands log = session_commands script;
  served_calls : log_calls log = concat (take (length script) calls);
  served_bytes : ∀ k, k ≠ 0%nat →
    concat (stored_bytes k <$> log) = concat (read_bytes k <$> log) ++ slot_of k (abs (lib (w_host (p_world p))));
  served_transfers : log_queued log ≡ₚ log_completed log ++ log_unlinked log ++ live (w_proto (p_world p));
  served_promptly : script ≠ [] → all_served (p_world p);
}.

Lemma worker_app a b p : worker d (a + b) p = (worker d a;; worker d b) p.
Proof using.
  revert p. induction a as [|a IH]; intros p; [done|]. cbn [Nat.add worker]. unfold bind in *.
  destruct (worker_step d p) as [[] p1|p1|]; [|done..]. apply IH.
Qed.

Lemma client_session p fd rx' tx' busid script rest more t :
  process_ok I p → undisturbed p → accepting fd rx' tx' ((poll_of <$> script) ++ more) p →
  stream rx' = (op_req_wire OP_REQ_IMPORT ++ busid) ++ concat (sent_by <$> script) ++ rest → blen busid = 32 →
  load_endpoints (config_desc d) = Val t → Forall (command_ok t) (session_commands script) →
  ∃ p' log, worker d (2 + length script) p = Ok tt p' ∧ served script (others (p_world p)) (sent (w_net (p_world p))) log p'.
Proof using All.
  intros Hok Hun Hacc Hst Hb Ht Hcmds.
  destruct (import_step p fd rx' tx' _ busid _ t Hok Hun Hacc Hst Hb Ht)
    as (p1 & H1 & Hpc1 & Hun1 & Hw1 & Hcl1 & Hs1 & Hi1 & Hl1 & He1 & Hp1 & Ho1 & Hempty).
  assert (serving I (p_world p1)) as Hserve by (constructor; [done|rewrite Hl1; constructor]).
  destruct (session_evolves I d script rest more (p_world p1)) as (w' & log & H & [T S _ V] & C & L & Hcl & Hall);
    [done|split; [|done]; unfold client_sends in *; by rewrite app_nil_r in Hcl1|by rewrite He1|].
  pose proof (pass_start_slots I (p_world p1) Hw1) as Hslots. pose proof (trace_accounts I d _ _ _ T) as Hacct.
  exists (set_world w' p1), log. split.
  { rewrite worker_app. unfold bind. rewrite H1. by apply (worker_stays _ _ _ _ H). }
  constructor; [split; [done|split; [apply Hcl|done]]| |exists (pipes_of (p_world p1)); by split|done|by rewrite L, Ho1| | |done].
  - change (w_net (p_world (set_world w' p1))) with (w_net w'). by rewrite S, Hs1, <-app_assoc.
  - intros k Hk. pose proof (trace_conserves I d k _ _ _ T Hslots Hk) as Hcons.
    cbn [pipes_of unread] in Hcons. by rewrite (Hempty k Hk) in Hcons.
  - cbn [pipes_of waiting] in Hacct. by rewrite Hl1 in Hacct.
Qed.

(** C3: a client from its connection on: the worker thread accepts it, the import is
    answered, and then every control request and all OUT data it sends reach the device and
    are answered, and every IN transfer it submits on a bulk, interrupt or isochronous
    endpoint of the configuration is served, until it stops sending, for any bus id, any
    chunking of its bytes, any moments at which its commands arrive and the threads of the
    device transmit.
    It receives the answer to the import and then exactly the replies of a run of the pipes
    that starts without transfers; what was queued for an endpoint since then, and nothing
    else, arrives complete and in order or is still unread; every transfer was answered or
    unlinked, or is still pending, once; and it is pending only because its endpoint is
    empty or because it is not due. *)
Theorem client_is_served p fd rx' tx' busid script rest more t :
  process_ok I p → undisturbed p → accepting fd rx' tx' ((poll_of <$> script) ++ more) p →
  stream rx' = (op_req_wire OP_REQ_IMPORT ++ busid) ++ concat (sent_by <$> script) ++ rest → blen busid = 32 →
  load_endpoints (config_desc d) = Val t → Forall (command_ok t) (session_commands script) →
  ∃ p' log, worker d (2 + length script) p = Ok tt p' ∧ served script (others (p_world p)) (sent (w_net (p_world p))) log p'.
Proof using All. apply client_session. Qed.
End client.

(** ** Witness: a client of the bulk device reads what a thread of it transmits *)

Definition reader_input : bytes :=
  (op_req_wire OP_REQ_IMPORT ++ replicate 32 0) ++ concat (sent_by <$> session_script) ++ [].

(** The bytes arrive in two pieces, the second after a time-out. *)
Definition reader_rx : list rx_event := [RxData (take 50 reader_input); RxAgain; RxData (drop 50 reader_input)].

Definition reader_process : process Bulk.state :=
  {| p_world := {| w_host := Bulk.initial_host; w_proto := initial_proto; others := [[]; []; []; []; []; []; [round_call]];
                   w_net := Build_net 3 (-1) false [] [] []
                     [AcceptFd 5 reader_rx [TxAccept 7] ((poll_of <$> session_script) ++ [])] [] [] |};
     keep_running := 3; panic_counter := 0; handler_installed := true; worker_at := Outer;
     worker_flags := other_thread; exited := false; arrivals := [] |}.

Lemma reader_process_ok : process_ok Bulk.inv reader_process.
Proof.
  constructor; [|by cbn|by left]. constructor; [apply Bulk.initial_host_idle| |apply initial_proto_ok|apply session_world_serving].
  split; [constructor|]. constructor; [|constructor]. unfold reader_rx. repeat constructor; try exact I;
    apply (bool_decide_eq_true_1 _); vm_compute; reflexivity.
Qed.

Lemma client_is_served_witness :
  ∃ p' log, worker Bulk.bulk_device 9 reader_process = Ok tt p' ∧ log_calls log = [round_call]
    ∧ concat (stored_bytes 1 <$> log) = concat (read_bytes 1 <$> log) ++ slot_of 1 (abs (lib (w_host (p_world p')))).
Proof.
  destruct (load_endpoints (config_desc Bulk.bulk_device)) as [t|f] eqn:Ht; [|discriminate Ht].
  destruct (client_is_served Bulk.inv Bulk.bulk_device reader_process 5 reader_rx [TxAccept 7] (replicate 32 0)
    session_script [] [] t) as (p' & log & H1 & H2).
  - exact reader_process_ok.
  - constructor; reflexivity.
  - split; [reflexivity|]. split; [reflexivity|]. split; [by repeat constructor|]. by eexists.
  - vm_compute. reflexivity.
  - reflexivity.
  - exact Ht.
  - injection Ht as <-. eapply session_commands_ok; [vm_compute; reflexivity|discriminate|vm_compute; reflexivity|discriminate].
  - exists p', log. split; [exact H1|]. split; [exact (served_calls _ _ _ _ _ _ _ H2)|].
    exact (served_bytes _ _ _ _ _ _ _ H2 1%nat ltac:(discriminate)).
Defined.
