(* ===== verification/KeyboardDevice.v ===== *)
(** * The keyboard example device (src/usb_keyboard)

    Descriptors, the control callback, the mapping from characters to HID keys and the
    main loop, which types a text each time the host configures the keyboard. The main
    loop is a step function on a program counter, one step per report sent, so that it
    can be interleaved with the host's transfers. *)
From S2P Require Import Prelude DeviceStore Descriptors Host Control Silent DeviceRequests.

Module Keyboard.

(** ** Descriptors *)

Definition usb_strings : list usb_string_t := [
  {| id := 1; Host.string := Some (cstring "Virtual UsbIP"%string) |};
  {| id := 2; Host.string := Some (cstring "Virtual HID Keyboard"%string) |};
  {| id := 4; Host.string := Some (cstring "ABC123"%string) |};
  {| id := 0; Host.string := None |} ].

Definition USB_VID : Z := 0xfa00.
Definition USB_PID : Z := 0x0003.

Definition usb_keyboard_device : bytes := [
  USB_DEVICE_DESCRIPTOR_LENGTH; USB_DESCRIPTOR_TYPE_DEVICE;
  LOBYTE USB_BCD_VERSION; HIBYTE USB_BCD_VERSION;
  0x00; 0x00; 0x00; 64;
  LOBYTE USB_VID; HIBYTE USB_VID; LOBYTE USB_PID; HIBYTE USB_PID;
  LOBYTE USB_BCD_DEVICE_REL; HIBYTE USB_BCD_DEVICE_REL;
  1; 2; 4; 1 ].

Definition USB_KEYBOARD_CONFIG_DESC_LENGTH : Z := 34.
Definition HID_KEYBOARD_REPORT_DESC_LENGTH : Z := 63.
Definition USB_KEYBOARD_HID_EP_DATA_IN : Z := 0x81.
Definition USB_KEYBOARD_HID_POLL_INTERVAL : Z := 7.
Definition USB_HID_BCD : Z := 0x111.

Definition usb_keyboard_configuration : bytes := [
  0x09; USB_DESCRIPTOR_TYPE_CONFIGURATION;
  LOBYTE USB_KEYBOARD_CONFIG_DESC_LENGTH; HIBYTE USB_KEYBOARD_CONFIG_DESC_LENGTH;
  0x01; 0x01; 0x00; 0xC0; 0x32;
  (* Descriptor of Keyboard interface *)
  0x09; USB_DESCRIPTOR_TYPE_INTERFACE; 0x00; 0x00; 0x01; 0x03; 0x01; 0x01; 0;
  (* Descriptor of Keyboard HID *)
  0x09; USB_DESCRIPTOR_TYPE_HID; LOBYTE USB_HID_BCD; HIBYTE USB_HID_BCD; 0x00; 0x01;
  USB_DESCRIPTOR_TYPE_REPORT; LOBYTE HID_KEYBOARD_REPORT_DESC_LENGTH; HIBYTE HID_KEYBOARD_REPORT_DESC_LENGTH;
  (* Descriptor of Keyboard endpoint *)
  0x07; USB_DESCRIPTOR_TYPE_ENDPOINT; USB_KEYBOARD_HID_EP_DATA_IN; 0x03; 0x08; 0x00;
  USB_KEYBOARD_HID_POLL_INTERVAL ].

Definition USB_LANGID_STRING : Z := 0x409.
Definition USB_LANGID_DESC_LENGTH : Z := 4.

Definition langid_desc : bytes := [
  USB_LANGID_DESC_LENGTH; USB_DESCRIPTOR_TYPE_STRING;
  LOBYTE USB_LANGID_STRING; HIBYTE USB_LANGID_STRING ].

Definition usb_keyboard_hid_report : bytes := [
  0x05; 0x01; 0x09; 0x06; 0xA1; 0x01; 0x05; 0x07; 0x19; 0xE0; 0x29; 0xE7;
  0x15; 0x00; 0x25; 0x01; 0x75; 0x01; 0x95; 0x08; 0x81; 0x02; 0x95; 0x01;
  0x75; 0x08; 0x81; 0x01; 0x95; 0x05; 0x75; 0x01; 0x05; 0x08; 0x19; 0x01;
  0x29; 0x05; 0x91; 0x02; 0x95; 0x01; 0x75; 0x03; 0x91; 0x01; 0x95; 0x06;
  0x75; 0x08; 0x15; 0x00; 0x25; 0x65; 0x05; 0x07; 0x19; 0x00; 0x29; 0x65;
  0x81; 0x00; 0xC0 ].

(** ** Keys *)

Record hid_key_t := {
  keycode : Z;
  modifier : Z;
}.

Definition MOD_LSHIFT : Z := 0x02.

Definition plain_key (k : Z) : hid_key_t := {| keycode := k; modifier := 0 |}.
Definition shift_key (k : Z) : hid_key_t := {| keycode := k; modifier := MOD_LSHIFT |}.

(** The [switch] of [ascii_to_hid], by character code. *)
Definition symbol_key (c : Z) : hid_key_t :=
  match c with
  | 10 => plain_key 0x28 (* \n *)
  | 8 => plain_key 0x2A  (* \b *)
  | 9 => plain_key 0x2B  (* \t *)
  | 32 => plain_key 0x2C (* space *)
  (* Symbols: - = [ ] \ ; ' ` , . / *)
  | 45 => plain_key 0x2D
  | 61 => plain_key 0x2E
  | 91 => plain_key 0x2F
  | 93 => plain_key 0x30
  | 92 => plain_key 0x31
  | 59 => plain_key 0x33
  | 39 => plain_key 0x34
  | 96 => plain_key 0x35
  | 44 => plain_key 0x36
  | 46 => plain_key 0x37
  | 47 => plain_key 0x38
  (* Shifted symbols: ! @ # $ % ^ & * ( ) _ + { } | : double quote ~ < > ? *)
  | 33 => shift_key 0x1E
  | 64 => shift_key 0x1F
  | 35 => shift_key 0x20
  | 36 => shift_key 0x21
  | 37 => shift_key 0x22
  | 94 => shift_key 0x23
  | 38 => shift_key 0x24
  | 42 => shift_key 0x25
  | 40 => shift_key 0x26
  | 41 => shift_key 0x27
  | 95 => shift_key 0x2D
  | 43 => shift_key 0x2E
  | 123 => shift_key 0x2F
  | 125 => shift_key 0x30
  | 124 => shift_key 0x31
  | 58 => shift_key 0x33
  | 34 => shift_key 0x34
  | 126 => shift_key 0x35
  | 60 => shift_key 0x36
  | 62 => shift_key 0x37
  | 63 => shift_key 0x38
  | _ => plain_key 0
  end.

(** [c] is a [char]; 97 is 'a', 65 'A', 49 '1', 48 '0'. *)
Definition ascii_to_hid (c : Z) : hid_key_t :=
  if (97 <=? c) && (c <=? 122) then plain_key (u8 ((c - 97) + 0x04))
  else if (65 <=? c) && (c <=? 90) then shift_key (u8 ((c - 65) + 0x04))
  else if (49 <=? c) && (c <=? 57) then plain_key (u8 ((c - 49) + 0x1E))
  else if c =? 48 then plain_key 0x27
  else symbol_key c.

(** ** Static variables and callbacks *)

Record state := { configuration_active : bool }.

Definition control_data (setup data : bytes) (data_length : Z) : M (host state) unit :=
  let* bRequestType := liftC (arr_get setup 0) in
  let* bRequest := liftC (arr_get setup 1) in
  if (bRequestType =? 0x81) && (bRequest =? USB_REQUEST_GET_DESCRIPTOR) then
    let* s3 := liftC (arr_get setup 3) in
    if s3 =? USB_DESCRIPTOR_TYPE_REPORT then transmit_report usb_keyboard_hid_report setup else ret tt
  else if (bRequestType =? 0x00) && (bRequest =? USB_REQUEST_SET_CONFIGURATION) then
    let* s2 := liftC (arr_get setup 2) in
    modify (set_dev {| configuration_active := negb (s2 =? 0) |})
  else ret tt.

Definition keyboard_device : usbip_device_t state := {|
  device_desc := usb_keyboard_device;
  config_desc := usb_keyboard_configuration;
  Host.langid_desc := langid_desc;
  Host.usb_strings := Some usb_strings;
  control_data_callback := control_data;
  ep_data_callback := None;
  reset_callback := None;
  iso_in_callback := None |}.

(** ** Main loop *)

Definition typing_string : bytes := removelast (cstring "Who is typing..."%string).

(** Waiting for the configuration, about to press the key of a character, about to
    release it, past the loop. *)
Inductive main_pc := Polling | Typing (string_idx : nat) | Pressed (string_idx : nat) | Ended.

Definition keydown_report (c : Z) : bytes :=
  let hid_key := ascii_to_hid c in [modifier hid_key; 0; keycode hid_key; 0; 0; 0; 0; 0].
Definition zero_report : bytes := replicate 8 0.

(** [interrupted] is what [usbip_server_interrupted] returns in this step; once true it
    stays true, so the loops end one after the other. *)
Definition main_step (interrupted : bool) (pc : main_pc) : M (host state) main_pc :=
  match pc with
  | Polling =>
      if interrupted then ret Ended else
      let* th := in_lib (usbip_device_critical_section_enter other_thread) in
      let* s := gets dev in
      modify (set_dev {| configuration_active := false |});;
      let* th := in_lib (usbip_device_critical_section_exit th) in
      ret (if configuration_active s then Typing 0 else Polling)
  | Typing idx =>
      if Z.of_nat idx <? blen typing_string then
        if interrupted then ret Polling else
        let* char_to_transmit := liftC (arr_get typing_string (Z.of_nat idx)) in
        in_lib (usbip_device_transmit other_thread USB_KEYBOARD_HID_EP_DATA_IN (keydown_report char_to_transmit) 8);;
        ret (Pressed idx)
      else ret Polling
  | Pressed idx =>
      in_lib (usbip_device_transmit other_thread USB_KEYBOARD_HID_EP_DATA_IN zero_report 8);;
      ret (Typing (S idx))
  | Ended => ret Ended
  end.

Definition initial_state : state := {| configuration_active := false |}.

(** ** Reference: what a host makes of the reports

    The characters of the US layout by key code, from code 4 on, without and with shift;
    0 where there is no character. *)
Definition us_layout (shift : bool) : list Z :=
  (if shift then seqZ 65 26 else seqZ 97 26)
  ++ (if shift then [33; 64; 35; 36; 37; 94; 38; 42; 40; 41] else [49; 50; 51; 52; 53; 54; 55; 56; 57; 48])
  ++ (if shift then [0; 0; 0; 0; 0; 95; 43; 123; 125; 124; 0; 58; 34; 126; 60; 62; 63]
      else [10; 0; 8; 9; 32; 45; 61; 91; 93; 92; 0; 59; 39; 96; 44; 46; 47]).

Definition key_char (modifier keycode : Z) : option Z :=
  if keycode <? 4 then None else
  c ← us_layout (negb (Z.land modifier 0x22 =? 0)) !! Z.to_nat (keycode - 4);
  if c =? 0 then None else Some c.

(** The character a boot keyboard report types. *)
Definition report_char (report : bytes) : option Z :=
  m ← report !! 0%nat; k ← report !! 2%nat; key_char m k.

Definition host_text (reports : list bytes) : list Z := omap report_char reports.

(** How a character is typed: its key goes down, alone and with no modifier but shift, and
    then every key is up. *)
Definition typed (c : Z) (reports : list bytes) : Prop :=
  ∃ modifier keycode, reports = [[modifier; 0; keycode; 0; 0; 0; 0; 0]; [0; 0; 0; 0; 0; 0; 0; 0]]
    ∧ (modifier = 0 ∨ modifier = 0x02) ∧ key_char modifier keycode = Some c.

(** Characters on the keyboard: printable ASCII, newline, backspace and tab. *)
Definition typeable (c : Z) : bool := ((32 <=? c) && (c <=? 126)) || (c =? 10) || (c =? 8) || (c =? 9).

(** The host polls the endpoint after each step. *)
Fixpoint polled (steps : nat) (pc : main_pc) : M (host state) (list bytes) :=
  match steps with
  | O => ret []
  | S steps =>
      let* pc := main_step false pc in
      let* report := host_poll USB_KEYBOARD_HID_EP_DATA_IN 8 in
      let* rest := polled steps pc in
      ret (report :: rest)
  end.

Definition inv (s : state) : Prop := True.

Definition initial_host : host state :=
  {| dev := initial_state; lib := initial_device_state;
     clk := {| readings := []; last_reading := {| tv_sec := 0; tv_nsec := 0 |} |} |}.

(** * Theorems *)

Lemma keyboard_report_bytes : Forall is_byte usb_keyboard_hid_report ∧ blen usb_keyboard_hid_report = HID_KEYBOARD_REPORT_DESC_LENGTH.
Proof. split; [apply (bool_decide_eq_true_1 _); vm_compute|]; reflexivity. Qed.

#[global] Instance keyboard_sound : DeviceSound inv keyboard_device.
Proof.
  apply device_sound; [vm_compute; reflexivity| |done..].
  intros setup data len Hs Hb _ h Hh Hl. change (control_data_callback keyboard_device) with control_data.
  unfold control_data. wp_byte s0 _.
  wp_byte s1 _. destruct (_ && _).
  - wp_byte s3 _. destruct (_ =? _); [|by apply wp_ret].
    eapply wp_post; [by apply (transmit_report_ok inv); [..|apply keyboard_report_bytes]|]. naive_solver.
  - destruct (_ && _); [|by apply wp_ret]. wp_byte s2 _.
    apply wp_modify. destruct Hh. done.
Qed.

#[global] Instance keyboard_silent : SilentDevice keyboard_device.
Proof. constructor; [|done..]. intros. cbn. unfold control_data. keeps. Qed.

Lemma keyboard_host_idle : host_idle inv initial_host.
Proof. split; [split; [done|apply wf_initial_device_state]|done]. Qed.

(** What the layout theorem says of one character. *)
Definition layout_ok (c : Z) : bool :=
  let k := ascii_to_hid c in
  bool_decide (is_byte (keycode k)) && bool_decide (modifier k = 0 ∨ modifier k = 0x02) &&
  (if typeable c then bool_decide (key_char (modifier k) (keycode k) = Some c) else keycode k =? 0).

Lemma layout_checked : forallb layout_ok (seqZ (-128) 256) = true.
Proof. vm_compute. reflexivity. Qed.

Lemma layout_spec c : -128 ≤ c < 128 → layout_ok c = true.
Proof.
  intros Hc. pose proof layout_checked as H. rewrite forallb_forall in H. apply H, list_elem_of_In, elem_of_seqZ. lia.
Qed.

Lemma keydown_report_ok c : -128 ≤ c < 128 →
  Forall is_byte (keydown_report c) ∧ (typeable c = true → typed c [keydown_report c; zero_report]).
Proof.
  intros Hc. pose proof (layout_spec c Hc) as H. unfold layout_ok in H. rewrite !andb_true_iff, !bool_decide_eq_true in H.
  destruct H as [[Hk Hm] H]. split; [repeat constructor; try done; by (apply Hk || destruct Hm as [-> | ->])|].
  intros Ht. rewrite Ht, bool_decide_eq_true in H. by exists (modifier (ascii_to_hid c)), (keycode (ascii_to_hid c)).
Qed.

(** ** Each character takes a press and a release *)

Definition ready : host state → Prop := endpoint_free inv USB_KEYBOARD_HID_EP_DATA_IN.

Lemma round_of report h :
  ready h → Forall is_byte report → blen report = 8 →
  ∃ h1 h2, in_lib (usbip_device_transmit other_thread USB_KEYBOARD_HID_EP_DATA_IN report 8) h = Ok true h1
    ∧ host_poll USB_KEYBOARD_HID_EP_DATA_IN 8 h1 = Ok report h2 ∧ ready h2.
Proof.
  intros Hh Hb Hlen. destruct (report_round inv USB_KEYBOARD_HID_EP_DATA_IN report 8 h Hh) as (h1 & h2 & H1 & H2 & H3 & _);
    [done|done|lia|done|]. exists h1, h2. by rewrite Hlen in H1.
Qed.

Definition reports_of (text : list Z) : list bytes := text ≫= λ c, [keydown_report c; zero_report].

Lemma typing_char idx c : typing_string !! idx = Some c → -128 ≤ c < 128 ∧ typeable c = true.
Proof.
  intros H. assert (Forall (λ c, (-128 ≤ c < 128) ∧ typeable c = true) typing_string) as HF
    by (apply (bool_decide_eq_true_1 _); vm_compute; reflexivity).
  by apply (Forall_lookup_1 _ _ _ _ HF H).
Qed.

(** Two steps type one character. *)
Lemma polled_char idx c n h :
  ready h → typing_string !! idx = Some c →
  ∃ h', polled (2 + n) (Typing idx) h =
          (let* rest := polled n (Typing (S idx)) in ret (keydown_report c :: zero_report :: rest)) h'
    ∧ ready h'.
Proof.
  intros Hh Hc. destruct (keydown_report_ok c) as [Hb _]; [by eapply typing_char|].
  destruct (round_of (keydown_report c) h Hh Hb) as (h1 & h2 & H1 & H2 & Hh2); [done|].
  destruct (round_of zero_report h2 Hh2) as (h3 & h4 & H3 & H4 & Hh4); [by apply Forall_replicate|done|].
  assert (main_step false (Typing idx) h = Ok (Pressed idx) h1) as Hpress.
  { cbn [main_step]. pose proof (lookup_lt_Some _ _ _ Hc). rewrite (proj2 (Z.ltb_lt _ _)) by (unfold blen; lia).
    rewrite (proj2 (arr_get_Val typing_string (Z.of_nat idx) c)) by (rewrite Nat2Z.id; split; [lia|done]).
    unfold bind. cbn [liftC]. by rewrite H1. }
  assert (main_step false (Pressed idx) h2 = Ok (Typing (S idx)) h3) as Hrelease
    by (cbn [main_step]; unfold bind; by rewrite H3).
  exists h4. split; [|done]. cbn [polled Nat.add]. unfold bind. rewrite Hpress, H2, Hrelease, H4.
  by destruct (polled n (Typing (S idx)) h4).
Qed.

Lemma polled_text text idx h :
  ready h → drop idx typing_string = text →
  ∃ h', polled (2 * length text) (Typing idx) h = Ok (reports_of text) h' ∧ ready h'.
Proof.
  revert idx h. induction text as [|c text IH]; intros idx h Hh Hd.
  - exists h. done.
  - assert (typing_string !! idx = Some c) as Hc.
    { transitivity (drop idx typing_string !! 0%nat); [by rewrite lookup_drop, Nat.add_0_r|by rewrite Hd]. }
    replace (2 * length (c :: text))%nat with (2 + 2 * length text)%nat by (cbn [length]; lia).
    destruct (polled_char idx c (2 * length text) h Hh Hc) as (h1 & -> & Hh1).
    destruct (IH (S idx) h1 Hh1) as (h2 & Hr & Hh2).
    { rewrite <-Nat.add_1_r, <-drop_drop. by rewrite Hd. }
    exists h2. split; [|done]. unfold bind. by rewrite Hr.
Qed.

Lemma reports_typed text :
  Forall (λ c, (-128 ≤ c < 128) ∧ typeable c = true) text →
  ∃ reports, reports_of text = concat reports ∧ Forall2 typed text reports.
Proof.
  induction 1 as [|c text [Hc Ht] _ (reports & Hr & HF)]; [by exists []|].
  exists ([keydown_report c; zero_report] :: reports). unfold reports_of in *. cbn [mbind list_bind concat]. rewrite Hr.
  split; [done|]. constructor; [|done]. by apply (proj2 (keydown_report_ok c Hc)).
Qed.

(** Each pair of reports reads as its character. *)
Lemma typed_text text reports : Forall2 typed text reports → host_text (concat reports) = text.
Proof.
  unfold host_text. induction 1 as [|c r text reports (m & k & -> & _ & Hk) _ IH]; [done|].
  cbn [concat app omap list_omap report_char mbind option_bind lookup list_lookup]. rewrite Hk, IH. done.
Qed.

(** The main loop starts to type when it finds the device configured. *)
Lemma polled_start n h :
  ready h → configuration_active (dev h) = true →
  ∃ h', polled (S n) Polling h = (let* rest := polled n (Typing 0) in ret ([] :: rest)) h'
    ∧ ready h' ∧ configuration_active (dev h') = false.
Proof.
  intros ([[HI Hwf] Hl] & Hslot & Hst) Hconf.
  assert (∃ h1, main_step false Polling h = Ok (Typing 0) h1 ∧ ready h1 ∧ configuration_active (dev h1) = false) as (h1 & H1 & Hh1 & Hc1).
  { cbn [main_step]. unfold bind, in_lib, zoom, usbip_device_critical_section_enter, bind, lock_receive. rewrite Hl. cbn. rewrite Hconf.
    eexists. split; [reflexivity|]. split; [|done].
    split; [split; [split; [done|destruct Hwf; by constructor]|done]|]. split; [exact Hslot|exact Hst]. }
  destruct (empty_poll inv USB_KEYBOARD_HID_EP_DATA_IN 8 h1 Hh1) as (h2 & H2 & Hh2 & Hd2); [done|].
  exists h2. split; [|by rewrite Hd2]. cbn [polled]. unfold bind at 1. rewrite H1. unfold bind at 1. by rewrite H2.
Qed.

(** ** Properties *)

(** C39: [ascii_to_hid] is the inverse of the US keyboard layout: for every character of the
    keyboard the key and modifier it chooses are the ones that type it, and every other
    [char] gives key code 0, which types nothing. *)
Theorem ascii_to_hid_inverts_the_layout c :
  -128 ≤ c < 128 →
  if typeable c then key_char (modifier (ascii_to_hid c)) (keycode (ascii_to_hid c)) = Some c
  else keycode (ascii_to_hid c) = 0.
Proof.
  intros Hc. pose proof (layout_spec c Hc) as H. unfold layout_ok in H. apply andb_true_iff in H as [_ H].
  destruct (typeable c); [by apply bool_decide_eq_true in H|by apply Z.eqb_eq].
Qed.

Lemma ascii_to_hid_inverts_the_layout_witness : key_char (modifier (ascii_to_hid 64)) (keycode (ascii_to_hid 64)) = Some 64.
Proof. apply (ascii_to_hid_inverts_the_layout 64). split; [discriminate|reflexivity]. Defined.

(** C32: the keyboard types its text: once it is configured, a host that polls the interrupt
    endpoint receives for each character of "Who is typing...", in order, a report with
    its key alone, with no modifier but shift, and a report with every key up, and nothing
    else; so it reads the text from them, and the loop then waits to be configured again. *)
Theorem keyboard_types_its_text h :
  host_idle inv h → slot_of 1 (abs (lib h)) = [] → stopped (abs (lib h)) = false → configuration_active (dev h) = true →
  ∃ reports h', polled (1 + 2 * length typing_string) Polling h = Ok ([] :: concat reports) h'
    ∧ Forall2 typed typing_string reports ∧ host_text (concat reports) = typing_string
    ∧ main_step false (Typing (length typing_string)) h' = Ok Polling h'.
Proof.
  intros Hh Hslot Hst Hconf. destruct (polled_start (2 * length typing_string) h) as (h1 & H1 & Hh1 & _); [done|done|].
  destruct (polled_text typing_string 0 h1 Hh1) as (h2 & H2 & _); [done|].
  destruct (reports_typed typing_string) as (reports & Hr & HF); [apply (bool_decide_eq_true_1 _); vm_compute; reflexivity|].
  exists reports, h2. change (1 + 2 * length typing_string)%nat with (S (2 * length typing_string)). rewrite H1. unfold bind. rewrite H2, Hr.
  split; [done|]. split; [done|]. split; [by apply typed_text|]. reflexivity.
Qed.

Definition configured_host : host state := set_dev {| configuration_active := true |} initial_host.

Lemma keyboard_types_its_text_witness :
  ∃ reports h', polled 33 Polling configured_host = Ok ([] :: concat reports) h'
    ∧ host_text (concat reports) = removelast (cstring "Who is typing..."%string).
Proof.
  destruct (keyboard_types_its_text configured_host) as (reports & h' & H1 & _ & H2 & _).
  - apply keyboard_host_idle.
  - vm_compute. reflexivity.
  - vm_compute. reflexivity.
  - reflexivity.
  - exists reports, h'. split; [exact H1|exact H2].
Defined.

(** The HID report descriptor is answered to the host's GET_DESCRIPTOR request for the
    interface, cut to wLength and to the length of the transfer. *)
Theorem keyboard_report_descriptor_is_answered lo hi v rx tx n h :
  host_idle inv h → stopped (abs (lib h)) = false → is_byte lo → is_byte hi → 0 ≤ n ≤ blen tx →
  ∃ h', control_in keyboard_device [0x81; USB_REQUEST_GET_DESCRIPTOR; v; USB_DESCRIPTOR_TYPE_REPORT; 0; 0; lo; hi] rx tx n h =
          Ok (true, true, take (Z.to_nat (Z.min n (256 * hi + lo))) usb_keyboard_hid_report) h'
    ∧ host_idle inv h'.
Proof.
  intros Hh Hst Hlo Hhi Hn. replace (take (Z.to_nat (Z.min n (256 * hi + lo))) usb_keyboard_hid_report)
    with (take (Z.to_nat n) (take (Z.to_nat (256 * hi + lo)) usb_keyboard_hid_report))
    by (unfold is_byte in *; rewrite take_take; f_equal; lia).
  destruct (device_control_in inv keyboard_device [0x81; USB_REQUEST_GET_DESCRIPTOR; v; USB_DESCRIPTOR_TYPE_REPORT; 0; 0; lo; hi]
    rx tx n 0x81 h (take (Z.to_nat (256 * hi + lo)) usb_keyboard_hid_report) (λ _, True)) as (h' & H & Hh' & _); [done..| |by eauto].
  intros h1 Hh1 Hl1 _ Habs1. change (control_data_callback keyboard_device) with control_data.
  unfold control_data. do 3 apply wp_bind, wp_liftC, cwp_ret.
  eapply wp_post; [apply (transmit_report_answers inv _ _ lo hi); try done; [by rewrite Habs1|apply keyboard_report_bytes]|]. naive_solver.
Qed.

Lemma keyboard_report_descriptor_is_answered_witness :
  ∃ h', control_in keyboard_device [0x81; 6; 0; 0x22; 0; 0; 63; 0] [] (replicate 64 0) 63 initial_host =
          Ok (true, true, usb_keyboard_hid_report) h'.
Proof.
  destruct (keyboard_report_descriptor_is_answered 63 0 0 [] (replicate 64 0) 63 initial_host) as (h' & H & _).
  - apply keyboard_host_idle.
  - vm_compute. reflexivity.
  - split; [discriminate|reflexivity].
  - split; [discriminate|reflexivity].
  - split; [discriminate|vm_compute; discriminate].
  - exists h'. exact H.
Defined.
End Keyboard.
