(* ===== verification/CdcDevice.v ===== *)
(** * The CDC example device (src/usb_cdc)

    A serial port: descriptors, line coding and line state set by control requests, the
    input buffer filled by OUT transfers, and one round of the main loop, which sends a
    tick while a terminal is open and shows the input. *)
From S2P Require Import Prelude DeviceStore Descriptors Host BulkDevice Control Silent DeviceRequests.

Module Cdc.

(** ** Descriptors *)

Definition usb_strings : list usb_string_t := [
  {| id := 1; Host.string := Some (cstring "Virtual UsbIP"%string) |};
  {| id := 2; Host.string := Some (cstring "Virtual CDC Device"%string) |};
  {| id := 4; Host.string := Some (cstring "ABC123"%string) |};
  {| id := 0; Host.string := None |} ].

Definition USB_VID : Z := 0xfa00.
Definition USB_PID : Z := 0x0001.

Definition usb_device_descriptor : bytes := [
  USB_DEVICE_DESCRIPTOR_LENGTH; USB_DESCRIPTOR_TYPE_DEVICE;
  LOBYTE USB_BCD_VERSION; HIBYTE USB_BCD_VERSION;
  0x00; 0x00; 0x00; 64;
  LOBYTE USB_VID; HIBYTE USB_VID; LOBYTE USB_PID; HIBYTE USB_PID;
  LOBYTE USB_BCD_DEVICE_REL; HIBYTE USB_BCD_DEVICE_REL;
  1; 2; 4; 1 ].

Definition USB_CDC_CONFIG_DESC_LENGTH : Z := 67.
Definition CDC_CMD_PACKET_SZE : Z := 8.
Definition CDC_DATA_PACKET_SZE : Z := 512.

Definition cdc_config_descriptor : bytes := [
  0x09; USB_DESCRIPTOR_TYPE_CONFIGURATION;
  LOBYTE USB_CDC_CONFIG_DESC_LENGTH; HIBYTE USB_CDC_CONFIG_DESC_LENGTH;
  0x02; 0x01; 0x04; 0xC0; 0x32;
  (* Interface Descriptor *)
  0x09; USB_DESCRIPTOR_TYPE_INTERFACE; 0x00; 0x00; 0x01; 0x02; 0x02; 0x01; 0x00;
  (* Header Functional Descriptor *)
  0x05; 0x24; 0x00; 0x10; 0x01;
  (* Call Management Functional Descriptor *)
  0x05; 0x24; 0x01; 0x00; 0x01;
  (* ACM Functional Descriptor *)
  0x04; 0x24; 0x02; 0x02;
  (* Union Functional Descriptor *)
  0x05; 0x24; 0x06; 0x00; 0x01;
  (* Endpoint 2 Descriptor *)
  0x07; USB_DESCRIPTOR_TYPE_ENDPOINT; 0x82; 0x03;
  LOBYTE CDC_CMD_PACKET_SZE; HIBYTE CDC_CMD_PACKET_SZE; 0x08;
  (* Data class interface descriptor *)
  0x09; USB_DESCRIPTOR_TYPE_INTERFACE; 0x01; 0x00; 0x02; 0x0A; 0x00; 0x00; 0x00;
  (* Endpoint OUT Descriptor *)
  0x07; USB_DESCRIPTOR_TYPE_ENDPOINT; 0x01; 0x02;
  LOBYTE CDC_DATA_PACKET_SZE; HIBYTE CDC_DATA_PACKET_SZE; 0x00;
  (* Endpoint IN Descriptor *)
  0x07; USB_DESCRIPTOR_TYPE_ENDPOINT; 0x81; 0x02;
  LOBYTE CDC_DATA_PACKET_SZE; HIBYTE CDC_DATA_PACKET_SZE; 0x00 ].

Definition USB_LANGID_STRING : Z := 0x409.
Definition USB_LANGID_DESC_LENGTH : Z := 4.

Definition langid_desc : bytes := [
  USB_LANGID_DESC_LENGTH; USB_DESCRIPTOR_TYPE_STRING;
  LOBYTE USB_LANGID_STRING; HIBYTE USB_LANGID_STRING ].

(** ** Static variables and callbacks *)

Definition CDC_SET_LINE_CODING : Z := 0x20.
Definition CDC_SET_CONTROL_LINE_STATE : Z := 0x22.
Definition CDC_SEND_BREAK : Z := 0x23.
Definition INPUT_BUFFER_LENGTH : Z := 10.

Record cdc_state_t := {
  DTR : bool;
  RTS : bool;
  baudrate : Z;
  char_format : Z;
  parity : Z;
  data_bits : Z;
}.

(** [tick_counter] is the static variable of [main]. *)
Record state := {
  cdc_state : cdc_state_t;
  input_buffer : bytes;
  input_buffer_pos : Z;
  tick_counter : Z;
}.

Definition set_cdc_state (v : cdc_state_t) (s : state) : state :=
  {| cdc_state := v; input_buffer := input_buffer s; input_buffer_pos := input_buffer_pos s; tick_counter := tick_counter s |}.
Definition set_input (buffer : bytes) (pos : Z) (s : state) : state :=
  {| cdc_state := cdc_state s; input_buffer := buffer; input_buffer_pos := pos; tick_counter := tick_counter s |}.
Definition set_tick_counter (v : Z) (s : state) : state :=
  {| cdc_state := cdc_state s; input_buffer := input_buffer s; input_buffer_pos := input_buffer_pos s; tick_counter := v |}.

Definition set_lines (dtr rts : bool) (c : cdc_state_t) : cdc_state_t :=
  {| DTR := dtr; RTS := rts; baudrate := baudrate c; char_format := char_format c; parity := parity c; data_bits := data_bits c |}.

(** [(data[3] << 24) | (data[2] << 16) | (data[1] << 8) | (data[0])], stored in 32 bits. *)
Definition line_rate (d0 d1 d2 d3 : Z) : Z :=
  u32 (Z.lor (Z.lor (Z.lor (Z.shiftl d3 24) (Z.shiftl d2 16)) (Z.shiftl d1 8)) d0).

Definition control_data (setup data : bytes) (data_length : Z) : M (host state) unit :=
  let* bRequest := liftC (arr_get setup 1) in
  let* s3 := liftC (arr_get setup 3) in
  let* s2 := liftC (arr_get setup 2) in
  let wValue := u16 (word16 s2 s3) in
  let* s := gets dev in
  if bRequest =? CDC_SET_LINE_CODING then
    if data_length =? 7 then
      let* d3 := liftC (arr_get data 3) in
      let* d2 := liftC (arr_get data 2) in
      let* d1 := liftC (arr_get data 1) in
      let* d0 := liftC (arr_get data 0) in
      let* d4 := liftC (arr_get data 4) in
      let* d5 := liftC (arr_get data 5) in
      let* d6 := liftC (arr_get data 6) in
      modify (set_dev (set_cdc_state
        {| DTR := DTR (cdc_state s); RTS := RTS (cdc_state s); baudrate := line_rate d0 d1 d2 d3;
           char_format := d4; parity := d5; data_bits := d6 |} s))
    else ret tt
  else if bRequest =? CDC_SET_CONTROL_LINE_STATE then
    modify (set_dev (set_cdc_state (set_lines (negb (Z.land wValue 0x01 =? 0)) (negb (Z.land wValue 0x02 =? 0)) (cdc_state s)) s))
  else ret tt. (* CDC_SEND_BREAK is only shown *)

Definition endpoint_data (ep : Z) (data : bytes) (data_length : Z) : M (host state) unit :=
  let* s := gets dev in
  if input_buffer_pos s + data_length <=? INPUT_BUFFER_LENGTH then
    let* buffer := liftC (memcpy (input_buffer s) (input_buffer_pos s) data 0 data_length) in
    modify (set_dev (set_input buffer (input_buffer_pos s + data_length) s))
  else ret tt.

(** A new or departed host has no terminal open. *)
Definition reset : M (host state) unit :=
  modify (λ h, set_dev (set_input (input_buffer (dev h)) 0 (set_cdc_state (set_lines false false (cdc_state (dev h))) (dev h))) h).

Definition cdc_device : usbip_device_t state := {|
  device_desc := usb_device_descriptor;
  config_desc := cdc_config_descriptor;
  Host.langid_desc := langid_desc;
  Host.usb_strings := Some usb_strings;
  control_data_callback := control_data;
  ep_data_callback := Some endpoint_data;
  reset_callback := Some reset;
  iso_in_callback := None |}.

(** ** Main loop *)

(** [%d] of a [uint32_t]: its bits as a signed number. *)
Definition percent_d (v : Z) : bytes :=
  if v <? 2 ^ 31 then Bulk.digits 10 v else 45 :: Bulk.digits 10 (2 ^ 32 - v).
Definition tick_message (counter : Z) : bytes := removelast (cstring "Tick "%string) ++ percent_d counter ++ [10].

(** One round of [while (!usbip_server_interrupted ())]: whether a tick was queued, and
    the bytes shown in hexadecimal, if any. *)
Definition main_round : M (host state) (bool * option bytes) :=
  let* s := gets dev in
  let* tick :=
    if DTR (cdc_state s) then
      modify (set_dev (set_tick_counter (u32 (tick_counter s + 1)) s));;
      let str := tick_message (tick_counter s) in
      in_lib (usbip_device_transmit other_thread 1 str (blen str))
    else ret false in
  let* th := in_lib (usbip_device_critical_section_enter other_thread) in
  let* s := gets dev in
  let* shown :=
    if 0 <? input_buffer_pos s then
      let* text := liftC (Bulk.print_input (Z.to_nat (input_buffer_pos s)) 0 (input_buffer s)) in
      modify (set_dev (set_input (input_buffer s) 0 s));;
      ret (Some text)
    else ret None in
  let* th := in_lib (usbip_device_critical_section_exit th) in
  ret (tick, shown).

Definition initial_state : state := {|
  cdc_state := {| DTR := false; RTS := false; baudrate := 0; char_format := 0; parity := 0; data_bits := 0 |};
  input_buffer := replicate (Z.to_nat INPUT_BUFFER_LENGTH) 0;
  input_buffer_pos := 0;
  tick_counter := 0 |}.

Definition inv (s : state) : Prop :=
  blen (input_buffer s) = INPUT_BUFFER_LENGTH ∧ 0 ≤ input_buffer_pos s ≤ INPUT_BUFFER_LENGTH
  ∧ Forall is_byte (input_buffer s) ∧ 0 ≤ tick_counter s < 2 ^ 32.

(** What the host sent since the last round. *)
Definition received (s : state) : bytes := take (Z.to_nat (input_buffer_pos s)) (input_buffer s).

Definition initial_host : host state :=
  {| dev := initial_state; lib := initial_device_state;
     clk := {| readings := []; last_reading := {| tv_sec := 0; tv_nsec := 0 |} |} |}.

(** ** Reference *)

(** The SET_LINE_CODING data: the rate in little endian, stop bits, parity, data bits. *)
Definition line_coding (rate stop par bits : Z) : bytes := le_bytes 4 rate ++ [stop; par; bits].

(** The input after a sequence of OUT transfers: each is taken whole or, where it does
    not fit any more, not at all. *)
Fixpoint collect (input : bytes) (packets : list bytes) : bytes :=
  match packets with
  | [] => input
  | p :: packets => collect (if blen input + blen p <=? INPUT_BUFFER_LENGTH then input ++ p else input) packets
  end.

(** The documentation (docs/usb_cdc_device.md) says that the bytes beyond 10 are dropped.
    The code drops the whole transfer that does not fit, and may take a later one. *)
Definition documented_input (input : bytes) (packets : list bytes) : bytes :=
  take (Z.to_nat INPUT_BUFFER_LENGTH) (input ++ concat packets).

Fixpoint receive_all (packets : list bytes) : M (host state) unit :=
  match packets with
  | [] => ret tt
  | p :: packets => usbip_device_receive cdc_device 1 p (blen p);; receive_all packets
  end.

(** * Theorems *)

Lemma cdc_endpoint_data_step ep data len h :
  inv (dev h) → data_ok data len →
  ∃ s', endpoint_data ep data len h = Ok tt (set_dev s' h) ∧ inv s'
    ∧ (cdc_state s' = cdc_state (dev h) ∧ tick_counter s' = tick_counter (dev h))
    ∧ received s' = if input_buffer_pos (dev h) + len <=? INPUT_BUFFER_LENGTH
                    then received (dev h) ++ take (Z.to_nat len) data else received (dev h).
Proof.
  intros (Hl & Hp & Hb & Ht) [Hdb Hd]. unfold endpoint_data, bind, gets.
  destruct (Z.leb_spec (input_buffer_pos (dev h) + len) INPUT_BUFFER_LENGTH).
  - destruct (memcpy_append (input_buffer (dev h)) data (input_buffer_pos (dev h)) len)
      as (buffer & -> & Hbl & Hbuf & HF); [lia..|].
    eexists. split; [reflexivity|]. unfold inv, received. cbn [input_buffer input_buffer_pos set_input cdc_state tick_counter].
    split; [|done]. split; [congruence|]. split; [lia|]. split; [by apply HF|done].
  - exists (dev h). split; [by destruct h|]. done.
Qed.

#[global] Instance cdc_sound : DeviceSound inv cdc_device.
Proof.
  apply device_sound; [vm_compute; reflexivity|..]; [| | |done].
  - intros setup data len Hs Hb [_ Hlen] h [HI Hwf] _. change (control_data_callback cdc_device) with control_data.
    unfold control_data. wp_byte req _.
    do 2 wp_byte ? _. apply wp_bind, wp_gets.
    destruct (req =? _); [destruct (Z.eqb_spec len 7); [|by apply wp_ret]|destruct (req =? _); [|by apply wp_ret]].
    + do 7 wp_byte ? _. by apply wp_modify.
    + by apply wp_modify.
  - intros callback ep data len [= <-] Hd h [HI Hwf] _.
    destruct (cdc_endpoint_data_step ep data len h HI Hd) as (s' & Hs & HI' & _). unfold wp. rewrite Hs. done.
  - intros callback [= <-] h [(Hl & _ & Hb & Ht) Hwf] _. apply wp_modify. split; [done|]. split; [|done].
    split; [|done]. split; [exact Hl|]. split; [done|]. done.
Qed.

#[global] Instance cdc_silent : SilentDevice cdc_device.
Proof.
  constructor; [intros; cbn; unfold control_data|intros callback ep data len [= <-]; unfold endpoint_data|intros callback [= <-]; unfold reset|done];
    keeps.
Qed.

Lemma cdc_inv_initial : inv initial_state.
Proof. split; [done|]. split; [done|]. split; [by apply Forall_replicate|done]. Qed.

Lemma cdc_host_idle : host_idle inv initial_host.
Proof. split; [split; [apply cdc_inv_initial|apply wf_initial_device_state]|done]. Qed.

Lemma line_rate_le rate : 0 ≤ rate < 2 ^ 32 →
  ∃ d0 d1 d2 d3, le_bytes 4 rate = [d0; d1; d2; d3] ∧ line_rate d0 d1 d2 d3 = rate.
Proof.
  intros Hr. pose proof (of_le_le_bytes 4 rate) as Hle. pose proof (le_bytes_length 4 rate) as Hlen.
  pose proof (le_bytes_byte 4 rate) as Hb.
  destruct (le_bytes 4 rate) as [|d0 [|d1 [|d2 [|d3 [|??]]]]]; try done; try (specialize (Hlen ltac:(lia)); cbn in Hlen; lia).
  exists d0, d1, d2, d3. split; [done|]. specialize (Hle ltac:(lia)).
  rewrite Z.mod_small in Hle by lia. rewrite <-Hle at 1. unfold line_rate, u32.
  assert (Z.lor (Z.lor (Z.lor (Z.shiftl d3 24) (Z.shiftl d2 16)) (Z.shiftl d1 8)) d0 = of_le [d0; d1; d2; d3]) as Heq.
  { unfold of_le. cbn [little_endian_to_Z]. rewrite Z.shiftl_0_l, Z.lor_0_r, !Z.shiftl_lor, !Z.shiftl_shiftl by lia.
    cbn [Z.add]. rewrite (Z.lor_comm _ d0), (Z.lor_comm _ (Z.shiftl d1 8)), (Z.lor_comm (Z.shiftl d3 24)). done. }
  rewrite Heq, Hle. apply Z.mod_small. lia.
Qed.

(** ** Line coding *)

(** The line coding a terminal program sets is the one the device has afterwards: the four
    bytes of the rate and the three parameters arrive in the fields they encode, for every
    32 bit rate, and the line state is untouched. *)
Theorem line_coding_is_stored rate stop par bits rest h :
  host_idle inv h → 0 ≤ rate < 2 ^ 32 → is_byte stop → is_byte par → is_byte bits →
  ∃ h', usbip_device_control cdc_device [0x21; CDC_SET_LINE_CODING; 0; 0; 0; 0; 7; 0]
          (line_coding rate stop par bits ++ rest) 7 h = Ok true h'
    ∧ host_idle inv h'
    ∧ cdc_state (dev h') = {| DTR := DTR (cdc_state (dev h)); RTS := RTS (cdc_state (dev h)); baudrate := rate;
                              char_format := stop; parity := par; data_bits := bits |}.
Proof.
  intros Hh Hrate Hstop Hpar Hbits. destruct (line_rate_le rate Hrate) as (d0 & d1 & d2 & d3 & Hle & Hline).
  set (c := {| DTR := DTR (cdc_state (dev h)); RTS := RTS (cdc_state (dev h)); baudrate := rate;
               char_format := stop; parity := par; data_bits := bits |}).
  pose proof (device_control_wp inv cdc_device [0x21; CDC_SET_LINE_CODING; 0; 0; 0; 0; 7; 0]
    (line_coding rate stop par bits ++ rest) 7 0x21 h (λ h2, cdc_state (dev h2) = c) Hh eq_refl eq_refl) as H.
  apply wp_never_Ok in H as (supported & h' & Hrun & -> & Hh' & h2 & Hc & Hdev & _).
  - exists h'. split; [exact Hrun|]. split; [done|]. by rewrite Hdev.
  - intros h1 [HI Hwf] _ Hdev1 _. change (control_data_callback cdc_device) with control_data.
    unfold control_data, line_coding. rewrite Hle. cbn [app]. do 3 apply wp_bind, wp_liftC, cwp_ret. apply wp_bind, wp_gets.
    do 7 apply wp_bind, wp_liftC, cwp_ret. apply wp_modify. rewrite Hline. split; [done|]. split; [done|].
    cbn [dev set_dev set_cdc_state cdc_state]. by rewrite Hdev1.
Qed.

Lemma line_coding_is_stored_witness :
  ∃ h', usbip_device_control cdc_device [0x21; 0x20; 0; 0; 0; 0; 7; 0] (line_coding 115200 0 0 8 ++ []) 7 initial_host = Ok true h'
    ∧ baudrate (cdc_state (dev h')) = 115200.
Proof.
  destruct (line_coding_is_stored 115200 0 0 8 [] initial_host) as (h' & H1 & _ & H2).
  - apply cdc_host_idle.
  - split; [discriminate|reflexivity].
  - split; [discriminate|reflexivity].
  - split; [discriminate|reflexivity].
  - split; [discriminate|reflexivity].
  - exists h'. split; [exact H1|]. rewrite H2. reflexivity.
Defined.

(** ** Input and ticks *)

Lemma received_blen s : inv s → blen (received s) = input_buffer_pos s.
Proof. intros (Hl & Hp & _). unfold received. rewrite blen_take by lia. lia. Qed.

Lemma receive_step p h :
  host_idle inv h → Forall is_byte p →
  ∃ h', usbip_device_receive cdc_device 1 p (blen p) h = Ok tt h' ∧ host_idle inv h' ∧ abs (lib h') = abs (lib h)
    ∧ (cdc_state (dev h') = cdc_state (dev h) ∧ tick_counter (dev h') = tick_counter (dev h))
    ∧ received (dev h') = collect (received (dev h)) [p].
Proof.
  intros [[HI Hwf] Hl] Hp. unfold usbip_device_receive. cbn [ep_data_callback cdc_device].
  unfold bind, in_lib, zoom, lock_receive. rewrite Hl. pose proof (blen_nonneg p).
  destruct (cdc_endpoint_data_step 1 p (blen p) (set_lib (set_receive_lock true (lib h)) h)) as (s' & Hs & HI' & Hc & Hr);
    [done|by split; [|lia]|]. rewrite Hs. eexists. split; [reflexivity|].
  split; [split; [split; [exact HI'|]|done]|]. { destruct Hwf. by constructor. }
  split; [done|]. split; [exact Hc|]. cbn [dev set_dev set_lib] in *. rewrite Hr. cbn [collect].
  rewrite received_blen by done. unfold blen. rewrite Nat2Z.id. by rewrite firstn_all.
Qed.

Lemma receive_all_spec packets h :
  host_idle inv h → Forall (Forall is_byte) packets →
  ∃ h', receive_all packets h = Ok tt h' ∧ host_idle inv h' ∧ abs (lib h') = abs (lib h)
    ∧ (cdc_state (dev h') = cdc_state (dev h) ∧ tick_counter (dev h') = tick_counter (dev h))
    ∧ received (dev h') = collect (received (dev h)) packets.
Proof.
  intros Hh HF. revert h Hh. induction HF as [|p packets Hp _ IH]; intros h Hh; [by exists h|].
  destruct (receive_step p h Hh Hp) as (h1 & H1 & Hh1 & Ha1 & Hc1 & Hr1).
  destruct (IH h1 Hh1) as (h2 & H2 & Hh2 & Ha2 & Hc2 & Hr2). exists h2.
  cbn [receive_all]. unfold bind. rewrite H1. split; [exact H2|]. split; [done|]. split; [congruence|]. split; [naive_solver congruence|].
  rewrite Hr2, Hr1. reflexivity.
Qed.

Lemma percent_d_ok v : 0 ≤ v < 2 ^ 32 → Forall is_byte (percent_d v) ∧ (length (percent_d v) ≤ 11)%nat.
Proof.
  intros Hv. unfold percent_d. destruct (v <? 2 ^ 31).
  - pose proof (Bulk.digits_length 10 v). split; [apply Bulk.digits_byte; lia|lia].
  - pose proof (Bulk.digits_length 10 (2 ^ 32 - v)). split; [|cbn [length]; lia].
    constructor; [done|]. apply Bulk.digits_byte. lia.
Qed.

Lemma tick_message_ok v : 0 ≤ v < 2 ^ 32 →
  Forall is_byte (tick_message v) ∧ blen (tick_message v) ≤ 99 ∧ tick_message v ≠ [].
Proof.
  intros Hv. destruct (percent_d_ok v Hv) as [Hb Hl]. unfold tick_message. split; [|split; [|done]].
  - apply Forall_app. split; [by repeat constructor|]. apply Forall_app. split; [done|by repeat constructor].
  - rewrite !blen_app. change (blen (removelast _)) with 5. unfold blen. cbn [length]. lia.
Qed.

#[local] Opaque tick_message usbip_device_transmit.

(** While everything fits nothing is lost. *)
Lemma collect_all input packets :
  blen (input ++ concat packets) ≤ INPUT_BUFFER_LENGTH → collect input packets = input ++ concat packets.
Proof.
  revert input. induction packets as [|p packets IH]; intros input; cbn [concat collect]; [by rewrite app_nil_r|].
  rewrite !blen_app. pose proof (blen_nonneg (concat packets)). intros Hfit. rewrite (proj2 (Z.leb_le _ _)) by lia.
  rewrite IH, <-app_assoc; [done|]. rewrite !blen_app. lia.
Qed.

Lemma overflowing_transfer_is_dropped_whole :
  collect [] [[1; 2; 3; 4; 5; 6]; [7; 8; 9; 10; 11]; [12]] = [1; 2; 3; 4; 5; 6; 12]
  ∧ documented_input [] [[1; 2; 3; 4; 5; 6]; [7; 8; 9; 10; 11]; [12]] = [1; 2; 3; 4; 5; 6; 7; 8; 9; 10].
Proof. split; reflexivity. Qed.

(** The second half of a round: show what was received and empty the buffer. *)
Definition show_input : M (host state) (option bytes) :=
  let* th := in_lib (usbip_device_critical_section_enter other_thread) in
  let* s := gets dev in
  let* shown :=
    if 0 <? input_buffer_pos s then
      let* text := liftC (Bulk.print_input (Z.to_nat (input_buffer_pos s)) 0 (input_buffer s)) in
      modify (set_dev (set_input (input_buffer s) 0 s));;
      ret (Some text)
    else ret None in
  let* th := in_lib (usbip_device_critical_section_exit th) in
  ret shown.

Definition shown_of (input : bytes) : option bytes := if decide (input = []) then None else Some input.

Lemma show_input_spec h :
  host_idle inv h →
  ∃ h', show_input h = Ok (shown_of (received (dev h))) h' ∧ host_idle inv h' ∧ abs (lib h') = abs (lib h)
    ∧ received (dev h') = [] ∧ tick_counter (dev h') = tick_counter (dev h).
Proof.
  intros [[HI Hwf] Hl]. pose proof (received_blen (dev h) HI) as Hlen. pose proof HI as (Hbl & Hp & Hb & Ht).
  unfold show_input, bind, in_lib, zoom, usbip_device_critical_section_enter, bind, lock_receive. rewrite Hl.
  cbn [ret gets dev set_lib]. destruct (Z.ltb_spec 0 (input_buffer_pos (dev h))) as [Hpos|Hpos].
  - rewrite Bulk.print_input_spec by lia. cbn [liftC modify ret]. rewrite drop_0. fold (received (dev h)).
    unfold shown_of. rewrite decide_False by (intros E; rewrite E in Hlen; unfold blen in Hlen; cbn [length] in Hlen; lia).
    eexists. split; [reflexivity|].
    split; [split; [split; [|destruct Hwf; by constructor]|done]|by split].
    split; [done|]. split; [done|]. by split.
  - assert (received (dev h) = []) as E by (destruct (received (dev h)); [done|unfold blen in Hlen; cbn in Hlen; lia]).
    unfold shown_of. rewrite decide_True by done. cbn [ret]. eexists. split; [reflexivity|]. split; [split; [split; [done|destruct Hwf; by constructor]|done]|by split].
Qed.

Lemma main_round_split :
  ∀ h, main_round h =
    (let* s := gets dev in
     let* tick :=
       if DTR (cdc_state s) then
         modify (set_dev (set_tick_counter (u32 (tick_counter s + 1)) s));;
         in_lib (usbip_device_transmit other_thread 1 (tick_message (tick_counter s)) (blen (tick_message (tick_counter s))))
       else ret false in
     let* shown := show_input in ret (tick, shown)) h.
Proof.
  intros h. unfold main_round, show_input, bind, gets. destruct (if DTR (cdc_state (dev h)) then _ else _) as [tick h1|h1|]; try done.
  destruct (in_lib (usbip_device_critical_section_enter other_thread) h1) as [th h2|h2|]; try done.
  destruct (if 0 <? input_buffer_pos (dev h2) then _ else _) as [shown h3|h3|]; try done.
Qed.

(** C34: the terminal: whatever OUT transfers arrived since the last round, the round shows the
    bytes of those that fitted into the buffer, whole and in order, and empties it: all
    bytes as long as they are 10 at most; a transfer that does not fit any more is dropped
    whole, not only its bytes beyond the tenth as the documentation says. And the round
    queues one tick for the host, counting them, exactly while the host holds DTR. *)
Theorem terminal_round_shows_input_and_ticks packets h :
  host_idle inv h → Forall (Forall is_byte) packets → slot_of 1 (abs (lib h)) = [] → stopped (abs (lib h)) = false →
  let input := collect (received (dev h)) packets in
  let dtr := DTR (cdc_state (dev h)) in
  ∃ h', (receive_all packets;; main_round) h = Ok (dtr, shown_of input) h'
    ∧ host_idle inv h' ∧ received (dev h') = []
    ∧ (blen (received (dev h) ++ concat packets) ≤ INPUT_BUFFER_LENGTH → input = received (dev h) ++ concat packets)
    ∧ slot_of 1 (abs (lib h')) = (if dtr then tick_message (tick_counter (dev h)) else [])
    ∧ tick_counter (dev h') = if dtr then u32 (tick_counter (dev h) + 1) else tick_counter (dev h).
Proof.
  intros Hh HF Hslot Hst input dtr. destruct (receive_all_spec packets h Hh HF) as (h1 & H1 & Hh1 & Ha1 & [Hc1 Ht1] & Hr1).
  unfold bind at 1. rewrite H1, main_round_split. unfold bind at 1. cbn [gets]. rewrite Hc1. fold dtr.
  assert (∃ h2, (if dtr then
         modify (set_dev (set_tick_counter (u32 (tick_counter (dev h1) + 1)) (dev h1)));;
         in_lib (usbip_device_transmit other_thread 1 (tick_message (tick_counter (dev h1))) (blen (tick_message (tick_counter (dev h1)))))
       else ret false) h1 = Ok dtr h2 ∧ host_idle inv h2 ∧ received (dev h2) = input
      ∧ slot_of 1 (abs (lib h2)) = (if dtr then tick_message (tick_counter (dev h)) else [])
      ∧ tick_counter (dev h2) = if dtr then u32 (tick_counter (dev h) + 1) else tick_counter (dev h))
    as (h2 & H2 & Hh2 & Hr2 & Hs2 & Ht2).
  { destruct dtr; [|exists h1; rewrite Ha1; done]. rewrite Ht1. unfold bind. cbn [modify].
    destruct Hh1 as [[(Hl & Hp & Hb & Ht) Hwf] Hlock]. rewrite Ht1 in Ht. destruct (tick_message_ok _ Ht) as (Hmb & Hml & _).
    set (msg := tick_message (tick_counter (dev h))) in *.
    destruct (transmit_free inv 1 msg (set_dev (set_tick_counter (u32 (tick_counter (dev h) + 1)) (dev h1)) h1))
      as (s2 & Hs2 & Hi2 & Hslot2 & _); [|done|done|unfold ENDPOINT_MAX_DATA_LENGTH; lia|by eauto 10].
    split; [|by cbn [lib set_dev]; rewrite Ha1]. split; [|done]. split; [|done]. do 3 (split; [done|]). by apply Z.mod_pos_bound. }
  unfold bind at 1. rewrite H2. unfold bind.
  destruct (show_input_spec h2 Hh2) as (h3 & H3 & Hh3 & Ha3 & Hr3 & Ht3). rewrite H3, Hr2.
  exists h3. split; [done|]. split; [done|]. split; [done|]. split; [apply collect_all|]. rewrite Ha3, Ht3. done.
Qed.

(** With a terminal open, three transfers of which the second does not fit. *)
Definition open_terminal : host state :=
  set_dev (set_cdc_state (set_lines true true (cdc_state initial_state)) initial_state) initial_host.

Lemma terminal_round_shows_input_and_ticks_witness :
  ∃ h', (receive_all [[1; 2; 3; 4; 5; 6]; [7; 8; 9; 10; 11]; [12]];; main_round) open_terminal =
          Ok (true, Some [1; 2; 3; 4; 5; 6; 12]) h'
    ∧ slot_of 1 (abs (lib h')) = tick_message 0.
Proof.
  destruct (terminal_round_shows_input_and_ticks [[1; 2; 3; 4; 5; 6]; [7; 8; 9; 10; 11]; [12]] open_terminal)
    as (h' & H1 & _ & _ & _ & H2 & _).
  - apply cdc_host_idle.
  - apply (bool_decide_eq_true_1 _). vm_compute. reflexivity.
  - vm_compute. reflexivity.
  - vm_compute. reflexivity.
  - exists h'. split; [exact H1|exact H2].
Defined.
End Cdc.
