(* ===== verification/Float.v ===== *)
(** * Floating-point arithmetic

    IEEE arithmetic on the [spec_float] of the Standard Library, for any precision and
    range: every operation the sources use, and the lemma that its result is a correctly
    placed rounding of the exact result, from which ranges of computed values follow.
    Operations are evaluated one by one in the precision of their type, as on the x86-64
    and arm64 hosts of the program. [Float32] and [Float64] are the C types. *)
From Stdlib Require Import SpecFloat QArith Qpower Qround Lqa.
From S2P Require Import Prelude.

(** ** Values and operations *)

(** The type of a format with [prec] bits of mantissa and exponents below [emax]. *)
Abbreviation float := spec_float.

Section format.
Context (prec emax : Z).

Definition fadd (x y : float) : float := SFadd prec emax x y.
Definition fsub (x y : float) : float := SFsub prec emax x y.
Definition fmul (x y : float) : float := SFmul prec emax x y.
Definition fdiv (x y : float) : float := SFdiv prec emax x y.

(** [x > y]. *)
Definition fgt (x y : float) : bool := SFltb y x.

(** Conversion of an integer, [(float)n]. *)
Definition float_of_Z (n : Z) : float := binary_normalize prec emax n 0 false.

(** Conversion from another format. *)
Definition fconvert (x : float) : float :=
  match x with S754_finite s m e => binary_round prec emax s m e | _ => x end.

(** The literal [n / d] in single precision, for positive [n] and [d]. *)
Definition literal (n d : positive) : float :=
  let '(m, e, l) := SFdiv_core_binary prec emax (Zpos n) 0 (Zpos d) 0 in binary_round_aux prec emax false m e l.

(** [(int16_t)x]: towards zero; undefined when the result does not fit. *)
Definition trunc (x : float) : option Z :=
  match x with
  | S754_zero _ => Some 0
  | S754_finite s m e => Some (cond_Zopp s (if 0 <=? e then Zpos m * 2 ^ e else Zpos m / 2 ^ (- e)))
  | _ => None
  end.

Definition int16_of_float (x : float) : option Z :=
  match trunc x with
  | Some z => if (-32768 <=? z) && (z <=? 32767) then Some z else None
  | None => None
  end.

(** ** Meaning *)

(** A number: neither an infinity nor a NaN, and in the normal form of the format. *)
Definition is_num (x : float) : Prop :=
  match x with
  | S754_zero _ => True
  | S754_finite _ m e => bounded prec emax m e = true
  | _ => False
  end.

Definition pow2 (e : Z) : Q := Qpower 2 e.

Definition val (x : float) : Q :=
  match x with
  | S754_finite s m e => inject_Z (cond_Zopp s (Zpos m)) * pow2 e
  | _ => 0
  end.

Definition max_num : float := S754_finite false (Z.to_pos (2 ^ prec - 1)) (emax - prec).

(** [r] is a rounding of [v]: no number of the format lies between them. *)
Definition rounds (v : Q) (r : float) : Prop :=
  is_num r ∧ (∀ b, is_num b → (v <= val b)%Q → (val r <= val b)%Q)
  ∧ (∀ a, is_num a → (val a <= v)%Q → (val a <= val r)%Q).

(** [x] is a number between two rationals. *)
Definition within (lo hi : Q) (x : float) : Prop := is_num x ∧ (lo <= val x <= hi)%Q.

(** * Theorems *)

(** All formats in use have more. *)
Hypothesis prec_pos : 1 < prec.
Hypothesis prec_emax : prec + 2 < emax.

#[export] Instance Qle_preorder : PreOrder Qle.
Proof. split; [exact Qle_refl|exact Qle_trans]. Qed.

(** ** Powers of two and digits *)

Lemma pow2_pos e : (0 < pow2 e)%Q.
Proof. by apply Qpower_0_lt. Qed.

Lemma pow2_add a b : (pow2 (a + b) == pow2 a * pow2 b)%Q.
Proof. by apply Qpower_plus. Qed.

Lemma inject_nonneg n : 0 ≤ n → (0 <= inject_Z n)%Q.
Proof. rewrite Zle_Qle. done. Qed.

Lemma inject_pos_inv n : (0 < inject_Z n)%Q → 0 < n.
Proof. rewrite Zlt_Qlt. done. Qed.

Lemma pow2_Z n : 0 ≤ n → (inject_Z (2 ^ n) == pow2 n)%Q.
Proof. intros Hn. by rewrite Zpower_Qpower. Qed.

Lemma pow2_succ e : (pow2 (e + 1) == 2 * pow2 e)%Q.
Proof. rewrite pow2_add. change (pow2 1) with (2 # 1)%Q. lra. Qed.

Lemma pow2_le a b : a ≤ b → (pow2 a <= pow2 b)%Q.
Proof. intros H. apply Qpower_le_compat_l; [done|lra]. Qed.

Lemma pow2_lt_inv a b : (pow2 a < pow2 b)%Q → a < b.
Proof. intros H. apply (Qpower_lt_compat_l_inv 2); [done|lra]. Qed.

(** A mantissa at a smaller exponent. *)
Lemma rescale m e e' : e' ≤ e → (inject_Z m * pow2 e == inject_Z (m * 2 ^ (e - e')) * pow2 e')%Q.
Proof.
  intros H. rewrite inject_Z_mult, pow2_Z by lia. rewrite <-Qmult_assoc, <-pow2_add. by replace (e - e' + e') with e by lia.
Qed.

Lemma scale_le m n e : m ≤ n → (inject_Z m * pow2 e <= inject_Z n * pow2 e)%Q.
Proof. intros H. apply Qmult_le_r; [apply pow2_pos|]. by rewrite <-Zle_Qle. Qed.

Lemma scale_nonneg m e : 0 ≤ m → (0 <= inject_Z m * pow2 e)%Q.
Proof. intros H. apply (scale_le 0 m e) in H. by rewrite Qmult_0_l in H. Qed.

Lemma scale_le_inv m n e : (inject_Z m * pow2 e <= inject_Z n * pow2 e)%Q → m ≤ n.
Proof. intros H. apply Qmult_le_r in H; [|apply pow2_pos]. by rewrite Zle_Qle. Qed.

Lemma scale_lt m n e : m < n → (inject_Z m * pow2 e < inject_Z n * pow2 e)%Q.
Proof. intros H. apply Qmult_lt_r; [apply pow2_pos|]. by rewrite <-Zlt_Qlt. Qed.

Lemma scale_lt_inv m n e : (inject_Z m * pow2 e < inject_Z n * pow2 e)%Q → m < n.
Proof. intros H. apply Qmult_lt_r in H; [|apply pow2_pos]. by rewrite Zlt_Qlt. Qed.

Lemma digits2_pos_bounds p : 2 ^ (Zpos (digits2_pos p) - 1) ≤ Zpos p < 2 ^ Zpos (digits2_pos p).
Proof.
  induction p as [p IH|p IH|]; cbn [digits2_pos]; [..|done]; rewrite Pos2Z.inj_succ; rewrite Z.pow_succ_r by lia;
    replace (Z.succ (Zpos (digits2_pos p)) - 1) with (Z.succ (Zpos (digits2_pos p) - 1)) by lia; rewrite Z.pow_succ_r by lia; lia.
Qed.

Lemma digits2_unique p d : 2 ^ (d - 1) ≤ Zpos p < 2 ^ d → Zpos (digits2_pos p) = d.
Proof.
  intros [H1 H2]. destruct (digits2_pos_bounds p) as [H3 H4].
  assert (d - 1 < Zpos (digits2_pos p)) by (apply (Z.pow_lt_mono_r_iff 2); [lia|lia|]; lia).
  assert (0 ≤ d) by (destruct (Z.neg_nonneg_cases d); [rewrite Z.pow_neg_r in H2 by done|]; lia).
  assert (Zpos (digits2_pos p) - 1 < d) by (apply (Z.pow_lt_mono_r_iff 2); [lia|lia|]; lia). lia.
Qed.

(** ** Shifting a mantissa to the right *)

(** [v] is [m] units of [2 ^ e], or lies strictly between [m] and [m + 1] of them. *)
Definition near (v : Q) (m e : Z) (exact : bool) : Prop :=
  if exact then (v == inject_Z m * pow2 e)%Q
  else (inject_Z m * pow2 e < v /\ v < inject_Z (m + 1) * pow2 e)%Q.

Definition near_record (v : Q) (r : shr_record) (e : Z) : Prop :=
  0 ≤ shr_m r ∧ near v (shr_m r) e (negb (shr_r r || shr_s r)).

Lemma near_halve v m b e exact :
  near v (2 * m + Z.b2z b) e exact → near v m (e + 1) (exact && negb b).
Proof.
  unfold near. pose proof (pow2_pos e) as Hp. pose proof (pow2_succ e) as Hs.
  destruct exact, b; cbn [Z.b2z negb andb]; rewrite ?Z.add_0_r, ?inject_Z_plus, ?inject_Z_mult;
    change (inject_Z 2) with (2 # 1)%Q; change (inject_Z 1) with (1 # 1)%Q; intros H;
    try (match type of H with _ /\ _ => destruct H end); try split; rewrite ?Hs; nra.
Qed.

Lemma near_shr_1 v r e : near_record v r e → near_record v (shr_1 r) (e + 1).
Proof.
  destruct r as [m r s]. unfold near_record. cbn [shr_m shr_r shr_s]. intros [Hm Hn].
  assert (∃ m' b, m = 2 * m' + Z.b2z b ∧ 0 ≤ m' ∧ shr_1 (Build_shr_record m r s) = Build_shr_record m' b (r || s))
    as (m' & b & -> & Hm' & ->).
  { destruct m as [|[p|p|]|]; [..|lia]; cbn.
    - by exists 0, false.
    - by exists (Zpos p), true.
    - by exists (Zpos p), false.
    - by exists 0, true. }
  cbn [shr_m shr_r shr_s]. split; [done|]. apply near_halve in Hn. by destruct b, r, s.
Qed.

Lemma near_shr_pos v r e p : near_record v r e → near_record v (SpecFloat.iter_pos shr_1 p r) (e + Zpos p).
Proof.
  revert r e. induction p as [p IH|p IH|]; intros r e Hr; cbn [SpecFloat.iter_pos].
  - replace (e + Zpos p~1) with (e + 1 + Zpos p + Zpos p) by lia. by apply IH, IH, near_shr_1.
  - replace (e + Zpos p~0) with (e + Zpos p + Zpos p) by lia. by apply IH, IH.
  - by apply near_shr_1.
Qed.

Lemma near_shr v r e n :
  near_record v r e → 0 ≤ n → (shr r e n).2 = e + n ∧ near_record v (shr r e n).1 (e + n).
Proof. intros Hr Hn. destruct n; [|by split; [|apply near_shr_pos]|lia]. cbn. by rewrite Z.add_0_r. Qed.

Definition is_exact (l : location) : bool := match l with loc_Exact => true | loc_Inexact _ => false end.

Lemma near_record_of_loc v m e l : 0 ≤ m → near v m e (is_exact l) → near_record v (shr_record_of_loc m l) e.
Proof. intros Hm Hn. by destruct l as [|[]]. Qed.

Lemma exact_of_record r : is_exact (loc_of_shr_record r) = negb (shr_r r || shr_s r).
Proof. by destruct r as [? [] []]. Qed.

(** Rounding a mantissa never passes a multiple of its unit. *)
Lemma round_between v m e l k :
  near v m e (is_exact l) →
  ((v <= inject_Z k * pow2 e)%Q → round_nearest_even m l ≤ k) ∧ ((inject_Z k * pow2 e <= v)%Q → k ≤ round_nearest_even m l).
Proof.
  intros Hn. assert (m ≤ round_nearest_even m l ≤ m + (if is_exact l then 0 else 1)) as Hr
    by (destruct l as [|[]]; cbn; repeat case_match; lia).
  unfold near in Hn. destruct (is_exact l).
  - split; intros H; rewrite Hn in H; apply scale_le_inv in H; lia.
  - destruct Hn as [H1 H2]. split; intros H.
    + assert (m < k) by (apply (scale_lt_inv _ _ e); by eapply Qlt_le_trans). lia.
    + assert (k < m + 1) by (apply (scale_lt_inv _ _ e); by eapply Qle_lt_trans). lia.
Qed.

(** ** The format *)

Lemma bounded_spec m e :
  bounded prec emax m e = true ↔ 3 - emax - prec ≤ e ≤ emax - prec ∧ Zpos m < 2 ^ prec ∧ (e = 3 - emax - prec ∨ 2 ^ (prec - 1) ≤ Zpos m).
Proof.
  unfold bounded, canonical_mantissa, fexp, emin. 
  rewrite andb_true_iff, Z.eqb_eq, Z.leb_le. destruct (digits2_pos_bounds m) as [H1 H2].
  set (d := Zpos (digits2_pos m)) in *. split.
  - intros [He Hm]. assert (d ≤ prec) as Hd by lia. split; [lia|]. split.
    + eapply Z.lt_le_trans; [exact H2|]. apply Z.pow_le_mono_r; lia.
    + destruct (decide (e = 3 - emax - prec)); [by left|right]. assert (d = prec) as Hd' by lia. rewrite Hd' in H1. lia.
  - intros (He & Hm & Hc). assert (d ≤ prec ∧ (e = 3 - emax - prec ∨ d = prec)) as [? ?]; [|lia].
    assert (d - 1 < prec) by (apply (Z.pow_lt_mono_r_iff 2); lia). split; [lia|].
    destruct Hc as [Hc|Hc]; [by left|right]. assert (prec - 1 < d) by (apply (Z.pow_lt_mono_r_iff 2); lia). lia.
Qed.

Lemma near_ge v m e x : near v m e x → (inject_Z m * pow2 e <= v)%Q.
Proof. unfold near. destruct x; [intros H; rewrite H; lra|intros [H _]; lra]. Qed.

Lemma near_lt v m e x : near v m e x → (v < inject_Z (m + 1) * pow2 e)%Q.
Proof. unfold near. destruct x; [intros H; rewrite H; apply scale_lt; lia|intros [_ H]; exact H]. Qed.

Lemma pow2_prec : 2 ^ prec = 2 * 2 ^ (prec - 1) ∧ 1 < 2 ^ (prec - 1).
Proof. split; [rewrite <-Z.pow_succ_r by lia; f_equal; lia|]. apply Z.pow_gt_1; lia. Qed.

Definition digits (m : Z) : Z := Zdigits2 m.

Lemma digits_bounds m : 0 < m → 2 ^ (digits m - 1) ≤ m < 2 ^ digits m.
Proof. destruct m; [lia| |lia]. intros _. apply digits2_pos_bounds. Qed.

Lemma digits_nonneg m : 0 ≤ digits m.
Proof. by destruct m. Qed.

(** The exponent a value is rounded at. *)
Definition unit_exp (m e : Z) : Z := fexp prec emax (digits m + e).

Lemma unit_exp_max m e : unit_exp m e = Z.max (digits m + e - prec) (3 - emax - prec).
Proof. done. Qed.

Lemma max_mantissa : Zpos (Z.to_pos (2 ^ prec - 1)) = 2 ^ prec - 1.
Proof. destruct pow2_prec. apply Z2Pos.id. lia. Qed.

Lemma max_num_bounded : bounded prec emax (Z.to_pos (2 ^ prec - 1)) (emax - prec) = true.
Proof. destruct pow2_prec. apply bounded_spec. rewrite max_mantissa. lia. Qed.

Lemma max_num_lt : (val max_num < pow2 emax)%Q.
Proof.
  unfold max_num, val, cond_Zopp. rewrite max_mantissa. replace emax with (prec + (emax - prec)) at 2 by lia.
  rewrite pow2_add, <-(pow2_Z prec) by lia. apply scale_lt. lia.
Qed.

Lemma max_num_ge : (inject_Z (2 ^ prec) <= val max_num)%Q.
Proof.
  destruct pow2_prec as [Hpp Hp1]. unfold max_num, val, cond_Zopp. rewrite max_mantissa, (rescale _ (emax - prec) 0) by lia.
  change (pow2 0) with 1%Q. rewrite Qmult_1_r, <-Zle_Qle. pose proof (Z.pow_le_mono_r 2 1 (emax - prec - 0)). nia.
Qed.

(** Two to the [emax] is out of range. *)
Lemma rounded_in_range m1 e1 :
  2 ^ (prec - 1) ≤ m1 → (inject_Z m1 * pow2 e1 <= val max_num)%Q → e1 ≤ emax - prec.
Proof.
  intros Hm H. destruct (Z.le_gt_cases e1 (emax - prec)) as [|He]; [done|]. exfalso.
  pose proof max_num_lt as Hmax. apply (Qlt_irrefl (pow2 emax)).
  eapply Qle_lt_trans; [|exact Hmax]. etransitivity; [|exact H]. transitivity (inject_Z (2 ^ (prec - 1)) * pow2 e1)%Q; [|by apply scale_le].
  rewrite pow2_Z, <-pow2_add by lia. apply pow2_le. lia.
Qed.

Lemma shr_fexp_small m1 e1 :
  0 ≤ m1 < 2 ^ prec → 3 - emax - prec ≤ e1 → shr_fexp prec emax m1 e1 loc_Exact = (Build_shr_record m1 false false, e1).
Proof.
  intros Hm He. unfold shr_fexp. assert (fexp prec emax (digits m1 + e1) - e1 ≤ 0) as Hn.
  { change (unit_exp m1 e1 - e1 ≤ 0). rewrite unit_exp_max. assert (digits m1 ≤ prec); [|lia].
    destruct (decide (m1 = 0)) as [->|Hne]; [cbn; lia|]. destruct (digits_bounds m1) as [H _]; [lia|].
    assert (digits m1 - 1 < prec); [|lia]. apply (Z.pow_lt_mono_r_iff 2); lia. }
  change (Zdigits2 m1) with (digits m1). unfold shr. destruct (fexp prec emax (digits m1 + e1) - e1); [by destruct m1|lia|by destruct m1].
Qed.

(** A mantissa rounded up to a power of two. *)
Lemma shr_fexp_carry e1 :
  3 - emax - prec ≤ e1 →
  shr_fexp prec emax (2 ^ prec) e1 loc_Exact = (Build_shr_record (2 ^ (prec - 1)) false false, e1 + 1).
Proof.
  intros He. destruct pow2_prec as [Hpp Hp1]. assert (digits (2 ^ prec) = prec + 1) as Hd.
  { destruct (2 ^ prec) as [|q|q] eqn:Hq; [lia| |lia]. apply digits2_unique. rewrite <-Hq.
    replace (prec + 1 - 1) with prec by lia. split; [lia|]. apply Z.pow_lt_mono_r; lia. }
  unfold shr_fexp. change (fexp prec emax (Zdigits2 (2 ^ prec) + e1)) with (unit_exp (2 ^ prec) e1).
  rewrite unit_exp_max, Hd. replace (Z.max (prec + 1 + e1 - prec) (3 - emax - prec) - e1) with 1 by lia.
  rewrite Hpp. by destruct (2 ^ (prec - 1)) as [|q|q]; [lia| |lia].
Qed.

Definition signed (sx : bool) (m1 e1 : Z) : float :=
  match m1 with Zpos p => S754_finite sx p e1 | _ => S754_zero sx end.

Section rounding.
Context (v : Q) (m e : Z) (l : location).
Hypothesis m_nonneg : 0 ≤ m.
Hypothesis v_near : near v m e (is_exact l).
Hypothesis enough_digits : e ≤ unit_exp m e.
Hypothesis no_overflow : (v <= val max_num)%Q.

Let u := unit_exp m e.

(** Where [v] lies among the powers of two. *)
Lemma v_lt_pow : (v < pow2 (prec + u))%Q.
Proof.
  eapply Qlt_le_trans; [exact (near_lt _ _ _ _ v_near)|]. pose proof (unit_exp_max m e) as Hu. fold u in Hu.
  pose proof (digits_nonneg m) as Hd.
  assert (m + 1 ≤ 2 ^ digits m) as Hm.
  { destruct (decide (m = 0)) as [->|Hne]; [done|]. destruct (digits_bounds m); lia. }
  transitivity (inject_Z (2 ^ digits m) * pow2 e)%Q; [by apply scale_le|].
  rewrite pow2_Z, <-pow2_add by lia. apply pow2_le. lia.
Qed.

Lemma v_ge_pow : 3 - emax - prec < u → (pow2 (prec - 1 + u) <= v)%Q.
Proof.
  intros Hu. pose proof (unit_exp_max m e) as Hm. fold u in Hm. destruct (decide (m = 0)) as [->|Hne].
  { cbn in Hm. fold u in enough_digits. lia. }
  destruct (digits_bounds m) as [H1 _]; [lia|]. pose proof (digits_nonneg m).
  assert (0 < digits m) by (destruct m; [done|done|lia]).
  etransitivity; [|exact (near_ge _ _ _ _ v_near)]. replace (prec - 1 + u) with (digits m - 1 + e) by lia.
  rewrite pow2_add, <-pow2_Z by lia. by apply scale_le.
Qed.

(** A number of the format above [v] is a multiple of the unit. *)
Lemma above_is_multiple b be :
  bounded prec emax b be = true → (v <= inject_Z (Zpos b) * pow2 be)%Q → u ≤ be.
Proof.
  intros (Hbe & Hb & _)%bounded_spec Hv. destruct (Z.le_gt_cases u (3 - emax - prec)) as [Hu|Hu]; [lia|].
  assert (prec - 1 + u < prec + be); [|lia]. apply pow2_lt_inv. eapply Qle_lt_trans; [by apply v_ge_pow|].
  eapply Qle_lt_trans; [exact Hv|]. rewrite pow2_add, <-(pow2_Z prec) by lia. by apply scale_lt.
Qed.

(** A number below [v] that is not a multiple of the unit is below the binade of [v]. *)
Lemma below_is_small a ae :
  bounded prec emax a ae = true → ae < u → (inject_Z (Zpos a) * pow2 ae <= pow2 (prec - 1 + u))%Q.
Proof.
  intros (Hae & Ha & _)%bounded_spec Hu. transitivity (pow2 (prec + ae))%Q; [|apply pow2_le; lia].
  rewrite pow2_add, <-(pow2_Z prec) by lia. apply scale_le. lia.
Qed.

Lemma shr_fexp_near : ∃ r, shr_fexp prec emax m e l = (r, u) ∧ near_record v r u.
Proof.
  destruct (near_shr v (shr_record_of_loc m l) e (u - e)) as [H1 H2];
    [by apply near_record_of_loc|unfold u; lia|].
  replace (e + (u - e)) with u in * by lia. unfold shr_fexp. change (fexp prec emax (Zdigits2 m + e)) with u.
  destruct (shr _ _ _) as [r e']. cbn in *. subst. eauto.
Qed.

(** The rounded mantissa, before it is brought back to [prec] bits. *)
Lemma rounded_mantissa :
  ∃ r, shr_fexp prec emax m e l = (r, u)
    ∧ let m1 := round_nearest_even (shr_m r) (loc_of_shr_record r) in
      0 ≤ m1 ≤ 2 ^ prec ∧ (u = 3 - emax - prec ∨ 2 ^ (prec - 1) ≤ m1) ∧ ((v <= 0)%Q → m1 ≤ 0)
      ∧ (∀ b be, bounded prec emax b be = true → (v <= inject_Z (Zpos b) * pow2 be)%Q →
           (inject_Z m1 * pow2 u <= inject_Z (Zpos b) * pow2 be)%Q)
      ∧ (∀ a ae, bounded prec emax a ae = true → (inject_Z (Zpos a) * pow2 ae <= v)%Q →
           (inject_Z (Zpos a) * pow2 ae <= inject_Z m1 * pow2 u)%Q).
Proof.
  destruct shr_fexp_near as (r & Hr & Hm & Hn). exists r. split; [done|]. rewrite <-exact_of_record in Hn.
  set (m1 := round_nearest_even _ _).
  assert (∀ k, (v <= inject_Z k * pow2 u)%Q → m1 ≤ k) as Hup by (intros k; by apply round_between).
  assert (∀ k, (inject_Z k * pow2 u <= v)%Q → k ≤ m1) as Hlo by (intros k; by apply round_between).
  assert (3 - emax - prec < u → 2 ^ (prec - 1) ≤ m1) as H23.
  { intros Hu. apply Hlo. rewrite pow2_Z, <-pow2_add by lia. by apply v_ge_pow. }
  split; [|split; [|split; [|split]]].
  - split; [|apply Hup; rewrite pow2_Z, <-pow2_add by lia; apply Qlt_le_weak, v_lt_pow].
    apply Hlo. etransitivity; [|exact (near_ge _ _ _ _ Hn)]. by apply scale_le.
  - pose proof (unit_exp_max m e) as Hm'. fold u in Hm'. destruct (decide (u = 3 - emax - prec)); [by left|right; apply H23; lia].
  - intros Hv. apply Hup. by rewrite Qmult_0_l.
  - intros b be Hb Hv. rewrite (rescale _ be u) in * by (by eapply above_is_multiple).
    apply scale_le. by apply Hup.
  - intros a ae Ha Hv. destruct (Z.le_gt_cases u ae) as [Hu|Hu].
    + rewrite (rescale _ ae u) in * by done. apply scale_le. by apply Hlo.
    + etransitivity; [by apply below_is_small|]. apply bounded_spec in Ha. rewrite pow2_add, <-(pow2_Z (prec - 1)) by lia.
      apply scale_le, H23. lia.
Qed.

Lemma round_aux_magnitude sx :
  ∃ m1 e1, binary_round_aux prec emax sx m e l = signed sx m1 e1 ∧ 0 ≤ m1 ∧ ((v <= 0)%Q → m1 ≤ 0)
    ∧ (∀ p, m1 = Zpos p → bounded prec emax p e1 = true)
    ∧ (∀ b be, bounded prec emax b be = true → (v <= inject_Z (Zpos b) * pow2 be)%Q →
         (inject_Z m1 * pow2 e1 <= inject_Z (Zpos b) * pow2 be)%Q)
    ∧ (∀ a ae, bounded prec emax a ae = true → (inject_Z (Zpos a) * pow2 ae <= v)%Q →
         (inject_Z (Zpos a) * pow2 ae <= inject_Z m1 * pow2 e1)%Q).
Proof.
  destruct rounded_mantissa as (r & Hr & [Hm0 Hm1] & Hmin & Hz & Hup & Hlo). set (m1 := round_nearest_even _ _) in *.
  assert (inject_Z m1 * pow2 u <= val max_num)%Q as Hmax by (apply Hup; [apply max_num_bounded|exact no_overflow]).
  destruct pow2_prec as [Hpp Hp1].
  assert (3 - emax - prec ≤ u) as Hu by (unfold u; rewrite unit_exp_max; lia).
  unfold binary_round_aux. rewrite Hr. fold m1. destruct (decide (m1 = 2 ^ prec)) as [Heq|Hne].
  - assert (inject_Z m1 * pow2 u == inject_Z (2 ^ (prec - 1)) * pow2 (u + 1))%Q as Hval
      by (rewrite Heq, Hpp, pow2_succ, inject_Z_mult; change (inject_Z 2) with 2%Q; lra).
    assert (u + 1 ≤ emax - prec) as He by (apply (rounded_in_range (2 ^ (prec - 1))); [lia|by rewrite <-Hval]).
    exists (2 ^ (prec - 1)), (u + 1). split; [|split; [lia|split; [intros Hv; specialize (Hz Hv); lia|split; [|split]]]].
    + rewrite Heq, shr_fexp_carry by done. cbn [shr_m]. destruct (2 ^ (prec - 1)) as [|p|p]; [done| |lia].
      by rewrite (proj2 (Z.leb_le _ _)).
    + intros p Hp. apply bounded_spec. rewrite <-Hp. lia.
    + intros b be Hb Hv. rewrite <-Hval. by apply Hup.
    + intros a ae Ha Hv. rewrite <-Hval. by apply Hlo.
  - exists m1, u. rewrite shr_fexp_small by lia. cbn [shr_m].
    assert (0 < m1 → u ≤ emax - prec) as He.
    { intros Hpos. destruct Hmin as [->|Hmin]; [lia|]. by apply (rounded_in_range m1). }
    split; [|split; [done|split; [done|split; [|done]]]].
    + destruct m1 as [|p|p]; [done| |lia]. by rewrite (proj2 (Z.leb_le _ _)) by (by apply He).
    + intros p Hp. apply bounded_spec. lia.
Qed.
End rounding.

(** ** The operations are roundings *)

Lemma is_num_opp x : is_num x → is_num (SFopp x).
Proof. by destruct x. Qed.

Lemma val_opp x : (val (SFopp x) == - val x)%Q.
Proof. destruct x as [| | |[] m e]; try done; cbn; change (Zneg m) with (- Zpos m); rewrite inject_Z_opp; lra. Qed.

Lemma rounds_opp v r : rounds v r → rounds (- v) (SFopp r).
Proof.
  intros (Hr & Hup & Hlo). split; [by apply is_num_opp|]. pose proof (val_opp r) as Hval. split.
  - intros b Hb Hv. specialize (Hlo (SFopp b) (is_num_opp _ Hb)). rewrite val_opp in Hlo. lra.
  - intros a Ha Hv. specialize (Hup (SFopp a) (is_num_opp _ Ha)). rewrite val_opp in Hup. lra.
Qed.

Lemma rounds_eq v v' r : (v == v')%Q → rounds v r → rounds v' r.
Proof. intros Hv (Hr & Hup & Hlo). split; [done|]. split; intros b Hb H; [apply Hup|apply Hlo]; try done; lra. Qed.

Lemma rounds_exact x : is_num x → rounds (val x) x.
Proof. done. Qed.

Lemma val_nonneg m e : (0 <= inject_Z (Zpos m) * pow2 e)%Q.
Proof. by apply scale_nonneg. Qed.

(** A number that is not positive, or a mantissa and exponent. *)
Lemma num_cases x : is_num x → (val x <= 0)%Q ∨ ∃ m e, bounded prec emax m e = true ∧ val x = (inject_Z (Zpos m) * pow2 e)%Q.
Proof.
  destruct x as [s| | |[] m e]; try done; [by left|left|right; by exists m, e].
  cbn. pose proof (val_nonneg m e). change (Zneg m) with (- Zpos m). rewrite inject_Z_opp. lra.
Qed.

Lemma round_aux_rounds (sx : bool) v m e l :
  0 ≤ m → near v m e (is_exact l) → e ≤ unit_exp m e → (v <= val max_num)%Q →
  rounds (if sx then - v else v) (binary_round_aux prec emax sx m e l).
Proof.
  intros Hm Hn He Hmax.
  destruct (round_aux_magnitude v m e l Hm Hn He Hmax sx) as (m1 & e1 & -> & Hm1 & Hz & Hb & Hup & Hlo).
  assert (0 <= v)%Q as Hv0 by (etransitivity; [|exact (near_ge _ _ _ _ Hn)]; by apply scale_nonneg).
  assert (rounds v (signed false m1 e1)) as H.
  { assert (val (signed false m1 e1) == inject_Z m1 * pow2 e1)%Q as Hval
      by (destruct m1; [symmetry; apply Qmult_0_l|done|lia]).
    split; [destruct m1; [done|by apply Hb|lia]|]. split.
    - intros b Hbb Hv. rewrite Hval. destruct (num_cases b Hbb) as [Hneg|(mb & eb & Hbd & Hbv)].
      + assert (m1 = 0) as -> by (assert (m1 ≤ 0) by (apply Hz; lra); lia). change (inject_Z 0) with 0%Q. lra.
      + rewrite Hbv in *. by apply Hup.
    - intros a Ha Hv. rewrite Hval. destruct (num_cases a Ha) as [Hneg|(ma & ea & Had & Hav)].
      + etransitivity; [exact Hneg|]. by apply scale_nonneg.
      + rewrite Hav in *. by apply Hlo. }
  destruct sx; [|done]. apply rounds_opp in H. by destruct m1.
Qed.

Lemma digits_ge m k : 2 ^ k ≤ m → 0 ≤ k → k < digits m.
Proof.
  intros Hm Hk. assert (0 < 2 ^ k) by (by apply Z.pow_pos_nonneg). destruct (digits_bounds m) as [_ Hd]; [lia|].
  apply (Z.pow_lt_mono_r_iff 2); [done|apply digits_nonneg|lia].
Qed.

(** The exact result is in the range of the format. *)
Definition in_range (v : Q) : Prop := (- val max_num <= v <= val max_num)%Q.

Lemma fmul_rounds x y :
  is_num x → is_num y → in_range (val x * val y) → rounds (val x * val y) (fmul x y).
Proof.
  intros Hx Hy Hr. destruct x as [sx| | |sx mx ex], y as [sy| | |sy my ey]; try done.
  1-2: apply (rounds_eq 0); [cbn [val]; by rewrite ?Qmult_0_l, ?Qmult_0_r|by destruct (xorb sx sy)].
  cbn [fmul SFmul]. apply bounded_spec in Hx as (Hex & Hmx & Hnx), Hy as (Hey & Hmy & Hny).
  set (v := (inject_Z (Zpos (mx * my)) * pow2 (ex + ey))%Q).
  assert (val (S754_finite sx mx ex) * val (S754_finite sy my ey) == (if xorb sx sy then - v else v))%Q as Hv.
  { assert (v == (inject_Z (Zpos mx) * pow2 ex) * (inject_Z (Zpos my) * pow2 ey))%Q as Hpv
      by (unfold v; rewrite Pos2Z.inj_mul, inject_Z_mult, pow2_add; lra).
    cbn [val]. destruct sx, sy; cbn [cond_Zopp xorb]; rewrite ?inject_Z_opp; lra. }
  eapply rounds_eq; [symmetry; exact Hv|]. unfold in_range in Hr. apply round_aux_rounds; [done|unfold near; cbn; reflexivity| |].
  - rewrite unit_exp_max. destruct Hnx as [->|Hnx], Hny as [->|Hny]; [lia|..].
    all: pose proof (Pos2Z.is_pos mx); pose proof (Pos2Z.is_pos my).
    all: assert (prec - 1 < digits (Zpos (mx * my))) by (apply digits_ge; nia); lia.
  - assert (0 <= v)%Q by apply val_nonneg. destruct (xorb sx sy); lra.
Qed.

Lemma iter_xO m d : Zpos (Pos.iter xO m d) = Zpos m * 2 ^ Zpos d.
Proof.
  induction d as [|d IH] using Pos.peano_ind; [cbn; lia|].
  rewrite Pos.iter_succ, Pos2Z.inj_succ, Z.pow_succ_r by done. lia.
Qed.

Lemma shl_align_spec m e e' :
  (shl_align m e e').2 = Z.min e e' ∧ Zpos (shl_align m e e').1 = Zpos m * 2 ^ (e - Z.min e e').
Proof.
  unfold shl_align. destruct (e' - e) as [|p|p] eqn:He; cbn [fst snd].
  - replace (e - Z.min e e') with 0 by lia. lia.
  - replace (e - Z.min e e') with 0 by lia. lia.
  - rewrite iter_xO. replace (e - Z.min e e') with (Zpos p) by lia. lia.
Qed.

(** The conversion of a mantissa of any size. *)
Lemma normalize_rounds z e s :
  in_range (inject_Z z * pow2 e) → rounds (inject_Z z * pow2 e) (binary_normalize prec emax z e s).
Proof.
  assert (∀ (sx : bool) m, (inject_Z (Zpos m) * pow2 e <= val max_num)%Q →
    rounds (if sx then - (inject_Z (Zpos m) * pow2 e) else inject_Z (Zpos m) * pow2 e) (binary_round prec emax sx m e)) as H.
  { intros sx m Hmax. unfold binary_round. destruct (shl_align_spec m e (fexp prec emax (Zpos (digits2_pos m) + e))) as [H1 H2].
    change (fexp prec emax (Zpos (digits2_pos m) + e)) with (unit_exp (Zpos m) e) in *.
    destruct (shl_align m e (unit_exp (Zpos m) e)) as [mz ez]. cbn [fst snd] in *.
    assert (ez ≤ e) as Hle by lia. rewrite <-H1 in H2. pose proof (rescale (Zpos m) e ez Hle) as Hval. rewrite <-H2 in Hval.
    apply (rounds_eq (if sx then - (inject_Z (Zpos mz) * pow2 ez) else inject_Z (Zpos mz) * pow2 ez)); [destruct sx; lra|].
    apply round_aux_rounds; [done|unfold near; cbn; reflexivity| |lra].
    assert (digits (Zpos mz) = digits (Zpos m) + (e - ez)) as Hd.
    { apply digits2_unique. destruct (digits_bounds (Zpos m)) as [H3 H4]; [done|]. rewrite H2.
      pose proof (Z.pow_pos_nonneg 2 (e - ez)).
      replace (digits (Zpos m) + (e - ez) - 1) with (digits (Zpos m) - 1 + (e - ez)) by lia.
      assert (0 < digits (Zpos m)) by done. rewrite !Z.pow_add_r by lia. nia. }
    rewrite unit_exp_max in *. lia. }
  unfold in_range. destruct z as [|m|m]; cbn [binary_normalize]; intros Hr.
  - apply (rounds_eq 0); [symmetry; apply Qmult_0_l|done].
  - apply (H false). lra.
  - change (Zneg m) with (- Zpos m) in *. rewrite inject_Z_opp in *. apply (rounds_eq (- (inject_Z (Zpos m) * pow2 e))); [lra|].
    apply (H true). lra.
Qed.

Lemma aligned_val s m e e' :
  e' ≤ e → (val (S754_finite s m e) == inject_Z (cond_Zopp s (Zpos (shl_align m e e').1)) * pow2 e')%Q.
Proof.
  intros He. destruct (shl_align_spec m e e') as [_ ->]. replace (Z.min e e') with e' by lia. cbn [val].
  rewrite (rescale _ e e') by done. destruct s; cbn [cond_Zopp]; [|done].
  by replace (- Zpos m * 2 ^ (e - e')) with (- (Zpos m * 2 ^ (e - e'))) by lia.
Qed.

Lemma fadd_rounds x y :
  is_num x → is_num y → in_range (val x + val y) → rounds (val x + val y) (fadd x y).
Proof.
  intros Hx Hy Hr. destruct x as [sx| | |sx mx ex], y as [sy| | |sy my ey]; try done.
  - by destruct sx, sy.
  - apply (rounds_eq (val (S754_finite sy my ey))); [symmetry; apply Qplus_0_l|by apply rounds_exact].
  - apply (rounds_eq (val (S754_finite sx mx ex))); [symmetry; apply Qplus_0_r|by apply rounds_exact].
  - pose proof (aligned_val sx mx ex (Z.min ex ey)) as H1. pose proof (aligned_val sy my ey (Z.min ex ey)) as H2.
    unfold in_range in *. rewrite H1, H2, <-Qmult_plus_distr_l, <-inject_Z_plus in Hr by lia.
    eapply rounds_eq; [|by apply normalize_rounds]. rewrite inject_Z_plus, Qmult_plus_distr_l, H1, H2 by lia. reflexivity.
Qed.

Lemma fsub_opp x y : is_num x → is_num y → fsub x y = fadd x (SFopp y).
Proof.
  destruct x as [[]| | |sx mx ex], y as [[]| | |sy my ey]; try done. intros _ _. unfold fsub, fadd. cbn [SFsub SFadd SFopp].
  f_equal. destruct sy; cbn; lia.
Qed.

Lemma fsub_rounds x y :
  is_num x → is_num y → in_range (val x - val y) → rounds (val x - val y) (fsub x y).
Proof.
  intros Hx Hy Hr. rewrite fsub_opp by done. unfold in_range in *. pose proof (val_opp y) as Hopp.
  apply (rounds_eq (val x + val (SFopp y))); [lra|]. apply fadd_rounds; [done|by apply is_num_opp|]. unfold in_range. lra.
Qed.

(** The quotient of the mantissas, with enough digits to be rounded. *)
Lemma div_core_near m1 e1 m2 e2 :
  let '(q, e, l) := SFdiv_core_binary prec emax (Zpos m1) e1 (Zpos m2) e2 in
  0 ≤ q ∧ near ((inject_Z (Zpos m1) * pow2 e1) / (inject_Z (Zpos m2) * pow2 e2)) q e (is_exact l) ∧ e ≤ unit_exp q e.
Proof.
  unfold SFdiv_core_binary. change (Zdigits2 (Zpos m1)) with (digits (Zpos m1)). change (Zdigits2 (Zpos m2)) with (digits (Zpos m2)).
  set (e' := Z.min _ _).
  assert (e' ≤ e1 - e2 ∧ e' ≤ Z.max (digits (Zpos m1) + e1 - (digits (Zpos m2) + e2) - prec) (3 - emax - prec)) as [He1 He2] by
    (split; [apply Z.le_min_r|apply Z.le_min_l]).
  set (s := e1 - e2 - e'). assert (0 ≤ s) as Hs by lia.
  assert (match s with Z0 => Zpos m1 | Zpos _ => Z.shiftl (Zpos m1) s | Zneg _ => 0 end = Zpos m1 * 2 ^ s) as ->
    by (destruct s; [lia|by rewrite Z.shiftl_mul_pow2|lia]).
  pose proof (Z_div_mod (Zpos m1 * 2 ^ s) (Zpos m2) eq_refl) as Hdiv.
  destruct (Z.div_eucl _ _) as [q r]. destruct Hdiv as [Heq Hrem].
  assert (0 < 2 ^ s) as Hps by (by apply Z.pow_pos_nonneg). assert (0 ≤ q) as Hq by nia. split; [done|].
  assert (is_exact (new_location (Zpos m2) r) = (r =? 0)) as -> by
    (unfold new_location, new_location_even, new_location_odd; by destruct (Z.even _), (r =? 0)).
  split.
  - assert (∀ z, (inject_Z z * pow2 e' * (inject_Z (Zpos m2) * pow2 e2) == inject_Z (Zpos m2 * z) * pow2 (e1 - s))%Q) as Hz.
    { intros z. rewrite inject_Z_mult. replace (e1 - s) with (e' + e2) by lia. rewrite pow2_add. lra. }
    assert (0 < inject_Z (Zpos m2) * pow2 e2)%Q as Hd by (rewrite <-(Qmult_0_l (pow2 e2)); by apply scale_lt).
    assert (inject_Z (Zpos m1) * pow2 e1 == inject_Z (Zpos m1 * 2 ^ s) * pow2 (e1 - s))%Q as Hn
      by (rewrite (rescale _ e1 (e1 - s)) by lia; by replace (e1 - (e1 - s)) with s by lia).
    unfold near. destruct (Z.eqb_spec r 0) as [->|Hne].
    + assert (inject_Z (Zpos m1) * pow2 e1 == inject_Z q * pow2 e' * (inject_Z (Zpos m2) * pow2 e2))%Q as ->
        by (rewrite Hz, Hn, Heq; by rewrite Z.add_0_r).
      apply Qdiv_mult_l. intros H. rewrite H in Hd. by apply Qlt_irrefl in Hd.
    + split; [apply Qlt_shift_div_l; [done|]|apply Qlt_shift_div_r; [done|]]; rewrite Hz, Hn, Heq; apply scale_lt; lia.
  - rewrite unit_exp_max. destruct (Z.le_gt_cases e' (3 - emax - prec)) as [|Hgt]; [lia|].
    assert (prec - 1 < digits q) as Hdq; [|lia]. apply digits_ge; [|lia].
    destruct (digits_bounds (Zpos m1)) as [H1 _]; [done|]. destruct (digits_bounds (Zpos m2)) as [_ H2]; [done|].
    set (d1 := digits (Zpos m1)) in *. set (d2 := digits (Zpos m2)) in *.
    assert (0 < d1 ∧ 0 < d2) as [Hd1 Hd2] by done.
    assert (2 ^ (prec - 1) * 2 ^ d2 ≤ Zpos m1 * 2 ^ s) as Hbig.
    { rewrite <-Z.pow_add_r by lia. transitivity (2 ^ (d1 - 1) * 2 ^ s); [|nia]. rewrite <-Z.pow_add_r by lia.
      apply Z.pow_le_mono_r; lia. }
    nia.
Qed.

Lemma div_core_rounds (sx : bool) m1 e1 m2 e2 :
  let v := ((inject_Z (Zpos m1) * pow2 e1) / (inject_Z (Zpos m2) * pow2 e2))%Q in
  (v <= val max_num)%Q →
  rounds (if sx then - v else v)
    (let '(m, e, l) := SFdiv_core_binary prec emax (Zpos m1) e1 (Zpos m2) e2 in binary_round_aux prec emax sx m e l).
Proof.
  intros v Hmax. pose proof (div_core_near m1 e1 m2 e2) as H.
  destruct (SFdiv_core_binary _ _ _ _ _ _) as [[q e] l]. destruct H as (Hq & Hn & He). by apply round_aux_rounds.
Qed.

Lemma fdiv_rounds x y :
  is_num x → is_num y → ¬ (val y == 0)%Q → in_range (val x / val y) → rounds (val x / val y) (fdiv x y).
Proof.
  intros Hx Hy Hne Hr. destruct y as [sy| | |sy my ey]; [by destruct Hne|done|done|].
  destruct x as [sx| | |sx mx ex]; [|done|done|].
  { apply (rounds_eq 0); [|done]. cbn [val]. unfold Qdiv. by rewrite Qmult_0_l. }
  set (v := ((inject_Z (Zpos mx) * pow2 ex) / (inject_Z (Zpos my) * pow2 ey))%Q).
  assert (0 < inject_Z (Zpos my) * pow2 ey)%Q as Hd by (rewrite <-(Qmult_0_l (pow2 ey)); by apply scale_lt).
  assert (val (S754_finite sx mx ex) / val (S754_finite sy my ey) == (if xorb sx sy then - v else v))%Q as Hv.
  { assert (¬ (inject_Z (Zpos my) * pow2 ey == 0)%Q) as Hz by (intros H; rewrite H in Hd; by apply Qlt_irrefl in Hd).
    unfold v. cbn [val].
    assert (∀ m, (inject_Z (- m) * pow2 ex == - (inject_Z m * pow2 ex))%Q) as Ho1 by (intros; rewrite inject_Z_opp; lra).
    assert (inject_Z (- Zpos my) * pow2 ey == - (inject_Z (Zpos my) * pow2 ey))%Q as Ho2 by (rewrite inject_Z_opp; lra).
    destruct sx, sy; cbn [cond_Zopp xorb]; rewrite ?Ho1, ?Ho2; try reflexivity; field; split;
      intros Hc; apply Hz; rewrite Hc; ring. }
  assert (0 <= v)%Q as Hv0.
  { unfold v. apply Qle_shift_div_l; [done|]. rewrite Qmult_0_l. by apply scale_nonneg. }
  eapply rounds_eq; [symmetry; exact Hv|]. unfold in_range in Hr. cbn [fdiv SFdiv].
  apply div_core_rounds. fold v. destruct (xorb sx sy); lra.
Qed.

(** ** Ranges *)

Lemma rounds_within v r a b :
  rounds v r → is_num a → is_num b → (val a <= v <= val b)%Q → within (val a) (val b) r.
Proof. intros (Hr & Hup & Hlo) Ha Hb [H1 H2]. split; [done|]. split; auto. Qed.

(** Fixed point numbers of up to [prec] bits are numbers of the format. *)
Lemma small_fixed n s :
  0 ≤ n ≤ 2 ^ prec → 0 ≤ s ≤ emax - 3 → ∃ x, is_num x ∧ (val x == inject_Z n * pow2 (- s))%Q.
Proof.
  intros Hn Hs. destruct pow2_prec as [Hpp Hp1].
  destruct (decide (n = 0)) as [->|Hne]; [exists (S754_zero false); split; [done|symmetry; apply Qmult_0_l]|].
  destruct (decide (n = 2 ^ prec)) as [->|Hne'].
  { exists (S754_finite false (Z.to_pos (2 ^ (prec - 1))) (1 - s)). split; [apply bounded_spec; rewrite Z2Pos.id by lia; lia|].
    cbn [val cond_Zopp]. rewrite Z2Pos.id by lia. replace (1 - s) with (- s + 1) by lia.
    rewrite Hpp, pow2_succ, inject_Z_mult. change (inject_Z 2) with 2%Q. lra. }
  set (d := digits n). destruct (digits_bounds n) as [H1 H2]; [lia|]. fold d in H1, H2.
  assert (0 < d) as Hd by (destruct n; [done|done|lia]).
  assert (d - 1 < prec) by (apply (Z.pow_lt_mono_r_iff 2); lia).
  assert (2 ^ (prec - 1) ≤ n * 2 ^ (prec - d) < 2 ^ prec) as Hm.
  { pose proof (Z.pow_pos_nonneg 2 (prec - d)).
    replace (2 ^ (prec - 1)) with (2 ^ (d - 1) * 2 ^ (prec - d)) by (rewrite <-Z.pow_add_r by lia; f_equal; lia).
    replace (2 ^ prec) with (2 ^ d * 2 ^ (prec - d)) by (rewrite <-Z.pow_add_r by lia; f_equal; lia). nia. }
  exists (S754_finite false (Z.to_pos (n * 2 ^ (prec - d))) (d - prec - s)). split.
  - apply bounded_spec. rewrite Z2Pos.id by lia. lia.
  - cbn [val cond_Zopp]. rewrite Z2Pos.id by lia. rewrite inject_Z_mult, pow2_Z, <-Qmult_assoc, <-pow2_add by lia.
    replace (prec - d + (d - prec - s)) with (- s) by lia. done.
Qed.

Lemma small_integer n : 0 ≤ n ≤ 2 ^ prec → ∃ x, is_num x ∧ (val x == inject_Z n)%Q.
Proof.
  intros Hn. destruct (small_fixed n 0) as (x & Hx & Hval); [done|lia|]. exists x. split; [done|]. rewrite Hval. apply Qmult_1_r.
Qed.

Lemma signed_fixed n s :
  - 2 ^ prec ≤ n ≤ 2 ^ prec → 0 ≤ s ≤ emax - 3 → ∃ x, is_num x ∧ (val x == inject_Z n * pow2 (- s))%Q.
Proof.
  intros Hn Hs. destruct (Z.le_gt_cases 0 n) as [H|H]; [by apply small_fixed; [lia|]|].
  destruct (small_fixed (- n) s) as (x & Hx & Hval); [lia|done|]. exists (SFopp x). split; [by apply is_num_opp|].
  rewrite val_opp, Hval, inject_Z_opp. lra.
Qed.

Lemma signed_integer n : - 2 ^ prec ≤ n ≤ 2 ^ prec → ∃ x, is_num x ∧ (val x == inject_Z n)%Q.
Proof.
  intros Hn. destruct (signed_fixed n 0) as (x & Hx & Hval); [done|lia|]. exists x. split; [done|]. rewrite Hval. apply Qmult_1_r.
Qed.

(** A rounding is less than a unit away, for every unit that leaves room for the value. *)
Lemma rounds_grid v r s :
  rounds v r → 0 ≤ s ≤ emax - 3 → (- inject_Z (2 ^ prec) <= v * pow2 s)%Q → (v * pow2 s < inject_Z (2 ^ prec))%Q →
  (v - pow2 (- s) <= val r <= v + pow2 (- s))%Q.
Proof.
  intros (Hr & Hup & Hlo) Hs Hge Hlt. pose proof (pow2_pos (- s)) as Hp.
  assert (pow2 s * pow2 (- s) == 1)%Q as Hone by (rewrite <-pow2_add; by rewrite Z.add_opp_diag_r).
  set (n := Qfloor (v * pow2 s)). pose proof (Qfloor_le (v * pow2 s)) as H1. pose proof (Qlt_floor (v * pow2 s)) as H2. fold n in H1, H2.
  assert (- 2 ^ prec ≤ n < 2 ^ prec) as Hn.
  { split.
    - assert (- 2 ^ prec < n + 1); [|lia]. rewrite Zlt_Qlt, inject_Z_opp. by eapply Qle_lt_trans.
    - rewrite Zlt_Qlt. by eapply Qle_lt_trans. }
  assert (v == v * pow2 s * pow2 (- s))%Q as Hv by (rewrite <-Qmult_assoc, Hone; lra).
  destruct (signed_fixed n s) as (a & Ha & Hav); [lia|done|].
  destruct (signed_fixed (n + 1) s) as (b & Hb & Hbv); [lia|done|].
  assert (inject_Z n * pow2 (- s) <= v)%Q as H3 by (rewrite Hv; by apply Qmult_le_r).
  assert (v < inject_Z (n + 1) * pow2 (- s))%Q as H4 by (rewrite Hv; by apply Qmult_lt_r).
  assert (val a <= val r)%Q as H5 by (apply Hlo; [done|by rewrite Hav]).
  assert (val r <= val b)%Q as H6 by (apply Hup; [done|rewrite Hbv; by apply Qlt_le_weak]).
  rewrite inject_Z_plus in Hbv, H4. change (inject_Z 1) with 1%Q in Hbv, H4. lra.
Qed.

(** Between 0 and 1 a rounding is less than one part in [2 ^ prec] away. *)
Lemma rounds_error v r : rounds v r → (0 <= v <= 1)%Q → within 0 1 r ∧ (v - pow2 (- prec) <= val r <= v + pow2 (- prec))%Q.
Proof.
  intros Hvr Hv. destruct (Hvr) as (Hr & Hup & Hlo). pose proof (pow2_pos (- prec)) as Hp. pose proof (pow2_pos prec) as Hpp.
  assert (0 <= val r)%Q as H0 by (apply (Hlo (S754_zero false)); [done|apply Hv]).
  destruct (small_integer 1) as (o & Ho & Hov); [destruct pow2_prec; lia|]. change (inject_Z 1) with 1%Q in Hov.
  assert (val r <= 1)%Q as H1 by (rewrite <-Hov; apply Hup; [done|lra]). split; [done|].
  destruct (Qlt_le_dec v 1) as [Hlt|Hge].
  - apply rounds_grid; [done|lia|..]; rewrite pow2_Z by lia; nra.
  - assert (1 <= val r)%Q by (rewrite <-Hov; apply Hlo; [done|lra]). lra.
Qed.

(** Integers that bound the exact result bound its rounding. *)
Lemma rounds_range v r a b :
  rounds v r → - 2 ^ prec ≤ a → b ≤ 2 ^ prec → (inject_Z a <= v <= inject_Z b)%Q → within (inject_Z a) (inject_Z b) r.
Proof.
  intros (Hr & Hup & Hlo) Ha Hb [H1 H2]. assert (a ≤ b) by (rewrite Zle_Qle; by apply (Qle_trans _ v)).
  destruct (signed_integer a) as (x & Hx & Hxv); [lia|]. destruct (signed_integer b) as (y & Hy & Hyv); [lia|].
  split; [done|]. rewrite <-Hxv, <-Hyv. split; [apply Hlo|apply Hup]; try done; by rewrite ?Hxv, ?Hyv.
Qed.

Lemma in_range_integers v a b :
  - 2 ^ prec ≤ a → b ≤ 2 ^ prec → (inject_Z a <= v <= inject_Z b)%Q → in_range v.
Proof.
  intros Ha Hb [H1 H2]. unfold in_range. rewrite Zle_Qle in Ha, Hb. rewrite inject_Z_opp in Ha. pose proof max_num_ge. lra.
Qed.

Section ranges.
Context (x y : float) (a b : Z).
Hypotheses (Hx : is_num x) (Hy : is_num y) (Ha : - 2 ^ prec ≤ a) (Hb : b ≤ 2 ^ prec).

Lemma fmul_range : (inject_Z a <= val x * val y <= inject_Z b)%Q → within (inject_Z a) (inject_Z b) (fmul x y).
Proof. intros H. eapply rounds_range; [apply fmul_rounds; [done..|by eapply in_range_integers]|done..]. Qed.

Lemma fadd_range : (inject_Z a <= val x + val y <= inject_Z b)%Q → within (inject_Z a) (inject_Z b) (fadd x y).
Proof. intros H. eapply rounds_range; [apply fadd_rounds; [done..|by eapply in_range_integers]|done..]. Qed.

Lemma fsub_range : (inject_Z a <= val x - val y <= inject_Z b)%Q → within (inject_Z a) (inject_Z b) (fsub x y).
Proof. intros H. eapply rounds_range; [apply fsub_rounds; [done..|by eapply in_range_integers]|done..]. Qed.

Lemma fdiv_range :
  (0 < val y)%Q → (inject_Z a * val y <= val x <= inject_Z b * val y)%Q →
  within (inject_Z a) (inject_Z b) (fdiv x y).
Proof.
  intros Hpos [H1 H2]. assert (inject_Z a <= val x / val y <= inject_Z b)%Q as H
    by (split; [by apply Qle_shift_div_l|by apply Qle_shift_div_r]).
  eapply rounds_range; [apply fdiv_rounds; [done..| |by eapply in_range_integers]|done..].
  intros He. rewrite He in Hpos. by apply Qlt_irrefl in Hpos.
Qed.
End ranges.

(** A result of the format is exact. *)
Lemma rounds_number v r x : rounds v r → is_num x → (val x == v)%Q → (val r == v)%Q.
Proof. intros (_ & Hup & Hlo) Hx Hv. apply Qle_antisym; rewrite <-Hv; [apply Hup|apply Hlo]; try done; lra. Qed.

Lemma float_of_Z_val n : - 2 ^ prec ≤ n ≤ 2 ^ prec → is_num (float_of_Z n) ∧ (val (float_of_Z n) == inject_Z n)%Q.
Proof.
  intros Hn. assert (inject_Z n * pow2 0 == inject_Z n)%Q as H0 by apply Qmult_1_r.
  assert (rounds (inject_Z n * pow2 0) (float_of_Z n)) as H.
  { apply normalize_rounds, (in_range_integers _ n n); [lia|lia|]. rewrite H0. split; lra. }
  split; [apply H|]. destruct (signed_integer n Hn) as (x & Hx & Hval).
  rewrite (rounds_number _ _ x H Hx); [done|]. by rewrite H0.
Qed.

(** ** Comparison and truncation *)

Lemma magnitude_compare m1 e1 m2 e2 :
  bounded prec emax m1 e1 = true → bounded prec emax m2 e2 = true →
  match Z.compare e1 e2 with Lt => Lt | Gt => Gt | Eq => Pos.compare m1 m2 end
  = Qcompare (inject_Z (Zpos m1) * pow2 e1) (inject_Z (Zpos m2) * pow2 e2).
Proof.
  assert (∀ m e m' e', bounded prec emax m e = true → bounded prec emax m' e' = true → e < e' →
    (inject_Z (Zpos m) * pow2 e < inject_Z (Zpos m') * pow2 e')%Q) as Hlt.
  { intros m e m' e' (He & Hm & _)%bounded_spec (He' & Hm' & Hn)%bounded_spec Hee.
    apply (Qlt_le_trans _ (pow2 (prec + e))).
    - rewrite pow2_add, <-(pow2_Z prec) by lia. by apply scale_lt.
    - transitivity (pow2 (prec - 1 + e')); [apply pow2_le; lia|]. rewrite pow2_add, <-(pow2_Z (prec - 1)) by lia. apply scale_le. lia. }
  intros H1 H2. destruct (Z.compare_spec e1 e2) as [->|He|He].
  - destruct (Pos.compare_spec m1 m2) as [->|Hm|Hm]; symmetry.
    + by apply (proj1 (Qeq_alt _ _)).
    + apply (proj1 (Qlt_alt _ _)), scale_lt. lia.
    + apply (proj1 (Qgt_alt _ _)), scale_lt. lia.
  - symmetry. apply (proj1 (Qlt_alt _ _)). by apply Hlt.
  - symmetry. apply (proj1 (Qgt_alt _ _)). by apply Hlt.
Qed.

Lemma val_pos m e : (0 < inject_Z (Zpos m) * pow2 e)%Q.
Proof. rewrite <-(Qmult_0_l (pow2 e)). by apply scale_lt. Qed.

Lemma compare_val x y : is_num x → is_num y → SFcompare x y = Some (Qcompare (val x) (val y)).
Proof.
  intros Hx Hy. destruct x as [sx| | |sx mx ex], y as [sy| | |sy my ey]; try done; cbn [SFcompare val]; f_equal; symmetry.
  - pose proof (val_pos my ey). destruct sy; cbn [cond_Zopp]; [apply (proj1 (Qgt_alt _ _)); rewrite inject_Z_opp|apply (proj1 (Qlt_alt _ _))]; lra.
  - pose proof (val_pos mx ex). destruct sx; cbn [cond_Zopp]; [apply (proj1 (Qlt_alt _ _)); rewrite inject_Z_opp|apply (proj1 (Qgt_alt _ _))]; lra.
  - pose proof (val_pos my ey). pose proof (val_pos mx ex). pose proof (magnitude_compare mx ex my ey Hx Hy) as Hc.
    destruct sx, sy; cbn [cond_Zopp].
    + transitivity (CompOpp (inject_Z (Zpos mx) * pow2 ex ?= inject_Z (Zpos my) * pow2 ey)%Q).
      * destruct (Qcompare_spec (inject_Z (Zpos mx) * pow2 ex) (inject_Z (Zpos my) * pow2 ey)); cbn [CompOpp];
          [apply (proj1 (Qeq_alt _ _))|apply (proj1 (Qgt_alt _ _))|apply (proj1 (Qlt_alt _ _))]; rewrite !inject_Z_opp; lra.
      * rewrite <-Hc. by destruct (ex ?= ey).
    + apply (proj1 (Qlt_alt _ _)). rewrite inject_Z_opp. lra.
    + apply (proj1 (Qgt_alt _ _)). rewrite inject_Z_opp. lra.
    + by rewrite <-Hc.
Qed.

Lemma fgt_spec x y : is_num x → is_num y → if fgt x y then (val y < val x)%Q else (val x <= val y)%Q.
Proof.
  intros Hx Hy. unfold fgt, SFltb. rewrite compare_val by done. destruct (Qcompare_spec (val y) (val x)); lra.
Qed.

Lemma trunc_spec x :
  is_num x → ∃ z, trunc x = Some z
    ∧ ((0 ≤ z /\ inject_Z z <= val x /\ val x < inject_Z (z + 1)) \/ (z ≤ 0 /\ inject_Z (z - 1) < val x /\ val x <= inject_Z z))%Q.
Proof.
  intros Hx. destruct x as [s| | |s m e]; try done; [by exists 0; split; [|left]|].
  eexists. split; [reflexivity|]. set (t := if 0 <=? e then _ else _).
  assert (0 ≤ t ∧ (inject_Z t <= inject_Z (Zpos m) * pow2 e < inject_Z (t + 1))%Q) as (Ht & H1 & H2).
  { unfold t. destruct (Z.leb_spec 0 e) as [He|He].
    - split; [apply Z.mul_nonneg_nonneg; [done|by apply Z.pow_nonneg]|]. rewrite inject_Z_plus, inject_Z_mult, pow2_Z by done.
      change (inject_Z 1) with 1%Q. split; lra.
    - assert (0 < 2 ^ (- e)) as Hp by (apply Z.pow_pos_nonneg; lia). split; [by apply Z.div_pos|].
      assert (inject_Z (Zpos m) * pow2 e * pow2 (- e) == inject_Z (Zpos m))%Q as Hm.
      { rewrite <-Qmult_assoc, <-pow2_add. rewrite Z.add_opp_diag_r. apply Qmult_1_r. }
      pose proof (pow2_pos (- e)) as Hq.
      split; [apply (Qmult_le_r _ _ (pow2 (- e))); [done|]|apply (Qmult_lt_r _ _ (pow2 (- e))); [done|]];
        rewrite Hm, <-pow2_Z, <-inject_Z_mult by lia; [rewrite <-Zle_Qle|rewrite <-Zlt_Qlt].
      + rewrite Z.mul_comm. by apply Z.mul_div_le.
      + pose proof (Z.mul_succ_div_gt (Zpos m) (2 ^ (- e)) Hp). lia. }
  destruct s; cbn [val cond_Zopp]; [right|left]; [|done]. split; [lia|]. rewrite !inject_Z_opp.
  replace (- t - 1) with (- (t + 1)) by lia. rewrite inject_Z_opp. lra.
Qed.

Lemma trunc_bound x k :
  is_num x → (- inject_Z (k + 1) < val x < inject_Z (k + 1))%Q → ∃ z, trunc x = Some z ∧ - k ≤ z ≤ k.
Proof.
  intros Hx [H1 H2]. destruct (trunc_spec x Hx) as (z & Hz & Hr). exists z. split; [done|]. rewrite <-inject_Z_opp in H1.
  destruct Hr as [(H3 & H4 & H5)|(H3 & H4 & H5)].
  - assert (z < k + 1) by (rewrite Zlt_Qlt; by eapply Qle_lt_trans). lia.
  - assert (- (k + 1) < z) by (rewrite Zlt_Qlt; by eapply Qlt_le_trans). lia.
Qed.

Lemma int16_bound x k :
  is_num x → k ≤ 32767 → (- inject_Z (k + 1) < val x < inject_Z (k + 1))%Q → ∃ z, int16_of_float x = Some z ∧ - k ≤ z ≤ k.
Proof.
  intros Hx Hk Hv. destruct (trunc_bound x k Hx Hv) as (z & Hz & Hb). exists z. split; [|done].
  unfold int16_of_float. rewrite Hz. by rewrite !(proj2 (Z.leb_le _ _)) by lia.
Qed.

(** The conversion cuts off less than one. *)
Lemma int16_near x :
  is_num x → (-32768 < val x < 32768)%Q →
  ∃ z, int16_of_float x = Some z ∧ (val x - 1 <= inject_Z z <= val x + 1)%Q.
Proof.
  intros Hx Hv. destruct (trunc_spec x Hx) as (z & Hz & Hr). destruct (trunc_bound x 32767 Hx) as (z' & Hz' & Hb);
    [split; apply Hv|]. rewrite Hz in Hz'. injection Hz' as <-. exists z. split.
  - unfold int16_of_float. rewrite Hz. by rewrite !(proj2 (Z.leb_le _ _)) by lia.
  - unfold Z.sub in Hr. rewrite !inject_Z_plus in Hr. change (inject_Z (- (1))) with (-1)%Q in Hr. change (inject_Z 1) with 1%Q in Hr.
    destruct Hr as [(_ & H1 & H2)|(_ & H1 & H2)]; lra.
Qed.

End format.
