(* ===== verification/Float32.v ===== *)
(** * The C type [float]

    Binary32: the operations and lemmas of [Float] with 24 bits of mantissa. *)
From Stdlib Require Import QArith.
From S2P Require Import Prelude Float.

Abbreviation f32 := float.
Abbreviation is_f32 := (is_num 24 128).
Abbreviation f32_val := val.
Abbreviation rounds := (Float.rounds 24 128).
Abbreviation within := (Float.within 24 128).

Abbreviation fadd := (Float.fadd 24 128).
Abbreviation fsub := (Float.fsub 24 128).
Abbreviation fmul := (Float.fmul 24 128).
Abbreviation fdiv := (Float.fdiv 24 128).
Abbreviation f32_of_Z := (float_of_Z 24 128).
Abbreviation f32_literal := (literal 24 128).

Abbreviation fmul_rounds := (Float.fmul_rounds 24 128 eq_refl eq_refl).
Abbreviation fsub_rounds := (Float.fsub_rounds 24 128 eq_refl eq_refl).
Abbreviation fdiv_rounds := (Float.fdiv_rounds 24 128 eq_refl eq_refl).
Abbreviation fadd_range := (Float.fadd_range 24 128 eq_refl eq_refl).
Abbreviation fsub_range := (Float.fsub_range 24 128 eq_refl eq_refl).
Abbreviation fmul_range := (Float.fmul_range 24 128 eq_refl eq_refl).
Abbreviation fdiv_range := (Float.fdiv_range 24 128 eq_refl eq_refl).
Abbreviation f32_of_Z_val := (float_of_Z_val 24 128 eq_refl eq_refl).
Abbreviation in_range_integers := (Float.in_range_integers 24 128 eq_refl eq_refl).
Abbreviation rounds_error := (Float.rounds_error 24 128 eq_refl eq_refl).
Abbreviation small_fixed := (Float.small_fixed 24 128 eq_refl eq_refl).
Abbreviation fgt_spec := (Float.fgt_spec 24 128 eq_refl).
Abbreviation rounds_within := (Float.rounds_within 24 128).
Abbreviation is_f32_opp := (is_num_opp 24 128).
Abbreviation f32_int16_bound := (int16_bound 24 128).
