(* ===== verification/Float64.v ===== *)
(** * The C type [double]

    Binary64: the operations and lemmas of [Float] with 53 bits of mantissa. *)
From Stdlib Require Import QArith.
From S2P Require Import Prelude Float.

Abbreviation f64 := float.
Abbreviation is_f64 := (is_num 53 1024).
Abbreviation f64_val := val.

Abbreviation dmul := (Float.fmul 53 1024).
Abbreviation ddiv := (Float.fdiv 53 1024).
Abbreviation f64_of_Z := (float_of_Z 53 1024).
Abbreviation f64_literal := (literal 53 1024).
Abbreviation f64_of_float := (fconvert 53 1024).

Abbreviation dmul_rounds := (Float.fmul_rounds 53 1024 eq_refl eq_refl).
Abbreviation f64_in_range_integers := (Float.in_range_integers 53 1024 eq_refl eq_refl).
Abbreviation f64_rounds_grid := (rounds_grid 53 1024 eq_refl eq_refl).
Abbreviation f64_int16_near := (int16_near 53 1024).
Abbreviation f64_of_Z_val := (float_of_Z_val 53 1024 eq_refl eq_refl).
Abbreviation f64_signed_fixed := (signed_fixed 53 1024 eq_refl eq_refl).
Abbreviation f64_rounds_number := (rounds_number 53 1024).
