(* ===== verification/MouseCircle.v ===== *)
(** * The circle of the mouse (src/usb_mouse/usb_mouse_device.c)

    The angle of a step in [double] and [float], the point of the circle at it, and how far
    the computed points are from the exact ones. [cos] and [sin] of the C library are
    parameters. *)
From Stdlib Require Import SpecFloat QArith Qround Lqa.
From S2P Require Import Prelude Float Float32 Float64.

Module Circle.

Definition USB_MOUSE_HID_POLL_INTERVAL_MS : Z := 16.
Definition CIRCLE_RADIUS : Z := 200.
Definition CIRCLE_ROUND_TRIP_TIME_MS : Z := 1000.
Definition NUMBER_OF_STEPS : Z := CIRCLE_ROUND_TRIP_TIME_MS / USB_MOUSE_HID_POLL_INTERVAL_MS.

(** [math.h]. *)
Definition M_PI : f64 := f64_literal 314159265358979323846 100000000000000000000.

(** The [float] of a step. *)
Definition angle (step_counter : Z) : f32 :=
  fconvert 24 128 (ddiv (dmul (dmul (f64_of_Z 2) M_PI) (f64_of_Z step_counter)) (f64_of_Z NUMBER_OF_STEPS)).

(** [CIRCLE_RADIUS * f(angle)] as an [int16_t]. *)
Definition position (f : f64 → f64) (angle : f32) : cres Z :=
  match int16_of_float (dmul (f64_of_Z CIRCLE_RADIUS) (f (f64_of_float angle))) with
  | Some pos => Val pos
  | None => Err BadConversion
  end.

(** ** Reference: cosine and sine as their power series *)

(** The nested form of [1 - x^2 / (k (k+1)) + x^4 / (k (k+1) (k+2) (k+3)) - ...]. *)
Fixpoint series (k : positive) (n : nat) (x2 : Q) : Q :=
  match n with
  | O => 1
  | S n => 1 - x2 * (1 # (k * (k + 1))) * series (k + 2) n x2
  end.

(** The angle of a step as [cos] and [sin] get it. *)
Definition angle_val (step_counter : Z) : Q := f64_val (f64_of_float (angle step_counter)).

(** Twelve terms, less than 1/10000 away from the functions up to 7. *)
Definition cos_series (x : Q) : Q := series 1 12 (x * x).
Definition sin_series (x : Q) : Q := x * series 2 12 (x * x).

(** What the circle relies on: four digits of [cos] and [sin] on the first turn. *)
Class CircleLibm (cos sin : f64 → f64) : Prop := {
  cos_accurate x : is_f64 x → (0 <= f64_val x <= 7)%Q →
    is_f64 (cos x) ∧ (cos_series (f64_val x) - (1 # 5000) <= f64_val (cos x) <= cos_series (f64_val x) + (1 # 5000))%Q;
  sin_accurate x : is_f64 x → (0 <= f64_val x <= 7)%Q →
    is_f64 (sin x) ∧ (sin_series (f64_val x) - (1 # 5000) <= f64_val (sin x) <= sin_series (f64_val x) + (1 # 5000))%Q;
}.

(** The point of a step. *)
Definition point (f : f64 → f64) (s : Z) : Z := match position f (angle s) with Val p => p | Err _ => 0 end.

(** A coordinate is as near the exact one as the cut to an integer allows. *)
Definition near_coordinate (c : Q → Q) (s p : Z) : Prop :=
  (200 * c (angle_val s) - (21 # 20) <= inject_Z p <= 200 * c (angle_val s) + (21 # 20))%Q.

(** A point is at most 3/2 away from the circle of radius 200, in any direction, and it is
    the point of its step: both coordinates are near. *)
Definition on_circle (s : Z) (p : Z * Z) : Prop :=
  397 ^ 2 ≤ 4 * (p.1 ^ 2 + p.2 ^ 2) ≤ 403 ^ 2
  ∧ near_coordinate cos_series s p.1 ∧ near_coordinate sin_series s p.2.

(** * Theorems *)

(** The points of the circle as integers. *)
Definition points_x : list Z := [
    200; 198; 195; 190; 183; 174; 164; 151; 137; 122; 105; 88; 69; 50; 30; 10; -10; -30; -50; -69;
    -88; -105; -122; -137; -151; -164; -174; -183; -190; -195; -198; -199; -198; -195; -190; -183;
    -174; -164; -151; -137; -122; -105; -88; -69; -50; -30; -10; 10; 30; 50; 69; 88; 105; 122; 137;
    151; 164; 174; 183; 190; 195; 198 ].
Definition points_y : list Z := [
    0; 20; 40; 59; 78; 97; 114; 130; 144; 158; 169; 179; 187; 193; 197; 199; 199; 197; 193; 187;
    179; 169; 158; 144; 130; 114; 97; 78; 59; 40; 20; 0; -20; -40; -59; -78; -97; -114; -130; -144;
    -158; -169; -179; -187; -193; -197; -199; -199; -197; -193; -187; -179; -169; -158; -144; -130;
    -114; -97; -78; -59; -40; -20 ].

Definition steps : list Z := seqZ 0 NUMBER_OF_STEPS.

(** An angle is a [double] of the first turn. *)
Definition angle_fits (s : Z) : bool :=
  match f64_of_float (angle s) with
  | S754_zero _ => true
  | S754_finite false m e => bounded 53 1024 m e
  | _ => false
  end && Qle_bool 0 (angle_val s) && Qle_bool (angle_val s) 7.

Definition point_fits (c : Q → Q) (p : Z * Z) : bool :=
  let x := (inject_Z CIRCLE_RADIUS * c (angle_val p.1))%Q in
  Qle_bool (inject_Z (p.2 - 1)) x && Qle_bool x (inject_Z (p.2 + 1)).

Lemma all_angles_fit : forallb angle_fits steps = true.
Proof. vm_compute. reflexivity. Qed.

Lemma all_x_fit : forallb (point_fits cos_series) (zip steps points_x) = true.
Proof. vm_compute. reflexivity. Qed.

Lemma all_y_fit : forallb (point_fits sin_series) (zip steps points_y) = true.
Proof. vm_compute. reflexivity. Qed.

(** For every pair of integers not far from the points of the table: when both coordinates
    are near the exact ones, the distance from the circle is small. *)
Definition near_coordinateb (c : Q → Q) (s p : Z) : bool :=
  Qle_bool (200 * c (angle_val s) - (21 # 20)) (inject_Z p) && Qle_bool (inject_Z p) (200 * c (angle_val s) + (21 # 20)).

Definition distance_fits (s : Z) : bool :=
  let xs := filter (near_coordinateb cos_series s) (seqZ (default 0 (points_x !! Z.to_nat s) - 2) 5) in
  let ys := filter (near_coordinateb sin_series s) (seqZ (default 0 (points_y !! Z.to_nat s) - 2) 5) in
  forallb (λ x, forallb (λ y, (397 ^ 2 <=? 4 * (x ^ 2 + y ^ 2)) && (4 * (x ^ 2 + y ^ 2) <=? 403 ^ 2)) ys) xs.

Lemma all_distances_fit : forallb distance_fits steps = true.
Proof. vm_compute. reflexivity. Qed.

(** A property of all steps, checked step by step. *)
Lemma for_all_steps (P : Z → bool) s : forallb P steps = true → 0 ≤ s < NUMBER_OF_STEPS → P s = true.
Proof. rewrite forallb_forall. intros H Hs. apply H, list_elem_of_In, elem_of_seqZ. lia. Qed.

Lemma angle_range s : 0 ≤ s < NUMBER_OF_STEPS → is_f64 (f64_of_float (angle s)) ∧ (0 <= angle_val s <= 7)%Q.
Proof.
  intros Hs. pose proof (for_all_steps _ s all_angles_fit Hs) as H. unfold angle_fits in H.
  apply andb_true_iff in H as [[H1 H2%Qle_bool_iff]%andb_true_iff H3%Qle_bool_iff].
  split; [|by split]. by destruct (f64_of_float (angle s)) as [| | |[]].
Qed.

Section point.
Context (f : f64 → f64) (c : Q → Q) (points : list Z).
Hypothesis accurate : ∀ x, is_f64 x → (0 <= f64_val x <= 7)%Q →
  is_f64 (f x) ∧ (c (f64_val x) - (1 # 5000) <= f64_val (f x) <= c (f64_val x) + (1 # 5000))%Q.
Hypothesis fits : forallb (point_fits c) (zip steps points) = true.
Hypothesis full : length points = 62%nat.
Hypothesis small : forallb (λ p, (-200 <=? p) && (p <=? 200)) points = true.
Hypothesis smooth : forallb (λ s,
  Z.abs (default 0 (points !! Z.to_nat ((s + 1) mod NUMBER_OF_STEPS)) - default 0 (points !! Z.to_nat s)) <=? 22) steps = true.

Lemma point_on_table s : 0 ≤ s < NUMBER_OF_STEPS →
  ∃ p, points !! Z.to_nat s = Some p ∧ (inject_Z (p - 1) <= 200 * c (angle_val s) <= inject_Z (p + 1))%Q ∧ -200 ≤ p ≤ 200.
Proof using fits full small.
  intros Hs. change NUMBER_OF_STEPS with 62 in Hs. destruct (lookup_lt_is_Some_2 points (Z.to_nat s)) as [p Hp]; [lia|].
  assert (-200 ≤ p ≤ 200) as Hsmall.
  { rewrite forallb_forall in small. specialize (small p). rewrite andb_true_iff, !Z.leb_le in small.
    apply small, list_elem_of_In. by eapply list_elem_of_lookup_2. }
  exists p. split; [done|]. split; [|done]. rewrite forallb_forall in fits. specialize (fits (s, p)).
  unfold point_fits in fits. cbn [fst snd] in fits. rewrite andb_true_iff, !Qle_bool_iff in fits. apply fits.
  apply list_elem_of_In, list_elem_of_lookup. exists (Z.to_nat s). apply lookup_zip_with_Some.
  exists s, p. split; [done|]. split; [|done]. apply lookup_seqZ. change NUMBER_OF_STEPS with 62. lia.
Qed.

(** The computed point is as near as the cut to an integer allows. *)
Lemma position_near s : 0 ≤ s < NUMBER_OF_STEPS →
  ∃ p t, position f (angle s) = Val p ∧ points !! Z.to_nat s = Some t ∧ t - 2 ≤ p ≤ t + 2
    ∧ near_coordinate c s p.
Proof using accurate fits full small.
  intros Hs. destruct (point_on_table s Hs) as (t & Ht & Htv & Hsmall).
  assert (-201 <= 200 * c (angle_val s) <= 201)%Q as Hc.
  { assert (-201 <= inject_Z (t - 1) /\ inject_Z (t + 1) <= 201)%Q as [H1 H2]; [|lra].
    change (-201)%Q with (inject_Z (-201)). change 201%Q with (inject_Z 201). rewrite <-!Zle_Qle. lia. }
  destruct (angle_range s Hs) as [Hx Hxv]. destruct (accurate _ Hx Hxv) as [Hf Hfv]. fold (angle_val s) in Hfv.
  unfold position. set (y := f _) in *.
  assert (is_f64 (f64_of_Z CIRCLE_RADIUS)) as Hr by reflexivity.
  assert (f64_val (f64_of_Z CIRCLE_RADIUS) == 200)%Q as Hrv by reflexivity.
  set (r := f64_of_Z CIRCLE_RADIUS) in *. clearbody r y.
  assert (f64_val r * f64_val y == 200 * f64_val y)%Q as Hv by (by rewrite Hrv).
  pose proof (dmul_rounds r y Hr Hf) as Hm.
  assert (in_range 53 1024 (f64_val r * f64_val y)) as Hin.
  { apply (f64_in_range_integers _ (-300) 300); [lia|lia|]. rewrite Hv. change (inject_Z (-300)) with (-300)%Q. change (inject_Z 300) with 300%Q. lra. }
  specialize (Hm Hin). destruct (f64_rounds_grid _ _ 7 Hm) as [H1 H2]; [lia|..].
  { change (pow2 7) with 128%Q. rewrite Hv. change (inject_Z (2 ^ 53)) with 9007199254740992%Q. lra. }
  { change (pow2 7) with 128%Q. rewrite Hv. change (inject_Z (2 ^ 53)) with 9007199254740992%Q. lra. }
  change (pow2 (- (7))) with (1 # 128)%Q in H1, H2. rewrite Hv in H1, H2.
  destruct (f64_int16_near (dmul r y)) as (p & Hp & Hpv); [apply Hm|lra|].
  rewrite Hp. exists p, t. split; [done|]. split; [done|]. split; [|unfold near_coordinate; lra].
  assert (inject_Z (t - 3) < inject_Z p /\ inject_Z p < inject_Z (t + 3))%Q as [H3 H4]; [|rewrite <-Zlt_Qlt in H3, H4; lia].
  unfold Z.sub in *. rewrite !inject_Z_plus in Htv. rewrite !inject_Z_plus. change (inject_Z (- (1))) with (-1)%Q in *. change (inject_Z (- (3))) with (-3)%Q.
  change (inject_Z 1) with 1%Q in *. change (inject_Z 3) with 3%Q. lra.
Qed.

(** One step moves a coordinate by less than a signed byte holds. *)
Lemma point_step s : 0 ≤ s < NUMBER_OF_STEPS → -127 ≤ point f ((s + 1) mod NUMBER_OF_STEPS) - point f s ≤ 127.
Proof using All.
  intros Hs. pose proof (for_all_steps _ s smooth Hs) as H. cbn beta in H. rewrite Z.leb_le in H.
  destruct (position_near s Hs) as (p & t & Hp & Ht & Hpt & _).
  destruct (position_near ((s + 1) mod NUMBER_OF_STEPS)) as (p' & t' & Hp' & Ht' & Hpt' & _); [by apply Z.mod_pos_bound|].
  rewrite Ht, Ht' in H. cbn [default from_option id] in H. unfold point. rewrite Hp, Hp'. lia.
Qed.
End point.

Section circle.
Context (cos sin : f64 → f64) `{!CircleLibm cos sin}.

Lemma x_near s : 0 ≤ s < NUMBER_OF_STEPS →
  ∃ p t, position cos (angle s) = Val p ∧ points_x !! Z.to_nat s = Some t ∧ t - 2 ≤ p ≤ t + 2 ∧ near_coordinate cos_series s p.
Proof using All. apply (position_near cos cos_series points_x); [apply cos_accurate|apply all_x_fit|done|vm_compute; reflexivity]. Qed.

Lemma y_near s : 0 ≤ s < NUMBER_OF_STEPS →
  ∃ p t, position sin (angle s) = Val p ∧ points_y !! Z.to_nat s = Some t ∧ t - 2 ≤ p ≤ t + 2 ∧ near_coordinate sin_series s p.
Proof using All. apply (position_near sin sin_series points_y); [apply sin_accurate|apply all_y_fit|done|vm_compute; reflexivity]. Qed.

Lemma x_ok s : 0 ≤ s < NUMBER_OF_STEPS → position cos (angle s) = Val (point cos s).
Proof using All. intros Hs. destruct (x_near s Hs) as (p & _ & Hp & _). unfold point. by rewrite Hp. Qed.

Lemma y_ok s : 0 ≤ s < NUMBER_OF_STEPS → position sin (angle s) = Val (point sin s).
Proof using All. intros Hs. destruct (y_near s Hs) as (p & _ & Hp & _). unfold point. by rewrite Hp. Qed.

Lemma near_coordinate_in (c : Q → Q) s p t :
  near_coordinate c s p → t - 2 ≤ p ≤ t + 2 → p ∈ filter (near_coordinateb c s) (seqZ (t - 2) 5).
Proof using.
  intros [H1 H2] Hp. apply list_elem_of_filter. split; [|apply elem_of_seqZ; lia].
  apply Is_true_true, andb_true_iff. by rewrite !Qle_bool_iff.
Qed.

(** The point of a step is near the circle. *)
Lemma point_on_circle s : 0 ≤ s < NUMBER_OF_STEPS → on_circle s (point cos s, point sin s).
Proof using All.
  intros Hs. destruct (x_near s Hs) as (x & t & Hx & Ht & Hxt & Hnx), (y_near s Hs) as (y & u & Hy & Hu & Hyu & Hny).
  unfold on_circle, point. rewrite Hx, Hy. cbn [fst snd]. split; [|by split].
  pose proof (for_all_steps _ s all_distances_fit Hs) as H. unfold distance_fits in H. rewrite Ht, Hu in H.
  rewrite forallb_forall in H. specialize (H x). rewrite forallb_forall in H.
  rewrite <-!Z.leb_le, <-andb_true_iff. apply H; apply list_elem_of_In; by apply near_coordinate_in.
Qed.

Lemma x_step s : 0 ≤ s < NUMBER_OF_STEPS → -127 ≤ point cos ((s + 1) mod NUMBER_OF_STEPS) - point cos s ≤ 127.
Proof using All.
  apply (point_step cos cos_series points_x); [apply cos_accurate|apply all_x_fit|done|vm_compute; reflexivity..].
Qed.

Lemma y_step s : 0 ≤ s < NUMBER_OF_STEPS → -127 ≤ point sin ((s + 1) mod NUMBER_OF_STEPS) - point sin s ≤ 127.
Proof using All.
  apply (point_step sin sin_series points_y); [apply sin_accurate|apply all_y_fit|done|vm_compute; reflexivity..].
Qed.
End circle.
(** ** A concrete library: four digits of the series *)

(** [r] cut to a multiple of [2 ^ -14]. *)
Definition four_digits (r : Q) : f64 := dmul (f64_of_Z (Qfloor (r * 16384))) (f64_literal 1 16384).

Definition cos_digits (x : f64) : f64 := four_digits (cos_series (f64_val x)).
Definition sin_digits (x : f64) : f64 := four_digits (sin_series (f64_val x)).

Lemma four_digits_near r : (-10000 <= r <= 10000)%Q →
  is_f64 (four_digits r) ∧ (r - (1 # 5000) <= f64_val (four_digits r) <= r + (1 # 5000))%Q.
Proof.
  intros Hr. unfold four_digits. set (n := Qfloor _). pose proof (Qfloor_le (r * 16384)) as H1. pose proof (Qlt_floor (r * 16384)) as H2.
  fold n in H1, H2. rewrite inject_Z_plus in H2. change (inject_Z 1) with 1%Q in H2.
  assert (-163840001 < n ∧ n < 163840001) as Hn.
  { rewrite !Zlt_Qlt. change (inject_Z (-163840001)) with (-163840001)%Q. change (inject_Z 163840001) with 163840001%Q. split; lra. }
  assert (- 2 ^ 53 ≤ n ≤ 2 ^ 53) as Hn53 by lia. destruct (f64_of_Z_val n Hn53) as [Hf Hfv].
  assert (is_f64 (f64_literal 1 16384)) as Hl by reflexivity.
  assert (f64_val (f64_literal 1 16384) == 1 # 16384)%Q as Hlv by reflexivity.
  set (f := f64_of_Z n) in *. set (l := f64_literal 1 16384) in *. clearbody f l.
  destruct (f64_signed_fixed n 14 Hn53) as (x & Hx & Hxv); [lia|]. change (pow2 (- (14))) with (1 # 16384)%Q in Hxv.
  assert (f64_val f * f64_val l == inject_Z n * (1 # 16384))%Q as Hv by (by rewrite Hfv, Hlv).
  assert (Float.rounds 53 1024 (f64_val f * f64_val l) (dmul f l)) as Hm.
  { apply dmul_rounds; [done|done|]. apply (f64_in_range_integers _ (-163840001) 163840001); [lia|lia|].
    rewrite Hv. change (inject_Z (-163840001)) with (-163840001)%Q. change (inject_Z 163840001) with 163840001%Q. split; lra. }
  split; [apply Hm|]. pose proof (f64_rounds_number _ _ x Hm Hx) as He. rewrite He; [|by rewrite Hv]. rewrite Hv. lra.
Qed.

(** The terms of the series one by one. *)
Fixpoint series_limit (k : positive) (n : nat) : Q :=
  match n with O => 1 | S n => 1 + 49 * (1 # (k * (k + 1))) * series_limit (k + 2) n end.

Lemma series_bound k n x2 : (0 <= x2 <= 49)%Q → (- series_limit k n <= series k n x2 <= series_limit k n)%Q.
Proof.
  intros Hx. revert k. induction n as [|n IH]; intros k; cbn [series series_limit]; [split; discriminate|].
  specialize (IH (k + 2)%positive). set (s := series _ _ _) in *. set (b := series_limit _ _) in *.
  assert (0 < 1 # (k * (k + 1)))%Q as Hq by done. set (q := 1 # (k * (k + 1))) in *. clearbody s b q.
  assert (0 <= x2 * q /\ x2 * q <= 49 * q)%Q as [H1 H2] by (split; nra). set (t := (x2 * q)%Q) in *. clearbody t.
  assert (- (49 * q * b) <= t * s <= 49 * q * b)%Q as [H3 H4] by (split; nra). lra.
Qed.

#[global] Instance digits_accurate : CircleLibm cos_digits sin_digits.
Proof.
  constructor; intros x _ Hx; apply four_digits_near;
    (assert (0 <= f64_val x * f64_val x <= 49)%Q as H2 by (split; nra)); unfold cos_series, sin_series.
  - pose proof (series_bound 1 12 _ H2) as H. assert (series_limit 1 12 <= 1000)%Q as Hb by (by apply Qle_bool_iff). lra.
  - pose proof (series_bound 2 12 _ H2) as H. assert (series_limit 2 12 <= 1000)%Q as Hb by (by apply Qle_bool_iff).
    set (s := series _ _ _) in *. clearbody s. split; nra.
Qed.
End Circle.
