(* ===== verification/MouseDevice.v ===== *)
(** * The mouse example device (src/usb_mouse)

    Descriptors, the control callback and the main loop, which moves the pointer along a
    circle by the difference of two points of it. The points come from [cos] and [sin] of
    the C library; they are a parameter, a function of the step. *)
From S2P Require Import Prelude DeviceStore Descriptors Host Control Silent DeviceRequests Float Float32 Float64 MouseCircle.

Module Mouse.
Import Circle.

(** ** Descriptors *)

Definition usb_strings : list usb_string_t := [
  {| id := 1; Host.string := Some (cstring "Virtual UsbIP"%string) |};
  {| id := 2; Host.string := Some (cstring "Virtual HID Mouse"%string) |};
  {| id := 4; Host.string := Some (cstring "ABC123"%string) |};
  {| id := 0; Host.string := None |} ].

Definition USB_VID : Z := 0xfa00.
Definition USB_PID : Z := 0x0002.

Definition usb_mouse_device : bytes := [
  USB_DEVICE_DESCRIPTOR_LENGTH; USB_DESCRIPTOR_TYPE_DEVICE;
  LOBYTE USB_BCD_VERSION; HIBYTE USB_BCD_VERSION;
  0x00; 0x00; 0x00; 64;
  LOBYTE USB_VID; HIBYTE USB_VID; LOBYTE USB_PID; HIBYTE USB_PID;
  LOBYTE USB_BCD_DEVICE_REL; HIBYTE USB_BCD_DEVICE_REL;
  1; 2; 4; 1 ].

Definition USB_MOUSE_CONFIG_DESC_LENGTH : Z := 34.
Definition HID_MOUSE_REPORT_DESC_LENGTH : Z := 50.
Definition USB_MOUSE_HID_EP_DATA_IN : Z := 0x81.
Definition USB_MOUSE_HID_POLL_INTERVAL : Z := 8.
Definition USB_HID_BCD : Z := 0x111.

Definition usb_mouse_configuration : bytes := [
  0x09; USB_DESCRIPTOR_TYPE_CONFIGURATION;
  LOBYTE USB_MOUSE_CONFIG_DESC_LENGTH; HIBYTE USB_MOUSE_CONFIG_DESC_LENGTH;
  0x01; 0x01; 0x00; 0xC0; 0x32;
  (* Descriptor of Mouse interface *)
  0x09; USB_DESCRIPTOR_TYPE_INTERFACE; 0x00; 0x00; 0x01; 0x03; 0x01; 0x02; 0;
  (* Descriptor of Mouse HID *)
  0x09; USB_DESCRIPTOR_TYPE_HID; LOBYTE USB_HID_BCD; HIBYTE USB_HID_BCD; 0x00; 0x01;
  USB_DESCRIPTOR_TYPE_REPORT; LOBYTE HID_MOUSE_REPORT_DESC_LENGTH; HIBYTE HID_MOUSE_REPORT_DESC_LENGTH;
  (* Descriptor of Mouse endpoint *)
  0x07; USB_DESCRIPTOR_TYPE_ENDPOINT; USB_MOUSE_HID_EP_DATA_IN; 0x03; 0x04; 0x00;
  USB_MOUSE_HID_POLL_INTERVAL ].

Definition USB_LANGID_STRING : Z := 0x409.
Definition USB_LANGID_DESC_LENGTH : Z := 4.

Definition langid_desc : bytes := [
  USB_LANGID_DESC_LENGTH; USB_DESCRIPTOR_TYPE_STRING;
  LOBYTE USB_LANGID_STRING; HIBYTE USB_LANGID_STRING ].

Definition usb_mouse_hid_report : bytes := [
  0x05; 0x01; 0x09; 0x02; 0xa1; 0x01; 0x09; 0x01; 0xa1; 0x00; 0x05; 0x09;
  0x19; 0x01; 0x29; 0x03; 0x15; 0x00; 0x25; 0x01; 0x75; 0x01; 0x95; 0x03;
  0x81; 0x02; 0x95; 0x01; 0x75; 0x05; 0x81; 0x01; 0x05; 0x01; 0x09; 0x30;
  0x09; 0x31; 0x15; 0x81; 0x25; 0x7f; 0x75; 0x08; 0x95; 0x03; 0x81; 0x06;
  0xc0; 0xc0 ].

(** ** Callback and device *)

(** The program has no static variables. *)
Definition state : Type := unit.

Definition control_data (setup data : bytes) (data_length : Z) : M (host state) unit :=
  let* bRequestType := liftC (arr_get setup 0) in
  let* bRequest := liftC (arr_get setup 1) in
  if (bRequestType =? 0x81) && (bRequest =? USB_REQUEST_GET_DESCRIPTOR) then
    let* s3 := liftC (arr_get setup 3) in
    if s3 =? USB_DESCRIPTOR_TYPE_REPORT then transmit_report usb_mouse_hid_report setup else ret tt
  else ret tt.

Definition mouse_device : usbip_device_t state := {|
  device_desc := usb_mouse_device;
  config_desc := usb_mouse_configuration;
  Host.langid_desc := langid_desc;
  Host.usb_strings := Some usb_strings;
  control_data_callback := control_data;
  ep_data_callback := None;
  reset_callback := None;
  iso_in_callback := None |}.

(** ** Main loop *)

(** [int16_t] from the low 16 bits, and the host's reading of an 8-bit signed field. *)
Definition s16 (v : Z) : Z := if u16 v <? 2 ^ 15 then u16 v else u16 v - 2 ^ 16.
Definition s8 (v : Z) : Z := if u8 v <? 2 ^ 7 then u8 v else u8 v - 2 ^ 8.

Definition next_step (step_counter : Z) : Z :=
  let step_counter := u16 (step_counter + 1) in
  if NUMBER_OF_STEPS <=? step_counter then 0 else step_counter.

Section circle.
Context (cos sin : f64 → f64).

(** The report of two positions. *)
Definition out_buffer (old_pos_x old_pos_y new_pos_x new_pos_y : Z) : bytes :=
  let delta_x := s16 (new_pos_x - old_pos_x) in
  let delta_y := s16 (new_pos_y - old_pos_y) in
  [0; u8 delta_x; u8 delta_y; 0].

(** One round of the loop, from and to the value of [step_counter]. *)
Definition main_round (step_counter : Z) : M (host state) Z :=
  let old_angle := angle step_counter in
  let* old_pos_x := liftC (position cos old_angle) in
  let* old_pos_y := liftC (position sin old_angle) in
  let step_counter := next_step step_counter in
  let new_angle := angle step_counter in
  let* new_pos_x := liftC (position cos new_angle) in
  let* new_pos_y := liftC (position sin new_angle) in
  in_lib (usbip_device_transmit other_thread USB_MOUSE_HID_EP_DATA_IN
            (out_buffer old_pos_x old_pos_y new_pos_x new_pos_y) 4);;
  ret step_counter.

(** ** Reference: the host's pointer *)

(** A boot mouse report moves the pointer by two signed bytes. *)
Definition move_pointer (at_ : Z * Z) (report : bytes) : Z * Z :=
  match report with
  | _ :: dx :: dy :: _ => (at_.1 + s8 dx, at_.2 + s8 dy)
  | _ => at_
  end.

(** The host polls the endpoint once in each round. *)
Fixpoint tracked (rounds : nat) (step_counter : Z) (pointer : Z * Z) : M (host state) (Z * (Z * Z)) :=
  match rounds with
  | O => ret (step_counter, pointer)
  | S rounds =>
      let* step_counter := main_round step_counter in
      let* report := host_poll USB_MOUSE_HID_EP_DATA_IN 4 in
      tracked rounds step_counter (move_pointer pointer report)
  end.
End circle.

Definition inv (s : state) : Prop := True.

Definition initial_host : host state :=
  {| dev := tt; lib := initial_device_state;
     clk := {| readings := []; last_reading := {| tv_sec := 0; tv_nsec := 0 |} |} |}.

(** * Theorems *)

Lemma mouse_report_bytes : Forall is_byte usb_mouse_hid_report ∧ blen usb_mouse_hid_report = HID_MOUSE_REPORT_DESC_LENGTH.
Proof. split; [apply (bool_decide_eq_true_1 _); vm_compute|]; reflexivity. Qed.

#[global] Instance mouse_sound : DeviceSound inv mouse_device.
Proof.
  apply device_sound; [vm_compute; reflexivity| |done..].
  intros setup data len Hs Hb _ h Hh Hl. change (control_data_callback mouse_device) with control_data.
  unfold control_data. wp_byte s0 _.
  wp_byte s1 _. destruct (_ && _); [|by apply wp_ret].
  wp_byte s3 _. destruct (_ =? _); [|by apply wp_ret].
  eapply wp_post; [by apply (transmit_report_ok inv); [..|apply mouse_report_bytes]|]. naive_solver.
Qed.

#[global] Instance mouse_silent : SilentDevice mouse_device.
Proof. constructor; [|done..]. intros. cbn. unfold control_data. keeps. Qed.

Lemma mouse_host_idle : host_idle inv initial_host.
Proof. split; [split; [done|apply wf_initial_device_state]|done]. Qed.

Lemma s8_u8 v : -128 ≤ v < 128 → s8 (u8 v) = v.
Proof. intros Hv. unfold s8, u8. rewrite Z.mod_mod by done. destruct (Z.ltb_spec (v mod 2 ^ 8) (2 ^ 7)); Z.div_mod_to_equations; lia. Qed.

Lemma s16_id v : -32768 ≤ v < 32768 → s16 v = v.
Proof. intros Hv. unfold s16, u16. destruct (Z.ltb_spec (v mod 2 ^ 16) (2 ^ 15)); Z.div_mod_to_equations; lia. Qed.

Lemma next_step_mod s : 0 ≤ s < NUMBER_OF_STEPS → next_step s = (s + 1) mod NUMBER_OF_STEPS.
Proof.
  intros Hs. change NUMBER_OF_STEPS with 62 in *. unfold next_step, u16. change NUMBER_OF_STEPS with 62.
  destruct (Z.leb_spec 62 ((s + 1) mod 2 ^ 16)); Z.div_mod_to_equations; lia.
Qed.

Section circle.
Context (cos sin : f64 → f64) `{!CircleLibm cos sin}.

Lemma out_buffer_bytes a b c d : Forall is_byte (out_buffer a b c d).
Proof using. repeat constructor; try done; by apply Z.mod_pos_bound. Qed.

(** The report of a step moves the pointer by the difference of two points. *)
Definition step_report (s : Z) : bytes :=
  out_buffer (point cos s) (point sin s) (point cos (next_step s)) (point sin (next_step s)).

Lemma main_round_eq s (h : host state) : 0 ≤ s < NUMBER_OF_STEPS →
  main_round cos sin s h =
    (in_lib (usbip_device_transmit other_thread USB_MOUSE_HID_EP_DATA_IN (step_report s) 4);; ret (next_step s)) h.
Proof using All.
  intros Hs. assert (0 ≤ next_step s < NUMBER_OF_STEPS) as Hn by (rewrite next_step_mod by done; by apply Z.mod_pos_bound).
  unfold main_round, step_report. pose proof (x_ok cos sin s Hs) as Hx. pose proof (y_ok cos sin s Hs) as Hy.
  pose proof (x_ok cos sin _ Hn) as Hx'. pose proof (y_ok cos sin _ Hn) as Hy'.
  unfold bind at 1. rewrite Hx. cbn [liftC]. unfold bind at 1. rewrite Hy. cbn [liftC].
  unfold bind at 1. rewrite Hx'. cbn [liftC]. unfold bind at 1. by rewrite Hy'.
Qed.

Lemma move_pointer_out s pointer : 0 ≤ s < NUMBER_OF_STEPS →
  move_pointer pointer (step_report s) =
    (pointer.1 + (point cos (next_step s) - point cos s), pointer.2 + (point sin (next_step s) - point sin s)).
Proof using All.
  intros Hs. pose proof (x_step cos sin s Hs). pose proof (y_step cos sin s Hs). unfold step_report, out_buffer, move_pointer.
  rewrite (next_step_mod s Hs) in *. rewrite !s16_id, !s8_u8 by lia. done.
Qed.

Lemma tracked_spec rounds s pointer h :
  endpoint_free inv USB_MOUSE_HID_EP_DATA_IN h → 0 ≤ s < NUMBER_OF_STEPS →
  let t := (s + Z.of_nat rounds) mod NUMBER_OF_STEPS in
  ∃ h', tracked cos sin rounds s pointer h =
          Ok (t, (pointer.1 + (point cos t - point cos s), pointer.2 + (point sin t - point sin s))) h'
    ∧ endpoint_free inv USB_MOUSE_HID_EP_DATA_IN h'.
Proof using All.
  revert s pointer h. induction rounds as [|rounds IH]; intros s [x y] h Hh Hs t.
  - exists h. split; [|done]. unfold t. cbn [tracked ret Z.of_nat]. rewrite Z.add_0_r, Z.mod_small by done.
    cbn [fst snd ret]. do 3 f_equal; lia.
  - destruct (report_round inv USB_MOUSE_HID_EP_DATA_IN (step_report s) 4 h Hh) as (h1 & h2 & H1 & H2 & Hh2 & _);
      [done|apply out_buffer_bytes|discriminate|discriminate|].
    pose proof (next_step_mod s Hs) as Hn. assert (0 ≤ next_step s < NUMBER_OF_STEPS) as Hs2
      by (rewrite Hn; by apply Z.mod_pos_bound).
    destruct (IH (next_step s) (move_pointer (x, y) (step_report s)) h2 Hh2 Hs2) as (h3 & H3 & Hh3).
    exists h3. split; [|done]. cbn [tracked]. unfold bind at 1. rewrite main_round_eq by done. unfold bind. change 4 with (blen (step_report s)) at 1. rewrite H1. cbn [ret]. rewrite H2, H3.
    assert ((next_step s + Z.of_nat rounds) mod NUMBER_OF_STEPS = t) as Ht.
    { rewrite Hn, Zplus_mod_idemp_l. unfold t. f_equal. lia. }
    rewrite Ht, move_pointer_out by done. cbn [fst snd ret]. do 3 f_equal; lia.
Qed.

(** C38: the pointer stays on the circle: however many rounds a polling host follows, its
    pointer has moved by exactly the difference between the point of the current step and
    the one it started from, so no rounding accumulates and a full lap ends where it began;
    and every computed point lies at most 3/2 from the circle of radius 200, each of its
    coordinates at most 21/20 from the exact one for the angle of its step, for every
    [cos] and [sin] of four good digits. *)
Theorem pointer_follows_the_circle rounds s pointer h :
  endpoint_free inv USB_MOUSE_HID_EP_DATA_IN h → 0 ≤ s < NUMBER_OF_STEPS →
  let t := (s + Z.of_nat rounds) mod NUMBER_OF_STEPS in
  ∃ h', tracked cos sin rounds s pointer h =
          Ok (t, (pointer.1 + (point cos t - point cos s), pointer.2 + (point sin t - point sin s))) h'
    ∧ endpoint_free inv USB_MOUSE_HID_EP_DATA_IN h'
    ∧ on_circle s (point cos s, point sin s) ∧ on_circle t (point cos t, point sin t).
Proof using All.
  intros Hh Hs t. assert (0 ≤ t < NUMBER_OF_STEPS) as Ht by (by apply Z.mod_pos_bound).
  destruct (tracked_spec rounds s pointer h Hh Hs) as (h' & H & Hh'). exists h'. split; [done|]. split; [done|].
  by split; apply point_on_circle.
Qed.
End circle.

(** The points of the circle as the library below computes them. *)
Lemma pointer_follows_the_circle_witness :
  ∃ h', tracked cos_digits sin_digits 62 0 (500, 400) initial_host = Ok (0, (500, 400)) h'.
Proof.
  destruct (pointer_follows_the_circle cos_digits sin_digits 62 0 (500, 400) initial_host) as (h' & H & _).
  - split; [apply mouse_host_idle|]. split; vm_compute; reflexivity.
  - split; [discriminate|reflexivity].
  - exists h'. rewrite H. change ((0 + Z.of_nat 62) mod NUMBER_OF_STEPS) with 0. cbn [fst snd].
    generalize (point cos_digits 0), (point sin_digits 0). intros px py. do 3 f_equal; lia.
Defined.
End Mouse.
