(* ===== verification/AudioSynth.v ===== *)
(** * The synthesiser of the audio input device (src/usb_audio_input/usb_audio_input_device.c)

    The single precision arithmetic of [next_sample], with [sinf] and [powf] of the C
    library as parameters, and the ranges of everything it computes: the conversion to
    [int16_t] is defined, and the pulse stays under its envelope. *)
From Stdlib Require Import SpecFloat QArith Lqa.
From S2P Require Import Prelude Float Float32.

Module Synth.

Definition AUDIO_SAMPLE_RATE : Z := 48000.

Definition TWO_PI : f32 := f32_literal 628318530718 100000000000.
Definition PULSE_PERIOD_SAMPLES : Z := AUDIO_SAMPLE_RATE.
Definition PULSE_LENGTH_SAMPLES : Z := AUDIO_SAMPLE_RATE * 4 / 10.
Definition PULSE_ATTACK_SAMPLES : Z := AUDIO_SAMPLE_RATE / 100.
Definition SWEEP_START_HZ : f32 := f32_literal 220 1.
Definition SWEEP_END_HZ : f32 := f32_literal 1760 1.
Definition WARBLE_HZ : f32 := f32_literal 30 1.
Definition WARBLE_DEPTH : f32 := f32_literal 15 100.
Definition PEAK_AMPLITUDE : f32 := fmul (f32_literal 5 10) (f32_literal 32767 1).

Definition zero : f32 := S754_zero false.
Definition one : f32 := f32_literal 1 1.

(** What the synthesiser relies on: [sinf] stays between -1 and 1, and [powf] raises the
    octaves of the sweep to a fraction without leaving twice their range. *)
Class LibmRange (sinf : f32 → f32) (powf : f32 → f32 → f32) : Prop := {
  sinf_range x : is_f32 x → within (-1) 1 (sinf x);
  powf_range y : within 0 1 y → within 0 16 (powf (fdiv SWEEP_END_HZ SWEEP_START_HZ) y);
}.

Section synthesiser.
Context (sinf : f32 → f32) (powf : f32 → f32 → f32).

Definition progress (sample_index : Z) : f32 := fdiv (f32_of_Z sample_index) (f32_of_Z PULSE_LENGTH_SAMPLES).

(** The phase after the sample. *)
Definition next_phase (sample_index : Z) (phase : f32) : f32 :=
  let time_s := fdiv (f32_of_Z sample_index) (f32_of_Z AUDIO_SAMPLE_RATE) in
  let frequency := fmul SWEEP_START_HZ (powf (fdiv SWEEP_END_HZ SWEEP_START_HZ) (progress sample_index)) in
  let frequency := fmul frequency (fadd one (fmul WARBLE_DEPTH (sinf (fmul (fmul TWO_PI WARBLE_HZ) time_s)))) in
  let phase := fadd phase (fdiv (fmul TWO_PI frequency) (f32_of_Z AUDIO_SAMPLE_RATE)) in
  if fgt phase TWO_PI then fsub phase TWO_PI else phase.

Definition envelope (sample_index : Z) : f32 :=
  let envelope := fsub one (progress sample_index) in
  if sample_index <? PULSE_ATTACK_SAMPLES
  then fmul envelope (fdiv (f32_of_Z sample_index) (f32_of_Z PULSE_ATTACK_SAMPLES)) else envelope.

(** The value and the phase of the sample at an index. *)
Definition synthesise (sample_index : Z) (phase : f32) : f32 * f32 :=
  if sample_index <? PULSE_LENGTH_SAMPLES then
    let phase := next_phase sample_index phase in (fmul (envelope sample_index) (sinf phase), phase)
  else (zero, phase).

(** The sample, scaled and converted. *)
Definition to_sample (value : f32) : option Z := int16_of_float (fmul value PEAK_AMPLITUDE).

(** ** Reference: the envelope

    A rise to the peak in the first hundredth of a second and a fall to silence at the end
    of the pulse, in exact arithmetic. *)
Definition loudest (sample_index : Z) : Z :=
  if PULSE_LENGTH_SAMPLES <=? sample_index then 0
  else
    let fade := 16384 * (PULSE_LENGTH_SAMPLES - sample_index) in
    if sample_index <? PULSE_ATTACK_SAMPLES
    then fade * sample_index / (PULSE_LENGTH_SAMPLES * PULSE_ATTACK_SAMPLES)
    else fade / PULSE_LENGTH_SAMPLES.

(** * Theorems *)

Lemma index_val i : 0 ≤ i < PULSE_LENGTH_SAMPLES → is_f32 (f32_of_Z i) ∧ (f32_val (f32_of_Z i) == inject_Z i)%Q
  ∧ (0 <= inject_Z i)%Q ∧ (inject_Z i <= 19200)%Q.
Proof.
  intros Hi. change PULSE_LENGTH_SAMPLES with 19200 in Hi. assert (- 2 ^ 24 ≤ i ≤ 2 ^ 24) as Hi24 by lia. destruct (f32_of_Z_val i Hi24) as [H1 H2].
  split; [done|]. split; [done|]. split; [apply inject_nonneg; lia|]. change 19200%Q with (inject_Z 19200). rewrite <-Zle_Qle. lia.
Qed.

(** A constant of the sources is a number, with the value on the right. *)
Ltac f32_const c v := assert (is_f32 c ∧ (f32_val c == v)%Q) as [? ?] by (split; reflexivity).

(** Integer bounds as rationals. *)
Ltac q_consts :=
  repeat match goal with
    | |- context [inject_Z (Zpos ?p)] => change (inject_Z (Zpos p)) with (Zpos p # 1)%Q
    | |- context [inject_Z (Zneg ?p)] => change (inject_Z (Zneg p)) with (Zneg p # 1)%Q
    | |- context [inject_Z 0] => change (inject_Z 0) with 0%Q
    end.

(** The premises of the range lemmas. *)
Ltac ranged := first [assumption | lia | q_consts; first [lra | nra]].

Lemma fraction_range i n : 0 ≤ i < PULSE_LENGTH_SAMPLES → i ≤ n ≤ 2 ^ 24 → 0 < n → within 0 1 (fdiv (f32_of_Z i) (f32_of_Z n)).
Proof.
  intros (H1 & H2 & H3 & H4)%index_val Hn Hpos. destruct (f32_of_Z_val n) as [H5 H6]; [lia|].
  assert (0 < inject_Z n)%Q as H7 by (change 0%Q with (inject_Z 0); by rewrite <-Zlt_Qlt).
  assert (inject_Z i <= inject_Z n)%Q as H8 by (rewrite <-Zle_Qle; lia).
  apply (fdiv_range _ _ 0 1); ranged.
Qed.

Lemma progress_range i : 0 ≤ i < PULSE_LENGTH_SAMPLES → within 0 1 (progress i).
Proof. intros Hi. apply fraction_range; [done| |done]. change PULSE_LENGTH_SAMPLES with 19200 in *. lia. Qed.

(** The factor of the warble, and what it is computed from. *)
Definition warble (i : Z) : f32 :=
  fadd one (fmul WARBLE_DEPTH (sinf (fmul (fmul TWO_PI WARBLE_HZ) (fdiv (f32_of_Z i) (f32_of_Z AUDIO_SAMPLE_RATE))))).

(** What the next phase adds to the phase, before a full turn is taken off. *)
Definition phase_step (i : Z) : f32 :=
  fdiv (fmul TWO_PI (fmul (fmul SWEEP_START_HZ (powf (fdiv SWEEP_END_HZ SWEEP_START_HZ) (progress i))) (warble i)))
    (f32_of_Z AUDIO_SAMPLE_RATE).

Context `{!LibmRange sinf powf}.

(** A constant is a number between two others. *)
Lemma constant_within c lo hi : is_f32 c → Qle_bool lo (f32_val c) && Qle_bool (f32_val c) hi = true → within lo hi c.
Proof using. intros Hc [H1%Qle_bool_iff H2%Qle_bool_iff]%andb_true_iff. by split. Qed.

Lemma warble_range i : 0 ≤ i < PULSE_LENGTH_SAMPLES → within 0 2 (warble i).
Proof using All.
  intros Hi. destruct (fraction_range i AUDIO_SAMPLE_RATE Hi) as [Ht Htv];
    [change PULSE_LENGTH_SAMPLES with 19200 in Hi; change AUDIO_SAMPLE_RATE with 48000; lia|done|].
  unfold warble. set (time_s := fdiv _ _) in *.
  destruct (constant_within (fmul TWO_PI WARBLE_HZ) 0 200) as [Hc Hcv]; [reflexivity|reflexivity|].
  destruct (constant_within WARBLE_DEPTH 0 1) as [Hd Hdv]; [reflexivity|reflexivity|].
  destruct (constant_within one 1 1) as [Ho Hov]; [reflexivity|reflexivity|].
  destruct (fmul_range (fmul TWO_PI WARBLE_HZ) time_s 0 200) as [Ha _]; [ranged..|].
  destruct (sinf_range _ Ha) as [Hs Hsv]. set (s := sinf _) in *.
  destruct (fmul_range WARBLE_DEPTH s (-1) 1) as [Hm Hmv]; [ranged..|].
  change (inject_Z (-1)) with (-1)%Q in Hmv. change (inject_Z 1) with 1%Q in Hmv.
  apply (fadd_range _ _ 0 2); ranged.
Qed.

Lemma phase_step_range i : 0 ≤ i < PULSE_LENGTH_SAMPLES → within 0 2 (phase_step i).
Proof using All.
  intros Hi. destruct (warble_range i Hi) as [Hw Hwv]. destruct (powf_range _ (progress_range i Hi)) as [Hp Hpv].
  unfold phase_step. set (w := warble i) in *. set (p := powf _ _) in *.
  destruct (constant_within TWO_PI 0 7) as [Ht Htv]; [reflexivity|reflexivity|].
  destruct (constant_within SWEEP_START_HZ 0 220) as [Hs Hsv]; [reflexivity|reflexivity|].
  destruct (constant_within (f32_of_Z AUDIO_SAMPLE_RATE) 48000 48000) as [Hr Hrv]; [reflexivity|reflexivity|].
  destruct (fmul_range SWEEP_START_HZ p 0 3520) as [H1 H1v]; [ranged..|].
  change (inject_Z 0) with 0%Q in H1v. change (inject_Z 3520) with 3520%Q in H1v.
  destruct (fmul_range (fmul SWEEP_START_HZ p) w 0 7040) as [H2 H2v]; [ranged..|].
  change (inject_Z 0) with 0%Q in H2v. change (inject_Z 7040) with 7040%Q in H2v.
  destruct (fmul_range TWO_PI (fmul (fmul SWEEP_START_HZ p) w) 0 49280) as [H3 H3v]; [ranged..|].
  change (inject_Z 0) with 0%Q in H3v. change (inject_Z 49280) with 49280%Q in H3v.
  apply (fdiv_range _ _ 0 2); ranged.
Qed.

(** The phase stays within a turn. *)
Definition phase_ok (phase : f32) : Prop := within 0 (f32_val TWO_PI) phase.

Lemma next_phase_ok i phase : 0 ≤ i < PULSE_LENGTH_SAMPLES → phase_ok phase → phase_ok (next_phase i phase).
Proof using All.
  intros Hi [Hp Hpv]. destruct (phase_step_range i Hi) as [Hs Hsv].
  change (next_phase i phase) with (let phase := fadd phase (phase_step i) in if fgt phase TWO_PI then fsub phase TWO_PI else phase).
  set (step := phase_step i) in *. cbv zeta.
  destruct (constant_within TWO_PI 6 7) as [Ht Htv]; [reflexivity|reflexivity|].
  destruct (fadd_range phase step 0 9) as [H1 H1v]; [ranged..|].
  change (inject_Z 0) with 0%Q in H1v. change (inject_Z 9) with 9%Q in H1v.
  pose proof (fgt_spec (fadd phase step) TWO_PI H1 Ht) as Hgt. destruct (fgt _ _).
  - destruct (fsub_range (fadd phase step) TWO_PI 0 3) as [H2 H2v]; [ranged..|].
    change (inject_Z 0) with 0%Q in H2v. change (inject_Z 3) with 3%Q in H2v. split; [done|]. lra.
  - split; [done|]. lra.
Qed.

(** ** The envelope *)

(** The fade: how far the computed one is from a straight line. *)
Lemma fade_range i : 0 ≤ i < PULSE_LENGTH_SAMPLES →
  within 0 1 (fsub one (progress i)) ∧ (f32_val (fsub one (progress i)) <= 1 - inject_Z i / 19200 + 2 * pow2 (- (24)))%Q.
Proof using.
  intros Hi. destruct (progress_range i Hi) as [Hp Hpv].
  destruct (index_val i Hi) as (H1 & H2 & H3 & H4).
  destruct (constant_within one 1 1) as [Ho Hov]; [reflexivity|reflexivity|].
  destruct (constant_within (f32_of_Z PULSE_LENGTH_SAMPLES) 19200 19200) as [Hl Hlv]; [reflexivity|reflexivity|].
  assert (f32_val (f32_of_Z PULSE_LENGTH_SAMPLES) == 19200)%Q as Hle by lra.
  assert (f32_val (f32_of_Z i) / f32_val (f32_of_Z PULSE_LENGTH_SAMPLES) == inject_Z i / 19200)%Q as Hq by (by rewrite H2, Hle).
  assert (0 <= inject_Z i / 19200 /\ inject_Z i / 19200 <= 1)%Q as [Hq0 Hq1]
    by (split; [apply Qle_shift_div_l|apply Qle_shift_div_r]; lra).
  destruct (rounds_error (inject_Z i / 19200) (progress i)) as [_ [Hlo _]]; [|by split|].
  { eapply rounds_eq; [exact Hq|]. apply fdiv_rounds; [done|done|rewrite Hle; discriminate|].
    apply (in_range_integers _ 0 1); [done|done|]. rewrite Hq. by split. }
  destruct (rounds_error (f32_val one - f32_val (progress i)) (fsub one (progress i))) as [Hw [_ Hup]]; [|split; lra|].
  { apply fsub_rounds; [done|done|]. apply (in_range_integers _ 0 1); [done|done|]. q_consts. lra. }
  split; [done|]. lra.
Qed.

Lemma attack_range i : 0 ≤ i < PULSE_ATTACK_SAMPLES →
  within 0 1 (envelope i)
  ∧ (f32_val (envelope i) <= (1 - inject_Z i / 19200 + 2 * pow2 (- (24))) * (inject_Z i / 480 + pow2 (- (24))) + pow2 (- (24)))%Q.
Proof using.
  intros Hi. assert (0 ≤ i < PULSE_LENGTH_SAMPLES) as Hi' by
    (change PULSE_ATTACK_SAMPLES with 480 in Hi; change PULSE_LENGTH_SAMPLES with 19200; lia).
  unfold envelope. rewrite (proj2 (Z.ltb_lt _ _)) by apply Hi.
  destruct (fade_range i Hi') as [[Hf Hfv] Hf']. set (fade := fsub _ _) in *.
  destruct (index_val i Hi') as (H1 & H2 & H3 & _).
  destruct (constant_within (f32_of_Z PULSE_ATTACK_SAMPLES) 480 480) as [Hl Hlv]; [reflexivity|reflexivity|].
  assert (f32_val (f32_of_Z PULSE_ATTACK_SAMPLES) == 480)%Q as Hle by lra.
  assert (inject_Z i <= 480)%Q as H4 by (change 480%Q with (inject_Z PULSE_ATTACK_SAMPLES); rewrite <-Zle_Qle; lia).
  assert (f32_val (f32_of_Z i) / f32_val (f32_of_Z PULSE_ATTACK_SAMPLES) == inject_Z i / 480)%Q as Hq by (by rewrite H2, Hle).
  assert (0 <= inject_Z i / 480 /\ inject_Z i / 480 <= 1)%Q as [Hq0 Hq1]
    by (split; [apply Qle_shift_div_l|apply Qle_shift_div_r]; lra).
  destruct (rounds_error (inject_Z i / 480) (fdiv (f32_of_Z i) (f32_of_Z PULSE_ATTACK_SAMPLES))) as [[Ha Hav] [_ Hup]]; [|by split|].
  { eapply rounds_eq; [exact Hq|]. apply fdiv_rounds; [done|done|rewrite Hle; discriminate|].
    apply (in_range_integers _ 0 1); [done|done|]. rewrite Hq. by split. }
  set (attack := fdiv (f32_of_Z i) (f32_of_Z PULSE_ATTACK_SAMPLES)) in *. pose proof (pow2_pos (-24)) as Hp.
  assert (0 <= f32_val fade * f32_val attack /\ f32_val fade * f32_val attack <= 1)%Q as [Hm0 Hm1] by (split; nra).
  destruct (rounds_error (f32_val fade * f32_val attack) (fmul fade attack)) as [Hw [_ Hu]]; [|by split|].
  { apply fmul_rounds; [done|done|]. apply (in_range_integers _ 0 1); [done|done|by split]. }
  split; [done|]. assert (f32_val fade * f32_val attack <=
    (1 - inject_Z i / 19200 + 2 * pow2 (- (24))) * (inject_Z i / 480 + pow2 (- (24))))%Q as Hprod; [|lra].
  transitivity (f32_val fade * (inject_Z i / 480 + pow2 (- (24))))%Q.
  - rewrite !(Qmult_comm (f32_val fade)). apply Qmult_le_compat_r; [exact Hup|apply Hfv].
  - apply Qmult_le_compat_r; [done|]. lra.
Qed.

Lemma envelope_range i : 0 ≤ i < PULSE_LENGTH_SAMPLES → within 0 1 (envelope i).
Proof using.
  intros Hi. destruct (Z.ltb_spec i PULSE_ATTACK_SAMPLES) as [H|H]; [apply attack_range; lia|].
  unfold envelope. rewrite (proj2 (Z.ltb_ge _ _)) by done. by apply fade_range.
Qed.

Lemma loudest_fade i : PULSE_ATTACK_SAMPLES ≤ i < PULSE_LENGTH_SAMPLES →
  (16384 * (19200 - inject_Z i) + 256 <= 19200 * inject_Z (loudest i + 1))%Q.
Proof using.
  change PULSE_ATTACK_SAMPLES with 480. change PULSE_LENGTH_SAMPLES with 19200. intros Hi.
  assert (16384 * (19200 - i) + 256 ≤ 19200 * (loudest i + 1)) as H.
  { unfold loudest. change PULSE_ATTACK_SAMPLES with 480. change PULSE_LENGTH_SAMPLES with 19200.
    rewrite (proj2 (Z.leb_gt _ _)), (proj2 (Z.ltb_ge _ _)) by lia.
    pose proof (Z.div_mod (16384 * (19200 - i)) 19200). pose proof (Z.mod_pos_bound (16384 * (19200 - i)) 19200). lia. }
  rewrite Zle_Qle, inject_Z_plus, !inject_Z_mult in H. unfold Z.sub in H. rewrite inject_Z_plus, inject_Z_opp in H. exact H.
Qed.

Lemma loudest_attack i : 0 ≤ i < PULSE_ATTACK_SAMPLES →
  (16384 * (19200 - inject_Z i) * inject_Z i < 9216000 * inject_Z (loudest i + 1))%Q.
Proof using.
  change PULSE_ATTACK_SAMPLES with 480. intros Hi.
  assert (16384 * (19200 - i) * i < 9216000 * (loudest i + 1)) as H.
  { unfold loudest. change PULSE_ATTACK_SAMPLES with 480. change PULSE_LENGTH_SAMPLES with 19200.
    rewrite (proj2 (Z.leb_gt _ _)), (proj2 (Z.ltb_lt _ _)) by lia. change (19200 * 480) with 9216000.
    pose proof (Z.div_mod (16384 * (19200 - i) * i) 9216000). pose proof (Z.mod_pos_bound (16384 * (19200 - i) * i) 9216000). lia. }
  rewrite Zlt_Qlt, !inject_Z_mult in H. unfold Z.sub in H. rewrite inject_Z_plus, inject_Z_opp in H. exact H.
Qed.

Definition fits (i : Z) : Prop :=
  (f32_val (envelope i) * f32_val PEAK_AMPLITUDE <= inject_Z (loudest i + 1) - pow2 (-7))%Q.

(** The first samples, one by one. *)
Lemma attack_starts_fit i : 0 ≤ i < 16 → fits i.
Proof using.
  intros Hi. assert (forallb (λ i, Qle_bool (f32_val (envelope i) * f32_val PEAK_AMPLITUDE) (inject_Z (loudest i + 1) - pow2 (-7)))
    (seqZ 0 16) = true) as H by (vm_compute; reflexivity).
  rewrite forallb_forall in H. apply Qle_bool_iff, (H i). apply list_elem_of_In, elem_of_seqZ. lia.
Qed.

Lemma envelope_fits i : 0 ≤ i < PULSE_LENGTH_SAMPLES → fits i.
Proof using.
  intros Hi. unfold fits. assert (f32_val PEAK_AMPLITUDE == 32767 # 2)%Q as -> by reflexivity.
  assert (pow2 (-7) == 1 # 128)%Q as -> by reflexivity. assert (pow2 (- (24)) == 1 # 16777216)%Q as Hp by reflexivity.
  destruct (index_val i Hi) as (_ & _ & H0 & H1).
  assert (inject_Z i / 19200 == inject_Z i * (1 # 19200))%Q as Hx by reflexivity.
  assert (inject_Z i / 480 == inject_Z i * (1 # 480))%Q as Ha by reflexivity.
  destruct (Z.ltb_spec i PULSE_ATTACK_SAMPLES) as [H|H].
  - destruct (Z.ltb_spec i 16) as [Hs|Hs].
    { pose proof (attack_starts_fit i) as Hf. unfold fits in Hf.
      assert (f32_val PEAK_AMPLITUDE == 32767 # 2)%Q as Hpk by reflexivity. rewrite <-Hpk. apply Hf. lia. }
    destruct (attack_range i) as [_ Hv]; [lia|]. pose proof (loudest_attack i) as Hk.
    assert (16 <= inject_Z i)%Q as H2 by (change 16%Q with (inject_Z 16); rewrite <-Zle_Qle; lia).
    assert (inject_Z i <= 480)%Q as H3 by (change 480%Q with (inject_Z PULSE_ATTACK_SAMPLES); rewrite <-Zle_Qle; lia).
    specialize (Hk ltac:(lia)). rewrite Hx, Ha, Hp in Hv. set (e := f32_val _) in *. set (k := inject_Z (loudest i + 1)) in *.
    set (x := inject_Z i) in *. clearbody e k x. nra.
  - destruct (fade_range i Hi) as [_ Hv]. pose proof (loudest_fade i (conj H (proj2 Hi))) as Hk.
    unfold envelope. rewrite (proj2 (Z.ltb_ge _ _)) by done. rewrite Hx, Hp in Hv. lra.
Qed.

Lemma loudest_range i : 0 ≤ i → 0 ≤ loudest i ≤ 16384.
Proof using.
  intros Hi. unfold loudest. change PULSE_ATTACK_SAMPLES with 480. change PULSE_LENGTH_SAMPLES with 19200.
  change (19200 * 480) with 9216000. destruct (Z.leb_spec 19200 i) as [|Hl]; [lia|]. destruct (Z.ltb_spec i 480).
  - split; [apply Z.div_pos; nia|]. apply Z.div_le_upper_bound; nia.
  - split; [apply Z.div_pos; lia|]. apply Z.div_le_upper_bound; lia.
Qed.

(** A wave between -1 and 1 under an envelope. *)
Lemma scaled_sample i s :
  0 ≤ i < PULSE_LENGTH_SAMPLES → within (-1) 1 s → ∃ z, to_sample (fmul (envelope i) s) = Some z ∧ Z.abs z ≤ loudest i.
Proof using.
  intros Hi [Hs Hsv]. destruct (envelope_range i Hi) as [He Hev]. pose proof (envelope_fits i Hi) as Hfit.
  pose proof (loudest_range i (proj1 Hi)) as Hk. set (e := envelope i) in *. unfold fits in Hfit. fold e in Hfit.
  assert (f32_val PEAK_AMPLITUDE == 32767 # 2)%Q as Hpk by reflexivity.
  assert (is_f32 PEAK_AMPLITUDE) as Hp by reflexivity.
  assert (- f32_val e <= f32_val e * f32_val s <= f32_val e)%Q as Hes by (split; nra).
  destruct (rounds_within (f32_val e * f32_val s) (fmul e s) (SFopp e) e) as [Hv Hvv]; [|by apply is_f32_opp|done|by rewrite val_opp|].
  { apply fmul_rounds; [done|done|]. apply (in_range_integers _ (-1) 1); [done|done|]. q_consts. split; lra. }
  rewrite val_opp in Hvv.
  destruct (small_fixed (128 * (loudest i + 1) - 1) 7) as (b & Hb & Hbv); [lia|done|].
  assert (f32_val b == inject_Z (loudest i + 1) - pow2 (-7))%Q as Hbv'.
  { rewrite Hbv. unfold Z.sub. rewrite inject_Z_plus, inject_Z_mult. change (- (7)) with (-7).
    assert (pow2 (-7) == 1 # 128)%Q as -> by reflexivity. change (inject_Z 128) with 128%Q. change (inject_Z (- (1))) with (-1)%Q. lra. }
  pose proof (pow2_pos (-7)) as H7.
  assert (inject_Z (loudest i + 1) <= 16385)%Q as Hk' by (change 16385%Q with (inject_Z 16385); rewrite <-Zle_Qle; lia).
  destruct (rounds_within (f32_val (fmul e s) * f32_val PEAK_AMPLITUDE) (fmul (fmul e s) PEAK_AMPLITUDE) (SFopp b) b) as [Hr Hrv];
    [|by apply is_f32_opp|done| |].
  { apply fmul_rounds; [done|done|]. apply (in_range_integers _ (-16385) 16385); [done|done|]. q_consts. rewrite Hpk in *. split; nra. }
  { rewrite val_opp, Hbv'. rewrite Hpk in *. split; nra. }
  rewrite val_opp, Hbv' in Hrv.
  destruct (f32_int16_bound (fmul (fmul e s) PEAK_AMPLITUDE) (loudest i)) as (z & Hz & Hzb); [done|lia|split; lra|].
  exists z. split; [done|lia].
Qed.

(** Every sample is defined, under the envelope, and leaves the phase in its range. *)
Lemma sample_range i phase :
  0 ≤ i < PULSE_PERIOD_SAMPLES → phase_ok phase →
  let '(value, phase') := synthesise i phase in
  phase_ok phase' ∧ ∃ z, to_sample value = Some z ∧ Z.abs z ≤ loudest i.
Proof using All.
  intros Hi Hp. unfold synthesise. destruct (Z.ltb_spec i PULSE_LENGTH_SAMPLES) as [H|H].
  - assert (phase_ok (next_phase i phase)) as Hp' by (apply next_phase_ok; [lia|done]). split; [done|].
    apply scaled_sample; [lia|]. apply sinf_range, Hp'.
  - split; [done|]. exists 0. split; [reflexivity|]. apply loudest_range. lia.
Qed.
End synthesiser.
End Synth.
