(* ===== verification/AudioDevice.v ===== *)
(** * The audio input example device (src/usb_audio_input)

    Descriptors, the alternate setting of the streaming interface, and the isochronous
    callback that fills a packet with the next samples of the synthesiser ([AudioSynth]). *)
From S2P Require Import Prelude DeviceStore Descriptors Host Control Silent DeviceRequests Float Float32 AudioSynth.

Module Audio.
Import Synth.

(** ** Descriptors *)

Definition usb_strings : list usb_string_t := [
  {| id := 1; Host.string := Some (cstring "Virtual UsbIP"%string) |};
  {| id := 2; Host.string := Some (cstring "Virtual Audio Input"%string) |};
  {| id := 4; Host.string := Some (cstring "ABC123"%string) |};
  {| id := 0; Host.string := None |} ].

Definition USB_VID : Z := 0xfa00.
Definition USB_PID : Z := 0x0004.

Definition usb_device_descriptor : bytes := [
  USB_DEVICE_DESCRIPTOR_LENGTH; USB_DESCRIPTOR_TYPE_DEVICE;
  LOBYTE USB_BCD_VERSION; HIBYTE USB_BCD_VERSION;
  0x00; 0x00; 0x00; 64;
  LOBYTE USB_VID; HIBYTE USB_VID; LOBYTE USB_PID; HIBYTE USB_PID;
  LOBYTE USB_BCD_DEVICE_REL; HIBYTE USB_BCD_DEVICE_REL;
  1; 2; 4; 1 ].

Definition AUDIO_CHANNELS : Z := 1.
Definition AUDIO_BYTES_PER_SAMPLE : Z := 2.
Definition AUDIO_SAMPLES_PER_PACKET : Z := AUDIO_SAMPLE_RATE / 1000.
Definition AUDIO_PACKET_SIZE : Z := AUDIO_SAMPLES_PER_PACKET * AUDIO_CHANNELS * AUDIO_BYTES_PER_SAMPLE.
Definition AUDIO_EP_INTERVAL : Z := 4.
Definition AUDIO_EP_DATA_IN : Z := 0x81.
Definition AUDIO_CONTROL_INTERFACE : Z := 0.
Definition AUDIO_STREAMING_INTERFACE : Z := 1.
Definition AUDIO_INPUT_TERMINAL_ID : Z := 1.
Definition AUDIO_OUTPUT_TERMINAL_ID : Z := 2.

Definition USB_CLASS_AUDIO : Z := 0x01.
Definition USB_SUBCLASS_AUDIOCONTROL : Z := 0x01.
Definition USB_SUBCLASS_AUDIOSTREAMING : Z := 0x02.
Definition USB_DESCRIPTOR_TYPE_CS_INTERFACE : Z := 0x24.
Definition USB_DESCRIPTOR_TYPE_CS_ENDPOINT : Z := 0x25.
Definition UAC_HEADER : Z := 0x01.
Definition UAC_INPUT_TERMINAL : Z := 0x02.
Definition UAC_OUTPUT_TERMINAL : Z := 0x03.
Definition UAC_AS_GENERAL : Z := 0x01.
Definition UAC_FORMAT_TYPE : Z := 0x02.
Definition UAC_EP_GENERAL : Z := 0x01.
Definition UAC_TERMINAL_USB_STREAMING : Z := 0x0101.
Definition UAC_TERMINAL_MICROPHONE : Z := 0x0201.
Definition UAC_FORMAT_PCM : Z := 0x0001.
Definition UAC_FORMAT_TYPE_I : Z := 0x01.

Definition UAC_HEADER_LENGTH : Z := 9.
Definition UAC_INPUT_TERMINAL_LENGTH : Z := 12.
Definition UAC_OUTPUT_TERMINAL_LENGTH : Z := 9.
Definition AUDIO_CONTROL_CS_LENGTH : Z :=
  UAC_HEADER_LENGTH + UAC_INPUT_TERMINAL_LENGTH + UAC_OUTPUT_TERMINAL_LENGTH.
Definition USB_AUDIO_CONFIG_DESC_LENGTH : Z :=
  9 + 9 + AUDIO_CONTROL_CS_LENGTH + 9 + 9 + 7 + 11 + 9 + 7.

Definition usb_audio_configuration : bytes := [
  0x09; USB_DESCRIPTOR_TYPE_CONFIGURATION; LOBYTE USB_AUDIO_CONFIG_DESC_LENGTH;
  HIBYTE USB_AUDIO_CONFIG_DESC_LENGTH; 0x02; 0x01; 0x00; 0xC0; 0x32;
  (* Audio control interface *)
  0x09; USB_DESCRIPTOR_TYPE_INTERFACE; AUDIO_CONTROL_INTERFACE; 0x00; 0x00; USB_CLASS_AUDIO;
  USB_SUBCLASS_AUDIOCONTROL; 0x00; 0x00;
  (* Class specific audio control interface header *)
  UAC_HEADER_LENGTH; USB_DESCRIPTOR_TYPE_CS_INTERFACE; UAC_HEADER; 0x00; 0x01;
  LOBYTE AUDIO_CONTROL_CS_LENGTH; HIBYTE AUDIO_CONTROL_CS_LENGTH; 0x01;
  AUDIO_STREAMING_INTERFACE;
  (* Input terminal: the microphone *)
  UAC_INPUT_TERMINAL_LENGTH; USB_DESCRIPTOR_TYPE_CS_INTERFACE; UAC_INPUT_TERMINAL;
  AUDIO_INPUT_TERMINAL_ID; LOBYTE UAC_TERMINAL_MICROPHONE; HIBYTE UAC_TERMINAL_MICROPHONE; 0x00;
  AUDIO_CHANNELS; 0x00; 0x00; 0x00; 0x00;
  (* Output terminal: the USB stream to the host *)
  UAC_OUTPUT_TERMINAL_LENGTH; USB_DESCRIPTOR_TYPE_CS_INTERFACE; UAC_OUTPUT_TERMINAL;
  AUDIO_OUTPUT_TERMINAL_ID; LOBYTE UAC_TERMINAL_USB_STREAMING;
  HIBYTE UAC_TERMINAL_USB_STREAMING; 0x00; AUDIO_INPUT_TERMINAL_ID; 0x00;
  (* Audio streaming interface, alternate setting 0: no bandwidth while not recording *)
  0x09; USB_DESCRIPTOR_TYPE_INTERFACE; AUDIO_STREAMING_INTERFACE; 0x00; 0x00; USB_CLASS_AUDIO;
  USB_SUBCLASS_AUDIOSTREAMING; 0x00; 0x00;
  (* Audio streaming interface, alternate setting 1: streaming *)
  0x09; USB_DESCRIPTOR_TYPE_INTERFACE; AUDIO_STREAMING_INTERFACE; 0x01; 0x01; USB_CLASS_AUDIO;
  USB_SUBCLASS_AUDIOSTREAMING; 0x00; 0x00;
  (* Class specific audio streaming interface *)
  0x07; USB_DESCRIPTOR_TYPE_CS_INTERFACE; UAC_AS_GENERAL; AUDIO_OUTPUT_TERMINAL_ID; 0x01;
  LOBYTE UAC_FORMAT_PCM; HIBYTE UAC_FORMAT_PCM;
  (* Format type I: one channel, 16 bit samples, one sample rate *)
  0x0B; USB_DESCRIPTOR_TYPE_CS_INTERFACE; UAC_FORMAT_TYPE; UAC_FORMAT_TYPE_I; AUDIO_CHANNELS;
  AUDIO_BYTES_PER_SAMPLE; AUDIO_BYTES_PER_SAMPLE * 8; 0x01;
  Z.land (Z.shiftr AUDIO_SAMPLE_RATE 0) 0xff; Z.land (Z.shiftr AUDIO_SAMPLE_RATE 8) 0xff;
  Z.land (Z.shiftr AUDIO_SAMPLE_RATE 16) 0xff;
  (* Isochronous IN endpoint, audio class 1.0 endpoints have two extra bytes *)
  0x09; USB_DESCRIPTOR_TYPE_ENDPOINT; AUDIO_EP_DATA_IN; 0x05; LOBYTE AUDIO_PACKET_SIZE;
  HIBYTE AUDIO_PACKET_SIZE; AUDIO_EP_INTERVAL; 0x00; 0x00;
  (* Class specific isochronous endpoint *)
  0x07; USB_DESCRIPTOR_TYPE_CS_ENDPOINT; UAC_EP_GENERAL; 0x00; 0x00; 0x00; 0x00 ].

Definition USB_LANGID_STRING : Z := 0x409.
Definition USB_LANGID_DESC_LENGTH : Z := 4.

Definition langid_desc : bytes := [
  USB_LANGID_DESC_LENGTH; USB_DESCRIPTOR_TYPE_STRING;
  LOBYTE USB_LANGID_STRING; HIBYTE USB_LANGID_STRING ].

(** ** Static variables and callbacks *)

Record state := {
  streaming_alternate : Z;
  sample_index : Z;
  phase : f32;
}.

Section synthesiser.
Context (sinf : f32 → f32) (powf : f32 → f32 → f32).

Definition next_sample : M (host state) Z :=
  let* s := gets dev in
  let '(value, phase') := synthesise sinf powf (sample_index s) (phase s) in
  modify (set_dev {| streaming_alternate := streaming_alternate s;
                     sample_index := u32 (sample_index s + 1) mod PULSE_PERIOD_SAMPLES; phase := phase' |});;
  match to_sample value with Some sample => ret sample | None => fail BadConversion end.

(** The loop from [idx] with [n] samples to go. *)
Fixpoint fill (n : nat) (idx : Z) (buffer : bytes) : M (host state) bytes :=
  match n with
  | O => ret buffer
  | S n =>
      let* value := next_sample in
      let sample := u16 value in
      let* buffer := liftC (arr_set buffer (2 * idx + 0) (Z.land sample 0xff)) in
      let* buffer := liftC (arr_set buffer (2 * idx + 1) (Z.shiftr sample 8)) in
      fill n (idx + 1) buffer
  end.

(** How many samples fit. *)
Definition samples_in (max_length : Z) : Z :=
  if max_length <? AUDIO_SAMPLES_PER_PACKET * AUDIO_BYTES_PER_SAMPLE then max_length / AUDIO_BYTES_PER_SAMPLE
  else AUDIO_SAMPLES_PER_PACKET.

Definition iso_in_data (ep : Z) (buffer : bytes) (max_length : Z) : M (host state) (Z * bytes) :=
  let samples := samples_in max_length in
  let* buffer := fill (Z.to_nat samples) 0 buffer in
  ret (samples * AUDIO_BYTES_PER_SAMPLE, buffer).

Definition control_data (setup data : bytes) (data_length : Z) : M (host state) unit :=
  let* bRequestType := liftC (arr_get setup 0) in
  let* bRequest := liftC (arr_get setup 1) in
  let* alternate := liftC (arr_get setup 2) in
  let* interface := liftC (arr_get setup 4) in
  let* s := gets dev in
  if (bRequestType =? 0x01) && (bRequest =? USB_REQUEST_SET_INTERFACE) then
    if (interface =? AUDIO_STREAMING_INTERFACE) && negb (alternate =? streaming_alternate s) then
      modify (set_dev {| streaming_alternate := alternate; sample_index := 0; phase := zero |})
    else ret tt
  else if (bRequestType =? 0x81) && (bRequest =? USB_REQUEST_GET_INTERFACE) then
    let current := if interface =? AUDIO_STREAMING_INTERFACE then streaming_alternate s else 0 in
    callback_transmit 0 [current] 1;; ret tt
  else ret tt.

Definition reset : M (host state) unit :=
  modify (λ h, set_dev {| streaming_alternate := 0; sample_index := sample_index (dev h); phase := phase (dev h) |} h).

Definition audio_device : usbip_device_t state := {|
  device_desc := usb_device_descriptor;
  config_desc := usb_audio_configuration;
  Host.langid_desc := langid_desc;
  Host.usb_strings := Some usb_strings;
  control_data_callback := control_data;
  ep_data_callback := None;
  reset_callback := Some reset;
  iso_in_callback := Some iso_in_data |}.

Definition initial_state : state := {| streaming_alternate := 0; sample_index := 0; phase := zero |}.

Definition inv (s : state) : Prop :=
  is_byte (streaming_alternate s) ∧ 0 ≤ sample_index s < PULSE_PERIOD_SAMPLES ∧ phase_ok (phase s).

(** ** Reference: the stream *)

(** The sample at an index and the index and phase after it. *)
Definition sample_at (at_ : Z * f32) : Z * (Z * f32) :=
  let '(index, ph) := at_ in
  let '(value, ph') := synthesise sinf powf index ph in
  (default 0 (to_sample value), ((index + 1) mod PULSE_PERIOD_SAMPLES, ph')).

(** [n] samples from there. *)
Fixpoint stream (n : nat) (at_ : Z * f32) : list Z :=
  match n with
  | O => []
  | S n => (sample_at at_).1 :: stream n (sample_at at_).2
  end.

Fixpoint after (n : nat) (at_ : Z * f32) : Z * f32 :=
  match n with
  | O => at_
  | S n => after n (sample_at at_).2
  end.

(** 16 bit little endian. *)
Definition pcm (samples : list Z) : bytes := samples ≫= λ v, le_bytes 2 (u16 v).

Definition position (s : state) : Z * f32 := (sample_index s, phase s).

(** The library's calls for a list of packets, each with its space: the bytes sent. *)
Fixpoint packets (sizes : list Z) : M (host state) bytes :=
  match sizes with
  | [] => ret []
  | n :: sizes =>
      let* '(len, buffer) := usbip_device_iso_in audio_device AUDIO_EP_DATA_IN (replicate (Z.to_nat n) 0) n in
      let* rest := packets sizes in
      ret (take (Z.to_nat len) buffer ++ rest)
  end.

Definition sum_samples (sizes : list Z) : nat := sum_list ((λ n, Z.to_nat (samples_in n)) <$> sizes).

(** * Theorems *)

Lemma phase_ok_zero : phase_ok zero.
Proof. split; [done|]. split; discriminate. Qed.

Lemma audio_inv_initial : inv initial_state.
Proof. split; [done|]. split; [done|exact phase_ok_zero]. Qed.

Context `{!LibmRange sinf powf}.

Lemma next_sample_spec (h : host state) : inv (dev h) →
  ∃ s', next_sample h = Ok (sample_at (position (dev h))).1 (set_dev s' h)
    ∧ inv s' ∧ streaming_alternate s' = streaming_alternate (dev h) ∧ position s' = (sample_at (position (dev h))).2
    ∧ Z.abs (sample_at (position (dev h))).1 ≤ loudest (sample_index (dev h)).
Proof using All.
  intros (Ha & Hi & Hp). unfold next_sample, bind, gets, modify, ret, sample_at, position.
  assert (u32 (sample_index (dev h) + 1) = sample_index (dev h) + 1) as ->
    by (apply Z.mod_small; change PULSE_PERIOD_SAMPLES with 48000 in Hi; lia).
  pose proof (sample_range sinf powf _ _ Hi Hp) as Hs. destruct (synthesise _ _ _ _) as [value ph].
  destruct Hs as (Hp' & z & Hz & Hb). rewrite Hz. eexists. split; [done|]. split; [|done].
  split; [done|]. split; [by apply Z.mod_pos_bound|done].
Qed.

Lemma u16_le_bytes v : le_bytes 2 (u16 v) = [Z.land (u16 v) 0xff; Z.shiftr (u16 v) 8].
Proof.
  assert (0 ≤ u16 v < 65536) as Hu by (by apply Z.mod_pos_bound). unfold le_bytes.
  change 2 with (Z.succ (Z.succ 0)). rewrite !Z_to_little_endian_succ, Z_to_little_endian_0 by lia.
  change (Z.ones 8) with 0xff. do 2 f_equal. change 0xff with (Z.ones 8). rewrite Z.land_ones by lia.
  apply Z.mod_small. rewrite Z.shiftr_div_pow2 by lia. change (2 ^ 8) with 256.
  split; [apply Z.div_pos; lia|apply Z.div_lt_upper_bound; lia].
Qed.

Lemma pcm_blen samples : blen (pcm samples) = 2 * blen samples.
Proof.
  unfold pcm. induction samples as [|v samples IH]; [done|]. cbn [mbind list_bind]. rewrite blen_app, IH, u16_le_bytes.
  unfold blen. cbn [length]. lia.
Qed.

Lemma pcm_byte samples : Forall is_byte (pcm samples).
Proof.
  unfold pcm. induction samples as [|v samples IH]; [constructor|]. cbn [mbind list_bind]. apply Forall_app. split; [|done].
  by apply le_bytes_byte.
Qed.

Lemma stream_length n at_ : length (stream n at_) = n.
Proof. revert at_. induction n as [|n IH]; intros at_; simpl; [done|]. by rewrite IH. Qed.

Lemma fill_spec n idx buffer (h : host state) :
  inv (dev h) → 0 ≤ idx → 2 * (idx + Z.of_nat n) ≤ blen buffer →
  ∃ s', fill n idx buffer h =
          Ok (splice buffer (Z.to_nat (2 * idx)) (pcm (stream n (position (dev h))))) (set_dev s' h)
    ∧ inv s' ∧ streaming_alternate s' = streaming_alternate (dev h) ∧ position s' = after n (position (dev h)).
Proof.
  revert idx buffer h. induction n as [|n IH]; intros idx buffer h Hi Hidx Hlen.
  - exists (dev h). cbn [fill ret stream after]. unfold pcm, splice. cbn [mbind list_bind app length].
    rewrite Nat.add_0_r, take_drop. by destruct h.
  - destruct (next_sample_spec h Hi) as (s1 & H1 & Hi1 & Ha1 & Hp1 & _).
    cbn [fill stream after]. unfold bind at 1. rewrite H1. set (v := (sample_at (position (dev h))).1).
    destruct (IH (idx + 1) (<[Z.to_nat (2 * idx + 1):=Z.shiftr (u16 v) 8]>
      (<[Z.to_nat (2 * idx + 0):=Z.land (u16 v) 0xff]> buffer)) (set_dev s1 h)) as (s2 & H2 & Hi2 & Ha2 & Hp2);
      [done|lia|rewrite !blen_insert; lia|].
    exists s2. assert (∀ (l : bytes) i x, 0 ≤ i < blen l → arr_set l i x = Val (<[Z.to_nat i:=x]> l)) as Hset
      by (intros; unfold arr_set; by rewrite decide_True).
    unfold bind. rewrite Hset by lia. cbn [liftC]. rewrite Hset by (rewrite blen_insert; lia). cbn [liftC]. rewrite H2.
    cbn [dev set_dev] in *. rewrite Hp1, Ha1 in *. split; [|done]. f_equal.
    unfold pcm. cbn [mbind list_bind]. rewrite u16_le_bytes. cbn [app].
    replace (Z.to_nat (2 * (idx + 1))) with (S (S (Z.to_nat (2 * idx)))) by lia.
    replace (Z.to_nat (2 * idx + 0)) with (Z.to_nat (2 * idx)) by lia.
    replace (Z.to_nat (2 * idx + 1)) with (S (Z.to_nat (2 * idx))) by lia.
    unfold blen in Hlen. rewrite !splice_insert; [done|lia|rewrite length_insert; lia].
Qed.

Lemma samples_in_range n : 0 ≤ n → 0 ≤ samples_in n ∧ samples_in n * AUDIO_BYTES_PER_SAMPLE ≤ n.
Proof.
  intros Hn. unfold samples_in. change AUDIO_SAMPLES_PER_PACKET with 48. change AUDIO_BYTES_PER_SAMPLE with 2.
  destruct (Z.ltb_spec n (48 * 2)); [|lia]. split; [by apply Z.div_pos|]. rewrite Z.mul_comm. by apply Z.mul_div_le.
Qed.

Lemma iso_in_data_spec ep buffer n (h : host state) :
  inv (dev h) → 0 ≤ n ≤ blen buffer →
  ∃ s', iso_in_data ep buffer n h =
          Ok (samples_in n * AUDIO_BYTES_PER_SAMPLE,
              splice buffer 0 (pcm (stream (Z.to_nat (samples_in n)) (position (dev h))))) (set_dev s' h)
    ∧ inv s' ∧ streaming_alternate s' = streaming_alternate (dev h)
    ∧ position s' = after (Z.to_nat (samples_in n)) (position (dev h)).
Proof.
  intros Hi Hn. destruct (samples_in_range n) as [Hs Hle]; [lia|]. change AUDIO_BYTES_PER_SAMPLE with 2 in Hle.
  destruct (fill_spec (Z.to_nat (samples_in n)) 0 buffer h Hi) as (s' & H & Hs'); [lia|lia|].
  exists s'. split; [|done]. unfold iso_in_data, bind. by rewrite H.
Qed.

#[global] Instance audio_sound : DeviceSound inv audio_device.
Proof.
  apply device_sound; [vm_compute; reflexivity| |done|..].
  - intros setup data len Hs Hb _ h Hh Hl. change (control_data_callback audio_device) with control_data.
    unfold control_data. wp_byte s0 _.
    wp_byte s1 _.
    wp_byte s2 H2.
    wp_byte s4 _. apply wp_bind, wp_gets.
    pose proof Hh as [[Ha Hi] Hwf]. destruct (_ && _).
    + destruct (_ && _); [|by apply wp_ret]. apply wp_modify. split; [done|]. split; [|done]. split; [|done].
      split; [|done]. by apply (Forall_lookup_1 _ _ _ _ Hb H2).
    + destruct (_ && _); [|by apply wp_ret]. apply wp_bind.
      eapply wp_post; [apply (callback_transmit_ok inv); [done|lia|done|]|].
      * constructor; [by destruct (_ =? _)|constructor].
      * intros b h' (H3 & H4 & _). by apply wp_ret.
  - intros callback [= <-] h Hh Hl. apply wp_modify. destruct Hh as [[Ha Hi] Hwf]. done.
  - intros callback ep buffer n [= <-] [Hb Hn] h [HI Hwf] Hl.
    destruct (iso_in_data_spec ep buffer n h HI Hn) as (s' & H & HI' & _). unfold wp. rewrite H.
    destruct (samples_in_range n) as [Hs Hle]; [lia|]. change AUDIO_BYTES_PER_SAMPLE with 2 in *.
    assert (blen (pcm (stream (Z.to_nat (samples_in n)) (position (dev h)))) = 2 * samples_in n) as Hpl
      by (rewrite pcm_blen; unfold blen; rewrite stream_length; lia).
    split; [|done]. split; [lia|]. split.
    + unfold blen in *. rewrite length_splice; [done|lia].
    + unfold splice. rewrite !Forall_app. auto using Forall_take, Forall_drop, pcm_byte.
Qed.

Lemma fill_keeps n idx buffer : keeps (@still state) (fill n idx buffer).
Proof. revert idx buffer. induction n as [|n IH]; intros idx buffer; cbn [fill]; unfold next_sample; keeps; apply IH. Qed.

#[global] Instance audio_silent : SilentDevice audio_device.
Proof.
  constructor; [intros; cbn; unfold control_data; keeps|done|intros callback [= <-]; unfold reset; keeps|].
  intros callback ep buffer n [= <-]. pose proof fill_keeps. unfold iso_in_data. keeps.
Qed.

Lemma stream_app n m at_ : stream (n + m) at_ = stream n at_ ++ stream m (after n at_).
Proof. revert at_. induction n as [|n IH]; intros at_; simpl; [done|]. by rewrite IH. Qed.

Lemma after_add n m at_ : after (n + m) at_ = after m (after n at_).
Proof. revert at_. induction n as [|n IH]; intros at_; simpl; [done|]. by rewrite IH. Qed.

(** One packet. *)
Lemma iso_in_step ep buffer n (h : host state) :
  host_idle inv h → 0 ≤ n ≤ blen buffer →
  let k := Z.to_nat (samples_in n) in
  ∃ buffer' h', usbip_device_iso_in audio_device ep buffer n h = Ok (2 * samples_in n, buffer') h'
    ∧ take (Z.to_nat (2 * samples_in n)) buffer' = pcm (stream k (position (dev h)))
    ∧ host_idle inv h' ∧ position (dev h') = after k (position (dev h)).
Proof.
  intros [[HI Hwf] Hl] Hn k. destruct (samples_in_range n) as [Hs Hle]; [lia|]. change AUDIO_BYTES_PER_SAMPLE with 2 in *.
  set (h1 := set_lib (set_receive_lock true (lib h)) h).
  destruct (iso_in_data_spec ep buffer n h1) as (s' & H & HI' & _ & Hp); [done|done|].
  exists (splice buffer 0 (pcm (stream k (position (dev h))))).
  exists (set_lib (set_receive_lock false (lib (set_dev s' h1))) (set_dev s' h1)). split; [|split; [|split; [|done]]].
  - unfold usbip_device_iso_in. cbn [iso_in_callback audio_device].
    unfold in_lib, zoom, bind, lock_receive. rewrite Hl. cbn [set_lib lib]. fold h1. rewrite H. cbn [ret].
    unfold unlock_receive, modify. rewrite (Z.mul_comm (samples_in n)). change AUDIO_BYTES_PER_SAMPLE with 2. cbn [ret].
    destruct (Z.ltb_spec (2 * samples_in n) n); [done|]. do 2 f_equal. lia.
  - replace (Z.to_nat (2 * samples_in n)) with (length (pcm (stream k (position (dev h))))); [by apply splice_0_take|].
    pose proof (pcm_blen (stream k (position (dev h)))) as Hpl. unfold blen in Hpl. rewrite stream_length in Hpl. lia.
  - split; [split; [done|]|done]. destruct Hwf. by constructor.
Qed.

Lemma packets_spec sizes (h : host state) :
  host_idle inv h → Forall (λ n, 0 ≤ n) sizes →
  ∃ h', packets sizes h = Ok (pcm (stream (sum_samples sizes) (position (dev h)))) h'
    ∧ host_idle inv h' ∧ position (dev h') = after (sum_samples sizes) (position (dev h)).
Proof.
  intros Hh HF. revert h Hh. induction HF as [|n sizes Hn _ IH]; intros h Hh; [by exists h|].
  destruct (iso_in_step AUDIO_EP_DATA_IN (replicate (Z.to_nat n) 0) n h Hh) as (buffer & h1 & H1 & Ht & Hh1 & Hp1); [rewrite blen_replicate; lia|].
  destruct (IH h1 Hh1) as (h2 & H2 & Hh2 & Hp2). exists h2. split; [|split; [done|]].
  - cbn [packets]. unfold bind. rewrite H1, H2. cbn [ret]. f_equal. rewrite Ht, Hp1.
    unfold sum_samples. cbn [fmap list_fmap sum_list sum_list_with]. rewrite stream_app. unfold pcm. by rewrite bind_app.
  - rewrite Hp2, Hp1. unfold sum_samples. cbn [fmap list_fmap sum_list sum_list_with]. by rewrite after_add.
Qed.

(** Every sample of the stream is under the envelope at its index. *)
Lemma stream_under_envelope n index ph j v :
  0 ≤ index < PULSE_PERIOD_SAMPLES → phase_ok ph → stream n (index, ph) !! j = Some v →
  Z.abs v ≤ loudest ((index + Z.of_nat j) mod PULSE_PERIOD_SAMPLES).
Proof.
  revert index ph j. induction n as [|n IH]; intros index ph j Hi Hp; [done|]. cbn [stream].
  pose proof (sample_range sinf powf index ph Hi Hp) as Hs. unfold sample_at. destruct (synthesise _ _ _ _) as [value ph'].
  destruct Hs as (Hp' & z & Hz & Hb). destruct j as [|j]; cbn [lookup list_lookup fst snd].
  - intros [= <-]. rewrite Z.add_0_r, Z.mod_small by done. by rewrite Hz.
  - intros Hj. apply IH in Hj; [|by apply Z.mod_pos_bound|done]. rewrite Zplus_mod_idemp_l in Hj.
    by replace (index + Z.of_nat (S j)) with (index + 1 + Z.of_nat j) by lia.
Qed.

(** Recording: whatever sizes the host's isochronous packets have, their contents
    joined together are the samples of the stream in 16 bit little endian, without a gap or a
    repetition between packets, and the device stands at the next sample; a packet carries
    as many whole samples as fit, at most one millisecond's. *)
Theorem packets_continue_the_stream sizes (h : host state) :
  host_idle inv h → Forall (λ n, 0 ≤ n) sizes →
  ∃ h', packets sizes h = Ok (pcm (stream (sum_samples sizes) (position (dev h)))) h'
    ∧ host_idle inv h' ∧ position (dev h') = after (sum_samples sizes) (position (dev h)).
Proof. apply packets_spec. Qed.

(** The position stays in a second and the phase in a turn. *)
Lemma after_in_range n index ph :
  0 ≤ index < PULSE_PERIOD_SAMPLES → phase_ok ph →
  let p := after n (index, ph) in 0 ≤ p.1 < PULSE_PERIOD_SAMPLES ∧ phase_ok p.2.
Proof using All.
  revert index ph. induction n as [|n IH]; intros index ph Hi Hp; [done|]. cbn [after sample_at].
  pose proof (sample_range sinf powf _ _ Hi Hp) as Hs. destruct (synthesise sinf powf index ph) as [value ph'].
  apply IH; [by apply Z.mod_pos_bound|apply Hs].
Qed.

(** C33: the pulse: every sample the host records is defined, that is the conversion of the
    computed value to 16 bits never leaves its range, and lies under the envelope: it rises
    from silence within the first hundredth of the second, falls on a straight line to
    silence at four tenths, and stays silent until the next second, whatever the host's
    packet sizes and wherever the recording stands; and however long it records, the phase
    of the wave stays between 0 and one turn, so it does not lose its precision. *)
Theorem recording_stays_under_envelope sizes (h : host state) :
  host_idle inv h → Forall (λ n, 0 ≤ n) sizes →
  ∃ samples h', packets sizes h = Ok (pcm samples) h' ∧ length samples = sum_samples sizes
    ∧ (∀ j v, samples !! j = Some v →
        Z.abs v ≤ loudest ((sample_index (dev h) + Z.of_nat j) mod PULSE_PERIOD_SAMPLES))
    ∧ (∀ j, phase_ok (after j (position (dev h))).2)
    ∧ position (dev h') = after (sum_samples sizes) (position (dev h)).
Proof.
  intros Hh Hs. destruct (packets_spec sizes h Hh Hs) as (h' & H & _ & Hp'). destruct Hh as [[(_ & Hi & Hp) _] _].
  eexists _, h'. split; [exact H|]. split; [apply stream_length|]. split; [intros j v; by apply stream_under_envelope|].
  split; [|done]. intros j. by apply after_in_range.
Qed.

(** SET_INTERFACE: a new alternate setting starts the recording at sample 0. *)
Definition set_interface_setup (alternate : Z) : bytes :=
  [0x01; USB_REQUEST_SET_INTERFACE; alternate; 0; AUDIO_STREAMING_INTERFACE; 0; 0; 0].

Definition chosen (alternate : Z) (s s' : state) : Prop :=
  streaming_alternate s' = alternate
  ∧ position s' = if decide (alternate = streaming_alternate s) then position s else (0, zero).

Lemma set_interface_step alternate rx (h : host state) :
  host_idle inv h → is_byte alternate →
  ∃ h', usbip_device_control audio_device (set_interface_setup alternate) rx 0 h = Ok true h' ∧ host_idle inv h'
    ∧ chosen alternate (dev h) (dev h') ∧ stopped (abs (lib h')) = stopped (abs (lib h)).
Proof.
  intros Hh Ha.
  pose proof (device_control_wp inv audio_device (set_interface_setup alternate) rx 0 0x01 h
    (λ h2, chosen alternate (dev h) (dev h2) ∧ stopped (abs (lib h2)) = stopped (abs (lib h)))) as H1.
  apply wp_never_Ok in H1 as (supported & h1 & H1 & -> & Hh1 & h2 & [Hc2 Hst2] & Hdev & Habs); [|done..|].
  - exists h1. rewrite Hdev, Habs. done.
  - intros h1 Hh1 Hl1 Hdev1 Habs1. change (control_data_callback audio_device) with control_data.
    unfold control_data. do 4 apply wp_bind, wp_liftC, cwp_ret. apply wp_bind, wp_gets.
    change (wp (if negb (alternate =? streaming_alternate (dev h1))
                then modify (set_dev {| streaming_alternate := alternate; sample_index := 0; phase := zero |}) else ret tt)
      (λ _ h2, host_ok inv h2 ∧ same_control (lib h1) (lib h2) ∧ chosen alternate (dev h) (dev h2) ∧ stopped (abs (lib h2)) = stopped (abs (lib h))) never h1).
    assert (stopped (abs (lib h1)) = stopped (abs (lib h))) as Hst1 by (by rewrite Habs1).
    rewrite Hdev1. pose proof Hh1 as [[_ HI] Hwf]. unfold chosen. destruct (Z.eqb_spec alternate (streaming_alternate (dev h))) as [He|He].
    + apply wp_ret. split; [done|]. split; [done|]. split; [|done]. rewrite Hdev1. by rewrite decide_True.
    + apply wp_modify. split; [done|]. split; [done|]. split; [|done]. by rewrite decide_False.
Qed.

(** SET_INTERFACE then GET_INTERFACE: the device reports the alternate setting the host
    selected for the streaming interface, and a recording that starts or stops begins at
    sample 0. *)
Theorem set_then_get_interface alternate rx tx n (h : host state) :
  host_idle inv h → stopped (abs (lib h)) = false → is_byte alternate → 1 ≤ n ≤ blen tx →
  ∃ h', (usbip_device_control audio_device (set_interface_setup alternate) rx 0;;
         control_in audio_device [0x81; USB_REQUEST_GET_INTERFACE; 0; 0; AUDIO_STREAMING_INTERFACE; 0; 1; 0] rx tx n) h =
          Ok (true, true, [alternate]) h'
    ∧ host_idle inv h' ∧ streaming_alternate (dev h') = alternate
    ∧ (alternate ≠ streaming_alternate (dev h) → position (dev h') = (0, zero)).
Proof.
  intros Hh Hst Ha Hn. set (setup2 := [0x81; USB_REQUEST_GET_INTERFACE; 0; 0; AUDIO_STREAMING_INTERFACE; 0; 1; 0]).
  destruct (set_interface_step alternate rx h Hh Ha) as (h1 & H1 & Hh1 & Hc1 & Hst1).
  destruct (device_control_in inv audio_device setup2 rx tx n 0x81 h1 [alternate] (chosen alternate (dev h)))
    as (h3 & H3 & Hh3 & Hc3); [done|lia|first [done|by rewrite Hst1]..| |].
  - intros h4 Hh4 Hl4 Hdev4 Habs4. change (control_data_callback audio_device) with control_data.
    unfold control_data. do 4 apply wp_bind, wp_liftC, cwp_ret. apply wp_bind, wp_gets. cbn [andb].
    change (wp (callback_transmit 0 [streaming_alternate (dev h4)] 1;; ret tt)
      (λ _ h5, host_ok inv h5 ∧ same_control (lib h4) (lib h5) ∧ answered_with [alternate] (abs (lib h4)) (abs (lib h5))
         ∧ chosen alternate (dev h) (dev h5)) never h4).
    rewrite Hdev4, (proj1 Hc1). apply wp_bind.
    eapply wp_post; [apply (callback_answer_wp inv [alternate] 1 h4); [done| |lia|done|by repeat constructor; apply Ha]|].
    { rewrite Habs4. exact (eq_trans Hst1 Hst). }
    intros b h5 (H5 & H6 & H7 & H8). apply wp_ret. split; [done|]. split; [done|]. split; [done|]. by rewrite H7, Hdev4.
  - exists h3. split; [|split; [done|split; [apply Hc3|]]].
    + unfold bind at 1. rewrite H1, H3. do 2 f_equal. replace (Z.to_nat n) with (S (Z.to_nat (n - 1))) by lia. cbn [take]. by rewrite firstn_nil.
    + intros Hne. destruct Hc3 as [_ ->]. by rewrite decide_False.
Qed.
End synthesiser.

(** ** A concrete library: a square wave for the sine, the top of the range for the power *)

Definition square (x : f32) : f32 := if fgt x (fdiv TWO_PI (f32_of_Z 2)) then SpecFloat.SFopp one else one.
Definition top (x y : f32) : f32 := x.

#[global] Instance square_range : LibmRange square top.
Proof.
  constructor.
  - intros x _. unfold square. destruct (fgt _ _); (split; [reflexivity|split; discriminate]).
  - intros y _. split; [reflexivity|split; discriminate].
Qed.

(** The host starts to record in the middle of the attack. *)
Definition recording_host : host state :=
  {| dev := {| streaming_alternate := 1; sample_index := 200; phase := zero |}; lib := initial_device_state;
     clk := {| readings := []; last_reading := {| tv_sec := 0; tv_nsec := 0 |} |} |}.

Lemma recording_host_idle : host_idle inv recording_host.
Proof. split; [split; [split; [done|split; [done|exact phase_ok_zero]]|apply wf_initial_device_state]|done]. Qed.

(** Two full packets and one of five bytes: 98 samples. *)
Lemma packets_continue_the_stream_witness :
  ∃ h', packets square top [96; 200; 5] recording_host = Ok (pcm (stream square top 98 (200, zero))) h'
    ∧ position (dev h') = after square top 98 (200, zero).
Proof.
  destruct (packets_continue_the_stream square top [96; 200; 5] recording_host) as (h' & H1 & _ & H2).
  - apply recording_host_idle.
  - repeat constructor; discriminate.
  - exists h'. split; [exact H1|exact H2].
Defined.

Lemma recording_stays_under_envelope_witness :
  ∃ samples h', packets square top [96; 200; 5] recording_host = Ok (pcm samples) h' ∧ length samples = 98%nat
    ∧ (∀ v, samples !! 0%nat = Some v → Z.abs v ≤ 6755) ∧ phase_ok (phase (dev h')).
Proof.
  destruct (recording_stays_under_envelope square top [96; 200; 5] recording_host) as (samples & h' & H1 & H2 & H3 & H4 & H5).
  - apply recording_host_idle.
  - repeat constructor; discriminate.
  - exists samples, h'. split; [exact H1|]. split; [exact H2|]. split; [intros v Hv; exact (H3 0%nat v Hv)|].
    change (phase (dev h')) with (position (dev h')).2. rewrite H5. apply H4.
Defined.

Lemma set_then_get_interface_witness :
  ∃ h', (usbip_device_control (audio_device square top) [0x01; 11; 0; 0; 1; 0; 0; 0] [] 0;;
         control_in (audio_device square top) [0x81; 10; 0; 0; 1; 0; 1; 0] [] [0; 0] 1) recording_host = Ok (true, true, [0]) h'
    ∧ position (dev h') = (0, zero).
Proof.
  destruct (set_then_get_interface square top 0 [] [0; 0] 1 recording_host) as (h' & H1 & _ & _ & H2).
  - apply recording_host_idle.
  - vm_compute. reflexivity.
  - split; [discriminate|reflexivity].
  - split; [discriminate|vm_compute; discriminate].
  - exists h'. split; [exact H1|apply H2; discriminate].
Defined.
End Audio.
