(* ===== verification/GudWire.v ===== *)
(** * The GUD protocol as the display example uses it (src/usb_gud_display/gud_protocol.h)

    Constants, one record per packed struct with its memory image on the little endian
    host, and reading a struct from the data of a request. *)
From S2P Require Import Prelude WireFormat.

Definition GUD_DISPLAY_MAGIC : Z := 0x1d50614d.
Definition GUD_PROTOCOL_VERSION : Z := 1.
Definition GUD_DISPLAY_FLAG_STATUS_ON_SET : Z := Z.shiftl 1 0.
Definition GUD_DISPLAY_FLAG_FULL_UPDATE : Z := Z.shiftl 1 1.
Definition GUD_COMPRESSION_LZ4 : Z := Z.shiftl 1 0.

Definition GUD_REQ_GET_STATUS : Z := 0x00.
Definition GUD_REQ_GET_DESCRIPTOR : Z := 0x01.
Definition GUD_REQ_GET_FORMATS : Z := 0x40.
Definition GUD_REQ_GET_PROPERTIES : Z := 0x41.
Definition GUD_REQ_GET_CONNECTORS : Z := 0x50.
Definition GUD_REQ_GET_CONNECTOR_PROPERTIES : Z := 0x51.
Definition GUD_REQ_GET_CONNECTOR_TV_MODE_VALUES : Z := 0x52.
Definition GUD_REQ_SET_CONNECTOR_FORCE_DETECT : Z := 0x53.
Definition GUD_REQ_GET_CONNECTOR_STATUS : Z := 0x54.
Definition GUD_REQ_GET_CONNECTOR_MODES : Z := 0x55.
Definition GUD_REQ_GET_CONNECTOR_EDID : Z := 0x56.
Definition GUD_REQ_SET_BUFFER : Z := 0x60.
Definition GUD_REQ_SET_STATE_CHECK : Z := 0x61.
Definition GUD_REQ_SET_STATE_COMMIT : Z := 0x62.
Definition GUD_REQ_SET_CONTROLLER_ENABLE : Z := 0x63.
Definition GUD_REQ_SET_DISPLAY_ENABLE : Z := 0x64.

Definition GUD_STATUS_OK : Z := 0x00.
Definition GUD_STATUS_BUSY : Z := 0x01.
Definition GUD_STATUS_REQUEST_NOT_SUPPORTED : Z := 0x02.
Definition GUD_STATUS_PROTOCOL_ERROR : Z := 0x03.
Definition GUD_STATUS_INVALID_PARAMETER : Z := 0x04.
Definition GUD_STATUS_ERROR : Z := 0x05.

Definition GUD_PIXEL_FORMAT_R1 : Z := 0x01.
Definition GUD_PIXEL_FORMAT_R8 : Z := 0x08.
Definition GUD_PIXEL_FORMAT_XRGB1111 : Z := 0x20.
Definition GUD_PIXEL_FORMAT_RGB332 : Z := 0x30.
Definition GUD_PIXEL_FORMAT_RGB565 : Z := 0x40.
Definition GUD_PIXEL_FORMAT_RGB888 : Z := 0x50.
Definition GUD_PIXEL_FORMAT_XRGB8888 : Z := 0x80.
Definition GUD_PIXEL_FORMAT_ARGB8888 : Z := 0x81.

Definition GUD_PROPERTY_ROTATION : Z := 50.
Definition GUD_ROTATION_0 : Z := Z.shiftl 1 0.
Definition GUD_CONNECTOR_TYPE_PANEL : Z := 0.
Definition GUD_CONNECTOR_FLAGS_POLL_STATUS : Z := Z.shiftl 1 0.
Definition GUD_CONNECTOR_STATUS_DISCONNECTED : Z := 0x00.
Definition GUD_CONNECTOR_STATUS_CONNECTED : Z := 0x01.
Definition GUD_DISPLAY_MODE_FLAG_PREFERRED : Z := Z.shiftl 1 10.

Record gud_display_descriptor_req_t := {
  dsc_magic : Z;
  dsc_version : Z;
  dsc_flags : Z;
  dsc_compression : Z;
  dsc_max_buffer_size : Z;
  dsc_min_width : Z;
  dsc_max_width : Z;
  dsc_min_height : Z;
  dsc_max_height : Z;
}.

Record gud_property_req_t := {
  prop : Z;
  val : Z;
}.

Record gud_display_mode_req_t := {
  clock : Z;
  hdisplay : Z;
  hsync_start : Z;
  hsync_end : Z;
  htotal : Z;
  vdisplay : Z;
  vsync_start : Z;
  vsync_end : Z;
  vtotal : Z;
  mode_flags : Z;
}.

Record gud_connector_descriptor_req_t := {
  connector_type : Z;
  connector_flags : Z;
}.

Record gud_set_buffer_req_t := {
  req_x : Z;
  req_y : Z;
  req_width : Z;
  req_height : Z;
  req_length : Z;
  req_compression : Z;
  req_compressed_length : Z;
}.

Record gud_state_req_t := {
  mode : gud_display_mode_req_t;
  format : Z;
  connector : Z;
}.

(** ** Memory images *)

Definition gud_display_descriptor_mem (d : gud_display_descriptor_req_t) : bytes :=
  le_bytes 4 (dsc_magic d) ++ le_bytes 1 (dsc_version d) ++ le_bytes 4 (dsc_flags d)
  ++ le_bytes 1 (dsc_compression d) ++ le_bytes 4 (dsc_max_buffer_size d)
  ++ le_bytes 4 (dsc_min_width d) ++ le_bytes 4 (dsc_max_width d)
  ++ le_bytes 4 (dsc_min_height d) ++ le_bytes 4 (dsc_max_height d).

Definition gud_property_mem (p : gud_property_req_t) : bytes := le_bytes 2 (prop p) ++ le_bytes 8 (val p).

Definition gud_display_mode_mem (m : gud_display_mode_req_t) : bytes :=
  le_bytes 4 (clock m)
  ++ le_bytes 2 (hdisplay m) ++ le_bytes 2 (hsync_start m) ++ le_bytes 2 (hsync_end m) ++ le_bytes 2 (htotal m)
  ++ le_bytes 2 (vdisplay m) ++ le_bytes 2 (vsync_start m) ++ le_bytes 2 (vsync_end m) ++ le_bytes 2 (vtotal m)
  ++ le_bytes 4 (mode_flags m).

Definition gud_connector_descriptor_mem (c : gud_connector_descriptor_req_t) : bytes :=
  le_bytes 1 (connector_type c) ++ le_bytes 4 (connector_flags c).

Definition gud_set_buffer_mem (r : gud_set_buffer_req_t) : bytes :=
  le_bytes 4 (req_x r) ++ le_bytes 4 (req_y r) ++ le_bytes 4 (req_width r) ++ le_bytes 4 (req_height r)
  ++ le_bytes 4 (req_length r) ++ le_bytes 1 (req_compression r) ++ le_bytes 4 (req_compressed_length r).

Definition gud_state_mem (s : gud_state_req_t) : bytes :=
  gud_display_mode_mem (mode s) ++ le_bytes 1 (format s) ++ le_bytes 1 (connector s).

Definition sizeof_property : Z := 10.
Definition sizeof_set_buffer : Z := 25.
Definition sizeof_state : Z := 26.

(** ** Reading a struct *)

Definition gud_property_of_mem (mem : bytes) : gud_property_req_t := {|
  prop := field mem 0 2;
  val := field mem 2 8 |}.

Definition gud_display_mode_of_mem (mem : bytes) : gud_display_mode_req_t := {|
  clock := field mem 0 4;
  hdisplay := field mem 4 2;
  hsync_start := field mem 6 2;
  hsync_end := field mem 8 2;
  htotal := field mem 10 2;
  vdisplay := field mem 12 2;
  vsync_start := field mem 14 2;
  vsync_end := field mem 16 2;
  vtotal := field mem 18 2;
  mode_flags := field mem 20 4 |}.

Definition gud_set_buffer_of_mem (mem : bytes) : gud_set_buffer_req_t := {|
  req_x := field mem 0 4;
  req_y := field mem 4 4;
  req_width := field mem 8 4;
  req_height := field mem 12 4;
  req_length := field mem 16 4;
  req_compression := field mem 20 1;
  req_compressed_length := field mem 21 4 |}.

Definition gud_state_of_mem (mem : bytes) : gud_state_req_t := {|
  mode := gud_display_mode_of_mem mem;
  format := field mem 24 1;
  connector := field mem 25 1 |}.

(** The values a [gud_set_buffer_req_t] can hold. *)
Definition set_buffer_ok (r : gud_set_buffer_req_t) : Prop :=
  0 ≤ req_x r < 2 ^ 32 ∧ 0 ≤ req_y r < 2 ^ 32 ∧ 0 ≤ req_width r < 2 ^ 32 ∧ 0 ≤ req_height r < 2 ^ 32
  ∧ 0 ≤ req_length r < 2 ^ 32 ∧ is_byte (req_compression r) ∧ 0 ≤ req_compressed_length r < 2 ^ 32.

(** * Theorems *)

Lemma field_bound mem off n : Forall is_byte mem → 0 ≤ field mem off n < 2 ^ (8 * Z.of_nat n).
Proof.
  intros Hb. unfold field. set (bs := take n (drop off mem)).
  assert (0 ≤ of_le bs < 2 ^ (8 * blen bs)) as [H0 Hlt] by (apply of_le_bound; unfold bs; auto using Forall_take, Forall_drop).
  split; [done|]. eapply Z.lt_le_trans; [exact Hlt|]. apply Z.pow_le_mono_r; [done|].
  unfold bs, blen. rewrite length_take. lia.
Qed.

Lemma set_buffer_of_mem_ok mem : Forall is_byte mem → set_buffer_ok (gud_set_buffer_of_mem mem).
Proof.
  intros Hb. do 5 (split; [by apply (field_bound mem _ 4 Hb)|]). split; [by apply (field_bound mem _ 1 Hb)|].
  by apply (field_bound mem _ 4 Hb).
Qed.

(** A field behind [k] images is found and has its value. *)
Lemma field_le (n : nat) (v : Z) rest : 0 ≤ v < 2 ^ (8 * Z.of_nat n) → field (le_bytes (Z.of_nat n) v ++ rest) 0 n = v.
Proof.
  intros Hv. rewrite field_here by (rewrite le_bytes_length; lia). rewrite of_le_le_bytes by lia.
  rewrite Z.mul_comm. by apply Z.mod_small.
Qed.

(** Reading a request back from its image. *)
Lemma set_buffer_mem_of r : set_buffer_ok r → gud_set_buffer_of_mem (gud_set_buffer_mem r) = r.
Proof.
  intros (H1 & H2 & H3 & H4 & H5 & H6 & H7). unfold gud_set_buffer_of_mem, gud_set_buffer_mem.
  rewrite <-(app_nil_r (le_bytes 4 (req_compressed_length r))).
  pose proof (λ v, field_le 4 v) as F4. pose proof (λ v, field_le 1 v) as F1.
  assert (∀ v, length (le_bytes 4 v) = 4%nat) as L4 by (intros; by rewrite le_bytes_length).
  assert (∀ v, length (le_bytes 1 v) = 1%nat) as L1 by (intros; by rewrite le_bytes_length).
  destruct r as [x y w h l c cl]; cbn [req_x req_y req_width req_height req_length req_compression req_compressed_length] in *.
  f_equal.
  - by apply F4.
  - rewrite (field_skip 0 4 4) by apply L4. by apply F4.
  - rewrite (field_skip 4 4 4), (field_skip 0 4 4) by apply L4. by apply F4.
  - rewrite (field_skip 8 4 4), (field_skip 4 4 4), (field_skip 0 4 4) by apply L4. by apply F4.
  - rewrite (field_skip 12 4 4), (field_skip 8 4 4), (field_skip 4 4 4), (field_skip 0 4 4) by apply L4. by apply F4.
  - rewrite (field_skip 16 1 4), (field_skip 12 1 4), (field_skip 8 1 4), (field_skip 4 1 4), (field_skip 0 1 4) by apply L4.
    by apply F1.
  - rewrite (field_skip 17 4 4), (field_skip 13 4 4), (field_skip 9 4 4), (field_skip 5 4 4), (field_skip 1 4 4) by apply L4.
    rewrite (field_skip 0 4 1) by apply L1. by apply F4.
Qed.

Lemma set_buffer_mem_blen r : blen (gud_set_buffer_mem r) = sizeof_set_buffer ∧ Forall is_byte (gud_set_buffer_mem r).
Proof.
  unfold gud_set_buffer_mem. rewrite !blen_app, !blen_le_bytes by done. split; [done|].
  repeat apply Forall_app_2; by apply le_bytes_byte.
Qed.

(** The sizes the request handlers compare with. *)
Lemma state_mem_blen s : blen (gud_state_mem s) = sizeof_state.
Proof. unfold gud_state_mem, gud_display_mode_mem. by rewrite !blen_app, !blen_le_bytes. Qed.

Lemma property_mem_blen p : blen (gud_property_mem p) = sizeof_property.
Proof. unfold gud_property_mem. by rewrite !blen_app, !blen_le_bytes. Qed.
