(* ===== verification/GudDevice.v ===== *)
(** * The GUD display example device (src/usb_gud_display)

    Descriptors, the vendor requests of the GUD protocol with their status, the transfer of
    the pixels of a rectangle over any number of OUT transfers into the framebuffer, and
    a round of the main loop, which shows the framebuffer. What the functions of
    gud_display_window.c report and show is an input and an output of the round. *)
From S2P Require Import Prelude WireFormat DeviceStore Descriptors Host Control GudWire.

Module Gud.

(** ** Display and descriptors *)

Definition DISPLAY_WIDTH : Z := 320.
Definition DISPLAY_HEIGHT : Z := 240.
Definition DISPLAY_REFRESH_HZ : Z := 60.
Definition display_formats : bytes := [GUD_PIXEL_FORMAT_RGB565].
Definition DISPLAY_MAX_BUFFER_SIZE : Z := 64 * 1024.
Definition DISPLAY_COMPRESSION : Z := 0.

Definition usb_strings : list usb_string_t := [
  {| id := 1; Host.string := Some (cstring "Virtual UsbIP"%string) |};
  {| id := 2; Host.string := Some (cstring "Virtual GUD Display"%string) |};
  {| id := 4; Host.string := Some (cstring "ABC123"%string) |};
  {| id := 0; Host.string := None |} ].

Definition USB_VID : Z := 0x1d50.
Definition USB_PID : Z := 0x614d.

Definition usb_device_descriptor : bytes := [
  USB_DEVICE_DESCRIPTOR_LENGTH; USB_DESCRIPTOR_TYPE_DEVICE;
  LOBYTE USB_BCD_VERSION; HIBYTE USB_BCD_VERSION;
  0x00; 0x00; 0x00; 64;
  LOBYTE USB_VID; HIBYTE USB_VID; LOBYTE USB_PID; HIBYTE USB_PID;
  LOBYTE USB_BCD_DEVICE_REL; HIBYTE USB_BCD_DEVICE_REL;
  1; 2; 4; 1 ].

Definition GUD_INTERFACE : Z := 0.
Definition GUD_EP_DATA_OUT : Z := 0x01.
Definition GUD_DATA_PACKET_SIZE : Z := 512.
Definition USB_GUD_CONFIG_DESC_LENGTH : Z := 9 + 9 + 7.

Definition usb_gud_configuration : bytes := [
  0x09; USB_DESCRIPTOR_TYPE_CONFIGURATION;
  LOBYTE USB_GUD_CONFIG_DESC_LENGTH; HIBYTE USB_GUD_CONFIG_DESC_LENGTH;
  0x01; 0x01; 0x00; 0xC0; 0x32;
  (* Display interface *)
  0x09; USB_DESCRIPTOR_TYPE_INTERFACE; GUD_INTERFACE; 0x00; 0x01; 0xFF; 0x00; 0x00; 0x00;
  (* Bulk OUT endpoint for pixel data *)
  0x07; USB_DESCRIPTOR_TYPE_ENDPOINT; GUD_EP_DATA_OUT; 0x02;
  LOBYTE GUD_DATA_PACKET_SIZE; HIBYTE GUD_DATA_PACKET_SIZE; 0x00 ].

Definition USB_LANGID_STRING : Z := 0x409.
Definition USB_LANGID_DESC_LENGTH : Z := 4.

Definition langid_desc : bytes := [
  USB_LANGID_DESC_LENGTH; USB_DESCRIPTOR_TYPE_STRING;
  LOBYTE USB_LANGID_STRING; HIBYTE USB_LANGID_STRING ].

(** ** Static variables *)

Definition REQUEST_TYPE_VENDOR_INTERFACE_IN : Z := 0xC1.
Definition REQUEST_TYPE_VENDOR_INTERFACE_OUT : Z := 0x41.
Definition MAX_BYTES_PER_PIXEL : Z := 4.
Definition CONNECTOR_CONNECT_DELAY_MS : Z := 5000.

Record pending_buffer_t := {
  active : bool;
  req : gud_set_buffer_req_t;
  transfer_length : Z;
  received : Z;
}.

Record stats_t := {
  stats_updates : Z;
  stats_bytes : Z;
  stats_errors : Z;
  stats_last_rect : gud_set_buffer_req_t;
}.

Record state := {
  last_status : Z;
  attached_ms : Z;
  state_checked : bool;
  checked_state : gud_state_req_t;
  current_format : Z;
  controller_enabled : bool;
  display_enabled : bool;
  pending : pending_buffer_t;
  transfer_buffer : bytes;
  framebuffer : bytes;
  framebuffer_changed : bool;
  stats : stats_t;
}.

Definition set_last_status (v : Z) (s : state) : state :=
  Build_state v (attached_ms s) (state_checked s) (checked_state s) (current_format s) (controller_enabled s)
    (display_enabled s) (pending s) (transfer_buffer s) (framebuffer s) (framebuffer_changed s) (stats s).
Definition set_attached_ms (v : Z) (s : state) : state :=
  Build_state (last_status s) v (state_checked s) (checked_state s) (current_format s) (controller_enabled s)
    (display_enabled s) (pending s) (transfer_buffer s) (framebuffer s) (framebuffer_changed s) (stats s).
Definition set_checked (b : bool) (c : gud_state_req_t) (s : state) : state :=
  Build_state (last_status s) (attached_ms s) b c (current_format s) (controller_enabled s)
    (display_enabled s) (pending s) (transfer_buffer s) (framebuffer s) (framebuffer_changed s) (stats s).
Definition set_current_format (v : Z) (s : state) : state :=
  Build_state (last_status s) (attached_ms s) (state_checked s) (checked_state s) v (controller_enabled s)
    (display_enabled s) (pending s) (transfer_buffer s) (framebuffer s) (framebuffer_changed s) (stats s).
Definition set_controller_enabled (v : bool) (s : state) : state :=
  Build_state (last_status s) (attached_ms s) (state_checked s) (checked_state s) (current_format s) v
    (display_enabled s) (pending s) (transfer_buffer s) (framebuffer s) (framebuffer_changed s) (stats s).
Definition set_display_enabled (v : bool) (s : state) : state :=
  Build_state (last_status s) (attached_ms s) (state_checked s) (checked_state s) (current_format s)
    (controller_enabled s) v (pending s) (transfer_buffer s) (framebuffer s) (framebuffer_changed s) (stats s).
Definition set_pending (v : pending_buffer_t) (s : state) : state :=
  Build_state (last_status s) (attached_ms s) (state_checked s) (checked_state s) (current_format s)
    (controller_enabled s) (display_enabled s) v (transfer_buffer s) (framebuffer s) (framebuffer_changed s) (stats s).
Definition set_transfer_buffer (v : bytes) (s : state) : state :=
  Build_state (last_status s) (attached_ms s) (state_checked s) (checked_state s) (current_format s)
    (controller_enabled s) (display_enabled s) (pending s) v (framebuffer s) (framebuffer_changed s) (stats s).
Definition set_framebuffer (v : bytes) (changed : bool) (s : state) : state :=
  Build_state (last_status s) (attached_ms s) (state_checked s) (checked_state s) (current_format s)
    (controller_enabled s) (display_enabled s) (pending s) (transfer_buffer s) v changed (stats s).
Definition set_stats (v : stats_t) (s : state) : state :=
  Build_state (last_status s) (attached_ms s) (state_checked s) (checked_state s) (current_format s)
    (controller_enabled s) (display_enabled s) (pending s) (transfer_buffer s) (framebuffer s) (framebuffer_changed s) v.

Definition deactivate (p : pending_buffer_t) : pending_buffer_t :=
  {| active := false; req := req p; transfer_length := transfer_length p; received := received p |}.

(** [stats_errors++] *)
Definition count_error (t : stats_t) : stats_t :=
  {| stats_updates := stats_updates t; stats_bytes := stats_bytes t; stats_errors := u32 (stats_errors t + 1);
     stats_last_rect := stats_last_rect t |}.

Definition update (f : state → state) : M (host state) unit := modify (λ h, set_dev (f (dev h)) h).

Definition now_ms : M (host state) Z :=
  let* now := in_clk clock_gettime in
  ret (u64 (u64 (u64 (tv_sec now) * 1000) + u64 (tv_nsec now) / 1000000)).

(** ** Formats *)

Definition is_offered_format (format : Z) : bool := existsb (λ f, f =? format) display_formats.

Definition format_bits_per_pixel (format : Z) : Z :=
  if format =? GUD_PIXEL_FORMAT_R1 then 1
  else if format =? GUD_PIXEL_FORMAT_XRGB1111 then 4
  else if (format =? GUD_PIXEL_FORMAT_R8) || (format =? GUD_PIXEL_FORMAT_RGB332) then 8
  else if format =? GUD_PIXEL_FORMAT_RGB565 then 16
  else if format =? GUD_PIXEL_FORMAT_RGB888 then 24
  else if (format =? GUD_PIXEL_FORMAT_XRGB8888) || (format =? GUD_PIXEL_FORMAT_ARGB8888) then 32
  else 0.

Definition line_length (format width : Z) : Z :=
  u32 (u32 (width * format_bits_per_pixel format) + 7) / 8.

(** ** Requests of the host *)

Definition answer (data : bytes) (length : Z) : M (host state) unit :=
  update (set_last_status GUD_STATUS_OK);;
  callback_transmit 0 data length;; ret tt.

Definition display_descriptor : gud_display_descriptor_req_t := {|
  dsc_magic := GUD_DISPLAY_MAGIC;
  dsc_version := GUD_PROTOCOL_VERSION;
  dsc_flags := GUD_DISPLAY_FLAG_STATUS_ON_SET;
  dsc_compression := DISPLAY_COMPRESSION;
  dsc_max_buffer_size := DISPLAY_MAX_BUFFER_SIZE;
  dsc_min_width := DISPLAY_WIDTH;
  dsc_max_width := DISPLAY_WIDTH;
  dsc_min_height := DISPLAY_HEIGHT;
  dsc_max_height := DISPLAY_HEIGHT |}.

Definition display_mode : gud_display_mode_req_t := {|
  clock := DISPLAY_WIDTH * DISPLAY_HEIGHT * DISPLAY_REFRESH_HZ / 1000;
  hdisplay := DISPLAY_WIDTH;
  hsync_start := DISPLAY_WIDTH;
  hsync_end := DISPLAY_WIDTH;
  htotal := DISPLAY_WIDTH;
  vdisplay := DISPLAY_HEIGHT;
  vsync_start := DISPLAY_HEIGHT;
  vsync_end := DISPLAY_HEIGHT;
  vtotal := DISPLAY_HEIGHT;
  mode_flags := GUD_DISPLAY_MODE_FLAG_PREFERRED |}.

(** The second [switch], for the requests about the connector. *)
Definition connector_request (bRequest : Z) : M (host state) unit :=
  if bRequest =? GUD_REQ_GET_CONNECTOR_PROPERTIES then answer [] 0
  else if bRequest =? GUD_REQ_GET_CONNECTOR_STATUS then
    let* now := now_ms in
    let* s := gets dev in
    let status := if CONNECTOR_CONNECT_DELAY_MS <=? u64 (now - attached_ms s)
                  then GUD_CONNECTOR_STATUS_CONNECTED else GUD_CONNECTOR_STATUS_DISCONNECTED in
    answer [status] 1
  else if bRequest =? GUD_REQ_GET_CONNECTOR_MODES then
    let mem := gud_display_mode_mem display_mode in answer mem (blen mem)
  else update (set_last_status GUD_STATUS_REQUEST_NOT_SUPPORTED).

Definition get_request (bRequest wValue : Z) : M (host state) unit :=
  if bRequest =? GUD_REQ_GET_STATUS then
    let* s := gets dev in
    callback_transmit 0 [last_status s] 1;; ret tt
  else if bRequest =? GUD_REQ_GET_DESCRIPTOR then
    let mem := gud_display_descriptor_mem display_descriptor in answer mem (blen mem)
  else if bRequest =? GUD_REQ_GET_FORMATS then answer display_formats (blen display_formats)
  else if bRequest =? GUD_REQ_GET_PROPERTIES then
    let mem := gud_property_mem {| prop := GUD_PROPERTY_ROTATION; val := GUD_ROTATION_0 |} in answer mem (blen mem)
  else if bRequest =? GUD_REQ_GET_CONNECTORS then
    let mem := gud_connector_descriptor_mem
      {| connector_type := GUD_CONNECTOR_TYPE_PANEL; connector_flags := GUD_CONNECTOR_FLAGS_POLL_STATUS |} in
    answer mem (blen mem)
  else if negb (wValue =? 0) then update (set_last_status GUD_STATUS_INVALID_PARAMETER)
  else connector_request bRequest.

(** [inside] of [set_buffer]; the differences are [uint32_t]. *)
Definition inside (r : gud_set_buffer_req_t) : bool :=
  (0 <? req_width r) && (0 <? req_height r) && (req_x r <? DISPLAY_WIDTH) && (req_y r <? DISPLAY_HEIGHT)
  && (req_width r <=? u32 (DISPLAY_WIDTH - req_x r)) && (req_height r <=? u32 (DISPLAY_HEIGHT - req_y r)).

Definition set_buffer (data : bytes) (data_length : Z) : M (host state) Z :=
  if negb (data_length =? sizeof_set_buffer) then ret GUD_STATUS_PROTOCOL_ERROR else
  let* mem := liftC (mem_read data 0 sizeof_set_buffer) in
  let r := gud_set_buffer_of_mem mem in
  let* s := gets dev in
  if negb (inside r) || (current_format s =? 0)
     || negb (req_length r =? u32 (line_length (current_format s) (req_width r) * req_height r))
  then ret GUD_STATUS_INVALID_PARAMETER
  else if negb (req_compression r =? 0) && negb (Z.land (req_compression r) (Z.lnot DISPLAY_COMPRESSION) =? 0)
  then ret GUD_STATUS_INVALID_PARAMETER
  else
    let transfer_length := if negb (req_compression r =? 0) then req_compressed_length r else req_length r in
    if (transfer_length =? 0) || (DISPLAY_MAX_BUFFER_SIZE <? transfer_length) then ret GUD_STATUS_INVALID_PARAMETER
    else
      update (set_pending {| active := true; req := r; transfer_length := transfer_length; received := 0 |});;
      ret GUD_STATUS_OK.

(** The loop over the properties: [n] are left from [offset]. *)
Fixpoint check_properties (n : nat) (offset : Z) (data : bytes) : cres Z :=
  match n with
  | O => Val GUD_STATUS_OK
  | S n =>
      let? mem := mem_read data offset sizeof_property in
      let property := gud_property_of_mem mem in
      if (prop property =? GUD_PROPERTY_ROTATION) && negb (val property =? GUD_ROTATION_0)
      then Val GUD_STATUS_INVALID_PARAMETER
      else check_properties n (offset + sizeof_property) data
  end.

Definition set_state_check (data : bytes) (data_length : Z) : M (host state) Z :=
  if (data_length <? sizeof_state) || negb ((data_length - sizeof_state) mod sizeof_property =? 0)
  then ret GUD_STATUS_PROTOCOL_ERROR else
  let* mem := liftC (mem_read data 0 sizeof_state) in
  let st := gud_state_of_mem mem in
  if negb (hdisplay (mode st) =? DISPLAY_WIDTH) || negb (vdisplay (mode st) =? DISPLAY_HEIGHT)
     || negb (is_offered_format (format st)) || negb (connector st =? 0)
  then ret GUD_STATUS_INVALID_PARAMETER else
  let* status := liftC (check_properties (Z.to_nat ((data_length - sizeof_state) / sizeof_property)) sizeof_state data) in
  if status =? GUD_STATUS_OK then update (set_checked true st);; ret GUD_STATUS_OK else ret status.

Definition set_state_commit : M (host state) Z :=
  let* s := gets dev in
  if negb (state_checked s) then ret GUD_STATUS_PROTOCOL_ERROR else
  update (set_current_format (format (checked_state s)));;
  update (λ s, set_checked false (checked_state s) s);;
  ret GUD_STATUS_OK.

(** [enabled] is given by its setter. *)
Definition set_enable (enabled : bool → state → state) (data : bytes) (data_length : Z) : M (host state) Z :=
  if negb (data_length =? 1) then ret GUD_STATUS_PROTOCOL_ERROR else
  let* d0 := liftC (arr_get data 0) in
  update (enabled (negb (d0 =? 0)));;
  ret GUD_STATUS_OK.

Definition set_request (bRequest : Z) (data : bytes) (data_length : Z) : M (host state) unit :=
  let* status :=
    if bRequest =? GUD_REQ_SET_CONNECTOR_FORCE_DETECT then ret GUD_STATUS_OK
    else if bRequest =? GUD_REQ_SET_BUFFER then set_buffer data data_length
    else if bRequest =? GUD_REQ_SET_STATE_CHECK then set_state_check data data_length
    else if bRequest =? GUD_REQ_SET_STATE_COMMIT then set_state_commit
    else if bRequest =? GUD_REQ_SET_CONTROLLER_ENABLE then set_enable set_controller_enabled data data_length
    else if bRequest =? GUD_REQ_SET_DISPLAY_ENABLE then set_enable set_display_enabled data data_length
    else ret GUD_STATUS_REQUEST_NOT_SUPPORTED in
  update (set_last_status status).

Definition control_data (setup data : bytes) (data_length : Z) : M (host state) unit :=
  let* bRequestType := liftC (arr_get setup 0) in
  let* bRequest := liftC (arr_get setup 1) in
  let* s3 := liftC (arr_get setup 3) in
  let* s2 := liftC (arr_get setup 2) in
  let* s5 := liftC (arr_get setup 5) in
  let* s4 := liftC (arr_get setup 4) in
  let wValue := u16 (word16 s2 s3) in
  let wIndex := u16 (word16 s4 s5) in
  if negb (bRequestType =? REQUEST_TYPE_VENDOR_INTERFACE_IN) && negb (bRequestType =? REQUEST_TYPE_VENDOR_INTERFACE_OUT)
  then ret tt
  else if negb (wIndex =? GUD_INTERFACE) then update (set_last_status GUD_STATUS_INVALID_PARAMETER)
  else if bRequestType =? REQUEST_TYPE_VENDOR_INTERFACE_IN then get_request bRequest wValue
  else set_request bRequest data data_length.

(** ** Pixel data *)

(** The loop of [store_rectangle] with [n] lines to go, from [line]. *)
Fixpoint store_lines (n : nat) (line : Z) (rect : gud_set_buffer_req_t) (bytes_per_pixel : Z)
    (pixels framebuffer : bytes) : cres bytes :=
  match n with
  | O => Val framebuffer
  | S n =>
      let pitch := DISPLAY_WIDTH * bytes_per_pixel in
      let rect_pitch := u32 (req_width rect * bytes_per_pixel) in
      let? framebuffer := memcpy framebuffer
        (u32 (u32 (u32 (req_y rect + line) * pitch) + u32 (req_x rect * bytes_per_pixel)))
        pixels (u32 (line * rect_pitch)) rect_pitch in
      store_lines n (line + 1) rect bytes_per_pixel pixels framebuffer
  end.

Definition store_rectangle (rect : gud_set_buffer_req_t) (pixels : bytes) : M (host state) unit :=
  let* s := gets dev in
  let bits := format_bits_per_pixel (current_format s) in
  if negb (bits mod 8 =? 0) then ret tt else
  let* fb := liftC (store_lines (Z.to_nat (req_height rect)) 0 rect (bits / 8) pixels (framebuffer s)) in
  update (set_framebuffer fb true).

Definition endpoint_data (ep : Z) (data : bytes) (data_length : Z) : M (host state) unit :=
  let* s := gets dev in
  let p := pending s in
  if negb (active p) || (u32 (transfer_length p - received p) <? data_length) then
    update (set_stats (count_error (stats s)));;
    update (set_pending (deactivate p))
  else
    let* buffer := liftC (memcpy (transfer_buffer s) (received p) data 0 data_length) in
    update (set_transfer_buffer buffer);;
    let p := {| active := true; req := req p; transfer_length := transfer_length p;
                received := u32 (received p + data_length) |} in
    update (set_pending p);;
    if received p <? transfer_length p then ret tt else
    update (set_pending (deactivate p));;
    if negb (req_compression (req p) =? 0) then update (set_stats (count_error (stats s))) else
    store_rectangle (req p) buffer;;
    update (set_stats {| stats_updates := u32 (stats_updates (stats s) + 1);
                         stats_bytes := u32 (stats_bytes (stats s) + transfer_length p);
                         stats_errors := stats_errors (stats s); stats_last_rect := req p |}).

(** ** Conversion for the window *)

Definition widen (value bits : Z) : Z := u32 (value * 255) / (Z.shiftl 1 bits - 1).

(** The channels of pixel [idx]: (r, g, b). *)
Definition pixel_rgb (fb : bytes) (format idx : Z) : cres (Z * Z * Z) :=
  if format =? GUD_PIXEL_FORMAT_R8 then
    let? v := arr_get fb idx in Val (v, v, v)
  else if format =? GUD_PIXEL_FORMAT_RGB332 then
    let? v := arr_get fb idx in
    Val (widen (Z.shiftr v 5) 3, widen (Z.land (Z.shiftr v 2) 0x07) 3, widen (Z.land v 0x03) 2)
  else if format =? GUD_PIXEL_FORMAT_RGB565 then
    let? lo := arr_get fb (2 * idx) in
    let? hi := arr_get fb (2 * idx + 1) in
    let pixel := Z.lor lo (Z.shiftl hi 8) in
    Val (widen (Z.shiftr pixel 11) 5, widen (Z.land (Z.shiftr pixel 5) 0x3f) 6, widen (Z.land pixel 0x1f) 5)
  else if format =? GUD_PIXEL_FORMAT_RGB888 then
    let? b := arr_get fb (3 * idx) in
    let? g := arr_get fb (3 * idx + 1) in
    let? r := arr_get fb (3 * idx + 2) in
    Val (r, g, b)
  else if (format =? GUD_PIXEL_FORMAT_XRGB8888) || (format =? GUD_PIXEL_FORMAT_ARGB8888) then
    let? b := arr_get fb (4 * idx) in
    let? g := arr_get fb (4 * idx + 1) in
    let? r := arr_get fb (4 * idx + 2) in
    Val (r, g, b)
  else Val (0, 0, 0).

(** The loop from [idx] with [n] pixels to go; [pixels] is the array written. *)
Fixpoint framebuffer_to_xrgb8888 (n : nat) (idx : Z) (fb : bytes) (format : Z) (pixels : list Z) : cres (list Z) :=
  match n with
  | O => Val pixels
  | S n =>
      let? rgb := pixel_rgb fb format idx in
      let '(r, g, b) := rgb in
      let? pixels := arr_set pixels idx (u32 (Z.lor (Z.lor (Z.shiftl r 16) (Z.shiftl g 8)) b)) in
      framebuffer_to_xrgb8888 n (idx + 1) fb format pixels
  end.

(** ** Reset and the device *)

Definition reset : M (host state) unit :=
  let* now := now_ms in
  update (set_attached_ms now);;
  update (set_last_status GUD_STATUS_OK);;
  update (λ s, set_checked false (checked_state s) s);;
  update (set_current_format 0);;
  update (set_controller_enabled false);;
  update (set_display_enabled false);;
  update (λ s, set_pending (deactivate (pending s)) s);;
  update (λ s, set_framebuffer (replicate (length (framebuffer s)) 0) true s).

Definition gud_display_device : usbip_device_t state := {|
  device_desc := usb_device_descriptor;
  config_desc := usb_gud_configuration;
  Host.langid_desc := langid_desc;
  Host.usb_strings := Some usb_strings;
  control_data_callback := control_data;
  ep_data_callback := Some endpoint_data;
  reset_callback := Some reset;
  iso_in_callback := None |}.

(** ** Main loop *)

(** The variables of [main]. *)
Record locals := {
  frame : bytes;
  pixels : list Z;
  window_open : bool;
  shown_on : bool;
  next_stats_ms : Z;
}.

(** What one round does besides: the call of [gud_display_window_show], the statistics
    printed. *)
Record shown := {
  window_show : option (list Z * bool);
  printed : option stats_t;
}.

(** One round of the loop; [handled] is what [gud_display_window_handle_events] returns
    when a window is open. [None]: the loop ends. *)
Definition main_round (handled : bool) (l : locals) : M (host state) (option (locals * shown)) :=
  if window_open l && negb handled then ret None else
  let* now := now_ms in
  let print_stats := next_stats_ms l <=? now in
  let* th := in_lib (usbip_device_critical_section_enter other_thread) in
  let* s := gets dev in
  let changed := framebuffer_changed s in
  let display_on := controller_enabled s && display_enabled s in
  let* frame' :=
    if changed then
      let* f := liftC (memcpy (frame l) 0 (framebuffer s) 0 (blen (frame l))) in
      update (λ s, set_framebuffer (framebuffer s) false s);;
      ret f
    else ret (frame l) in
  (if print_stats then
     update (set_stats {| stats_updates := 0; stats_bytes := 0; stats_errors := 0; stats_last_rect := stats_last_rect (stats s) |})
   else ret tt);;
  let* th := in_lib (usbip_device_critical_section_exit th) in
  let show := window_open l && (changed || negb (Bool.eqb display_on (shown_on l))) in
  let* pixels' :=
    if show then liftC (framebuffer_to_xrgb8888 (Z.to_nat (DISPLAY_WIDTH * DISPLAY_HEIGHT)) 0 frame' (current_format s) (pixels l))
    else ret (pixels l) in
  ret (Some ({| frame := frame'; pixels := pixels'; window_open := window_open l;
                shown_on := if show then display_on else shown_on l;
                next_stats_ms := if print_stats then u64 (next_stats_ms l + 1000) else next_stats_ms l |},
             {| window_show := if show then Some (pixels', display_on) else None;
                printed := if print_stats && ((0 <? stats_updates (stats s)) || (0 <? stats_errors (stats s)))
                           then Some (stats s) else None |})).

(** ** Initial values *)

Definition zero_rect : gud_set_buffer_req_t :=
  {| req_x := 0; req_y := 0; req_width := 0; req_height := 0; req_length := 0; req_compression := 0; req_compressed_length := 0 |}.
Definition zero_mode : gud_display_mode_req_t :=
  {| clock := 0; hdisplay := 0; hsync_start := 0; hsync_end := 0; htotal := 0; vdisplay := 0; vsync_start := 0;
     vsync_end := 0; vtotal := 0; mode_flags := 0 |}.

Definition framebuffer_size : Z := DISPLAY_WIDTH * DISPLAY_HEIGHT * MAX_BYTES_PER_PIXEL.

Definition initial_state : state := {|
  last_status := GUD_STATUS_OK;
  attached_ms := 0;
  state_checked := false;
  checked_state := {| mode := zero_mode; format := 0; connector := 0 |};
  current_format := 0;
  controller_enabled := false;
  display_enabled := false;
  pending := {| active := false; req := zero_rect; transfer_length := 0; received := 0 |};
  transfer_buffer := replicate (Z.to_nat DISPLAY_MAX_BUFFER_SIZE) 0;
  framebuffer := replicate (Z.to_nat framebuffer_size) 0;
  framebuffer_changed := false;
  stats := {| stats_updates := 0; stats_bytes := 0; stats_errors := 0; stats_last_rect := zero_rect |} |}.
End Gud.
