(* ===== verification/GudDisplay.v ===== *)
(** * The GUD display example: what the host draws is what the window shows

    The invariant of the device's variables and the theorems about its requests, the
    transfer of a rectangle and the frame the main loop shows. *)
From S2P Require Import Prelude WireFormat DeviceStore Descriptors Host Control Silent DeviceRequests GudWire GudDevice.
Import Gud.

(** ** Invariant *)

(** A rectangle on the display. *)
Definition rect_ok (r : gud_set_buffer_req_t) : Prop :=
  0 ≤ req_x r ∧ 0 ≤ req_y r ∧ 0 < req_width r ∧ 0 < req_height r
  ∧ req_x r + req_width r ≤ DISPLAY_WIDTH ∧ req_y r + req_height r ≤ DISPLAY_HEIGHT.

(** A request for a rectangle the device accepts: in the committed format, two bytes for
    each pixel, not compressed and not larger than a transfer. *)
Definition valid_request (fmt : Z) (r : gud_set_buffer_req_t) : Prop :=
  rect_ok r ∧ fmt = GUD_PIXEL_FORMAT_RGB565 ∧ req_length r = 2 * req_width r * req_height r
  ∧ req_compression r = 0 ∧ req_length r ≤ DISPLAY_MAX_BUFFER_SIZE.

#[global] Instance valid_request_dec fmt r : Decision (valid_request fmt r).
Proof. unfold valid_request, rect_ok. apply _. Defined.

(** The pending buffer of an accepted request with [n] bytes received. *)
Definition pending_of (r : gud_set_buffer_req_t) (n : Z) : pending_buffer_t :=
  {| active := true; req := r; transfer_length := req_length r; received := n |}.

Definition pending_ok (fmt : Z) (p : pending_buffer_t) : Prop :=
  active p = true → p = pending_of (req p) (received p) ∧ valid_request fmt (req p) ∧ 0 ≤ received p < req_length (req p).

Record inv (s : state) : Prop := {
  inv_status : is_byte (last_status s);
  inv_format : current_format s = 0 ∨ current_format s = GUD_PIXEL_FORMAT_RGB565;
  inv_checked : state_checked s = true → format (checked_state s) = GUD_PIXEL_FORMAT_RGB565;
  inv_pending : pending_ok (current_format s) (pending s);
  inv_buffer : blen (transfer_buffer s) = DISPLAY_MAX_BUFFER_SIZE ∧ Forall is_byte (transfer_buffer s);
  inv_framebuffer : blen (framebuffer s) = framebuffer_size ∧ Forall is_byte (framebuffer s);
}.

(** ** Reference: drawing *)

(** Bytes of a line of the framebuffer, two for each pixel. *)
Definition LINE : Z := DISPLAY_WIDTH * 2.

(** Byte [i] of the framebuffer lies in the rectangle. *)
Definition in_rect (r : gud_set_buffer_req_t) (i : nat) : Prop :=
  req_y r ≤ Z.of_nat i / LINE < req_y r + req_height r
  ∧ 2 * req_x r ≤ Z.of_nat i mod LINE < 2 * (req_x r + req_width r).

(** Its position in the data of the rectangle. *)
Definition data_index (r : gud_set_buffer_req_t) (i : nat) : nat :=
  Z.to_nat ((Z.of_nat i / LINE - req_y r) * (2 * req_width r) + (Z.of_nat i mod LINE - 2 * req_x r)).

Definition drawn (r : gud_set_buffer_req_t) (data fb : bytes) : bytes :=
  imap (λ i b, if decide (in_rect r i) then default b (data !! data_index r i) else b) fb.

(** * Theorems *)

Lemma line_length_565 w : 0 ≤ w ≤ DISPLAY_WIDTH → line_length GUD_PIXEL_FORMAT_RGB565 w = 2 * w.
Proof.
  change DISPLAY_WIDTH with 320. intros Hw. unfold line_length, u32. change (format_bits_per_pixel _) with 16.
  rewrite (Z.mod_small (w * 16)), Z.mod_small by lia. Z.div_mod_to_equations. lia.
Qed.

Lemma inside_rect r : set_buffer_ok r → inside r = true ↔ rect_ok r.
Proof.
  intros (Hx & Hy & Hw & Hh & _). unfold inside, rect_ok. change DISPLAY_WIDTH with 320. change DISPLAY_HEIGHT with 240.
  rewrite !andb_true_iff, !Z.ltb_lt, !Z.leb_le. unfold u32. split.
  - intros (((((H1 & H2) & H3) & H4) & H5) & H6). rewrite Z.mod_small in H5, H6 by lia. lia.
  - intros (H1 & H2 & H3 & H4 & H5 & H6). rewrite !Z.mod_small by lia. lia.
Qed.

(** *** Requests *)

Lemma set_buffer_spec data (h : host state) :
  inv (dev h) → Forall is_byte (take 25 data) → sizeof_set_buffer ≤ blen data →
  let r := gud_set_buffer_of_mem (take 25 data) in
  set_buffer data sizeof_set_buffer h =
    if decide (valid_request (current_format (dev h)) r)
    then Ok GUD_STATUS_OK (set_dev (set_pending (pending_of r 0) (dev h)) h)
    else Ok GUD_STATUS_INVALID_PARAMETER h.
Proof.
  intros HI Hb Hlen r. change sizeof_set_buffer with 25 in Hlen.
  assert (set_buffer_ok r) as Hr by (by apply set_buffer_of_mem_ok).
  unfold set_buffer. rewrite Z.eqb_refl. cbn [negb]. unfold mem_read.
  rewrite decide_True by (change sizeof_set_buffer with 25; lia). unfold bind at 1. cbn [liftC].
  change (Z.to_nat sizeof_set_buffer) with 25%nat. change (Z.to_nat 0) with 0%nat. rewrite drop_0. fold r.
  unfold bind. cbn [gets]. destruct (inside r) eqn:Hin.
  2: { cbn [negb orb]. rewrite decide_False; [done|]. intros [Hok _]. apply inside_rect in Hok; [congruence|done]. }
  apply (inside_rect r Hr) in Hin. cbn [negb orb]. pose proof Hin as (Hx & Hy & Hw & Hh & Hxw & Hyh).
  destruct (inv_format _ HI) as [Hf|Hf]; rewrite Hf.
  { cbn [orb]. rewrite decide_False; [done|]. by intros (_ & Hf' & _). }
  change (GUD_PIXEL_FORMAT_RGB565 =? 0) with false. cbn [orb].
  change DISPLAY_WIDTH with 320 in *. change DISPLAY_HEIGHT with 240 in *.
  rewrite line_length_565 by (change DISPLAY_WIDTH with 320; lia).
  unfold u32. rewrite Z.mod_small by nia.
  destruct (Z.eqb_spec (req_length r) (2 * req_width r * req_height r)) as [Hl|Hl]; cbn [negb].
  2: { rewrite decide_False; [done|]. by intros (_ & _ & Hl' & _). }
  change (Z.lnot DISPLAY_COMPRESSION) with (-1). rewrite Z.land_m1_r.
  destruct (Z.eqb_spec (req_compression r) 0) as [Hc|Hc]; cbn [negb andb].
  2: { rewrite decide_False; [done|]. by intros (_ & _ & _ & Hc' & _). }
  rewrite (proj2 (Z.eqb_neq (req_length r) 0)) by nia. cbn [orb].
  destruct (Z.ltb_spec DISPLAY_MAX_BUFFER_SIZE (req_length r)) as [Hm|Hm].
  - rewrite decide_False; [done|]. intros (_ & _ & _ & _ & Hm'). lia.
  - rewrite decide_True by done. done.
Qed.

(** What a handler does to the device: [inv] afterwards, nothing of the library changed. *)
Definition handled (h : host state) : Z → host state → Prop :=
  λ status h', is_byte status ∧ ∃ s', h' = set_dev s' h ∧ inv s'.

Lemma set_dev_dev (h : host state) : set_dev (dev h) h = h.
Proof. by destruct h. Qed.

Lemma handled_same status (h : host state) : is_byte status → inv (dev h) → handled h status h.
Proof. intros Hs HI. split; [done|]. exists (dev h). by rewrite set_dev_dev. Qed.

Lemma wp_update f (Q : unit → host state → Prop) E h : Q tt (set_dev (f (dev h)) h) → wp (update f) Q E h.
Proof. intros HQ. by apply wp_modify. Qed.

Lemma inv_set_last_status v s : inv s → is_byte v → inv (set_last_status v s).
Proof. intros [] Hv. by constructor. Qed.

Lemma set_buffer_handled data len h :
  inv (dev h) → data_ok data len → wp (set_buffer data len) (handled h) never h.
Proof.
  intros HI [Hb Hlen]. destruct (Z.eqb_spec len sizeof_set_buffer) as [->|Hne].
  - unfold wp. rewrite set_buffer_spec by (done || lia || by apply Forall_take). case_decide as Hv; [|by apply handled_same].
    split; [done|]. eexists. split; [reflexivity|]. destruct HI. constructor; try done.
    intros _. split; [done|]. split; [done|]. cbn [received pending_of req pending set_pending].
    destruct Hv as ((_ & _ & Hw & Hh & _) & _ & Hl & _). nia.
  - unfold set_buffer. rewrite (proj2 (Z.eqb_neq _ _) Hne). apply wp_ret. by apply handled_same.
Qed.

Lemma check_properties_ok n offset data :
  0 ≤ offset → offset + sizeof_property * Z.of_nat n ≤ blen data →
  cwp (check_properties n offset data) (λ status, status = GUD_STATUS_OK ∨ status = GUD_STATUS_INVALID_PARAMETER).
Proof.
  change sizeof_property with 10. revert offset. induction n as [|n IH]; intros offset Ho Hn; cbn [check_properties]; [by left|].
  apply cwp_bind, cwp_mem_read; [change sizeof_property with 10; lia..|].
  destruct (_ && _); [by right|]. apply IH; change sizeof_property with 10; lia.
Qed.

Lemma set_state_check_handled data len h :
  inv (dev h) → data_ok data len → wp (set_state_check data len) (handled h) never h.
Proof.
  intros HI [Hb Hlen]. unfold set_state_check. destruct (_ || _) eqn:Hsize; [by apply wp_ret, handled_same|].
  apply orb_false_iff in Hsize as [Hs Hm]. apply Z.ltb_ge in Hs.
  apply wp_bind, wp_liftC, cwp_mem_read; [done|done|lia|]. set (st := gud_state_of_mem _).
  destruct (_ || _) eqn:Hst; [by apply wp_ret, handled_same|].
  apply orb_false_iff in Hst as [Hst _]. apply orb_false_iff in Hst as [_ Hf]. apply negb_false_iff in Hf.
  apply wp_bind, wp_liftC. eapply cwp_mono; [apply check_properties_ok; [done|]|].
  { change sizeof_property with 10 in *. change sizeof_state with 26 in *.
    assert (0 ≤ (len - 26) / 10) by (apply Z.div_pos; lia). rewrite Z2Nat.id by done.
    pose proof (Z.mul_div_le (len - 26) 10). lia. }
  intros status [->| ->]; cbn [Z.eqb]; [|by apply wp_ret, handled_same].
  apply wp_bind, wp_update, wp_ret. split; [done|]. eexists. split; [reflexivity|]. destruct HI. constructor; try done.
  intros _. cbn [checked_state set_checked]. unfold is_offered_format, display_formats in Hf. cbn [existsb] in Hf.
  rewrite orb_false_r in Hf. by apply Z.eqb_eq in Hf.
Qed.

Lemma set_state_commit_handled h : inv (dev h) → wp set_state_commit (handled h) never h.
Proof.
  intros HI. unfold set_state_commit. apply wp_bind, wp_gets. destruct (state_checked (dev h)) eqn:Hc; cbn [negb].
  - apply wp_bind, wp_update, wp_bind, wp_update, wp_ret. split; [done|]. eexists. split; [reflexivity|].
    pose proof (inv_checked _ HI Hc) as Hf. destruct HI. constructor; try done; cbn.
    + by right.
    + rewrite Hf. intros Ha. destruct (inv_pending0 Ha) as (H1 & (H2 & _ & H3) & H4). done.
  - by apply wp_ret, handled_same.
Qed.

Lemma set_enable_handled enabled data len h :
  (∀ b s, inv s → inv (enabled b s)) → inv (dev h) → data_ok data len → wp (set_enable enabled data len) (handled h) never h.
Proof.
  intros Hen HI [Hb Hlen]. unfold set_enable. destruct (Z.eqb_spec len 1) as [->|]; cbn [negb]; [|by apply wp_ret, handled_same].
  wp_byte d0 _. apply wp_bind, wp_update, wp_ret.
  split; [done|]. eexists. split; [reflexivity|]. by apply Hen.
Qed.

(** Every request of the host is carried out or refused with a status. *)
Lemma set_request_ok bRequest data len h :
  inv (dev h) → data_ok data len →
  wp (set_request bRequest data len) (λ _ h', ∃ s', h' = set_dev s' h ∧ inv s') never h.
Proof.
  intros HI Hd. unfold set_request. apply wp_bind.
  assert (wp (if bRequest =? GUD_REQ_SET_CONNECTOR_FORCE_DETECT then ret GUD_STATUS_OK
    else if bRequest =? GUD_REQ_SET_BUFFER then set_buffer data len
    else if bRequest =? GUD_REQ_SET_STATE_CHECK then set_state_check data len
    else if bRequest =? GUD_REQ_SET_STATE_COMMIT then set_state_commit
    else if bRequest =? GUD_REQ_SET_CONTROLLER_ENABLE then set_enable set_controller_enabled data len
    else if bRequest =? GUD_REQ_SET_DISPLAY_ENABLE then set_enable set_display_enabled data len
    else ret GUD_STATUS_REQUEST_NOT_SUPPORTED) (handled h) never h) as H.
  { repeat case_match; [by apply wp_ret, handled_same|by apply set_buffer_handled|by apply set_state_check_handled
      |by apply set_state_commit_handled|apply set_enable_handled; try done; by intros b s []
      |apply set_enable_handled; try done; by intros b s []|by apply wp_ret, handled_same]. }
  eapply wp_post; [exact H|]. intros status h' (Hs & s' & -> & HI'). apply wp_update.
  eexists. split; [reflexivity|]. by apply inv_set_last_status.
Qed.

Lemma answer_ok msg h :
  host_ok inv h → Forall is_byte msg →
  wp (answer msg (blen msg)) (λ _ h', host_ok inv h' ∧ same_control (lib h) (lib h')) never h.
Proof.
  intros [HI Hwf] Hb. unfold answer. apply wp_bind, wp_update, wp_bind.
  pose proof (blen_nonneg msg).
  eapply wp_post; [apply (callback_transmit_ok inv); [|done|lia|done]|].
  - split; [|done]. by apply inv_set_last_status.
  - intros b h' (H1 & H2 & _). apply wp_ret. by split.
Qed.

Lemma request_refused status h :
  host_ok inv h → is_byte status →
  wp (update (set_last_status status)) (λ _ h', host_ok inv h' ∧ same_control (lib h) (lib h')) never h.
Proof. intros [HI Hwf] Hs. apply wp_update. split; [|done]. split; [|done]. by apply inv_set_last_status. Qed.

Lemma now_ms_wp (Q : Z → host state → Prop) h : (∀ now c, 0 ≤ now < 2 ^ 64 → Q now (set_clk c h)) → wp now_ms Q never h.
Proof.
  intros HQ. unfold now_ms. apply wp_bind, wp_zoom. unfold wp, clock_gettime.
  assert (∀ v, 0 ≤ u64 v < 2 ^ 64) as Hu by (intros; by apply Z.mod_pos_bound).
  destruct (readings (clk h)); apply HQ, Hu.
Qed.

Lemma get_request_ok bRequest wValue h :
  host_ok inv h → wp (get_request bRequest wValue) (λ _ h', host_ok inv h' ∧ same_control (lib h) (lib h')) never h.
Proof.
  intros Hh. unfold get_request, connector_request.
  destruct (_ =? _).
  { apply wp_bind, wp_gets, wp_bind. destruct Hh as [HI Hwf].
    eapply wp_post; [apply (callback_transmit_ok inv); [done|done|done|]|].
    - constructor; [apply HI|constructor].
    - intros b h' (H1 & H2 & _). apply wp_ret. by split. }
  do 4 (destruct (_ =? _); [apply answer_ok; [done|]; apply (bool_decide_eq_true_1 _); vm_compute; reflexivity|]).
  destruct (negb _); [by apply request_refused|].
  destruct (_ =? _); [by apply (answer_ok [])|]. destruct (_ =? _).
  { apply wp_bind, now_ms_wp. intros now c _. apply wp_bind, wp_gets.
    destruct (_ <=? _); (eapply wp_post; [apply (answer_ok [_] (set_clk c h)); [exact Hh|by repeat constructor]|done]). }
  destruct (_ =? _); [apply answer_ok; [done|]; apply (bool_decide_eq_true_1 _); vm_compute; reflexivity|].
  by apply request_refused.
Qed.

Lemma control_data_ok setup data len :
  blen setup = 8 → Forall is_byte setup → data_ok data len → callback_ok inv (control_data setup data len) (λ _, True).
Proof.
  intros Hs Hsb Hd h Hh Hl. unfold control_data.
  do 6 wp_byte ? _.
  assert (∀ m : M (host state) unit, wp m (λ _ h', host_ok inv h' ∧ same_control (lib h) (lib h')) never h →
    wp m (λ _ h', True ∧ host_ok inv h' ∧ same_control (lib h) (lib h')) never h) as Hpost
    by (intros m Hm; eapply wp_post; [exact Hm|]; by intros [] h1 [H1 H2]).
  destruct (_ && _); [by apply wp_ret|]. destruct (negb _); [by apply Hpost, request_refused|].
  destruct (_ =? _); apply Hpost; [by apply get_request_ok|].
  destruct Hh as [HI Hwf]. eapply wp_post; [by apply set_request_ok|]. intros _ h' (s' & -> & HI'). done.
Qed.

(** *** Pixel data *)

Lemma memcpy_Val {A} (dst src : list A) doff soff n :
  0 ≤ doff → 0 ≤ soff → 0 ≤ n → soff + n ≤ blen src → doff + n ≤ blen dst →
  memcpy dst doff src soff n = Val (splice dst (Z.to_nat doff) (take (Z.to_nat n) (drop (Z.to_nat soff) src))).
Proof.
  intros H1 H2 H3 H4 H5. unfold memcpy, mem_read. rewrite decide_True by lia. cbn [cbind].
  unfold mem_write. rewrite decide_True by (rewrite blen_take, blen_drop by lia; lia). done.
Qed.

(** Byte [i] lies in the lines from [line] to before [line + n] of the rectangle. *)
Definition in_lines (r : gud_set_buffer_req_t) (line n : Z) (i : nat) : Prop :=
  req_y r + line ≤ Z.of_nat i / LINE < req_y r + line + n
  ∧ 2 * req_x r ≤ Z.of_nat i mod LINE < 2 * (req_x r + req_width r).

(** The bytes of one line follow each other. *)
Lemma line_bytes r line i :
  rect_ok r → 0 ≤ line < req_height r →
  let off := (req_y r + line) * 640 + 2 * req_x r in
  (in_lines r line 1 i ↔ off ≤ Z.of_nat i < off + 2 * req_width r)
  ∧ (in_lines r line 1 i → data_index r i = Z.to_nat (line * (2 * req_width r) + (Z.of_nat i - off))).
Proof.
  intros (Hx & Hy & Hw & Hh & Hxw & Hyh) Hl off. unfold in_lines, data_index, off. change LINE with 640.
  change DISPLAY_WIDTH with 320 in *. change DISPLAY_HEIGHT with 240 in *.
  pose proof (Z.div_mod (Z.of_nat i) 640 ltac:(done)) as Hi. pose proof (Z.mod_pos_bound (Z.of_nat i) 640 ltac:(done)) as Hm.
  set (q := Z.of_nat i / 640) in *. set (m := Z.of_nat i mod 640) in *. split; [lia|].
  intros [Hq Hc]. assert (q = req_y r + line) as -> by lia. f_equal. nia.
Qed.

Lemma store_line r line (pixels fb : bytes) :
  rect_ok r → 0 ≤ line < req_height r → blen fb = framebuffer_size → 2 * req_width r * req_height r ≤ blen pixels →
  ∃ fb', memcpy fb (u32 (u32 (u32 (req_y r + line) * (DISPLAY_WIDTH * 2)) + u32 (req_x r * 2)))
           pixels (u32 (line * u32 (req_width r * 2))) (u32 (req_width r * 2)) = Val fb'
    ∧ length fb' = length fb
    ∧ ∀ i, fb' !! i = if decide (in_lines r line 1 i) then pixels !! data_index r i else fb !! i.
Proof.
  intros Hr Hl Hfb Hpix. pose proof Hr as (Hx & Hy & Hw & Hh & Hxw & Hyh). change framebuffer_size with 307200 in Hfb.
  change DISPLAY_WIDTH with 320 in *. change DISPLAY_HEIGHT with 240 in *. change (320 * 2) with 640.
  assert (line * (2 * req_width r) + 2 * req_width r ≤ 2 * req_width r * req_height r) as Hsrc by nia.
  assert (line * (2 * req_width r) ≤ 240 * 640) as Hsmall by nia.
  unfold u32. rewrite !(Z.mod_small (req_width r * 2)), !(Z.mod_small (req_x r * 2)), !(Z.mod_small (req_y r + line)) by lia.
  rewrite (Z.mod_small ((req_y r + line) * 640)), (Z.mod_small ((req_y r + line) * 640 + req_x r * 2)) by lia.
  rewrite (Z.mul_comm (req_width r)), (Z.mul_comm (req_x r)), (Z.mod_small (line * (2 * req_width r))) by nia.
  set (off := (req_y r + line) * 640 + 2 * req_x r). assert (0 ≤ off ∧ off + 2 * req_width r ≤ 307200) as [Ho1 Ho2] by (unfold off; lia).
  assert (0 ≤ line * (2 * req_width r)) as Hs0 by nia.
  rewrite memcpy_Val by lia. eexists. split; [reflexivity|].
  set (src := take _ _). assert (length src = Z.to_nat (2 * req_width r)) as Hsl
    by (unfold src; rewrite length_take, length_drop; unfold blen in Hpix; lia).
  assert (Z.to_nat off + length src ≤ length fb)%nat as Hfit by (rewrite Hsl; unfold blen in Hfb; lia).
  split; [by apply length_splice|]. intros i. rewrite splice_lookup by done.
  destruct (line_bytes r line i Hr Hl) as [Hin Hdi]. fold off in Hin, Hdi.
  destruct (decide (in_lines r line 1 i)) as [Hi|Hi].
  - rewrite (Hdi Hi). apply Hin in Hi. rewrite decide_True by (rewrite Hsl; lia).
    unfold src. rewrite lookup_take_lt, lookup_drop by lia. f_equal. lia.
  - rewrite decide_False; [done|]. rewrite Hsl. intros Hc. apply Hi, Hin. lia.
Qed.

Lemma store_lines_spec n line r (pixels fb : bytes) :
  rect_ok r → 0 ≤ line → line + Z.of_nat n ≤ req_height r → blen fb = framebuffer_size →
  2 * req_width r * req_height r ≤ blen pixels →
  ∃ fb', store_lines n line r 2 pixels fb = Val fb' ∧ length fb' = length fb
    ∧ ∀ i, fb' !! i = if decide (in_lines r line (Z.of_nat n) i) then pixels !! data_index r i else fb !! i.
Proof.
  intros Hr. revert line fb. induction n as [|n IH]; intros line fb Hl Hn Hfb Hpix.
  - exists fb. split; [done|]. split; [done|]. intros i. rewrite decide_False; [done|]. unfold in_lines. lia.
  - destruct (store_line r line pixels fb Hr) as (fb1 & H1 & Hl1 & Hi1); [lia|done|done|].
    destruct (IH (line + 1) fb1) as (fb2 & H2 & Hl2 & Hi2); [lia|lia|unfold blen in *; congruence|done|].
    exists fb2. cbn [store_lines]. rewrite H1. cbn [cbind]. split; [exact H2|]. split; [congruence|].
    intros i. rewrite Hi2, Hi1. unfold in_lines. repeat case_decide; first [done|exfalso; lia].
Qed.

(** Storing an accepted rectangle draws it. *)
Lemma store_lines_drawn r pixels fb :
  rect_ok r → blen fb = framebuffer_size → 2 * req_width r * req_height r ≤ blen pixels →
  store_lines (Z.to_nat (req_height r)) 0 r 2 pixels fb = Val (drawn r pixels fb).
Proof.
  intros Hr Hfb Hpix. pose proof Hr as (Hx & Hy & Hw & Hh & Hxw & Hyh).
  destruct (store_lines_spec (Z.to_nat (req_height r)) 0 r pixels fb Hr) as (fb' & H & Hlen & Hi); [lia|lia|done|done|].
  rewrite H. f_equal. apply list_eq. intros i. rewrite Hi. unfold drawn. rewrite list_lookup_imap.
  assert (in_lines r 0 (Z.of_nat (Z.to_nat (req_height r))) i ↔ in_rect r i) as Heq by (unfold in_lines, in_rect; lia).
  destruct (fb !! i) as [b|] eqn:Hb; cbn [fmap option_fmap option_map].
  - rewrite (decide_ext _ _ _ _ Heq). case_decide as Hin; [|done].
    destruct (lookup_lt_is_Some_2 pixels (data_index r i)) as [v Hv]; [|by rewrite Hv].
    unfold data_index, in_rect in *. change LINE with 640 in *. unfold blen in Hpix.
    set (q := Z.of_nat i / 640) in *. set (m := Z.of_nat i mod 640) in *. nia.
  - rewrite decide_False; [done|]. intros Hin. apply Heq in Hin as [Hq Hm]. apply lookup_ge_None in Hb.
    unfold blen in Hfb. change framebuffer_size with 307200 in Hfb. change LINE with 640 in *.
    change DISPLAY_HEIGHT with 240 in *. pose proof (Z.div_mod (Z.of_nat i) 640 ltac:(done)).
    pose proof (Z.mod_pos_bound (Z.of_nat i) 640 ltac:(done)). lia.
Qed.

Lemma drawn_ok r pixels fb : Forall is_byte pixels → Forall is_byte fb →
  blen (drawn r pixels fb) = blen fb ∧ Forall is_byte (drawn r pixels fb).
Proof.
  intros Hp Hf. unfold drawn, blen. rewrite length_imap. split; [done|].
  apply Forall_lookup. intros i v. rewrite list_lookup_imap. intros (b & Hb & Hv)%fmap_Some.
  pose proof (Forall_lookup_1 _ _ _ _ Hf Hb) as Hbb. subst v. case_decide; [|done].
  destruct (pixels !! _) as [c|] eqn:Hc; [|done]. by apply (Forall_lookup_1 _ _ _ _ Hp Hc).
Qed.

(** A transfer that is not expected: counted as an error. *)
Lemma endpoint_drops ep data len (h : host state) :
  active (pending (dev h)) = false ∨ transfer_length (pending (dev h)) - received (pending (dev h)) < len →
  inv (dev h) →
  endpoint_data ep data len h =
    Ok tt (set_dev (set_pending (deactivate (pending (dev h))) (set_stats (count_error (stats (dev h))) (dev h))) h).
Proof.
  intros Hd HI. unfold endpoint_data, bind. cbn [gets].
  destruct (active (pending (dev h))) eqn:Ha; [|done]. destruct Hd as [|Hd]; [done|].
  destruct (inv_pending _ HI Ha) as (Hp & (_ & _ & _ & _ & Hmax) & Hrec). change DISPLAY_MAX_BUFFER_SIZE with 65536 in Hmax.
  assert (u32 (transfer_length (pending (dev h)) - received (pending (dev h))) = transfer_length (pending (dev h)) - received (pending (dev h))) as ->.
  { rewrite Hp. cbn [transfer_length received pending_of]. unfold u32. apply Z.mod_small. lia. }
  rewrite (proj2 (Z.ltb_lt _ _)) by done. done.
Qed.

(** [n] bytes [acc] of the data of [r] have arrived. *)
Record receiving (r : gud_set_buffer_req_t) (acc : bytes) (s : state) : Prop := {
  rcv_inv : inv s;
  rcv_pending : pending s = pending_of r (blen acc);
  rcv_data : take (length acc) (transfer_buffer s) = acc;
}.

(** Only the bytes of the rectangle count. *)
Lemma drawn_prefix r data buffer fb :
  rect_ok r → blen data = 2 * req_width r * req_height r → take (length data) buffer = data →
  drawn r buffer fb = drawn r data fb.
Proof.
  intros (Hx & Hy & Hw & Hh & _) Hlen Ht. unfold drawn. apply imap_ext. intros i b _.
  case_decide as Hin; [|done]. rewrite <-Ht, lookup_take_lt; [done|].
  unfold data_index, in_rect in *. unfold blen in Hlen.
  set (q := Z.of_nat i / LINE) in *. set (m := Z.of_nat i mod LINE) in *. nia.
Qed.

(** The whole of a rectangle is in the transfer buffer. *)
Lemma store_rectangle_spec r data (h : host state) :
  inv (dev h) → valid_request (current_format (dev h)) r → blen data = req_length r →
  blen (transfer_buffer (dev h)) = DISPLAY_MAX_BUFFER_SIZE → take (length data) (transfer_buffer (dev h)) = data →
  store_rectangle r (transfer_buffer (dev h)) h =
    Ok tt (set_dev (set_framebuffer (drawn r data (framebuffer (dev h))) true (dev h)) h).
Proof.
  intros HI (Hr & Hf & Hl & _ & Hmax) Hlen Hb Ht. unfold store_rectangle, bind. cbn [gets]. rewrite Hf.
  change (format_bits_per_pixel GUD_PIXEL_FORMAT_RGB565) with 16. change (negb (16 mod 8 =? 0)) with false. change (16 / 8) with 2.
  rewrite store_lines_drawn by (done || apply HI || lia). by rewrite (drawn_prefix r data) by (done || lia).
Qed.

(** One more chunk of a rectangle that is being received. *)
Lemma endpoint_receives ep r acc chunk (h : host state) :
  receiving r acc (dev h) → Forall is_byte chunk → blen acc + blen chunk ≤ req_length r →
  ∃ s', endpoint_data ep chunk (blen chunk) h = Ok tt (set_dev s' h) ∧ inv s'
    ∧ if decide (blen acc + blen chunk < req_length r)
      then receiving r (acc ++ chunk) s' ∧ framebuffer s' = framebuffer (dev h) ∧ stats s' = stats (dev h)
      else framebuffer s' = drawn r (acc ++ chunk) (framebuffer (dev h)) ∧ framebuffer_changed s' = true
           ∧ active (pending s') = false ∧ stats_updates (stats s') = u32 (stats_updates (stats (dev h)) + 1)
           ∧ stats_errors (stats s') = stats_errors (stats (dev h)).
Proof.
  intros [HI Hp Ht] Hb Hle. pose proof (inv_pending _ HI) as Hok. unfold pending_ok in Hok.
  rewrite Hp in Hok. destruct (Hok eq_refl) as (_ & Hv & Hrec). cbn [received req pending_of] in Hrec, Hv.
  pose proof Hv as (Hr & Hf & Hl & Hc & Hmax). pose proof (blen_nonneg chunk) as Hn. destruct (inv_buffer _ HI) as [HB HBb].
  assert (Z.to_nat (blen acc) = length acc) as Hna by (unfold blen; by rewrite Nat2Z.id).
  assert (Z.to_nat (blen chunk) = length chunk) as Hnc by (unfold blen; by rewrite Nat2Z.id).
  destruct (memcpy_append (transfer_buffer (dev h)) chunk (blen acc) (blen chunk)) as (buffer & H & HB' & Htake & HFor); [lia..|].
  rewrite Hna, Ht, Hnc, firstn_all, Z2Nat.inj_add, Hna, Hnc in Htake by lia. rewrite <-length_app in Htake.
  specialize (HFor is_byte HBb Hb). rewrite HB in HB'. change DISPLAY_MAX_BUFFER_SIZE with 65536 in Hmax.
  unfold endpoint_data, bind. cbn [gets]. rewrite Hp. cbn [active received transfer_length req pending_of negb orb].
  assert (u32 (req_length r - blen acc) = req_length r - blen acc) as -> by (apply Z.mod_small; lia).
  rewrite (proj2 (Z.ltb_ge _ _)) by lia. rewrite H. cbn [liftC update modify dev set_dev].
  assert (u32 (blen acc + blen chunk) = blen acc + blen chunk) as -> by (apply Z.mod_small; lia).
  set (s1 := set_pending _ _). assert (inv (set_pending (deactivate (pending s1)) s1)) as HI1 by (destruct HI; by constructor).
  case_decide as Hlt.
  - rewrite (proj2 (Z.ltb_lt _ _)) by done. exists s1. split; [done|].
    assert (inv s1) as HIs.
    { destruct HI. constructor; try done. intros _. split; [done|]. split; [done|]. cbn. lia. }
    split; [done|]. split; [|done]. constructor; [done| |done].
    unfold pending_of. by rewrite blen_app.
  - rewrite (proj2 (Z.ltb_ge _ _)) by lia. rewrite Hc. cbn [Z.eqb negb].
    set (h2 := set_dev (set_pending (deactivate (pending s1)) s1) h). pose proof (store_rectangle_spec r (acc ++ chunk) h2 HI1 Hv) as Hst.
    change (transfer_buffer (dev h2)) with buffer in Hst.
    match goal with |- context [store_rectangle r buffer ?x] => change x with h2 end. rewrite Hst; [|rewrite blen_app; lia|done|done].
    cbn [dev set_dev]. eexists. split; [reflexivity|].
    destruct (drawn_ok r (acc ++ chunk) (framebuffer (dev h))) as [Hd1 Hd2].
    { rewrite <-Htake. by apply Forall_take. } { apply HI. }
    split; [|done]. destruct HI1. constructor; try done.
    split; [change (blen (drawn r (acc ++ chunk) (framebuffer (dev h))) = framebuffer_size); rewrite Hd1; apply HI|exact Hd2].
Qed.

(** Only [len] bytes of the data are looked at. *)
Lemma endpoint_data_take ep data len (h : host state) :
  0 ≤ len ≤ blen data → endpoint_data ep data len h = endpoint_data ep (take (Z.to_nat len) data) len h.
Proof.
  intros Hlen. assert (∀ (dst : bytes) pos, memcpy dst pos data 0 len = memcpy dst pos (take (Z.to_nat len) data) 0 len) as H.
  { intros dst pos. unfold memcpy, mem_read. rewrite !decide_True by (rewrite ?blen_take by lia; lia).
    by rewrite !drop_0, take_take, Nat.min_id. }
  unfold endpoint_data, bind. cbn [gets]. destruct (_ || _); [done|]. by rewrite H.
Qed.

Lemma receiving_of_active s : inv s → active (pending s) = true →
  receiving (req (pending s)) (take (Z.to_nat (received (pending s))) (transfer_buffer s)) s.
Proof.
  intros HI Ha. destruct (inv_pending _ HI Ha) as (Hp & (_ & _ & _ & _ & Hmax) & Hrec).
  destruct (inv_buffer _ HI) as [HB _].
  assert (blen (take (Z.to_nat (received (pending s))) (transfer_buffer s)) = received (pending s)) as Hl
    by (rewrite blen_take by lia; lia).
  constructor; [done|by rewrite Hl|]. unfold blen in Hl. f_equal. lia.
Qed.

Lemma deactivate_inv s t : inv s → inv (set_pending (deactivate (pending s)) (set_stats t s)).
Proof. intros []. by constructor. Qed.

Lemma endpoint_data_ok ep data len : data_ok data len → callback_ok inv (endpoint_data ep data len) (λ _, True).
Proof.
  intros [Hb Hlen] h [HI Hwf] _.
  enough (wp (endpoint_data ep (take (Z.to_nat len) data) len)
    (λ _ h', True ∧ host_ok inv h' ∧ same_control (lib h) (lib h')) never h) as H
    by (unfold wp in *; by rewrite endpoint_data_take).
  set (chunk := take (Z.to_nat len) data). assert (blen chunk = len) as Hcl by (unfold chunk; rewrite blen_take; lia).
  assert (Forall is_byte chunk) as Hcb by (by apply Forall_take). rewrite <-Hcl.
  destruct (active (pending (dev h))) eqn:Ha.
  - pose proof (receiving_of_active _ HI Ha) as Hrcv. set (r := req (pending (dev h))) in *.
    set (acc := take _ (transfer_buffer (dev h))) in *. pose proof (rcv_pending _ _ _ Hrcv) as Hp.
    destruct (decide (blen acc + blen chunk ≤ req_length r)) as [Hle|Hgt].
    + destruct (endpoint_receives ep r acc chunk h Hrcv Hcb Hle) as (s' & Hs & HI' & _). unfold wp. rewrite Hs. done.
    + unfold wp. rewrite endpoint_drops; [|right; rewrite Hp; cbn; lia|done]. split; [done|]. split; [|done].
      split; [|done]. by apply deactivate_inv.
  - unfold wp. rewrite endpoint_drops by auto. split; [done|]. split; [|done]. split; [|done]. by apply deactivate_inv.
Qed.

Lemma gud_reset_wp (h : host state) : inv (dev h) →
  wp reset (λ _ h', inv (dev h') ∧ lib h' = lib h ∧ current_format (dev h') = 0 ∧ active (pending (dev h')) = false) never h.
Proof.
  intros HI. unfold reset. apply wp_bind, now_ms_wp. intros now c _.
  repeat (try apply wp_bind; apply wp_update). split; [|done]. destruct HI. destruct inv_framebuffer0 as [Hf _].
  constructor; try done; [by left|]. split; [|by apply Forall_replicate]. unfold blen in *. cbn. by rewrite length_replicate.
Qed.

#[global] Instance gud_sound : DeviceSound inv gud_display_device.
Proof.
  apply device_sound; [vm_compute; reflexivity|..|done].
  - intros setup data len Hs Hsb Hd. by apply control_data_ok.
  - intros callback ep data len [= <-] Hd. by apply endpoint_data_ok.
  - intros callback [= <-] h [HI Hwf] _. eapply wp_post; [by apply gud_reset_wp|]. intros _ h' (H1 & H2 & _).
    split; [done|]. rewrite H2. split; [|done]. split; [done|by rewrite H2].
Qed.

Lemma update_keeps f : keeps other_messages (update f).
Proof. unfold update. keeps. Qed.

Lemma answer_keeps msg len : keeps other_messages (answer msg len).
Proof. pose proof update_keeps. unfold answer. keeps. Qed.

#[global] Instance gud_silent : SilentDevice gud_display_device.
Proof.
  pose proof update_keeps. pose proof answer_keeps. constructor.
  - intros. cbn. unfold control_data, get_request, connector_request, now_ms, set_request, set_buffer, set_state_check,
      set_state_commit, set_enable. keeps.
  - intros callback ep data len [= <-]. unfold endpoint_data, store_rectangle. keeps.
  - intros callback [= <-]. unfold reset, now_ms. keeps.
  - done.
Qed.

Lemma gud_inv_initial : inv initial_state.
Proof.
  constructor; [done|by left|done|done| |].
  - cbn [transfer_buffer initial_state]. rewrite blen_replicate by done. split; [done|by apply Forall_replicate].
  - cbn [framebuffer initial_state]. rewrite blen_replicate by done. split; [done|by apply Forall_replicate].
Qed.

(** *** The request for a rectangle *)

Definition set_buffer_setup : bytes := [REQUEST_TYPE_VENDOR_INTERFACE_OUT; GUD_REQ_SET_BUFFER; 0; 0; GUD_INTERFACE; 0; 25; 0].
Definition get_status_setup : bytes := [REQUEST_TYPE_VENDOR_INTERFACE_IN; GUD_REQ_GET_STATUS; 0; 0; GUD_INTERFACE; 0; 1; 0].

(** The device after a request for [r]. *)
Definition after_set_buffer (r : gud_set_buffer_req_t) (s : state) : state :=
  if decide (valid_request (current_format s) r)
  then set_last_status GUD_STATUS_OK (set_pending (pending_of r 0) s)
  else set_last_status GUD_STATUS_INVALID_PARAMETER s.

Lemma set_buffer_request r rest (h : host state) :
  host_idle inv h → set_buffer_ok r →
  ∃ h', usbip_device_control gud_display_device set_buffer_setup (gud_set_buffer_mem r ++ rest) sizeof_set_buffer h = Ok true h'
    ∧ host_idle inv h' ∧ dev h' = after_set_buffer r (dev h) ∧ stopped (abs (lib h')) = stopped (abs (lib h)).
Proof.
  intros Hh Hr. destruct (set_buffer_mem_blen r) as [Hlen Hb].
  pose proof (device_control_wp inv gud_display_device set_buffer_setup (gud_set_buffer_mem r ++ rest) sizeof_set_buffer
    REQUEST_TYPE_VENDOR_INTERFACE_OUT h
    (λ h2, dev h2 = after_set_buffer r (dev h) ∧ stopped (abs (lib h2)) = stopped (abs (lib h))) Hh eq_refl eq_refl) as H.
  apply wp_never_Ok in H as (supported & h' & Hrun & -> & Hh' & h2 & [Hdev2 Hst2] & Hdev & Habs).
  - exists h'. split; [done|]. split; [done|]. split; [congruence|]. by rewrite Habs.
  - intros h1 Hok1 Hl1 Hdev1 Habs1. change (control_data_callback gud_display_device) with control_data.
    unfold control_data. do 6 apply wp_bind, wp_liftC, cwp_ret.
    change (wp (set_request GUD_REQ_SET_BUFFER (gud_set_buffer_mem r ++ rest) sizeof_set_buffer)
      (λ _ h2, host_ok inv h2 ∧ same_control (lib h1) (lib h2)
         ∧ dev h2 = after_set_buffer r (dev h) ∧ stopped (abs (lib h2)) = stopped (abs (lib h))) never h1).
    unfold set_request. change (GUD_REQ_SET_BUFFER =? GUD_REQ_SET_CONNECTOR_FORCE_DETECT) with false.
    change (GUD_REQ_SET_BUFFER =? GUD_REQ_SET_BUFFER) with true. apply wp_bind.
    assert (take 25 (gud_set_buffer_mem r ++ rest) = gud_set_buffer_mem r) as Htake.
    { change sizeof_set_buffer with 25 in Hlen. unfold blen in Hlen. apply take_app_length'. lia. }
    assert (stopped (abs (lib h1)) = stopped (abs (lib h))) as Hst1 by (by rewrite Habs1).
    destruct Hok1 as [HI1 Hwf1]. unfold wp at 1. rewrite set_buffer_spec;
      [|done|by rewrite Htake|rewrite blen_app; pose proof (blen_nonneg rest); lia].
    rewrite Htake, set_buffer_mem_of by done. unfold after_set_buffer. rewrite Hdev1 in *.
    case_decide as Hv; apply wp_update; (split; [split; [|done]|split; [done|split; [cbn [dev set_dev]; by rewrite ?Hdev1|done]]]); cbn [dev set_dev].
    + apply inv_set_last_status; [|done]. destruct HI1. constructor; try done. intros _. split; [done|]. split; [done|].
      cbn [received req pending_of pending set_pending]. destruct Hv as ((_ & _ & Hw & Hh' & _) & _ & Hl & _). nia.
    + rewrite Hdev1. by apply inv_set_last_status.
Qed.

(** *** Transfers of a rectangle *)

(** OUT transfers, each with some data. *)
Fixpoint send_chunks (chunks : list bytes) : M (host state) unit :=
  match chunks with
  | [] => ret tt
  | c :: chunks => usbip_device_receive gud_display_device GUD_EP_DATA_OUT c (blen c);; send_chunks chunks
  end.

Definition locked (h : host state) : host state := set_lib (set_receive_lock true (lib h)) h.

Lemma receive_chunk buffer len s' (h : host state) :
  host_idle inv h → inv s' →
  endpoint_data GUD_EP_DATA_OUT buffer len (locked h) = Ok tt (set_dev s' (locked h)) →
  ∃ h', usbip_device_receive gud_display_device GUD_EP_DATA_OUT buffer len h = Ok tt h'
    ∧ host_idle inv h' ∧ dev h' = s'.
Proof.
  intros [[HI Hwf] Hl] HI' Hrun. unfold usbip_device_receive. cbn [ep_data_callback gud_display_device].
  unfold bind, in_lib, zoom, lock_receive. rewrite Hl. fold (locked h). rewrite Hrun. cbn. eexists. split; [reflexivity|].
  split; [|done]. split; [|done]. split; [done|]. destruct Hwf. by constructor.
Qed.

(** What has become of the display once all data of [r] has arrived. *)
Definition finished (r : gud_set_buffer_req_t) (data : bytes) (s s' : state) : Prop :=
  framebuffer s' = drawn r data (framebuffer s) ∧ framebuffer_changed s' = true ∧ active (pending s') = false
  ∧ stats_updates (stats s') = u32 (stats_updates (stats s) + 1) ∧ stats_errors (stats s') = stats_errors (stats s).

Lemma send_chunks_spec r chunks acc (h : host state) :
  host_idle inv h → receiving r acc (dev h) → Forall (λ c, Forall is_byte c ∧ c ≠ []) chunks →
  blen acc + blen (concat chunks) = req_length r →
  ∃ h', send_chunks chunks h = Ok tt h' ∧ host_idle inv h' ∧ finished r (acc ++ concat chunks) (dev h) (dev h').
Proof.
  revert acc h. induction chunks as [|c chunks IH]; intros acc h Hh Hrcv HF Hlen.
  { exfalso. pose proof (inv_pending _ (rcv_inv _ _ _ Hrcv)) as Hok. unfold pending_ok in Hok.
    rewrite (rcv_pending _ _ _ Hrcv) in Hok. destruct (Hok eq_refl) as (_ & _ & Hrec). cbn [received req pending_of] in Hrec. change (blen (concat [])) with 0 in Hlen. lia. }
  apply Forall_cons in HF as [[Hb Hne] HF]. cbn [concat] in Hlen. rewrite blen_app in Hlen.
  pose proof (blen_nonneg (concat chunks)).
  destruct (endpoint_receives GUD_EP_DATA_OUT r acc c (locked h) Hrcv Hb) as (s' & Hs & HI' & Hcase). { lia. }
  destruct (receive_chunk c (blen c) s' h Hh HI' Hs) as (h1 & H1 & Hh1 & Hdev1).
  cbn [send_chunks]. unfold bind. rewrite H1. change (dev (locked h)) with (dev h) in Hcase. case_decide as Hlt.
  - destruct Hcase as (Hrcv' & Hf & Hst). rewrite <-Hdev1 in Hrcv', Hf, Hst.
    destruct (IH (acc ++ c) h1 Hh1 Hrcv' HF) as (h2 & H2 & Hh2 & Hfin); [rewrite blen_app; lia|].
    exists h2. split; [exact H2|]. split; [done|]. unfold finished in *. rewrite Hf, Hst in Hfin.
    cbn [concat]. by rewrite app_assoc.
  - assert (chunks = []) as ->.
    { destruct chunks as [|c2 chunks]; [done|]. apply Forall_cons in HF as [[_ Hne2] _].
      cbn [concat] in Hlen. rewrite blen_app in Hlen. pose proof (blen_nonneg (concat chunks)).
      destruct c2; [done|]. unfold blen in *. cbn [length] in *. lia. }
    exists h1. split; [done|]. split; [done|]. unfold finished. rewrite Hdev1. cbn [concat]. by rewrite app_nil_r.
Qed.

(** *** The frame in the window *)

Definition word (rgb : Z * Z * Z) : Z :=
  let '(r, g, b) := rgb in u32 (Z.lor (Z.lor (Z.shiftl r 16) (Z.shiftl g 8)) b).

Lemma convert_spec n idx fb fmt (pixels : list Z) :
  0 ≤ idx → idx + Z.of_nat n ≤ blen pixels →
  (∀ j, idx ≤ j < idx + Z.of_nat n → ∃ rgb, pixel_rgb fb fmt j = Val rgb) →
  ∃ out, framebuffer_to_xrgb8888 n idx fb fmt pixels = Val out ∧ length out = length pixels
    ∧ ∀ j : nat, (j < length pixels)%nat →
        if decide (idx ≤ Z.of_nat j < idx + Z.of_nat n)
        then ∃ rgb, pixel_rgb fb fmt (Z.of_nat j) = Val rgb ∧ out !! j = Some (word rgb)
        else out !! j = pixels !! j.
Proof.
  revert idx pixels. induction n as [|n IH]; intros idx pixels Hi Hlen Hpix.
  - exists pixels. split; [done|]. split; [done|]. intros j Hj. rewrite decide_False by lia. done.
  - destruct (Hpix idx) as [[[r g] b] Hrgb]; [lia|]. cbn [framebuffer_to_xrgb8888]. rewrite Hrgb. cbn [cbind].
    unfold arr_set. rewrite decide_True by lia. cbn [cbind].
    destruct (IH (idx + 1) (<[Z.to_nat idx:=word (r, g, b)]> pixels)) as (out & H & Hl & Hout);
      [lia|rewrite blen_insert; lia|intros j Hj; apply Hpix; lia|].
    exists out. split; [exact H|]. rewrite length_insert in Hl, Hout. split; [done|]. intros j Hj. specialize (Hout j Hj).
    destruct (decide (Z.of_nat j = idx)) as [Hji|Hji].
    + rewrite decide_False in Hout by lia. rewrite decide_True by lia. exists (r, g, b). split; [by rewrite Hji|].
      rewrite Hout. rewrite <-Hji, Nat2Z.id. by apply list_lookup_insert_eq.
    + case_decide as H1.
      * rewrite decide_True by lia. done.
      * rewrite decide_False by lia. rewrite Hout. apply list_lookup_insert_ne. lia.
Qed.

(** The pixel of a 16 bit word in the RGB565 format that a colour of the window comes
    from: its channels without their low bits. *)
Definition to_rgb565 (w : Z) : Z := (w / 65536 / 8) * 2048 + (w / 256 mod 256 / 4) * 32 + w mod 256 / 8.

Lemma widen_ok bits v : bits ∈ [5; 6] → 0 ≤ v < 2 ^ bits → is_byte (widen v bits) ∧ widen v bits / 2 ^ (8 - bits) = v.
Proof.
  intros Hbits Hv.
  assert (∀ b, b ∈ [5; 6] → forallb (λ v, bool_decide (is_byte (widen v b) ∧ widen v b / 2 ^ (8 - b) = v)) (seqZ 0 (2 ^ b)) = true) as H.
  { intros b Hb. repeat (apply elem_of_cons in Hb as [->|Hb]; [vm_compute; reflexivity|]). by apply elem_of_nil in Hb. }
  specialize (H bits Hbits). rewrite forallb_forall in H. apply (bool_decide_eq_true_1 _), H, list_elem_of_In, elem_of_seqZ. lia.
Qed.

Lemma word_bytes r g b : is_byte r → is_byte g → is_byte b → word (r, g, b) = 65536 * r + 256 * g + b.
Proof.
  intros Hr Hg Hb. unfold word.
  assert (Z.lor (Z.shiftl r 16) (Z.shiftl g 8) = Z.shiftl (g + 256 * r) 8) as ->.
  { rewrite <-(lor_shiftl_byte g r) by done. rewrite Z.shiftl_lor. by rewrite Z.shiftl_shiftl. }
  rewrite lor_shiftl_byte by done. unfold u32, is_byte in *. rewrite Z.mod_small by lia. lia.
Qed.

(** A colour of the window shows the bits of the framebuffer's pixel. *)
Lemma pixel_565 fb (j : nat) :
  Forall is_byte fb → 2 * (Z.of_nat j + 1) ≤ blen fb →
  ∃ rgb lo hi, pixel_rgb fb GUD_PIXEL_FORMAT_RGB565 (Z.of_nat j) = Val rgb
    ∧ fb !! (2 * j)%nat = Some lo ∧ fb !! (2 * j + 1)%nat = Some hi
    ∧ to_rgb565 (word rgb) = lo + 256 * hi.
Proof.
  intros Hb Hlen. unfold blen in Hlen.
  destruct (lookup_lt_is_Some_2 fb (2 * j)) as [lo Hlo]; [lia|].
  destruct (lookup_lt_is_Some_2 fb (2 * j + 1)) as [hi Hhi]; [lia|].
  pose proof (Forall_lookup_1 _ _ _ _ Hb Hlo) as Hlob. pose proof (Forall_lookup_1 _ _ _ _ Hb Hhi) as Hhib. simpl in Hlob, Hhib.
  eexists _, lo, hi. split; [|split; [done|split; [done|]]].
  - unfold pixel_rgb. change (GUD_PIXEL_FORMAT_RGB565 =? GUD_PIXEL_FORMAT_R8) with false.
    change (GUD_PIXEL_FORMAT_RGB565 =? GUD_PIXEL_FORMAT_RGB332) with false.
    change (GUD_PIXEL_FORMAT_RGB565 =? GUD_PIXEL_FORMAT_RGB565) with true.
    rewrite (proj2 (arr_get_Val fb (2 * Z.of_nat j) lo)) by (split; [lia|]; rewrite <-Hlo; f_equal; lia).
    cbn [cbind]. rewrite (proj2 (arr_get_Val fb (2 * Z.of_nat j + 1) hi)) by (split; [lia|]; rewrite <-Hhi; f_equal; lia).
    cbn [cbind]. reflexivity.
  - assert (Z.lor lo (Z.shiftl hi 8) = lo + 256 * hi) as -> by (rewrite Z.lor_comm; by apply lor_shiftl_byte).
    set (p := lo + 256 * hi). assert (0 ≤ p < 65536) as Hp by (unfold p, is_byte in *; lia).
    change 0x3f with (Z.ones 6). change 0x1f with (Z.ones 5). rewrite !Z.land_ones, !Z.shiftr_div_pow2 by lia.
    destruct (widen_ok 5 (p / 2 ^ 11)) as [H1 H1']; [by constructor|split; [apply Z.div_pos; lia|apply Z.div_lt_upper_bound; lia]|].
    destruct (widen_ok 6 ((p / 2 ^ 5) mod 2 ^ 6)) as [H2 H2']; [by constructor 2; constructor|by apply Z.mod_pos_bound|].
    destruct (widen_ok 5 (p mod 2 ^ 5)) as [H3 H3']; [by constructor|by apply Z.mod_pos_bound|].
    rewrite word_bytes by done. set (r := widen (p / 2 ^ 11) 5) in *. set (g := widen _ 6) in *. set (b := widen (p mod 2 ^ 5) 5) in *.
    unfold is_byte in *. unfold to_rgb565.
    replace ((65536 * r + 256 * g + b) / 65536) with r by (apply (Z.div_unique _ _ _ (256 * g + b)); lia).
    replace ((65536 * r + 256 * g + b) mod 256) with b by (apply (Z.mod_unique _ _ (256 * r + g)); lia).
    replace ((65536 * r + 256 * g + b) / 256) with (256 * r + g) by (apply (Z.div_unique _ _ _ b); lia).
    replace ((256 * r + g) mod 256) with g by (apply (Z.mod_unique _ _ r); lia).
    change (r / 8) with (r / 2 ^ (8 - 5)). change (g / 4) with (g / 2 ^ (8 - 6)). change (b / 8) with (b / 2 ^ (8 - 5)).
    rewrite H1', H2', H3'. clearbody p. clear -Hp.
    change (2 ^ 11) with 2048. change (2 ^ 5) with 32. change (2 ^ 6) with 64.
    Z.div_mod_to_equations. lia.
Qed.

Lemma memcpy_frame (dst src : bytes) : blen dst = blen src → memcpy dst 0 src 0 (blen dst) = Val src.
Proof.
  intros Hlen. pose proof (blen_nonneg dst). rewrite memcpy_Val by lia. f_equal. rewrite drop_0.
  unfold blen in *. rewrite Nat2Z.id. rewrite take_ge by lia. unfold splice. rewrite drop_ge by lia. by rewrite app_nil_r.
Qed.

Definition NUM_PIXELS : nat := Z.to_nat (DISPLAY_WIDTH * DISPLAY_HEIGHT).

Lemma NUM_PIXELS_Z : Z.of_nat NUM_PIXELS = 76800.
Proof. unfold NUM_PIXELS. by rewrite Z2Nat.id. Qed.

Lemma NUM_PIXELS_eq : Z.to_nat (DISPLAY_WIDTH * DISPLAY_HEIGHT) = NUM_PIXELS.
Proof. done. Qed.

#[local] Opaque NUM_PIXELS.

(** The colour the window shows for pixel [j] of the framebuffer [fb]. *)
Definition shows (fmt : Z) (fb : bytes) (j : nat) (colour : Z) : Prop :=
  if fmt =? 0 then colour = 0
  else ∃ lo hi, fb !! (2 * j)%nat = Some lo ∧ fb !! (2 * j + 1)%nat = Some hi ∧ to_rgb565 colour = lo + 256 * hi.

Lemma convert_frame fb fmt (pixels : list Z) :
  blen fb = framebuffer_size → Forall is_byte fb → fmt = 0 ∨ fmt = GUD_PIXEL_FORMAT_RGB565 → length pixels = NUM_PIXELS →
  ∃ out, framebuffer_to_xrgb8888 NUM_PIXELS 0 fb fmt pixels = Val out ∧ length out = NUM_PIXELS
    ∧ ∀ j, (j < NUM_PIXELS)%nat → ∃ colour, out !! j = Some colour ∧ shows fmt fb j colour.
Proof.
  intros Hlen Hb Hf Hpl. pose proof NUM_PIXELS_Z as HN. change framebuffer_size with 307200 in Hlen.
  assert (∀ j : nat, (j < NUM_PIXELS)%nat → ∃ rgb, pixel_rgb fb fmt (Z.of_nat j) = Val rgb ∧ shows fmt fb j (word rgb)) as Hpix.
  { intros j Hj. unfold shows. destruct Hf as [-> | ->]; [exists (0, 0, 0); split; reflexivity|].
    change (GUD_PIXEL_FORMAT_RGB565 =? 0) with false. cbn match.
    destruct (pixel_565 fb j Hb) as (rgb & lo & hi & H1 & H2 & H3 & H4); [lia|].
    exists rgb. split; [exact H1|]. exists lo, hi. split; [exact H2|]. split; [exact H3|exact H4]. }
  destruct (convert_spec NUM_PIXELS 0 fb fmt pixels) as (out & H & Hl & Hout); [done|unfold blen; rewrite Hpl; lia| |].
  { intros j Hj. destruct (Hpix (Z.to_nat j)) as (rgb & Hrgb & _); [lia|]. exists rgb. by rewrite Z2Nat.id in Hrgb by lia. }
  exists out. split; [done|]. split; [congruence|]. intros j Hj. specialize (Hout j). rewrite Hpl in Hout. specialize (Hout Hj).
  rewrite decide_True in Hout by lia. destruct Hout as (rgb & Hrgb & Ho). exists (word rgb). split; [done|].
  destruct (Hpix j Hj) as (rgb' & Hrgb' & Hs). by rewrite Hrgb in Hrgb'; injection Hrgb' as <-.
Qed.

#[local] Opaque framebuffer_to_xrgb8888.

(** ** A round of the main loop *)

(** The arrays of [main]. *)
Record locals_ok (l : locals) : Prop := {
  ok_frame : blen (frame l) = framebuffer_size;
  ok_frame_bytes : Forall is_byte (frame l);
  ok_pixels : length (pixels l) = NUM_PIXELS;
}.

Definition display_on (s : state) : bool := controller_enabled s && display_enabled s.

(** A round takes note of the last change and leaves everything the host sees alone. *)
Definition noted (s s' : state) : Prop :=
  framebuffer s' = framebuffer s ∧ framebuffer_changed s' = false ∧ current_format s' = current_format s
  ∧ display_on s' = display_on s ∧ pending s' = pending s ∧ transfer_buffer s' = transfer_buffer s.

(** Whether a round shows something. *)
Definition shows_now (l : locals) (s : state) : bool :=
  window_open l && (framebuffer_changed s || negb (Bool.eqb (display_on s) (shown_on l))).

(** What a round does to the variables of [main]. *)
Record round_effect (l : locals) (s : state) (l' : locals) (out : shown) : Prop := {
  round_locals : locals_ok l';
  round_window : window_open l' = window_open l;
  round_frame : frame l' = if framebuffer_changed s then framebuffer s else frame l;
  round_on : shown_on l' = if shows_now l s then display_on s else shown_on l;
  round_show : window_show out = if shows_now l s then Some (pixels l', display_on s) else None;
  round_pixels : if shows_now l s
    then ∀ j, (j < NUM_PIXELS)%nat → ∃ colour, pixels l' !! j = Some colour ∧ shows (current_format s) (frame l') j colour
    else pixels l' = pixels l;
}.

Lemma display_round_spec handled l (h : host state) :
  host_idle inv h → locals_ok l → window_open l && negb handled = false →
  ∃ l' out h', main_round handled l h = Ok (Some (l', out)) h'
    ∧ host_idle inv h' ∧ noted (dev h) (dev h') ∧ round_effect l (dev h) l' out.
Proof.
  intros [[HI Hwf] Hl] [Hfl Hfb Hpl] Hgo. destruct (inv_framebuffer _ HI) as [HFl HFb].
  set (fr := if framebuffer_changed (dev h) then framebuffer (dev h) else frame l).
  assert (blen fr = framebuffer_size ∧ Forall is_byte fr) as [Hfrl Hfrb] by (unfold fr; by destruct (framebuffer_changed _)).
  destruct (convert_frame fr (current_format (dev h)) (pixels l) Hfrl Hfrb (inv_format _ HI) Hpl) as (px & Hpx & Hpxl & Hshow).
  assert (wp (main_round handled l) (λ res h', ∃ l' out, res = Some (l', out)
    ∧ host_idle inv h' ∧ noted (dev h) (dev h') ∧ round_effect l (dev h) l' out) never h) as H.
  { unfold main_round. rewrite Hgo. apply wp_bind, now_ms_wp. intros now c _.
    apply wp_bind, wp_in_lib. unfold usbip_device_critical_section_enter. apply wp_bind. unfold lock_receive, wp at 1.
    change (lib (set_clk c h)) with (lib h). rewrite Hl. apply wp_ret. apply wp_bind, wp_gets.
    cbn [dev set_lib set_clk lib]. apply wp_bind.
    apply (wp_post _ (λ f h1, f = fr ∧ ∃ s1, h1 = set_dev s1 (set_lib (set_receive_lock true (lib h)) (set_clk c h)) ∧ inv s1
      ∧ noted (dev h) s1)).
    { unfold fr. destruct (framebuffer_changed (dev h)) eqn:Hch.
      - apply wp_bind. rewrite memcpy_frame by congruence. apply wp_liftC, cwp_ret, wp_bind, wp_update, wp_ret.
        split; [done|]. eexists. split; [reflexivity|]. split; [destruct HI; by constructor|done].
      - apply wp_ret. split; [done|]. exists (dev h). by destruct h. }
    intros f h1 (-> & s1 & -> & HI1 & Hn1). apply wp_bind.
    apply (wp_post _ (λ _ h1, ∃ s2, h1 = set_dev s2 (set_lib (set_receive_lock true (lib h)) (set_clk c h)) ∧ inv s2
      ∧ noted (dev h) s2)).
    { destruct (_ <=? _); [apply wp_update|apply wp_ret]; eexists; (split; [reflexivity|]); [|done].
      split; [|done]. destruct HI1. by constructor. }
    intros _ h2 (s2 & -> & HI2 & Hn2). apply wp_bind, wp_in_lib. unfold usbip_device_critical_section_exit.
    apply wp_bind. unfold unlock_receive. apply wp_modify, wp_ret.
    change (controller_enabled (dev h) && display_enabled (dev h)) with (display_on (dev h)).
    change (window_open l && (_ || _)) with (shows_now l (dev h)). apply wp_bind.
    apply (wp_post _ (λ p h3, h3 = set_lib (set_receive_lock false (lib h)) (set_dev s2 (set_clk c h))
      ∧ p = if shows_now l (dev h) then px else pixels l)).
    { destruct (shows_now l (dev h)); [rewrite NUM_PIXELS_eq, Hpx; apply wp_liftC, cwp_ret|apply wp_ret]; by destruct h, lib. }
    intros p h3 [-> ->]. apply wp_ret. eexists _, _. split; [reflexivity|]. split; [|split; [exact Hn2|]].
    - split; [|done]. split; [done|]. destruct Hwf. by constructor.
    - constructor; cbn [window_open frame shown_on pixels window_show]; [|done..|].
      + constructor; cbn [frame pixels]; [done|done|]. by destruct (shows_now _ _).
      + by destruct (shows_now _ _). }
  apply wp_never_Ok in H as (res & h' & Hrun & l' & out & -> & Hout). by exists l', out, h'.
Qed.

(** ** A display with its format committed, and a small rectangle *)

Definition committed : state := set_framebuffer (framebuffer initial_state) true (set_current_format GUD_PIXEL_FORMAT_RGB565 initial_state).

Definition display_host : host state :=
  {| dev := committed; lib := initial_device_state;
     clk := {| readings := []; last_reading := {| tv_sec := 0; tv_nsec := 0 |} |} |}.

Lemma display_host_idle : host_idle inv display_host.
Proof.
  split; [|done]. split; [|apply wf_initial_device_state]. destruct gud_inv_initial. constructor; try done. by right.
Qed.

Definition small_rect : gud_set_buffer_req_t :=
  {| req_x := 317; req_y := 238; req_width := 3; req_height := 2; req_length := 12; req_compression := 0;
     req_compressed_length := 0 |}.

Lemma small_rect_ok : set_buffer_ok small_rect ∧ valid_request (current_format (dev display_host)) small_rect.
Proof. split; [by repeat split|]. apply (bool_decide_eq_true_1 _). vm_compute. reflexivity. Qed.

(** ** Properties *)

Lemma valid_request_fields fmt r :
  set_buffer_ok r →
  valid_request fmt r ↔
    0 < req_width r ∧ 0 < req_height r ∧ req_x r + req_width r ≤ 320 ∧ req_y r + req_height r ≤ 240
    ∧ fmt = GUD_PIXEL_FORMAT_RGB565 ∧ req_length r = 2 * req_width r * req_height r
    ∧ req_compression r = 0 ∧ req_length r ≤ 65536.
Proof.
  unfold set_buffer_ok, valid_request, rect_ok.
  change DISPLAY_WIDTH with 320. change DISPLAY_HEIGHT with 240. change DISPLAY_MAX_BUFFER_SIZE with 65536. intuition lia.
Qed.

(** The whole display is more than a transfer holds: the host has to draw it in parts. *)
Definition whole_display : gud_set_buffer_req_t :=
  {| req_x := 0; req_y := 0; req_width := DISPLAY_WIDTH; req_height := DISPLAY_HEIGHT;
     req_length := 2 * DISPLAY_WIDTH * DISPLAY_HEIGHT; req_compression := 0; req_compressed_length := 0 |}.

Lemma whole_display_is_refused fmt : rect_ok whole_display ∧ ¬ valid_request fmt whole_display.
Proof. split; [by split_and!|]. by intros (_ & _ & _ & _ & H). Qed.

(** C35: the request for a rectangle: GET_STATUS reports afterwards whether the device
    accepted it. It accepts exactly the requests for a rectangle that lies on the display
    and is not empty, once a format is committed, with the length of its pixels in that
    format, not compressed, and of at most 64 KiB, the size of a transfer; no value of the
    32 bit fields escapes these checks. An accepted rectangle is awaited from its first
    byte, a refused one changes nothing but the status. *)
Theorem set_buffer_reports_its_verdict r rest rx tx n (h : host state) :
  host_idle inv h → stopped (abs (lib h)) = false → set_buffer_ok r → 1 ≤ n ≤ blen tx →
  ∃ verdict h', (usbip_device_control gud_display_device set_buffer_setup (gud_set_buffer_mem r ++ rest) sizeof_set_buffer;;
         control_in gud_display_device get_status_setup rx tx n) h = Ok (true, true, [verdict]) h'
    ∧ verdict ∈ [GUD_STATUS_OK; GUD_STATUS_INVALID_PARAMETER]
    ∧ (verdict = GUD_STATUS_OK ↔
         0 < req_width r ∧ 0 < req_height r ∧ req_x r + req_width r ≤ 320 ∧ req_y r + req_height r ≤ 240
         ∧ current_format (dev h) = GUD_PIXEL_FORMAT_RGB565 ∧ req_length r = 2 * req_width r * req_height r
         ∧ req_compression r = 0 ∧ req_length r ≤ 65536)
    ∧ host_idle inv h' ∧ dev h' = after_set_buffer r (dev h).
Proof.
  intros Hh Hst Hr Hn. destruct (set_buffer_request r rest h Hh Hr) as (h1 & H1 & Hh1 & Hdev1 & Hst1).
  set (status := if decide (valid_request (current_format (dev h)) r) then GUD_STATUS_OK else GUD_STATUS_INVALID_PARAMETER).
  assert (last_status (after_set_buffer r (dev h)) = status ∧ is_byte status) as [Hls Hsb]
    by (unfold after_set_buffer, status; case_decide; done).
  destruct (device_control_in inv gud_display_device get_status_setup rx tx n REQUEST_TYPE_VENDOR_INTERFACE_IN h1
    [status] (λ s, s = dev h1)) as (h2 & H2 & Hh2 & Hdev2); [done|lia|done|done| |].
  - intros h3 Hok3 Hl3 Hdev3 Habs3. change (control_data_callback gud_display_device) with control_data.
    unfold control_data. do 6 apply wp_bind, wp_liftC, cwp_ret.
    change (wp (let* s := gets dev in callback_transmit 0 [last_status s] 1;; ret tt)
      (λ _ h4, host_ok inv h4 ∧ same_control (lib h3) (lib h4) ∧ answered_with [status] (abs (lib h3)) (abs (lib h4))
         ∧ dev h4 = dev h1) never h3).
    apply wp_bind, wp_gets. rewrite Hdev3, Hdev1, Hls. apply wp_bind.
    eapply wp_post; [apply (callback_answer_wp inv [status] 1 h3); [done| |lia|done|by constructor]|].
    { rewrite Habs3. cbn [stopped set_answered set_slot]. congruence. }
    intros b h4 (H4 & H5 & H6 & H7). apply wp_ret. split; [done|]. split; [done|]. split; [done|]. congruence.
  - exists status, h2. split; [|split; [|split; [|by rewrite Hdev2]]].
    + unfold bind. rewrite H1, H2. do 2 f_equal. replace (Z.to_nat n) with (S (Z.to_nat (n - 1))) by lia. cbn [take]. by rewrite firstn_nil.
    + unfold status. case_decide; by repeat constructor.
    + rewrite <-(valid_request_fields _ _ Hr). unfold status. by case_decide.
Qed.

Lemma set_buffer_reports_its_verdict_witness :
  ∃ h', (usbip_device_control gud_display_device set_buffer_setup (gud_set_buffer_mem small_rect ++ []) sizeof_set_buffer;;
         control_in gud_display_device get_status_setup [] [0; 0] 1) display_host = Ok (true, true, [GUD_STATUS_OK]) h'
    ∧ pending (dev h') = pending_of small_rect 0.
Proof.
  destruct (set_buffer_reports_its_verdict small_rect [] [] [0; 0] 1 display_host) as (v & h' & H & _ & [_ Hv] & _ & Hdev).
  - apply display_host_idle.
  - reflexivity.
  - apply small_rect_ok.
  - split; [discriminate|vm_compute; discriminate].
  - rewrite Hv in H by (repeat split; discriminate). exists h'. split; [exact H|].
    rewrite Hdev. unfold after_set_buffer. rewrite (decide_True _ _ (proj2 small_rect_ok)). reflexivity.
Defined.

(** Drawing: after an accepted request, the pixels the host sends in OUT transfers of
    whatever sizes end in the framebuffer, each in its place in the rectangle, and no other
    byte of the framebuffer changes; the device is then ready for the next rectangle. *)
Theorem rectangle_is_drawn r rest chunks (h : host state) :
  host_idle inv h → set_buffer_ok r → valid_request (current_format (dev h)) r →
  Forall (λ c, Forall is_byte c ∧ c ≠ []) chunks → blen (concat chunks) = req_length r →
  ∃ h', (usbip_device_control gud_display_device set_buffer_setup (gud_set_buffer_mem r ++ rest) sizeof_set_buffer;;
         send_chunks chunks) h = Ok tt h'
    ∧ host_idle inv h' ∧ finished r (concat chunks) (dev h) (dev h').
Proof.
  intros Hh Hr Hv HF Hlen. destruct (set_buffer_request r rest h Hh Hr) as (h1 & H1 & Hh1 & Hdev1 & _).
  unfold after_set_buffer in Hdev1. rewrite decide_True in Hdev1 by done.
  destruct (send_chunks_spec r chunks [] h1 Hh1) as (h2 & H2 & Hh2 & Hfin); [|done|done|].
  - constructor; [apply Hh1|by rewrite Hdev1|done].
  - exists h2. split; [unfold bind; by rewrite H1|]. split; [done|]. by rewrite Hdev1 in Hfin.
Qed.

Lemma rectangle_is_drawn_witness :
  ∃ h', (usbip_device_control gud_display_device set_buffer_setup (gud_set_buffer_mem small_rect ++ []) sizeof_set_buffer;;
         send_chunks [[1; 2; 3; 4; 5]; [6; 7; 8; 9; 10; 11; 12]]) display_host = Ok tt h'
    ∧ framebuffer (dev h') = drawn small_rect [1; 2; 3; 4; 5; 6; 7; 8; 9; 10; 11; 12] (framebuffer initial_state).
Proof.
  destruct (rectangle_is_drawn small_rect [] [[1; 2; 3; 4; 5]; [6; 7; 8; 9; 10; 11; 12]] display_host) as (h' & H & _ & Hf & _).
  - apply display_host_idle.
  - apply small_rect_ok.
  - apply small_rect_ok.
  - apply (bool_decide_eq_true_1 _). vm_compute. reflexivity.
  - reflexivity.
  - exists h'. split; [exact H|exact Hf].
Defined.

(** What was drawn is shown: a round of the main loop after a change hands the window the
    whole framebuffer, each pixel as the colour whose channels start with the bits the
    host sent, dark before a format is committed; the window is on exactly while the host
    has enabled the controller and the display; and the change is taken note of. *)
Theorem frame_shows_the_framebuffer l (h : host state) :
  host_idle inv h → locals_ok l → window_open l = true → framebuffer_changed (dev h) = true →
  ∃ l' out px h', main_round true l h = Ok (Some (l', out)) h'
    ∧ host_idle inv h' ∧ framebuffer (dev h') = framebuffer (dev h) ∧ framebuffer_changed (dev h') = false
    ∧ window_show out = Some (px, controller_enabled (dev h) && display_enabled (dev h))
    ∧ length px = NUM_PIXELS
    ∧ ∀ j, (j < NUM_PIXELS)%nat →
        ∃ colour, px !! j = Some colour ∧ shows (current_format (dev h)) (framebuffer (dev h)) j colour.
Proof.
  intros Hh Hl Hw Hch. destruct (display_round_spec true l h Hh Hl) as (l' & out & h' & H & Hh' & (Hf & Hc & _) & []);
    [by rewrite andb_false_r|].
  assert (shows_now l (dev h) = true) as Hs by (unfold shows_now; by rewrite Hw, Hch).
  rewrite Hs, Hch in *. exists l', out, (pixels l'), h'. rewrite round_frame0 in round_pixels0. by destruct round_locals0.
Qed.

Definition window : locals := {|
  frame := replicate (Z.to_nat framebuffer_size) 0;
  pixels := replicate NUM_PIXELS 0;
  window_open := true;
  shown_on := false;
  next_stats_ms := 1000 |}.

Lemma window_locals_ok : locals_ok window.
Proof.
  constructor; cbn [frame pixels window]; [apply blen_replicate; discriminate|by apply Forall_replicate|apply length_replicate].
Qed.

Lemma frame_shows_the_framebuffer_witness :
  ∃ l' out px h', main_round true window display_host = Ok (Some (l', out)) h'
    ∧ window_show out = Some (px, false) ∧ length px = NUM_PIXELS.
Proof.
  destruct (frame_shows_the_framebuffer window display_host) as (l' & out & px & h' & H & _ & _ & _ & Hs & Hl & _).
  - apply display_host_idle.
  - apply window_locals_ok.
  - reflexivity.
  - reflexivity.
  - exists l', out, px, h'. split; [exact H|]. split; [exact Hs|exact Hl].
Defined.
