(* ===== verification/GudWindow.v ===== *)
(** * The window of the GUD display example (src/usb_gud_display/gud_display_window.c)

    The static variables of the window and the calls of SDL each function makes, in order.
    What SDL answers is an argument of the functions. The reference is the order in which
    SDL's documentation allows its objects to be used, and what a user sees. *)
From stdpp Require Import sets.
From S2P Require Import Prelude.

Module Window.

(** ** The calls of SDL

    A handle is a non-null pointer; the creation of an object is recorded with its result. *)
Inductive sdl_call :=
| SDL_SetHint
| SDL_Init (ok : bool)
| SDL_CreateWindow (width height : Z) (result : option Z)
| SDL_CreateRenderer (window : Z) (result : option Z)
| SDL_CreateTexture (renderer width height : Z) (result : option Z)
| SDL_SetTextureScaleMode (texture : Z)
| SDL_SetRenderLogicalPresentation (renderer width height : Z)
| SDL_SetRenderDrawColor (renderer r g b a : Z)
| SDL_RenderClear (renderer : Z)
| SDL_UpdateTexture (texture : option Z) (pixels : list Z) (pitch : Z)
| SDL_RenderTexture (renderer : Z) (texture : option Z)
| SDL_RenderPresent (renderer : Z)
| SDL_WaitEventTimeout
| SDL_PollEvent
| SDL_DestroyTexture (texture : Z)
| SDL_DestroyRenderer (renderer : Z)
| SDL_DestroyWindow (window : Z)
| SDL_Quit.

(** Events are told apart only as far as the program does. *)
Inductive sdl_event := SDL_EVENT_QUIT | SDL_EVENT_OTHER.

#[global] Instance sdl_event_eq_dec : EqDecision sdl_event.
Proof. solve_decision. Defined.

(** What the calls of [gud_display_window_open] return. *)
Record sdl_results := {
  sdl_init : bool;
  sdl_window : option Z;
  sdl_renderer : option Z;
  sdl_texture : option Z;
}.

(** ** State and operations *)

Definition WINDOW_SCALE : Z := 2.

(** The static variables, a null pointer is [None], and the calls made so far. *)
Record state := {
  window : option Z;
  renderer : option Z;
  texture : option Z;
  display_width : Z;
  calls : list sdl_call;
}.

Definition initial_state : state := {| window := None; renderer := None; texture := None; display_width := 0; calls := [] |}.

Definition set_window (v : option Z) (s : state) : state := Build_state v (renderer s) (texture s) (display_width s) (calls s).
Definition set_renderer (v : option Z) (s : state) : state := Build_state (window s) v (texture s) (display_width s) (calls s).
Definition set_texture (v : option Z) (s : state) : state := Build_state (window s) (renderer s) v (display_width s) (calls s).
Definition set_display_width (v : Z) (s : state) : state := Build_state (window s) (renderer s) (texture s) v (calls s).

Definition sdl (c : sdl_call) : M state unit :=
  modify (λ s, Build_state (window s) (renderer s) (texture s) (display_width s) (calls s ++ [c])).

(** [pixels] is [None] for a null pointer. *)
Definition gud_display_window_show (pixels : option (list Z)) (display_on : bool) : M state unit :=
  let* s := get in
  match renderer s with
  | None => ret tt
  | Some r =>
      sdl (SDL_SetRenderDrawColor r 0 0 0 255);;
      sdl (SDL_RenderClear r);;
      (match pixels with
       | Some px =>
           if display_on then
             sdl (SDL_UpdateTexture (texture s) px (display_width s * 4));;
             sdl (SDL_RenderTexture r (texture s))
           else ret tt
       | None => ret tt
       end);;
      sdl (SDL_RenderPresent r)
  end.

Definition gud_display_window_close : M state unit :=
  let* s := get in
  (match texture s with Some t => sdl (SDL_DestroyTexture t);; modify (set_texture None) | None => ret tt end);;
  (match renderer s with Some r => sdl (SDL_DestroyRenderer r);; modify (set_renderer None) | None => ret tt end);;
  (match window s with Some w => sdl (SDL_DestroyWindow w);; modify (set_window None) | None => ret tt end);;
  sdl SDL_Quit.

Definition gud_display_window_open (res : sdl_results) (width height : Z) : M state bool :=
  sdl SDL_SetHint;;
  sdl (SDL_Init (sdl_init res));;
  if negb (sdl_init res) then ret false
  else
    sdl (SDL_CreateWindow (width * WINDOW_SCALE) (height * WINDOW_SCALE) (sdl_window res));;
    modify (set_window (sdl_window res));;
    let* r := match sdl_window res with
              | Some w => sdl (SDL_CreateRenderer w (sdl_renderer res));; ret (sdl_renderer res)
              | None => ret None
              end in
    modify (set_renderer r);;
    let* t := match r with
              | Some r => sdl (SDL_CreateTexture r width height (sdl_texture res));; ret (sdl_texture res)
              | None => ret None
              end in
    modify (set_texture t);;
    match r, t with
    | Some r, Some t =>
        sdl (SDL_SetTextureScaleMode t);;
        sdl (SDL_SetRenderLogicalPresentation r width height);;
        modify (set_display_width width);;
        gud_display_window_show None false;;
        ret true
    | _, _ => gud_display_window_close;; ret false
    end.

(** The loop from [event] on, with what is still queued. *)
Fixpoint take_events (event : sdl_event) (queue : list sdl_event) (open : bool) : M state bool :=
  let open := match event with SDL_EVENT_QUIT => false | SDL_EVENT_OTHER => open end in
  sdl SDL_PollEvent;;
  match queue with
  | [] => ret open
  | event :: queue => take_events event queue open
  end.

(** [queue] are the events that arrive, until SDL reports none. *)
Definition gud_display_window_handle_events (queue : list sdl_event) : M state bool :=
  sdl SDL_WaitEventTimeout;;
  match queue with
  | [] => ret true
  | event :: queue => take_events event queue true
  end.

(** ** Reference: the order SDL allows

    What is alive: the video subsystem, and at most one object of each kind, as creating
    a second one would lose the first. *)
Record live := {
  video : bool;
  live_window : option Z;
  live_renderer : option Z;
  live_texture : option (Z * Z * Z);
}.

Definition nothing : live := {| video := false; live_window := None; live_renderer := None; live_texture := None |}.

Definition when (P : Prop) `{Decision P} (l : live) : option live := if decide P then Some l else None.

(** A call keeps to the order when the objects it names are alive, an object dies before
    the one it was created from, and a texture is given all its pixels. *)
Definition allowed (l : live) (c : sdl_call) : option live :=
  match c with
  | SDL_SetHint => Some l
  | SDL_Init ok => when (video l = false) (Build_live ok None None None)
  | SDL_CreateWindow _ _ result =>
      when (video l = true ∧ live_window l = None) (Build_live true result (live_renderer l) (live_texture l))
  | SDL_CreateRenderer w result =>
      when (live_window l = Some w ∧ live_renderer l = None) (Build_live (video l) (live_window l) result (live_texture l))
  | SDL_CreateTexture r width height result =>
      when (live_renderer l = Some r ∧ live_texture l = None) (Build_live (video l) (live_window l) (live_renderer l) ((λ t, (t, width, height)) <$> result))
  | SDL_SetTextureScaleMode t => when (fst ∘ fst <$> live_texture l = Some t) l
  | SDL_SetRenderLogicalPresentation r _ _ | SDL_SetRenderDrawColor r _ _ _ _ | SDL_RenderClear r | SDL_RenderPresent r =>
      when (live_renderer l = Some r) l
  | SDL_UpdateTexture t pixels pitch =>
      '(t', width, height) ← live_texture l;
      when (t = Some t' ∧ pitch = 4 * width ∧ blen pixels = width * height) l
  | SDL_RenderTexture r t => when (live_renderer l = Some r ∧ fst ∘ fst <$> live_texture l = t) l
  | SDL_WaitEventTimeout | SDL_PollEvent => when (video l = true) l
  | SDL_DestroyTexture t =>
      when (fst ∘ fst <$> live_texture l = Some t) (Build_live (video l) (live_window l) (live_renderer l) None)
  | SDL_DestroyRenderer r =>
      when (live_renderer l = Some r ∧ live_texture l = None) (Build_live (video l) (live_window l) None None)
  | SDL_DestroyWindow w =>
      when (live_window l = Some w ∧ live_renderer l = None) (Build_live (video l) None None (live_texture l))
  | SDL_Quit => when (video l = true ∧ live_window l = None ∧ live_renderer l = None ∧ live_texture l = None) nothing
  end.

(** What is alive after a sequence of calls that keeps to the order. *)
Definition alive (cs : list sdl_call) : option live := foldl (λ l c, l ← l; allowed l c) (Some nothing) cs.

(** ** Reference: what a user sees

    A colour for each pixel, or [None] for a dark window. *)
Record screen := {
  painted : option (list Z);   (* by the renderer, not presented yet *)
  uploaded : list Z;           (* the texture *)
  seen : option (list Z);
}.

Definition paint (s : screen) (c : sdl_call) : screen :=
  match c with
  | SDL_RenderClear _ => {| painted := None; uploaded := uploaded s; seen := seen s |}
  | SDL_UpdateTexture _ px _ => {| painted := painted s; uploaded := px; seen := seen s |}
  | SDL_RenderTexture _ _ => {| painted := Some (uploaded s); uploaded := uploaded s; seen := seen s |}
  | SDL_RenderPresent _ => {| painted := painted s; uploaded := uploaded s; seen := painted s |}
  | _ => s
  end.

Definition user_sees (cs : list sdl_call) : option (list Z) :=
  seen (foldl paint {| painted := None; uploaded := []; seen := None |} cs).

(** * Theorems *)

Lemma alive_snoc cs c : alive (cs ++ [c]) = (l ← alive cs; allowed l c).
Proof. unfold alive. by rewrite foldl_snoc. Qed.

(** A window that is open: every variable names its living object. *)
Definition opened (width height : Z) (s : state) : Prop :=
  ∃ w r t, window s = Some w ∧ renderer s = Some r ∧ texture s = Some t ∧ display_width s = width
    ∧ alive (calls s) = Some (Build_live true (Some w) (Some r) (Some (t, width, height))).

(** No window: nothing is named and nothing is left alive. *)
Definition closed (s : state) : Prop :=
  window s = None ∧ renderer s = None ∧ texture s = None ∧ alive (calls s) = Some nothing.

(** Calls that keep to the order, one after the other. *)
Lemma alive_calls cs ds l l' :
  alive cs = Some l → foldl (λ l c, l ← l; allowed l c) (Some l) ds = Some l' → alive (cs ++ ds) = Some l'.
Proof. unfold alive. rewrite foldl_app. by intros ->. Qed.

Lemma when_true (P : Prop) `{Decision P} l : P → when P l = Some l.
Proof. intros HP. unfold when. by rewrite decide_True. Qed.

(** One call after the other, each in order. *)
Ltac allowed_calls := cbn -[when]; repeat (rewrite when_true by (repeat split; first [done | lia | eauto]); cbn -[when]); try done.

Lemma user_sees_app cs ds : user_sees (cs ++ ds) = seen (foldl paint (foldl paint {| painted := None; uploaded := []; seen := None |} cs) ds).
Proof. unfold user_sees. by rewrite foldl_app. Qed.

(** The calls of one [gud_display_window_show]. *)
Definition show_calls (r : Z) (t : option Z) (width : Z) (pixels : option (list Z)) (display_on : bool) : list sdl_call :=
  [SDL_SetRenderDrawColor r 0 0 0 255; SDL_RenderClear r]
  ++ (match pixels with
      | Some px => if display_on then [SDL_UpdateTexture t px (width * 4); SDL_RenderTexture r t] else []
      | None => []
      end)
  ++ [SDL_RenderPresent r].

Lemma show_eq s r pixels display_on : renderer s = Some r →
  gud_display_window_show pixels display_on s =
    Ok tt (Build_state (window s) (renderer s) (texture s) (display_width s)
             (calls s ++ show_calls r (texture s) (display_width s) pixels display_on)).
Proof.
  destruct s as [w r' t width cs]. cbn [renderer]. intros ->. unfold gud_display_window_show, show_calls, sdl, bind, get, modify, ret.
  destruct pixels as [px|], display_on; cbn; by rewrite <-!app_assoc.
Qed.

Lemma show_spec width height s pixels display_on :
  opened width height s → (∀ px, pixels = Some px → blen px = width * height) →
  ∃ s', gud_display_window_show pixels display_on s = Ok tt s' ∧ opened width height s'
    ∧ user_sees (calls s') = if display_on then pixels else None.
Proof.
  intros (w & r & t & Hw & Hr & Ht & Hwd & Hl) Hpx. rewrite (show_eq s r) by done. eexists. split; [reflexivity|]. split.
  - exists w, r, t. split; [done|]. split; [done|]. split; [done|]. split; [done|]. cbn [calls]. rewrite Ht, Hwd.
    eapply alive_calls; [exact Hl|]. destruct pixels as [px|], display_on; unfold show_calls; allowed_calls.
  - cbn [calls]. rewrite user_sees_app. unfold show_calls. by destruct pixels, display_on.
Qed.

(** The calls of [gud_display_window_close]. *)
Definition close_calls (w r t : option Z) : list sdl_call :=
  from_option (λ t, [SDL_DestroyTexture t]) [] t ++ from_option (λ r, [SDL_DestroyRenderer r]) [] r
  ++ from_option (λ w, [SDL_DestroyWindow w]) [] w ++ [SDL_Quit].

Lemma close_eq s :
  gud_display_window_close s =
    Ok tt (Build_state None None None (display_width s) (calls s ++ close_calls (window s) (renderer s) (texture s))).
Proof.
  destruct s as [w r t width cs]. unfold gud_display_window_close, close_calls, sdl, bind, get, modify, ret.
  destruct w, r, t; cbn; by rewrite <-?app_assoc.
Qed.

Lemma close_spec width height s :
  opened width height s → ∃ s', gud_display_window_close s = Ok tt s' ∧ closed s'.
Proof.
  intros (w & r & t & Hw & Hr & Ht & Hwd & Hl). rewrite close_eq. eexists. split; [reflexivity|].
  split; [done|]. split; [done|]. split; [done|]. cbn [calls]. rewrite Hw, Hr, Ht.
  eapply alive_calls; [exact Hl|]. unfold close_calls. allowed_calls.
Qed.

(** Opening, for every answer of SDL. *)
Lemma open_spec res width height s :
  closed s → user_sees (calls s) = None →
  ∃ b s', gud_display_window_open res width height s = Ok b s'
    ∧ b = bool_decide (sdl_init res = true ∧ is_Some (sdl_window res) ∧ is_Some (sdl_renderer res) ∧ is_Some (sdl_texture res))
    ∧ user_sees (calls s') = None ∧ if b then opened width height s' else closed s'.
Proof.
  intros (Hw & Hr & Ht & Hl) Hs. destruct res as [[] w r t]; cbn [sdl_init sdl_window sdl_renderer sdl_texture].
  2:{ exists false. eexists. split; [reflexivity|]. split; [by rewrite bool_decide_false by naive_solver|].
      cbn [calls]. rewrite <-app_assoc. split; [by rewrite user_sees_app|]. do 3 (split; [done|]). cbn [calls]. by eapply alive_calls. }
  destruct w as [w|], r as [r|], t as [t|].
  { exists true. unfold gud_display_window_open. cbn [sdl_init negb]. unfold sdl, bind, modify, ret. cbn [sdl_window sdl_renderer sdl_texture].
    eexists. split; [erewrite show_eq by reflexivity; reflexivity|]. split; [by rewrite bool_decide_true by eauto|].
    cbn [window renderer texture display_width calls set_window set_renderer set_texture set_display_width]. rewrite <-!app_assoc. split; [by rewrite user_sees_app|].
    exists w, r, t. do 4 (split; [done|]). cbn [calls]. eapply alive_calls; [exact Hl|]. allowed_calls. }
  all: exists false; unfold gud_display_window_open; cbn [sdl_init negb]; unfold sdl, bind, modify, ret;
    cbn [sdl_window sdl_renderer sdl_texture]; rewrite close_eq; eexists; (split; [reflexivity|]);
    (split; [by rewrite bool_decide_false by (intros (_ & [] & [] & []); done)|]);
    cbn [window renderer texture display_width calls set_window set_renderer set_texture]; rewrite <-!app_assoc;
    (split; [by rewrite user_sees_app|]); do 3 (split; [done|]); cbn [calls]; (eapply alive_calls; [exact Hl|]); unfold close_calls; allowed_calls.
Qed.

(** The events: false exactly when the window is to be closed, and none stays queued. *)
Lemma take_events_eq e queue open s :
  take_events e queue open s =
    Ok (open && bool_decide (SDL_EVENT_QUIT ∉ e :: queue))
      (Build_state (window s) (renderer s) (texture s) (display_width s) (calls s ++ replicate (S (length queue)) SDL_PollEvent)).
Proof.
  revert e open s. induction queue as [|e' queue IH]; intros e open s; cbn [take_events]; unfold bind, sdl, modify, ret.
  - cbn [length replicate]. do 2 f_equal. destruct e, open; cbn; set_solver.
  - rewrite IH. cbn [window renderer texture display_width calls]. rewrite <-app_assoc. cbn [app length replicate].
    destruct e.
    + rewrite (bool_decide_false (SDL_EVENT_QUIT ∉ SDL_EVENT_QUIT :: _)) by set_solver. by rewrite andb_false_r.
    + by rewrite (bool_decide_ext (SDL_EVENT_QUIT ∉ SDL_EVENT_OTHER :: e' :: queue) (SDL_EVENT_QUIT ∉ e' :: queue)) by set_solver.
Qed.

Lemma poll_calls n l : video l = true → foldl (λ l c, l ← l; allowed l c) (Some l) (replicate n SDL_PollEvent) = Some l.
Proof. intros Hl. induction n as [|n IH]; [done|]. cbn -[when]. by rewrite when_true. Qed.

Lemma poll_paints_nothing n s : foldl paint s (replicate n SDL_PollEvent) = s.
Proof. induction n as [|n IH]; [done|]. exact IH. Qed.

Lemma handle_events_spec width height queue s :
  opened width height s →
  ∃ s', gud_display_window_handle_events queue s = Ok (bool_decide (SDL_EVENT_QUIT ∉ queue)) s' ∧ opened width height s'
    ∧ user_sees (calls s') = user_sees (calls s).
Proof.
  intros (w & r & t & Hw & Hr & Ht & Hwd & Hl).
  assert (∃ n, gud_display_window_handle_events queue s = Ok (bool_decide (SDL_EVENT_QUIT ∉ queue))
    (Build_state (window s) (renderer s) (texture s) (display_width s) (calls s ++ SDL_WaitEventTimeout :: replicate n SDL_PollEvent)))
    as (n & ->).
  { unfold gud_display_window_handle_events, bind, sdl at 1, modify. destruct queue as [|e queue].
    - exists 0%nat. by rewrite bool_decide_true by set_solver.
    - exists (S (length queue)). rewrite take_events_eq. cbn [window renderer texture display_width calls].
      by rewrite <-app_assoc. }
  eexists. split; [reflexivity|]. split.
  - exists w, r, t. do 4 (split; [done|]). eapply alive_calls; [exact Hl|]. cbn -[when]. rewrite when_true by done.
    by apply poll_calls.
  - cbn [calls]. rewrite user_sees_app. cbn [foldl paint]. by rewrite poll_paints_nothing.
Qed.
End Window.
