(* ===== verification/GudMain.v ===== *)
(** * The GUD display example as a program (src/usb_gud_display)

    [main] of usb_gud_display_device.c with the window of gud_display_window.c: opening the
    window, the loop, and what is left when it ends. The server thread acts on the device
    between the rounds of the loop. *)
From S2P Require Import Prelude DeviceStore Host GudWire GudDevice GudDisplay GudWindow.
Import Gud.

(** ** The program *)

Record gud_process := {
  p_host : host state;
  p_window : Window.state;
}.

Definition in_device {A} (m : M (host state) A) : M gud_process A :=
  zoom p_host (λ h p, {| p_host := h; p_window := p_window p |}) m.
Definition in_window {A} (m : M Window.state A) : M gud_process A :=
  zoom p_window (λ w p, {| p_host := p_host p; p_window := w |}) m.

(** What happens around one round: what the server thread did to the device since the last
    one, whether Ctrl-C was pressed, the events of the window. *)
Record tick := {
  server : host state → host state;
  interrupted : bool;
  events : list Window.sdl_event;
}.

(** The body of the loop; [None]: the loop ends. *)
Definition main_turn (queue : list Window.sdl_event) (l : locals) : M gud_process (option locals) :=
  let* handled := if window_open l then in_window (Window.gud_display_window_handle_events queue) else ret true in
  let* r := in_device (main_round handled l) in
  match r with
  | None => ret None
  | Some (l', out) =>
      (match window_show out with
       | Some (px, on) => in_window (Window.gud_display_window_show (Some px) on)
       | None => ret tt
       end);;
      ret (Some l')
  end.

(** The loop; after the last tick the program goes on waiting. *)
Fixpoint main_loop (ticks : list tick) (l : locals) : M gud_process locals :=
  match ticks with
  | [] => wait_forever
  | t :: ticks =>
      in_device (modify (server t));;
      if interrupted t then ret l
      else
        let* r := main_turn (events t) l in
        match r with
        | None => ret l
        | Some l => main_loop ticks l
        end
  end.

(** [main] between the start and the stop of the server. *)
Definition main (res : Window.sdl_results) (ticks : list tick) : M gud_process unit :=
  let* opened := in_window (Window.gud_display_window_open res DISPLAY_WIDTH DISPLAY_HEIGHT) in
  let* now := in_device now_ms in
  let* l := main_loop ticks {|
    frame := replicate (Z.to_nat framebuffer_size) 0;
    pixels := replicate NUM_PIXELS 0;
    window_open := opened;
    shown_on := false;
    next_stats_ms := u64 (now + 1000) |} in
  if window_open l then in_window Window.gud_display_window_close else ret tt.

(** ** Reference: the picture

    What the window shows: off, or a framebuffer in a format. *)
Record picture := {
  on : bool;
  in_format : Z;
  of_frame : bytes;
}.

(** A round takes the device's framebuffer when it changed, and shows it, or the last one,
    when the picture has to change. *)
Definition next_picture (s : state) (v : picture) : picture :=
  if framebuffer_changed s || negb (Bool.eqb (display_on s) (on v)) then
    {| on := display_on s; in_format := current_format s;
       of_frame := if framebuffer_changed s then framebuffer s else of_frame v |}
  else v.

(** The colours a user sees are those of the picture, all of them. *)
Definition is_picture (v : picture) (seen : option (list Z)) : Prop :=
  if on v then
    ∃ px, seen = Some px ∧ length px = NUM_PIXELS
      ∧ ∀ j, (j < NUM_PIXELS)%nat → ∃ colour, px !! j = Some colour ∧ shows (in_format v) (of_frame v) j colour
  else seen = None.

(** The picture before anything was shown. *)
Definition dark : picture := {| on := false; in_format := 0; of_frame := replicate (Z.to_nat framebuffer_size) 0 |}.

(** A round without a window leaves the picture dark. *)
Definition round_picture (open : bool) (s : state) (v : picture) : picture :=
  if open then next_picture s v
  else {| on := on v; in_format := in_format v; of_frame := if framebuffer_changed s then framebuffer s else of_frame v |}.

(** The pictures of the rounds [ticks] from the device [h] on: each is drawn from what the
    server thread left, and the round takes note of it. *)
Inductive pictures (open : bool) : list tick → host state → picture → picture → Prop :=
| pictures_nil h v : pictures open [] h v v
| pictures_tick t ticks h h' v v' :
    noted (dev (server t h)) (dev h') →
    pictures open ticks h' (round_picture open (dev (server t h)) v) v' →
    pictures open (t :: ticks) h v v'.

(** * Theorems *)

(** The window as the loop finds it. *)
Definition window_as (open : bool) (w : Window.state) : Prop :=
  if open then Window.opened DISPLAY_WIDTH DISPLAY_HEIGHT w else Window.closed w.

(** The loop shows the picture [v]. *)
Record showing (v : picture) (l : locals) (p : gud_process) : Prop := {
  showing_host : host_idle inv (p_host p);
  showing_locals : locals_ok l;
  showing_window : window_as (window_open l) (p_window p);
  showing_on : shown_on l = on v;
  showing_frame : frame l = of_frame v;
  showing_dark : window_open l = false → on v = false;
  showing_seen : is_picture v (Window.user_sees (Window.calls (p_window p)));
}.

Lemma pixels_fill (px : list Z) : length px = NUM_PIXELS → blen px = DISPLAY_WIDTH * DISPLAY_HEIGHT.
Proof. intros H. unfold blen. rewrite H. apply NUM_PIXELS_Z. Qed.

Lemma closed_turn queue v l p :
  showing v l p → window_open l = false →
  ∃ l' p', main_turn queue l p = Ok (Some l') p' ∧ showing (round_picture false (dev (p_host p)) v) l' p'
    ∧ window_open l' = false ∧ noted (dev (p_host p)) (dev (p_host p')).
Proof.
  intros [Hh Hl Hw Hon Hf Hd Hs] Ho. destruct (display_round_spec true l (p_host p) Hh Hl) as (l' & out & h' & H & Hh' & Hn & He);
    [by rewrite andb_false_r|]. destruct He as [Hl' Hw' Hf' Hon' Hsh Hpx].
  assert (shows_now l (dev (p_host p)) = false) as Hno by (unfold shows_now; by rewrite Ho). rewrite Hno in *.
  exists l', {| p_host := h'; p_window := p_window p |}. split; [|split; [|split; [congruence|done]]].
  - unfold main_turn. rewrite Ho. unfold bind at 1, ret at 1. unfold bind at 1, in_device at 1, zoom at 1. rewrite H.
    rewrite Hsh. reflexivity.
  - constructor; cbn [p_host p_window round_picture on of_frame]; [done|done|by rewrite Hw'|congruence| |auto|].
    + rewrite Hf', Hf. by destruct (framebuffer_changed _).
    + unfold is_picture in *. cbn [on in_format of_frame]. by rewrite (Hd Ho) in *.
Qed.

Lemma main_turn_eq queue l p handled w1 :
  window_open l = true → Window.gud_display_window_handle_events queue (p_window p) = Ok handled w1 →
  main_turn queue l p =
    match main_round handled l (p_host p) with
    | Ok None h => Ok None {| p_host := h; p_window := w1 |}
    | Ok (Some (l', out)) h =>
        match window_show out with
        | Some (px, on) =>
            (in_window (Window.gud_display_window_show (Some px) on);; ret (Some l')) {| p_host := h; p_window := w1 |}
        | None => Ok (Some l') {| p_host := h; p_window := w1 |}
        end
    | Idle h => Idle {| p_host := h; p_window := w1 |}
    | Fault f => Fault f
    end.
Proof.
  intros Ho H. unfold main_turn. rewrite Ho. unfold bind at 1, in_window at 1, zoom at 1. rewrite H.
  unfold bind at 1, in_device at 1, zoom at 1. cbn [p_host p_window].
  destruct (main_round handled l (p_host p)) as [[[l' out]|] h|h|f]; [|done..].
  destruct (window_show out) as [[px on]|]; done.
Qed.

Lemma open_turn queue v l p :
  showing v l p → window_open l = true →
  ∃ p', if decide (Window.SDL_EVENT_QUIT ∈ queue) then main_turn queue l p = Ok None p' ∧ showing v l p'
        else ∃ l', main_turn queue l p = Ok (Some l') p' ∧ showing (next_picture (dev (p_host p)) v) l' p'
          ∧ window_open l' = true ∧ noted (dev (p_host p)) (dev (p_host p')).
Proof.
  intros [Hh Hl Hw Hon Hf Hd Hs] Ho. pose proof Hw as Hw1. rewrite Ho in Hw1.
  destruct (Window.handle_events_spec _ _ queue _ Hw1) as (w1 & H1 & Hop1 & Hs1).
  case_decide as Hq.
  - rewrite bool_decide_false in H1 by tauto. exists {| p_host := p_host p; p_window := w1 |}. split.
    + rewrite (main_turn_eq _ _ _ _ _ Ho H1). unfold main_round. by rewrite Ho.
    + constructor; cbn [p_host p_window]; try done; [by rewrite Ho|by rewrite Hs1].
  - rewrite bool_decide_true in H1 by done.
    destruct (display_round_spec true l (p_host p) Hh Hl) as (l' & out & h' & H & Hh' & Hn & He); [by rewrite andb_false_r|].
    destruct He as [Hl' Hw' Hf' Hon' Hsh Hpx]. rewrite (main_turn_eq _ _ _ _ _ Ho H1), H. clear H.
    assert (shows_now l (dev (p_host p)) = framebuffer_changed (dev (p_host p)) || negb (Bool.eqb (display_on (dev (p_host p))) (on v))) as Hnow
      by (unfold shows_now; by rewrite Ho, Hon).
    unfold next_picture. rewrite <-Hnow. rewrite Hsh. clear Hsh. destruct (shows_now l (dev (p_host p))) eqn:Hshow.
    + destruct (Window.show_spec _ _ w1 (Some (pixels l')) (display_on (dev (p_host p))) Hop1) as (w2 & H2 & Hop2 & Hs2).
      { intros px [= <-]. apply pixels_fill, Hl'. }
      exists {| p_host := h'; p_window := w2 |}, l'. split; [|split; [|split; [congruence|done]]].
      * unfold bind at 1, in_window, zoom. cbn [p_window p_host]. by rewrite H2.
      * constructor; cbn [p_host p_window on in_format of_frame]; [done|done|by rewrite Hw', Ho|done| |congruence|].
        -- rewrite Hf', Hf. by destruct (framebuffer_changed _).
        -- rewrite Hs2. unfold is_picture. cbn [on in_format of_frame]. destruct (display_on _); [|done].
           exists (pixels l'). split; [done|]. split; [apply Hl'|]. intros j Hj. destruct (Hpx j Hj) as (c & Hc & Hsc).
           exists c. split; [done|]. rewrite Hf', Hf in Hsc. exact Hsc.
    + exists {| p_host := h'; p_window := w1 |}, l'. split; [done|]. split; [|split; [congruence|done]].
      symmetry in Hnow. apply orb_false_iff in Hnow as [Hc _]. rewrite Hc in Hf'.
      constructor; cbn [p_host p_window]; [done|done|by rewrite Hw', Ho|congruence|congruence|congruence|by rewrite Hs1].
Qed.

(** Whether a tick ends the loop. *)
Definition ends (open : bool) (t : tick) : Prop := interrupted t = true ∨ open = true ∧ Window.SDL_EVENT_QUIT ∈ events t.

Definition server_keeps (t : tick) : Prop := ∀ h, host_idle inv h → host_idle inv (server t h).

Lemma loop_spec ticks v l p :
  showing v l p → Forall server_keeps ticks →
  wp (main_loop ticks l)
    (λ l' p', Exists (ends (window_open l)) ticks ∧ ∃ v', showing v' l' p' ∧ window_open l' = window_open l)
    (λ p', ∃ v' l', pictures (window_open l) ticks (p_host p) v v' ∧ showing v' l' p' ∧ window_open l' = window_open l) p.
Proof.
  intros Hs HF. revert v l p Hs. induction HF as [|t ticks Ht _ IH]; intros v l p Hs.
  { exists v, l. split; [constructor|done]. }
  cbn [main_loop]. apply wp_bind. apply wp_zoom, wp_modify. set (p1 := Build_gud_process _ _).
  assert (showing v l p1) as Hs1 by (destruct Hs; constructor; try done; by apply Ht).
  destruct (interrupted t) eqn:Hi.
  { apply wp_ret. split; [by left; left|]. by exists v. }
  apply wp_bind. destruct (window_open l) eqn:Ho.
  - destruct (open_turn (events t) v l p1 Hs1 Ho) as (p2 & H). case_decide as Hq.
    + destruct H as [H Hs2]. unfold wp. rewrite H. split; [by left; right|]. by exists v.
    + destruct H as (l' & H & Hs2 & Ho' & Hn). unfold wp. rewrite H. rewrite <-Ho'.
      eapply wp_mono; [exact (IH _ _ _ Hs2)|..]; rewrite Ho'.
      * intros l2 p3 [He (v' & Hv)]. split; [by right|]. by exists v'.
      * intros p3 (v' & l2 & Hp & Hv). exists v', l2. split; [|done]. by econstructor.
  - destruct (closed_turn (events t) v l p1 Hs1 Ho) as (l' & p2 & H & Hs2 & Ho' & Hn). unfold wp. rewrite H. rewrite <-Ho'.
    eapply wp_mono; [exact (IH _ _ _ Hs2)|..]; rewrite Ho'.
    + intros l2 p3 [He (v' & Hv)]. split; [by right|]. by exists v'.
    + intros p3 (v' & l2 & Hp & Hv). exists v', l2. split; [|done]. by econstructor.
Qed.

(** SDL gave the program its window. *)
Definition has_window (res : Window.sdl_results) : bool :=
  bool_decide (Window.sdl_init res = true ∧ is_Some (Window.sdl_window res) ∧ is_Some (Window.sdl_renderer res)
    ∧ is_Some (Window.sdl_texture res)).

Definition gud_begin (h : host state) : gud_process := {| p_host := h; p_window := Window.initial_state |}.

(** Up to the loop. *)
Lemma main_start res ticks h :
  host_idle inv h →
  ∃ l p, main res ticks (gud_begin h) =
      (let* l := main_loop ticks l in if window_open l then in_window Window.gud_display_window_close else ret tt) p
    ∧ showing dark l p ∧ window_open l = has_window res ∧ dev (p_host p) = dev h.
Proof.
  intros Hh. destruct (Window.open_spec res DISPLAY_WIDTH DISPLAY_HEIGHT Window.initial_state) as (b & w & H & Hb & Hsee & Hw);
    [done..|].
  assert (wp now_ms (λ now h', ∃ c, h' = set_clk c h) never h) as Hnow by (apply now_ms_wp; eauto).
  apply wp_never_Ok in Hnow as (now & h' & Hnow & c & ->).
  unfold main. unfold bind at 1, in_window at 1, zoom at 1. cbn [gud_begin p_window]. rewrite H.
  unfold bind at 1, in_device at 1, zoom at 1. cbn [p_host gud_begin]. rewrite Hnow.
  eexists _, _. split; [reflexivity|]. split; [|by split].
  constructor; cbn [p_host p_window frame pixels window_open shown_on on of_frame dark]; [done| |done|done|done|done|done].
  constructor; cbn [frame pixels]; [apply blen_replicate; discriminate|by apply Forall_replicate|apply length_replicate].
Qed.

(** C40: the window is always given back: whatever SDL answers, however the server thread
    changes the device, and however the loop ends, the calls keep to the order SDL asks
    for, with every object used only while it lives; when the program ends nothing it
    created is left, nothing is destroyed twice and SDL is shut down, also when opening
    the window failed half way; and it ends only for Ctrl-C or a closed window. *)
Theorem window_is_given_back res ticks h :
  host_idle inv h → Forall server_keeps ticks →
  match main res ticks (gud_begin h) with
  | Ok _ p => Window.closed (p_window p) ∧ host_idle inv (p_host p) ∧ Exists (ends (has_window res)) ticks
  | Idle p => window_as (has_window res) (p_window p) ∧ host_idle inv (p_host p)
  | Fault _ => False
  end.
Proof.
  intros Hh HF. destruct (main_start res ticks h Hh) as (l & p & -> & Hs & Ho & _). rewrite <-Ho.
  change (wp (let* l := main_loop ticks l in if window_open l then in_window Window.gud_display_window_close else ret tt)
    (λ _ p, Window.closed (p_window p) ∧ host_idle inv (p_host p) ∧ Exists (ends (window_open l)) ticks)
    (λ p, window_as (window_open l) (p_window p) ∧ host_idle inv (p_host p)) p).
  apply wp_bind. eapply wp_mono; [exact (loop_spec ticks dark l p Hs HF)|..].
  - intros l' p' (He & v' & Hs' & Ho'). pose proof (showing_window _ _ _ Hs') as Hw. destruct (window_open l') eqn:Ho2.
    + destruct (Window.close_spec _ _ _ Hw) as (w & H & Hc). unfold wp, in_window, zoom. rewrite H.
      split; [done|]. split; [apply Hs'|done].
    + apply wp_ret. split; [exact Hw|]. split; [apply Hs'|done].
  - intros p' (v' & l' & _ & Hs' & Ho'). split; [|apply Hs']. rewrite <-Ho'. apply Hs'.
Qed.

(** C36: the user sees what the host draws: as long as neither Ctrl-C nor a closed window ends
    the program, the window shows after every round the picture of the device: the last
    framebuffer the loop took note of in the format of that moment, every pixel of it,
    while controller and display are enabled, and a dark window otherwise. *)
Theorem window_shows_the_display res ticks h :
  host_idle inv h → Forall server_keeps ticks → Forall (λ t, ¬ ends (has_window res) t) ticks →
  ∃ p v, main res ticks (gud_begin h) = Idle p
    ∧ (∃ h0, dev h0 = dev h ∧ pictures (has_window res) ticks h0 dark v)
    ∧ is_picture v (Window.user_sees (Window.calls (p_window p))).
Proof.
  intros Hh HF Hends. destruct (main_start res ticks h Hh) as (l & p & -> & Hs & Ho & Hd).
  pose proof (loop_spec ticks dark l p Hs HF) as H. rewrite Ho in H. unfold wp in H. unfold bind.
  destruct (main_loop ticks l p) as [l' p'|p'|f]; [|..|done].
  - destruct H as [He _]. apply Exists_exists in He as (t & Ht & He). rewrite Forall_forall in Hends. by apply Hends in He.
  - destruct H as (v & l' & Hp & Hs' & _). exists p', v. split; [done|]. split; [by exists (p_host p)|apply Hs'].
Qed.

(** ** Witnesses: the host enables the display, then the user closes the window *)

Definition enable (h : host state) : host state :=
  set_dev (set_controller_enabled true (set_display_enabled true (dev h))) h.

Definition a_window : Window.sdl_results :=
  {| Window.sdl_init := true; Window.sdl_window := Some 1; Window.sdl_renderer := Some 2; Window.sdl_texture := Some 3 |}.

Definition first_tick : tick := {| server := enable; interrupted := false; events := [Window.SDL_EVENT_OTHER] |}.
Definition last_tick : tick := {| server := λ h, h; interrupted := false; events := [Window.SDL_EVENT_OTHER; Window.SDL_EVENT_QUIT] |}.

Lemma enable_keeps h : host_idle inv h → host_idle inv (enable h).
Proof. intros [[HI Hwf] Hl]. split; [|done]. split; [|done]. destruct HI. by constructor. Qed.

Lemma enable_sees h : framebuffer_changed (dev (enable h)) = framebuffer_changed (dev h) ∧ display_on (dev (enable h)) = true.
Proof. destruct h as [[] ? ?]. by split. Qed.

Lemma window_is_given_back_witness :
  match main a_window [first_tick; last_tick] (gud_begin display_host) with
  | Ok _ p => Window.closed (p_window p)
  | Idle p => window_as true (p_window p)
  | Fault _ => False
  end.
Proof.
  pose proof (window_is_given_back a_window [first_tick; last_tick] display_host) as H.
  assert (has_window a_window = true) as Hw by reflexivity. rewrite Hw in H.
  destruct (main _ _ _); [apply H|apply H|apply H]; try exact display_host_idle;
    (constructor; [exact enable_keeps|constructor; [intros h Hh; exact Hh|constructor]]).
Defined.

Lemma lit_picture s v seen :
  framebuffer_changed s = true → display_on s = true → is_picture (round_picture true s v) seen →
  ∃ px, seen = Some px ∧ length px = NUM_PIXELS.
Proof.
  intros Hc Hon. unfold round_picture, next_picture, is_picture. rewrite Hc. cbn [orb on]. rewrite Hon.
  intros (px & H1 & H2 & _). by exists px.
Qed.

Lemma window_shows_the_display_witness :
  ∃ p px, main a_window [first_tick] (gud_begin display_host) = Idle p
    ∧ Window.user_sees (Window.calls (p_window p)) = Some px ∧ length px = NUM_PIXELS.
Proof.
  destruct (window_shows_the_display a_window [first_tick] display_host) as (p & v & H & (h0 & Hd & Hp) & Hv).
  - exact display_host_idle.
  - constructor; [exact enable_keeps|constructor].
  - constructor; [|constructor]. intros [He|[_ He]]; [discriminate He|]. apply (bool_decide_eq_true_2 _) in He. discriminate He.
  - exists p. inversion Hp as [|t ts h1 h2 v1 v2 _ Hp' E1 E2 E3 E4]; subst. inversion Hp'; subst.
    assert (framebuffer_changed (dev (enable h0)) = true ∧ display_on (dev (enable h0)) = true) as [Hc Hon]
      by (destruct (enable_sees h0) as [-> ->]; rewrite Hd; split; exact eq_refl).
    assert (has_window a_window = true) as Hw by reflexivity. rewrite Hw in Hv.
    destruct (lit_picture (dev (enable h0)) dark _ Hc Hon Hv) as (px & H1 & H2).
    exists px. split; [exact H|split; [exact H1|exact H2]].
Defined.
