(* ===== verification/GudClient.v ===== *)
(** * The GUD display from the wire to the window

    A client of the server draws rectangles: SET_BUFFER requests and pixels in OUT transfers,
    in whatever rounds the server takes them, while the main loop of the program shows what
    has arrived. The server thread and the main loop act on the same device in turn. *)
From S2P Require Import Prelude WireFormat DeviceStore Descriptors Host BulkDevice Control Tcpip ConfigWalk Protocol ProtocolSafety Completion ProtocolEntry StreamEntry Rounds Silent Pipes Session DeviceRequests GudWire GudDevice GudDisplay GudWindow GudMain.
Import Gud.

(** ** What the client draws *)

(** A rectangle and its pixels. *)
Definition rect : Type := gud_set_buffer_req_t * bytes.

(** OUT transfers with pixels. *)
Definition pixel_data (l : list (submit_in * bytes)) : Prop :=
  Forall (λ x, in_ep x.1 = GUD_EP_DATA_OUT ∧ x.2 ≠ []) l.

(** The OUT transfers that draw rectangles: for each a request and then its pixels, in
    chunks of any sizes. *)
Inductive uploads : list (submit_in * bytes) → list rect → Prop :=
| uploads_nil : uploads [] []
| uploads_rect c r cs l rs :
    in_ep c = 0 → in_setup c = set_buffer_setup → pixel_data cs → blen (concat cs.*2) = req_length r → uploads l rs →
    uploads ((c, gud_set_buffer_mem r) :: cs ++ l) ((r, concat cs.*2) :: rs).

Definition drawn_all (fb : bytes) (rs : list rect) : bytes := foldl (λ fb x, drawn x.1 x.2 fb) fb rs.

(** A rectangle the device accepts. *)
Definition drawable (fmt : Z) (x : rect) : Prop := set_buffer_ok x.1 ∧ valid_request fmt x.1.

Definition sends_of (l : list command) : list (submit_in * bytes) :=
  omap (λ c, match c with CmdSend c data => Some (c, data) | _ => None end) l.

(** Besides, the client may ask for descriptors, read the display's properties and its
    status, and unlink transfers, but change nothing. The display has no isochronous
    endpoint. *)
Definition polite (c : command) : Prop :=
  match c with
  | CmdSubmit c => asks c → standard c ∨ in_setup c !! 0%nat = Some REQUEST_TYPE_VENDOR_INTERFACE_IN
  | CmdStream _ _ _ => False
  | _ => True
  end.

(** ** The server thread and the main loop *)

Record desk := {
  d_world : world state;
  d_window : Window.state;
}.

Definition program (k : desk) : gud_process := {| p_host := w_host (d_world k); p_window := d_window k |}.

Definition in_server {A} (m : M (world state) A) : M desk A :=
  zoom d_world (λ w k, {| d_world := w; d_window := d_window k |}) m.
Definition in_program {A} (m : M gud_process A) : M desk A :=
  zoom program (λ p k, {| d_world := set_host (p_host p) (d_world k); d_window := p_window p |}) m.

(** A round of the server, with what the client does in it, or of the main loop, with the
    events of the window. *)
Inductive slice := ServerRound (a : turn) | MainRound (queue : list Window.sdl_event).

Definition turns (schedule : list slice) : list turn :=
  omap (λ s, match s with ServerRound a => Some a | MainRound _ => None end) schedule.

(** Both threads, in the order of the schedule, until one of them stops. *)
Fixpoint run_desk (schedule : list slice) (l : locals) : M desk locals :=
  match schedule with
  | [] => ret l
  | ServerRound _ :: schedule =>
      let* disconnect := in_server (usbip_protocol_process_imported_device gud_display_device) in
      if disconnect then ret l else run_desk schedule l
  | MainRound queue :: schedule =>
      let* r := in_program (main_turn queue l) in
      match r with
      | None => ret l
      | Some l => run_desk schedule l
      end
  end.

(** * Theorems *)

(** ** The device *)

(** The OUT transfers to come: those of rectangles, the first of which may have begun. *)
Inductive awaits (s : state) : list (submit_in * bytes) → list rect → Prop :=
| awaits_rect l rs : uploads l rs → awaits s l rs
| awaits_data r acc cs l rs :
    receiving r acc s → pixel_data cs → blen acc + blen (concat cs.*2) = req_length r → uploads l rs →
    awaits s (cs ++ l) ((r, acc ++ concat cs.*2) :: rs).

(** What the client's drawing does not change. *)
Definition look (s : state) : Z * bool := (current_format s, display_on s).

(** All but the status of the last request. *)
Definition core (s : state) : state := set_last_status 0 s.

(** From [s] to [s'] the device went on with the drawing: the rectangles still to come make
    the same framebuffer of it. *)
Record draws (s : state) (rs : list rect) (s' : state) (rs' : list rect) : Prop := {
  draws_inv : inv s';
  draws_look : look s' = look s;
  draws_all : drawn_all (framebuffer s') rs' = drawn_all (framebuffer s) rs;
}.

(** The last rectangle leaves a changed framebuffer. *)
Definition marks (s : state) (rs : list rect) (s' : state) (rs' : list rect) : Prop :=
  rs' = [] → framebuffer_changed s' = true ∨ rs = [] ∧ framebuffer_changed s' = framebuffer_changed s.

Lemma draws_refl s rs : inv s → draws s rs s rs.
Proof. done. Qed.

Lemma draws_trans s1 r1 s2 r2 s3 r3 : draws s1 r1 s2 r2 → draws s2 r2 s3 r3 → draws s1 r1 s3 r3.
Proof. intros [_ L1 A1] [I2 L2 A2]. constructor; [done|congruence|congruence]. Qed.

Lemma marks_trans s1 r1 s2 r2 s3 r3 : marks s1 r1 s2 r2 → marks s2 r2 s3 r3 → marks s1 r1 s3 r3.
Proof. intros C1 C2 Hr. destruct (C2 Hr) as [?|[Hr2 H2]]; [by left|]. rewrite H2. by apply C1. Qed.

Lemma core_same s s' (H : core s' = core s) :
  current_format s' = current_format s ∧ look s' = look s ∧ framebuffer s' = framebuffer s
  ∧ framebuffer_changed s' = framebuffer_changed s ∧ pending s' = pending s ∧ transfer_buffer s' = transfer_buffer s.
Proof.
  pose proof (f_equal look H) as H1. pose proof (f_equal framebuffer H) as H2. pose proof (f_equal framebuffer_changed H) as H3.
  pose proof (f_equal pending H) as H4. pose proof (f_equal transfer_buffer H) as H5. pose proof (f_equal current_format H) as H6. done.
Qed.

Lemma receiving_same r acc s s' :
  receiving r acc s → inv s' → pending s' = pending s → transfer_buffer s' = transfer_buffer s → receiving r acc s'.
Proof. intros [_ H1 H2] HI Hp Ht. constructor; congruence. Qed.

Lemma awaits_same s s' l rs :
  awaits s l rs → inv s' → pending s' = pending s → transfer_buffer s' = transfer_buffer s → awaits s' l rs.
Proof. destruct 1; intros; [by constructor|]. econstructor; [by eapply receiving_same|done..]. Qed.

(** Only the requests of the host and its data reach the device. *)
Lemma polite_request setup buffer n (h : host state) supported h' :
  setup !! 0%nat = Some REQUEST_TYPE_VENDOR_INTERFACE_IN →
  usbip_device_control gud_display_device setup buffer n h = Ok supported h' → core (dev h') = core (dev h).
Proof.
  intros Hs. assert (arr_get setup 0 = Val REQUEST_TYPE_VENDOR_INTERFACE_IN) as H0 by (by apply arr_get_Val).
  assert (∀ f, (∀ s, core (f s) = core s) → keeps (same_view core) (update f)) as Hupdate.
  { intros f Hf. apply keeps_modify. intros h1. apply Hf. }
  assert (∀ v, keeps (same_view core) (update (set_last_status v))) as Hstatus by (intros v; by apply Hupdate).
  assert (∀ msg n, keeps (same_view core) (answer msg n)) as Hanswer.
  { intros msg k. unfold answer, callback_transmit. keeps. }
  assert (keeps (same_view core) (usbip_device_control gud_display_device setup buffer n)) as Hk; [|by apply Hk].
  unfold usbip_device_control. apply keeps_bind; [apply _|keeps|intros _].
  eapply keeps_read; [exact H0|]. cbn [negb]. change (negb _) with true. cbn iota.
  unfold control_callback. cbn [control_data_callback gud_display_device]. unfold control_data.
  apply keeps_bind; [apply _| |intros _; keeps]. apply keeps_bind; [apply _|keeps|intros _]. apply keeps_bind; [apply _| |intros _; keeps].
  eapply keeps_read; [exact H0|]. change (REQUEST_TYPE_VENDOR_INTERFACE_IN =? REQUEST_TYPE_VENDOR_INTERFACE_IN) with true.
  unfold get_request, connector_request, now_ms, callback_transmit. cbn [negb andb]. keeps.
Qed.

Lemma blen_take_of (buffer data : bytes) len : data_ok buffer len → take (Z.to_nat len) buffer = data → blen data = len.
Proof. intros [_ Hlen] <-. rewrite blen_take by lia. lia. Qed.

(** The request for a rectangle. *)
Lemma request_arrives c r buffer (h : host state) supported h' :
  host_idle inv h → in_ep c = 0 → in_setup c = set_buffer_setup → drawable (current_format (dev h)) (r, []) →
  data_ok buffer (in_length c) → take (Z.to_nat (in_length c)) buffer = gud_set_buffer_mem r →
  hand_over gud_display_device (in_ep c) (in_length c) (in_setup c) buffer h = Ok supported h' →
  supported = true ∧ dev h' = set_last_status GUD_STATUS_OK (set_pending (pending_of r 0) (dev h)).
Proof.
  intros Hh -> -> [Hr Hv] Hd Ht. pose proof (blen_take_of _ _ _ Hd Ht) as Hlen. destruct (set_buffer_mem_blen r) as [H25 _].
  unfold hand_over. cbn [Z.eqb]. assert (in_length c = sizeof_set_buffer) as Hl by congruence.
  rewrite Hl in *. rewrite <-(take_drop (Z.to_nat sizeof_set_buffer) buffer), Ht.
  destruct (set_buffer_request r (drop (Z.to_nat sizeof_set_buffer) buffer) h Hh Hr) as (h1 & H1 & _ & Hdev & _).
  rewrite H1. intros [= <- <-]. split; [done|]. rewrite Hdev. unfold after_set_buffer. by rewrite decide_True.
Qed.

(** Pixels of the rectangle that is being received. *)
Lemma pixels_arrive c data r acc buffer (h : host state) supported h' :
  host_idle inv h → in_ep c = GUD_EP_DATA_OUT → data ≠ [] → receiving r acc (dev h) → blen acc + blen data ≤ req_length r →
  data_ok buffer (in_length c) → take (Z.to_nat (in_length c)) buffer = data →
  hand_over gud_display_device (in_ep c) (in_length c) (in_setup c) buffer h = Ok supported h' →
  supported = true ∧ look (dev h') = look (dev h)
  ∧ if decide (blen acc + blen data < req_length r)
    then receiving r (acc ++ data) (dev h') ∧ framebuffer (dev h') = framebuffer (dev h)
    else framebuffer (dev h') = drawn r (acc ++ data) (framebuffer (dev h)) ∧ framebuffer_changed (dev h') = true.
Proof.
  intros Hh Hep Hne Hrcv Hle Hd Ht. pose proof (blen_take_of _ _ _ Hd Ht) as Hlen.
  assert (Forall is_byte data) as Hb by (rewrite <-Ht; apply Forall_take, Hd).
  assert (0 < blen data) as Hpos by (destruct data; [done|unfold blen; cbn; lia]).
  destruct (endpoint_receives GUD_EP_DATA_OUT r acc data (locked h) Hrcv Hb Hle) as (s' & Hs & HI' & Hcase).
  assert (keeps (same_view look) (endpoint_data GUD_EP_DATA_OUT data (blen data))) as Hlook.
  { assert (∀ f, (∀ s, look (f s) = look s) → keeps (same_view look) (update f)) as Hupdate.
    { intros f Hf. apply keeps_modify. intros h1. apply Hf. }
    unfold endpoint_data, store_rectangle. keeps; by apply Hupdate. }
  pose proof (Hlook _ _ _ Hs) as Hsl. cbn [dev set_dev locked set_lib] in Hsl.
  assert (endpoint_data GUD_EP_DATA_OUT buffer (in_length c) (locked h) = Ok tt (set_dev s' (locked h))) as Hs'.
  { rewrite endpoint_data_take by apply Hd. by rewrite Ht, <-Hlen. }
  destruct (receive_chunk buffer (in_length c) s' h Hh HI' Hs') as (h1 & H1 & _ & Hdev1).
  unfold hand_over. rewrite Hep. change (GUD_EP_DATA_OUT =? 0) with false. cbn iota.
  change (u8 GUD_EP_DATA_OUT) with GUD_EP_DATA_OUT. rewrite (proj2 (Z.ltb_lt 0 (in_length c))) by lia.
  change (bool_decide (is_Some (ep_data_callback gud_display_device))) with true. cbn [andb]. unfold bind. rewrite H1.
  intros [= <- <-]. split; [done|]. rewrite Hdev1. split; [exact Hsl|]. case_decide; by destruct Hcase as (? & ? & _).
Qed.

(** A rectangle that is being received lacks some data. *)
Lemma receiving_lacks r acc s : receiving r acc s → blen acc < req_length r.
Proof.
  intros Hrcv. pose proof (inv_pending _ (rcv_inv _ _ _ Hrcv)) as Hp. unfold pending_ok in Hp. rewrite (rcv_pending _ _ _ Hrcv) in Hp.
  destruct (Hp eq_refl) as (_ & _ & Hrec). cbn [received req pending_of] in Hrec. lia.
Qed.

Lemma awaits_nothing s rs : awaits s [] rs → rs = [].
Proof.
  intros Haw. inversion Haw as [l rs0 Hup E1 E2|r acc cs l rs0 Hrcv _ Hlen _ E1 E2]; subst; [by inversion Hup|].
  apply app_eq_nil in E1 as [-> _]. apply receiving_lacks in Hrcv. change (blen (concat _)) with 0 in Hlen. lia.
Qed.

(** One OUT transfer of the client. *)
Lemma delivered_draws c data rem rs buffer (h : host state) supported h' :
  host_idle inv h → awaits (dev h) ((c, data) :: rem) rs → Forall (drawable (current_format (dev h))) rs →
  data_ok buffer (in_length c) → take (Z.to_nat (in_length c)) buffer = data →
  hand_over gud_display_device (in_ep c) (in_length c) (in_setup c) buffer h = Ok supported h' → host_idle inv h' →
  ∃ rs', supported = true ∧ awaits (dev h') rem rs' ∧ Forall (drawable (current_format (dev h))) rs' ∧ draws (dev h) rs (dev h') rs' ∧ marks (dev h) rs (dev h') rs'.
Proof.
  intros Hh Haw Hok Hd Ht Hrun Hh'. revert Ht. inversion Haw as [l ? Hup E1 E2|r acc cs l rs0 Hrcv Hpix Hlen Hup E1 E2]; subst; [|intros Ht].
  - inversion Hup as [|? r cs l rs0 H1 H2 H3 H4 H5]; subst. intros Ht. apply Forall_cons in Hok as [Hr Hok].
    destruct (request_arrives c r buffer h supported h' Hh H1 H2 Hr Hd Ht Hrun) as [-> Hdev].
    assert (inv (dev h')) as HI by apply Hh'. rewrite Hdev in *. exists ((r, [] ++ concat cs.*2) :: rs0). split; [done|].
    split; [by apply awaits_data|]. split; [by constructor|]. by split.
  - destruct cs as [|x cs].
    { apply receiving_lacks in Hrcv. change (blen (concat _)) with 0 in Hlen. lia. }
    cbn [app] in E1. injection E1 as -> <-. apply Forall_cons in Hpix as [[Hep Hne] Hpix]. cbn [fst snd] in Hep, Hne.
    cbn [fmap list_fmap concat snd] in *. rewrite blen_app in Hlen. pose proof (blen_nonneg (concat cs.*2)).
    destruct (pixels_arrive c data r acc buffer h supported h' Hh Hep Hne Hrcv) as (-> & Hlook & Hcase); [lia|done..|].
    apply Forall_cons in Hok as [Hr Hok]. case_decide as Hlt.
    + destruct Hcase as [Hrcv' Hfb]. exists ((r, (acc ++ data) ++ concat cs.*2) :: rs0). split; [done|].
      split; [apply awaits_data; [done|done|rewrite blen_app; lia|done]|]. split; [by constructor|].
      split; [|done]. constructor; [apply Hh'|done|]. rewrite <-app_assoc. by rewrite Hfb.
    + assert (cs = []) as ->.
      { destruct cs as [|y cs]; [done|]. apply Forall_cons in Hpix as [[_ Hney] _]. cbn [fmap list_fmap concat] in Hlen.
        rewrite blen_app in Hlen. pose proof (blen_nonneg (concat cs.*2)). destruct (y.2); [done|]. unfold blen in *. cbn [length] in *. lia. }
      destruct Hcase as [Hfb Hch]. exists rs0. split; [done|]. split; [by apply awaits_rect|]. split; [done|].
      split; [|by left]. constructor; [apply Hh'|done|]. cbn [drawn_all foldl fst snd]. by rewrite Hfb, app_nil_r.
Qed.

(** ** The server thread *)

(** The device supported every OUT transfer. *)
Definition accepted (log : list event) : Prop :=
  Forall (λ e, match e with Delivered _ _ supported => supported = true | _ => True end) log.

Lemma gud_iso_nothing u total pks (h : host state) acts data h' :
  iso_exchange gud_display_device u total pks h acts data h' → h' = h.
Proof.
  unfold iso_exchange. case_decide; [by intros (_ & _ & ->)|]. induction 1 as [|total pk pks h window a window' h1 acts data h2 n _ Hr _ IH]; [done|].
  rewrite IH by done. unfold usbip_device_iso_in in Hr. cbn in Hr. by injection Hr as _ _ ->.
Qed.

Lemma trace_draws s log s' rem rs :
  pipe_trace inv gud_display_device s log s' → inv (device s) → Forall polite (log_commands log) →
  awaits (device s) (sends_of (log_commands log) ++ rem) rs → Forall (drawable (current_format (device s))) rs →
  ∃ rs', awaits (device s') rem rs' ∧ Forall (drawable (current_format (device s'))) rs'
    ∧ draws (device s) rs (device s') rs' ∧ marks (device s) rs (device s') rs' ∧ accepted log.
Proof.
  intros H. revert rs. induction H as [s|s e s1 log s' Hstep _ IH]; intros rs HI Hpol Haw Hok.
  { exists rs. split; [done|]. split; [done|]. split; [done|]. split; [by right|constructor]. }
  assert (∃ rs1, awaits (device s1) (sends_of (log_commands log) ++ rem) rs1 ∧ Forall (drawable (current_format (device s1))) rs1
    ∧ draws (device s) rs (device s1) rs1 ∧ marks (device s) rs (device s1) rs1 ∧ accepted [e] ∧ Forall polite (log_commands log))
    as (rs1 & Haw1 & Hok1 & D1 & M1 & A1 & P1).
  { assert (device s1 = device s → sends_of (log_commands (e :: log)) = sends_of (log_commands log) → accepted [e] →
      Forall polite (log_commands log) → ∃ rs1, awaits (device s1) (sends_of (log_commands log) ++ rem) rs1
        ∧ Forall (drawable (current_format (device s1))) rs1 ∧ draws (device s) rs (device s1) rs1 ∧ marks (device s) rs (device s1) rs1
        ∧ accepted [e] ∧ Forall polite (log_commands log)) as Hsame.
    { intros Hd Hsends. rewrite Hd, <-Hsends. intros. exists rs. do 3 (split; [done|]). split; [by right|done]. }
    unfold log_commands in *. cbn [omap list_omap] in *.
    destruct Hstep as [| | | | | |q c buffer sup h h' Ha Hn Hh Hb Hrun Hh'|q c data buffer sup h h' Hh Hb Ht Hrun Hh'
      |q c data pks u h h' _ _ _ _ _|q c data pks u acts payload h h1 h2 h' _ _ _ _ _ _ _ _ _ _|q1 q2 u acts payload h h' _ _ _ _ Hex _];
      cbn [device] in *; try (apply Hsame; [done|done|by repeat constructor|by first [done|apply Forall_cons in Hpol as [_ ?]]]).
    - apply Forall_cons in Hpol as [Hp Hpol]. destruct (Hp Ha) as [Hs|Hs]; [done|].
      pose proof (polite_request _ _ _ _ _ _ Hs Hrun) as Hcore. destruct (core_same _ _ Hcore) as (H1 & H2 & H3 & H4 & H5 & H6).
      assert (inv (dev h')) as HI' by apply Hh'. exists rs. split; [by eapply awaits_same|]. rewrite H1. split; [done|].
      split; [constructor; congruence|]. split; [by right|]. split; [by repeat constructor|done].
    - apply Forall_cons in Hpol as [_ Hpol].
      destruct (delivered_draws c data (sends_of (omap _ log) ++ rem) rs buffer h sup h' Hh Haw Hok Hb Ht Hrun Hh')
        as (rs1 & -> & Haw1 & Hok1 & D1 & M1).
      exists rs1. split; [done|]. assert (current_format (dev h') = current_format (dev h)) as -> by apply (f_equal fst (draws_look _ _ _ _ D1)).
      do 3 (split; [done|]). split; [by repeat constructor|done].
    - by apply Forall_cons in Hpol as [[] _].
    - by apply Forall_cons in Hpol as [[] _].
    - apply gud_iso_nothing in Hex as ->. apply Hsame; [done|done|by repeat constructor|done]. }
  destruct (IH rs1 (draws_inv _ _ _ _ D1) P1 Haw1 Hok1) as (rs' & Haw' & Hok' & D2 & M2 & A2).
  exists rs'. split; [done|]. split; [done|]. split; [by eapply draws_trans|]. split; [by eapply marks_trans|].
  apply (Forall_app_2 _ [e]); done.
Qed.

(** ** Both threads *)

(** The picture of the device as it is. *)
Definition picture_of (s : state) : picture :=
  {| on := display_on s; in_format := current_format s; of_frame := framebuffer s |}.

(** The window shows the device, or the next round of the main loop will. *)
Definition tracked (v : picture) (s : state) : Prop := framebuffer_changed s = true ∨ v = picture_of s.

Lemma tracked_marks v s rs s' rs' : draws s rs s' rs' → marks s rs s' rs' → (rs = [] → tracked v s) → rs' = [] → tracked v s'.
Proof.
  intros [_ Hlook Hall] Hm Ht Hr. destruct (Hm Hr) as [?|[Hrs Hch]]; [by left|]. subst rs rs'.
  unfold tracked. rewrite Hch. destruct (Ht eq_refl) as [?| ->]; [by left|right].
  unfold look in Hlook. cbn in Hall. unfold picture_of. by injection Hlook as -> ->; rewrite Hall.
Qed.

Lemma next_picture_tracked v s s' : tracked v s → noted s s' → next_picture s v = picture_of s'.
Proof.
  intros Ht (Hf & _ & Hfmt & Hon & _). unfold next_picture, picture_of. rewrite Hf, Hfmt, Hon.
  destruct Ht as [-> | ->]; [done|]. cbn [on of_frame picture_of]. rewrite Bool.eqb_reflx.
  by destruct (framebuffer_changed s).
Qed.

Lemma noted_tracked v s s' : tracked v s → noted s s' → tracked (next_picture s v) s'.
Proof. right. by apply next_picture_tracked. Qed.

Lemma noted_draws s s' rs : noted s s' → inv s' → draws s rs s' rs.
Proof. intros (Hf & _ & Hfmt & Hon & _) HI. constructor; [done| |by rewrite Hf]. unfold look. congruence. Qed.

(** A round of the main loop. *)
Lemma main_round_desk queue v l k :
  showing v l (program k) → window_open l = true → Window.SDL_EVENT_QUIT ∉ queue → serving inv (d_world k) →
  ∃ l' k' h, in_program (main_turn queue l) k = Ok (Some l') k' ∧ d_world k' = set_host h (d_world k)
    ∧ showing (next_picture (dev (w_host (d_world k))) v) l' (program k') ∧ window_open l' = true
    ∧ serving inv (d_world k') ∧ noted (dev (w_host (d_world k))) (dev h).
Proof.
  intros Hs Ho Hq [Hw Hu]. destruct (open_turn queue v l (program k) Hs Ho) as (p' & H). rewrite decide_False in H by done.
  destruct H as (l' & H & Hs' & Ho' & Hn). exists l', {| d_world := set_host (p_host p') (d_world k); d_window := p_window p' |}, (p_host p').
  unfold in_program, zoom. rewrite H. split; [done|]. split; [done|]. split; [by destruct p'|]. split; [done|]. split; [|done].
  constructor; [|done]. apply world_ok_host; [done|]. apply (showing_host _ _ _ Hs').
Qed.

(** What the client has received for its commands. *)
Definition answered_by (cmds : list command) (w w' : world state) : Prop :=
  ∃ log, sent (w_net w') = sent (w_net w) ++ concat (event_wire <$> log) ∧ log_commands log = cmds ∧ accepted log.

Lemma answered_trans c1 c2 w1 w2 w3 : answered_by c1 w1 w2 → answered_by c2 w2 w3 → answered_by (c1 ++ c2) w1 w3.
Proof.
  intros (l1 & S1 & C1 & A1) (l2 & S2 & C2 & A2). exists (l1 ++ l2). unfold log_commands in *.
  rewrite S2, S1, fmap_app, concat_app, app_assoc, omap_app, C1, C2. do 2 (split; [done|]). by apply Forall_app.
Qed.

Lemma answered_refl w : answered_by [] w w.
Proof. exists []. unfold accepted. cbn [fmap list_fmap concat]. rewrite app_nil_r. split; [done|]. split; [done|constructor]. Qed.

Definition commands_of (schedule : list slice) : list command := session_commands (turns schedule).

(** The window is not closed. *)
Definition stays_open (s : slice) : Prop := match s with MainRound queue => Window.SDL_EVENT_QUIT ∉ queue | _ => True end.

Definition device_of (k : desk) : state := dev (w_host (d_world k)).

(** The client and the user keep to the schedule, the display to the rectangles [rs]. *)
Record drawing (rest : bytes) (more : list poll_event) (schedule : list slice) (rem : list (submit_in * bytes))
    (v : picture) (l : locals) (k : desk) (rs : list rect) : Prop := {
  drawing_showing : showing v l (program k);
  drawing_open : window_open l = true;
  drawing_serving : serving inv (d_world k);
  drawing_follows : follows (turns schedule) rest more (d_world k);
  drawing_commands : Forall (command_ok (endpoints (w_proto (d_world k)))) (commands_of schedule);
  drawing_polite : Forall polite (commands_of schedule);
  drawing_events : Forall stays_open schedule;
  drawing_awaits : awaits (device_of k) (sends_of (commands_of schedule) ++ rem) rs;
  drawing_drawable : Forall (drawable (current_format (device_of k))) rs;
  drawing_tracked : rs = [] → tracked v (device_of k);
}.

Lemma commands_of_cons a schedule : commands_of (ServerRound a :: schedule) = option_list (command_of a) ++ commands_of schedule.
Proof. unfold commands_of, session_commands, turns. cbn [omap list_omap]. by destruct (command_of a). Qed.

Lemma drawing_server a rest more schedule rem v l k rs :
  drawing rest more (ServerRound a :: schedule) rem v l k rs →
  ∃ w1 rs1, usbip_protocol_process_imported_device gud_display_device (d_world k) = Ok false w1
    ∧ drawing rest more schedule rem v l {| d_world := w1; d_window := d_window k |} rs1
    ∧ answered_by (option_list (command_of a)) (d_world k) w1 ∧ draws (device_of k) rs (dev (w_host w1)) rs1.
Proof.
  intros [Hs Ho Hsv [Hcl Hp] Hcmd Hpol Hopen Haw Hok Ht]. rewrite commands_of_cons in *.
  apply Forall_app in Hcmd as [Hcmd1 Hcmd2], Hpol as [Hpol1 Hpol2]. apply Forall_cons in Hopen as [_ Hopen].
  unfold turns in Hcl, Hp. cbn [omap list_omap fmap list_fmap concat app] in Hcl, Hp. rewrite client_sends_app in Hcl.
  destruct (round_evolves inv gud_display_device a _ _ (d_world k) Hsv Hcl Hp Hcmd1)
    as (w1 & log1 & H1 & [T1 S1 Y1 V1] & C1 & _ & Hcl1 & Hp1 & _).
  assert (sends_of (log_commands log1) ++ sends_of (commands_of schedule) ++ rem
    = sends_of (option_list (command_of a) ++ commands_of schedule) ++ rem) as Hsends
    by (rewrite C1, app_assoc; unfold sends_of; by rewrite omap_app).
  rewrite <-Hsends in Haw. rewrite <-C1 in Hpol1.
  destruct (trace_draws _ _ _ _ _ T1 (proj1 (proj1 (wo_host _ _ (serving_ok _ _ Hsv)))) Hpol1 Haw Hok) as (rs1 & Haw1 & Hok1 & D1 & M1 & A1).
  exists w1, rs1. split; [done|]. split; [|split; [by exists log1|done]]. constructor; try done.
  - destruct Hs. by constructor; [apply (wo_host _ _ (serving_ok _ _ V1))|..].
  - split; [|done]. unfold client_sends in *. by rewrite app_nil_r in Hcl1.
  - eapply Forall_impl; [exact Hcmd2|]. intros c. by apply command_ok_kept.
  - by eapply tracked_marks.
Qed.

Lemma drawing_main queue rest more schedule rem v l k rs :
  drawing rest more (MainRound queue :: schedule) rem v l k rs →
  ∃ l1 k1, in_program (main_turn queue l) k = Ok (Some l1) k1
    ∧ drawing rest more schedule rem (next_picture (device_of k) v) l1 k1 rs
    ∧ answered_by [] (d_world k) (d_world k1) ∧ draws (device_of k) rs (device_of k1) rs
    ∧ (rs = [] → next_picture (device_of k) v = picture_of (device_of k1)).
Proof.
  intros [Hs Ho Hsv Hf Hcmd Hpol Hopen Haw Hok Ht]. apply Forall_cons in Hopen as [Hq Hopen].
  destruct (main_round_desk queue v l k Hs Ho Hq Hsv) as (l1 & k1 & h1 & H1 & Hk1 & Hs1 & Ho1 & Hsv1 & Hn).
  assert (device_of k1 = dev h1) as Hd1 by (unfold device_of; by rewrite Hk1).
  assert (inv (dev h1)) as HI1 by (rewrite <-Hd1; by apply (wo_host _ _ (serving_ok _ _ Hsv1))).
  assert (w_net (d_world k1) = w_net (d_world k) ∧ w_proto (d_world k1) = w_proto (d_world k)) as [Hn1 Hp1] by (by rewrite Hk1).
  pose proof Hn as (_ & _ & Hfmt & _ & Hpend & Htx). exists l1, k1. rewrite Hd1. split; [done|]. split; [|split; [|split]].
  - constructor; rewrite ?Hd1; try done.
    + unfold follows, client_sends in *. by rewrite Hn1.
    + by rewrite Hp1.
    + by eapply awaits_same.
    + unfold device_of in Hok. by rewrite Hfmt.
    + intros Hrs. apply noted_tracked; [by apply Ht|done].
  - destruct (answered_refl (d_world k)) as (log & A). exists log. by rewrite Hn1.
  - by apply noted_draws.
  - intros Hrs. apply next_picture_tracked; [by apply Ht|done].
Qed.

Lemma drawing_runs rest more schedule schedule' rem v l k rs :
  drawing rest more (schedule ++ schedule') rem v l k rs →
  ∃ v' l' k' rs', run_desk (schedule ++ schedule') l k = run_desk schedule' l' k'
    ∧ drawing rest more schedule' rem v' l' k' rs' ∧ answered_by (commands_of schedule) (d_world k) (d_world k')
    ∧ draws (device_of k) rs (device_of k') rs'.
Proof.
  revert v l k rs. induction schedule as [|[a|queue] schedule IH]; intros v l k rs Hd.
  - exists v, l, k, rs. split; [done|]. split; [done|]. split; [apply answered_refl|]. apply draws_refl.
    by apply (wo_host _ _ (serving_ok _ _ (drawing_serving _ _ _ _ _ _ _ _ Hd))).
  - destruct (drawing_server _ _ _ _ _ _ _ _ _ Hd) as (w1 & rs1 & H1 & Hd1 & A1 & D1).
    destruct (IH _ _ _ _ Hd1) as (v' & l' & k' & rs' & H2 & Hd2 & A2 & D2). exists v', l', k', rs'.
    rewrite commands_of_cons. split; [cbn [app run_desk]; unfold bind, in_server, zoom; by rewrite H1|].
    split; [done|]. split; [by eapply answered_trans|by eapply draws_trans].
  - destruct (drawing_main _ _ _ _ _ _ _ _ _ Hd) as (l1 & k1 & H1 & Hd1 & A1 & D1 & _).
    destruct (IH _ _ _ _ Hd1) as (v' & l' & k' & rs' & H2 & Hd2 & A2 & D2). exists v', l', k', rs'.
    split; [cbn [app run_desk]; unfold bind; by rewrite H1|].
    split; [done|]. split; [exact (answered_trans _ _ _ _ _ A1 A2)|by eapply draws_trans].
Qed.

(** C6: from the wire to the window: a client draws any number of rectangles, each a
    SET_BUFFER request and its pixels in OUT transfers of whatever sizes, in whatever rounds
    the server takes them and whatever else the client asks for or reads in between, while
    the main loop runs in any rounds between those of the server. Every transfer is
    acknowledged; then the framebuffer holds the rectangles, each pixel in its place, the
    later over the earlier, nothing else of it has changed, and after the next round of the
    main loop the user sees exactly this framebuffer, or a dark window while the host has
    the display switched off. *)
Theorem client_draws_in_the_window schedule queue rest more v l k rs :
  showing v l (program k) → window_open l = true → serving inv (d_world k) → follows (turns schedule) rest more (d_world k) →
  Forall (command_ok (endpoints (w_proto (d_world k)))) (commands_of schedule) → Forall polite (commands_of schedule) →
  Forall stays_open schedule → Window.SDL_EVENT_QUIT ∉ queue →
  uploads (sends_of (commands_of schedule)) rs → Forall (drawable (current_format (device_of k))) rs → rs ≠ [] →
  let fb := drawn_all (framebuffer (device_of k)) rs in
  ∃ l' k', run_desk (schedule ++ [MainRound queue]) l k = Ok l' k'
    ∧ answered_by (commands_of schedule) (d_world k) (d_world k') ∧ client_sends rest [] (d_world k') ∧ serving inv (d_world k')
    ∧ framebuffer (device_of k') = fb
    ∧ is_picture {| on := display_on (device_of k); in_format := current_format (device_of k); of_frame := fb |}
        (Window.user_sees (Window.calls (d_window k'))).
Proof.
  intros Hs Ho Hsv Hf Hcmd Hpol Hopen Hq Hup Hok Hne. cbn zeta.
  assert (turns (schedule ++ [MainRound queue]) = turns schedule) as Hturns by (unfold turns; by rewrite omap_app, app_nil_r).
  assert (commands_of (schedule ++ [MainRound queue]) = commands_of schedule) as Hcmds by (unfold commands_of; by rewrite Hturns).
  assert (drawing rest more (schedule ++ [MainRound queue]) [] v l k rs) as Hd.
  { constructor; rewrite ?Hturns, ?Hcmds, ?app_nil_r; try done; [apply Forall_app; by repeat constructor|by constructor]. }
  destruct (drawing_runs _ _ _ _ _ _ _ _ _ Hd) as (v1 & l1 & k1 & rs1 & H1 & Hd1 & A1 & D1).
  pose proof (awaits_nothing _ _ (drawing_awaits _ _ _ _ _ _ _ _ Hd1)) as ->.
  destruct (drawing_main _ _ _ _ _ _ _ _ _ Hd1) as (l2 & k2 & H2 & Hd2 & A2 & D2 & Hpic).
  exists l2, k2. rewrite H1. cbn [run_desk]. unfold bind. rewrite H2.
  pose proof (draws_trans _ _ _ _ _ _ D1 D2) as [_ Hlook Hall]. cbn [drawn_all foldl] in Hall. unfold look in Hlook. injection Hlook as Hfmt Hon.
  split; [done|]. split; [pose proof (answered_trans _ _ _ _ _ A1 A2) as A; by rewrite app_nil_r in A|].
  destruct Hd2 as [Hs2 _ Hsv2 [Hcl2 _] _ _ _ _ _ _].
  split; [unfold client_sends in *; by rewrite app_nil_r|]. split; [done|]. split; [done|].
  pose proof (showing_seen _ _ _ Hs2) as Hsee. rewrite (Hpic eq_refl) in Hsee. unfold picture_of in Hsee. by rewrite Hfmt, Hon, Hall in Hsee.
Qed.

(** ** Witness: a rectangle in two chunks, with rounds of the main loop in between *)

Definition draw_schedule : list slice :=
  [ServerRound (Sends (out_command 1 0 set_buffer_setup (gud_set_buffer_mem small_rect)));
   MainRound [Window.SDL_EVENT_OTHER];
   ServerRound (Sends (out_command 2 GUD_EP_DATA_OUT (replicate 8 0) [1; 2; 3; 4; 5])); ServerRound (Quiet true);
   MainRound []; ServerRound (Sends (out_command 3 GUD_EP_DATA_OUT (replicate 8 0) [6; 7; 8; 9; 10; 11; 12]))].

(** The display is enabled and its format committed. *)
Definition draw_world : world state :=
  {| w_host := enable display_host;
     w_net := set_polls (poll_of <$> turns draw_schedule) (bulk_net [RxData (concat (sent_by <$> turns draw_schedule))]);
     w_proto := initial_proto; others := [] |}.

Lemma draw_world_serving : serving inv draw_world.
Proof.
  constructor; [|constructor]. constructor; [apply enable_keeps, display_host_idle| |apply initial_proto_ok|constructor].
  split; [|constructor]. constructor; [|constructor]. apply (bool_decide_eq_true_1 _). vm_compute. reflexivity.
Qed.

Lemma draw_world_showing w :
  Window.opened DISPLAY_WIDTH DISPLAY_HEIGHT w → Window.user_sees (Window.calls w) = None →
  showing dark window (program {| d_world := draw_world; d_window := w |}).
Proof.
  intros Hw Hsee. constructor; [apply (wo_host _ _ (serving_ok _ _ draw_world_serving))|apply window_locals_ok|exact Hw|reflexivity..|exact Hsee].
Qed.

Lemma draw_commands_ok : Forall (command_ok (endpoints (w_proto draw_world))) (commands_of draw_schedule).
Proof.
  assert (∀ n setup data, is_u32 n → blen data ≤ USBIP_MAX_PACKET_SIZE → length setup = 8%nat →
    command_ok (endpoints (w_proto draw_world)) (out_command n GUD_EP_DATA_OUT setup data)) as Hpix.
  { intros n setup data H1 H2 H3. apply out_command_ok; try done. right. by exists zero_endpoint. }
  constructor; [apply out_command_ok; try done; by left|]. by repeat (constructor; [by apply Hpix|]).
Qed.

Lemma draw_uploads : uploads (sends_of (commands_of draw_schedule)) [(small_rect, [1; 2; 3; 4; 5; 6; 7; 8; 9; 10; 11; 12])].
Proof.
  unfold commands_of, session_commands, turns, draw_schedule, sends_of. cbn [omap list_omap command_of option_bind out_command].
  match goal with |- uploads [(?c, _); ?x; ?y] _ =>
    apply (uploads_rect c small_rect [x; y] [] []) end; try done; [by repeat constructor|constructor].
Qed.

Lemma draw_framebuffer w : framebuffer (device_of {| d_world := draw_world; d_window := w |}) = framebuffer initial_state.
Proof. reflexivity. Qed.

Lemma drawn_all_one fb r data : drawn_all fb [(r, data)] = drawn r data fb.
Proof. reflexivity. Qed.

Lemma client_draws_in_the_window_witness :
  ∃ l' k' px, framebuffer (device_of k') = drawn small_rect [1; 2; 3; 4; 5; 6; 7; 8; 9; 10; 11; 12] (framebuffer initial_state)
    ∧ Window.user_sees (Window.calls (d_window k')) = Some px ∧ length px = NUM_PIXELS
    ∧ ∃ w, run_desk (draw_schedule ++ [MainRound []]) window {| d_world := draw_world; d_window := w |} = Ok l' k'.
Proof.
  destruct (Window.open_spec a_window DISPLAY_WIDTH DISPLAY_HEIGHT Window.initial_state) as (b & w & _ & Hb & Hsee & Hw); [by repeat split..|].
  rewrite Hb in Hw. set (k := {| d_world := draw_world; d_window := w |}).
  destruct (client_draws_in_the_window draw_schedule [] [] [] dark window k
    [(small_rect, [1; 2; 3; 4; 5; 6; 7; 8; 9; 10; 11; 12])]) as (l' & k' & H1 & _ & _ & _ & H2 & H3).
  - apply draw_world_showing; [exact Hw|exact Hsee].
  - reflexivity.
  - exact draw_world_serving.
  - split; [split; [split; [reflexivity|constructor]|]|]; vm_compute; reflexivity.
  - exact draw_commands_ok.
  - by repeat constructor.
  - repeat constructor; intros He; apply (bool_decide_eq_true_2 _) in He; discriminate He.
  - intros He. apply (bool_decide_eq_true_2 _) in He. discriminate He.
  - exact draw_uploads.
  - constructor; [exact small_rect_ok|constructor].
  - discriminate.
  - rewrite drawn_all_one in H2. unfold k in H2. rewrite draw_framebuffer in H2. destruct H3 as (px & H3 & H4 & _). exists l', k', px. split; [exact H2|]. split; [exact H3|]. split; [exact H4|]. by exists w.
Defined.
