(* ===== verification/AudioClient.v ===== *)
(** * The audio input device from the wire

    A client of the server records: it chooses the alternate setting with the isochronous
    endpoint and submits transfers whose packets the device fills. What the replies carry
    is the stream of the synthesiser, from its first sample on. *)
From S2P Require Import Prelude WireFormat DeviceStore Descriptors Host BulkDevice Control Silent Tcpip ConfigWalk Protocol ProtocolSafety Completion ProtocolEntry StreamEntry Rounds Pipes Session Server Client DeviceRequests Float Float32 AudioSynth AudioDevice.
Import Synth Audio.

(** ** What the client records *)

(** The samples of each packet of an IN transfer with [space] bytes left: as many as fit. *)
Fixpoint packet_samples (space : Z) (pks : list iso_packet_t) : list Z :=
  match pks with
  | [] => []
  | pk :: pks =>
      let k := samples_in (Z.min (pk_length pk) space) in
      k :: packet_samples (space - AUDIO_BYTES_PER_SAMPLE * k) pks
  end.

Definition urb_samples (u : pending_urb_t) : list Z :=
  if decide (urb_direction u = 0) then [] else packet_samples (urb_transfer_buffer_length u) (packets_of u).

(** The samples of a log. *)
Definition samples_of (log : list event) : nat :=
  sum_list (omap (λ e, match e with
    | StreamAnswered _ _ _ u _ _ | StreamCompleted u _ _ => Some (Z.to_nat (sum (urb_samples u)))
    | _ => None
    end) log).

(** Each packet is full, or as full as the space left allows. *)
Definition filled_up (e : event) : Prop :=
  match e with
  | StreamAnswered _ _ _ u acts _ | StreamCompleted u acts _ =>
      urb_direction u ≠ 0 → acts = Z.mul AUDIO_BYTES_PER_SAMPLE <$> urb_samples u
  | _ => True
  end.

(** Requests other than SET_INTERFACE do not touch the recording. *)
Definition set_interface (setup : bytes) : Prop := setup !! 0%nat = Some 0x01 ∧ setup !! 1%nat = Some USB_REQUEST_SET_INTERFACE.

Definition harmless (c : command) : Prop :=
  match c with
  | CmdSubmit c | CmdSend c _ => ¬ set_interface (in_setup c)
  | _ => True
  end.

(** The client's SET_INTERFACE. *)
Definition choose_interface (seqnum alternate : Z) : submit_in :=
  {| in_seqnum := seqnum; in_devid := 1; in_direction := 0; in_ep := 0; in_flags := 0; in_length := 0;
     in_start_frame := 0; in_packets := 0; in_interval := 0; in_setup := set_interface_setup alternate |}.

(** Where the recording stands when the alternate setting was chosen. *)
Definition recording_start (alternate : Z) (s : state) : Z * f32 :=
  if decide (alternate = streaming_alternate s) then position s else (0, zero).

(** * Theorems *)

Lemma samples_of_app log1 log2 : samples_of (log1 ++ log2) = (samples_of log1 + samples_of log2)%nat.
Proof. unfold samples_of. by rewrite omap_app, sum_list_with_app. Qed.

Section recording.
Context (sinf : f32 → f32) (powf : f32 → f32 → f32) `{!LibmRange sinf powf}.

Lemma packet_samples_nonneg space pks :
  0 ≤ space → Forall (λ pk, 0 ≤ pk_length pk) pks → Forall (λ k, 0 ≤ k) (packet_samples space pks).
Proof using.
  intros Hs Hp. revert space Hs. induction Hp as [|pk pks Hpk _ IH]; intros space Hs; cbn [packet_samples]; [constructor|].
  destruct (samples_in_range (Z.min (pk_length pk) space)) as [H1 H2]; [lia|]. constructor; [done|]. apply IH. lia.
Qed.

Lemma sum_nonneg l : Forall (λ k, 0 ≤ k) l → 0 ≤ sum l.
Proof using. induction 1; simpl; lia. Qed.

(** The packets of a transfer continue the stream. *)
Lemma iso_run_records ep len total pks (h : host state) acts data h' :
  iso_run (audio_device sinf powf) ep len total pks h acts data h' → host_idle inv h → total ≤ len → Forall (λ pk, 0 ≤ pk_length pk) pks →
  let ks := packet_samples (len - total) pks in
  let n := Z.to_nat (sum ks) in
  acts = Z.mul AUDIO_BYTES_PER_SAMPLE <$> ks ∧ data = pcm (stream sinf powf n (position (dev h))) ∧ position (dev h') = after sinf powf n (position (dev h)).
Proof using All.
  induction 1 as [total h|total pk pks h window a window' h1 acts data h2 n [_ Hn] Hr _ IH]; intros Hh Hle Hp; [done|].
  apply Forall_cons in Hp as [Hpk Hp]. cbn [packet_samples]. fold n. set (k := samples_in n).
  destruct (iso_in_step sinf powf ep window n h Hh Hn) as (w2 & h3 & H3 & Ht & Hh3 & Hp3). fold k in H3, Ht, Hp3.
  rewrite Hr in H3. injection H3 as -> -> ->. destruct (samples_in_range n) as [Hk1 Hk2]; [lia|]. fold k in Hk1, Hk2.
  change AUDIO_BYTES_PER_SAMPLE with 2 in *. destruct IH as (-> & -> & ->); [done|lia|done|].
  replace (len - (total + 2 * k)) with (len - total - 2 * k) by lia. set (ks := packet_samples _ pks).
  assert (0 ≤ sum ks) by (apply sum_nonneg, packet_samples_nonneg; [lia|done]).
  assert (Z.to_nat (sum (k :: ks)) = Z.to_nat k + Z.to_nat (sum ks))%nat as -> by (simpl; lia).
  rewrite stream_app, after_add, Hp3, Ht. unfold pcm. by rewrite bind_app.
Qed.

Lemma iso_exchange_records u (h : host state) acts data h' :
  iso_exchange (audio_device sinf powf) u 0 (packets_of u) h acts data h' → host_idle inv h → urb_ok u → urb_isochronous u = true →
  let n := Z.to_nat (sum (urb_samples u)) in
  (urb_direction u ≠ 0 → acts = Z.mul AUDIO_BYTES_PER_SAMPLE <$> urb_samples u)
  ∧ data = pcm (stream sinf powf n (position (dev h))) ∧ position (dev h') = after sinf powf n (position (dev h)).
Proof using All.
  unfold iso_exchange, urb_samples. intros Hex Hh Hu Hiso. case_decide as Hd; [by destruct Hex as (_ & -> & ->)|].
  destruct (iso_run_records _ _ _ _ _ _ _ _ Hex Hh) as (H1 & H2 & H3); [apply Hu|by apply packets_of_ok|].
  rewrite Z.sub_0_r in H1, H2, H3. done.
Qed.

(** The other requests and OUT data. *)
Lemma control_data_position setup data n :
  ¬ set_interface setup → keeps (same_view position) (control_data setup data n).
Proof using.
  intros Hset. unfold control_data. destruct (arr_get setup 0) as [b0|] eqn:E0; [|by intros h a h'].
  destruct (arr_get setup 1) as [b1|] eqn:E1; [|by intros h a h'].
  eapply keeps_read; [done|]. eapply keeps_read; [done|].
  destruct ((b0 =? 0x01) && (b1 =? USB_REQUEST_SET_INTERFACE)) eqn:E.
  - apply andb_true_iff in E as [->%Z.eqb_eq ->%Z.eqb_eq]. exfalso. apply Hset.
    apply arr_get_Val in E0 as [_ E0], E1 as [_ E1]. by split.
  - unfold callback_transmit. keeps.
Qed.

Lemma request_position setup buffer n :
  ¬ set_interface setup → keeps (same_view position) (usbip_device_control (audio_device sinf powf) setup buffer n).
Proof using.
  intros Hset. pose proof (control_data_position setup buffer n Hset) as Hdata.
  unfold usbip_device_control, device_request, interface_request, endpoint_request, get_descriptor, is_usb2_type, reply, control_callback.
  change (control_data_callback (audio_device sinf powf)) with control_data. keeps.
Qed.

Lemma send_position c buffer (h : host state) supported h' :
  ¬ set_interface (in_setup c) →
  hand_over (audio_device sinf powf) (in_ep c) (in_length c) (in_setup c) buffer h = Ok supported h' → position (dev h') = position (dev h).
Proof using.
  intros Hset. unfold hand_over. destruct (in_ep c =? 0); [by apply request_position|].
  cbn [ep_data_callback audio_device]. rewrite bool_decide_false by (by intros []). rewrite andb_false_r. by intros [= _ <-].
Qed.

(** The device has no use for isochronous OUT data. *)
Lemma received_nothing direction ep data pks (h h' : host state) :
  stream_received (audio_device sinf powf) direction ep data pks h h' → h' = h.
Proof using.
  unfold stream_received. case_decide; [|done]. induction 1 as [|pk ps h h' _ _ IH|pk ps h buffer h1 h' Hc _ _ _ _ _]; [done|done|].
  cbn [ep_data_callback audio_device] in Hc. rewrite bool_decide_false, andb_false_r in Hc by (by intros []). done.
Qed.

(** What a step records. *)
Lemma step_records s e s' :
  pipe_step inv (audio_device sinf powf) s e s' → Forall harmless (log_commands [e]) →
  let n := samples_of [e] in
  filled_up e ∧ streamed [e] = pcm (stream sinf powf n (position (device s)))
  ∧ position (device s') = after sinf powf n (position (device s)).
Proof using All.
  intros H Hharm. unfold log_commands in Hharm. destruct H as [| | | | |q a s c _ _|q c buffer sup h h' _ _ _ _ Hrun _|q c data buffer sup h h' _ _ _ Hrun _
    |q c data pks u h h' _ _ _ Hrec _|q c data pks u acts payload h h1 h2 h' _ Hof Hu _ Hrec Hh2 Hl2 Hd2 Hex _
    |q1 q2 u acts payload h h' Hiso Hu _ Hh Hex _]; cbn [omap list_omap device] in *; try done.
  - apply Forall_cons in Hharm as [Hset _]. split; [done|]. split; [done|]. by eapply request_position.
  - apply Forall_cons in Hharm as [Hset _]. split; [done|]. split; [done|]. by eapply send_position.
  - apply received_nothing in Hrec as ->. done.
  - apply received_nothing in Hrec as ->. destruct Hof as [_ _ _ _ Hiso _ _ Hpks]. rewrite <-Hpks in Hex. rewrite <-Hd2.
    unfold samples_of, streamed. cbn [omap list_omap concat sum_list sum_list_with]. rewrite app_nil_r, Nat.add_0_r.
    by apply iso_exchange_records.
  - unfold samples_of, streamed. cbn [omap list_omap concat sum_list sum_list_with]. rewrite app_nil_r, Nat.add_0_r. by apply iso_exchange_records.
Qed.

Lemma trace_records s log s' :
  pipe_trace inv (audio_device sinf powf) s log s' → Forall harmless (log_commands log) →
  Forall filled_up log ∧ streamed log = pcm (stream sinf powf (samples_of log) (position (device s)))
  ∧ position (device s') = after sinf powf (samples_of log) (position (device s)).
Proof using All.
  induction 1 as [s|s e s1 log s' H _ IH]; intros Hharm; [done|].
  change (e :: log) with ([e] ++ log) in *. rewrite log_commands_app in Hharm. apply Forall_app in Hharm as [He Hharm].
  destruct (step_records _ _ _ H He) as (F1 & S1 & P1), (IH Hharm) as (F2 & S2 & P2).
  rewrite samples_of_app, streamed_app.
  split; [by constructor|]. rewrite S1, S2, P2, P1, stream_app, after_add. unfold pcm. by rewrite bind_app.
Qed.

(** The client's choice reaches the device. *)
Lemma choose_step seqnum alternate data supported s s' :
  is_byte alternate → pipe_step inv (audio_device sinf powf) s (Delivered (choose_interface seqnum alternate) data supported) s' →
  supported = true ∧ data = [] ∧ position (device s') = recording_start alternate (device s).
Proof using All.
  intros Ha H. inversion H as [| | | | | | |q c data' buffer sup h h' Hh _ Ht Hrun _ E1 E2 E3| | |]; subst. cbn [device].
  destruct (set_interface_step sinf powf alternate buffer h Hh Ha) as (h1 & H1 & _ & [_ Hp] & _).
  unfold hand_over in Hrun. cbn [in_ep in_length in_setup choose_interface Z.eqb] in Hrun. rewrite H1 in Hrun. by injection Hrun as <- <-.
Qed.

(** C7: from the microphone to the wire: a client of the audio input device, from its
    connection on, chooses an alternate setting of the streaming interface and records, with
    isochronous transfers of any numbers and sizes of packets, submitted at any moments and
    partly unlinked, while it sends any requests but another SET_INTERFACE. Each packet it
    gets is as full as its length and the space of the transfer allow, and the data of its
    replies, in the order in which it receives them, is the stream of the synthesiser
    without a gap or a repetition, from the first sample on when the setting was a new one;
    every transfer is answered, unlinked or still pending, once, and it is pending only
    because its packets take longer. *)
Theorem client_records_the_stream p fd rx' tx' busid script1 seqnum alternate script2 rest more t :
  let c := choose_interface seqnum alternate in
  let script := script1 ++ Sends (CmdSend c []) :: script2 in
  process_ok inv p → undisturbed p → accepting fd rx' tx' ((poll_of <$> script) ++ more) p →
  Tcpip.stream rx' = (op_req_wire OP_REQ_IMPORT ++ busid) ++ concat (sent_by <$> script) ++ rest → blen busid = 32 →
  load_endpoints usb_audio_configuration = Val t → Forall (command_ok t) (session_commands script) →
  is_byte alternate → Forall harmless (session_commands script2) →
  ∃ p' log1 log2 s s1, let log := log1 ++ Delivered c [] true :: log2 in
    worker (audio_device sinf powf) (2 + length script) p = Ok tt p'
    ∧ sent (w_net (p_world p')) = sent (w_net (p_world p)) ++ import_wire (audio_device sinf powf) ++ concat (event_wire <$> log)
    ∧ log_commands log1 = session_commands script1 ∧ log_commands log2 = session_commands script2
    ∧ waiting s = [] ∧ pipe_trace inv (audio_device sinf powf) s log1 s1
    ∧ streamed log2 = pcm (stream sinf powf (samples_of log2) (recording_start alternate (device s1)))
    ∧ Forall filled_up log2
    ∧ log_queued log ≡ₚ log_completed log ++ log_unlinked log ++ live (w_proto (p_world p'))
    ∧ all_served (p_world p').
Proof using All.
  intros c script Hok Hun Hacc Hst Hb Ht Hcmds Ha Hharm.
  destruct (client_session inv (audio_device sinf powf) p fd rx' tx' busid script rest more t)
    as (p' & log & H & [_ Hs (s & Hwait & T) C _ _ Hacct Hall]); [done..|].
  assert (session_commands script = session_commands script1 ++ CmdSend c [] :: session_commands script2) as Hscript
    by (unfold session_commands, script; by rewrite omap_app).
  rewrite Hscript in C. apply log_commands_split in C as (log1 & e & log2 & -> & C1 & Ce & C2).
  apply pipe_trace_split in T as (s1 & s2 & T1 & Te & T2).
  assert (∃ supported, e = Delivered c [] supported) as [supported ->].
  { destruct e; unfold log_commands in Ce; cbn [omap list_omap] in Ce; try discriminate. injection Ce as -> ->. eauto. }
  destruct (choose_step _ _ _ _ _ _ Ha Te) as (-> & _ & Hstart).
  destruct (trace_records _ _ _ T2) as (F & S & _); [by rewrite C2|]. rewrite Hstart in S.
  exists p', log1, log2, s, s1. do 9 (split; [done|]). apply Hall. unfold script. by destruct script1.
Qed.
End recording.

(** ** Witness: the client gets the device descriptor, chooses the setting and records two packets *)

Definition record_packets (seqnum : Z) : command :=
  CmdStream {| in_seqnum := seqnum; in_devid := 1; in_direction := 1; in_ep := 1; in_flags := 0; in_length := 192;
               in_start_frame := 0; in_packets := 2; in_interval := 1; in_setup := replicate 8 0 |} []
    [({| pk_offset := 0; pk_length := 96 |}, (0, 0)); ({| pk_offset := 96; pk_length := 96 |}, (0, 0))].

Definition before_recording : list turn := [Sends (get_device_descriptor 1)].
Definition recording : list turn := [Sends (record_packets 3); Sends (record_packets 4); Quiet true].
Definition recorder_script : list turn := before_recording ++ Sends (CmdSend (choose_interface 2 1) []) :: recording.

Definition recorder_input : bytes :=
  (op_req_wire OP_REQ_IMPORT ++ replicate 32 0) ++ concat (sent_by <$> recorder_script) ++ [].

Definition recorder_rx : list rx_event := [RxData (take 90 recorder_input); RxAgain; RxData (drop 90 recorder_input)].

(** A second passes between two readings of the clock. *)
Definition recorder_host : host state :=
  {| dev := initial_state; lib := initial_device_state;
     clk := {| readings := (λ s, {| tv_sec := s; tv_nsec := 0 |}) <$> [1; 2; 3; 4; 5; 6]; last_reading := {| tv_sec := 0; tv_nsec := 0 |} |} |}.

Definition recorder_process : process state :=
  {| p_world := {| w_host := recorder_host; w_proto := initial_proto; others := [];
                   w_net := Build_net 3 (-1) false [] [] []
                     [AcceptFd 5 recorder_rx [TxAccept 7] ((poll_of <$> recorder_script) ++ [])] [] [] |};
     keep_running := 3; panic_counter := 0; handler_installed := true; worker_at := Outer;
     worker_flags := other_thread; exited := false; arrivals := [] |}.

Lemma recorder_process_ok : process_ok inv recorder_process.
Proof.
  constructor; [|by cbn|by left]. constructor; [|split; [constructor|]|apply initial_proto_ok|constructor].
  - split; [split; [split; [done|split; [done|exact phase_ok_zero]]|apply wf_initial_device_state]|done].
  - constructor; [|constructor]. unfold recorder_rx. repeat constructor; try exact I;
      apply (bool_decide_eq_true_1 _); vm_compute; reflexivity.
Qed.

Lemma recorder_commands_ok t e :
  table_lookup t (key_of 1 1) = Some e → ep_type e = USB_ENDPOINT_XFER_ISOC →
  Forall (command_ok t) (session_commands recorder_script).
Proof.
  intros He Hty. assert (∀ n, is_u32 n → command_ok t (record_packets n)) as Hr.
  { intros n Hn. split; [by split_and!|]. exists e. constructor; try done. repeat constructor; discriminate. }
  constructor; [apply in_command_ok; try done; by left|].
  constructor; [split; [by split_and!|split; [done|split; [done|by left]]]|]. by repeat (constructor; [by apply Hr|]).
Qed.

Lemma client_records_the_stream_witness :
  ∃ p' log2 s1, worker (audio_device square top) 7 recorder_process = Ok tt p'
    ∧ log_commands log2 = [record_packets 3; record_packets 4]
    ∧ streamed log2 = pcm (stream square top (samples_of log2) (recording_start 1 (device s1))).
Proof.
  destruct (load_endpoints usb_audio_configuration) as [t|f] eqn:Ht; [|discriminate Ht].
  destruct (client_records_the_stream square top recorder_process 5 recorder_rx [TxAccept 7] (replicate 32 0)
    before_recording 2 1 recording [] [] t) as (p' & log1 & log2 & s & s1 & H1 & _ & _ & H2 & _ & _ & H3 & _).
  - exact recorder_process_ok.
  - constructor; reflexivity.
  - split; [reflexivity|]. split; [reflexivity|]. split; [by repeat constructor|]. by eexists.
  - vm_compute. reflexivity.
  - reflexivity.
  - exact Ht.
  - injection Ht as <-. eapply recorder_commands_ok; [vm_compute; reflexivity|reflexivity].
  - split; [discriminate|reflexivity].
  - repeat constructor.
  - exists p', log2, s1. split; [exact H1|]. split; [exact H2|exact H3].
Defined.
