(* ===== verification/Examples.v ===== *)
(** * The example programs

    Each example as a program: its device, its initial variables and its soundness, run by
    the server from [usbip_server_start] on, against any client and for a client that
    keeps to the protocol. *)
From S2P Require Import Prelude WireFormat DeviceStore Descriptors Host BulkDevice Control Silent Tcpip ConfigWalk Protocol ProtocolSafety Completion ProtocolEntry StreamEntry Rounds Pipes Session Server Client KeyboardDevice CdcDevice MouseDevice Float Float32 AudioSynth AudioDevice GudDevice GudDisplay.

Record program := {
  variables : Type;
  device : usbip_device_t variables;
  initial : variables;
  valid : variables → Prop;
  sound : DeviceSound valid device;
  silent : SilentDevice device;
  initial_valid : valid initial;
}.

(** [sinf] and [powf] are those of the C library, for the audio input device. *)
Definition examples (sinf : f32 → f32) (powf : f32 → f32 → f32) `{!Synth.LibmRange sinf powf} : list program := [
  {| device := Bulk.bulk_device; sound := Bulk.bulk_sound; silent := bulk_silent; initial_valid := Bulk.inv_initial_state |};
  {| device := Cdc.cdc_device; sound := Cdc.cdc_sound; silent := Cdc.cdc_silent; initial_valid := Cdc.cdc_inv_initial |};
  {| device := Keyboard.keyboard_device; initial := Keyboard.initial_state; sound := Keyboard.keyboard_sound; silent := Keyboard.keyboard_silent; initial_valid := I |};
  {| device := Mouse.mouse_device; initial := tt; sound := Mouse.mouse_sound; silent := Mouse.mouse_silent; initial_valid := I |};
  {| device := Audio.audio_device sinf powf; initial := Audio.initial_state; sound := Audio.audio_sound sinf powf; silent := Audio.audio_silent sinf powf;
     initial_valid := Audio.audio_inv_initial |};
  {| device := Gud.gud_display_device; sound := gud_sound; silent := gud_silent; initial_valid := gud_inv_initial |} ].

(** The outside of a process: the clients and the network, what other threads transmit, the
    clock, when signals and the stop arrive, the results of the calls at the start. *)
Record surroundings := {
  network : net;
  transmits : list (list transmit_call);
  time : clock;
  signals : list (list arrival);
  calls : start_results;
}.

Definition surroundings_ok (e : surroundings) : Prop := net_ok (network e) ∧ Forall (Forall call_ok) (transmits e).

(** The process as the program begins. *)
Definition begin (p : program) (e : surroundings) : process (variables p) := {|
  p_world := {| w_host := {| dev := initial p; lib := initial_device_state; clk := time e |};
                w_net := network e; w_proto := initial_proto; others := transmits e |};
  keep_running := 3; panic_counter := 0; handler_installed := false; worker_at := NotStarted;
  worker_flags := other_thread; exited := false; arrivals := signals e |}.

(** [usbip_server_start], then [rounds] iterations of the worker thread if there is one. *)
Definition serve (p : program) (e : surroundings) (rounds : nat) : M (process (variables p)) bool :=
  let* ok := usbip_server_start (calls e) in
  if ok then worker (device p) rounds;; ret true else ret false.

(** * Theorems *)

Lemma begin_ok p e : surroundings_ok e → process_ok (valid p) (begin p e).
Proof.
  intros [Hn Ho]. constructor.
  - constructor; [|done|apply initial_proto_ok|done]. split; [|done]. split; [apply initial_valid|apply wf_initial_device_state].
  - cbn. lia.
  - done.
Qed.

Lemma serve_ok p e rounds :
  surroundings_ok e →
  wp (serve p e rounds) (λ _, process_ok (valid p)) (λ p', process_ok (valid p) p' ∨ exited p' = true) (begin p e).
Proof.
  intros He. pose proof (sound p) as Hd. unfold serve.
  destruct (usbip_server_start_spec (valid p) (calls e) (begin p e)) as (ok & p1 & H1 & Hp1 & _); [by apply begin_ok|done|].
  apply wp_bind. unfold wp at 1. rewrite H1. destruct ok; [|by apply wp_ret].
  apply wp_bind. eapply wp_post; [by apply worker_wp|]. intros [] p2 Hp2. by apply wp_ret.
Qed.

(** C37: every example program, run against every client: from its start on, whatever the
    system calls return, whatever bytes the clients send and however the connections fail,
    none of them ever faults, and its device's variables and the library's stay valid
    after any number of iterations of the server. *)
Theorem examples_survive_every_client sinf powf `{!Synth.LibmRange sinf powf} e rounds :
  surroundings_ok e →
  Forall (λ p, match serve p e rounds (begin p e) with
               | Ok _ p' => process_ok (valid p) p'
               | Idle p' => process_ok (valid p) p' ∨ exited p' = true
               | Fault _ => False
               end) (examples sinf powf).
Proof. intros He. apply Forall_forall. intros p _. by apply serve_ok. Qed.

(** The configuration of each example, descriptor by descriptor. *)
Definition descriptors (p : program) : list bytes :=
  default [] (split_descs (length (config_desc (device p))) (config_desc (device p))).

(** Each example is listed as the protocol documentation asks: none has an alternate setting
    before its last interface, which [devlist_request_is_answered] requires. *)
Theorem examples_are_listed sinf powf `{!Synth.LibmRange sinf powf} :
  Forall (λ p, config_desc (device p) = concat (descriptors p) ∧ wf_config (descriptors p) ∧ interfaces_first (descriptors p))
    (examples sinf powf).
Proof.
  repeat (apply Forall_cons; split;
    [split; [vm_compute; reflexivity|split; [apply wf_config_check|apply interfaces_firstb_sound]; vm_compute; reflexivity]|]).
  constructor.
Qed.

(** The calls of [usbip_server_start] succeed and nobody stops the server. *)
Record runs_undisturbed (e : surroundings) : Prop := {
  event_fd_created : 0 ≤ eventfd_result (calls e);
  socket_created : 0 ≤ socket_result (open_result (calls e));
  address_valid : inet_pton_ok (open_result (calls e)) = true;
  address_bound : 0 ≤ bind_result (open_result (calls e));
  socket_listens : 0 ≤ listen_result (open_result (calls e));
  thread_created : pthread_create_result (calls e) = 0;
  no_signals : signals e = [];
  not_stopped : stop_server (network e) = false;
}.

(** The server thread reaches the loop that accepts clients. *)
Lemma reaches_the_loop p e :
  surroundings_ok e → runs_undisturbed e →
  ∃ p1 p2, usbip_server_start (calls e) (begin p e) = Ok true p1 ∧ worker (device p) 1 p1 = Ok tt p2
    ∧ process_ok (valid p) p2 ∧ undisturbed p2 ∧ worker_at p2 = Outer
    ∧ accepts (w_net (p_world p2)) = accepts (network e) ∧ sent (w_net (p_world p2)) = sent (network e)
    ∧ others (p_world p2) = transmits e.
Proof.
  intros He Hr. pose proof (sound p) as Hd.
  destruct (usbip_server_start_spec (valid p) (calls e) (begin p e)) as (ok & p1 & H1 & Hp1 & _); [by apply begin_ok|done|].
  pose proof (worker_wp (valid p) (device p) 1 p1 Hp1) as H2. revert H1. destruct Hr.
  unfold usbip_server_start, tcpip_server_open, usbip_device_init. cbn.
  rewrite bool_decide_true by done. cbn. rewrite address_valid0, !(proj2 (Z.ltb_ge _ _)), thread_created0 by done. cbn.
  intros [= <- <-]. eexists _, _. split; [done|]. split; [done|]. split; [exact H2|]. by split_and!.
Qed.

(** C5: every example program serves its client: once [usbip_server_start] has succeeded, a
    client that connects first and keeps to the protocol - it imports the device and then sends
    the control requests, OUT data, bulk, interrupt and isochronous transfers and unlinks that
    the configuration of this example allows - gets the answer to the import and then the
    replies of a run of the device's pipes, with nothing lost, invented or delayed, for each of
    the six examples. *)
Theorem examples_serve_their_clients sinf powf `{!Synth.LibmRange sinf powf} e fd rx' tx' busid script rest more later :
  surroundings_ok e → runs_undisturbed e →
  accepts (network e) = AcceptFd fd rx' tx' ((poll_of <$> script) ++ more) :: later → 0 < fd → tx_clean tx' →
  stream rx' = (op_req_wire OP_REQ_IMPORT ++ busid) ++ concat (sent_by <$> script) ++ rest → blen busid = 32 →
  Forall (λ p, ∃ t, load_endpoints (config_desc (device p)) = Val t
    ∧ (Forall (command_ok t) (session_commands script) →
       ∃ p' log, serve p e (3 + length script) (begin p e) = Ok true p'
         ∧ served (valid p) (device p) script (transmits e) (sent (network e)) log p')) (examples sinf powf).
Proof.
  intros He Hr Hacc Hfd Htx Hst Hb. apply Forall_forall. intros p _. pose proof (sound p) as Hd. pose proof (silent p) as Hsil.
  destruct (sound_total (valid p) (device p)) as (ds & Hcfg & Hwf & _). exists (endpoints_of ds).
  assert (load_endpoints (config_desc (device p)) = Val (endpoints_of ds)) as Ht by (by rewrite Hcfg, load_endpoints_eq).
  split; [exact Ht|]. intros Hcmds.
  destruct (reaches_the_loop p e He Hr) as (p1 & p2 & H1 & H2 & Hok & Hun & Hpc & Ha & Hs & Ho).
  destruct (client_session (valid p) (device p) p2 fd rx' tx' busid script rest more (endpoints_of ds))
    as (p3 & log & H3 & Hserved); [done|done| |done..|].
  { split; [done|]. split; [done|]. split; [done|]. exists later. by rewrite Ha. }
  assert (worker (device p) (1 + (2 + length script)) p1 = Ok tt p3) as Hw by (rewrite worker_app; unfold bind; by rewrite H2).
  exists p3, log. rewrite Ho, Hs in Hserved. split; [|done]. unfold serve, bind. rewrite H1.
  change (3 + length script)%nat with (1 + (2 + length script))%nat. by rewrite Hw.
Qed.

(** The clients of the bulk device, and Ctrl-C. *)
Definition some_surroundings : surroundings := {|
  network := Build_net (-1) (-1) false [] [] [] bulk_clients [] [];
  transmits := [];
  time := {| readings := []; last_reading := {| tv_sec := 7; tv_nsec := 0 |} |};
  signals := [[]; []; [CtrlC]; []; []; []; []; [CtrlC; CtrlC]];
  calls := {| eventfd_result := 4; pthread_create_result := 0;
              open_result := {| socket_result := 3; inet_pton_ok := true; bind_result := 0; listen_result := 0 |} |} |}.

Lemma examples_survive_every_client_witness :
  Forall (λ p, match serve p some_surroundings 20 (begin p some_surroundings) with
               | Ok _ p' => process_ok (valid p) p'
               | Idle p' => process_ok (valid p) p' ∨ exited p' = true
               | Fault _ => False
               end) (examples Audio.square Audio.top).
Proof.
  apply (examples_survive_every_client Audio.square Audio.top some_surroundings 20). split; [|constructor]. split; [constructor|].
  repeat constructor; try exact I; cbn; apply (bool_decide_eq_true_1 _); vm_compute; reflexivity.
Defined.

(** A client that gets the descriptor of whichever device it is and configures it; the device is woken
    once in between. *)
Definition any_script : list turn := [Sends (get_device_descriptor 1); Quiet false; Sends (set_configuration 2); Quiet true].

Definition any_input : bytes := (op_req_wire OP_REQ_IMPORT ++ replicate 32 0) ++ concat (sent_by <$> any_script) ++ [].

Definition any_rx : list rx_event := [RxData (take 7 any_input); RxAgain; RxData (drop 7 any_input)].

Definition one_client : surroundings := {|
  network := Build_net (-1) (-1) false [] [] []
    [AcceptFd 5 any_rx [TxAccept 3] ((poll_of <$> any_script) ++ [])] [] [];
  transmits := [];
  time := time some_surroundings;
  signals := [];
  calls := calls some_surroundings |}.

Lemma examples_serve_their_clients_witness :
  Forall (λ p, ∃ p' log, serve p one_client 7 (begin p one_client) = Ok true p'
    ∧ served (valid p) (device p) any_script [] [] log p') (examples Audio.square Audio.top).
Proof.
  assert (∀ t, Forall (command_ok t) (session_commands any_script)) as Hcmds.
  { intros t. constructor; [apply in_command_ok; try done; by left|]. constructor; [apply out_command_ok; try done; by left|constructor]. }
  eapply Forall_impl; [apply (examples_serve_their_clients Audio.square Audio.top one_client 5 any_rx [TxAccept 3] (replicate 32 0) any_script [] [] [])|].
  - split; [|constructor]. split; [constructor|]. constructor; [|constructor].
    repeat constructor; try exact I; apply (bool_decide_eq_true_1 _); vm_compute; reflexivity.
  - by constructor.
  - reflexivity.
  - reflexivity.
  - by repeat constructor.
  - vm_compute. reflexivity.
  - reflexivity.
  - intros p (t & _ & H). exact (H (Hcmds t)).
Defined.
